(* ===== verification/_CoqProject ===== *)
-Q . S2P
Prelude.v
Conc.v
State.v
Counters.v
Report.v
Layout.v
Startup.v
Rng.v
Pin.v
Deque.v
Runtime.v
Tasks.v
TaskMacros.v
TaskMacros14.v
Program.v
Barrier.v
Invariant.v
Steps.v
Scheduler.v
Neutral.v
StealProofs.v
OwnerRules.v
ShrinkProofs.v
TaskProofs.v
SpawnProofs.v
SyncProofs.v
LeapProofs.v
HeadProofs.v
WaitFree.v
RunProofs.v
Semantics.v
Solo.v
SoloTasks.v
Drive.v
Lifecycle.v
Completion.v
Effects.v
Protocol.v
Shutdown.v
ForkJoin.v
Demo.v
Contracts.v
Findings.v
Correctness.v
