(* ===== verification/Prelude.v ===== *)
(** * Verification of Lace, a work-stealing framework

    Lace (src/src/lace.h, src/src/lace.c) runs fork-join programs on a fixed number of worker
    threads.  A task spawns subtasks on the deque of its worker and syncs them in last-in
    first-out order; idle workers steal from the other end.  The deque has a shared part,
    between [tail] and [split], from which thieves take tasks with one compare-and-swap, and
    a private part above [split] that the owner uses without synchronisation.  A worker that
    waits for a stolen task leapfrogs: it steals back from the thief.  Client threads start
    and stop the workers, suspend and resume them, and hand them external tasks.
    src/src/lace14.h is the same header for tasks with up to 14 arguments, src/src/lace14.c
    the same text as lace.c with that header.

    ** The model

    - Prelude.v: fixed-width integers, functions as memories, counting; generic lemmas.
    - Conc.v: C code as an inductive type [code] (return, one atomic access, call, loop), the
      interleaving machine ([step], [reachable], executable schedulers), and a
      rely-guarantee logic with ghost state ([safe]) with its soundness proof.
    - State.v: the structs and globals of Lace as one shared memory [mem], and one event per
      kind of access to it, with its outcomes ([exec]) and when it is defined ([ev_valid]).
      A weak compare-and-swap may fail spuriously, a semaphore or mutex may block, an
      allocation may fail, and after [exit()] no thread runs.
    - Layout.v: sizes, offsets and padding of the structs, and the allocation sizes.
    - Counters.v, Report.v: the event counters, the pie times, and the printed report.
    - Startup.v: the settings and how [lace_start] uses them.
    - Rng.v: random numbers, the 16-bit number of a worker, and the choice of a victim.
    - Pin.v: pinning workers with hwloc, whose functions are parameters.
    - Deque.v: [lace_steal], [lace_shrink_shared], [lace_make_all_shared] of lace.h.
    - Runtime.v: the functions of lace.c: [lace_get_head], the barrier, suspending and
      resuming, external tasks, new frames, the steal loop, starting and stopping.
    - Tasks.v: [lace_leapfrog], [lace_drop] and the templates [NAME##_SPAWN], [NAME##_SYNC], ...
      of lace.sh, the script that writes the two headers, for any number of arguments.
    - TaskMacros.v, TaskMacros14.v: every [TASK_DECL_n], [TASK_IMPL_n] and their [VOID_]
      variants of lace.h and lace14.h, each from its own text ([TASK_n] is one of each).
    - Program.v: the bodies of client tasks ([uprog]), the macros [SPAWN(f, ...)], [SYNC(f)],
      ... they use, the function table behind [t->f] and [NAME##_CALL], and the machine with
      [n_workers] workers and any number of clients.  The machine runs the definitions of
      TaskMacros.v or TaskMacros14.v, whichever header the configuration names
      ([lace_header]); that they are instances of the templates is proved and is how the
      theorems reach them, so all results about programs are about the macros.
    - Semantics.v: what a program computes sequentially, as a relation ([Returns]) and as an
      evaluator ([eval]), and client threads ([cprog]).

    Definitions have the names of the C functions; [gen_X] is the template of [NAME##_X].  A
    [Worker*] is the number of the worker, a [Task*] is a deque slot or a local variable.

    ** What is proved

    - The scheduler (Invariant.v, Steps.v, Scheduler.v, Neutral.v, StealProofs.v,
      OwnerRules.v, ShrinkProofs.v, TaskProofs.v, SpawnProofs.v, SyncProofs.v, LeapProofs.v,
      HeadProofs.v, RunProofs.v, ForkJoin.v): the invariant that ties the deques to ghost
      state that says which tasks are live and who has them, and that every function keeps
      it under all interference.  Correctness.v states the consequences: clients get the
      results of the sequential semantics ([fork_join_correct], [parallel_equals_sequential]),
      no access is invalid ([no_invalid_access]), and what thieves can read is a complete
      task ([shared_part_valid]).  Contracts.v states what each operation does for its caller.
    - Starting, suspending and stopping (Protocol.v, Shutdown.v): a second instance of the
      logic for the flags of the protocol, on the whole program, NEWFRAME and TOGETHER
      included: [no_use_after_free], [suspend_blocks_workers], [task_words_typed] and
      [running_in_range].  Effects.v shows, for any set of variables, that code that does not
      mention them leaves them alone; it takes care of everything outside the protocol.
    - Progress (Solo.v, SoloTasks.v, Drive.v, Lifecycle.v, Completion.v): a total-correctness
      logic that constructs executions; [clients_complete] shows that clients that take turns
      can run to their end with the right results.  WaitFree.v bounds the steps of the
      operations of the owner and of [lace_get_head] in every execution.
    - The barrier (Barrier.v), for any number of rounds, and the range of its counters.
    - The sequential parts: where structs and deques lie (Layout.v), what [lace_start] makes of
      its arguments (Startup.v), which victims are chosen, also when the number of a worker
      does not fit (Rng.v), how workers are pinned (Pin.v), the pie times and the reset and
      totals of the counters (Counters.v), the report (Report.v).
    - Findings.v: executions in which the code does not do what it means to.  They mark the
      limits of the theorems above.  That a lost external task is never run is proved of all
      continuations, with the logic of Conc.v and the effects of Effects.v.

    Demo.v has a concrete program (Fibonacci on two workers) on which the theorems are used.

    ** Assumptions and bounds

    [CfgOk] (Scheduler.v): deques have at least 4 and less than 2^31 slots, there are at most
    2^16 workers (their numbers are stored in 16 bits), the arguments of every task fit in its
    data area, and the header has macros for that many of them.  The scheduler theorems are
    about clients without NEWFRAME and TOGETHER whose tasks sync or drop everything they
    spawn, and that do not use RUN inside tasks when they use DROP
    ([client_ok]); the shutdown theorems are about one client thread that follows the
    documented order of calls ([follows]) and tasks that do not make up addresses of the
    flags of Lace ([client_words]).  Loops are part of [code] and need no fuel; fuel appears
    in the evaluators of Semantics.v and SoloTasks.v, where any amount that gives a value
    will do, in the schedules of Demo.v, Findings.v and Correctness.v, which are long enough
    for the runs they show, and in [count_pus] of Pin.v, where more than the number of
    processing units of the core is enough.

    ** Not modelled

    - Weak memory: every shared access is sequentially consistent, whatever its memory order.
    - Machine-level details of the platform: [lace_get_pu_count] and the stack limit are
      arguments, hwloc is a parameter, [gethrtime()] is an argument, messages are values.
    - The control flow of the shell script lace.sh; its templates and what it has written,
      the two headers, are modelled.
    - Starting Lace again after [lace_stop]: the threads of the machine are the workers of one
      [lace_start].  A second one creates no new workers, so the theorems say nothing useful
      about clients that call it again; those about shutdown exclude them ([follows]).
    - The width of the atomic [int] and [unsigned int] variables that are only counted up and
      down: [barrier_counters_bounded] and [running_in_range] show that the counters of the
      barrier and of the running workers stay between 0 and the number of workers;
      [lace_awaken_count] and [external_task_counter] count the calls of clients that are in
      progress, and 2^31 of them at the same time are out of scope.
    - The results of NEWFRAME and TOGETHER: the functions are modelled and covered by the
      shutdown theorems, but Findings.v shows that their arguments can be overwritten and a
      null pointer read, so there is no result theorem.
    - Fairness: [clients_complete] gives one execution, not a bound on all of them, and
      Findings.v shows an execution in which one of two simultaneous clients waits forever. *)

From stdpp Require Export base functions list gmap fin_maps.
From Stdlib Require Export ZArith Lia.
From Stdlib Require Import FunctionalExtensionality.

#[global] Set Default Goal Selector "!".

(** ** Fixed-width integers

    C's unsigned integers are modelled as [Z] with the wrap-around written out. *)

#[global] Open Scope Z_scope.

Definition wrap (bits x : Z) : Z := x mod 2 ^ bits.
Abbreviation u16 := (wrap 16).
Abbreviation u32 := (wrap 32).
Abbreviation u64 := (wrap 64).

Lemma wrap_id bits x : 0 <= x < 2 ^ bits -> wrap bits x = x.
Proof. intros H. unfold wrap. by apply Z.mod_small. Qed.

Lemma wrap_range bits x : 0 <= bits -> 0 <= wrap bits x < 2 ^ bits.
Proof. intros H. unfold wrap. apply Z.mod_pos_bound. by apply Z.pow_pos_nonneg. Qed.

Lemma wrap_wrap bits x : 0 <= bits -> wrap bits (wrap bits x) = wrap bits x.
Proof. intros H. apply wrap_id. by apply wrap_range. Qed.

(** Wrapped values differ from the exact ones by multiples of the modulus. *)
Lemma wrap_exact bits x : exists q, wrap bits x = x + q * 2 ^ bits.
Proof.
  exists (- (x / 2 ^ bits)). unfold wrap. destruct (decide (2 ^ bits = 0)) as [->|H].
  - rewrite Z.mod_0_r. lia.
  - pose proof (Z.div_mod x (2 ^ bits) H). lia.
Qed.

Lemma wrap_cong bits x y : 0 <= bits -> (exists q, x = y + q * 2 ^ bits) -> wrap bits x = wrap bits y.
Proof. intros Hb [q ->]. unfold wrap. apply Z.mod_add. pose proof (Z.pow_pos_nonneg 2 bits). lia. Qed.

(** ** Lists whose length and indices are in [Z] *)

Definition zlen {A} (l : list A) : Z := Z.of_nat (length l).

Lemma zlen_nonneg {A} (l : list A) : 0 <= zlen l.
Proof. unfold zlen. lia. Qed.

Lemma zlen_app {A} (l l' : list A) : zlen (l ++ l') = zlen l + zlen l'.
Proof. unfold zlen. rewrite length_app. lia. Qed.

Lemma zlen_fmap {A B} (f : A -> B) (l : list A) : zlen (f <$> l) = zlen l.
Proof. unfold zlen. by rewrite length_fmap. Qed.

(** ** Memories are functions that are updated at one address *)

(** Case analysis on the address of a function update. *)
Ltac case_insert :=
  match goal with
  | |- context [<[?a := ?x]> ?f ?b] =>
      destruct (decide (a = b)) as [?|?];
      [subst; rewrite (fn_lookup_insert f) in *
      |rewrite (fn_lookup_insert_ne f) in * by done]
  | H : context [<[?a := ?x]> ?f ?b] |- _ =>
      destruct (decide (a = b)) as [?|?];
      [subst; rewrite (fn_lookup_insert f) in *
      |rewrite (fn_lookup_insert_ne f) in * by done]
  end.

Lemma fn_insert_twice {A B} `{EqDecision A} (f : A -> B) a x y : <[a := x]> (<[a := y]> f) = <[a := x]> f.
Proof.
  extensionality b. destruct (decide (a = b)) as [<-|Hne].
  - by rewrite !fn_lookup_insert.
  - by rewrite !fn_lookup_insert_ne.
Qed.

Lemma fn_insert_same {A B} `{EqDecision A} (f : A -> B) a : <[a := f a]> f = f.
Proof.
  extensionality b. destruct (decide (a = b)) as [<-|Hne]; [by rewrite fn_lookup_insert|by rewrite fn_lookup_insert_ne].
Qed.

(** ** Counting the workers with a property *)

Fixpoint countb (f : nat -> bool) (n : nat) : Z :=
  match n with O => 0 | S n' => countb f n' + (if f n' then 1 else 0) end.

Lemma countb_ext f g n : (forall i, (i < n)%nat -> f i = g i) -> countb f n = countb g n.
Proof. induction n as [|n IH]; intros H; simpl; [done|]. rewrite IH, (H n) by (intros; auto). done. Qed.

Lemma countb_range f n : 0 <= countb f n <= Z.of_nat n.
Proof. induction n as [|n IH]; simpl; [lia|]. destruct (f n); lia. Qed.

Lemma countb_set f g t n :
  (t < n)%nat -> f t = false -> g t = true -> (forall i, (i < n)%nat -> i <> t -> g i = f i) ->
  countb g n = countb f n + 1.
Proof.
  induction n as [|n IH]; intros Ht Hf Hg H; [lia|]. simpl. destruct (decide (t = n)) as [<-|Hne].
  - rewrite Hf, Hg, (countb_ext g f t) by (intros i Hi; apply H; lia). lia.
  - rewrite IH, (H n) by (lia || intros; done || (intros; apply H; lia)). lia.
Qed.

Lemma countb_none f n : (forall i, (i < n)%nat -> f i = false) -> countb f n = 0.
Proof. induction n as [|n IH]; intros H; simpl; [done|]. rewrite IH, H by (intros; auto). done. Qed.

Lemma countb_all f n : countb f n = Z.of_nat n <-> forall i, (i < n)%nat -> f i = true.
Proof.
  induction n as [|n IH]; simpl; [split; [lia|done]|]. pose proof (countb_range f n). split.
  - intros H1 i Hi. destruct (f n) eqn:Hn; [|lia]. destruct (decide (i = n)) as [->|]; [done|].
    apply (proj1 IH); lia.
  - intros H1. rewrite (proj2 IH) by (intros; apply H1; lia). rewrite H1 by lia. lia.
Qed.

Lemma countb_insert {A} (f : A -> bool) (g : nat -> A) t w n :
  (t < n)%nat ->
  countb (fun i => f (<[t := w]> g i)) n = countb (fun i => f (g i)) n + Z.b2z (f w) - Z.b2z (f (g t)).
Proof.
  induction n as [|n IH]; intros Ht; [lia|]. simpl. destruct (decide (t = n)) as [->|Hne].
  - rewrite fn_lookup_insert, (countb_ext _ (fun i => f (g i)) n) by (intros i Hi; rewrite fn_lookup_insert_ne by lia; done).
    destruct (f w), (f (g n)); simpl; lia.
  - rewrite IH, fn_lookup_insert_ne by lia. lia.
Qed.

Lemma countb_zero f n : countb f n = 0 -> forall i, (i < n)%nat -> f i = false.
Proof.
  induction n as [|n IH]; simpl; intros H i Hi; [lia|]. pose proof (countb_range f n).
  destruct (f n) eqn:Hn; [lia|]. destruct (decide (i = n)) as [->|]; [done|]. apply IH; lia.
Qed.
