(* ===== verification/Conc.v ===== *)
(** * Concurrent C code as an executable monad, its interleaving semantics and
      a rely-guarantee logic for it. *)

From Stdlib Require Import FunctionalExtensionality.
From S2P Require Import Prelude.

(** ** The code of one thread

    [code A] is a C function body that returns an [A].  An [Act] is one atomic
    access to shared memory (a load, a store, a compare-and-swap, a semaphore
    operation ...), [Call] is a call through a function pointer or of another
    task, and [Iter] is a loop whose body either continues with a new loop state
    ([inl]) or leaves the loop with a result ([inr]).  Everything between two
    shared accesses is ordinary Rocq code. *)

Section Code.
Context {E : Type -> Type} {F V : Type}.

Inductive code (A : Type) : Type :=
| Ret (a : A)
| Act {R : Type} (e : E R) (k : R -> code A)
| Call (f : F) (k : V -> code A)
| Iter {S B : Type} (body : S -> code (S + B)) (s : S) (k : B -> code A).

Fixpoint bind {A B} (c : code A) (f : A -> code B) : code B :=
  match c with
  | Ret _ a => f a
  | Act _ e k => Act _ e (fun r => bind (k r) f)
  | Call _ g k => Call _ g (fun v => bind (k v) f)
  | Iter _ body s k => Iter _ body s (fun b => bind (k b) f)
  end.

(** One turn of a loop. *)
Definition unroll {A S B} (body : S -> code (S + B)) (s : S) (k : B -> code A) : code A :=
  bind (body s) (fun r => match r with inl s' => Iter _ body s' k | inr b => k b end).

Definition act {R} (e : E R) : code R := Act _ e (fun r => Ret _ r).
Definition call (f : F) : code V := Call _ f (fun v => Ret _ v).
Definition loop {S B} (s : S) (body : S -> code (S + B)) : code B :=
  Iter _ body s (fun b => Ret _ b).
End Code.

Arguments code E F V A : clear implicits.
Arguments Ret {E F V A} a.
Arguments Act {E F V A R} e k.
Arguments Call {E F V A} f k.
Arguments Iter {E F V A S B} body s k.

Declare Scope code_scope.
Delimit Scope code_scope with code.
Notation "x <- c ;; k" := (bind c (fun x => k))
  (at level 100, c at next level, right associativity) : code_scope.
Notation "c ;;; k" := (bind c (fun _ => k))
  (at level 100, right associativity) : code_scope.
#[global] Open Scope code_scope.

Lemma bind_ret_r {E F V A} (c : code E F V A) : bind c (fun a => Ret a) = c.
Proof. induction c; simpl; f_equal; try done; by extensionality x. Qed.

Lemma bind_assoc {E F V A B C} (c : code E F V A) (f : A -> code E F V B) (g : B -> code E F V C) :
  bind (bind c f) g = bind c (fun a => bind (f a) g).
Proof. induction c; simpl; f_equal; try done; by extensionality x. Qed.

(** ** Threads, the shared memory and their interleavings *)

Section Machine.
Context {E : Type -> Type} {F V M : Type}.
Variable exec : forall R, nat -> E R -> M -> list (R * M).
Variable body : F -> code E F V V.

(** A thread is the code it is running and the frames that wait for its result. *)
Record thread := Thread { cur : code E F V V; stk : list (V -> code E F V V) }.

Record config := Config { threads : list thread; memory : M }.

(** All the steps thread number [t] can take: none when it is blocked or done,
    several when the access is nondeterministic (a weak compare-and-swap). *)
Definition thread_step (t : nat) (th : thread) (m : M) : list (thread * M) :=
  match cur th with
  | Ret v => match stk th with
             | [] => []
             | k :: st => [(Thread (k v) st, m)]
             end
  | Act e k => map (fun rm => (Thread (k rm.1) (stk th), rm.2)) (exec _ t e m)
  | Call f k => [(Thread (body f) (k :: stk th), m)]
  | Iter b s k => [(Thread (unroll b s k) (stk th), m)]
  end.

Inductive step : config -> config -> Prop :=
| step_thread ths m t th th' m' :
    ths !! t = Some th ->
    (th', m') ∈ thread_step t th m ->
    step (Config ths m) (Config (<[t := th']> ths) m').

Definition reachable (c c' : config) : Prop := rtc step c c'.

Lemma reachable_trans c1 c2 c3 : reachable c1 c2 -> reachable c2 c3 -> reachable c1 c3.
Proof. unfold reachable. apply transitivity. Qed.

Lemma reachable_length c c' : reachable c c' -> length (threads c') = length (threads c).
Proof.
  intros Hr. induction Hr as [|c1 c2 c3 Hs Hr IH]; [done|]. rewrite IH. destruct Hs. simpl. apply length_insert.
Qed.

(** The executable scheduler: each entry picks a thread and one of its outcomes. *)
Definition sched1 (tc : nat * nat) (c : config) : option config :=
  th ← threads c !! tc.1;
  o ← thread_step tc.1 th (memory c) !! tc.2;
  Some (Config (<[tc.1 := o.1]> (threads c)) o.2).

Fixpoint sched (s : list (nat * nat)) (c : config) : option config :=
  match s with
  | [] => Some c
  | tc :: s' => c' ← sched1 tc c; sched s' c'
  end.

Lemma sched1_step tc c c' : sched1 tc c = Some c' -> step c c'.
Proof.
  destruct c as [ths m], tc as [t o]. unfold sched1; simpl. intros H.
  destruct (ths !! t) as [th|] eqn:Hth; simplify_eq/=.
  destruct (thread_step t th m !! o) as [[th' m']|] eqn:Ho; simplify_eq/=.
  econstructor; [done|]. by eapply list_elem_of_lookup_2.
Qed.

Lemma sched_reachable s c c' : sched s c = Some c' -> reachable c c'.
Proof.
  revert c. induction s as [|tc s IH]; simpl; intros c H; [simplify_eq; apply rtc_refl|].
  destruct (sched1 tc c) as [c1|] eqn:H1; simplify_eq/=.
  eapply rtc_l; [by eapply sched1_step|]. by apply IH.
Qed.

Lemma sched_exists s c (P : config -> bool) :
  from_option P false (sched s c) = true -> exists c', reachable c c' /\ P c' = true.
Proof.
  destruct (sched s c) as [c'|] eqn:Hs; [|done]. intros HP. exists c'. split; [by eapply sched_reachable|done].
Qed.

(** Round robin: the threads step in turn, blocked threads are skipped. *)
Fixpoint round_robin (fuel t : nat) (c : config) : config :=
  match fuel with
  | O => c
  | S n =>
      let t' := if decide (S t < length (threads c))%nat then S t else O in
      match sched1 (t, O) c with
      | Some c' => round_robin n t' c'
      | None => round_robin n t' c
      end
  end.

Lemma round_robin_reachable fuel t c : reachable c (round_robin fuel t c).
Proof.
  revert t c. induction fuel as [|n IH]; intros t c; simpl; [apply rtc_refl|].
  destruct (sched1 (t, O) c) as [c'|] eqn:H; [|apply IH].
  eapply rtc_l; [by eapply sched1_step|apply IH].
Qed.

(** One thread runs alone until it is done or blocked. *)
Fixpoint run_alone (fuel t : nat) (c : config) : config :=
  match fuel with
  | O => c
  | S n => match sched1 (t, O) c with Some c' => run_alone n t c' | None => c end
  end.

Lemma run_alone_reachable fuel t c : reachable c (run_alone fuel t c).
Proof.
  revert c. induction fuel as [|n IH]; intros c; simpl; [apply rtc_refl|].
  destruct (sched1 (t, O) c) as [c'|] eqn:H; [|apply rtc_refl].
  eapply rtc_l; [by eapply sched1_step|apply IH].
Qed.
End Machine.

Arguments Thread {E F V} cur stk.
Arguments Config {E F V M} threads memory.

(** ** A rely-guarantee logic

    [G] is ghost state: it exists only in proofs and never influences a step.
    A logic instance fixes the invariant, what a thread may do to the shared
    state (its guarantee), what it must tolerate from the others (its rely), the
    accesses that are valid, what must hold when a thread is not about to make an access
    ([rest]: at a call, a loop or a return), and a specification for every callable function. *)

Section Logic.
Context {E : Type -> Type} {F V M G X : Type}.
Variable exec : forall R, nat -> E R -> M -> list (R * M).
Variable body : F -> code E F V V.

Record logic := {
  inv : M * G -> Prop;
  rely : nat -> M * G -> M * G -> Prop;
  guar : nat -> M * G -> M * G -> Prop;
  valid : forall R, nat -> E R -> M * G -> Prop;
  rest : nat -> M * G -> Prop;
  pre : nat -> F -> X -> M * G -> Prop;
  post : nat -> F -> X -> V -> M * G -> Prop;
  rely_refl t s : rely t s s;
  rely_trans t s1 s2 s3 : rely t s1 s2 -> rely t s2 s3 -> rely t s1 s3;
  guar_refl t s : guar t s s;
  guar_trans t s1 s2 s3 : guar t s1 s2 -> guar t s2 s3 -> guar t s1 s3;
  guar_rely t t' s s' : t <> t' -> inv s -> inv s' -> guar t s s' -> rely t' s s';
}.

Variable L : logic.

(** The assertions thread [t] may rely on between two of its own accesses. *)
Definition stable (t : nat) (P : M * G -> Prop) : Prop :=
  forall s s', inv L s -> inv L s' -> P s -> rely L t s s' -> P s'.

(** The thread may change the ghost state when [P] only holds after that. *)
Definition update (t : nat) (P : M * G -> Prop) (s : M * G) : Prop :=
  exists g, guar L t s (s.1, g) /\ inv L (s.1, g) /\ P (s.1, g).

(** [safe t c Q s]: thread [t] may run [c] from [s] under any interference; every
    access it makes is valid, keeps the invariant and is allowed by its guarantee,
    every call meets its precondition, and if [c] returns [a] then [Q a] holds. *)
Fixpoint safe (t : nat) {A} (c : code E F V A) (Q : A -> M * G -> Prop) (s : M * G) : Prop :=
  forall s', rely L t s s' -> inv L s' -> update t (fun s' =>
    match c with
    | Ret a => rest L t s' /\ Q a s'
    | Act e k =>
        valid L _ t e s' /\
        forall r m, (r, m) ∈ exec _ t e s'.1 ->
          exists g, guar L t s' (m, g) /\ inv L (m, g) /\ safe t (k r) Q (m, g)
    | Call f k =>
        rest L t s' /\ exists x, pre L t f x s' /\
        forall v s'', inv L s'' -> post L t f x v s'' -> safe t (k v) Q s''
    | Iter b i k => exists I,
        I i s' /\ (forall x, stable t (I x)) /\
        forall x s1, I x s1 -> inv L s1 -> rest L t s1 /\
          safe t (b x) (fun r s2 => match r with
                                    | inl x' => I x' s2
                                    | inr y => safe t (k y) Q s2
                                    end) s1
    end) s'.

Lemma update_refl t P s : inv L s -> P s -> update t P s.
Proof. intros Hi HP. exists s.2. rewrite <-surjective_pairing. eauto using guar_refl. Qed.

Lemma update_mono t (P P' : M * G -> Prop) s :
  (forall s, inv L s -> P s -> P' s) -> update t P s -> update t P' s.
Proof. intros HP (g & Hg & Hi & H). exists g. eauto. Qed.

Lemma update_trans t P s : update t (update t P) s -> update t P s.
Proof. intros (g & Hg & Hi & g' & Hg' & Hi' & H). exists g'. simpl in *. eauto using guar_trans. Qed.

Lemma safe_rely t {A} (c : code E F V A) Q : stable t (safe t c Q).
Proof. intros s s' Hi Hi' H Hr. destruct c; simpl in *; eauto using rely_trans. Qed.

Lemma safe_mono t {A} (c : code E F V A) (Q Q' : A -> M * G -> Prop) s :
  (forall a s, inv L s -> Q a s -> Q' a s) -> safe t c Q s -> safe t c Q' s.
Proof.
  revert Q Q' s. induction c as [A a|A R e k IH|A f k IH|A S B b IHb i k IH];
    simpl; intros Q Q' s HQ Hs s' Hr Hi; (eapply update_mono; [|by apply Hs]); clear s' Hr Hi; intros s' Hi.
  - intros []. eauto.
  - intros [Hv H]. split; [done|].
    intros r m Hrm. destruct (H r m Hrm) as (g & ? & ? & ?). eauto 6.
  - intros (Hre & x & Hx & H). split; [done|]. exists x. split; [done|]. eauto.
  - intros (I & HI & Hst & Hb). exists I. split_and!; [done..|].
    intros x s1 Hx Hi1. destruct (Hb x s1 Hx Hi1) as [Hre Hs1]. split; [done|]. eapply IHb; [|exact Hs1]. intros [x'|y] s2; eauto.
Qed.

(** A thread may change its ghost state at any moment. *)
Lemma safe_update t {A} (c : code E F V A) Q s :
  (forall s', rely L t s s' -> inv L s' -> update t (safe t c Q) s') -> safe t c Q s.
Proof.
  intros H. destruct c; simpl; intros s' Hr Hi; apply update_trans;
    (eapply update_mono; [|by apply H]); intros s1 Hi1 H1; (apply H1; [apply rely_refl|done]).
Qed.

Lemma safe_bind t {A B} (c : code E F V A) (f : A -> code E F V B) Q s :
  inv L s -> safe t c (fun a s' => safe t (f a) Q s') s -> safe t (bind c f) Q s.
Proof.
  revert s. induction c as [A a|A R e k IH|A g k IH|A S B' b IHb i k IH]; simpl; intros s Hi Hs.
  - apply safe_update. intros s' Hr Hi'. eapply update_mono; [|by apply Hs]. by intros s1 _ [].
  - intros s' Hr Hi'; (eapply update_mono; [|by apply Hs]); clear s' Hr Hi'; intros s' Hi'.
    intros [Hv H]. split; [done|].
    intros r m Hrm. destruct (H r m Hrm) as (g & ? & ? & ?). eauto 7.
  - intros s' Hr Hi'; (eapply update_mono; [|by apply Hs]); clear s' Hr Hi'; intros s' Hi'.
    intros (Hre & x & Hx & H). split; [done|]. exists x. split; [done|]. eauto.
  - intros s' Hr Hi'; (eapply update_mono; [|by apply Hs]); clear s' Hr Hi'; intros s' Hi'.
    intros (I & HI & Hst & Hb). exists I. split_and!; [done..|].
    intros x s1 Hx Hi1. destruct (Hb x s1 Hx Hi1) as [Hre Hs1]. split; [done|].
    eapply safe_mono; [|exact Hs1]. intros [x'|y] s2; eauto.
Qed.

(** *** Proof rules *)

Lemma safe_ret_at t {A} (a : A) (P : M * G -> Prop) (Q : A -> M * G -> Prop) s :
  stable t P -> inv L s -> P s -> (forall s, inv L s -> P s -> rest L t s /\ Q a s) -> safe t (Ret a) Q s.
Proof.
  intros Hst Hi HP HQ s' Hr Hi'. apply update_refl; [done|]. apply HQ; [done|]. exact (Hst _ _ Hi Hi' HP Hr).
Qed.

Lemma safe_act t {A R} (e : E R) (k : R -> code E F V A) (P : M * G -> Prop) Q s :
  stable t P -> inv L s -> P s ->
  (forall s, inv L s -> P s ->
     valid L _ t e s /\
     forall r m, (r, m) ∈ exec _ t e s.1 ->
       exists g, guar L t s (m, g) /\ inv L (m, g) /\ safe t (k r) Q (m, g)) ->
  safe t (Act e k) Q s.
Proof.
  intros Hst Hi HP H s' Hr Hi'. apply update_refl; [done|]. apply H; [done|]. exact (Hst _ _ Hi Hi' HP Hr).
Qed.

Lemma safe_ghost t {A} (c : code E F V A) (P : M * G -> Prop) Q s :
  stable t P -> inv L s -> P s ->
  (forall m g, inv L (m, g) -> P (m, g) ->
     exists g', guar L t (m, g) (m, g') /\ inv L (m, g') /\ safe t c Q (m, g')) ->
  safe t c Q s.
Proof.
  intros Hst Hi HP H. apply safe_update. intros [m g] Hr Hi'. apply (H m g Hi'). exact (Hst _ _ Hi Hi' HP Hr).
Qed.

Lemma safe_call_at t {A} f (k : V -> code E F V A) (P : M * G -> Prop) Q x s :
  stable t P -> inv L s -> P s ->
  (forall s, inv L s -> P s -> rest L t s /\ pre L t f x s) ->
  (forall v s, inv L s -> post L t f x v s -> safe t (k v) Q s) ->
  safe t (Call f k) Q s.
Proof.
  intros Hst Hi HP H1 H2 s' Hr Hi'. apply update_refl; [done|].
  destruct (H1 s' Hi') as [Hre Hp]; [exact (Hst _ _ Hi Hi' HP Hr)|]. split; [done|]. by exists x.
Qed.

Lemma safe_iter_at t {A S B} (I : S -> M * G -> Prop) (b : S -> code E F V (S + B)) i
    (k : B -> code E F V A) Q s :
  inv L s -> I i s -> (forall x, stable t (I x)) ->
  (forall x s, I x s -> inv L s -> rest L t s /\
    safe t (b x) (fun r s2 => match r with inl x' => I x' s2 | inr y => safe t (k y) Q s2 end) s) ->
  safe t (Iter b i k) Q s.
Proof.
  intros Hi HI Hst Hb s' Hr Hi'. apply update_refl; [done|]. exists I. split_and!; [|done..].
  exact (Hst _ _ _ Hi Hi' HI Hr).
Qed.

(** The rules for a logic that asks nothing of a thread at rest. *)
Class AlwaysRests : Prop := always_rests : forall t s, rest L t s.

Lemma safe_ret `{!AlwaysRests} t {A} (a : A) (Q : A -> M * G -> Prop) s :
  stable t (Q a) -> inv L s -> Q a s -> safe t (Ret a) Q s.
Proof. intros Hst Hi HQ. eapply safe_ret_at; [exact Hst|done..|]. by intros s1 _ HQ1. Qed.

Lemma safe_call `{!AlwaysRests} t {A} f (k : V -> code E F V A) (P : M * G -> Prop) Q x s :
  stable t P -> inv L s -> P s ->
  (forall s, inv L s -> P s -> pre L t f x s) ->
  (forall v s, inv L s -> post L t f x v s -> safe t (k v) Q s) ->
  safe t (Call f k) Q s.
Proof. intros Hst Hi HP H1 H2. eapply safe_call_at; [exact Hst|done|done| |exact H2]. intros s1 Hi1 HP1. split; auto. Qed.

Lemma safe_iter `{!AlwaysRests} t {A S B} (I : S -> M * G -> Prop) (b : S -> code E F V (S + B)) i
    (k : B -> code E F V A) Q s :
  inv L s -> I i s -> (forall x, stable t (I x)) ->
  (forall x s, I x s -> inv L s ->
    safe t (b x) (fun r s2 => match r with inl x' => I x' s2 | inr y => safe t (k y) Q s2 end) s) ->
  safe t (Iter b i k) Q s.
Proof. intros Hi HI Hst Hb. eapply safe_iter_at; [done|exact HI|done|]. intros x s1 Hx Hi1. split; auto. Qed.

Lemma safe_unroll t {A S B} (b : S -> code E F V (S + B)) i (k : B -> code E F V A) Q s :
  inv L s -> safe t (Iter b i k) Q s -> safe t (unroll b i k) Q s.
Proof.
  intros Hi Hs. apply safe_update. intros s' Hr Hi'. eapply update_mono; [|by apply Hs].
  clear s' Hr Hi'. intros s' Hi' (I & HI & Hst & Hb). unfold unroll. apply safe_bind; [done|].
  eapply safe_mono; [|by apply Hb]. intros [x'|y] s2 Hi2 H2; [|done].
  by apply (safe_iter_at t I).
Qed.

(** *** Soundness: a configuration whose threads are all safe stays so *)

Hypothesis bodies : forall t f x s, inv L s -> pre L t f x s -> safe t (body f) (post L t f x) s.

Fixpoint stack_ok (t : nat) (final : V -> M * G -> Prop) (Q : V -> M * G -> Prop)
    (st : list (V -> code E F V V)) : Prop :=
  match st with
  | [] => forall v s, inv L s -> Q v s -> final v s
  | k :: st' => exists Q',
      (forall v s, inv L s -> Q v s -> safe t (k v) Q' s) /\ stack_ok t final Q' st'
  end.

Definition thread_ok (t : nat) (final : V -> M * G -> Prop) (th : thread) (s : M * G) : Prop :=
  exists Q, safe t (cur th) Q s /\ stack_ok t final Q (stk th).

Definition config_ok (final : nat -> V -> M * G -> Prop) (c : config) : Prop :=
  exists g, inv L (memory c, g) /\
  forall t th, threads c !! t = Some th -> thread_ok t (final t) th (memory c, g).

Lemma thread_step_ok t final th m g th' m' :
  inv L (m, g) -> thread_ok t final th (m, g) ->
  (th', m') ∈ thread_step exec body t th m ->
  exists g', guar L t (m, g) (m', g') /\ inv L (m', g') /\ thread_ok t final th' (m', g').
Proof.
  intros Hi (Q & Hs & Hst) Hin. unfold thread_step in Hin.
  destruct th as [c st]. cbn [cur stk] in *. destruct c as [v|R e k|f k|S B b i k].
  - destruct st as [|k st]; [by apply not_elem_of_nil in Hin|].
    apply list_elem_of_singleton in Hin. simplify_eq. destruct Hst as (Q' & HQ' & Hst).
    destruct (Hs (m, g) (rely_refl L t _) Hi) as (g' & Hg & Hi' & _ & HQ). exists g'.
    split_and!; [done..|]. exists Q'. split; [by apply HQ'|done].
  - apply list_elem_of_fmap in Hin as ([r m1] & Heq & Hin). simplify_eq/=.
    destruct (Hs (m, g) (rely_refl L t _) Hi) as (g' & Hg & Hi' & _ & H). simpl in *.
    destruct (H r m1 Hin) as (g2 & ? & ? & ?). exists g2. split_and!; [by eapply guar_trans|done|]. by exists Q.
  - apply list_elem_of_singleton in Hin. simplify_eq.
    destruct (Hs (m, g) (rely_refl L t _) Hi) as (g' & Hg & Hi' & _ & x & Hx & Hk).
    exists g'. split_and!; [done..|]. exists (post L t f x). split; [by apply bodies|].
    exists Q. by split.
  - apply list_elem_of_singleton in Hin. simplify_eq.
    exists g. split_and!; [apply guar_refl|done|]. exists Q. split; [|done]. by apply safe_unroll.
Qed.

Lemma step_ok final c c' : config_ok final c -> step exec body c c' -> config_ok final c'.
Proof.
  intros (g & Hi & Hth) Hst. destruct Hst as [ths m t th th' m' Hl Hin]. simpl in *.
  destruct (thread_step_ok t (final t) th m g th' m') as (g' & Hg & Hi' & Hok); [by auto..|].
  exists g'. split; [done|]. simpl. intros t2 th2 Hl2.
  destruct (decide (t = t2)) as [<-|Hne].
  - rewrite list_lookup_insert_eq in Hl2 by (by eapply lookup_lt_Some). by simplify_eq.
  - rewrite list_lookup_insert_ne in Hl2 by done. destruct (Hth t2 th2 Hl2) as (Q & HQ & HS).
    exists Q. split; [|done]. eapply safe_rely; [exact Hi|done|done|]. by eapply guar_rely.
Qed.

Theorem reachable_ok final c c' :
  config_ok final c -> reachable exec body c c' -> config_ok final c'.
Proof. intros H Hr. induction Hr; [done|]. eauto using step_ok. Qed.

(** A finished thread satisfies its final assertion. *)
Lemma config_ok_final final c t v :
  config_ok final c -> threads c !! t = Some (Thread (Ret v) []) ->
  exists g, inv L (memory c, g) /\ final t v (memory c, g).
Proof.
  intros (g & Hi & Hth) Hl. destruct (Hth _ _ Hl) as (Q & Hs & Hst).
  destruct (Hs (memory c, g) (rely_refl L t _) Hi) as (g' & _ & Hi' & _ & HQ).
  exists g'. split; [done|]. by apply Hst.
Qed.

(** A thread never makes an invalid access. *)
Lemma config_ok_valid final c t R (e : E R) k st :
  config_ok final c -> threads c !! t = Some (Thread (Act e k) st) ->
  exists g, inv L (memory c, g) /\ valid L R t e (memory c, g).
Proof.
  intros (g & Hi & Hth) Hl. destruct (Hth _ _ Hl) as (Q & Hs & Hst).
  destruct (Hs (memory c, g) (rely_refl L t _) Hi) as (g' & _ & Hi' & Hv & _). by exists g'.
Qed.

(** What is known of the next access of a thread, or of a thread that is at rest. *)
Definition head_ok (t : nat) {A} (c : code E F V A) (s : M * G) : Prop :=
  match c with Act e _ => valid L _ t e s | _ => rest L t s end.

Lemma safe_head t {A} (c : code E F V A) Q s :
  inv L s -> safe t c Q s -> exists g, guar L t s (s.1, g) /\ inv L (s.1, g) /\ head_ok t c (s.1, g).
Proof.
  intros Hi Hs. destruct c as [a|R e k|f k|S B b i k]; destruct (Hs s (rely_refl L t _) Hi) as (g & Hg & Hi' & H); exists g; split_and!; try done.
  - apply H.
  - apply H.
  - apply H.
  - destruct H as (I & HI & _ & Hb). by apply (Hb i).
Qed.

(** What a finished thread knows and what another thread does next are about the same
    state. *)
Lemma config_ok_meet final c t v u th :
  config_ok final c -> t <> u -> threads c !! t = Some (Thread (Ret v) []) -> threads c !! u = Some th ->
  exists g g', inv L (memory c, g) /\ final t v (memory c, g) /\
    rely L t (memory c, g) (memory c, g') /\ inv L (memory c, g') /\ head_ok u (cur th) (memory c, g').
Proof.
  intros (g & Hi & Hth) Hne Ht Hu. destruct (Hth _ _ Ht) as (Q & Hs & Hst). destruct (Hth _ _ Hu) as (Q' & Hs' & _).
  destruct (Hs (memory c, g) (rely_refl L t _) Hi) as (g1 & Hg1 & Hi1 & _ & HQ). simpl in *.
  assert (Hr : rely L u (memory c, g) (memory c, g1)) by (by apply (guar_rely L t u)).
  pose proof (safe_rely u _ _ (memory c, g) (memory c, g1) Hi Hi1 Hs' Hr) as Hs1.
  destruct (safe_head u _ _ _ Hi1 Hs1) as (g2 & Hg2 & Hi2 & Hv). exists g1, g2.
  split_and!; [done|by apply Hst|by apply (guar_rely L u t)|done..].
Qed.
End Logic.
