(* ===== verification/State.v ===== *)
(** * The data of Lace and the atomic accesses to it

    The types of src/src/lace.h and the globals of src/src/lace.c, collected in one
    shared memory [mem], and the accesses [ev] the code makes to it.  The memory is
    sequentially consistent: every access of the C code to a shared variable,
    whatever its memory order, is one atomic step. *)

From S2P Require Export Prelude Conc.

(** ** Configuration

    The number of workers and the deque size are fixed by [lace_start]; the number
    of words of task data is [LACE_TASKSIZE / P_SZ] (6 in lace.h, 14 in lace14.h);
    [lace_header] says which of the two headers the client and the library are compiled with,
    [user_void] and [user_arity] say with which of the macros
    [TASK_n] and [VOID_TASK_n] each task of the client was declared, and [user_drops]
    whether the client uses [DROP]. *)
Inductive header := lace_h | lace14_h.

Class Cfg := {
  n_workers : nat;
  dqsize : Z;
  d_words : nat;
  lace_header : header;
  user_void : nat -> bool;
  user_arity : nat -> nat;
  user_drops : bool;
}.

(** ** Pointers and values *)

(** A [Task *] points into a worker's deque or to a [Task] variable on some stack. *)
Inductive tref := TSlot (w : nat) (i : Z) | TLoc (id : nat).

(** An [atomic_int] (or plain [int]): the globals of lace.c, or one on some stack. *)
Inductive aref :=
| lace_bar_count | lace_bar_leaving | lace_bar_wait
| lace_quits | workers_running | must_suspend | lace_awaken_count
| external_task_counter | external_task_exclusive
| ALoc (id : nat).

Inductive sref := suspend_semaphore | SExt (e : nat).

(** One word of task data. *)
Inductive val := VZ (z : Z) | VTask (t : tref) | VAtom (a : aref).

(** [&NAME##_WRAP]: the task functions of lace.c, and those of the client. *)
Inductive fid :=
| F_lace_steal_random | F_lace_steal_loop
| F_lace_together_root | F_lace_wrap_together
| F_lace_newframe_root | F_lace_wrap_newframe
| F_user (u : nat).

#[global] Instance tref_eq_dec : EqDecision tref.
Proof. solve_decision. Defined.
#[global] Instance aref_eq_dec : EqDecision aref.
Proof. solve_decision. Defined.
#[global] Instance sref_eq_dec : EqDecision sref.
Proof. solve_decision. Defined.
#[global] Instance val_eq_dec : EqDecision val.
Proof. solve_decision. Defined.
#[global] Instance fid_eq_dec : EqDecision fid.
Proof. solve_decision. Defined.

(** ** The structs of lace.h *)

(** The values of [Task.thief]: the three constants and the address of a [Worker]. *)
Inductive thief_t := THIEF_EMPTY | THIEF_TASK | THIEF_COMPLETED | Thief (w : nat).

#[global] Instance thief_eq_dec : EqDecision thief_t.
Proof. solve_decision. Defined.

(** [(size_t)thief <= 1] *)
Definition thief_le1 (th : thief_t) : bool :=
  match th with THIEF_EMPTY | THIEF_TASK => true | _ => false end.

(** [thief == 0] *)
Definition thief_is0 (th : thief_t) : bool :=
  match th with THIEF_EMPTY => true | _ => false end.

(** [TASK_IS_STOLEN] and [TASK_IS_COMPLETED]. *)
Definition TASK_IS_STOLEN (th : thief_t) : bool := negb (thief_le1 th).
Definition TASK_IS_COMPLETED (th : thief_t) : bool :=
  match th with THIEF_COMPLETED => true | _ => false end.

Record Task := mkTask { task_f : fid; task_thief : thief_t; task_d : list val }.

Record TailSplit := mkTS { ts_tail : Z; ts_split : Z }.

#[global] Instance TailSplit_eq_dec : EqDecision TailSplit.
Proof. solve_decision. Defined.

Record Worker := mkWorker { w_ts : TailSplit; w_allstolen : Z; w_movesplit : Z }.

(** The private worker data.  [dq], [end], [_public] and [worker] never change after
    [lace_init_worker]: a worker is its number, [Task *] into its own deque is an
    index, and [end] is the index [dqsize]. *)
Record WorkerP := mkWorkerP { p_split : Z; p_allstolen : Z; p_seed : Z }.

Inductive steal_result := LACE_STOLEN | LACE_BUSY | LACE_NOWORK.

#[global] Instance steal_result_eq_dec : EqDecision steal_result.
Proof. solve_decision. Defined.

(** ** The shared memory *)

Record mem := mkMem {
  workers : nat -> bool;               (* workers[i] != NULL *)
  pub : nat -> Worker;
  priv : nat -> WorkerP;
  slots : nat -> Z -> Task;            (* the deque arrays *)
  locals : nat -> Task;                (* Task variables on the C stacks *)
  n_locals : nat;
  ints : aref -> Z;
  n_ints : nat;
  lace_newframe_t : option tref;       (* lace_newframe.t *)
  sems : sref -> Z;
  external_task : option nat;
  et_task : nat -> tref;               (* ExtTask.task *)
  n_ets : nat;
  external_task_lock : option nat;     (* the thread that holds the mutex *)
  created : nat -> bool;               (* pthread_create has been called *)
  exited : bool;                       (* the process has called exit() *)
  freed : bool;                        (* lace_stop has released the memory of the workers *)
}.

Definition set_workers x m := mkMem x (pub m) (priv m) (slots m) (locals m) (n_locals m) (ints m) (n_ints m) (lace_newframe_t m) (sems m) (external_task m) (et_task m) (n_ets m) (external_task_lock m) (created m) (exited m) (freed m).
Definition set_pub x m := mkMem (workers m) x (priv m) (slots m) (locals m) (n_locals m) (ints m) (n_ints m) (lace_newframe_t m) (sems m) (external_task m) (et_task m) (n_ets m) (external_task_lock m) (created m) (exited m) (freed m).
Definition set_priv x m := mkMem (workers m) (pub m) x (slots m) (locals m) (n_locals m) (ints m) (n_ints m) (lace_newframe_t m) (sems m) (external_task m) (et_task m) (n_ets m) (external_task_lock m) (created m) (exited m) (freed m).
Definition set_slots x m := mkMem (workers m) (pub m) (priv m) x (locals m) (n_locals m) (ints m) (n_ints m) (lace_newframe_t m) (sems m) (external_task m) (et_task m) (n_ets m) (external_task_lock m) (created m) (exited m) (freed m).
Definition set_locals x n m := mkMem (workers m) (pub m) (priv m) (slots m) x n (ints m) (n_ints m) (lace_newframe_t m) (sems m) (external_task m) (et_task m) (n_ets m) (external_task_lock m) (created m) (exited m) (freed m).
Definition set_ints x n m := mkMem (workers m) (pub m) (priv m) (slots m) (locals m) (n_locals m) x n (lace_newframe_t m) (sems m) (external_task m) (et_task m) (n_ets m) (external_task_lock m) (created m) (exited m) (freed m).
Definition set_newframe x m := mkMem (workers m) (pub m) (priv m) (slots m) (locals m) (n_locals m) (ints m) (n_ints m) x (sems m) (external_task m) (et_task m) (n_ets m) (external_task_lock m) (created m) (exited m) (freed m).
Definition set_sems x m := mkMem (workers m) (pub m) (priv m) (slots m) (locals m) (n_locals m) (ints m) (n_ints m) (lace_newframe_t m) x (external_task m) (et_task m) (n_ets m) (external_task_lock m) (created m) (exited m) (freed m).
Definition set_external x m := mkMem (workers m) (pub m) (priv m) (slots m) (locals m) (n_locals m) (ints m) (n_ints m) (lace_newframe_t m) (sems m) x (et_task m) (n_ets m) (external_task_lock m) (created m) (exited m) (freed m).
Definition set_ets x n m := mkMem (workers m) (pub m) (priv m) (slots m) (locals m) (n_locals m) (ints m) (n_ints m) (lace_newframe_t m) (sems m) (external_task m) x n (external_task_lock m) (created m) (exited m) (freed m).
Definition set_lock x m := mkMem (workers m) (pub m) (priv m) (slots m) (locals m) (n_locals m) (ints m) (n_ints m) (lace_newframe_t m) (sems m) (external_task m) (et_task m) (n_ets m) x (created m) (exited m) (freed m).
Definition set_created x m := mkMem (workers m) (pub m) (priv m) (slots m) (locals m) (n_locals m) (ints m) (n_ints m) (lace_newframe_t m) (sems m) (external_task m) (et_task m) (n_ets m) (external_task_lock m) x (exited m) (freed m).
Definition set_exited x m := mkMem (workers m) (pub m) (priv m) (slots m) (locals m) (n_locals m) (ints m) (n_ints m) (lace_newframe_t m) (sems m) (external_task m) (et_task m) (n_ets m) (external_task_lock m) (created m) x (freed m).
Definition set_freed x m := mkMem (workers m) (pub m) (priv m) (slots m) (locals m) (n_locals m) (ints m) (n_ints m) (lace_newframe_t m) (sems m) (external_task m) (et_task m) (n_ets m) (external_task_lock m) (created m) (exited m) x.

(** ** Field updates *)

Definition set_task (t : tref) (T : Task) (m : mem) : mem :=
  match t with
  | TSlot w i => set_slots (<[w := <[i := T]> (slots m w)]> (slots m)) m
  | TLoc id => set_locals (<[id := T]> (locals m)) (n_locals m) m
  end.

Definition get_task (t : tref) (m : mem) : Task :=
  match t with TSlot w i => slots m w i | TLoc id => locals m id end.

Definition set_ts (x : TailSplit) (w : Worker) := mkWorker x (w_allstolen w) (w_movesplit w).
Definition set_allstolen (x : Z) (w : Worker) := mkWorker (w_ts w) x (w_movesplit w).
Definition set_movesplit (x : Z) (w : Worker) := mkWorker (w_ts w) (w_allstolen w) x.
Definition set_tail (x : Z) (w : Worker) := set_ts (mkTS x (ts_split (w_ts w))) w.
Definition set_split (x : Z) (w : Worker) := set_ts (mkTS (ts_tail (w_ts w)) x) w.
Definition set_p_split (x : Z) (w : WorkerP) := mkWorkerP x (p_allstolen w) (p_seed w).
Definition set_p_allstolen (x : Z) (w : WorkerP) := mkWorkerP (p_split w) x (p_seed w).
Definition set_p_seed (x : Z) (w : WorkerP) := mkWorkerP (p_split w) (p_allstolen w) x.
Definition set_task_f (x : fid) (t : Task) := mkTask x (task_thief t) (task_d t).
Definition set_task_thief (x : thief_t) (t : Task) := mkTask (task_f t) x (task_d t).
Definition set_task_d (x : list val) (t : Task) := mkTask (task_f t) (task_thief t) x.

Definition upd_pub (w : nat) (g : Worker -> Worker) (m : mem) : mem :=
  set_pub (<[w := g (pub m w)]> (pub m)) m.
Definition upd_priv (w : nat) (g : WorkerP -> WorkerP) (m : mem) : mem :=
  set_priv (<[w := g (priv m w)]> (priv m)) m.
Definition upd_task (t : tref) (g : Task -> Task) (m : mem) : mem :=
  set_task t (g (get_task t m)) m.
Definition upd_int (a : aref) (x : Z) (m : mem) : mem :=
  set_ints (<[a := x]> (ints m)) (n_ints m) m.
Definition upd_sem (s : sref) (x : Z) (m : mem) : mem :=
  set_sems (<[s := x]> (sems m)) m.

(** ** Accesses

    One constructor per kind of access of the C code; the index is the type of the
    value the access returns. *)
Inductive ev : Type -> Type :=
(* public worker data *)
| Load_workers (w : nat) : ev (option nat)
| Store_workers (w : nat) : ev unit
| Load_allstolen (w : nat) : ev Z
| Store_allstolen (w : nat) (x : Z) : ev unit
| Load_movesplit (w : nat) : ev Z
| Store_movesplit (w : nat) (x : Z) : ev unit
| Load_ts (w : nat) : ev TailSplit
| Store_ts (w : nat) (x : TailSplit) : ev unit
| Load_tail (w : nat) : ev Z
| Load_split (w : nat) : ev Z
| Store_split (w : nat) (x : Z) : ev unit
| Fetch_add_split (w : nat) (x : Z) : ev Z
| Cas_ts (w : nat) (old new : TailSplit) : ev bool
(* private worker data *)
| Load_priv (w : nat) : ev WorkerP
| Store_p_split (w : nat) (x : Z) : ev unit
| Store_p_allstolen (w : nat) (x : Z) : ev unit
| Store_p_seed (w : nat) (x : Z) : ev unit
(* tasks *)
| Load_f (t : tref) : ev fid
| Store_f (t : tref) (x : fid) : ev unit
| Load_thief (t : tref) : ev thief_t
| Store_thief (t : tref) (x : thief_t) : ev unit
| Load_d (t : tref) (i : nat) : ev val
| Store_d (t : tref) (i : nat) (x : val) : ev unit
| Alloc_task : ev tref
| Copy_task (dst src : tref) : ev unit
(* integers *)
| Alloc_int (x : Z) : ev aref
| Load_int (a : aref) : ev Z
| Store_int (a : aref) (x : Z) : ev unit
| Fetch_add_int (a : aref) (x : Z) : ev Z
| Cas_int (a : aref) (old new : Z) : ev bool
(* lace_newframe.t *)
| Load_newframe : ev (option tref)
| Store_newframe (x : option tref) : ev unit
| Cas_newframe (old new : option tref) : ev bool
(* semaphores, mutex and condition variable *)
| Sem_init (s : sref) (x : Z) : ev unit
| Sem_post (s : sref) : ev unit
| Sem_wait (s : sref) : ev unit
| Mutex_lock : ev unit
| Mutex_unlock : ev unit
| Cond_broadcast : ev unit
(* the external task *)
| Alloc_ext (t : tref) : ev nat
| Load_ext_task (e : nat) : ev tref
| Load_external : ev (option nat)
| Exchange_external (x : option nat) : ev (option nat)
| Cas_external (old new : option nat) : ev (bool * option nat)
(* threads *)
| Get_worker : ev (option nat)
| Pthread_create (w : nat) : ev unit
| Thread_begin : ev unit
| Exit : ev unit
(* the heap: an allocation may fail *)
| Aligned_alloc : ev bool
| Clear_workers : ev unit
| Free_workers : ev unit
(* undefined behaviour: a null pointer is dereferenced *)
| Undefined : ev unit.

Section Exec.
Context {cfg : Cfg}.

Definition set_d (i : nat) (x : val) (T : Task) : Task := set_task_d (<[i := x]> (task_d T)) T.
Definition get_d (i : nat) (T : Task) : val := nth i (task_d T) (VZ 0).

(** A weak compare-and-swap may fail spuriously. *)
Definition weak_cas {A} `{EqDecision A} (cur old : A) (m m' : mem) : list (bool * mem) :=
  if decide (cur = old) then [(true, m'); (false, m)] else [(false, m)].

(** The outcomes of an access by thread [t]; a blocked access has none. *)
Definition exec1 {R} (t : nat) (e : ev R) (m : mem) : list (R * mem) :=
  match e in ev R return list (R * mem) with
  | Load_workers w => [(if workers m w then Some w else None, m)]
  | Store_workers w => [(tt, set_workers (<[w := true]> (workers m)) m)]
  | Load_allstolen w => [(w_allstolen (pub m w), m)]
  | Store_allstolen w x => [(tt, upd_pub w (set_allstolen x) m)]
  | Load_movesplit w => [(w_movesplit (pub m w), m)]
  | Store_movesplit w x => [(tt, upd_pub w (set_movesplit x) m)]
  | Load_ts w => [(w_ts (pub m w), m)]
  | Store_ts w x => [(tt, upd_pub w (set_ts x) m)]
  | Load_tail w => [(ts_tail (w_ts (pub m w)), m)]
  | Load_split w => [(ts_split (w_ts (pub m w)), m)]
  | Store_split w x => [(tt, upd_pub w (set_split x) m)]
  | Fetch_add_split w x =>
      let s := ts_split (w_ts (pub m w)) in [(s, upd_pub w (set_split (u32 (s + x))) m)]
  | Cas_ts w old new => weak_cas (w_ts (pub m w)) old m (upd_pub w (set_ts new) m)
  | Load_priv w => [(priv m w, m)]
  | Store_p_split w x => [(tt, upd_priv w (set_p_split x) m)]
  | Store_p_allstolen w x => [(tt, upd_priv w (set_p_allstolen x) m)]
  | Store_p_seed w x => [(tt, upd_priv w (set_p_seed x) m)]
  | Load_f t => [(task_f (get_task t m), m)]
  | Store_f t x => [(tt, upd_task t (set_task_f x) m)]
  | Load_thief t => [(task_thief (get_task t m), m)]
  | Store_thief t x => [(tt, upd_task t (set_task_thief x) m)]
  | Load_d t i => [(get_d i (get_task t m), m)]
  | Store_d t i x => [(tt, upd_task t (set_d i x) m)]
  | Alloc_task =>
      [(TLoc (n_locals m), set_locals (locals m) (S (n_locals m)) m)]
  | Copy_task dst src => [(tt, set_task dst (get_task src m) m)]
  | Alloc_int x =>
      [(ALoc (n_ints m), set_ints (<[ALoc (n_ints m) := x]> (ints m)) (S (n_ints m)) m)]
  | Load_int a => [(ints m a, m)]
  | Store_int a x => [(tt, upd_int a x m)]
  | Fetch_add_int a x => [(ints m a, upd_int a (ints m a + x) m)]
  | Cas_int a old new => weak_cas (ints m a) old m (upd_int a new m)
  | Load_newframe => [(lace_newframe_t m, m)]
  | Store_newframe x => [(tt, set_newframe x m)]
  | Cas_newframe old new => weak_cas (lace_newframe_t m) old m (set_newframe new m)
  | Sem_init s x => [(tt, upd_sem s x m)]
  | Sem_post s => [(tt, upd_sem s (sems m s + 1) m)]
  | Sem_wait s => if 0 <? sems m s then [(tt, upd_sem s (sems m s - 1) m)] else []
  | Mutex_lock => match external_task_lock m with
                  | Some _ => []
                  | None => [(tt, set_lock (Some t) m)]
                  end
  | Mutex_unlock => [(tt, set_lock None m)]
  | Cond_broadcast => [(tt, m)]
  | Alloc_ext tk => [(n_ets m, set_ets (<[n_ets m := tk]> (et_task m)) (S (n_ets m)) m)]
  | Load_ext_task e => [(et_task m e, m)]
  | Load_external => [(external_task m, m)]
  | Exchange_external x => [(external_task m, set_external x m)]
  | Cas_external old new =>
      if decide (external_task m = old)
      then [((true, old), set_external new m); ((false, external_task m), m)]
      else [((false, external_task m), m)]
  | Get_worker => [(if decide (t < n_workers)%nat then Some t else None, m)]
  | Pthread_create w => [(tt, set_created (<[w := true]> (created m)) m)]
  | Thread_begin => if created m t then [(tt, m)] else []
  | Exit => [(tt, set_exited true m)]
  | Aligned_alloc => [(true, m); (false, m)]
  | Clear_workers => [(tt, set_workers (fun _ => false) m)]
  | Free_workers => [(tt, set_freed true m)]
  | Undefined => []
  end.

(** After [exit()] no thread runs any more. *)
Definition exec (R : Type) (t : nat) (e : ev R) (m : mem) : list (R * mem) :=
  if exited m then [] else exec1 t e m.

(** The accesses that are not undefined behaviour: array indices in range, local
    variables that have been allocated, words inside the task's data area. *)
Definition tref_valid (t : tref) (m : mem) : Prop :=
  match t with
  | TSlot w i => (w < n_workers)%nat /\ 0 <= i < dqsize
  | TLoc id => (id < n_locals m)%nat
  end.

Definition ev_valid (R : Type) (t : nat) (e : ev R) (m : mem) : Prop :=
  match e with
  | Load_f t | Store_f t _ | Load_thief t | Store_thief t _ => tref_valid t m
  | Load_d t i | Store_d t i _ => tref_valid t m /\ (i < d_words)%nat
  | Copy_task dst src => tref_valid dst m /\ tref_valid src m
  | Load_workers w | Store_workers w | Load_allstolen w | Store_allstolen w _
  | Load_movesplit w | Store_movesplit w _ | Load_ts w | Store_ts w _ | Load_tail w
  | Load_split w | Store_split w _ | Fetch_add_split w _ | Cas_ts w _ _ => (w < n_workers)%nat
  | Load_priv w | Store_p_split w _ | Store_p_allstolen w _ | Store_p_seed w _ =>
      (w < n_workers)%nat /\ t = w
  | Mutex_unlock => external_task_lock m = Some t
  | Undefined => False
  | _ => True
  end.
End Exec.

(** ** Functions and shorthands for their code *)

(** How each task was declared: the [VOID_TASK_n] of lace.c and those of the client. *)
Definition arity {cfg : Cfg} (g : fid) : nat :=
  match g with
  | F_lace_steal_random => 0
  | F_lace_steal_loop | F_lace_wrap_together | F_lace_wrap_newframe => 1
  | F_lace_together_root | F_lace_newframe_root => 2
  | F_user u => user_arity u
  end.

Definition is_void {cfg : Cfg} (g : fid) : bool :=
  match g with F_user u => user_void u | _ => true end.

(** A call through [t->f(self, head, t)] and a direct call [NAME##_CALL(self, head, ...)]. *)
Inductive fn :=
| Fn_WRAP (g : fid) (self : nat) (dq_head : Z) (t : tref)
| Fn_CALL (g : fid) (self : nat) (dq_head : Z) (args : list val).

Abbreviation lcode := (code ev fn val).

(** [t->f(self, dq_head, t)] *)
Definition call_f (self : nat) (dq_head : Z) (t : tref) : lcode val :=
  g <- act (Load_f t) ;;
  call (Fn_WRAP g self dq_head t).

(** [while (!stop(x)) x = *a;] *)
Definition spin {R} (e : ev R) (stop : R -> bool) : lcode R :=
  loop tt (fun _ => x <- act e ;; Ret (if stop x then inr x else inl tt)).

(** [for (i=0; i<n; i++) g(i);] *)
Fixpoint for_upto (n i : nat) (g : nat -> lcode unit) : lcode unit :=
  match n with
  | O => Ret tt
  | S n' => g i ;;; for_upto n' (S i) g
  end.

Definition when (b : bool) (c : lcode unit) : lcode unit := if b then c else Ret tt.

(** A small configuration for concrete runs: two workers, deques of 16 tasks, and a
    client whose tasks return a value and take one argument. *)
Definition demo_cfg : Cfg :=
  {| n_workers := 2; dqsize := 16; d_words := 6; lace_header := lace_h;
     user_void := fun _ => false; user_arity := fun _ => 1%nat; user_drops := false |}.
