(* ===== verification/Counters.v ===== *)
(** * Event counters and pie times

    The counters of src/src/lace.h ([PR_ADD], [lace_time_event]) and their reset and
    report in src/src/lace.c, for a build with all counters enabled.  The clock
    [gethrtime()] is an argument. *)

From S2P Require Export Prelude.

Inductive CTR_index :=
| CTR_tasks
| CTR_steal_tries | CTR_leap_tries | CTR_steals | CTR_leaps | CTR_steal_busy | CTR_leap_busy
| CTR_split_grow | CTR_split_shrink | CTR_split_req
| CTR_fast_sync | CTR_slow_sync
| CTR_init | CTR_close | CTR_wapp | CTR_lapp | CTR_wsteal | CTR_lsteal
| CTR_wstealsucc | CTR_lstealsucc | CTR_wsignal | CTR_lsignal.

#[global] Instance CTR_eq_dec : EqDecision CTR_index.
Proof. solve_decision. Defined.

(** The fields of [WorkerP] for the counters. *)
Record counters := mkCounters { ctr : CTR_index -> Z; time : Z; level : Z }.

Definition PR_ADD (w : counters) (i : CTR_index) (k : Z) : counters :=
  mkCounters (fun j => if decide (j = i) then u64 (ctr w j + k) else ctr w j) (time w) (level w).

Definition PR_INC (w : counters) (i : CTR_index) : counters := PR_ADD w i 1.

Definition set_level (l : Z) (w : counters) : counters := mkCounters (ctr w) (time w) l.
Definition set_time (t : Z) (w : counters) : counters := mkCounters (ctr w) t (level w).

(** [lace_time_event(w, event)] at clock [now]; the second component tells whether the
    message "This should not happen" was printed. *)
Definition lace_time_event (w : counters) (now : Z) (event : Z) : counters * bool :=
  let d := u64 (now - time w) in
  let done (w : counters) := (set_time now w, false) in
  if event =? 1 then
    done (if level w =? 0 then set_level 1 (PR_ADD w CTR_init d)
          else if level w =? 1 then PR_ADD (PR_ADD w CTR_wsteal d) CTR_wstealsucc d
          else PR_ADD (PR_ADD w CTR_lsteal d) CTR_lstealsucc d)
  else if event =? 2 then
    done (if level w =? 1 then PR_ADD w CTR_wapp d else PR_ADD w CTR_lapp d)
  else if event =? 3 then
    let w := if level w =? 1 then PR_ADD w CTR_wapp d else PR_ADD w CTR_lapp d in
    done (set_level (level w + 1) w)
  else if event =? 4 then
    let '(w, msg) := if level w =? 1 then (w, true) else (PR_ADD w CTR_lsteal d, false) in
    (set_time now (set_level (level w - 1) w), msg)
  else if event =? 7 then
    done (if level w =? 0 then PR_ADD w CTR_init d
          else if level w =? 1 then PR_ADD w CTR_wsteal d
          else PR_ADD w CTR_lsteal d)
  else if event =? 8 then
    done (if level w =? 1 then PR_ADD (PR_ADD w CTR_wsignal d) CTR_wsteal d
          else PR_ADD (PR_ADD w CTR_lsignal d) CTR_lsteal d)
  else if event =? 9 then
    done (if level w =? 0 then PR_ADD w CTR_init d else PR_ADD w CTR_close d)
  else (w, false).

(** A worker that goes through a list of clock values and events. *)
Fixpoint time_events (w : counters) (es : list (Z * Z)) : counters * bool :=
  match es with
  | [] => (w, false)
  | (now, event) :: es' =>
      let '(w1, msg) := lace_time_event w now event in
      let '(w2, msg') := time_events w1 es' in
      (w2, msg || msg')
  end.

(** ** Reset and report *)

(** [workers_p], [us_elapsed_timer] and [count_at_start]. *)
Record lace_stats := mkStats { workers_p : list counters; us_elapsed_timer : Z; count_at_start : Z }.

(** [for (j=0;j<CTR_MAX;j++)] goes through the counters in this order. *)
Definition all_counters : list CTR_index :=
  [CTR_tasks; CTR_steal_tries; CTR_leap_tries; CTR_steals; CTR_leaps; CTR_steal_busy; CTR_leap_busy;
   CTR_split_grow; CTR_split_shrink; CTR_split_req; CTR_fast_sync; CTR_slow_sync;
   CTR_init; CTR_close; CTR_wapp; CTR_lapp; CTR_wsteal; CTR_lsteal;
   CTR_wstealsucc; CTR_lstealsucc; CTR_wsignal; CTR_lsignal].

Definition set_ctr (i : CTR_index) (x : Z) (w : counters) : counters :=
  mkCounters (fun j => if decide (j = i) then x else ctr w j) (time w) (level w).

(** The two loops of [lace_count_reset] on worker [i]: the first clears its counters, the
    second reads the clock. *)
Definition clear_counters (w : counters) : counters := foldl (fun w j => set_ctr j 0 w) w all_counters.

Definition restart_clock (gethrtime : nat -> Z) (i : nat) (w : counters) : counters :=
  let w := set_time (gethrtime i) w in
  if negb (i =? 0)%nat then set_level 0 w else w.

(** [lace_count_reset()]: [gethrtime k] is the [k]-th reading of the clock, [us] the time in
    microseconds that [us_elapsed_start] reads. *)
Definition lace_count_reset (gethrtime : nat -> Z) (us : Z) (st : lace_stats) : lace_stats :=
  let ws := clear_counters <$> workers_p st in
  let ws := imap (restart_clock gethrtime) ws in
  mkStats ws us (gethrtime (length ws)).

(** [ctr_all[j] = 0; for each worker ctr_all[j] += wctr[j]] *)
Definition ctr_all (ws : list counters) : CTR_index -> Z :=
  foldl (fun all w j => u64 (all j + ctr w j)) (fun _ => 0) ws.

(** The slices [lace_count_report_file] adds up for the total time. *)
Definition sum_count (all : CTR_index -> Z) : Z :=
  u64 (all CTR_init + all CTR_wapp + all CTR_lapp + all CTR_wsteal + all CTR_lsteal +
       all CTR_close + all CTR_wstealsucc + all CTR_lstealsucc + all CTR_wsignal + all CTR_lsignal).

(** ** The slices of the time *)

(** The six slices that partition the time, and the four that are also counted in
    [CTR_wsteal] and [CTR_lsteal]. *)
Definition slices (all : CTR_index -> Z) : Z :=
  all CTR_init + all CTR_wapp + all CTR_lapp + all CTR_wsteal + all CTR_lsteal + all CTR_close.

Definition inner_slices (all : CTR_index -> Z) : Z :=
  all CTR_wstealsucc + all CTR_lstealsucc + all CTR_wsignal + all CTR_lsignal.

(** The events the code uses. *)
Definition is_event (e : Z) : bool := (e =? 1) || (e =? 2) || (e =? 3) || (e =? 4) || (e =? 7) || (e =? 8) || (e =? 9).

#[local] Arguments wrap : simpl never.

(** Decide which counter is which. *)
Ltac decide_ctr :=
  repeat match goal with
  | |- context [decide (?a = ?b)] =>
      first [rewrite (decide_True (P := a = b)) by reflexivity
            |rewrite (decide_False (P := a = b)) by discriminate]
  end.

(** Adding to one counter. *)
Definition in_slices (i : CTR_index) : bool :=
  match i with CTR_init | CTR_wapp | CTR_lapp | CTR_wsteal | CTR_lsteal | CTR_close => true | _ => false end.

Definition in_inner (i : CTR_index) : bool :=
  match i with CTR_wstealsucc | CTR_lstealsucc | CTR_wsignal | CTR_lsignal => true | _ => false end.

Lemma slices_add w i k :
  u64 (slices (ctr (PR_ADD w i k))) = u64 (slices (ctr w) + if in_slices i then k else 0).
Proof.
  destruct (wrap_exact 64 (ctr w i + k)) as [q Hq].
  destruct i; unfold slices, PR_ADD; cbn [ctr in_slices]; decide_ctr;
    first [rewrite Hq; apply wrap_cong; [lia|exists q; lia]|f_equal; lia].
Qed.

Lemma inner_add w i k :
  u64 (inner_slices (ctr (PR_ADD w i k))) = u64 (inner_slices (ctr w) + if in_inner i then k else 0).
Proof.
  destruct (wrap_exact 64 (ctr w i + k)) as [q Hq].
  destruct i; unfold inner_slices, PR_ADD; cbn [ctr in_inner]; decide_ctr;
    first [rewrite Hq; apply wrap_cong; [lia|exists q; lia]|f_equal; lia].
Qed.

Lemma u64_add_l a a' b : u64 a = u64 a' -> u64 (a + b) = u64 (a' + b).
Proof. intros H. unfold wrap in *. rewrite <-Zplus_mod_idemp_l, H. apply Zplus_mod_idemp_l. Qed.

Lemma u64_add_r a b : u64 (a + u64 b) = u64 (a + b).
Proof. unfold wrap. apply Zplus_mod_idemp_r. Qed.

Lemma slices_add2 w i j k :
  u64 (slices (ctr (PR_ADD (PR_ADD w i k) j k))) =
    u64 (slices (ctr w) + (if in_slices i then k else 0) + if in_slices j then k else 0).
Proof. rewrite slices_add. apply u64_add_l, slices_add. Qed.

Lemma inner_add2 w i j k :
  u64 (inner_slices (ctr (PR_ADD (PR_ADD w i k) j k))) =
    u64 (inner_slices (ctr w) + (if in_inner i then k else 0) + if in_inner j then k else 0).
Proof. rewrite inner_add. apply u64_add_l, inner_add. Qed.

#[local] Opaque PR_ADD.

(** The inner slice an event also counts for. *)
Definition event_inner (l e : Z) : option CTR_index :=
  if e =? 1 then if l =? 0 then None else if l =? 1 then Some CTR_wstealsucc else Some CTR_lstealsucc
  else if e =? 8 then if l =? 1 then Some CTR_wsignal else Some CTR_lsignal
  else None.

Lemma is_event_cases e : is_event e = true -> e = 1 \/ e = 2 \/ e = 3 \/ e = 4 \/ e = 7 \/ e = 8 \/ e = 9.
Proof. unfold is_event. intros H. repeat (apply orb_prop in H as [H|H]); apply Z.eqb_eq in H; tauto. Qed.

(** One event accounts for the time since the last one, in one of the six slices, and
    possibly once more in an inner slice. *)
Lemma time_event_slices w now e :
  is_event e = true -> (lace_time_event w now e).2 = false ->
  let w' := (lace_time_event w now e).1 in
  time w' = now /\
  u64 (slices (ctr w')) = u64 (slices (ctr w) + (now - time w)) /\
  u64 (inner_slices (ctr w')) =
    u64 (inner_slices (ctr w) + match event_inner (level w) e with Some _ => now - time w | None => 0 end).
Proof.
  intros He Hm. cbv zeta. set (d := now - time w).
  assert (Hd : forall a, u64 (a + u64 d) = u64 (a + d)) by (intros; apply u64_add_r).
  destruct (is_event_cases e He) as [-> |[-> |[-> |[-> |[-> |[-> | -> ]]]]]]; unfold lace_time_event in *; simpl in *; fold d;
    unfold event_inner; cbn [Z.eqb Pos.eqb];
    repeat case_match; simplify_eq/=; split_and!; try done;
    first [rewrite slices_add2|rewrite inner_add2|rewrite slices_add|rewrite inner_add];
    cbn [in_slices in_inner]; by rewrite ?Z.add_0_r, ?Hd.
Qed.

Lemma time_events_slices w es :
  Forall (fun '(now, e) => is_event e = true) es -> (time_events w es).2 = false ->
  let w' := (time_events w es).1 in
  u64 (slices (ctr w')) = u64 (slices (ctr w) + (time w' - time w)).
Proof.
  revert w. induction es as [|[now e] es IH]; intros w Hes Hm; simpl in *.
  - by rewrite Z.sub_diag, Z.add_0_r.
  - apply Forall_cons in Hes as [He Hes].
    pose proof (time_event_slices w now e He) as Hev. destruct (lace_time_event w now e) as [w1 msg]. simpl in *.
    specialize (IH w1 Hes). destruct (time_events w1 es) as [w2 msg']. simpl in *.
    apply orb_false_iff in Hm as [-> ->]. destruct Hev as (Ht & Hs & _); [done|]. rewrite IH by done.
    rewrite (u64_add_l _ _ _ Hs), Ht. f_equal. lia.
Qed.

(** C35: the six slices of the pie times partition the time: for every sequence of events for
    which the code does not report a level error, the slices of a worker grow (modulo 2^64)
    by exactly the time between the first and the last event; what
    [lace_count_report_file] prints as total time adds the inner slices a second time. *)
Theorem pie_times_partition w es :
  Forall (fun '(now, e) => is_event e = true) es -> (time_events w es).2 = false ->
  let w' := (time_events w es).1 in
  u64 (slices (ctr w')) = u64 (slices (ctr w) + (time w' - time w)) /\
  sum_count (ctr w') = u64 (slices (ctr w) + (time w' - time w) + inner_slices (ctr w')).
Proof.
  intros Hes Hm w'. pose proof (time_events_slices w es Hes Hm) as Hs. cbv zeta in Hs. fold w' in Hs.
  split; [done|]. rewrite <-(u64_add_l _ _ (inner_slices (ctr w')) Hs).
  unfold sum_count, slices, inner_slices. f_equal. lia.
Qed.

Definition zero_counters : counters := mkCounters (fun _ => 0) 0 0.

(** Startup until 10, a failed steal until 20, a successful one until 30: the report prints
    a total of 40. *)
Lemma pie_times_partition_witness :
  let w' := (time_events zero_counters [(10, 1); (20, 7); (30, 1)]).1 in
  time w' = 30 /\ u64 (slices (ctr w')) = 30 /\ sum_count (ctr w') = 40.
Proof.
  destruct (pie_times_partition zero_counters [(10, 1); (20, 7); (30, 1)]) as [H1 H2].
  - repeat constructor.
  - reflexivity.
  - cbv zeta in *. rewrite H1, H2. vm_compute. repeat split.
Defined.

(** The totals of the report are the sums over all workers. *)
Lemma ctr_all_sum ws j : ctr_all ws j = u64 (foldr Z.add 0 ((fun w => ctr w j) <$> ws)).
Proof.
  unfold ctr_all. assert (H : forall all, u64 (all j) = all j ->
    foldl (fun all w j => u64 (all j + ctr w j)) all ws j = u64 (all j + foldr Z.add 0 ((fun w => ctr w j) <$> ws))).
  { induction ws as [|w ws IH]; intros all Ha; csimpl; [by rewrite Z.add_0_r, Ha|].
    rewrite IH by (by rewrite wrap_wrap). rewrite (Z.add_comm (u64 _)), u64_add_r. f_equal. lia. }
  by rewrite H.
Qed.

Lemma clear_counters_zero w j : ctr (clear_counters w) j = 0.
Proof. by destruct j. Qed.

Lemma reset_lookup clock us st i w :
  workers_p st !! i = Some w ->
  exists w', workers_p (lace_count_reset clock us st) !! i = Some w' /\ time w' = clock i /\
    (forall j, ctr w' j = 0) /\ level w' = if (i =? 0)%nat then level w else 0.
Proof.
  intros Hw. simpl. rewrite list_lookup_imap, list_lookup_fmap, Hw. simpl. eexists. split; [done|].
  unfold restart_clock. destruct (i =? 0)%nat; simpl; split_and!; try done; apply clear_counters_zero.
Qed.

Lemma reset_inv clock us st i w' :
  workers_p (lace_count_reset clock us st) !! i = Some w' -> time w' = clock i /\ forall j, ctr w' j = 0.
Proof.
  intros Hw'. destruct (workers_p st !! i) as [w|] eqn:Hw.
  - destruct (reset_lookup clock us st i w Hw) as (w1 & Hw1 & Ht & Hc & _). rewrite Hw' in Hw1. by injection Hw1 as ->.
  - simpl in Hw'. by rewrite list_lookup_imap, list_lookup_fmap, Hw in Hw'.
Qed.

Lemma u64_sum6 a b c d e f : u64 (u64 a + u64 b + u64 c + u64 d + u64 e + u64 f) = u64 (a + b + c + d + e + f).
Proof.
  destruct (wrap_exact 64 a) as [qa ->], (wrap_exact 64 b) as [qb ->], (wrap_exact 64 c) as [qc ->],
    (wrap_exact 64 d) as [qd ->], (wrap_exact 64 e) as [qe ->], (wrap_exact 64 f) as [qf ->].
  apply wrap_cong; [lia|]. exists (qa + qb + qc + qd + qe + qf). lia.
Qed.

Lemma slices_sum ws :
  u64 (slices (ctr_all ws)) = u64 (foldr Z.add 0 ((fun w => slices (ctr w)) <$> ws)).
Proof.
  unfold slices. rewrite !ctr_all_sum, u64_sum6. f_equal. induction ws as [|w ws IH]; csimpl; [done|]. rewrite <-IH. lia.
Qed.

(** Every worker goes through its own sequence of events. *)
Definition run_workers (ws : list counters) (ess : list (list (Z * Z))) : list counters :=
  zip_with (fun w es => (time_events w es).1) ws ess.

(** The events are those of the code, and none is reported as an error. *)
Definition events_ok (w : counters) (es : list (Z * Z)) : Prop :=
  Forall (fun '(now, e) => is_event e = true) es /\ (time_events w es).2 = false.

Lemma run_workers_slices ws ess :
  Forall2 events_ok ws ess -> (forall w j, w ∈ ws -> ctr w j = 0) ->
  u64 (foldr Z.add 0 ((fun w => slices (ctr w)) <$> run_workers ws ess)) =
  u64 (foldr Z.add 0 (zip_with (fun w0 w => time w - time w0) ws (run_workers ws ess))).
Proof.
  intros H. induction H as [|w es ws ess [He Hm] H IH]; intros Hz; csimpl; [done|].
  pose proof (time_events_slices w es He Hm) as Hs. cbv zeta in Hs.
  assert (Hw : slices (ctr w) = 0) by (unfold slices; rewrite !Hz by (by left); done). rewrite Hw, Z.add_0_l in Hs.
  rewrite (u64_add_l _ _ _ Hs), (Z.add_comm (time _ - time w)). unfold run_workers in IH.
  rewrite (Z.add_comm (time _ - time w) (foldr _ _ (zip_with _ _ _))).
  apply u64_add_l, IH. intros w' j Hw'. apply Hz. by right.
Qed.

(** C36: after [lace_count_reset] every counter of every worker is 0, worker 0 keeps its level
    and the others are back at level 0, and the two timers are set.  From then on the totals of
    the report account for all the time of all the workers: if each worker goes through any
    sequence of events for which the code reports no error, the six slices of the totals add
    up (modulo 2^64) to the time from the reading of the clock by the reset of each worker to
    its last event, summed over all workers. *)
Theorem reset_then_report clock us st ess :
  let st1 := lace_count_reset clock us st in
  (forall i w, workers_p st !! i = Some w -> exists w', workers_p st1 !! i = Some w' /\ time w' = clock i /\
     (forall j, ctr w' j = 0) /\ level w' = if (i =? 0)%nat then level w else 0) /\
  us_elapsed_timer st1 = us /\ count_at_start st1 = clock (length (workers_p st)) /\
  (Forall2 events_ok (workers_p st1) ess ->
   let ws := run_workers (workers_p st1) ess in
   u64 (slices (ctr_all ws)) = u64 (foldr Z.add 0 (imap (fun i w => time w - clock i) ws))).
Proof.
  cbv zeta. split_and!; [apply reset_lookup|done|simpl; by rewrite length_imap, length_fmap|].
  intros Hev. rewrite slices_sum, run_workers_slices; [|done|].
  - f_equal. f_equal. apply list_eq. intros i. rewrite lookup_zip_with, list_lookup_imap. unfold run_workers.
    rewrite lookup_zip_with. destruct (workers_p (lace_count_reset clock us st) !! i) as [w|] eqn:Hw; [|done].
    destruct (reset_inv _ _ _ _ _ Hw) as [<- _]. by destruct (ess !! i).
  - intros w j [i Hw]%list_elem_of_lookup. by apply (reset_inv _ _ _ _ _ Hw).
Qed.

Definition two_stats : lace_stats := mkStats [mkCounters (fun _ => 7) 3 1; mkCounters (fun _ => 9) 4 2] 0 0.

(** Worker 0 steals, works and signals; worker 1 starts up and fails to steal. *)
Lemma reset_then_report_witness :
  let st1 := lace_count_reset (fun i => 100 + Z.of_nat i) 5 two_stats in
  u64 (slices (ctr_all (run_workers (workers_p st1) [[(110, 1); (150, 2); (160, 8)]; [(121, 1); (131, 7)]]))) = 90.
Proof.
  destruct (reset_then_report (fun i => 100 + Z.of_nat i) 5 two_stats [[(110, 1); (150, 2); (160, 8)]; [(121, 1); (131, 7)]])
    as (_ & _ & _ & H).
  cbv zeta in *. rewrite H; [vm_compute; reflexivity|]. repeat constructor.
Defined.
