(* ===== verification/Report.v ===== *)
(** * The report of the event counters

    [lace_count_report_file] of src/src/lace.c for a build with all counters enabled, as
    the list of lines it prints.  A line has the integers that are formatted; times are
    printed as ticks divided by the ticks per millisecond, which is part of the report. *)

From S2P Require Export Counters.

(** Line of one worker, or of the sums. *)
Inductive who := Of_worker (i : nat) | Sum.

Inductive pie_slice :=
| Startup_time | Steal_work | Leap_work | Steal_overhead | Leap_overhead
| Steal_search | Leap_search | Exit_time.

Inductive report_line :=
| Line_tasks (w : who) (tasks : Z)
| Line_steals (w : who) (steals busy tries leaps leap_busy leap_tries : Z)
| Line_tasks_per_steal (w : who) (q : Z)
| Line_splits (w : who) (shrinks grows requests : Z)
| Line_frequency (count_per_ms : Z)
| Line_total (sum_count count_per_ms : Z)
| Line_pie (s : pie_slice) (w : who) (ticks count_per_ms : Z)
| Line_blank.

(** [us_elapsed_start] and [us_elapsed]: microseconds from [CLOCK_MONOTONIC]. *)
Definition us_now (tv_sec tv_nsec : Z) : Z := u64 (tv_sec * 1000000 + tv_nsec / 1000).
Definition us_elapsed (us_elapsed_timer now : Z) : Z := u64 (now - us_elapsed_timer).

(** [None]: integer division by zero. *)
Definition div_checked (x y : Z) : option Z := if y =? 0 then None else Some (x / y).

(** [for (i=0;i<n_workers;i++) line(i)]; the line for the sums follows. *)
Fixpoint per_worker_from (i : nat) (ws : list counters) (line : nat -> (CTR_index -> Z) -> option (list report_line)) :
    option (list report_line) :=
  match ws with
  | [] => Some []
  | w :: ws' => l ← line i (ctr w); ls ← per_worker_from (S i) ws' line; Some (l ++ ls)
  end.

Definition per_worker := per_worker_from 0.

Definition tasks_line (w : who) (c : CTR_index -> Z) : option (list report_line) := Some [Line_tasks w (c CTR_tasks)].

Definition steals_line (w : who) (c : CTR_index -> Z) : option (list report_line) :=
  Some [Line_steals w (c CTR_steals) (c CTR_steal_busy) (c CTR_steal_tries)
          (c CTR_leaps) (c CTR_leap_busy) (c CTR_leap_tries)].

Definition tasks_per_steal_line (w : who) (c : CTR_index -> Z) : option (list report_line) :=
  if u64 (c CTR_steals + c CTR_leaps) >? 0 then
    q ← div_checked (c CTR_tasks) (u64 (c CTR_steals + c CTR_leaps));
    Some [Line_tasks_per_steal w q]
  else Some [].

Definition splits_line (w : who) (c : CTR_index -> Z) : option (list report_line) :=
  Some [Line_splits w (c CTR_split_shrink) (c CTR_split_grow) (c CTR_split_req)].

Definition pie_lines (count_per_ms : Z) (w : who) (c : CTR_index -> Z) : list report_line :=
  let line s ticks := Line_pie s w ticks count_per_ms in
  [line Startup_time (c CTR_init);
   line Steal_work (c CTR_wapp);
   line Leap_work (c CTR_lapp);
   line Steal_overhead (u64 (c CTR_wstealsucc + c CTR_wsignal));
   line Leap_overhead (u64 (c CTR_lstealsucc + c CTR_lsignal));
   line Steal_search (u64 (u64 (c CTR_wsteal - c CTR_wstealsucc) - c CTR_wsignal));
   line Leap_search (u64 (u64 (c CTR_lsteal - c CTR_lstealsucc) - c CTR_lsignal));
   line Exit_time (c CTR_close)].

(** The lines of the workers, the line of the sums and an empty line. *)
Definition report_section (ws : list counters) (line : who -> (CTR_index -> Z) -> option (list report_line)) :
    option (list report_line) :=
  workers ← per_worker ws (fun i => line (Of_worker i));
  sums ← line Sum (ctr_all ws);
  Some (workers ++ sums ++ [Line_blank]).

(** [count_at_end] is the reading of the clock, [us] the time in microseconds that
    [us_elapsed] reads. *)
Definition lace_count_report_file (st : lace_stats) (count_at_end us : Z) : option (list report_line) :=
  let ws := workers_p st in
  tasks ← report_section ws tasks_line;
  steals ← report_section ws steals_line;
  tasks_per_steal ← report_section ws tasks_per_steal_line;
  splits ← report_section ws splits_line;
  count_per_ms ← div_checked (u64 (count_at_end - count_at_start st)) (us_elapsed (us_elapsed_timer st) us / 1000);
  pies ← per_worker ws (fun i c => Some (pie_lines count_per_ms (Of_worker i) c ++ [Line_blank]));
  Some (tasks ++ steals ++ tasks_per_steal ++ splits ++
    [Line_frequency count_per_ms; Line_total (sum_count (ctr_all ws)) count_per_ms; Line_blank] ++
    pies ++ pie_lines count_per_ms Sum (ctr_all ws) ++ [Line_blank]).

(** ** Properties *)

Lemma per_worker_some ws line : (forall i c, is_Some (line i c)) -> is_Some (per_worker ws line).
Proof.
  intros H. unfold per_worker. generalize 0%nat. induction ws as [|w ws IH]; intros i; simpl; [by eexists|].
  destruct (H i (ctr w)) as [l ->], (IH (S i)) as [ls ->]. by eexists.
Qed.

Lemma section_some ws line : (forall w c, is_Some (line w c)) -> is_Some (report_section ws line).
Proof.
  intros H. unfold report_section. destruct (per_worker_some ws (fun i => line (Of_worker i))) as [l ->]; [auto|]. simpl.
  destruct (H Sum (ctr_all ws)) as [l' ->]. by eexists.
Qed.

(** The guard keeps the division of the tasks per steal from failing. *)
Lemma tasks_per_steal_some w c : is_Some (tasks_per_steal_line w c).
Proof.
  unfold tasks_per_steal_line, div_checked. rewrite Z.gtb_ltb. destruct (Z.ltb_spec 0 (u64 (c CTR_steals + c CTR_leaps))); [|by eexists].
  destruct (Z.eqb_spec (u64 (c CTR_steals + c CTR_leaps)) 0); [lia|]. by eexists.
Qed.

(** C33: the report fails, with a division by zero, exactly if less than a millisecond has
    passed since the counters were reset: [us_elapsed() / 1000] is then 0.  The other
    divisions, of tasks per steal for each worker and for the sums, never fail. *)
Theorem report_division st count_at_end us :
  lace_count_report_file st count_at_end us = None <-> us_elapsed (us_elapsed_timer st) us < 1000.
Proof.
  unfold lace_count_report_file.
  destruct (section_some (workers_p st) tasks_line) as [? ->]; [by eexists|]. simpl.
  destruct (section_some (workers_p st) steals_line) as [? ->]; [by eexists|]. simpl.
  destruct (section_some (workers_p st) tasks_per_steal_line) as [? ->]; [apply tasks_per_steal_some|]. simpl.
  destruct (section_some (workers_p st) splits_line) as [? ->]; [by eexists|]. simpl. unfold div_checked.
  assert (Hr : 0 <= us_elapsed (us_elapsed_timer st) us) by (apply wrap_range; lia). set (d := us_elapsed _ _) in *. clearbody d.
  destruct (Z.eqb_spec (d / 1000) 0) as [He|He]; simpl.
  - split; [|done]. intros _. pose proof (Z.div_mod d 1000). pose proof (Z.mod_pos_bound d 1000). lia.
  - match goal with |- context [per_worker ?ws ?line] => destruct (per_worker_some ws line) as [? ->]; [by eexists|] end.
    simpl. split; [done|]. intros Hlt. by rewrite Z.div_small in He.
Qed.

(** *** What the search times mean *)

(** The part of the steal time that is neither a successful steal nor signalling. *)
Definition steal_search (c : CTR_index -> Z) : Z := u64 (u64 (c CTR_wsteal - c CTR_wstealsucc) - c CTR_wsignal).
Definition leap_search (c : CTR_index -> Z) : Z := u64 (u64 (c CTR_lsteal - c CTR_lstealsucc) - c CTR_lsignal).

(** The time of the failed steals (event 7) of a worker that is not leapfrogging; of the
    failed steals while leapfrogging and of the ends of leapfrogging (event 4). *)
Fixpoint failed_steals (w : counters) (es : list (Z * Z)) : Z :=
  match es with
  | [] => 0
  | (now, e) :: es' =>
      (if (e =? 7) && (level w =? 1) then now - time w else 0) +
      failed_steals (lace_time_event w now e).1 es'
  end.

Fixpoint failed_leaps (w : counters) (es : list (Z * Z)) : Z :=
  match es with
  | [] => 0
  | (now, e) :: es' =>
      (if ((e =? 7) && negb (level w =? 0) && negb (level w =? 1)) || ((e =? 4) && negb (level w =? 1))
       then now - time w else 0) +
      failed_leaps (lace_time_event w now e).1 es'
  end.

#[local] Arguments wrap : simpl never.

(** Counters that are congruent modulo 2^64. *)
Lemma u64_cong x y : (exists q, x = y + q * 2 ^ 64) -> u64 x = u64 y.
Proof. by apply wrap_cong. Qed.

Lemma steal_search_exact c : steal_search c = u64 (c CTR_wsteal - c CTR_wstealsucc - c CTR_wsignal).
Proof.
  unfold steal_search. destruct (wrap_exact 64 (c CTR_wsteal - c CTR_wstealsucc)) as [q ->].
  apply u64_cong. exists q. lia.
Qed.

Lemma leap_search_exact c : leap_search c = u64 (c CTR_lsteal - c CTR_lstealsucc - c CTR_lsignal).
Proof.
  unfold leap_search. destruct (wrap_exact 64 (c CTR_lsteal - c CTR_lstealsucc)) as [q ->].
  apply u64_cong. exists q. lia.
Qed.

(** How much adding [k] to counter [i] changes the search times. *)
Definition steal_weight (i : CTR_index) : Z :=
  match i with CTR_wsteal => 1 | CTR_wstealsucc | CTR_wsignal => -1 | _ => 0 end.
Definition leap_weight (i : CTR_index) : Z :=
  match i with CTR_lsteal => 1 | CTR_lstealsucc | CTR_lsignal => -1 | _ => 0 end.

Lemma steal_search_add w i k :
  steal_search (ctr (PR_ADD w i k)) = u64 (steal_search (ctr w) + steal_weight i * k).
Proof.
  rewrite !steal_search_exact.
  destruct (wrap_exact 64 (ctr w CTR_wsteal - ctr w CTR_wstealsucc - ctr w CTR_wsignal)) as [q' ->].
  destruct (wrap_exact 64 (ctr w i + k)) as [q Hq].
  destruct i; unfold PR_ADD; cbn [ctr steal_weight]; decide_ctr; rewrite ?Hq;
    first [apply u64_cong; exists (- q'); lia|apply u64_cong; exists (q - q'); lia|apply u64_cong; exists (- q - q'); lia].
Qed.

Lemma leap_search_add w i k :
  leap_search (ctr (PR_ADD w i k)) = u64 (leap_search (ctr w) + leap_weight i * k).
Proof.
  rewrite !leap_search_exact.
  destruct (wrap_exact 64 (ctr w CTR_lsteal - ctr w CTR_lstealsucc - ctr w CTR_lsignal)) as [q' ->].
  destruct (wrap_exact 64 (ctr w i + k)) as [q Hq].
  destruct i; unfold PR_ADD; cbn [ctr leap_weight]; decide_ctr; rewrite ?Hq;
    first [apply u64_cong; exists (- q'); lia|apply u64_cong; exists (q - q'); lia|apply u64_cong; exists (- q - q'); lia].
Qed.

#[local] Opaque PR_ADD steal_search leap_search.

(** Time that is added to one counter and taken off by another. *)
Lemma u64_cancel a b c x : u64 a = a -> b + c = 0 -> u64 (u64 (a + b * x) + c * x) = a.
Proof.
  intros Ha Hbc. rewrite <-Ha at 2. destruct (wrap_exact 64 (a + b * x)) as [q ->].
  apply u64_cong. exists q. nia.
Qed.

Lemma search_wrapped (c : CTR_index -> Z) :
  u64 (steal_search c) = steal_search c /\ u64 (leap_search c) = leap_search c.
Proof. rewrite steal_search_exact, leap_search_exact. by rewrite !wrap_wrap. Qed.

(** One event changes the search times by its own duration or not at all. *)
Lemma time_event_search w now e :
  let w' := (lace_time_event w now e).1 in
  steal_search (ctr w') =
    u64 (steal_search (ctr w) + if (e =? 7) && (level w =? 1) then now - time w else 0) /\
  leap_search (ctr w') =
    u64 (leap_search (ctr w) +
         if ((e =? 7) && negb (level w =? 0) && negb (level w =? 1)) || ((e =? 4) && negb (level w =? 1))
         then now - time w else 0).
Proof.
  cbv zeta. destruct (search_wrapped (ctr w)) as [Hs Hl].
  destruct (wrap_exact 64 (now - time w)) as [q Hq].
  unfold lace_time_event.
  repeat match goal with
  | |- context [e =? ?n] => destruct (Z.eqb_spec e n) as [->|]; cbn [Z.eqb Pos.eqb andb orb negb fst]
  end; repeat case_match; simplify_eq/=; try lia; split;
    rewrite ?steal_search_add, ?leap_search_add; cbn [steal_weight leap_weight];
    rewrite ?Z.mul_0_l, ?Z.add_0_r, ?Hs, ?Hl; try done;
    first [by apply u64_cancel|rewrite Z.mul_1_l, Hq; apply u64_cong; exists q; lia].
Qed.

Lemma failed_times_from w es :
  let w' := (time_events w es).1 in
  steal_search (ctr w') = u64 (steal_search (ctr w) + failed_steals w es) /\
  leap_search (ctr w') = u64 (leap_search (ctr w) + failed_leaps w es).
Proof.
  revert w. induction es as [|[now e] es IH]; intros w; cbn [time_events failed_steals failed_leaps].
  - rewrite !Z.add_0_r. by destruct (search_wrapped (ctr w)) as [-> ->].
  - destruct (time_event_search w now e) as [Hs Hl]. destruct (lace_time_event w now e) as [w1 msg].
    specialize (IH w1). destruct (time_events w1 es) as [w2 msg']. cbn [fst] in *.
    destruct IH as [-> ->]. rewrite Hs, Hl. split; apply u64_cong;
      [destruct (wrap_exact 64 (steal_search (ctr w) + if (e =? 7) && (level w =? 1) then now - time w else 0)) as [q ->]
      |match goal with |- context [u64 ?x + _] => destruct (wrap_exact 64 x) as [q ->] end];
      exists q; lia.
Qed.

(** C34: what the report prints as search time is what the word says: for every sequence of
    events, the "Steal search" time of a worker is the time of its failed steals and the
    "Leap search" time that of its failed steals while leapfrogging and of the last part of
    each leap (modulo 2^64, starting from reset counters); the subtractions never take off
    more than was added. *)
Theorem search_times es count_per_ms i :
  let w' := (time_events zero_counters es).1 in
  Line_pie Steal_search i (u64 (failed_steals zero_counters es)) count_per_ms ∈ pie_lines count_per_ms i (ctr w') /\
  Line_pie Leap_search i (u64 (failed_leaps zero_counters es)) count_per_ms ∈ pie_lines count_per_ms i (ctr w').
Proof.
  cbv zeta. destruct (failed_times_from zero_counters es) as [Hs Hl].
  change (steal_search (ctr zero_counters)) with 0 in Hs. change (leap_search (ctr zero_counters)) with 0 in Hl.
  rewrite Z.add_0_l in Hs, Hl. rewrite <-Hs, <-Hl. unfold pie_lines.
  split; rewrite !elem_of_cons; tauto.
Qed.
