(* ===== verification/Layout.v ===== *)
(** * Memory layout

    The sizes and paddings of src/src/lace.h and the allocations of [lace_start]
    (src/src/lace.c) on a 64-bit machine, with and without the event counters: [PAD], and the
    structs [Task], [Worker], [WorkerP] and [worker_data] with their offsets. *)

From S2P Require Export State.

Definition LINE_SIZE : Z := 64.
Definition P_SZ : Z := 8.

(** [( (b) - ((x)%(b)) ) & ((b)-1)] on [size_t] *)
Definition PAD (x b : Z) : Z := Z.land (u64 (b - x mod b)) (u64 (b - 1)).

(** ** Structs

    The fields of a struct as their sizes and alignments; every field is at the next
    multiple of its alignment, and the size of the struct is a multiple of the largest
    alignment. *)
Definition field : Type := Z * Z.

Definition align_up (o a : Z) : Z := (o + a - 1) / a * a.

Fixpoint offsets (fs : list field) (o : Z) : list Z :=
  match fs with
  | [] => []
  | (size, align) :: fs' => align_up o align :: offsets fs' (align_up o align + size)
  end.

Fixpoint fields_end (fs : list field) (o : Z) : Z :=
  match fs with
  | [] => o
  | (size, align) :: fs' => fields_end fs' (align_up o align + size)
  end.

Definition alignof (fs : list field) : Z := foldr (fun f a => Z.max (snd f) a) 1 fs.
Definition sizeof (fs : list field) : Z := align_up (fields_end fs 0) (alignof fs).
Definition offsetof (fs : list field) (i : nat) : Z := nth i (offsets fs 0) 0.

Definition LACE_TASKSIZE (words : Z) : Z := words * P_SZ.

(** [f], [thief], [d[LACE_TASKSIZE]] *)
Definition Task_fields (words : Z) : list field := [(P_SZ, P_SZ); (P_SZ, P_SZ); (LACE_TASKSIZE words, 1)].

(** [dq], [ts], [allstolen], [pad1], [movesplit] *)
Definition Worker_fields : list field :=
  [(P_SZ, P_SZ); (8, 8); (1, 1); (PAD (P_SZ + 8 + 1) LINE_SIZE, 1); (1, 1)].

(** The number of counters: lace_config.h defines all the [LACE_COUNT_...], as 0 or 1, so
    [CTR_index] always has all of them. *)
Definition CTR_MAX : Z := 22.

(** [dq], [split], [end], [_public], [rng], [seed], [worker], [allstolen], with
    [LACE_COUNT_EVENTS] also [ctr], [time] and [level], and [pu] *)
Definition WorkerP_fields (count_events : bool) : list field :=
  [(P_SZ, P_SZ); (P_SZ, P_SZ); (P_SZ, P_SZ); (P_SZ, P_SZ); (8, 8); (4, 4); (2, 2); (1, 1)] ++
  (if count_events then [(8 * CTR_MAX, 8); (8, 8); (4, 4)] else []) ++
  [(2, 2)].

(** [worker_public], [pad1], [worker_private], [pad2]; the deque array follows. *)
Definition worker_data_fields (count_events : bool) : list field :=
  let priv := WorkerP_fields count_events in
  [(sizeof Worker_fields, alignof Worker_fields); (PAD (sizeof Worker_fields) LINE_SIZE, 1);
   (sizeof priv, alignof priv); (PAD (sizeof priv) LINE_SIZE, 1)].

(** The offset of [deque[i]] in a [worker_data], and what [lace_start] computes. *)
Definition deque_offset (count_events : bool) (words i : Z) : Z :=
  sizeof (worker_data_fields count_events) + sizeof (Task_fields words) * i.

Definition workers_memory_size (count_events : bool) (words dqsize : Z) : Z :=
  u64 (sizeof (worker_data_fields count_events) + sizeof (Task_fields words) * dqsize).

(** [to_allocate = n_workers * sizeof(void* ); (to_allocate+LINE_SIZE-1) & (~(LINE_SIZE-1))] *)
Definition to_allocate (n : Z) : Z :=
  Z.land (u64 (u64 (n * P_SZ) + LINE_SIZE - 1)) (u64 (Z.lnot (LINE_SIZE - 1))).

Lemma sizeof_worker_data count_events :
  sizeof (worker_data_fields count_events) = if count_events then 384 else 192.
Proof. by destruct count_events. Qed.

Lemma sizeof_Task words : 0 <= words -> sizeof (Task_fields words) = 16 + 8 * words.
Proof.
  intros Hw. unfold sizeof. change (alignof (Task_fields words)) with 8.
  replace (fields_end (Task_fields words) 0) with (16 + words * 8).
  - unfold align_up. replace (16 + words * 8 + 8 - 1) with (7 + (2 + words) * 8) by lia.
    rewrite Z.div_add by lia. change (7 / 8) with 0. lia.
  - unfold Task_fields, LACE_TASKSIZE, P_SZ. cbn [fields_end]. change (align_up (align_up (0) 8 + 8) 8 + 8) with 16.
    unfold align_up. rewrite Z.div_1_r. lia.
Qed.

(** C26: with the task size of lace.h (6 words) or lace14.h (14 words), with and without the
    event counters, the [static_assert] on [Task] holds, the memory of a worker is a whole
    number of cache lines, and slot [i] of a deque with [dqsize] slots starts on a line of its
    own inside that memory.  The flags a thief writes ([movesplit]) and reads ([allstolen],
    [ts]), the private data and the deque are on different lines. *)
Theorem deque_layout count_events words dqsize i :
  words = 6 \/ words = 14 ->
  sizeof (Task_fields words) * dqsize + sizeof (worker_data_fields count_events) < 2 ^ 64 -> 0 <= i < dqsize ->
  sizeof (Task_fields words) mod LINE_SIZE = 0 /\
  workers_memory_size count_events words dqsize mod LINE_SIZE = 0 /\
  deque_offset count_events words i mod LINE_SIZE = 0 /\
  sizeof (worker_data_fields count_events) <= deque_offset count_events words i /\
  deque_offset count_events words i + sizeof (Task_fields words) <= workers_memory_size count_events words dqsize /\
  deque_offset count_events words (i + 1) = deque_offset count_events words i + sizeof (Task_fields words) /\
  (offsetof Worker_fields 2 / LINE_SIZE < offsetof Worker_fields 4 / LINE_SIZE) /\
  (sizeof Worker_fields - 1) / LINE_SIZE < offsetof (worker_data_fields count_events) 2 / LINE_SIZE /\
  (offsetof (worker_data_fields count_events) 2 + sizeof (WorkerP_fields count_events) - 1) / LINE_SIZE <
    deque_offset count_events words 0 / LINE_SIZE.
Proof.
  intros Hw Hsz Hi. unfold workers_memory_size, deque_offset.
  assert (Hd : exists d, 0 < d /\ sizeof (worker_data_fields count_events) = 64 * d).
  { rewrite sizeof_worker_data. destruct count_events; [by exists 6|by exists 3]. }
  assert (Hline : exists l, 0 < l /\ sizeof (Task_fields words) = 64 * l).
  { rewrite sizeof_Task by lia. destruct Hw as [-> | ->]; [by exists 1|by exists 2]. }
  destruct Hd as (d & Hd & Hds), Hline as (l & Hl & Hls). rewrite !Hls in *. unfold LINE_SIZE.
  assert (Hmul : forall x, (64 * d + 64 * l * x) mod 64 = 0).
  { intros x. replace (64 * d + 64 * l * x) with ((d + l * x) * 64) by lia. apply Z.mod_mul. lia. }
  rewrite Hds in *. rewrite wrap_id by nia.
  split_and!; [|apply Hmul|apply Hmul|nia|nia|lia|reflexivity|by destruct count_events|].
  - rewrite Z.mul_comm. apply Z.mod_mul. lia.
  - rewrite Z.mul_0_r, Z.add_0_r, <-Hds. by destruct count_events.
Qed.

Lemma deque_layout_witness : deque_offset false 6 99999 + 64 <= workers_memory_size false 6 100000.
Proof.
  pose proof (deque_layout false 6 100000 99999 (or_introl eq_refl)) as H.
  apply H; [vm_compute; reflexivity|lia].
Defined.

Lemma to_allocate_bounds n :
  0 <= n -> n * P_SZ + LINE_SIZE < 2 ^ 64 ->
  to_allocate n mod LINE_SIZE = 0 /\ n * P_SZ <= to_allocate n < n * P_SZ + LINE_SIZE.
Proof.
  unfold to_allocate, P_SZ, LINE_SIZE. intros Hn Hb. rewrite !(wrap_id 64 (n * 8)), !wrap_id by lia.
  set (x := n * 8 + 64 - 1). change (64 - 1) with 63.
  assert (Hland : Z.land x (u64 (Z.lnot 63)) = x / 64 * 64).
  { unfold wrap. change (Z.lnot 63) with (Z.lnot (Z.ones 6)). rewrite <-(Z.land_ones _ 64) by lia.
    rewrite (Z.land_comm (Z.lnot _)), Z.land_assoc, (Z.land_ones x) by lia.
    rewrite (Z.mod_small x) by (unfold x; lia). rewrite <-Z.ldiff_land, Z.ldiff_ones_r by lia.
    rewrite Z.shiftl_mul_pow2, Z.shiftr_div_pow2 by lia. reflexivity. }
  rewrite Hland. split; [apply Z.mod_mul; lia|].
  pose proof (Z.div_mod x 64). pose proof (Z.mod_pos_bound x 64). unfold x in *. lia.
Qed.

(** C37: the arrays of worker pointers are allocated with the least multiple of the cache line
    size that has room for all of them. *)
Theorem to_allocate_enough n :
  0 <= n -> n * P_SZ + LINE_SIZE < 2 ^ 64 ->
  to_allocate n mod LINE_SIZE = 0 /\ n * P_SZ <= to_allocate n < n * P_SZ + LINE_SIZE.
Proof. apply to_allocate_bounds. Qed.

Lemma to_allocate_enough_witness : to_allocate 9 mod LINE_SIZE = 0 /\ 9 * P_SZ <= to_allocate 9.
Proof.
  destruct (to_allocate_enough 9) as (H1 & H2 & _); [lia|vm_compute; reflexivity|by split].
Defined.
