(* ===== verification/Startup.v ===== *)
(** * Settings and the parameters of [lace_start]

    The global settings of src/src/lace.c ([stacksize], [default_dqsize], [verbosity],
    [n_workers]), the functions that set and read them, and how [lace_start] chooses the
    number of workers, the size of the deques and the stack size of the threads.  What the
    operating system reports (the number of processors and the stack limit) is an
    argument.  Runtime.v has the rest of [lace_start]. *)

From S2P Require Export Layout.

Record settings := mkSettings {
  stacksize : Z;
  default_dqsize : Z;
  verbosity : Z;
  g_workers : Z;             (* n_workers *)
}.

(** The initial values of the static variables. *)
Definition initial_settings : settings := mkSettings 0 100000 0 0.

Definition lace_set_verbosity (level : Z) (g : settings) : settings :=
  mkSettings (stacksize g) (default_dqsize g) level (g_workers g).

Definition lace_set_stacksize (new_stacksize : Z) (g : settings) : settings :=
  mkSettings new_stacksize (default_dqsize g) (verbosity g) (g_workers g).

Definition lace_get_stacksize (g : settings) : Z := stacksize g.

Definition lace_workers (g : settings) : Z := g_workers g.

(** The messages of a verbose start. *)
Inductive start_message :=
| Msg_initializing (n_pus n_workers : Z)
| Msg_startup (n_workers stacksize : Z).

(** [RLIMIT_STACK] or 16M, whichever is smallest, unless the client chose a size. *)
Definition thread_stacksize (g : settings) (rlim_cur : Z) : Z :=
  if negb (stacksize g =? 0) then stacksize g
  else if rlim_cur >? 16 * 1024 * 1024 then 16 * 1024 * 1024 else rlim_cur.

(** What [lace_start(_n_workers, dqsize)] passes on to the rest of the function. *)
Record start_params := mkStart {
  st_workers : Z;            (* threads that are created *)
  st_dqsize : Z;             (* slots of each deque *)
  st_memory : Z;             (* bytes for each worker *)
  st_arrays : Z;             (* bytes for each array of worker pointers *)
  st_stack : Z;              (* stack size of the threads *)
  st_messages : list start_message;
}.

Definition start_settings (count_events : bool) (words n_pus rlim_cur _n_workers dqsize : Z) (g : settings) :
    settings * start_params :=
  let n_workers := if _n_workers =? 0 then n_pus else _n_workers in
  let default' := if negb (dqsize =? 0) then dqsize else default_dqsize g in
  let dqsize' := if negb (dqsize =? 0) then dqsize else default_dqsize g in
  let g' := mkSettings (stacksize g) default' (verbosity g) n_workers in
  let messages := if negb (verbosity g =? 0)
                  then [Msg_initializing n_pus n_workers; Msg_startup n_workers (stacksize g)]
                  else [] in
  (g', mkStart n_workers dqsize' (workers_memory_size count_events words dqsize') (to_allocate n_workers)
         (thread_stacksize g rlim_cur) messages).

(** ** Properties *)

(** The task size is that of one of the headers, and the sizes in bytes fit in a [size_t]. *)
Definition fits (count_events : bool) (words n_pus _n_workers dqsize : Z) (g : settings) : Prop :=
  (words = 6 \/ words = 14) /\ 0 <= n_pus /\ 0 <= _n_workers /\
  0 <= dqsize /\ 0 <= default_dqsize g /\
  (16 + 8 * words) * (dqsize + default_dqsize g) + sizeof (worker_data_fields count_events) < 2 ^ 64 /\
  (n_pus + _n_workers) * P_SZ + LINE_SIZE < 2 ^ 64.

(** C27: [lace_start] uses the arguments it is given, the number of processors for 0 workers and
    the current default for deque size 0; the memory of each worker has room for exactly that
    many task slots after the worker data, the pointer arrays for that many workers, the
    threads get the stack size the client chose, or else the stack limit but not more than
    16M, and [lace_workers] and [lace_get_stacksize] report what was chosen.  A size that was
    passed once is the default from then on: the next [lace_start] with deque size 0 uses
    the size of this one. *)
Theorem start_parameters count_events words n_pus rlim_cur _n_workers dqsize g :
  fits count_events words n_pus _n_workers dqsize g ->
  let '(g', p) := start_settings count_events words n_pus rlim_cur _n_workers dqsize g in
  st_workers p = (if _n_workers =? 0 then n_pus else _n_workers) /\
  st_dqsize p = (if dqsize =? 0 then default_dqsize g else dqsize) /\
  st_memory p = deque_offset count_events words (st_dqsize p) /\
  st_workers p * P_SZ <= st_arrays p < st_workers p * P_SZ + LINE_SIZE /\
  st_stack p = (if stacksize g =? 0 then Z.min rlim_cur (2 ^ 24) else stacksize g) /\
  lace_workers g' = st_workers p /\ lace_get_stacksize g' = lace_get_stacksize g /\
  (forall n', st_dqsize (start_settings count_events words n_pus rlim_cur n' 0 g').2 = st_dqsize p).
Proof.
  intros (Hw & Hp & Hn & Hd & Hdd & Hmem & Harr). unfold start_settings. simpl.
  set (n := if _n_workers =? 0 then n_pus else _n_workers).
  assert (Hnb : 0 <= n /\ n * P_SZ + LINE_SIZE < 2 ^ 64) by (unfold n, P_SZ, LINE_SIZE in *; case_match; lia).
  destruct Hnb.
  set (d := if negb (dqsize =? 0) then dqsize else default_dqsize g).
  assert (Hdb : 0 <= d <= dqsize + default_dqsize g) by (unfold d; case_match; lia).
  split_and!; try done.
  - unfold d. by destruct (dqsize =? 0).
  - unfold workers_memory_size, deque_offset. apply wrap_id.
    rewrite sizeof_worker_data in *. rewrite sizeof_Task by lia. destruct count_events; nia.
  - by apply (to_allocate_bounds n).
  - by apply (to_allocate_bounds n).
  - unfold thread_stacksize. destruct (stacksize g =? 0); simpl; [|done].
    rewrite Z.gtb_ltb. destruct (Z.ltb_spec (16 * 1024 * 1024) rlim_cur); lia.
Qed.

Lemma start_parameters_witness :
  st_dqsize (start_settings false 6 8 (8 * 1024 * 1024) 0 0 (start_settings false 6 8 (8 * 1024 * 1024) 4 500 initial_settings).1).2 = 500.
Proof.
  assert (Hf : fits false 6 8 4 500 initial_settings) by (unfold fits; rewrite sizeof_worker_data; unfold P_SZ, LINE_SIZE; simpl; lia).
  destruct (start_parameters false 6 8 (8 * 1024 * 1024) 4 500 initial_settings Hf) as (_ & _ & _ & _ & _ & _ & _ & H).
  exact (H 0).
Defined.
