(* ===== verification/Rng.v ===== *)
(** * Random numbers and the choice of a victim

    [rng] (src/src/lace.c), the thread-local generator [LACE_TRNG] (src/src/lace.h)
    and the victim selection of [lace_steal_random] and [lace_steal_loop]. *)

From S2P Require Import Prelude.

(** [rng(&seed, max)]: the returned number and the new seed; [max] is a positive
    [int], converted to [uint32_t] by the remainder. *)
Definition rng (seed max : Z) : Z * Z :=
  let next := u32 (seed * 1103515245) in
  let next := u32 (next + 12345) in
  (next mod max, next).

(** [LACE_TRNG]: the new value of [__lace_worker->rng], which is also the result. *)
Definition LACE_TRNG (r : Z) : Z := u64 (u64 (2862933555777941757 * r) + 3037000493).

(** [w->worker = worker]: the number of a worker is stored in a [uint16_t]. *)
Definition worker_field (worker : Z) : Z := u16 worker.

Lemma worker_field_id worker : 0 <= worker < 2 ^ 16 -> worker_field worker = worker.
Proof. apply wrap_id. Qed.

(** [workers[(worker + 1 + rng(&seed, n_workers-1)) % n_workers]] *)
Definition random_victim (worker n seed : Z) : Z * Z :=
  let '(r, seed') := rng seed (n - 1) in
  (u32 (worker + 1 + r) mod n, seed').

(** The state of the victim selection of [lace_steal_loop]: [seed], [i] and the
    index of [victim] in [workers]. *)
Record selection := mkSel { sel_seed : Z; sel_i : Z; sel_victim : Z }.

(** The body of [if (n > 1) { // Select victim ...}]. *)
Definition select_victim (worker_id n : Z) (s : selection) : selection :=
  if sel_i s >? 0 then
    let victim := sel_victim s + 1 in
    let victim := if victim =? worker_id then victim + 1 else victim in
    let victim := if victim >=? n then 0 else victim in
    let victim := if victim =? worker_id then victim + 1 else victim in
    mkSel (sel_seed s) (sel_i s - 1) victim
  else
    let '(i, seed1) := rng (sel_seed s) 40 in
    let '(r, seed2) := rng seed1 (n - 1) in
    mkSel seed2 i (u32 (r + worker_id + 1) mod n).

(** ** The victim is always another worker *)

Lemma rng_range seed max : 0 < max -> 0 <= (rng seed max).1 < max.
Proof. intros H. simpl. by apply Z.mod_pos_bound. Qed.

(** The offset arithmetic shared by both selections. *)
Lemma shift_mod_range w r n :
  0 <= w < n -> 1 < n -> 2 * n <= 2 ^ 32 -> 0 <= r < n - 1 ->
  0 <= u32 (w + 1 + r) mod n < n /\ u32 (w + 1 + r) mod n <> w.
Proof.
  intros Hw Hn Hb Hr. rewrite wrap_id by lia. split; [by apply Z.mod_pos_bound; lia|].
  destruct (Z.lt_ge_cases (w + 1 + r) n).
  - rewrite Z.mod_small by lia. lia.
  - replace (w + 1 + r) with (w + 1 + r - n + 1 * n) by lia.
    rewrite Z.mod_add, Z.mod_small by lia. lia.
Qed.

Lemma random_victim_ok worker n seed :
  0 <= worker < n -> 1 < n -> 2 * n <= 2 ^ 32 ->
  let v := (random_victim worker n seed).1 in 0 <= v < n /\ v <> worker.
Proof.
  intros Hw Hn Hb. unfold random_victim. destruct (rng seed (n - 1)) as [r seed'] eqn:E.
  simpl. apply shift_mod_range; [done..|]. pose proof (rng_range seed (n - 1)). rewrite E in *. simpl in *. lia.
Qed.

(** What [lace_steal_loop] knows of the selection between two rounds. *)
Definition sel_ok (n : Z) (s : selection) : Prop := 0 <= sel_victim s < n.

Lemma select_victim_ok worker_id n s :
  0 <= worker_id < n -> 1 < n -> 2 * n <= 2 ^ 32 -> sel_ok n s ->
  let s' := select_victim worker_id n s in sel_ok n s' /\ sel_victim s' <> worker_id.
Proof.
  intros Hw Hn Hb Hs. unfold select_victim, sel_ok in *. case_match.
  - simpl. repeat case_match; lia.
  - destruct (rng (sel_seed s) 40) as [i seed1]. destruct (rng seed1 (n - 1)) as [r seed2] eqn:E.
    simpl. replace (r + worker_id + 1) with (worker_id + 1 + r) by lia. apply shift_mod_range; [done..|].
    pose proof (rng_range seed1 (n - 1)). rewrite E in *. simpl in *. lia.
Qed.

Lemma succ_mod x n : 0 <= x < n -> (x + 1) mod n = if x + 1 =? n then 0 else x + 1.
Proof.
  intros H. destruct (Z.eqb_spec (x + 1) n) as [->|Hne]; [apply Z.mod_same|apply Z.mod_small]; lia.
Qed.

(** The round-robin phase steps to the next worker in cyclic order that is not the
    caller. *)
Lemma select_victim_next worker_id n s :
  0 <= worker_id < n -> 1 < n -> sel_ok n s -> 0 < sel_i s ->
  sel_victim (select_victim worker_id n s) =
    let v := (sel_victim s + 1) mod n in
    if v =? worker_id then (v + 1) mod n else v.
Proof.
  intros Hw Hn Hs Hi. unfold select_victim, sel_ok in *. rewrite (proj2 (Z.gtb_lt _ _)) by lia. simpl.
  rewrite (succ_mod (sel_victim s) n) by lia.
  destruct (Z.eqb_spec (sel_victim s + 1) n), (Z.eqb_spec (sel_victim s + 1) worker_id); try lia.
  - rewrite Z.geb_leb, (proj2 (Z.leb_le _ _)) by lia.
    destruct (Z.eqb_spec 0 worker_id); [|done]. rewrite Z.mod_small; lia.
  - rewrite succ_mod by lia. rewrite Z.geb_leb.
    destruct (Z.leb_spec n (sel_victim s + 1 + 1)), (Z.eqb_spec (sel_victim s + 1 + 1) n); try lia.
    + by destruct (Z.eqb_spec 0 worker_id); [lia|].
    + by destruct (Z.eqb_spec (sel_victim s + 1 + 1) worker_id); [lia|].
  - rewrite Z.geb_leb, (proj2 (Z.leb_gt _ _)) by lia. by rewrite (proj2 (Z.eqb_neq _ _)).
Qed.

(** C22: with 2 to 65536 workers, both victim selections of worker [w], which know it by its
    16-bit field, choose another worker, whatever the seeds; and the round-robin phase of
    [lace_steal_loop] goes to the next other worker in cyclic order. *)
Theorem victims_are_other_workers w n seed s :
  0 <= w < n -> 1 < n -> n <= 2 ^ 16 -> sel_ok n s ->
  let v := (random_victim (worker_field w) n seed).1 in
  let s' := select_victim (worker_field w) n s in
  (0 <= v < n /\ v <> w) /\
  (0 <= sel_victim s' < n /\ sel_victim s' <> w) /\
  (0 < sel_i s ->
   sel_victim s' = let v := (sel_victim s + 1) mod n in if v =? w then (v + 1) mod n else v).
Proof.
  intros Hw Hn Hb Hs. rewrite worker_field_id by lia. intros v s'. split; [apply random_victim_ok; lia|].
  split; [apply select_victim_ok; [lia..|done]|]. intros Hi. by apply select_victim_next.
Qed.

Lemma victims_are_other_workers_witness :
  sel_victim (select_victim (worker_field 0) 4 (mkSel 7 3 3)) = 1.
Proof.
  refine (proj2 (proj2 (victims_are_other_workers 0 4 7 (mkSel 7 3 3) _ _ _ _)) _);
    [lia|lia|lia|unfold sel_ok; simpl; lia|simpl; lia].
Defined.

(** C23: with more than 65536 workers the field is too small: worker 65536 takes itself for
    worker 0, and for some seed [lace_steal_random] chooses it as its own victim. *)
Theorem wide_worker_is_its_own_victim n :
  2 ^ 16 < n <= 2 ^ 31 ->
  worker_field (2 ^ 16) = worker_field 0 /\
  exists seed, 0 <= seed < 2 ^ 32 /\ (random_victim (worker_field (2 ^ 16)) n seed).1 = 2 ^ 16.
Proof.
  intros Hn. split; [done|]. exists 4179802910. split; [lia|].
  unfold random_victim, rng. change (worker_field (2 ^ 16)) with 0.
  change (u32 (u32 (4179802910 * 1103515245) + 12345)) with 65535. cbn [fst].
  rewrite (Z.mod_small 65535) by lia. change (u32 (0 + 1 + 65535)) with (2 ^ 16). apply Z.mod_small. lia.
Qed.

Lemma wide_worker_is_its_own_victim_witness :
  exists seed, 0 <= seed < 2 ^ 32 /\ (random_victim (worker_field (2 ^ 16)) 70000 seed).1 = 2 ^ 16.
Proof. apply (wide_worker_is_its_own_victim 70000). lia. Defined.
