(* ===== verification/Pin.v ===== *)
(** * Pinning workers to processing units

    [lace_pin_worker] and [lace_check_memory] of src/src/lace.c, built with
    [LACE_USE_HWLOC].  The functions of hwloc are variables; what the code relies on is
    stated about [hwloc_bitmap_next], which enumerates the set bits of a bitmap in
    increasing order, and about the processing units of different cores, which are
    disjoint. *)

From Stdlib Require Import Sorted.
From S2P Require Export Prelude Rng.

Inductive pin_message (bitmap nodeset : Type) :=
| Warn_more_workers            (* more workers than available logical processors *)
| Warn_cpubind                 (* hwloc_set_cpubind returned -1 *)
| Err_membind                  (* Unable to bind worker memory to node *)
| Warn_get_membind             (* hwloc_get_area_membind_nodeset returned -1 *)
| Warn_policy                  (* Lace worker memory not bound with BIND policy *)
| Warn_other_domain            (* Lace thread not on same memory domain as data *)
| Msg_pinned (worker : Z) (cpuset : bitmap) (cpunodes memlocation : nodeset).
Arguments Warn_more_workers {bitmap nodeset}.
Arguments Warn_cpubind {bitmap nodeset}.
Arguments Err_membind {bitmap nodeset}.
Arguments Warn_get_membind {bitmap nodeset}.
Arguments Warn_policy {bitmap nodeset}.
Arguments Warn_other_domain {bitmap nodeset}.
Arguments Msg_pinned {bitmap nodeset}.

(** [exit(-1)]; or the processing unit that was chosen, the set the thread is bound to and the
    nodes the memory of the worker is bound to, if hwloc could bind them, and the messages. *)
Inductive pin_outcome (bitmap nodeset : Type) :=
| Pin_exit
| Pinned (pu : Z) (bound : option bitmap) (memory : option nodeset) (messages : list (pin_message bitmap nodeset)).
Arguments Pin_exit {bitmap nodeset}.
Arguments Pinned {bitmap nodeset}.

Section Pin.
Context {bitmap nodeset : Type}.

(** Which of the functions of hwloc there are: the [#ifdef]s on [hwloc_get_area_memlocation] and
    [HWLOC_MEMBIND_BYNODESET]. *)
Variables (have_memlocation have_bynodeset : bool).

(** [cpuset] and [nodeset] of [hwloc_get_obj_by_type(topo, HWLOC_OBJ_CORE, i)]. *)
Variable core_cpuset : Z -> bitmap.
Variable core_nodeset : Z -> nodeset.

(** The functions of hwloc.  What they report about the thread and about the memory of a worker
    depends on what these were bound to before. *)
Variable hwloc_bitmap_next : bitmap -> Z -> Z.
Variable hwloc_bitmap_only : Z -> bitmap.
Variable hwloc_set_cpubind : bitmap -> Z.
Variable hwloc_set_area_membind : Z -> nodeset -> Z.
Variable hwloc_set_area_membind_nodeset : Z -> nodeset -> Z.
Variable hwloc_get_cpubind : option bitmap -> bitmap.
Variable hwloc_cpuset_to_nodeset : bitmap -> nodeset.
Variable hwloc_get_area_memlocation : Z -> option nodeset -> nodeset.
(** the result, the nodes, and whether the policy is [HWLOC_MEMBIND_BIND] *)
Variable hwloc_get_area_membind_nodeset : Z -> option nodeset -> Z * nodeset * bool.
Variable hwloc_bitmap_isincluded : nodeset -> nodeset -> bool.

Definition lace_check_memory (worker : Z) (bound : option bitmap) (memory : option nodeset) :
    list (pin_message bitmap nodeset) :=
  let cpuset := hwloc_get_cpubind bound in
  let cpunodes := hwloc_cpuset_to_nodeset cpuset in
  let '(memlocation, msgs) :=
    if have_memlocation then (hwloc_get_area_memlocation worker memory, [])
    else
      let '(res, memlocation, policy_bind) := hwloc_get_area_membind_nodeset worker memory in
      (memlocation,
       (if res =? -1 then [Warn_get_membind] else []) ++ (if negb policy_bind then [Warn_policy] else [])) in
  msgs ++
  (if negb (hwloc_bitmap_isincluded memlocation cpunodes)
   then [Warn_other_domain; Msg_pinned worker cpuset cpunodes memlocation]
   else []).

(** [while ((n=hwloc_bitmap_next(bmp, n)) != -1) count++;] *)
Fixpoint count_pus (fuel : nat) (bmp : bitmap) (n count : Z) : option Z :=
  match fuel with
  | O => None
  | S fuel' =>
      let n := hwloc_bitmap_next bmp n in
      if n =? -1 then Some count else count_pus fuel' bmp n (count + 1)
  end.

(** [for (int i=0; i<=idx; i++) n = hwloc_bitmap_next(bmp, n);] with [turns = idx + 1] *)
Fixpoint next_pu (turns : nat) (bmp : bitmap) (n : Z) : Z :=
  match turns with
  | O => n
  | S turns' => next_pu turns' bmp (hwloc_bitmap_next bmp n)
  end.

(** Called by the thread of worker [i]. *)
Definition lace_pin_worker (fuel : nat) (n_cores i : Z) : option (pin_outcome bitmap nodeset) :=
  let worker := worker_field i in
  let core := worker mod n_cores in
  let bmp := core_cpuset core in
  count ← count_pus fuel bmp (-1) 0;
  if count =? 0 then Some Pin_exit
  else
    let idx := worker / n_cores in
    let '(idx, warn) := if idx >=? count then (idx mod count, [Warn_more_workers]) else (idx, []) in
    let n := next_pu (Z.to_nat (idx + 1)) bmp (-1) in
    let bmp := hwloc_bitmap_only n in
    let '(bound, warn2) := if hwloc_set_cpubind bmp =? -1 then (None, [Warn_cpubind]) else (Some bmp, []) in
    let res := if have_bynodeset then hwloc_set_area_membind worker (core_nodeset core)
               else hwloc_set_area_membind_nodeset worker (core_nodeset core) in
    let '(memory, warn3) := if negb (res =? 0) then (None, [Err_membind]) else (Some (core_nodeset core), []) in
    Some (Pinned n bound memory (warn ++ warn2 ++ warn3 ++ lace_check_memory worker bound memory)).

(** ** What hwloc documents *)

(** The set bits of a bitmap, in increasing order; [hwloc_bitmap_next(b, prev)] is the first
    one after [prev], -1 if there is none. *)
Variable pus : bitmap -> list Z.
Hypothesis pus_sorted : forall b, StronglySorted Z.lt (pus b).
Hypothesis pus_nonneg : forall b, Forall (fun n => 0 <= n) (pus b).
Hypothesis next_spec : forall b prev,
  hwloc_bitmap_next b prev = default (-1) (head (filter (fun x => prev < x) (pus b))).

(** From before position [i] of a sorted list the first larger element is at [i]. *)
Lemma filter_sorted (l : list Z) i prev :
  StronglySorted Z.lt l -> (forall j x, l !! j = Some x -> prev < x <-> (i <= j)%nat) ->
  filter (fun x => prev < x) l = drop i l.
Proof.
  revert i. induction l as [|x l IH]; intros i Hs Hi; [by destruct i|].
  apply StronglySorted_inv in Hs as [Hs Hx]. destruct i as [|i].
  - rewrite filter_cons_True by (apply (Hi 0%nat x); [done|lia]). f_equal. rewrite (IH 0%nat); [done..|].
    intros j y Hj. rewrite (Hi (S j) y) by done. lia.
  - rewrite filter_cons_False; [apply IH; [done|]|].
    + intros j y Hj. rewrite (Hi (S j) y) by done. lia.
    + rewrite (Hi 0%nat x) by done. lia.
Qed.

Lemma sorted_lookup_lt (l : list Z) i j x y :
  StronglySorted Z.lt l -> l !! i = Some x -> l !! j = Some y -> x < y <-> (i < j)%nat.
Proof.
  intros Hs. revert i j. induction Hs as [|z l Hs IH Hz]; intros i j; [done|].
  rewrite Forall_lookup in Hz. destruct i as [|i], j as [|j]; simpl; intros Hi Hj; simplify_eq.
  - split; lia.
  - split; [lia|]. intros _. by apply (Hz j).
  - pose proof (Hz i x Hi). split; lia.
  - rewrite (IH i j) by done. lia.
Qed.

(** The state of an enumeration: [n] is -1 before the first and the element at [i-1] later. *)
Definition at_pu (b : bitmap) (i : nat) (n : Z) : Prop :=
  match i with O => n = -1 | S j => pus b !! j = Some n end.

Lemma next_at b i n : at_pu b i n -> hwloc_bitmap_next b n = default (-1) (pus b !! i).
Proof.
  intros Hat. rewrite next_spec, (filter_sorted (pus b) i n); [|done|].
  - rewrite <-(Nat.add_0_r i) at 2. rewrite <-lookup_drop. by destruct (drop i (pus b)).
  - intros j x Hj. destruct i as [|i]; simpl in Hat.
    + subst n. pose proof (pus_nonneg b) as Hp. rewrite Forall_lookup in Hp. pose proof (Hp j x Hj). lia.
    + rewrite (sorted_lookup_lt (pus b) i j n x) by done. lia.
Qed.

Lemma pus_not_end b i n : pus b !! i = Some n -> (n =? -1) = false.
Proof.
  intros Hi. pose proof (pus_nonneg b) as Hp. rewrite Forall_lookup in Hp. pose proof (Hp i n Hi). lia.
Qed.

Lemma count_pus_from b i n count fuel :
  at_pu b i n -> (i <= length (pus b))%nat -> (length (pus b) < i + fuel)%nat ->
  count_pus fuel b n count = Some (count + Z.of_nat (length (pus b) - i)).
Proof.
  revert i n count. induction fuel as [|fuel IH]; intros i n count Hat Hi Hf; [lia|]. simpl.
  rewrite (next_at b i n Hat). destruct (pus b !! i) as [n'|] eqn:Hn; simpl.
  - rewrite (pus_not_end b i n' Hn). pose proof (lookup_lt_Some _ _ _ Hn).
    rewrite (IH (S i) n' (count + 1)) by (done || lia). f_equal. lia.
  - apply lookup_ge_None in Hn. f_equal. lia.
Qed.

Lemma next_pu_from b i n k x :
  at_pu b i n -> pus b !! (i + k)%nat = Some x -> next_pu (S k) b n = x.
Proof.
  revert i n. induction k as [|k IH]; intros i n Hat Hx.
  - simpl. rewrite (next_at b i n Hat). rewrite Nat.add_0_r in Hx. by rewrite Hx.
  - destruct (lookup_lt_is_Some_2 (pus b) i) as [n' Hn']; [apply lookup_lt_Some in Hx; lia|].
    change (next_pu (S k) b (hwloc_bitmap_next b n) = x). rewrite (next_at b i n Hat), Hn'. simpl default.
    apply (IH (S i)); [done|]. by rewrite Nat.add_succ_comm.
Qed.

(** The unit [lace_pin_worker] is meant to choose, and the rest of its outcome. *)
Definition chosen_pu (n_cores worker : Z) : option Z :=
  let l := pus (core_cpuset (worker mod n_cores)) in
  l !! Z.to_nat ((worker / n_cores) mod Z.of_nat (length l)).

Definition bound_cpu (pu : Z) : option bitmap :=
  if hwloc_set_cpubind (hwloc_bitmap_only pu) =? -1 then None else Some (hwloc_bitmap_only pu).

Definition bound_memory (n_cores worker : Z) : option nodeset :=
  let nodes := core_nodeset (worker mod n_cores) in
  let res := if have_bynodeset then hwloc_set_area_membind worker nodes else hwloc_set_area_membind_nodeset worker nodes in
  if res =? 0 then Some nodes else None.

Definition pin_messages (n_cores worker pu : Z) : list (pin_message bitmap nodeset) :=
  (if Z.of_nat (length (pus (core_cpuset (worker mod n_cores)))) <=? worker / n_cores then [Warn_more_workers] else []) ++
  (match bound_cpu pu with Some _ => [] | None => [Warn_cpubind] end) ++
  (match bound_memory n_cores worker with Some _ => [] | None => [Err_membind] end) ++
  lace_check_memory worker (bound_cpu pu) (bound_memory n_cores worker).

Lemma pin_worker_exit n_cores worker fuel :
  let l := pus (core_cpuset (worker mod n_cores)) in
  0 <= worker < 2 ^ 16 -> l = [] -> (0 < fuel)%nat -> lace_pin_worker fuel n_cores worker = Some Pin_exit.
Proof.
  intros l Hw Hl Hf. unfold lace_pin_worker. rewrite worker_field_id by done. cbv zeta.
  rewrite (count_pus_from _ 0 (-1)); [|done|lia|fold l; rewrite Hl; simpl; lia]. fold l. by rewrite Hl.
Qed.

Lemma pin_worker_chosen n_cores worker fuel :
  let l := pus (core_cpuset (worker mod n_cores)) in
  0 < n_cores -> 0 <= worker < 2 ^ 16 -> l <> [] -> (length l < fuel)%nat ->
  exists pu, chosen_pu n_cores worker = Some pu /\ pu ∈ l /\
    lace_pin_worker fuel n_cores worker =
      Some (Pinned pu (bound_cpu pu) (bound_memory n_cores worker) (pin_messages n_cores worker pu)).
Proof.
  intros l Hc Hw Hl Hf. set (len := Z.of_nat (length l)).
  assert (Hlen : 0 < len) by (unfold len; destruct l; [done|simpl; lia]).
  set (idx := (worker / n_cores) mod len). assert (Hidx : 0 <= idx < len) by (by apply Z.mod_pos_bound).
  destruct (lookup_lt_is_Some_2 l (Z.to_nat idx)) as [pu Hpu]; [unfold len in *; lia|].
  assert (Hnext : next_pu (Z.to_nat (idx + 1)) (core_cpuset (worker mod n_cores)) (-1) = pu).
  { replace (Z.to_nat (idx + 1)) with (S (Z.to_nat idx)) by lia. by apply (next_pu_from _ 0). }
  exists pu. split_and!; [exact Hpu|by eapply list_elem_of_lookup_2|].
  unfold lace_pin_worker. rewrite worker_field_id by done. cbv zeta.
  rewrite (count_pus_from _ 0 (-1)); [|done|lia|done]. fold l.
  replace (0 + Z.of_nat (length l - 0)) with len by (unfold len; lia). simpl mbind.
  rewrite (proj2 (Z.eqb_neq _ _)) by lia. unfold pin_messages, bound_cpu, bound_memory. fold l len. rewrite Z.geb_leb.
  set (res := if have_bynodeset then _ else _).
  destruct (Z.leb_spec len (worker / n_cores)) as [|Hlt].
  - fold idx. rewrite Hnext. by destruct (_ =? -1), (res =? 0).
  - assert (He : worker / n_cores = idx).
    { unfold idx. rewrite Z.mod_small; [done|]. split; [apply Z.div_pos; lia|done]. }
    rewrite He, Hnext. by destruct (_ =? -1), (res =? 0).
Qed.

(** The units of different cores are different. *)
Hypothesis cores_disjoint : forall i j x, x ∈ pus (core_cpuset i) -> x ∈ pus (core_cpuset j) -> i = j.

Lemma chosen_pu_inj n_cores w w' pu :
  0 < n_cores -> 0 <= w -> 0 <= w' ->
  w / n_cores < Z.of_nat (length (pus (core_cpuset (w mod n_cores)))) ->
  w' / n_cores < Z.of_nat (length (pus (core_cpuset (w' mod n_cores)))) ->
  chosen_pu n_cores w = Some pu -> chosen_pu n_cores w' = Some pu -> w = w'.
Proof.
  intros Hc Hw Hw' Hb Hb' H H'. unfold chosen_pu in *.
  assert (Hm : w mod n_cores = w' mod n_cores) by (by eapply cores_disjoint; eapply list_elem_of_lookup_2).
  pose proof (Z.div_pos w n_cores). pose proof (Z.div_pos w' n_cores).
  rewrite Z.mod_small in H, H' by lia. rewrite Hm in H.
  assert (Hd : Z.to_nat (w / n_cores) = Z.to_nat (w' / n_cores)).
  { pose proof (sorted_lookup_lt _ _ _ _ _ (pus_sorted _) H H') as H3.
    pose proof (sorted_lookup_lt _ _ _ _ _ (pus_sorted _) H' H) as H4. lia. }
  rewrite (Z.div_mod w n_cores), (Z.div_mod w' n_cores) by lia. lia.
Qed.

(** C28: [lace_pin_worker], called by the thread of a worker whose number fits in 16 bits, always
    terminates (as many turns as the core has units, and one more, are enough for its search).
    On a core without units it exits the process.  Otherwise it chooses a unit of core
    [worker % n_cores], asks hwloc to bind the thread to exactly that unit and the memory of the
    worker to the nodes of the core, and prints a message for each of these that fails, for too
    many workers, and for what [lace_check_memory] finds.  As long as there are as many units as
    workers, different workers choose different units. *)
Theorem pin_worker_correct n_cores worker fuel :
  0 < n_cores -> 0 <= worker < 2 ^ 16 -> (length (pus (core_cpuset (worker mod n_cores))) < fuel)%nat ->
  (pus (core_cpuset (worker mod n_cores)) = [] /\ lace_pin_worker fuel n_cores worker = Some Pin_exit) \/
  (exists pu,
     lace_pin_worker fuel n_cores worker =
       Some (Pinned pu (bound_cpu pu) (bound_memory n_cores worker) (pin_messages n_cores worker pu)) /\
     pu ∈ pus (core_cpuset (worker mod n_cores)) /\
     forall worker' bound' memory' msgs' fuel',
       0 <= worker' < 2 ^ 16 -> (length (pus (core_cpuset (worker' mod n_cores))) < fuel')%nat ->
       worker / n_cores < Z.of_nat (length (pus (core_cpuset (worker mod n_cores)))) ->
       worker' / n_cores < Z.of_nat (length (pus (core_cpuset (worker' mod n_cores)))) ->
       lace_pin_worker fuel' n_cores worker' = Some (Pinned pu bound' memory' msgs') -> worker' = worker).
Proof.
  intros Hc Hw Hf. destruct (decide (pus (core_cpuset (worker mod n_cores)) = [])) as [He|He].
  { left. split; [done|]. apply pin_worker_exit; [done..|]. rewrite He in Hf. simpl in Hf. lia. }
  right. destruct (pin_worker_chosen n_cores worker fuel) as (pu & Hpu & Hin & Hrun); [done..|].
  exists pu. split_and!; [done..|]. intros w' bound' memory' msgs' fuel' Hw' Hf' Hb Hb' Hrun'.
  assert (He' : pus (core_cpuset (w' mod n_cores)) <> []).
  { intros E. rewrite E in Hb'. simpl in Hb'. pose proof (Z.div_pos w' n_cores). lia. }
  destruct (pin_worker_chosen n_cores w' fuel') as (pu' & Hpu' & _ & Hrun2); [done..|].
  rewrite Hrun' in Hrun2. simplify_eq. apply (chosen_pu_inj n_cores w' worker pu'); [lia|lia|lia|done..].
Qed.
End Pin.

(** Two cores with two units each: worker 3 is bound to the second unit of core 1. *)
Module PinDemo.
Inductive bits := Core (i : Z) | Only (n : Z).
Definition pus (b : bits) : list Z :=
  match b with
  | Core i => if i =? 0 then [0; 2] else if i =? 1 then [1; 3] else []
  | Only n => if 0 <=? n then [n] else []
  end.
Definition next (b : bits) (prev : Z) : Z := default (-1) (head (filter (fun x => prev < x) (pus b))).
(** hwloc cannot bind the memory and reports that, with the policy, when asked. *)
Definition pin (w : Z) : option (pin_outcome bits unit) :=
  lace_pin_worker false true Core (fun _ => tt) next Only (fun _ => 0) (fun _ _ => -1) (fun _ _ => -1)
    (default (Only 0)) (fun _ => tt) (fun _ _ => tt) (fun _ _ => (-1, tt, false)) (fun _ _ => true) 3 2 w.

Lemma pus_sorted b : StronglySorted Z.lt (pus b).
Proof. destruct b; simpl; repeat case_match; repeat constructor. Qed.

Lemma pus_nonneg b : Forall (fun n => 0 <= n) (pus b).
Proof. destruct b; simpl; repeat case_match; repeat constructor; lia. Qed.

Lemma cores_disjoint i j x : x ∈ pus (Core i) -> x ∈ pus (Core j) -> i = j.
Proof.
  simpl. repeat case_match; rewrite ?elem_of_cons, ?elem_of_nil; lia.
Qed.
End PinDemo.

Lemma pin_worker_correct_witness :
  PinDemo.pin 3 = Some (Pinned 3 (Some (PinDemo.Only 3)) None [Err_membind; Warn_get_membind; Warn_policy]) /\
  forall bound memory msgs, PinDemo.pin 1 <> Some (Pinned 3 bound memory msgs).
Proof.
  pose proof (pin_worker_correct false true PinDemo.Core (fun _ => tt) PinDemo.next PinDemo.Only (fun _ => 0)
    (fun _ _ => -1) (fun _ _ => -1) (default (PinDemo.Only 0)) (fun _ => tt) (fun _ _ => tt) (fun _ _ => (-1, tt, false))
    (fun _ _ => true) PinDemo.pus PinDemo.pus_sorted PinDemo.pus_nonneg
    (fun _ _ => eq_refl) PinDemo.cores_disjoint 2 3 3) as H.
  destruct H as [[H _]|(pu & H1 & H2 & H3)]; [lia|lia|vm_compute; lia|discriminate H|].
  assert (pu = 3) as -> by (vm_compute in H1; congruence). split; [exact H1|]. intros bound memory msgs Hp.
  specialize (H3 1 bound memory msgs 3%nat ltac:(lia)). discriminate H3; [vm_compute; lia|vm_compute; done..|exact Hp].
Defined.
