(* ===== verification/Deque.v ===== *)
(** * The split deque: stealing and shrinking

    [lace_make_all_shared], [lace_steal] and [lace_shrink_shared] of src/src/lace.h.
    A worker is its number and a [Task *] into a worker's own deque is an index. *)

From S2P Require Export State.

Section Deque.
Context {cfg : Cfg}.

Definition lace_make_all_shared (w : nat) (dq_head : Z) : lcode unit :=
  p <- act (Load_priv w) ;;
  when (negb (p_split p =? dq_head))
    (act (Store_p_split w dq_head) ;;;
     act (Store_split w (u32 dq_head))).

(** The victim is [None] for a null pointer. *)
Definition lace_steal (self : nat) (dq_head : Z) (victim : option nat) : lcode steal_result :=
  match victim with
  | None => Ret LACE_NOWORK
  | Some v =>
      stolen <- act (Load_allstolen v) ;;
      if negb (stolen =? 0) then Ret LACE_NOWORK
      else
        ts <- act (Load_ts v) ;;
        if ts_tail ts <? ts_split ts then
          let ts_new := mkTS (u32 (ts_tail ts + 1)) (ts_split ts) in
          ok <- act (Cas_ts v ts ts_new) ;;
          if (ok : bool) then
            let t := TSlot v (ts_tail ts) in
            act (Store_thief t (Thief self)) ;;;
            call_f self dq_head t ;;;
            act (Store_thief t THIEF_COMPLETED) ;;;
            Ret LACE_STOLEN
          else Ret LACE_BUSY
        else
          ms <- act (Load_movesplit v) ;;
          when (ms =? 0) (act (Store_movesplit v 1)) ;;;
          Ret LACE_NOWORK
  end.

(** The tail and split of the caller's own public [ts]; returns 1 when everything is
    stolen, 0 when the split point was moved. *)
Definition lace_shrink_shared (w : nat) : lcode Z :=
  let all_stolen :=
    act (Store_allstolen w 1) ;;;
    act (Store_p_allstolen w 1) ;;;
    Ret 1 in
  ts <- act (Load_ts w) ;;
  let tail := ts_tail ts in
  let split := ts_split ts in
  if tail =? split then all_stolen
  else
    let newsplit := u32 (tail + split) / 2 in
    act (Store_split w newsplit) ;;;
    tail <- act (Load_tail w) ;;
    if tail =? split then all_stolen
    else
      newsplit <- (if newsplit <? tail then
                     let newsplit := u32 (tail + split) / 2 in
                     act (Store_split w newsplit) ;;;
                     Ret newsplit
                   else Ret newsplit) ;;
      act (Store_p_split w newsplit) ;;;
      Ret 0.
End Deque.
