(* ===== verification/Runtime.v ===== *)
(** * The runtime

    The functions of src/src/lace.c that the workers and the clients run, except the random
    numbers (Rng.v), the counters (Counters.v, Report.v) and pinning (Pin.v).  The allocations
    and [memset]s of [lace_init_worker] and [lace_start] may fail and clear the worker array;
    the memory of a worker is zero at first. *)

From S2P Require Export Deque.
From S2P Require Import Rng.

Section Runtime.
Context {cfg : Cfg}.

(** ** Finding the head of the deque *)

Definition lace_get_head (self : nat) : lcode Z :=
  let thief_of i := act (Load_thief (TSlot self i)) in
  t0 <- thief_of 0 ;;
  if thief_is0 t0 then Ret 0 else
  t1 <- thief_of 1 ;;
  if thief_is0 t1 then Ret 1 else
  t2 <- thief_of 2 ;;
  if thief_is0 t2 then Ret 2 else
  t3 <- thief_of 3 ;;
  if thief_is0 t3 then Ret 3 else
  bounds <- loop (2, dqsize) (fun '(low, high) =>
    if u64 (low * 2) >=? high then Ret (inr (low, high))
    else
      t <- thief_of (u64 (low * 2)) ;;
      Ret (if thief_is0 t then inr (low, u64 (low * 2)) else inl (u64 (low * 2), high))) ;;
  loop bounds (fun '(low, high) =>
    if low <? high then
      let mid := low + (high - low) / 2 in
      t <- thief_of mid ;;
      Ret (inl (if thief_is0 t then (low, mid) else (mid + 1, high)))
    else Ret (inr low)).

(** ** The barrier *)

Definition lace_barrier : lcode unit :=
  wait <- act (Load_int lace_bar_wait) ;;
  count <- act (Fetch_add_int lace_bar_count 1) ;;
  (if Z.of_nat n_workers =? 1 + count then
     act (Store_int lace_bar_count 0) ;;;
     act (Store_int lace_bar_leaving (Z.of_nat n_workers)) ;;;
     act (Store_int lace_bar_wait (1 - wait))
   else
     spin (Load_int lace_bar_wait) (fun w => negb (wait =? w)) ;;;
     Ret tt) ;;;
  act (Fetch_add_int lace_bar_leaving (-1)) ;;;
  Ret tt.

Definition lace_barrier_init : lcode unit :=
  act (Store_int lace_bar_count 0) ;;;
  act (Store_int lace_bar_leaving 0) ;;;
  act (Store_int lace_bar_wait 0).

Definition lace_barrier_destroy : lcode unit :=
  spin (Load_int lace_bar_leaving) (fun l => l =? 0) ;;;
  Ret tt.

(** ** Suspending and resuming the workers *)

Definition lace_suspend : lcode unit :=
  loop tt (fun _ =>
    state <- act (Load_int lace_awaken_count) ;;
    if state <=? 0 then Ret (inl tt)
    else if state =? 1 then
      ok <- act (Cas_int lace_awaken_count state (-1)) ;;
      if (ok : bool) then
        spin (Load_int workers_running) (fun r => r =? Z.of_nat n_workers) ;;;
        act (Store_int must_suspend 1) ;;;
        spin (Load_int workers_running) (fun r => r =? 0) ;;;
        act (Store_int must_suspend 0) ;;;
        act (Store_int lace_awaken_count 0) ;;;
        Ret (inr tt)
      else Ret (inl tt)
    else
      ok <- act (Cas_int lace_awaken_count state (state - 1)) ;;
      Ret (if (ok : bool) then inr tt else inl tt)).

Definition lace_resume : lcode unit :=
  loop tt (fun _ =>
    state <- act (Load_int lace_awaken_count) ;;
    if state <? 0 then Ret (inl tt)
    else if state =? 0 then
      ok <- act (Cas_int lace_awaken_count state (-1)) ;;
      if (ok : bool) then
        for_upto n_workers 0 (fun _ => act (Sem_post suspend_semaphore)) ;;;
        act (Store_int lace_awaken_count 1) ;;;
        Ret (inr tt)
      else Ret (inl tt)
    else
      ok <- act (Cas_int lace_awaken_count state (state + 1)) ;;
      Ret (if (ok : bool) then inr tt else inl tt)).

(** ** External tasks *)

(** [sem_destroy] releases nothing the model keeps.  [pthread_cond_wait] releases the
    mutex and takes it again; it may return at any moment, as POSIX allows. *)
Definition cond_wait : lcode unit :=
  act Mutex_unlock ;;;
  act Mutex_lock.

(** [while (cond(x)) pthread_cond_wait(...)] on a variable guarded by the mutex. *)
Definition cond_wait_while (a : aref) (cond : Z -> bool) : lcode unit :=
  loop tt (fun _ =>
    x <- act (Load_int a) ;;
    if cond x then cond_wait ;;; Ret (inl tt) else Ret (inr tt)).

(** [ExtTask *exp = 0; while (atomic_compare_exchange_weak(&external_task, &exp, &et) != 1) {}]:
    a failed exchange stores the value it found in [exp]. *)
Definition offer_external (et : nat) : lcode unit :=
  loop (None : option nat) (fun exp =>
    r <- act (Cas_external exp (Some et)) ;;
    Ret (if (fst r : bool) then inr tt else inl (snd r))).

Definition lace_run_task (task : tref) : lcode unit :=
  self <- act Get_worker ;;
  match self with
  | Some w =>
      dq_head <- lace_get_head w ;;
      call_f w dq_head task ;;;
      Ret tt
  | None =>
      lace_resume ;;;
      et <- act (Alloc_ext task) ;;
      act (Store_thief task THIEF_EMPTY) ;;;
      act (Sem_init (SExt et) 0) ;;;
      act Mutex_lock ;;;
      cond_wait_while external_task_exclusive (fun x => negb (x =? 0)) ;;;
      c <- act (Load_int external_task_counter) ;;
      act (Store_int external_task_counter (c + 1)) ;;;
      act Mutex_unlock ;;;
      offer_external et ;;;
      act (Sem_wait (SExt et)) ;;;
      act Mutex_lock ;;;
      c <- act (Load_int external_task_counter) ;;
      act (Store_int external_task_counter (c - 1)) ;;;
      x <- act (Load_int external_task_exclusive) ;;
      (if negb (x =? 0) then
         c <- act (Load_int external_task_counter) ;;
         when (c =? 0) (act Cond_broadcast)
       else Ret tt) ;;;
      act Mutex_unlock ;;;
      lace_suspend
  end.

Definition lace_run_task_exclusive (task : tref) : lcode unit :=
  self <- act Get_worker ;;
  match self with
  | Some w =>
      dq_head <- lace_get_head w ;;
      call_f w dq_head task ;;;
      Ret tt
  | None =>
      lace_resume ;;;
      et <- act (Alloc_ext task) ;;
      act (Store_thief task THIEF_EMPTY) ;;;
      act (Sem_init (SExt et) 0) ;;;
      act Mutex_lock ;;;
      cond_wait_while external_task_exclusive (fun x => negb (x =? 0)) ;;;
      act (Store_int external_task_exclusive 1) ;;;
      cond_wait_while external_task_counter (fun x => 0 <? x) ;;;
      act Mutex_unlock ;;;
      offer_external et ;;;
      act (Sem_wait (SExt et)) ;;;
      act Mutex_lock ;;;
      act (Store_int external_task_exclusive 0) ;;;
      act Cond_broadcast ;;;
      act Mutex_unlock ;;;
      lace_suspend
  end.

Definition lace_steal_external (self : nat) (dq_head : Z) : lcode unit :=
  stolen_task <- act (Exchange_external None) ;;
  match stolen_task with
  | None => Ret tt
  | Some e =>
      t <- act (Load_ext_task e) ;;
      act (Store_thief t (Thief self)) ;;;
      act (Store_thief t (Thief self)) ;;;
      call_f self dq_head t ;;;
      act (Store_thief t THIEF_COMPLETED) ;;;
      act (Sem_post (SExt e))
  end.

(** ** New frames *)

Definition lace_exec_in_new_frame (self : nat) (dq_head : Z) (root : tref) : lcode unit :=
  (* save old tail, split, allstolen and initiate new frame *)
  old_as <- act (Load_allstolen self) ;;
  act (Store_allstolen self 1) ;;;
  old_split <- act (Load_split self) ;;
  act (Store_split self 0) ;;;
  old_tail <- act (Load_tail self) ;;
  act (Store_ts self (mkTS (u32 dq_head) (u32 dq_head))) ;;;
  act (Store_p_split self dq_head) ;;;
  act (Store_p_allstolen self 1) ;;;
  (* wait until all workers are ready *)
  lace_barrier ;;;
  (* execute task *)
  call_f self dq_head root ;;;
  (* wait until all workers are back *)
  lace_barrier ;;;
  (* restore tail, split, allstolen *)
  act (Store_allstolen self old_as) ;;;
  act (Store_ts self (mkTS old_tail old_split)) ;;;
  act (Store_p_split self old_split) ;;;
  act (Store_p_allstolen self old_as).

Definition lace_yield (self : nat) (dq_head : Z) : lcode unit :=
  t <- act Alloc_task ;;
  nf <- act Load_newframe ;;
  (match nf with
   | Some src => act (Copy_task t src)
   | None => act Undefined
   end) ;;;
  lace_barrier ;;;
  lace_exec_in_new_frame self dq_head t.

Definition YIELD_NEWFRAME (self : nat) (dq_head : Z) : lcode unit :=
  nf <- act Load_newframe ;;
  match nf with
  | Some _ => lace_yield self dq_head
  | None => Ret tt
  end.

(** [while (1) { Task *expected = 0; if (CAS(&lace_newframe.t, &expected, &t)) break; lace_yield(...); }] *)
Definition offer_newframe (self : nat) (dq_head : Z) (t : tref) : lcode unit :=
  loop tt (fun _ =>
    ok <- act (Cas_newframe None (Some t)) ;;
    if (ok : bool) then Ret (inr tt)
    else lace_yield self dq_head ;;; Ret (inl tt)).

(** ** Stealing *)

Definition lace_steal_random (self : nat) (dq_head : Z) : lcode unit :=
  YIELD_NEWFRAME self dq_head ;;;
  e <- act Load_external ;;
  match e with
  | Some _ => lace_steal_external self dq_head
  | None =>
      when (1 <? Z.of_nat n_workers) (
        p <- act (Load_priv self) ;;
        let '(v, seed) := random_victim (worker_field (Z.of_nat self)) (Z.of_nat n_workers) (p_seed p) in
        act (Store_p_seed self seed) ;;;
        victim <- act (Load_workers (Z.to_nat v)) ;;
        lace_steal self dq_head victim ;;;
        Ret tt)
  end.

(** One turn of the loop that runs until [quit] is set. *)
Definition steal_loop_turn (self : nat) (dq_head : Z) (quit : aref) (sel : selection) :
    lcode (selection + unit) :=
  let worker_id := worker_field (Z.of_nat self) in
  let n := Z.of_nat n_workers in
  q <- act (Load_int quit) ;;
  if negb (q =? 0) then Ret (inr tt)
  else
    sel' <- (if 1 <? n then
               let sel' := select_victim worker_id n sel in
               victim <- act (Load_workers (Z.to_nat (sel_victim sel'))) ;;
               lace_steal self dq_head victim ;;;
               Ret sel'
             else Ret sel) ;;
    YIELD_NEWFRAME self dq_head ;;;
    e <- act Load_external ;;
    (match e with
     | Some _ => lace_steal_external self dq_head
     | None => Ret tt
     end) ;;;
    ms <- act (Load_int must_suspend) ;;
    when (negb (ms =? 0))
      (act (Fetch_add_int workers_running (-1)) ;;;
       act (Sem_wait suspend_semaphore) ;;;
       lace_barrier ;;;
       act (Fetch_add_int workers_running 1) ;;;
       Ret tt) ;;;
    Ret (inl sel').

Definition lace_steal_loop (self : nat) (dq_head : Z) (quit : aref) : lcode unit :=
  let worker_id := worker_field (Z.of_nat self) in
  loop (mkSel worker_id 0 worker_id) (steal_loop_turn self dq_head quit).

(** ** Starting and stopping *)

Definition lace_init_worker (worker : nat) : lcode unit :=
  mem <- act Aligned_alloc ;;
  when (negb mem) (act Exit) ;;;
  act (Store_workers worker) ;;;
  act (Store_ts worker (mkTS 0 0)) ;;;
  act (Store_allstolen worker 0) ;;;
  act (Store_movesplit worker 0) ;;;
  act (Store_p_split worker 0) ;;;
  act (Store_p_allstolen worker 0).

Definition lace_worker_thread (worker : nat) : lcode unit :=
  act Thread_begin ;;;
  lace_init_worker worker ;;;
  act (Sem_wait suspend_semaphore) ;;;
  act (Fetch_add_int workers_running 1) ;;;
  dq_head <- lace_get_head worker ;;
  lace_steal_loop worker dq_head lace_quits ;;;
  act (Fetch_add_int workers_running (-1)) ;;;
  Ret tt.

Definition lace_start : lcode unit :=
  act (Store_int lace_quits 0) ;;;
  act (Store_int workers_running 0) ;;;
  lace_barrier_init ;;;
  act (Sem_init suspend_semaphore 0) ;;;
  act (Store_int must_suspend 0) ;;;
  act (Store_int lace_awaken_count 0) ;;;
  workers <- act Aligned_alloc ;;
  workers_p <- act Aligned_alloc ;;
  workers_memory <- act Aligned_alloc ;;
  when (negb workers || negb workers_p || negb workers_memory) (act Exit) ;;;
  act Clear_workers ;;;
  act (Store_newframe None) ;;;
  for_upto n_workers 0 (fun i => act (Pthread_create i)) ;;;
  lace_resume.

Definition lace_stop : lcode unit :=
  lace_resume ;;;
  spin (Load_int workers_running) (fun r => r =? Z.of_nat n_workers) ;;;
  act (Store_int lace_quits 1) ;;;
  spin (Load_int workers_running) (fun r => r =? 0) ;;;
  lace_barrier_destroy ;;;
  act Free_workers ;;;
  act Clear_workers.

(** ** Interrupting: TOGETHER and NEWFRAME *)

Definition lace_together_root (self : nat) (dq_head : Z) (t : tref) (finished : aref) : lcode unit :=
  call_f self dq_head t ;;;
  act (Fetch_add_int finished (-1)) ;;;
  loop tt (fun _ =>
    x <- act (Load_int finished) ;;
    if negb (x =? 0) then lace_steal_random self dq_head ;;; Ret (inl tt)
    else Ret (inr tt)).

Definition lace_wrap_together (self : nat) (dq_head : Z) (task : tref) : lcode unit :=
  done <- act (Alloc_int (Z.of_nat n_workers)) ;;
  t2 <- act Alloc_task ;;
  act (Store_f t2 F_lace_together_root) ;;;
  act (Store_thief t2 THIEF_TASK) ;;;
  act (Store_d t2 0 (VTask task)) ;;;
  act (Store_d t2 1 (VAtom done)) ;;;
  offer_newframe self dq_head t2 ;;;
  lace_barrier ;;;
  act (Store_newframe None) ;;;
  lace_exec_in_new_frame self dq_head t2.

Definition lace_newframe_root (self : nat) (dq_head : Z) (t : tref) (done : aref) : lcode unit :=
  call_f self dq_head t ;;;
  act (Store_int done 1).

Definition lace_wrap_newframe (self : nat) (dq_head : Z) (task : tref) : lcode unit :=
  done <- act (Alloc_int 0) ;;
  s <- act Alloc_task ;;
  act (Store_f s F_lace_steal_loop) ;;;
  act (Store_thief s THIEF_TASK) ;;;
  act (Store_d s 0 (VAtom done)) ;;;
  offer_newframe self dq_head s ;;;
  lace_barrier ;;;
  act (Store_newframe None) ;;;
  t2 <- act Alloc_task ;;
  act (Store_f t2 F_lace_newframe_root) ;;;
  act (Store_thief t2 THIEF_TASK) ;;;
  act (Store_d t2 0 (VTask task)) ;;;
  act (Store_d t2 1 (VAtom done)) ;;;
  lace_exec_in_new_frame self dq_head t2.

(** [RUN(lace_wrap_..., t)]: offer the wrapper as an external task. *)
Definition run_wrap (g : fid) (t : tref) : lcode unit :=
  t' <- act Alloc_task ;;
  act (Store_f t' g) ;;;
  act (Store_thief t' THIEF_TASK) ;;;
  act (Store_d t' 0 (VTask t)) ;;;
  lace_run_task t'.

Definition lace_run_together (t : tref) : lcode unit :=
  self <- act Get_worker ;;
  match self with
  | Some w => dq_head <- lace_get_head w ;; lace_wrap_together w dq_head t
  | None => run_wrap F_lace_wrap_together t
  end.

Definition lace_run_newframe (t : tref) : lcode unit :=
  self <- act Get_worker ;;
  match self with
  | Some w => dq_head <- lace_get_head w ;; lace_wrap_newframe w dq_head t
  | None => run_wrap F_lace_wrap_newframe t
  end.

(** Called when the task stack is full. *)
Definition lace_abort_stack_overflow : lcode unit := act Exit.
End Runtime.
