(* ===== verification/Tasks.v ===== *)
(** * Leapfrogging, dropping, and the functions every task declaration generates

    [lace_leapfrog], [lace_drop] of src/src/lace.h, and the templates of src/src/lace.sh, the
    script that writes lace.h and lace14.h: the functions [NAME##_SPAWN], ..., [NAME##_WRAP] of a
    task with a given list of parameters.  TaskMacros.v and TaskMacros14.v have the macros that
    the script has written, one by one; the proofs about them go through the templates. *)

From S2P Require Export Runtime.

Section Tasks.
Context {cfg : Cfg}.

(** [lace_steal(self, head, thief)] for a thief field: a null pointer is allowed, the
    other small constants are not addresses. *)
Definition lace_steal_from_thief (self : nat) (dq_head : Z) (th : thief_t) : lcode steal_result :=
  match th with
  | Thief w => lace_steal self dq_head (Some w)
  | THIEF_EMPTY => lace_steal self dq_head None
  | _ => act Undefined ;;; Ret LACE_NOWORK
  end.

Definition lace_leapfrog (self : nat) (dq_head : Z) : lcode unit :=
  let t := TSlot self dq_head in
  thief <- act (Load_thief t) ;;
  (if TASK_IS_COMPLETED thief then Ret tt
   else
     thief <- loop thief (fun th =>
       if thief_le1 th then th' <- act (Load_thief t) ;; Ret (inl th')
       else Ret (inr th)) ;;
     (* PRE-LEAP: increase head again *)
     let dq_head := dq_head + 1 in
     (* Now leapfrog *)
     loop (thief, 32) (fun '(thief, attempts) =>
       if TASK_IS_COMPLETED thief then Ret (inr tt)
       else
         res <- lace_steal_from_thief self dq_head thief ;;
         attempts <- (match res with
                      | LACE_NOWORK =>
                          YIELD_NEWFRAME self dq_head ;;;
                          let attempts := attempts - 1 in
                          if attempts =? 0 then lace_steal_random self dq_head ;;; Ret 32
                          else Ret attempts
                      | _ => Ret attempts
                      end) ;;
         thief <- act (Load_thief t) ;;
         Ret (inl (thief, attempts))) ;;;
     (* POST-LEAP: really pop the finished task *)
     p <- act (Load_priv self) ;;
     when (p_allstolen p =? 0)
       (act (Store_allstolen self 1) ;;;
        act (Store_p_allstolen self 1))) ;;;
  act (Store_thief t THIEF_EMPTY).

(** [(w->allstolen) || (w->split > __dq_head && lace_shrink_shared(w))] *)
Definition must_leap (w : nat) (dq_head : Z) : lcode bool :=
  p <- act (Load_priv w) ;;
  if negb (p_allstolen p =? 0) then Ret true
  else if p_split p >? dq_head then
    r <- lace_shrink_shared w ;;
    Ret (negb (r =? 0))
  else Ret false.

Definition lace_drop_slow (w : nat) (dq_head : Z) : lcode unit :=
  leap <- must_leap w dq_head ;;
  when leap (lace_leapfrog w dq_head).

Definition lace_drop (w : nat) (dq_head : Z) : lcode unit :=
  ms <- act (Load_movesplit w) ;;
  if ms =? 0 then
    p <- act (Load_priv w) ;;
    if p_split p <=? dq_head then Ret tt
    else lace_drop_slow w dq_head
  else lace_drop_slow w dq_head.

(** ** The templates *)

(** [t->d.args.arg_1 = arg_1; ... t->d.args.arg_n = arg_n;] *)
Fixpoint store_args (t : tref) (i : nat) (args : list val) : lcode unit :=
  match args with
  | [] => Ret tt
  | x :: args' => act (Store_d t i x) ;;; store_args t (S i) args'
  end.

(** [t->d.args.arg_1, ..., t->d.args.arg_n] *)
Fixpoint load_args (t : tref) (i n : nat) : lcode (list val) :=
  match n with
  | O => Ret []
  | S n' => x <- act (Load_d t i) ;; xs <- load_args t (S i) n' ;; Ret (x :: xs)
  end.

(** [t->d.res], which overlays the first argument; nothing for a [VOID_TASK_n]. *)
Definition load_res (void : bool) (t : tref) : lcode val :=
  if void then Ret (VZ 0) else act (Load_d t 0).

(** [t->f = &NAME##_WRAP; t->thief = THIEF_TASK; t->d.args... = ...;] *)
Definition init_task (NAME : fid) (t : tref) (args : list val) : lcode unit :=
  act (Store_f t NAME) ;;;
  act (Store_thief t THIEF_TASK) ;;;
  store_args t 0 args.

(** The second half of [NAME##_SPAWN]: make the new task available to thieves. *)
Definition spawn_publish (w : nat) (dq_head : Z) : lcode unit :=
  p <- act (Load_priv w) ;;
  if negb (p_allstolen p =? 0) then
    ms <- act (Load_movesplit w) ;;
    when (negb (ms =? 0)) (act (Store_movesplit w 0)) ;;;
    let head := u32 dq_head in
    act (Store_ts w (mkTS head (u32 (head + 1)))) ;;;
    act (Store_allstolen w 0) ;;;
    act (Store_p_split w (dq_head + 1)) ;;;
    act (Store_p_allstolen w 0)
  else
    ms <- act (Load_movesplit w) ;;
    when (negb (ms =? 0)) (
      let head := u32 dq_head in
      let split := u32 (p_split p) in
      let newsplit := u32 (split + head + 2) / 2 in
      act (Store_split w newsplit) ;;;
      act (Store_p_split w newsplit) ;;;
      act (Store_movesplit w 0)).

Definition gen_SPAWN (NAME : fid) (w : nat) (dq_head : Z) (args : list val) : lcode unit :=
  when (dq_head =? dqsize) lace_abort_stack_overflow ;;;
  init_task NAME (TSlot w dq_head) args ;;;
  spawn_publish w dq_head.

(** The functions that build the task on the caller's stack. *)
Definition with_stack_task (NAME : fid) (args : list val) (run : tref -> lcode unit)
    (void : bool) : lcode val :=
  t <- act Alloc_task ;;
  init_task NAME t args ;;;
  run t ;;;
  load_res void t.

Definition gen_NEWFRAME (NAME : fid) (void : bool) (args : list val) : lcode val :=
  with_stack_task NAME args lace_run_newframe void.

Definition gen_TOGETHER (NAME : fid) (args : list val) : lcode unit :=
  t <- act Alloc_task ;;
  init_task NAME t args ;;;
  lace_run_together t.

Definition gen_RUN (NAME : fid) (void : bool) (args : list val) : lcode val :=
  with_stack_task NAME args lace_run_task void.

Definition gen_RUNEX (NAME : fid) (void : bool) (args : list val) : lcode val :=
  with_stack_task NAME args lace_run_task_exclusive void.

(** [t->thief = THIEF_EMPTY; return NAME##_CALL(w, __dq_head, t->d.args...);] *)
Definition call_popped (NAME : fid) (n_args : nat) (w : nat) (dq_head : Z) : lcode val :=
  let t := TSlot w dq_head in
  act (Store_thief t THIEF_EMPTY) ;;;
  args <- load_args t 0 n_args ;;
  call (Fn_CALL NAME w dq_head args).

(** [if (wt->movesplit) { ... }] of [NAME##_SYNC_SLOW]: move the split point up. *)
Definition sync_movesplit (w : nat) (dq_head : Z) : lcode unit :=
  ms <- act (Load_movesplit w) ;;
  when (negb (ms =? 0)) (
    p <- act (Load_priv w) ;;
    let t := p_split p in
    let diff := u64 (dq_head - t) in
    let diff := u64 (diff + 1) / 2 in
    act (Store_p_split w (t + diff)) ;;;
    act (Fetch_add_split w diff) ;;;
    act (Store_movesplit w 0)).

Definition gen_SYNC_SLOW (NAME : fid) (void : bool) (n_args : nat) (w : nat) (dq_head : Z) : lcode val :=
  leap <- must_leap w dq_head ;;
  if (leap : bool) then
    lace_leapfrog w dq_head ;;;
    load_res void (TSlot w dq_head)
  else
    sync_movesplit w dq_head ;;;
    call_popped NAME n_args w dq_head.

Definition gen_SYNC (NAME : fid) (void : bool) (n_args : nat) (w : nat) (dq_head : Z) : lcode val :=
  ms <- act (Load_movesplit w) ;;
  if ms =? 0 then
    p <- act (Load_priv w) ;;
    if p_split p <=? dq_head then call_popped NAME n_args w dq_head
    else gen_SYNC_SLOW NAME void n_args w dq_head
  else gen_SYNC_SLOW NAME void n_args w dq_head.

(** [NAME##_WRAP]: run the task with the arguments found in [t] and store the result there. *)
Definition gen_WRAP (NAME : fid) (void : bool) (n_args : nat) (w : nat) (dq_head : Z) (t : tref) : lcode val :=
  args <- load_args t 0 n_args ;;
  r <- call (Fn_CALL NAME w dq_head args) ;;
  (if void then Ret tt else act (Store_d t 0 r)) ;;;
  Ret (VZ 0).
End Tasks.
