(* ===== verification/TaskMacros.v ===== *)
(** * The task macros of src/src/lace.h

    [TASK_DECL_n], [TASK_IMPL_n] and their [VOID_] variants for tasks with 0 to 6 arguments,
    each translated from its own text; [TASK_n] is [TASK_DECL_n] followed by [TASK_IMPL_n].
    The programs of Program.v are made of these definitions. *)

From S2P Require Export Tasks.

(** ** What the macros declare *)

(** A function of [n] arguments. *)
Fixpoint args_fun (n : nat) (R : Type) : Type :=
  match n with O => R | S n' => val -> args_fun n' R end.

(** Calling it with a list of arguments: the number of arguments must be right. *)
Fixpoint apply_args {n : nat} {R : Type} : args_fun n R -> list val -> option R :=
  match n with
  | O => fun f args => match args with [] => Some f | _ => None end
  | S n' => fun f args => match args with x :: args' => apply_args (f x) args' | [] => None end
  end.

(** The function of [n] arguments that gets them as a list. *)
Fixpoint of_list {n : nat} {R : Type} : (list val -> R) -> args_fun n R :=
  match n with
  | O => fun f => f []
  | S n' => fun f x => of_list (fun args => f (x :: args))
  end.

(** The functions [NAME##_SPAWN], ..., [NAME##_SYNC] of a task with [n] arguments. *)
Record task_decl (n : nat) := TaskDecl {
  NAME_SPAWN : nat -> Z -> args_fun n (lcode unit);
  NAME_NEWFRAME : args_fun n (lcode val);
  NAME_TOGETHER : args_fun n (lcode unit);
  NAME_RUN : args_fun n (lcode val);
  NAME_RUNEX : args_fun n (lcode val);
  NAME_SYNC : nat -> Z -> lcode val;
}.

(** [NAME##_WRAP] and [NAME##_CALL]; the body [NAME##_WORK] follows the macro. *)
Record task_impl (n : nat) := TaskImpl {
  NAME_WRAP : nat -> Z -> tref -> lcode val;
  NAME_CALL : nat -> Z -> args_fun n (lcode val);
}.

Arguments TaskDecl n & _ _ _ _ _ _.
Arguments TaskImpl n & _ _.
Arguments NAME_SPAWN {n} _.
Arguments NAME_NEWFRAME {n} _.
Arguments NAME_TOGETHER {n} _.
Arguments NAME_RUN {n} _.
Arguments NAME_RUNEX {n} _.
Arguments NAME_SYNC {n} _.
Arguments NAME_WRAP {n} _.
Arguments NAME_CALL {n} _.

Lemma apply_of_list {n R} (f : list val -> R) args :
  length args = n -> apply_args (n := n) (of_list f) args = Some (f args).
Proof. intros <-. revert f. induction args as [|x args IH]; intros f; [done|]. apply (IH (fun l => f (x :: l))). Qed.

Lemma apply_args_length {n R} (f : args_fun n R) args : length args <> n -> apply_args f args = None.
Proof. revert f args. induction n as [|n IH]; intros f [|x args] H; try done. apply IH. simpl in H. lia. Qed.

(** ** The macros as instances of the templates of Tasks.v *)

Record decl_ok {cfg : Cfg} (NAME : fid) (void : bool) (n : nat) (d : task_decl n) : Prop := {
  ok_SPAWN w dq_head args : length args = n ->
    apply_args (NAME_SPAWN d w dq_head) args = Some (gen_SPAWN NAME w dq_head args);
  ok_NEWFRAME args : length args = n -> apply_args (NAME_NEWFRAME d) args = Some (gen_NEWFRAME NAME void args);
  ok_TOGETHER args : length args = n -> apply_args (NAME_TOGETHER d) args = Some (gen_TOGETHER NAME args);
  ok_RUN args : length args = n -> apply_args (NAME_RUN d) args = Some (gen_RUN NAME void args);
  ok_RUNEX args : length args = n -> apply_args (NAME_RUNEX d) args = Some (gen_RUNEX NAME void args);
  ok_SYNC w dq_head : NAME_SYNC d w dq_head = gen_SYNC NAME void n w dq_head;
}.

Record value_impl_ok {cfg : Cfg} (NAME : fid) (n : nat) (WORK : nat -> Z -> args_fun n (lcode val))
    (d : task_impl n) : Prop := {
  ok_WRAP w dq_head t : NAME_WRAP d w dq_head t = gen_WRAP NAME false n w dq_head t;
  ok_CALL w dq_head args : apply_args (NAME_CALL d w dq_head) args = apply_args (WORK w dq_head) args;
}.

Record void_impl_ok {cfg : Cfg} (NAME : fid) (n : nat) (WORK : nat -> Z -> args_fun n (lcode unit))
    (d : task_impl n) : Prop := {
  ok_void_WRAP w dq_head t : NAME_WRAP d w dq_head t = gen_WRAP NAME true n w dq_head t;
  ok_void_CALL w dq_head args : length args = n -> exists c,
    apply_args (WORK w dq_head) args = Some c /\ apply_args (NAME_CALL d w dq_head) args = Some (c ;;; Ret (VZ 0));
}.

(** Take a list of known length apart and compute. *)
Ltac solve_macro :=
  split; intros;
  repeat match goal with H : length ?args = _ |- _ => destruct args; simpl in H; try discriminate H; try injection H as H end;
  try eexists; try (split; reflexivity); reflexivity.

Section Macros.
Context {cfg : Cfg}.

(** ** Tasks with 0 arguments *)

Definition TASK_DECL_0 (NAME : fid) : task_decl 0 :=
  let NAME_SYNC_SLOW := fun (w : nat) (dq_head : Z) =>
    let t := TSlot w dq_head in
    p <- act (Load_priv w) ;;
    leap <- (if negb (p_allstolen p =? 0) then Ret true
             else if p_split p >? dq_head then r <- lace_shrink_shared w ;; Ret (negb (r =? 0))
             else Ret false) ;;
    if (leap : bool) then
      lace_leapfrog w dq_head ;;;
      act (Load_d t 0)
    else
      ms <- act (Load_movesplit w) ;;
      when (negb (ms =? 0)) (
        p <- act (Load_priv w) ;;
        let t := p_split p in
        let diff := u64 (dq_head - t) in
        let diff := u64 (diff + 1) / 2 in
        act (Store_p_split w (t + diff)) ;;;
        act (Fetch_add_split w diff) ;;;
        act (Store_movesplit w 0)) ;;;
      act (Store_thief t THIEF_EMPTY) ;;;
      call (Fn_CALL NAME w dq_head []) in
  {| NAME_SPAWN := fun w dq_head =>
      when (dq_head =? dqsize) lace_abort_stack_overflow ;;;
      let t := TSlot w dq_head in
      act (Store_f t NAME) ;;;
      act (Store_thief t THIEF_TASK) ;;;
      p <- act (Load_priv w) ;;
      if negb (p_allstolen p =? 0) then
        ms <- act (Load_movesplit w) ;;
        when (negb (ms =? 0)) (act (Store_movesplit w 0)) ;;;
        let head := u32 dq_head in
        act (Store_ts w (mkTS head (u32 (head + 1)))) ;;;
        act (Store_allstolen w 0) ;;;
        act (Store_p_split w (dq_head + 1)) ;;;
        act (Store_p_allstolen w 0)
      else
        ms <- act (Load_movesplit w) ;;
        when (negb (ms =? 0)) (
          let head := u32 dq_head in
          let split := u32 (p_split p) in
          let newsplit := u32 (split + head + 2) / 2 in
          act (Store_split w newsplit) ;;;
          act (Store_p_split w newsplit) ;;;
          act (Store_movesplit w 0));
     NAME_NEWFRAME :=
      t <- act Alloc_task ;;
      act (Store_f t NAME) ;;;
      act (Store_thief t THIEF_TASK) ;;;
      lace_run_newframe t ;;;
      act (Load_d t 0);
     NAME_TOGETHER :=
      t <- act Alloc_task ;;
      act (Store_f t NAME) ;;;
      act (Store_thief t THIEF_TASK) ;;;
      lace_run_together t;
     NAME_RUN :=
      t <- act Alloc_task ;;
      act (Store_f t NAME) ;;;
      act (Store_thief t THIEF_TASK) ;;;
      lace_run_task t ;;;
      act (Load_d t 0);
     NAME_RUNEX :=
      t <- act Alloc_task ;;
      act (Store_f t NAME) ;;;
      act (Store_thief t THIEF_TASK) ;;;
      lace_run_task_exclusive t ;;;
      act (Load_d t 0);
     NAME_SYNC := fun w dq_head =>
      ms <- act (Load_movesplit w) ;;
      if ms =? 0 then
        p <- act (Load_priv w) ;;
        if p_split p <=? dq_head then
          let t := TSlot w dq_head in
          act (Store_thief t THIEF_EMPTY) ;;;
          call (Fn_CALL NAME w dq_head [])
        else NAME_SYNC_SLOW w dq_head
      else NAME_SYNC_SLOW w dq_head |}.

Definition TASK_IMPL_0 (NAME : fid) (NAME_WORK : nat -> Z -> args_fun 0 (lcode val)) : task_impl 0 :=
  {| NAME_WRAP := fun w dq_head t =>
      res <- call (Fn_CALL NAME w dq_head []) ;;
      act (Store_d t 0 res) ;;;
      Ret (VZ 0);
     NAME_CALL := fun w dq_head =>
      NAME_WORK w dq_head |}.

Definition VOID_TASK_DECL_0 (NAME : fid) : task_decl 0 :=
  let NAME_SYNC_SLOW := fun (w : nat) (dq_head : Z) =>
    let t := TSlot w dq_head in
    p <- act (Load_priv w) ;;
    leap <- (if negb (p_allstolen p =? 0) then Ret true
             else if p_split p >? dq_head then r <- lace_shrink_shared w ;; Ret (negb (r =? 0))
             else Ret false) ;;
    if (leap : bool) then
      lace_leapfrog w dq_head ;;;
      Ret (VZ 0)
    else
      ms <- act (Load_movesplit w) ;;
      when (negb (ms =? 0)) (
        p <- act (Load_priv w) ;;
        let t := p_split p in
        let diff := u64 (dq_head - t) in
        let diff := u64 (diff + 1) / 2 in
        act (Store_p_split w (t + diff)) ;;;
        act (Fetch_add_split w diff) ;;;
        act (Store_movesplit w 0)) ;;;
      act (Store_thief t THIEF_EMPTY) ;;;
      call (Fn_CALL NAME w dq_head []) in
  {| NAME_SPAWN := fun w dq_head =>
      when (dq_head =? dqsize) lace_abort_stack_overflow ;;;
      let t := TSlot w dq_head in
      act (Store_f t NAME) ;;;
      act (Store_thief t THIEF_TASK) ;;;
      p <- act (Load_priv w) ;;
      if negb (p_allstolen p =? 0) then
        ms <- act (Load_movesplit w) ;;
        when (negb (ms =? 0)) (act (Store_movesplit w 0)) ;;;
        let head := u32 dq_head in
        act (Store_ts w (mkTS head (u32 (head + 1)))) ;;;
        act (Store_allstolen w 0) ;;;
        act (Store_p_split w (dq_head + 1)) ;;;
        act (Store_p_allstolen w 0)
      else
        ms <- act (Load_movesplit w) ;;
        when (negb (ms =? 0)) (
          let head := u32 dq_head in
          let split := u32 (p_split p) in
          let newsplit := u32 (split + head + 2) / 2 in
          act (Store_split w newsplit) ;;;
          act (Store_p_split w newsplit) ;;;
          act (Store_movesplit w 0));
     NAME_NEWFRAME :=
      t <- act Alloc_task ;;
      act (Store_f t NAME) ;;;
      act (Store_thief t THIEF_TASK) ;;;
      lace_run_newframe t ;;;
      Ret (VZ 0);
     NAME_TOGETHER :=
      t <- act Alloc_task ;;
      act (Store_f t NAME) ;;;
      act (Store_thief t THIEF_TASK) ;;;
      lace_run_together t;
     NAME_RUN :=
      t <- act Alloc_task ;;
      act (Store_f t NAME) ;;;
      act (Store_thief t THIEF_TASK) ;;;
      lace_run_task t ;;;
      Ret (VZ 0);
     NAME_RUNEX :=
      t <- act Alloc_task ;;
      act (Store_f t NAME) ;;;
      act (Store_thief t THIEF_TASK) ;;;
      lace_run_task_exclusive t ;;;
      Ret (VZ 0);
     NAME_SYNC := fun w dq_head =>
      ms <- act (Load_movesplit w) ;;
      if ms =? 0 then
        p <- act (Load_priv w) ;;
        if p_split p <=? dq_head then
          let t := TSlot w dq_head in
          act (Store_thief t THIEF_EMPTY) ;;;
          call (Fn_CALL NAME w dq_head [])
        else NAME_SYNC_SLOW w dq_head
      else NAME_SYNC_SLOW w dq_head |}.

Definition VOID_TASK_IMPL_0 (NAME : fid) (NAME_WORK : nat -> Z -> args_fun 0 (lcode unit)) : task_impl 0 :=
  {| NAME_WRAP := fun w dq_head t =>
      call (Fn_CALL NAME w dq_head []) ;;;
      Ret (VZ 0);
     NAME_CALL := fun w dq_head =>
      NAME_WORK w dq_head ;;;
      Ret (VZ 0) |}.

(** ** Tasks with 1 argument *)

Definition TASK_DECL_1 (NAME : fid) : task_decl 1 :=
  let NAME_SYNC_SLOW := fun (w : nat) (dq_head : Z) =>
    let t := TSlot w dq_head in
    p <- act (Load_priv w) ;;
    leap <- (if negb (p_allstolen p =? 0) then Ret true
             else if p_split p >? dq_head then r <- lace_shrink_shared w ;; Ret (negb (r =? 0))
             else Ret false) ;;
    if (leap : bool) then
      lace_leapfrog w dq_head ;;;
      act (Load_d t 0)
    else
      ms <- act (Load_movesplit w) ;;
      when (negb (ms =? 0)) (
        p <- act (Load_priv w) ;;
        let t := p_split p in
        let diff := u64 (dq_head - t) in
        let diff := u64 (diff + 1) / 2 in
        act (Store_p_split w (t + diff)) ;;;
        act (Fetch_add_split w diff) ;;;
        act (Store_movesplit w 0)) ;;;
      act (Store_thief t THIEF_EMPTY) ;;;
      arg_1 <- act (Load_d t 0) ;;
      call (Fn_CALL NAME w dq_head [arg_1]) in
  {| NAME_SPAWN := fun w dq_head arg_1 =>
      when (dq_head =? dqsize) lace_abort_stack_overflow ;;;
      let t := TSlot w dq_head in
      act (Store_f t NAME) ;;;
      act (Store_thief t THIEF_TASK) ;;;
      act (Store_d t 0 arg_1) ;;;
      p <- act (Load_priv w) ;;
      if negb (p_allstolen p =? 0) then
        ms <- act (Load_movesplit w) ;;
        when (negb (ms =? 0)) (act (Store_movesplit w 0)) ;;;
        let head := u32 dq_head in
        act (Store_ts w (mkTS head (u32 (head + 1)))) ;;;
        act (Store_allstolen w 0) ;;;
        act (Store_p_split w (dq_head + 1)) ;;;
        act (Store_p_allstolen w 0)
      else
        ms <- act (Load_movesplit w) ;;
        when (negb (ms =? 0)) (
          let head := u32 dq_head in
          let split := u32 (p_split p) in
          let newsplit := u32 (split + head + 2) / 2 in
          act (Store_split w newsplit) ;;;
          act (Store_p_split w newsplit) ;;;
          act (Store_movesplit w 0));
     NAME_NEWFRAME := fun arg_1 =>
      t <- act Alloc_task ;;
      act (Store_f t NAME) ;;;
      act (Store_thief t THIEF_TASK) ;;;
      act (Store_d t 0 arg_1) ;;;
      lace_run_newframe t ;;;
      act (Load_d t 0);
     NAME_TOGETHER := fun arg_1 =>
      t <- act Alloc_task ;;
      act (Store_f t NAME) ;;;
      act (Store_thief t THIEF_TASK) ;;;
      act (Store_d t 0 arg_1) ;;;
      lace_run_together t;
     NAME_RUN := fun arg_1 =>
      t <- act Alloc_task ;;
      act (Store_f t NAME) ;;;
      act (Store_thief t THIEF_TASK) ;;;
      act (Store_d t 0 arg_1) ;;;
      lace_run_task t ;;;
      act (Load_d t 0);
     NAME_RUNEX := fun arg_1 =>
      t <- act Alloc_task ;;
      act (Store_f t NAME) ;;;
      act (Store_thief t THIEF_TASK) ;;;
      act (Store_d t 0 arg_1) ;;;
      lace_run_task_exclusive t ;;;
      act (Load_d t 0);
     NAME_SYNC := fun w dq_head =>
      ms <- act (Load_movesplit w) ;;
      if ms =? 0 then
        p <- act (Load_priv w) ;;
        if p_split p <=? dq_head then
          let t := TSlot w dq_head in
          act (Store_thief t THIEF_EMPTY) ;;;
          arg_1 <- act (Load_d t 0) ;;
          call (Fn_CALL NAME w dq_head [arg_1])
        else NAME_SYNC_SLOW w dq_head
      else NAME_SYNC_SLOW w dq_head |}.

Definition TASK_IMPL_1 (NAME : fid) (NAME_WORK : nat -> Z -> args_fun 1 (lcode val)) : task_impl 1 :=
  {| NAME_WRAP := fun w dq_head t =>
      arg_1 <- act (Load_d t 0) ;;
      res <- call (Fn_CALL NAME w dq_head [arg_1]) ;;
      act (Store_d t 0 res) ;;;
      Ret (VZ 0);
     NAME_CALL := fun w dq_head arg_1 =>
      NAME_WORK w dq_head arg_1 |}.

Definition VOID_TASK_DECL_1 (NAME : fid) : task_decl 1 :=
  let NAME_SYNC_SLOW := fun (w : nat) (dq_head : Z) =>
    let t := TSlot w dq_head in
    p <- act (Load_priv w) ;;
    leap <- (if negb (p_allstolen p =? 0) then Ret true
             else if p_split p >? dq_head then r <- lace_shrink_shared w ;; Ret (negb (r =? 0))
             else Ret false) ;;
    if (leap : bool) then
      lace_leapfrog w dq_head ;;;
      Ret (VZ 0)
    else
      ms <- act (Load_movesplit w) ;;
      when (negb (ms =? 0)) (
        p <- act (Load_priv w) ;;
        let t := p_split p in
        let diff := u64 (dq_head - t) in
        let diff := u64 (diff + 1) / 2 in
        act (Store_p_split w (t + diff)) ;;;
        act (Fetch_add_split w diff) ;;;
        act (Store_movesplit w 0)) ;;;
      act (Store_thief t THIEF_EMPTY) ;;;
      arg_1 <- act (Load_d t 0) ;;
      call (Fn_CALL NAME w dq_head [arg_1]) in
  {| NAME_SPAWN := fun w dq_head arg_1 =>
      when (dq_head =? dqsize) lace_abort_stack_overflow ;;;
      let t := TSlot w dq_head in
      act (Store_f t NAME) ;;;
      act (Store_thief t THIEF_TASK) ;;;
      act (Store_d t 0 arg_1) ;;;
      p <- act (Load_priv w) ;;
      if negb (p_allstolen p =? 0) then
        ms <- act (Load_movesplit w) ;;
        when (negb (ms =? 0)) (act (Store_movesplit w 0)) ;;;
        let head := u32 dq_head in
        act (Store_ts w (mkTS head (u32 (head + 1)))) ;;;
        act (Store_allstolen w 0) ;;;
        act (Store_p_split w (dq_head + 1)) ;;;
        act (Store_p_allstolen w 0)
      else
        ms <- act (Load_movesplit w) ;;
        when (negb (ms =? 0)) (
          let head := u32 dq_head in
          let split := u32 (p_split p) in
          let newsplit := u32 (split + head + 2) / 2 in
          act (Store_split w newsplit) ;;;
          act (Store_p_split w newsplit) ;;;
          act (Store_movesplit w 0));
     NAME_NEWFRAME := fun arg_1 =>
      t <- act Alloc_task ;;
      act (Store_f t NAME) ;;;
      act (Store_thief t THIEF_TASK) ;;;
      act (Store_d t 0 arg_1) ;;;
      lace_run_newframe t ;;;
      Ret (VZ 0);
     NAME_TOGETHER := fun arg_1 =>
      t <- act Alloc_task ;;
      act (Store_f t NAME) ;;;
      act (Store_thief t THIEF_TASK) ;;;
      act (Store_d t 0 arg_1) ;;;
      lace_run_together t;
     NAME_RUN := fun arg_1 =>
      t <- act Alloc_task ;;
      act (Store_f t NAME) ;;;
      act (Store_thief t THIEF_TASK) ;;;
      act (Store_d t 0 arg_1) ;;;
      lace_run_task t ;;;
      Ret (VZ 0);
     NAME_RUNEX := fun arg_1 =>
      t <- act Alloc_task ;;
      act (Store_f t NAME) ;;;
      act (Store_thief t THIEF_TASK) ;;;
      act (Store_d t 0 arg_1) ;;;
      lace_run_task_exclusive t ;;;
      Ret (VZ 0);
     NAME_SYNC := fun w dq_head =>
      ms <- act (Load_movesplit w) ;;
      if ms =? 0 then
        p <- act (Load_priv w) ;;
        if p_split p <=? dq_head then
          let t := TSlot w dq_head in
          act (Store_thief t THIEF_EMPTY) ;;;
          arg_1 <- act (Load_d t 0) ;;
          call (Fn_CALL NAME w dq_head [arg_1])
        else NAME_SYNC_SLOW w dq_head
      else NAME_SYNC_SLOW w dq_head |}.

Definition VOID_TASK_IMPL_1 (NAME : fid) (NAME_WORK : nat -> Z -> args_fun 1 (lcode unit)) : task_impl 1 :=
  {| NAME_WRAP := fun w dq_head t =>
      arg_1 <- act (Load_d t 0) ;;
      call (Fn_CALL NAME w dq_head [arg_1]) ;;;
      Ret (VZ 0);
     NAME_CALL := fun w dq_head arg_1 =>
      NAME_WORK w dq_head arg_1 ;;;
      Ret (VZ 0) |}.

(** ** Tasks with 2 arguments *)

Definition TASK_DECL_2 (NAME : fid) : task_decl 2 :=
  let NAME_SYNC_SLOW := fun (w : nat) (dq_head : Z) =>
    let t := TSlot w dq_head in
    p <- act (Load_priv w) ;;
    leap <- (if negb (p_allstolen p =? 0) then Ret true
             else if p_split p >? dq_head then r <- lace_shrink_shared w ;; Ret (negb (r =? 0))
             else Ret false) ;;
    if (leap : bool) then
      lace_leapfrog w dq_head ;;;
      act (Load_d t 0)
    else
      ms <- act (Load_movesplit w) ;;
      when (negb (ms =? 0)) (
        p <- act (Load_priv w) ;;
        let t := p_split p in
        let diff := u64 (dq_head - t) in
        let diff := u64 (diff + 1) / 2 in
        act (Store_p_split w (t + diff)) ;;;
        act (Fetch_add_split w diff) ;;;
        act (Store_movesplit w 0)) ;;;
      act (Store_thief t THIEF_EMPTY) ;;;
      arg_1 <- act (Load_d t 0) ;;
      arg_2 <- act (Load_d t 1) ;;
      call (Fn_CALL NAME w dq_head [arg_1; arg_2]) in
  {| NAME_SPAWN := fun w dq_head arg_1 arg_2 =>
      when (dq_head =? dqsize) lace_abort_stack_overflow ;;;
      let t := TSlot w dq_head in
      act (Store_f t NAME) ;;;
      act (Store_thief t THIEF_TASK) ;;;
      act (Store_d t 0 arg_1) ;;;
      act (Store_d t 1 arg_2) ;;;
      p <- act (Load_priv w) ;;
      if negb (p_allstolen p =? 0) then
        ms <- act (Load_movesplit w) ;;
        when (negb (ms =? 0)) (act (Store_movesplit w 0)) ;;;
        let head := u32 dq_head in
        act (Store_ts w (mkTS head (u32 (head + 1)))) ;;;
        act (Store_allstolen w 0) ;;;
        act (Store_p_split w (dq_head + 1)) ;;;
        act (Store_p_allstolen w 0)
      else
        ms <- act (Load_movesplit w) ;;
        when (negb (ms =? 0)) (
          let head := u32 dq_head in
          let split := u32 (p_split p) in
          let newsplit := u32 (split + head + 2) / 2 in
          act (Store_split w newsplit) ;;;
          act (Store_p_split w newsplit) ;;;
          act (Store_movesplit w 0));
     NAME_NEWFRAME := fun arg_1 arg_2 =>
      t <- act Alloc_task ;;
      act (Store_f t NAME) ;;;
      act (Store_thief t THIEF_TASK) ;;;
      act (Store_d t 0 arg_1) ;;;
      act (Store_d t 1 arg_2) ;;;
      lace_run_newframe t ;;;
      act (Load_d t 0);
     NAME_TOGETHER := fun arg_1 arg_2 =>
      t <- act Alloc_task ;;
      act (Store_f t NAME) ;;;
      act (Store_thief t THIEF_TASK) ;;;
      act (Store_d t 0 arg_1) ;;;
      act (Store_d t 1 arg_2) ;;;
      lace_run_together t;
     NAME_RUN := fun arg_1 arg_2 =>
      t <- act Alloc_task ;;
      act (Store_f t NAME) ;;;
      act (Store_thief t THIEF_TASK) ;;;
      act (Store_d t 0 arg_1) ;;;
      act (Store_d t 1 arg_2) ;;;
      lace_run_task t ;;;
      act (Load_d t 0);
     NAME_RUNEX := fun arg_1 arg_2 =>
      t <- act Alloc_task ;;
      act (Store_f t NAME) ;;;
      act (Store_thief t THIEF_TASK) ;;;
      act (Store_d t 0 arg_1) ;;;
      act (Store_d t 1 arg_2) ;;;
      lace_run_task_exclusive t ;;;
      act (Load_d t 0);
     NAME_SYNC := fun w dq_head =>
      ms <- act (Load_movesplit w) ;;
      if ms =? 0 then
        p <- act (Load_priv w) ;;
        if p_split p <=? dq_head then
          let t := TSlot w dq_head in
          act (Store_thief t THIEF_EMPTY) ;;;
          arg_1 <- act (Load_d t 0) ;;
          arg_2 <- act (Load_d t 1) ;;
          call (Fn_CALL NAME w dq_head [arg_1; arg_2])
        else NAME_SYNC_SLOW w dq_head
      else NAME_SYNC_SLOW w dq_head |}.

Definition TASK_IMPL_2 (NAME : fid) (NAME_WORK : nat -> Z -> args_fun 2 (lcode val)) : task_impl 2 :=
  {| NAME_WRAP := fun w dq_head t =>
      arg_1 <- act (Load_d t 0) ;;
      arg_2 <- act (Load_d t 1) ;;
      res <- call (Fn_CALL NAME w dq_head [arg_1; arg_2]) ;;
      act (Store_d t 0 res) ;;;
      Ret (VZ 0);
     NAME_CALL := fun w dq_head arg_1 arg_2 =>
      NAME_WORK w dq_head arg_1 arg_2 |}.

Definition VOID_TASK_DECL_2 (NAME : fid) : task_decl 2 :=
  let NAME_SYNC_SLOW := fun (w : nat) (dq_head : Z) =>
    let t := TSlot w dq_head in
    p <- act (Load_priv w) ;;
    leap <- (if negb (p_allstolen p =? 0) then Ret true
             else if p_split p >? dq_head then r <- lace_shrink_shared w ;; Ret (negb (r =? 0))
             else Ret false) ;;
    if (leap : bool) then
      lace_leapfrog w dq_head ;;;
      Ret (VZ 0)
    else
      ms <- act (Load_movesplit w) ;;
      when (negb (ms =? 0)) (
        p <- act (Load_priv w) ;;
        let t := p_split p in
        let diff := u64 (dq_head - t) in
        let diff := u64 (diff + 1) / 2 in
        act (Store_p_split w (t + diff)) ;;;
        act (Fetch_add_split w diff) ;;;
        act (Store_movesplit w 0)) ;;;
      act (Store_thief t THIEF_EMPTY) ;;;
      arg_1 <- act (Load_d t 0) ;;
      arg_2 <- act (Load_d t 1) ;;
      call (Fn_CALL NAME w dq_head [arg_1; arg_2]) in
  {| NAME_SPAWN := fun w dq_head arg_1 arg_2 =>
      when (dq_head =? dqsize) lace_abort_stack_overflow ;;;
      let t := TSlot w dq_head in
      act (Store_f t NAME) ;;;
      act (Store_thief t THIEF_TASK) ;;;
      act (Store_d t 0 arg_1) ;;;
      act (Store_d t 1 arg_2) ;;;
      p <- act (Load_priv w) ;;
      if negb (p_allstolen p =? 0) then
        ms <- act (Load_movesplit w) ;;
        when (negb (ms =? 0)) (act (Store_movesplit w 0)) ;;;
        let head := u32 dq_head in
        act (Store_ts w (mkTS head (u32 (head + 1)))) ;;;
        act (Store_allstolen w 0) ;;;
        act (Store_p_split w (dq_head + 1)) ;;;
        act (Store_p_allstolen w 0)
      else
        ms <- act (Load_movesplit w) ;;
        when (negb (ms =? 0)) (
          let head := u32 dq_head in
          let split := u32 (p_split p) in
          let newsplit := u32 (split + head + 2) / 2 in
          act (Store_split w newsplit) ;;;
          act (Store_p_split w newsplit) ;;;
          act (Store_movesplit w 0));
     NAME_NEWFRAME := fun arg_1 arg_2 =>
      t <- act Alloc_task ;;
      act (Store_f t NAME) ;;;
      act (Store_thief t THIEF_TASK) ;;;
      act (Store_d t 0 arg_1) ;;;
      act (Store_d t 1 arg_2) ;;;
      lace_run_newframe t ;;;
      Ret (VZ 0);
     NAME_TOGETHER := fun arg_1 arg_2 =>
      t <- act Alloc_task ;;
      act (Store_f t NAME) ;;;
      act (Store_thief t THIEF_TASK) ;;;
      act (Store_d t 0 arg_1) ;;;
      act (Store_d t 1 arg_2) ;;;
      lace_run_together t;
     NAME_RUN := fun arg_1 arg_2 =>
      t <- act Alloc_task ;;
      act (Store_f t NAME) ;;;
      act (Store_thief t THIEF_TASK) ;;;
      act (Store_d t 0 arg_1) ;;;
      act (Store_d t 1 arg_2) ;;;
      lace_run_task t ;;;
      Ret (VZ 0);
     NAME_RUNEX := fun arg_1 arg_2 =>
      t <- act Alloc_task ;;
      act (Store_f t NAME) ;;;
      act (Store_thief t THIEF_TASK) ;;;
      act (Store_d t 0 arg_1) ;;;
      act (Store_d t 1 arg_2) ;;;
      lace_run_task_exclusive t ;;;
      Ret (VZ 0);
     NAME_SYNC := fun w dq_head =>
      ms <- act (Load_movesplit w) ;;
      if ms =? 0 then
        p <- act (Load_priv w) ;;
        if p_split p <=? dq_head then
          let t := TSlot w dq_head in
          act (Store_thief t THIEF_EMPTY) ;;;
          arg_1 <- act (Load_d t 0) ;;
          arg_2 <- act (Load_d t 1) ;;
          call (Fn_CALL NAME w dq_head [arg_1; arg_2])
        else NAME_SYNC_SLOW w dq_head
      else NAME_SYNC_SLOW w dq_head |}.

Definition VOID_TASK_IMPL_2 (NAME : fid) (NAME_WORK : nat -> Z -> args_fun 2 (lcode unit)) : task_impl 2 :=
  {| NAME_WRAP := fun w dq_head t =>
      arg_1 <- act (Load_d t 0) ;;
      arg_2 <- act (Load_d t 1) ;;
      call (Fn_CALL NAME w dq_head [arg_1; arg_2]) ;;;
      Ret (VZ 0);
     NAME_CALL := fun w dq_head arg_1 arg_2 =>
      NAME_WORK w dq_head arg_1 arg_2 ;;;
      Ret (VZ 0) |}.

(** ** Tasks with 3 arguments *)

Definition TASK_DECL_3 (NAME : fid) : task_decl 3 :=
  let NAME_SYNC_SLOW := fun (w : nat) (dq_head : Z) =>
    let t := TSlot w dq_head in
    p <- act (Load_priv w) ;;
    leap <- (if negb (p_allstolen p =? 0) then Ret true
             else if p_split p >? dq_head then r <- lace_shrink_shared w ;; Ret (negb (r =? 0))
             else Ret false) ;;
    if (leap : bool) then
      lace_leapfrog w dq_head ;;;
      act (Load_d t 0)
    else
      ms <- act (Load_movesplit w) ;;
      when (negb (ms =? 0)) (
        p <- act (Load_priv w) ;;
        let t := p_split p in
        let diff := u64 (dq_head - t) in
        let diff := u64 (diff + 1) / 2 in
        act (Store_p_split w (t + diff)) ;;;
        act (Fetch_add_split w diff) ;;;
        act (Store_movesplit w 0)) ;;;
      act (Store_thief t THIEF_EMPTY) ;;;
      arg_1 <- act (Load_d t 0) ;;
      arg_2 <- act (Load_d t 1) ;;
      arg_3 <- act (Load_d t 2) ;;
      call (Fn_CALL NAME w dq_head [arg_1; arg_2; arg_3]) in
  {| NAME_SPAWN := fun w dq_head arg_1 arg_2 arg_3 =>
      when (dq_head =? dqsize) lace_abort_stack_overflow ;;;
      let t := TSlot w dq_head in
      act (Store_f t NAME) ;;;
      act (Store_thief t THIEF_TASK) ;;;
      act (Store_d t 0 arg_1) ;;;
      act (Store_d t 1 arg_2) ;;;
      act (Store_d t 2 arg_3) ;;;
      p <- act (Load_priv w) ;;
      if negb (p_allstolen p =? 0) then
        ms <- act (Load_movesplit w) ;;
        when (negb (ms =? 0)) (act (Store_movesplit w 0)) ;;;
        let head := u32 dq_head in
        act (Store_ts w (mkTS head (u32 (head + 1)))) ;;;
        act (Store_allstolen w 0) ;;;
        act (Store_p_split w (dq_head + 1)) ;;;
        act (Store_p_allstolen w 0)
      else
        ms <- act (Load_movesplit w) ;;
        when (negb (ms =? 0)) (
          let head := u32 dq_head in
          let split := u32 (p_split p) in
          let newsplit := u32 (split + head + 2) / 2 in
          act (Store_split w newsplit) ;;;
          act (Store_p_split w newsplit) ;;;
          act (Store_movesplit w 0));
     NAME_NEWFRAME := fun arg_1 arg_2 arg_3 =>
      t <- act Alloc_task ;;
      act (Store_f t NAME) ;;;
      act (Store_thief t THIEF_TASK) ;;;
      act (Store_d t 0 arg_1) ;;;
      act (Store_d t 1 arg_2) ;;;
      act (Store_d t 2 arg_3) ;;;
      lace_run_newframe t ;;;
      act (Load_d t 0);
     NAME_TOGETHER := fun arg_1 arg_2 arg_3 =>
      t <- act Alloc_task ;;
      act (Store_f t NAME) ;;;
      act (Store_thief t THIEF_TASK) ;;;
      act (Store_d t 0 arg_1) ;;;
      act (Store_d t 1 arg_2) ;;;
      act (Store_d t 2 arg_3) ;;;
      lace_run_together t;
     NAME_RUN := fun arg_1 arg_2 arg_3 =>
      t <- act Alloc_task ;;
      act (Store_f t NAME) ;;;
      act (Store_thief t THIEF_TASK) ;;;
      act (Store_d t 0 arg_1) ;;;
      act (Store_d t 1 arg_2) ;;;
      act (Store_d t 2 arg_3) ;;;
      lace_run_task t ;;;
      act (Load_d t 0);
     NAME_RUNEX := fun arg_1 arg_2 arg_3 =>
      t <- act Alloc_task ;;
      act (Store_f t NAME) ;;;
      act (Store_thief t THIEF_TASK) ;;;
      act (Store_d t 0 arg_1) ;;;
      act (Store_d t 1 arg_2) ;;;
      act (Store_d t 2 arg_3) ;;;
      lace_run_task_exclusive t ;;;
      act (Load_d t 0);
     NAME_SYNC := fun w dq_head =>
      ms <- act (Load_movesplit w) ;;
      if ms =? 0 then
        p <- act (Load_priv w) ;;
        if p_split p <=? dq_head then
          let t := TSlot w dq_head in
          act (Store_thief t THIEF_EMPTY) ;;;
          arg_1 <- act (Load_d t 0) ;;
          arg_2 <- act (Load_d t 1) ;;
          arg_3 <- act (Load_d t 2) ;;
          call (Fn_CALL NAME w dq_head [arg_1; arg_2; arg_3])
        else NAME_SYNC_SLOW w dq_head
      else NAME_SYNC_SLOW w dq_head |}.

Definition TASK_IMPL_3 (NAME : fid) (NAME_WORK : nat -> Z -> args_fun 3 (lcode val)) : task_impl 3 :=
  {| NAME_WRAP := fun w dq_head t =>
      arg_1 <- act (Load_d t 0) ;;
      arg_2 <- act (Load_d t 1) ;;
      arg_3 <- act (Load_d t 2) ;;
      res <- call (Fn_CALL NAME w dq_head [arg_1; arg_2; arg_3]) ;;
      act (Store_d t 0 res) ;;;
      Ret (VZ 0);
     NAME_CALL := fun w dq_head arg_1 arg_2 arg_3 =>
      NAME_WORK w dq_head arg_1 arg_2 arg_3 |}.

Definition VOID_TASK_DECL_3 (NAME : fid) : task_decl 3 :=
  let NAME_SYNC_SLOW := fun (w : nat) (dq_head : Z) =>
    let t := TSlot w dq_head in
    p <- act (Load_priv w) ;;
    leap <- (if negb (p_allstolen p =? 0) then Ret true
             else if p_split p >? dq_head then r <- lace_shrink_shared w ;; Ret (negb (r =? 0))
             else Ret false) ;;
    if (leap : bool) then
      lace_leapfrog w dq_head ;;;
      Ret (VZ 0)
    else
      ms <- act (Load_movesplit w) ;;
      when (negb (ms =? 0)) (
        p <- act (Load_priv w) ;;
        let t := p_split p in
        let diff := u64 (dq_head - t) in
        let diff := u64 (diff + 1) / 2 in
        act (Store_p_split w (t + diff)) ;;;
        act (Fetch_add_split w diff) ;;;
        act (Store_movesplit w 0)) ;;;
      act (Store_thief t THIEF_EMPTY) ;;;
      arg_1 <- act (Load_d t 0) ;;
      arg_2 <- act (Load_d t 1) ;;
      arg_3 <- act (Load_d t 2) ;;
      call (Fn_CALL NAME w dq_head [arg_1; arg_2; arg_3]) in
  {| NAME_SPAWN := fun w dq_head arg_1 arg_2 arg_3 =>
      when (dq_head =? dqsize) lace_abort_stack_overflow ;;;
      let t := TSlot w dq_head in
      act (Store_f t NAME) ;;;
      act (Store_thief t THIEF_TASK) ;;;
      act (Store_d t 0 arg_1) ;;;
      act (Store_d t 1 arg_2) ;;;
      act (Store_d t 2 arg_3) ;;;
      p <- act (Load_priv w) ;;
      if negb (p_allstolen p =? 0) then
        ms <- act (Load_movesplit w) ;;
        when (negb (ms =? 0)) (act (Store_movesplit w 0)) ;;;
        let head := u32 dq_head in
        act (Store_ts w (mkTS head (u32 (head + 1)))) ;;;
        act (Store_allstolen w 0) ;;;
        act (Store_p_split w (dq_head + 1)) ;;;
        act (Store_p_allstolen w 0)
      else
        ms <- act (Load_movesplit w) ;;
        when (negb (ms =? 0)) (
          let head := u32 dq_head in
          let split := u32 (p_split p) in
          let newsplit := u32 (split + head + 2) / 2 in
          act (Store_split w newsplit) ;;;
          act (Store_p_split w newsplit) ;;;
          act (Store_movesplit w 0));
     NAME_NEWFRAME := fun arg_1 arg_2 arg_3 =>
      t <- act Alloc_task ;;
      act (Store_f t NAME) ;;;
      act (Store_thief t THIEF_TASK) ;;;
      act (Store_d t 0 arg_1) ;;;
      act (Store_d t 1 arg_2) ;;;
      act (Store_d t 2 arg_3) ;;;
      lace_run_newframe t ;;;
      Ret (VZ 0);
     NAME_TOGETHER := fun arg_1 arg_2 arg_3 =>
      t <- act Alloc_task ;;
      act (Store_f t NAME) ;;;
      act (Store_thief t THIEF_TASK) ;;;
      act (Store_d t 0 arg_1) ;;;
      act (Store_d t 1 arg_2) ;;;
      act (Store_d t 2 arg_3) ;;;
      lace_run_together t;
     NAME_RUN := fun arg_1 arg_2 arg_3 =>
      t <- act Alloc_task ;;
      act (Store_f t NAME) ;;;
      act (Store_thief t THIEF_TASK) ;;;
      act (Store_d t 0 arg_1) ;;;
      act (Store_d t 1 arg_2) ;;;
      act (Store_d t 2 arg_3) ;;;
      lace_run_task t ;;;
      Ret (VZ 0);
     NAME_RUNEX := fun arg_1 arg_2 arg_3 =>
      t <- act Alloc_task ;;
      act (Store_f t NAME) ;;;
      act (Store_thief t THIEF_TASK) ;;;
      act (Store_d t 0 arg_1) ;;;
      act (Store_d t 1 arg_2) ;;;
      act (Store_d t 2 arg_3) ;;;
      lace_run_task_exclusive t ;;;
      Ret (VZ 0);
     NAME_SYNC := fun w dq_head =>
      ms <- act (Load_movesplit w) ;;
      if ms =? 0 then
        p <- act (Load_priv w) ;;
        if p_split p <=? dq_head then
          let t := TSlot w dq_head in
          act (Store_thief t THIEF_EMPTY) ;;;
          arg_1 <- act (Load_d t 0) ;;
          arg_2 <- act (Load_d t 1) ;;
          arg_3 <- act (Load_d t 2) ;;
          call (Fn_CALL NAME w dq_head [arg_1; arg_2; arg_3])
        else NAME_SYNC_SLOW w dq_head
      else NAME_SYNC_SLOW w dq_head |}.

Definition VOID_TASK_IMPL_3 (NAME : fid) (NAME_WORK : nat -> Z -> args_fun 3 (lcode unit)) : task_impl 3 :=
  {| NAME_WRAP := fun w dq_head t =>
      arg_1 <- act (Load_d t 0) ;;
      arg_2 <- act (Load_d t 1) ;;
      arg_3 <- act (Load_d t 2) ;;
      call (Fn_CALL NAME w dq_head [arg_1; arg_2; arg_3]) ;;;
      Ret (VZ 0);
     NAME_CALL := fun w dq_head arg_1 arg_2 arg_3 =>
      NAME_WORK w dq_head arg_1 arg_2 arg_3 ;;;
      Ret (VZ 0) |}.

(** ** Tasks with 4 arguments *)

Definition TASK_DECL_4 (NAME : fid) : task_decl 4 :=
  let NAME_SYNC_SLOW := fun (w : nat) (dq_head : Z) =>
    let t := TSlot w dq_head in
    p <- act (Load_priv w) ;;
    leap <- (if negb (p_allstolen p =? 0) then Ret true
             else if p_split p >? dq_head then r <- lace_shrink_shared w ;; Ret (negb (r =? 0))
             else Ret false) ;;
    if (leap : bool) then
      lace_leapfrog w dq_head ;;;
      act (Load_d t 0)
    else
      ms <- act (Load_movesplit w) ;;
      when (negb (ms =? 0)) (
        p <- act (Load_priv w) ;;
        let t := p_split p in
        let diff := u64 (dq_head - t) in
        let diff := u64 (diff + 1) / 2 in
        act (Store_p_split w (t + diff)) ;;;
        act (Fetch_add_split w diff) ;;;
        act (Store_movesplit w 0)) ;;;
      act (Store_thief t THIEF_EMPTY) ;;;
      arg_1 <- act (Load_d t 0) ;;
      arg_2 <- act (Load_d t 1) ;;
      arg_3 <- act (Load_d t 2) ;;
      arg_4 <- act (Load_d t 3) ;;
      call (Fn_CALL NAME w dq_head [arg_1; arg_2; arg_3; arg_4]) in
  {| NAME_SPAWN := fun w dq_head arg_1 arg_2 arg_3 arg_4 =>
      when (dq_head =? dqsize) lace_abort_stack_overflow ;;;
      let t := TSlot w dq_head in
      act (Store_f t NAME) ;;;
      act (Store_thief t THIEF_TASK) ;;;
      act (Store_d t 0 arg_1) ;;;
      act (Store_d t 1 arg_2) ;;;
      act (Store_d t 2 arg_3) ;;;
      act (Store_d t 3 arg_4) ;;;
      p <- act (Load_priv w) ;;
      if negb (p_allstolen p =? 0) then
        ms <- act (Load_movesplit w) ;;
        when (negb (ms =? 0)) (act (Store_movesplit w 0)) ;;;
        let head := u32 dq_head in
        act (Store_ts w (mkTS head (u32 (head + 1)))) ;;;
        act (Store_allstolen w 0) ;;;
        act (Store_p_split w (dq_head + 1)) ;;;
        act (Store_p_allstolen w 0)
      else
        ms <- act (Load_movesplit w) ;;
        when (negb (ms =? 0)) (
          let head := u32 dq_head in
          let split := u32 (p_split p) in
          let newsplit := u32 (split + head + 2) / 2 in
          act (Store_split w newsplit) ;;;
          act (Store_p_split w newsplit) ;;;
          act (Store_movesplit w 0));
     NAME_NEWFRAME := fun arg_1 arg_2 arg_3 arg_4 =>
      t <- act Alloc_task ;;
      act (Store_f t NAME) ;;;
      act (Store_thief t THIEF_TASK) ;;;
      act (Store_d t 0 arg_1) ;;;
      act (Store_d t 1 arg_2) ;;;
      act (Store_d t 2 arg_3) ;;;
      act (Store_d t 3 arg_4) ;;;
      lace_run_newframe t ;;;
      act (Load_d t 0);
     NAME_TOGETHER := fun arg_1 arg_2 arg_3 arg_4 =>
      t <- act Alloc_task ;;
      act (Store_f t NAME) ;;;
      act (Store_thief t THIEF_TASK) ;;;
      act (Store_d t 0 arg_1) ;;;
      act (Store_d t 1 arg_2) ;;;
      act (Store_d t 2 arg_3) ;;;
      act (Store_d t 3 arg_4) ;;;
      lace_run_together t;
     NAME_RUN := fun arg_1 arg_2 arg_3 arg_4 =>
      t <- act Alloc_task ;;
      act (Store_f t NAME) ;;;
      act (Store_thief t THIEF_TASK) ;;;
      act (Store_d t 0 arg_1) ;;;
      act (Store_d t 1 arg_2) ;;;
      act (Store_d t 2 arg_3) ;;;
      act (Store_d t 3 arg_4) ;;;
      lace_run_task t ;;;
      act (Load_d t 0);
     NAME_RUNEX := fun arg_1 arg_2 arg_3 arg_4 =>
      t <- act Alloc_task ;;
      act (Store_f t NAME) ;;;
      act (Store_thief t THIEF_TASK) ;;;
      act (Store_d t 0 arg_1) ;;;
      act (Store_d t 1 arg_2) ;;;
      act (Store_d t 2 arg_3) ;;;
      act (Store_d t 3 arg_4) ;;;
      lace_run_task_exclusive t ;;;
      act (Load_d t 0);
     NAME_SYNC := fun w dq_head =>
      ms <- act (Load_movesplit w) ;;
      if ms =? 0 then
        p <- act (Load_priv w) ;;
        if p_split p <=? dq_head then
          let t := TSlot w dq_head in
          act (Store_thief t THIEF_EMPTY) ;;;
          arg_1 <- act (Load_d t 0) ;;
          arg_2 <- act (Load_d t 1) ;;
          arg_3 <- act (Load_d t 2) ;;
          arg_4 <- act (Load_d t 3) ;;
          call (Fn_CALL NAME w dq_head [arg_1; arg_2; arg_3; arg_4])
        else NAME_SYNC_SLOW w dq_head
      else NAME_SYNC_SLOW w dq_head |}.

Definition TASK_IMPL_4 (NAME : fid) (NAME_WORK : nat -> Z -> args_fun 4 (lcode val)) : task_impl 4 :=
  {| NAME_WRAP := fun w dq_head t =>
      arg_1 <- act (Load_d t 0) ;;
      arg_2 <- act (Load_d t 1) ;;
      arg_3 <- act (Load_d t 2) ;;
      arg_4 <- act (Load_d t 3) ;;
      res <- call (Fn_CALL NAME w dq_head [arg_1; arg_2; arg_3; arg_4]) ;;
      act (Store_d t 0 res) ;;;
      Ret (VZ 0);
     NAME_CALL := fun w dq_head arg_1 arg_2 arg_3 arg_4 =>
      NAME_WORK w dq_head arg_1 arg_2 arg_3 arg_4 |}.

Definition VOID_TASK_DECL_4 (NAME : fid) : task_decl 4 :=
  let NAME_SYNC_SLOW := fun (w : nat) (dq_head : Z) =>
    let t := TSlot w dq_head in
    p <- act (Load_priv w) ;;
    leap <- (if negb (p_allstolen p =? 0) then Ret true
             else if p_split p >? dq_head then r <- lace_shrink_shared w ;; Ret (negb (r =? 0))
             else Ret false) ;;
    if (leap : bool) then
      lace_leapfrog w dq_head ;;;
      Ret (VZ 0)
    else
      ms <- act (Load_movesplit w) ;;
      when (negb (ms =? 0)) (
        p <- act (Load_priv w) ;;
        let t := p_split p in
        let diff := u64 (dq_head - t) in
        let diff := u64 (diff + 1) / 2 in
        act (Store_p_split w (t + diff)) ;;;
        act (Fetch_add_split w diff) ;;;
        act (Store_movesplit w 0)) ;;;
      act (Store_thief t THIEF_EMPTY) ;;;
      arg_1 <- act (Load_d t 0) ;;
      arg_2 <- act (Load_d t 1) ;;
      arg_3 <- act (Load_d t 2) ;;
      arg_4 <- act (Load_d t 3) ;;
      call (Fn_CALL NAME w dq_head [arg_1; arg_2; arg_3; arg_4]) in
  {| NAME_SPAWN := fun w dq_head arg_1 arg_2 arg_3 arg_4 =>
      when (dq_head =? dqsize) lace_abort_stack_overflow ;;;
      let t := TSlot w dq_head in
      act (Store_f t NAME) ;;;
      act (Store_thief t THIEF_TASK) ;;;
      act (Store_d t 0 arg_1) ;;;
      act (Store_d t 1 arg_2) ;;;
      act (Store_d t 2 arg_3) ;;;
      act (Store_d t 3 arg_4) ;;;
      p <- act (Load_priv w) ;;
      if negb (p_allstolen p =? 0) then
        ms <- act (Load_movesplit w) ;;
        when (negb (ms =? 0)) (act (Store_movesplit w 0)) ;;;
        let head := u32 dq_head in
        act (Store_ts w (mkTS head (u32 (head + 1)))) ;;;
        act (Store_allstolen w 0) ;;;
        act (Store_p_split w (dq_head + 1)) ;;;
        act (Store_p_allstolen w 0)
      else
        ms <- act (Load_movesplit w) ;;
        when (negb (ms =? 0)) (
          let head := u32 dq_head in
          let split := u32 (p_split p) in
          let newsplit := u32 (split + head + 2) / 2 in
          act (Store_split w newsplit) ;;;
          act (Store_p_split w newsplit) ;;;
          act (Store_movesplit w 0));
     NAME_NEWFRAME := fun arg_1 arg_2 arg_3 arg_4 =>
      t <- act Alloc_task ;;
      act (Store_f t NAME) ;;;
      act (Store_thief t THIEF_TASK) ;;;
      act (Store_d t 0 arg_1) ;;;
      act (Store_d t 1 arg_2) ;;;
      act (Store_d t 2 arg_3) ;;;
      act (Store_d t 3 arg_4) ;;;
      lace_run_newframe t ;;;
      Ret (VZ 0);
     NAME_TOGETHER := fun arg_1 arg_2 arg_3 arg_4 =>
      t <- act Alloc_task ;;
      act (Store_f t NAME) ;;;
      act (Store_thief t THIEF_TASK) ;;;
      act (Store_d t 0 arg_1) ;;;
      act (Store_d t 1 arg_2) ;;;
      act (Store_d t 2 arg_3) ;;;
      act (Store_d t 3 arg_4) ;;;
      lace_run_together t;
     NAME_RUN := fun arg_1 arg_2 arg_3 arg_4 =>
      t <- act Alloc_task ;;
      act (Store_f t NAME) ;;;
      act (Store_thief t THIEF_TASK) ;;;
      act (Store_d t 0 arg_1) ;;;
      act (Store_d t 1 arg_2) ;;;
      act (Store_d t 2 arg_3) ;;;
      act (Store_d t 3 arg_4) ;;;
      lace_run_task t ;;;
      Ret (VZ 0);
     NAME_RUNEX := fun arg_1 arg_2 arg_3 arg_4 =>
      t <- act Alloc_task ;;
      act (Store_f t NAME) ;;;
      act (Store_thief t THIEF_TASK) ;;;
      act (Store_d t 0 arg_1) ;;;
      act (Store_d t 1 arg_2) ;;;
      act (Store_d t 2 arg_3) ;;;
      act (Store_d t 3 arg_4) ;;;
      lace_run_task_exclusive t ;;;
      Ret (VZ 0);
     NAME_SYNC := fun w dq_head =>
      ms <- act (Load_movesplit w) ;;
      if ms =? 0 then
        p <- act (Load_priv w) ;;
        if p_split p <=? dq_head then
          let t := TSlot w dq_head in
          act (Store_thief t THIEF_EMPTY) ;;;
          arg_1 <- act (Load_d t 0) ;;
          arg_2 <- act (Load_d t 1) ;;
          arg_3 <- act (Load_d t 2) ;;
          arg_4 <- act (Load_d t 3) ;;
          call (Fn_CALL NAME w dq_head [arg_1; arg_2; arg_3; arg_4])
        else NAME_SYNC_SLOW w dq_head
      else NAME_SYNC_SLOW w dq_head |}.

Definition VOID_TASK_IMPL_4 (NAME : fid) (NAME_WORK : nat -> Z -> args_fun 4 (lcode unit)) : task_impl 4 :=
  {| NAME_WRAP := fun w dq_head t =>
      arg_1 <- act (Load_d t 0) ;;
      arg_2 <- act (Load_d t 1) ;;
      arg_3 <- act (Load_d t 2) ;;
      arg_4 <- act (Load_d t 3) ;;
      call (Fn_CALL NAME w dq_head [arg_1; arg_2; arg_3; arg_4]) ;;;
      Ret (VZ 0);
     NAME_CALL := fun w dq_head arg_1 arg_2 arg_3 arg_4 =>
      NAME_WORK w dq_head arg_1 arg_2 arg_3 arg_4 ;;;
      Ret (VZ 0) |}.

(** ** Tasks with 5 arguments *)

Definition TASK_DECL_5 (NAME : fid) : task_decl 5 :=
  let NAME_SYNC_SLOW := fun (w : nat) (dq_head : Z) =>
    let t := TSlot w dq_head in
    p <- act (Load_priv w) ;;
    leap <- (if negb (p_allstolen p =? 0) then Ret true
             else if p_split p >? dq_head then r <- lace_shrink_shared w ;; Ret (negb (r =? 0))
             else Ret false) ;;
    if (leap : bool) then
      lace_leapfrog w dq_head ;;;
      act (Load_d t 0)
    else
      ms <- act (Load_movesplit w) ;;
      when (negb (ms =? 0)) (
        p <- act (Load_priv w) ;;
        let t := p_split p in
        let diff := u64 (dq_head - t) in
        let diff := u64 (diff + 1) / 2 in
        act (Store_p_split w (t + diff)) ;;;
        act (Fetch_add_split w diff) ;;;
        act (Store_movesplit w 0)) ;;;
      act (Store_thief t THIEF_EMPTY) ;;;
      arg_1 <- act (Load_d t 0) ;;
      arg_2 <- act (Load_d t 1) ;;
      arg_3 <- act (Load_d t 2) ;;
      arg_4 <- act (Load_d t 3) ;;
      arg_5 <- act (Load_d t 4) ;;
      call (Fn_CALL NAME w dq_head [arg_1; arg_2; arg_3; arg_4; arg_5]) in
  {| NAME_SPAWN := fun w dq_head arg_1 arg_2 arg_3 arg_4 arg_5 =>
      when (dq_head =? dqsize) lace_abort_stack_overflow ;;;
      let t := TSlot w dq_head in
      act (Store_f t NAME) ;;;
      act (Store_thief t THIEF_TASK) ;;;
      act (Store_d t 0 arg_1) ;;;
      act (Store_d t 1 arg_2) ;;;
      act (Store_d t 2 arg_3) ;;;
      act (Store_d t 3 arg_4) ;;;
      act (Store_d t 4 arg_5) ;;;
      p <- act (Load_priv w) ;;
      if negb (p_allstolen p =? 0) then
        ms <- act (Load_movesplit w) ;;
        when (negb (ms =? 0)) (act (Store_movesplit w 0)) ;;;
        let head := u32 dq_head in
        act (Store_ts w (mkTS head (u32 (head + 1)))) ;;;
        act (Store_allstolen w 0) ;;;
        act (Store_p_split w (dq_head + 1)) ;;;
        act (Store_p_allstolen w 0)
      else
        ms <- act (Load_movesplit w) ;;
        when (negb (ms =? 0)) (
          let head := u32 dq_head in
          let split := u32 (p_split p) in
          let newsplit := u32 (split + head + 2) / 2 in
          act (Store_split w newsplit) ;;;
          act (Store_p_split w newsplit) ;;;
          act (Store_movesplit w 0));
     NAME_NEWFRAME := fun arg_1 arg_2 arg_3 arg_4 arg_5 =>
      t <- act Alloc_task ;;
      act (Store_f t NAME) ;;;
      act (Store_thief t THIEF_TASK) ;;;
      act (Store_d t 0 arg_1) ;;;
      act (Store_d t 1 arg_2) ;;;
      act (Store_d t 2 arg_3) ;;;
      act (Store_d t 3 arg_4) ;;;
      act (Store_d t 4 arg_5) ;;;
      lace_run_newframe t ;;;
      act (Load_d t 0);
     NAME_TOGETHER := fun arg_1 arg_2 arg_3 arg_4 arg_5 =>
      t <- act Alloc_task ;;
      act (Store_f t NAME) ;;;
      act (Store_thief t THIEF_TASK) ;;;
      act (Store_d t 0 arg_1) ;;;
      act (Store_d t 1 arg_2) ;;;
      act (Store_d t 2 arg_3) ;;;
      act (Store_d t 3 arg_4) ;;;
      act (Store_d t 4 arg_5) ;;;
      lace_run_together t;
     NAME_RUN := fun arg_1 arg_2 arg_3 arg_4 arg_5 =>
      t <- act Alloc_task ;;
      act (Store_f t NAME) ;;;
      act (Store_thief t THIEF_TASK) ;;;
      act (Store_d t 0 arg_1) ;;;
      act (Store_d t 1 arg_2) ;;;
      act (Store_d t 2 arg_3) ;;;
      act (Store_d t 3 arg_4) ;;;
      act (Store_d t 4 arg_5) ;;;
      lace_run_task t ;;;
      act (Load_d t 0);
     NAME_RUNEX := fun arg_1 arg_2 arg_3 arg_4 arg_5 =>
      t <- act Alloc_task ;;
      act (Store_f t NAME) ;;;
      act (Store_thief t THIEF_TASK) ;;;
      act (Store_d t 0 arg_1) ;;;
      act (Store_d t 1 arg_2) ;;;
      act (Store_d t 2 arg_3) ;;;
      act (Store_d t 3 arg_4) ;;;
      act (Store_d t 4 arg_5) ;;;
      lace_run_task_exclusive t ;;;
      act (Load_d t 0);
     NAME_SYNC := fun w dq_head =>
      ms <- act (Load_movesplit w) ;;
      if ms =? 0 then
        p <- act (Load_priv w) ;;
        if p_split p <=? dq_head then
          let t := TSlot w dq_head in
          act (Store_thief t THIEF_EMPTY) ;;;
          arg_1 <- act (Load_d t 0) ;;
          arg_2 <- act (Load_d t 1) ;;
          arg_3 <- act (Load_d t 2) ;;
          arg_4 <- act (Load_d t 3) ;;
          arg_5 <- act (Load_d t 4) ;;
          call (Fn_CALL NAME w dq_head [arg_1; arg_2; arg_3; arg_4; arg_5])
        else NAME_SYNC_SLOW w dq_head
      else NAME_SYNC_SLOW w dq_head |}.

Definition TASK_IMPL_5 (NAME : fid) (NAME_WORK : nat -> Z -> args_fun 5 (lcode val)) : task_impl 5 :=
  {| NAME_WRAP := fun w dq_head t =>
      arg_1 <- act (Load_d t 0) ;;
      arg_2 <- act (Load_d t 1) ;;
      arg_3 <- act (Load_d t 2) ;;
      arg_4 <- act (Load_d t 3) ;;
      arg_5 <- act (Load_d t 4) ;;
      res <- call (Fn_CALL NAME w dq_head [arg_1; arg_2; arg_3; arg_4; arg_5]) ;;
      act (Store_d t 0 res) ;;;
      Ret (VZ 0);
     NAME_CALL := fun w dq_head arg_1 arg_2 arg_3 arg_4 arg_5 =>
      NAME_WORK w dq_head arg_1 arg_2 arg_3 arg_4 arg_5 |}.

Definition VOID_TASK_DECL_5 (NAME : fid) : task_decl 5 :=
  let NAME_SYNC_SLOW := fun (w : nat) (dq_head : Z) =>
    let t := TSlot w dq_head in
    p <- act (Load_priv w) ;;
    leap <- (if negb (p_allstolen p =? 0) then Ret true
             else if p_split p >? dq_head then r <- lace_shrink_shared w ;; Ret (negb (r =? 0))
             else Ret false) ;;
    if (leap : bool) then
      lace_leapfrog w dq_head ;;;
      Ret (VZ 0)
    else
      ms <- act (Load_movesplit w) ;;
      when (negb (ms =? 0)) (
        p <- act (Load_priv w) ;;
        let t := p_split p in
        let diff := u64 (dq_head - t) in
        let diff := u64 (diff + 1) / 2 in
        act (Store_p_split w (t + diff)) ;;;
        act (Fetch_add_split w diff) ;;;
        act (Store_movesplit w 0)) ;;;
      act (Store_thief t THIEF_EMPTY) ;;;
      arg_1 <- act (Load_d t 0) ;;
      arg_2 <- act (Load_d t 1) ;;
      arg_3 <- act (Load_d t 2) ;;
      arg_4 <- act (Load_d t 3) ;;
      arg_5 <- act (Load_d t 4) ;;
      call (Fn_CALL NAME w dq_head [arg_1; arg_2; arg_3; arg_4; arg_5]) in
  {| NAME_SPAWN := fun w dq_head arg_1 arg_2 arg_3 arg_4 arg_5 =>
      when (dq_head =? dqsize) lace_abort_stack_overflow ;;;
      let t := TSlot w dq_head in
      act (Store_f t NAME) ;;;
      act (Store_thief t THIEF_TASK) ;;;
      act (Store_d t 0 arg_1) ;;;
      act (Store_d t 1 arg_2) ;;;
      act (Store_d t 2 arg_3) ;;;
      act (Store_d t 3 arg_4) ;;;
      act (Store_d t 4 arg_5) ;;;
      p <- act (Load_priv w) ;;
      if negb (p_allstolen p =? 0) then
        ms <- act (Load_movesplit w) ;;
        when (negb (ms =? 0)) (act (Store_movesplit w 0)) ;;;
        let head := u32 dq_head in
        act (Store_ts w (mkTS head (u32 (head + 1)))) ;;;
        act (Store_allstolen w 0) ;;;
        act (Store_p_split w (dq_head + 1)) ;;;
        act (Store_p_allstolen w 0)
      else
        ms <- act (Load_movesplit w) ;;
        when (negb (ms =? 0)) (
          let head := u32 dq_head in
          let split := u32 (p_split p) in
          let newsplit := u32 (split + head + 2) / 2 in
          act (Store_split w newsplit) ;;;
          act (Store_p_split w newsplit) ;;;
          act (Store_movesplit w 0));
     NAME_NEWFRAME := fun arg_1 arg_2 arg_3 arg_4 arg_5 =>
      t <- act Alloc_task ;;
      act (Store_f t NAME) ;;;
      act (Store_thief t THIEF_TASK) ;;;
      act (Store_d t 0 arg_1) ;;;
      act (Store_d t 1 arg_2) ;;;
      act (Store_d t 2 arg_3) ;;;
      act (Store_d t 3 arg_4) ;;;
      act (Store_d t 4 arg_5) ;;;
      lace_run_newframe t ;;;
      Ret (VZ 0);
     NAME_TOGETHER := fun arg_1 arg_2 arg_3 arg_4 arg_5 =>
      t <- act Alloc_task ;;
      act (Store_f t NAME) ;;;
      act (Store_thief t THIEF_TASK) ;;;
      act (Store_d t 0 arg_1) ;;;
      act (Store_d t 1 arg_2) ;;;
      act (Store_d t 2 arg_3) ;;;
      act (Store_d t 3 arg_4) ;;;
      act (Store_d t 4 arg_5) ;;;
      lace_run_together t;
     NAME_RUN := fun arg_1 arg_2 arg_3 arg_4 arg_5 =>
      t <- act Alloc_task ;;
      act (Store_f t NAME) ;;;
      act (Store_thief t THIEF_TASK) ;;;
      act (Store_d t 0 arg_1) ;;;
      act (Store_d t 1 arg_2) ;;;
      act (Store_d t 2 arg_3) ;;;
      act (Store_d t 3 arg_4) ;;;
      act (Store_d t 4 arg_5) ;;;
      lace_run_task t ;;;
      Ret (VZ 0);
     NAME_RUNEX := fun arg_1 arg_2 arg_3 arg_4 arg_5 =>
      t <- act Alloc_task ;;
      act (Store_f t NAME) ;;;
      act (Store_thief t THIEF_TASK) ;;;
      act (Store_d t 0 arg_1) ;;;
      act (Store_d t 1 arg_2) ;;;
      act (Store_d t 2 arg_3) ;;;
      act (Store_d t 3 arg_4) ;;;
      act (Store_d t 4 arg_5) ;;;
      lace_run_task_exclusive t ;;;
      Ret (VZ 0);
     NAME_SYNC := fun w dq_head =>
      ms <- act (Load_movesplit w) ;;
      if ms =? 0 then
        p <- act (Load_priv w) ;;
        if p_split p <=? dq_head then
          let t := TSlot w dq_head in
          act (Store_thief t THIEF_EMPTY) ;;;
          arg_1 <- act (Load_d t 0) ;;
          arg_2 <- act (Load_d t 1) ;;
          arg_3 <- act (Load_d t 2) ;;
          arg_4 <- act (Load_d t 3) ;;
          arg_5 <- act (Load_d t 4) ;;
          call (Fn_CALL NAME w dq_head [arg_1; arg_2; arg_3; arg_4; arg_5])
        else NAME_SYNC_SLOW w dq_head
      else NAME_SYNC_SLOW w dq_head |}.

Definition VOID_TASK_IMPL_5 (NAME : fid) (NAME_WORK : nat -> Z -> args_fun 5 (lcode unit)) : task_impl 5 :=
  {| NAME_WRAP := fun w dq_head t =>
      arg_1 <- act (Load_d t 0) ;;
      arg_2 <- act (Load_d t 1) ;;
      arg_3 <- act (Load_d t 2) ;;
      arg_4 <- act (Load_d t 3) ;;
      arg_5 <- act (Load_d t 4) ;;
      call (Fn_CALL NAME w dq_head [arg_1; arg_2; arg_3; arg_4; arg_5]) ;;;
      Ret (VZ 0);
     NAME_CALL := fun w dq_head arg_1 arg_2 arg_3 arg_4 arg_5 =>
      NAME_WORK w dq_head arg_1 arg_2 arg_3 arg_4 arg_5 ;;;
      Ret (VZ 0) |}.

(** ** Tasks with 6 arguments *)

Definition TASK_DECL_6 (NAME : fid) : task_decl 6 :=
  let NAME_SYNC_SLOW := fun (w : nat) (dq_head : Z) =>
    let t := TSlot w dq_head in
    p <- act (Load_priv w) ;;
    leap <- (if negb (p_allstolen p =? 0) then Ret true
             else if p_split p >? dq_head then r <- lace_shrink_shared w ;; Ret (negb (r =? 0))
             else Ret false) ;;
    if (leap : bool) then
      lace_leapfrog w dq_head ;;;
      act (Load_d t 0)
    else
      ms <- act (Load_movesplit w) ;;
      when (negb (ms =? 0)) (
        p <- act (Load_priv w) ;;
        let t := p_split p in
        let diff := u64 (dq_head - t) in
        let diff := u64 (diff + 1) / 2 in
        act (Store_p_split w (t + diff)) ;;;
        act (Fetch_add_split w diff) ;;;
        act (Store_movesplit w 0)) ;;;
      act (Store_thief t THIEF_EMPTY) ;;;
      arg_1 <- act (Load_d t 0) ;;
      arg_2 <- act (Load_d t 1) ;;
      arg_3 <- act (Load_d t 2) ;;
      arg_4 <- act (Load_d t 3) ;;
      arg_5 <- act (Load_d t 4) ;;
      arg_6 <- act (Load_d t 5) ;;
      call (Fn_CALL NAME w dq_head [arg_1; arg_2; arg_3; arg_4; arg_5; arg_6]) in
  {| NAME_SPAWN := fun w dq_head arg_1 arg_2 arg_3 arg_4 arg_5 arg_6 =>
      when (dq_head =? dqsize) lace_abort_stack_overflow ;;;
      let t := TSlot w dq_head in
      act (Store_f t NAME) ;;;
      act (Store_thief t THIEF_TASK) ;;;
      act (Store_d t 0 arg_1) ;;;
      act (Store_d t 1 arg_2) ;;;
      act (Store_d t 2 arg_3) ;;;
      act (Store_d t 3 arg_4) ;;;
      act (Store_d t 4 arg_5) ;;;
      act (Store_d t 5 arg_6) ;;;
      p <- act (Load_priv w) ;;
      if negb (p_allstolen p =? 0) then
        ms <- act (Load_movesplit w) ;;
        when (negb (ms =? 0)) (act (Store_movesplit w 0)) ;;;
        let head := u32 dq_head in
        act (Store_ts w (mkTS head (u32 (head + 1)))) ;;;
        act (Store_allstolen w 0) ;;;
        act (Store_p_split w (dq_head + 1)) ;;;
        act (Store_p_allstolen w 0)
      else
        ms <- act (Load_movesplit w) ;;
        when (negb (ms =? 0)) (
          let head := u32 dq_head in
          let split := u32 (p_split p) in
          let newsplit := u32 (split + head + 2) / 2 in
          act (Store_split w newsplit) ;;;
          act (Store_p_split w newsplit) ;;;
          act (Store_movesplit w 0));
     NAME_NEWFRAME := fun arg_1 arg_2 arg_3 arg_4 arg_5 arg_6 =>
      t <- act Alloc_task ;;
      act (Store_f t NAME) ;;;
      act (Store_thief t THIEF_TASK) ;;;
      act (Store_d t 0 arg_1) ;;;
      act (Store_d t 1 arg_2) ;;;
      act (Store_d t 2 arg_3) ;;;
      act (Store_d t 3 arg_4) ;;;
      act (Store_d t 4 arg_5) ;;;
      act (Store_d t 5 arg_6) ;;;
      lace_run_newframe t ;;;
      act (Load_d t 0);
     NAME_TOGETHER := fun arg_1 arg_2 arg_3 arg_4 arg_5 arg_6 =>
      t <- act Alloc_task ;;
      act (Store_f t NAME) ;;;
      act (Store_thief t THIEF_TASK) ;;;
      act (Store_d t 0 arg_1) ;;;
      act (Store_d t 1 arg_2) ;;;
      act (Store_d t 2 arg_3) ;;;
      act (Store_d t 3 arg_4) ;;;
      act (Store_d t 4 arg_5) ;;;
      act (Store_d t 5 arg_6) ;;;
      lace_run_together t;
     NAME_RUN := fun arg_1 arg_2 arg_3 arg_4 arg_5 arg_6 =>
      t <- act Alloc_task ;;
      act (Store_f t NAME) ;;;
      act (Store_thief t THIEF_TASK) ;;;
      act (Store_d t 0 arg_1) ;;;
      act (Store_d t 1 arg_2) ;;;
      act (Store_d t 2 arg_3) ;;;
      act (Store_d t 3 arg_4) ;;;
      act (Store_d t 4 arg_5) ;;;
      act (Store_d t 5 arg_6) ;;;
      lace_run_task t ;;;
      act (Load_d t 0);
     NAME_RUNEX := fun arg_1 arg_2 arg_3 arg_4 arg_5 arg_6 =>
      t <- act Alloc_task ;;
      act (Store_f t NAME) ;;;
      act (Store_thief t THIEF_TASK) ;;;
      act (Store_d t 0 arg_1) ;;;
      act (Store_d t 1 arg_2) ;;;
      act (Store_d t 2 arg_3) ;;;
      act (Store_d t 3 arg_4) ;;;
      act (Store_d t 4 arg_5) ;;;
      act (Store_d t 5 arg_6) ;;;
      lace_run_task_exclusive t ;;;
      act (Load_d t 0);
     NAME_SYNC := fun w dq_head =>
      ms <- act (Load_movesplit w) ;;
      if ms =? 0 then
        p <- act (Load_priv w) ;;
        if p_split p <=? dq_head then
          let t := TSlot w dq_head in
          act (Store_thief t THIEF_EMPTY) ;;;
          arg_1 <- act (Load_d t 0) ;;
          arg_2 <- act (Load_d t 1) ;;
          arg_3 <- act (Load_d t 2) ;;
          arg_4 <- act (Load_d t 3) ;;
          arg_5 <- act (Load_d t 4) ;;
          arg_6 <- act (Load_d t 5) ;;
          call (Fn_CALL NAME w dq_head [arg_1; arg_2; arg_3; arg_4; arg_5; arg_6])
        else NAME_SYNC_SLOW w dq_head
      else NAME_SYNC_SLOW w dq_head |}.

Definition TASK_IMPL_6 (NAME : fid) (NAME_WORK : nat -> Z -> args_fun 6 (lcode val)) : task_impl 6 :=
  {| NAME_WRAP := fun w dq_head t =>
      arg_1 <- act (Load_d t 0) ;;
      arg_2 <- act (Load_d t 1) ;;
      arg_3 <- act (Load_d t 2) ;;
      arg_4 <- act (Load_d t 3) ;;
      arg_5 <- act (Load_d t 4) ;;
      arg_6 <- act (Load_d t 5) ;;
      res <- call (Fn_CALL NAME w dq_head [arg_1; arg_2; arg_3; arg_4; arg_5; arg_6]) ;;
      act (Store_d t 0 res) ;;;
      Ret (VZ 0);
     NAME_CALL := fun w dq_head arg_1 arg_2 arg_3 arg_4 arg_5 arg_6 =>
      NAME_WORK w dq_head arg_1 arg_2 arg_3 arg_4 arg_5 arg_6 |}.

Definition VOID_TASK_DECL_6 (NAME : fid) : task_decl 6 :=
  let NAME_SYNC_SLOW := fun (w : nat) (dq_head : Z) =>
    let t := TSlot w dq_head in
    p <- act (Load_priv w) ;;
    leap <- (if negb (p_allstolen p =? 0) then Ret true
             else if p_split p >? dq_head then r <- lace_shrink_shared w ;; Ret (negb (r =? 0))
             else Ret false) ;;
    if (leap : bool) then
      lace_leapfrog w dq_head ;;;
      Ret (VZ 0)
    else
      ms <- act (Load_movesplit w) ;;
      when (negb (ms =? 0)) (
        p <- act (Load_priv w) ;;
        let t := p_split p in
        let diff := u64 (dq_head - t) in
        let diff := u64 (diff + 1) / 2 in
        act (Store_p_split w (t + diff)) ;;;
        act (Fetch_add_split w diff) ;;;
        act (Store_movesplit w 0)) ;;;
      act (Store_thief t THIEF_EMPTY) ;;;
      arg_1 <- act (Load_d t 0) ;;
      arg_2 <- act (Load_d t 1) ;;
      arg_3 <- act (Load_d t 2) ;;
      arg_4 <- act (Load_d t 3) ;;
      arg_5 <- act (Load_d t 4) ;;
      arg_6 <- act (Load_d t 5) ;;
      call (Fn_CALL NAME w dq_head [arg_1; arg_2; arg_3; arg_4; arg_5; arg_6]) in
  {| NAME_SPAWN := fun w dq_head arg_1 arg_2 arg_3 arg_4 arg_5 arg_6 =>
      when (dq_head =? dqsize) lace_abort_stack_overflow ;;;
      let t := TSlot w dq_head in
      act (Store_f t NAME) ;;;
      act (Store_thief t THIEF_TASK) ;;;
      act (Store_d t 0 arg_1) ;;;
      act (Store_d t 1 arg_2) ;;;
      act (Store_d t 2 arg_3) ;;;
      act (Store_d t 3 arg_4) ;;;
      act (Store_d t 4 arg_5) ;;;
      act (Store_d t 5 arg_6) ;;;
      p <- act (Load_priv w) ;;
      if negb (p_allstolen p =? 0) then
        ms <- act (Load_movesplit w) ;;
        when (negb (ms =? 0)) (act (Store_movesplit w 0)) ;;;
        let head := u32 dq_head in
        act (Store_ts w (mkTS head (u32 (head + 1)))) ;;;
        act (Store_allstolen w 0) ;;;
        act (Store_p_split w (dq_head + 1)) ;;;
        act (Store_p_allstolen w 0)
      else
        ms <- act (Load_movesplit w) ;;
        when (negb (ms =? 0)) (
          let head := u32 dq_head in
          let split := u32 (p_split p) in
          let newsplit := u32 (split + head + 2) / 2 in
          act (Store_split w newsplit) ;;;
          act (Store_p_split w newsplit) ;;;
          act (Store_movesplit w 0));
     NAME_NEWFRAME := fun arg_1 arg_2 arg_3 arg_4 arg_5 arg_6 =>
      t <- act Alloc_task ;;
      act (Store_f t NAME) ;;;
      act (Store_thief t THIEF_TASK) ;;;
      act (Store_d t 0 arg_1) ;;;
      act (Store_d t 1 arg_2) ;;;
      act (Store_d t 2 arg_3) ;;;
      act (Store_d t 3 arg_4) ;;;
      act (Store_d t 4 arg_5) ;;;
      act (Store_d t 5 arg_6) ;;;
      lace_run_newframe t ;;;
      Ret (VZ 0);
     NAME_TOGETHER := fun arg_1 arg_2 arg_3 arg_4 arg_5 arg_6 =>
      t <- act Alloc_task ;;
      act (Store_f t NAME) ;;;
      act (Store_thief t THIEF_TASK) ;;;
      act (Store_d t 0 arg_1) ;;;
      act (Store_d t 1 arg_2) ;;;
      act (Store_d t 2 arg_3) ;;;
      act (Store_d t 3 arg_4) ;;;
      act (Store_d t 4 arg_5) ;;;
      act (Store_d t 5 arg_6) ;;;
      lace_run_together t;
     NAME_RUN := fun arg_1 arg_2 arg_3 arg_4 arg_5 arg_6 =>
      t <- act Alloc_task ;;
      act (Store_f t NAME) ;;;
      act (Store_thief t THIEF_TASK) ;;;
      act (Store_d t 0 arg_1) ;;;
      act (Store_d t 1 arg_2) ;;;
      act (Store_d t 2 arg_3) ;;;
      act (Store_d t 3 arg_4) ;;;
      act (Store_d t 4 arg_5) ;;;
      act (Store_d t 5 arg_6) ;;;
      lace_run_task t ;;;
      Ret (VZ 0);
     NAME_RUNEX := fun arg_1 arg_2 arg_3 arg_4 arg_5 arg_6 =>
      t <- act Alloc_task ;;
      act (Store_f t NAME) ;;;
      act (Store_thief t THIEF_TASK) ;;;
      act (Store_d t 0 arg_1) ;;;
      act (Store_d t 1 arg_2) ;;;
      act (Store_d t 2 arg_3) ;;;
      act (Store_d t 3 arg_4) ;;;
      act (Store_d t 4 arg_5) ;;;
      act (Store_d t 5 arg_6) ;;;
      lace_run_task_exclusive t ;;;
      Ret (VZ 0);
     NAME_SYNC := fun w dq_head =>
      ms <- act (Load_movesplit w) ;;
      if ms =? 0 then
        p <- act (Load_priv w) ;;
        if p_split p <=? dq_head then
          let t := TSlot w dq_head in
          act (Store_thief t THIEF_EMPTY) ;;;
          arg_1 <- act (Load_d t 0) ;;
          arg_2 <- act (Load_d t 1) ;;
          arg_3 <- act (Load_d t 2) ;;
          arg_4 <- act (Load_d t 3) ;;
          arg_5 <- act (Load_d t 4) ;;
          arg_6 <- act (Load_d t 5) ;;
          call (Fn_CALL NAME w dq_head [arg_1; arg_2; arg_3; arg_4; arg_5; arg_6])
        else NAME_SYNC_SLOW w dq_head
      else NAME_SYNC_SLOW w dq_head |}.

Definition VOID_TASK_IMPL_6 (NAME : fid) (NAME_WORK : nat -> Z -> args_fun 6 (lcode unit)) : task_impl 6 :=
  {| NAME_WRAP := fun w dq_head t =>
      arg_1 <- act (Load_d t 0) ;;
      arg_2 <- act (Load_d t 1) ;;
      arg_3 <- act (Load_d t 2) ;;
      arg_4 <- act (Load_d t 3) ;;
      arg_5 <- act (Load_d t 4) ;;
      arg_6 <- act (Load_d t 5) ;;
      call (Fn_CALL NAME w dq_head [arg_1; arg_2; arg_3; arg_4; arg_5; arg_6]) ;;;
      Ret (VZ 0);
     NAME_CALL := fun w dq_head arg_1 arg_2 arg_3 arg_4 arg_5 arg_6 =>
      NAME_WORK w dq_head arg_1 arg_2 arg_3 arg_4 arg_5 arg_6 ;;;
      Ret (VZ 0) |}.

(** ** The macros by arity *)

Definition TASK_DECL (n : nat) (NAME : fid) : option (task_decl n) :=
  match n with
  | 0%nat => Some (TASK_DECL_0 NAME)
  | 1%nat => Some (TASK_DECL_1 NAME)
  | 2%nat => Some (TASK_DECL_2 NAME)
  | 3%nat => Some (TASK_DECL_3 NAME)
  | 4%nat => Some (TASK_DECL_4 NAME)
  | 5%nat => Some (TASK_DECL_5 NAME)
  | 6%nat => Some (TASK_DECL_6 NAME)
  | _ => None
  end.

Definition TASK_IMPL (n : nat) (NAME : fid) :
    (nat -> Z -> args_fun n (lcode val)) -> option (task_impl n) :=
  match n with
  | 0%nat => fun NAME_WORK => Some (TASK_IMPL_0 NAME NAME_WORK)
  | 1%nat => fun NAME_WORK => Some (TASK_IMPL_1 NAME NAME_WORK)
  | 2%nat => fun NAME_WORK => Some (TASK_IMPL_2 NAME NAME_WORK)
  | 3%nat => fun NAME_WORK => Some (TASK_IMPL_3 NAME NAME_WORK)
  | 4%nat => fun NAME_WORK => Some (TASK_IMPL_4 NAME NAME_WORK)
  | 5%nat => fun NAME_WORK => Some (TASK_IMPL_5 NAME NAME_WORK)
  | 6%nat => fun NAME_WORK => Some (TASK_IMPL_6 NAME NAME_WORK)
  | _ => fun _ => None
  end.

Definition VOID_TASK_DECL (n : nat) (NAME : fid) : option (task_decl n) :=
  match n with
  | 0%nat => Some (VOID_TASK_DECL_0 NAME)
  | 1%nat => Some (VOID_TASK_DECL_1 NAME)
  | 2%nat => Some (VOID_TASK_DECL_2 NAME)
  | 3%nat => Some (VOID_TASK_DECL_3 NAME)
  | 4%nat => Some (VOID_TASK_DECL_4 NAME)
  | 5%nat => Some (VOID_TASK_DECL_5 NAME)
  | 6%nat => Some (VOID_TASK_DECL_6 NAME)
  | _ => None
  end.

Definition VOID_TASK_IMPL (n : nat) (NAME : fid) :
    (nat -> Z -> args_fun n (lcode unit)) -> option (task_impl n) :=
  match n with
  | 0%nat => fun NAME_WORK => Some (VOID_TASK_IMPL_0 NAME NAME_WORK)
  | 1%nat => fun NAME_WORK => Some (VOID_TASK_IMPL_1 NAME NAME_WORK)
  | 2%nat => fun NAME_WORK => Some (VOID_TASK_IMPL_2 NAME NAME_WORK)
  | 3%nat => fun NAME_WORK => Some (VOID_TASK_IMPL_3 NAME NAME_WORK)
  | 4%nat => fun NAME_WORK => Some (VOID_TASK_IMPL_4 NAME NAME_WORK)
  | 5%nat => fun NAME_WORK => Some (VOID_TASK_IMPL_5 NAME NAME_WORK)
  | 6%nat => fun NAME_WORK => Some (VOID_TASK_IMPL_6 NAME NAME_WORK)
  | _ => fun _ => None
  end.

(** Every macro is the text that lace.sh generates for its arity. *)
Lemma decl_generated n NAME d : TASK_DECL n NAME = Some d -> decl_ok NAME false n d.
Proof. do 7 (destruct n as [|n]; [intros [= <-]; solve_macro|]). done. Qed.

Lemma decl_exists n NAME : (n <= 6)%nat -> is_Some (TASK_DECL n NAME).
Proof. intros Hn. do 7 (destruct n as [|n]; [by eexists|]). lia. Qed.

Lemma void_decl_generated n NAME d : VOID_TASK_DECL n NAME = Some d -> decl_ok NAME true n d.
Proof. do 7 (destruct n as [|n]; [intros [= <-]; solve_macro|]). done. Qed.

Lemma void_decl_exists n NAME : (n <= 6)%nat -> is_Some (VOID_TASK_DECL n NAME).
Proof. intros Hn. do 7 (destruct n as [|n]; [by eexists|]). lia. Qed.

Lemma impl_generated n NAME NAME_WORK d :
  TASK_IMPL n NAME NAME_WORK = Some d -> value_impl_ok NAME n NAME_WORK d.
Proof. do 7 (destruct n as [|n]; [intros [= <-]; solve_macro|]). done. Qed.

Lemma impl_exists n NAME NAME_WORK : (n <= 6)%nat -> is_Some (TASK_IMPL n NAME NAME_WORK).
Proof. intros Hn. do 7 (destruct n as [|n]; [by eexists|]). lia. Qed.

Lemma void_impl_generated n NAME NAME_WORK d :
  VOID_TASK_IMPL n NAME NAME_WORK = Some d -> void_impl_ok NAME n NAME_WORK d.
Proof. do 7 (destruct n as [|n]; [intros [= <-]; solve_macro|]). done. Qed.

Lemma void_impl_exists n NAME NAME_WORK : (n <= 6)%nat -> is_Some (VOID_TASK_IMPL n NAME NAME_WORK).
Proof. intros Hn. do 7 (destruct n as [|n]; [by eexists|]). lia. Qed.
End Macros.
