(* ===== verification/TaskMacros14.v ===== *)
(** * The task macros of src/src/lace14.h

    The same macros for tasks with up to 14 arguments, each translated from its own text. *)

From S2P Require Export Tasks.
From S2P Require Import TaskMacros.

Section Macros.
Context {cfg : Cfg}.

(** ** Tasks with 0 arguments *)

Definition TASK_DECL_0 (NAME : fid) : task_decl 0 :=
  let NAME_SYNC_SLOW := fun (w : nat) (dq_head : Z) =>
    let t := TSlot w dq_head in
    p <- act (Load_priv w) ;;
    leap <- (if negb (p_allstolen p =? 0) then Ret true
             else if p_split p >? dq_head then r <- lace_shrink_shared w ;; Ret (negb (r =? 0))
             else Ret false) ;;
    if (leap : bool) then
      lace_leapfrog w dq_head ;;;
      act (Load_d t 0)
    else
      ms <- act (Load_movesplit w) ;;
      when (negb (ms =? 0)) (
        p <- act (Load_priv w) ;;
        let t := p_split p in
        let diff := u64 (dq_head - t) in
        let diff := u64 (diff + 1) / 2 in
        act (Store_p_split w (t + diff)) ;;;
        act (Fetch_add_split w diff) ;;;
        act (Store_movesplit w 0)) ;;;
      act (Store_thief t THIEF_EMPTY) ;;;
      call (Fn_CALL NAME w dq_head []) in
  {| NAME_SPAWN := fun w dq_head =>
      when (dq_head =? dqsize) lace_abort_stack_overflow ;;;
      let t := TSlot w dq_head in
      act (Store_f t NAME) ;;;
      act (Store_thief t THIEF_TASK) ;;;
      p <- act (Load_priv w) ;;
      if negb (p_allstolen p =? 0) then
        ms <- act (Load_movesplit w) ;;
        when (negb (ms =? 0)) (act (Store_movesplit w 0)) ;;;
        let head := u32 dq_head in
        act (Store_ts w (mkTS head (u32 (head + 1)))) ;;;
        act (Store_allstolen w 0) ;;;
        act (Store_p_split w (dq_head + 1)) ;;;
        act (Store_p_allstolen w 0)
      else
        ms <- act (Load_movesplit w) ;;
        when (negb (ms =? 0)) (
          let head := u32 dq_head in
          let split := u32 (p_split p) in
          let newsplit := u32 (split + head + 2) / 2 in
          act (Store_split w newsplit) ;;;
          act (Store_p_split w newsplit) ;;;
          act (Store_movesplit w 0));
     NAME_NEWFRAME :=
      t <- act Alloc_task ;;
      act (Store_f t NAME) ;;;
      act (Store_thief t THIEF_TASK) ;;;
      lace_run_newframe t ;;;
      act (Load_d t 0);
     NAME_TOGETHER :=
      t <- act Alloc_task ;;
      act (Store_f t NAME) ;;;
      act (Store_thief t THIEF_TASK) ;;;
      lace_run_together t;
     NAME_RUN :=
      t <- act Alloc_task ;;
      act (Store_f t NAME) ;;;
      act (Store_thief t THIEF_TASK) ;;;
      lace_run_task t ;;;
      act (Load_d t 0);
     NAME_RUNEX :=
      t <- act Alloc_task ;;
      act (Store_f t NAME) ;;;
      act (Store_thief t THIEF_TASK) ;;;
      lace_run_task_exclusive t ;;;
      act (Load_d t 0);
     NAME_SYNC := fun w dq_head =>
      ms <- act (Load_movesplit w) ;;
      if ms =? 0 then
        p <- act (Load_priv w) ;;
        if p_split p <=? dq_head then
          let t := TSlot w dq_head in
          act (Store_thief t THIEF_EMPTY) ;;;
          call (Fn_CALL NAME w dq_head [])
        else NAME_SYNC_SLOW w dq_head
      else NAME_SYNC_SLOW w dq_head |}.

Definition TASK_IMPL_0 (NAME : fid) (NAME_WORK : nat -> Z -> args_fun 0 (lcode val)) : task_impl 0 :=
  {| NAME_WRAP := fun w dq_head t =>
      res <- call (Fn_CALL NAME w dq_head []) ;;
      act (Store_d t 0 res) ;;;
      Ret (VZ 0);
     NAME_CALL := fun w dq_head =>
      NAME_WORK w dq_head |}.

Definition VOID_TASK_DECL_0 (NAME : fid) : task_decl 0 :=
  let NAME_SYNC_SLOW := fun (w : nat) (dq_head : Z) =>
    let t := TSlot w dq_head in
    p <- act (Load_priv w) ;;
    leap <- (if negb (p_allstolen p =? 0) then Ret true
             else if p_split p >? dq_head then r <- lace_shrink_shared w ;; Ret (negb (r =? 0))
             else Ret false) ;;
    if (leap : bool) then
      lace_leapfrog w dq_head ;;;
      Ret (VZ 0)
    else
      ms <- act (Load_movesplit w) ;;
      when (negb (ms =? 0)) (
        p <- act (Load_priv w) ;;
        let t := p_split p in
        let diff := u64 (dq_head - t) in
        let diff := u64 (diff + 1) / 2 in
        act (Store_p_split w (t + diff)) ;;;
        act (Fetch_add_split w diff) ;;;
        act (Store_movesplit w 0)) ;;;
      act (Store_thief t THIEF_EMPTY) ;;;
      call (Fn_CALL NAME w dq_head []) in
  {| NAME_SPAWN := fun w dq_head =>
      when (dq_head =? dqsize) lace_abort_stack_overflow ;;;
      let t := TSlot w dq_head in
      act (Store_f t NAME) ;;;
      act (Store_thief t THIEF_TASK) ;;;
      p <- act (Load_priv w) ;;
      if negb (p_allstolen p =? 0) then
        ms <- act (Load_movesplit w) ;;
        when (negb (ms =? 0)) (act (Store_movesplit w 0)) ;;;
        let head := u32 dq_head in
        act (Store_ts w (mkTS head (u32 (head + 1)))) ;;;
        act (Store_allstolen w 0) ;;;
        act (Store_p_split w (dq_head + 1)) ;;;
        act (Store_p_allstolen w 0)
      else
        ms <- act (Load_movesplit w) ;;
        when (negb (ms =? 0)) (
          let head := u32 dq_head in
          let split := u32 (p_split p) in
          let newsplit := u32 (split + head + 2) / 2 in
          act (Store_split w newsplit) ;;;
          act (Store_p_split w newsplit) ;;;
          act (Store_movesplit w 0));
     NAME_NEWFRAME :=
      t <- act Alloc_task ;;
      act (Store_f t NAME) ;;;
      act (Store_thief t THIEF_TASK) ;;;
      lace_run_newframe t ;;;
      Ret (VZ 0);
     NAME_TOGETHER :=
      t <- act Alloc_task ;;
      act (Store_f t NAME) ;;;
      act (Store_thief t THIEF_TASK) ;;;
      lace_run_together t;
     NAME_RUN :=
      t <- act Alloc_task ;;
      act (Store_f t NAME) ;;;
      act (Store_thief t THIEF_TASK) ;;;
      lace_run_task t ;;;
      Ret (VZ 0);
     NAME_RUNEX :=
      t <- act Alloc_task ;;
      act (Store_f t NAME) ;;;
      act (Store_thief t THIEF_TASK) ;;;
      lace_run_task_exclusive t ;;;
      Ret (VZ 0);
     NAME_SYNC := fun w dq_head =>
      ms <- act (Load_movesplit w) ;;
      if ms =? 0 then
        p <- act (Load_priv w) ;;
        if p_split p <=? dq_head then
          let t := TSlot w dq_head in
          act (Store_thief t THIEF_EMPTY) ;;;
          call (Fn_CALL NAME w dq_head [])
        else NAME_SYNC_SLOW w dq_head
      else NAME_SYNC_SLOW w dq_head |}.

Definition VOID_TASK_IMPL_0 (NAME : fid) (NAME_WORK : nat -> Z -> args_fun 0 (lcode unit)) : task_impl 0 :=
  {| NAME_WRAP := fun w dq_head t =>
      call (Fn_CALL NAME w dq_head []) ;;;
      Ret (VZ 0);
     NAME_CALL := fun w dq_head =>
      NAME_WORK w dq_head ;;;
      Ret (VZ 0) |}.

(** ** Tasks with 1 argument *)

Definition TASK_DECL_1 (NAME : fid) : task_decl 1 :=
  let NAME_SYNC_SLOW := fun (w : nat) (dq_head : Z) =>
    let t := TSlot w dq_head in
    p <- act (Load_priv w) ;;
    leap <- (if negb (p_allstolen p =? 0) then Ret true
             else if p_split p >? dq_head then r <- lace_shrink_shared w ;; Ret (negb (r =? 0))
             else Ret false) ;;
    if (leap : bool) then
      lace_leapfrog w dq_head ;;;
      act (Load_d t 0)
    else
      ms <- act (Load_movesplit w) ;;
      when (negb (ms =? 0)) (
        p <- act (Load_priv w) ;;
        let t := p_split p in
        let diff := u64 (dq_head - t) in
        let diff := u64 (diff + 1) / 2 in
        act (Store_p_split w (t + diff)) ;;;
        act (Fetch_add_split w diff) ;;;
        act (Store_movesplit w 0)) ;;;
      act (Store_thief t THIEF_EMPTY) ;;;
      arg_1 <- act (Load_d t 0) ;;
      call (Fn_CALL NAME w dq_head [arg_1]) in
  {| NAME_SPAWN := fun w dq_head arg_1 =>
      when (dq_head =? dqsize) lace_abort_stack_overflow ;;;
      let t := TSlot w dq_head in
      act (Store_f t NAME) ;;;
      act (Store_thief t THIEF_TASK) ;;;
      act (Store_d t 0 arg_1) ;;;
      p <- act (Load_priv w) ;;
      if negb (p_allstolen p =? 0) then
        ms <- act (Load_movesplit w) ;;
        when (negb (ms =? 0)) (act (Store_movesplit w 0)) ;;;
        let head := u32 dq_head in
        act (Store_ts w (mkTS head (u32 (head + 1)))) ;;;
        act (Store_allstolen w 0) ;;;
        act (Store_p_split w (dq_head + 1)) ;;;
        act (Store_p_allstolen w 0)
      else
        ms <- act (Load_movesplit w) ;;
        when (negb (ms =? 0)) (
          let head := u32 dq_head in
          let split := u32 (p_split p) in
          let newsplit := u32 (split + head + 2) / 2 in
          act (Store_split w newsplit) ;;;
          act (Store_p_split w newsplit) ;;;
          act (Store_movesplit w 0));
     NAME_NEWFRAME := fun arg_1 =>
      t <- act Alloc_task ;;
      act (Store_f t NAME) ;;;
      act (Store_thief t THIEF_TASK) ;;;
      act (Store_d t 0 arg_1) ;;;
      lace_run_newframe t ;;;
      act (Load_d t 0);
     NAME_TOGETHER := fun arg_1 =>
      t <- act Alloc_task ;;
      act (Store_f t NAME) ;;;
      act (Store_thief t THIEF_TASK) ;;;
      act (Store_d t 0 arg_1) ;;;
      lace_run_together t;
     NAME_RUN := fun arg_1 =>
      t <- act Alloc_task ;;
      act (Store_f t NAME) ;;;
      act (Store_thief t THIEF_TASK) ;;;
      act (Store_d t 0 arg_1) ;;;
      lace_run_task t ;;;
      act (Load_d t 0);
     NAME_RUNEX := fun arg_1 =>
      t <- act Alloc_task ;;
      act (Store_f t NAME) ;;;
      act (Store_thief t THIEF_TASK) ;;;
      act (Store_d t 0 arg_1) ;;;
      lace_run_task_exclusive t ;;;
      act (Load_d t 0);
     NAME_SYNC := fun w dq_head =>
      ms <- act (Load_movesplit w) ;;
      if ms =? 0 then
        p <- act (Load_priv w) ;;
        if p_split p <=? dq_head then
          let t := TSlot w dq_head in
          act (Store_thief t THIEF_EMPTY) ;;;
          arg_1 <- act (Load_d t 0) ;;
          call (Fn_CALL NAME w dq_head [arg_1])
        else NAME_SYNC_SLOW w dq_head
      else NAME_SYNC_SLOW w dq_head |}.

Definition TASK_IMPL_1 (NAME : fid) (NAME_WORK : nat -> Z -> args_fun 1 (lcode val)) : task_impl 1 :=
  {| NAME_WRAP := fun w dq_head t =>
      arg_1 <- act (Load_d t 0) ;;
      res <- call (Fn_CALL NAME w dq_head [arg_1]) ;;
      act (Store_d t 0 res) ;;;
      Ret (VZ 0);
     NAME_CALL := fun w dq_head arg_1 =>
      NAME_WORK w dq_head arg_1 |}.

Definition VOID_TASK_DECL_1 (NAME : fid) : task_decl 1 :=
  let NAME_SYNC_SLOW := fun (w : nat) (dq_head : Z) =>
    let t := TSlot w dq_head in
    p <- act (Load_priv w) ;;
    leap <- (if negb (p_allstolen p =? 0) then Ret true
             else if p_split p >? dq_head then r <- lace_shrink_shared w ;; Ret (negb (r =? 0))
             else Ret false) ;;
    if (leap : bool) then
      lace_leapfrog w dq_head ;;;
      Ret (VZ 0)
    else
      ms <- act (Load_movesplit w) ;;
      when (negb (ms =? 0)) (
        p <- act (Load_priv w) ;;
        let t := p_split p in
        let diff := u64 (dq_head - t) in
        let diff := u64 (diff + 1) / 2 in
        act (Store_p_split w (t + diff)) ;;;
        act (Fetch_add_split w diff) ;;;
        act (Store_movesplit w 0)) ;;;
      act (Store_thief t THIEF_EMPTY) ;;;
      arg_1 <- act (Load_d t 0) ;;
      call (Fn_CALL NAME w dq_head [arg_1]) in
  {| NAME_SPAWN := fun w dq_head arg_1 =>
      when (dq_head =? dqsize) lace_abort_stack_overflow ;;;
      let t := TSlot w dq_head in
      act (Store_f t NAME) ;;;
      act (Store_thief t THIEF_TASK) ;;;
      act (Store_d t 0 arg_1) ;;;
      p <- act (Load_priv w) ;;
      if negb (p_allstolen p =? 0) then
        ms <- act (Load_movesplit w) ;;
        when (negb (ms =? 0)) (act (Store_movesplit w 0)) ;;;
        let head := u32 dq_head in
        act (Store_ts w (mkTS head (u32 (head + 1)))) ;;;
        act (Store_allstolen w 0) ;;;
        act (Store_p_split w (dq_head + 1)) ;;;
        act (Store_p_allstolen w 0)
      else
        ms <- act (Load_movesplit w) ;;
        when (negb (ms =? 0)) (
          let head := u32 dq_head in
          let split := u32 (p_split p) in
          let newsplit := u32 (split + head + 2) / 2 in
          act (Store_split w newsplit) ;;;
          act (Store_p_split w newsplit) ;;;
          act (Store_movesplit w 0));
     NAME_NEWFRAME := fun arg_1 =>
      t <- act Alloc_task ;;
      act (Store_f t NAME) ;;;
      act (Store_thief t THIEF_TASK) ;;;
      act (Store_d t 0 arg_1) ;;;
      lace_run_newframe t ;;;
      Ret (VZ 0);
     NAME_TOGETHER := fun arg_1 =>
      t <- act Alloc_task ;;
      act (Store_f t NAME) ;;;
      act (Store_thief t THIEF_TASK) ;;;
      act (Store_d t 0 arg_1) ;;;
      lace_run_together t;
     NAME_RUN := fun arg_1 =>
      t <- act Alloc_task ;;
      act (Store_f t NAME) ;;;
      act (Store_thief t THIEF_TASK) ;;;
      act (Store_d t 0 arg_1) ;;;
      lace_run_task t ;;;
      Ret (VZ 0);
     NAME_RUNEX := fun arg_1 =>
      t <- act Alloc_task ;;
      act (Store_f t NAME) ;;;
      act (Store_thief t THIEF_TASK) ;;;
      act (Store_d t 0 arg_1) ;;;
      lace_run_task_exclusive t ;;;
      Ret (VZ 0);
     NAME_SYNC := fun w dq_head =>
      ms <- act (Load_movesplit w) ;;
      if ms =? 0 then
        p <- act (Load_priv w) ;;
        if p_split p <=? dq_head then
          let t := TSlot w dq_head in
          act (Store_thief t THIEF_EMPTY) ;;;
          arg_1 <- act (Load_d t 0) ;;
          call (Fn_CALL NAME w dq_head [arg_1])
        else NAME_SYNC_SLOW w dq_head
      else NAME_SYNC_SLOW w dq_head |}.

Definition VOID_TASK_IMPL_1 (NAME : fid) (NAME_WORK : nat -> Z -> args_fun 1 (lcode unit)) : task_impl 1 :=
  {| NAME_WRAP := fun w dq_head t =>
      arg_1 <- act (Load_d t 0) ;;
      call (Fn_CALL NAME w dq_head [arg_1]) ;;;
      Ret (VZ 0);
     NAME_CALL := fun w dq_head arg_1 =>
      NAME_WORK w dq_head arg_1 ;;;
      Ret (VZ 0) |}.

(** ** Tasks with 2 arguments *)

Definition TASK_DECL_2 (NAME : fid) : task_decl 2 :=
  let NAME_SYNC_SLOW := fun (w : nat) (dq_head : Z) =>
    let t := TSlot w dq_head in
    p <- act (Load_priv w) ;;
    leap <- (if negb (p_allstolen p =? 0) then Ret true
             else if p_split p >? dq_head then r <- lace_shrink_shared w ;; Ret (negb (r =? 0))
             else Ret false) ;;
    if (leap : bool) then
      lace_leapfrog w dq_head ;;;
      act (Load_d t 0)
    else
      ms <- act (Load_movesplit w) ;;
      when (negb (ms =? 0)) (
        p <- act (Load_priv w) ;;
        let t := p_split p in
        let diff := u64 (dq_head - t) in
        let diff := u64 (diff + 1) / 2 in
        act (Store_p_split w (t + diff)) ;;;
        act (Fetch_add_split w diff) ;;;
        act (Store_movesplit w 0)) ;;;
      act (Store_thief t THIEF_EMPTY) ;;;
      arg_1 <- act (Load_d t 0) ;;
      arg_2 <- act (Load_d t 1) ;;
      call (Fn_CALL NAME w dq_head [arg_1; arg_2]) in
  {| NAME_SPAWN := fun w dq_head arg_1 arg_2 =>
      when (dq_head =? dqsize) lace_abort_stack_overflow ;;;
      let t := TSlot w dq_head in
      act (Store_f t NAME) ;;;
      act (Store_thief t THIEF_TASK) ;;;
      act (Store_d t 0 arg_1) ;;;
      act (Store_d t 1 arg_2) ;;;
      p <- act (Load_priv w) ;;
      if negb (p_allstolen p =? 0) then
        ms <- act (Load_movesplit w) ;;
        when (negb (ms =? 0)) (act (Store_movesplit w 0)) ;;;
        let head := u32 dq_head in
        act (Store_ts w (mkTS head (u32 (head + 1)))) ;;;
        act (Store_allstolen w 0) ;;;
        act (Store_p_split w (dq_head + 1)) ;;;
        act (Store_p_allstolen w 0)
      else
        ms <- act (Load_movesplit w) ;;
        when (negb (ms =? 0)) (
          let head := u32 dq_head in
          let split := u32 (p_split p) in
          let newsplit := u32 (split + head + 2) / 2 in
          act (Store_split w newsplit) ;;;
          act (Store_p_split w newsplit) ;;;
          act (Store_movesplit w 0));
     NAME_NEWFRAME := fun arg_1 arg_2 =>
      t <- act Alloc_task ;;
      act (Store_f t NAME) ;;;
      act (Store_thief t THIEF_TASK) ;;;
      act (Store_d t 0 arg_1) ;;;
      act (Store_d t 1 arg_2) ;;;
      lace_run_newframe t ;;;
      act (Load_d t 0);
     NAME_TOGETHER := fun arg_1 arg_2 =>
      t <- act Alloc_task ;;
      act (Store_f t NAME) ;;;
      act (Store_thief t THIEF_TASK) ;;;
      act (Store_d t 0 arg_1) ;;;
      act (Store_d t 1 arg_2) ;;;
      lace_run_together t;
     NAME_RUN := fun arg_1 arg_2 =>
      t <- act Alloc_task ;;
      act (Store_f t NAME) ;;;
      act (Store_thief t THIEF_TASK) ;;;
      act (Store_d t 0 arg_1) ;;;
      act (Store_d t 1 arg_2) ;;;
      lace_run_task t ;;;
      act (Load_d t 0);
     NAME_RUNEX := fun arg_1 arg_2 =>
      t <- act Alloc_task ;;
      act (Store_f t NAME) ;;;
      act (Store_thief t THIEF_TASK) ;;;
      act (Store_d t 0 arg_1) ;;;
      act (Store_d t 1 arg_2) ;;;
      lace_run_task_exclusive t ;;;
      act (Load_d t 0);
     NAME_SYNC := fun w dq_head =>
      ms <- act (Load_movesplit w) ;;
      if ms =? 0 then
        p <- act (Load_priv w) ;;
        if p_split p <=? dq_head then
          let t := TSlot w dq_head in
          act (Store_thief t THIEF_EMPTY) ;;;
          arg_1 <- act (Load_d t 0) ;;
          arg_2 <- act (Load_d t 1) ;;
          call (Fn_CALL NAME w dq_head [arg_1; arg_2])
        else NAME_SYNC_SLOW w dq_head
      else NAME_SYNC_SLOW w dq_head |}.

Definition TASK_IMPL_2 (NAME : fid) (NAME_WORK : nat -> Z -> args_fun 2 (lcode val)) : task_impl 2 :=
  {| NAME_WRAP := fun w dq_head t =>
      arg_1 <- act (Load_d t 0) ;;
      arg_2 <- act (Load_d t 1) ;;
      res <- call (Fn_CALL NAME w dq_head [arg_1; arg_2]) ;;
      act (Store_d t 0 res) ;;;
      Ret (VZ 0);
     NAME_CALL := fun w dq_head arg_1 arg_2 =>
      NAME_WORK w dq_head arg_1 arg_2 |}.

Definition VOID_TASK_DECL_2 (NAME : fid) : task_decl 2 :=
  let NAME_SYNC_SLOW := fun (w : nat) (dq_head : Z) =>
    let t := TSlot w dq_head in
    p <- act (Load_priv w) ;;
    leap <- (if negb (p_allstolen p =? 0) then Ret true
             else if p_split p >? dq_head then r <- lace_shrink_shared w ;; Ret (negb (r =? 0))
             else Ret false) ;;
    if (leap : bool) then
      lace_leapfrog w dq_head ;;;
      Ret (VZ 0)
    else
      ms <- act (Load_movesplit w) ;;
      when (negb (ms =? 0)) (
        p <- act (Load_priv w) ;;
        let t := p_split p in
        let diff := u64 (dq_head - t) in
        let diff := u64 (diff + 1) / 2 in
        act (Store_p_split w (t + diff)) ;;;
        act (Fetch_add_split w diff) ;;;
        act (Store_movesplit w 0)) ;;;
      act (Store_thief t THIEF_EMPTY) ;;;
      arg_1 <- act (Load_d t 0) ;;
      arg_2 <- act (Load_d t 1) ;;
      call (Fn_CALL NAME w dq_head [arg_1; arg_2]) in
  {| NAME_SPAWN := fun w dq_head arg_1 arg_2 =>
      when (dq_head =? dqsize) lace_abort_stack_overflow ;;;
      let t := TSlot w dq_head in
      act (Store_f t NAME) ;;;
      act (Store_thief t THIEF_TASK) ;;;
      act (Store_d t 0 arg_1) ;;;
      act (Store_d t 1 arg_2) ;;;
      p <- act (Load_priv w) ;;
      if negb (p_allstolen p =? 0) then
        ms <- act (Load_movesplit w) ;;
        when (negb (ms =? 0)) (act (Store_movesplit w 0)) ;;;
        let head := u32 dq_head in
        act (Store_ts w (mkTS head (u32 (head + 1)))) ;;;
        act (Store_allstolen w 0) ;;;
        act (Store_p_split w (dq_head + 1)) ;;;
        act (Store_p_allstolen w 0)
      else
        ms <- act (Load_movesplit w) ;;
        when (negb (ms =? 0)) (
          let head := u32 dq_head in
          let split := u32 (p_split p) in
          let newsplit := u32 (split + head + 2) / 2 in
          act (Store_split w newsplit) ;;;
          act (Store_p_split w newsplit) ;;;
          act (Store_movesplit w 0));
     NAME_NEWFRAME := fun arg_1 arg_2 =>
      t <- act Alloc_task ;;
      act (Store_f t NAME) ;;;
      act (Store_thief t THIEF_TASK) ;;;
      act (Store_d t 0 arg_1) ;;;
      act (Store_d t 1 arg_2) ;;;
      lace_run_newframe t ;;;
      Ret (VZ 0);
     NAME_TOGETHER := fun arg_1 arg_2 =>
      t <- act Alloc_task ;;
      act (Store_f t NAME) ;;;
      act (Store_thief t THIEF_TASK) ;;;
      act (Store_d t 0 arg_1) ;;;
      act (Store_d t 1 arg_2) ;;;
      lace_run_together t;
     NAME_RUN := fun arg_1 arg_2 =>
      t <- act Alloc_task ;;
      act (Store_f t NAME) ;;;
      act (Store_thief t THIEF_TASK) ;;;
      act (Store_d t 0 arg_1) ;;;
      act (Store_d t 1 arg_2) ;;;
      lace_run_task t ;;;
      Ret (VZ 0);
     NAME_RUNEX := fun arg_1 arg_2 =>
      t <- act Alloc_task ;;
      act (Store_f t NAME) ;;;
      act (Store_thief t THIEF_TASK) ;;;
      act (Store_d t 0 arg_1) ;;;
      act (Store_d t 1 arg_2) ;;;
      lace_run_task_exclusive t ;;;
      Ret (VZ 0);
     NAME_SYNC := fun w dq_head =>
      ms <- act (Load_movesplit w) ;;
      if ms =? 0 then
        p <- act (Load_priv w) ;;
        if p_split p <=? dq_head then
          let t := TSlot w dq_head in
          act (Store_thief t THIEF_EMPTY) ;;;
          arg_1 <- act (Load_d t 0) ;;
          arg_2 <- act (Load_d t 1) ;;
          call (Fn_CALL NAME w dq_head [arg_1; arg_2])
        else NAME_SYNC_SLOW w dq_head
      else NAME_SYNC_SLOW w dq_head |}.

Definition VOID_TASK_IMPL_2 (NAME : fid) (NAME_WORK : nat -> Z -> args_fun 2 (lcode unit)) : task_impl 2 :=
  {| NAME_WRAP := fun w dq_head t =>
      arg_1 <- act (Load_d t 0) ;;
      arg_2 <- act (Load_d t 1) ;;
      call (Fn_CALL NAME w dq_head [arg_1; arg_2]) ;;;
      Ret (VZ 0);
     NAME_CALL := fun w dq_head arg_1 arg_2 =>
      NAME_WORK w dq_head arg_1 arg_2 ;;;
      Ret (VZ 0) |}.

(** ** Tasks with 3 arguments *)

Definition TASK_DECL_3 (NAME : fid) : task_decl 3 :=
  let NAME_SYNC_SLOW := fun (w : nat) (dq_head : Z) =>
    let t := TSlot w dq_head in
    p <- act (Load_priv w) ;;
    leap <- (if negb (p_allstolen p =? 0) then Ret true
             else if p_split p >? dq_head then r <- lace_shrink_shared w ;; Ret (negb (r =? 0))
             else Ret false) ;;
    if (leap : bool) then
      lace_leapfrog w dq_head ;;;
      act (Load_d t 0)
    else
      ms <- act (Load_movesplit w) ;;
      when (negb (ms =? 0)) (
        p <- act (Load_priv w) ;;
        let t := p_split p in
        let diff := u64 (dq_head - t) in
        let diff := u64 (diff + 1) / 2 in
        act (Store_p_split w (t + diff)) ;;;
        act (Fetch_add_split w diff) ;;;
        act (Store_movesplit w 0)) ;;;
      act (Store_thief t THIEF_EMPTY) ;;;
      arg_1 <- act (Load_d t 0) ;;
      arg_2 <- act (Load_d t 1) ;;
      arg_3 <- act (Load_d t 2) ;;
      call (Fn_CALL NAME w dq_head [arg_1; arg_2; arg_3]) in
  {| NAME_SPAWN := fun w dq_head arg_1 arg_2 arg_3 =>
      when (dq_head =? dqsize) lace_abort_stack_overflow ;;;
      let t := TSlot w dq_head in
      act (Store_f t NAME) ;;;
      act (Store_thief t THIEF_TASK) ;;;
      act (Store_d t 0 arg_1) ;;;
      act (Store_d t 1 arg_2) ;;;
      act (Store_d t 2 arg_3) ;;;
      p <- act (Load_priv w) ;;
      if negb (p_allstolen p =? 0) then
        ms <- act (Load_movesplit w) ;;
        when (negb (ms =? 0)) (act (Store_movesplit w 0)) ;;;
        let head := u32 dq_head in
        act (Store_ts w (mkTS head (u32 (head + 1)))) ;;;
        act (Store_allstolen w 0) ;;;
        act (Store_p_split w (dq_head + 1)) ;;;
        act (Store_p_allstolen w 0)
      else
        ms <- act (Load_movesplit w) ;;
        when (negb (ms =? 0)) (
          let head := u32 dq_head in
          let split := u32 (p_split p) in
          let newsplit := u32 (split + head + 2) / 2 in
          act (Store_split w newsplit) ;;;
          act (Store_p_split w newsplit) ;;;
          act (Store_movesplit w 0));
     NAME_NEWFRAME := fun arg_1 arg_2 arg_3 =>
      t <- act Alloc_task ;;
      act (Store_f t NAME) ;;;
      act (Store_thief t THIEF_TASK) ;;;
      act (Store_d t 0 arg_1) ;;;
      act (Store_d t 1 arg_2) ;;;
      act (Store_d t 2 arg_3) ;;;
      lace_run_newframe t ;;;
      act (Load_d t 0);
     NAME_TOGETHER := fun arg_1 arg_2 arg_3 =>
      t <- act Alloc_task ;;
      act (Store_f t NAME) ;;;
      act (Store_thief t THIEF_TASK) ;;;
      act (Store_d t 0 arg_1) ;;;
      act (Store_d t 1 arg_2) ;;;
      act (Store_d t 2 arg_3) ;;;
      lace_run_together t;
     NAME_RUN := fun arg_1 arg_2 arg_3 =>
      t <- act Alloc_task ;;
      act (Store_f t NAME) ;;;
      act (Store_thief t THIEF_TASK) ;;;
      act (Store_d t 0 arg_1) ;;;
      act (Store_d t 1 arg_2) ;;;
      act (Store_d t 2 arg_3) ;;;
      lace_run_task t ;;;
      act (Load_d t 0);
     NAME_RUNEX := fun arg_1 arg_2 arg_3 =>
      t <- act Alloc_task ;;
      act (Store_f t NAME) ;;;
      act (Store_thief t THIEF_TASK) ;;;
      act (Store_d t 0 arg_1) ;;;
      act (Store_d t 1 arg_2) ;;;
      act (Store_d t 2 arg_3) ;;;
      lace_run_task_exclusive t ;;;
      act (Load_d t 0);
     NAME_SYNC := fun w dq_head =>
      ms <- act (Load_movesplit w) ;;
      if ms =? 0 then
        p <- act (Load_priv w) ;;
        if p_split p <=? dq_head then
          let t := TSlot w dq_head in
          act (Store_thief t THIEF_EMPTY) ;;;
          arg_1 <- act (Load_d t 0) ;;
          arg_2 <- act (Load_d t 1) ;;
          arg_3 <- act (Load_d t 2) ;;
          call (Fn_CALL NAME w dq_head [arg_1; arg_2; arg_3])
        else NAME_SYNC_SLOW w dq_head
      else NAME_SYNC_SLOW w dq_head |}.

Definition TASK_IMPL_3 (NAME : fid) (NAME_WORK : nat -> Z -> args_fun 3 (lcode val)) : task_impl 3 :=
  {| NAME_WRAP := fun w dq_head t =>
      arg_1 <- act (Load_d t 0) ;;
      arg_2 <- act (Load_d t 1) ;;
      arg_3 <- act (Load_d t 2) ;;
      res <- call (Fn_CALL NAME w dq_head [arg_1; arg_2; arg_3]) ;;
      act (Store_d t 0 res) ;;;
      Ret (VZ 0);
     NAME_CALL := fun w dq_head arg_1 arg_2 arg_3 =>
      NAME_WORK w dq_head arg_1 arg_2 arg_3 |}.

Definition VOID_TASK_DECL_3 (NAME : fid) : task_decl 3 :=
  let NAME_SYNC_SLOW := fun (w : nat) (dq_head : Z) =>
    let t := TSlot w dq_head in
    p <- act (Load_priv w) ;;
    leap <- (if negb (p_allstolen p =? 0) then Ret true
             else if p_split p >? dq_head then r <- lace_shrink_shared w ;; Ret (negb (r =? 0))
             else Ret false) ;;
    if (leap : bool) then
      lace_leapfrog w dq_head ;;;
      Ret (VZ 0)
    else
      ms <- act (Load_movesplit w) ;;
      when (negb (ms =? 0)) (
        p <- act (Load_priv w) ;;
        let t := p_split p in
        let diff := u64 (dq_head - t) in
        let diff := u64 (diff + 1) / 2 in
        act (Store_p_split w (t + diff)) ;;;
        act (Fetch_add_split w diff) ;;;
        act (Store_movesplit w 0)) ;;;
      act (Store_thief t THIEF_EMPTY) ;;;
      arg_1 <- act (Load_d t 0) ;;
      arg_2 <- act (Load_d t 1) ;;
      arg_3 <- act (Load_d t 2) ;;
      call (Fn_CALL NAME w dq_head [arg_1; arg_2; arg_3]) in
  {| NAME_SPAWN := fun w dq_head arg_1 arg_2 arg_3 =>
      when (dq_head =? dqsize) lace_abort_stack_overflow ;;;
      let t := TSlot w dq_head in
      act (Store_f t NAME) ;;;
      act (Store_thief t THIEF_TASK) ;;;
      act (Store_d t 0 arg_1) ;;;
      act (Store_d t 1 arg_2) ;;;
      act (Store_d t 2 arg_3) ;;;
      p <- act (Load_priv w) ;;
      if negb (p_allstolen p =? 0) then
        ms <- act (Load_movesplit w) ;;
        when (negb (ms =? 0)) (act (Store_movesplit w 0)) ;;;
        let head := u32 dq_head in
        act (Store_ts w (mkTS head (u32 (head + 1)))) ;;;
        act (Store_allstolen w 0) ;;;
        act (Store_p_split w (dq_head + 1)) ;;;
        act (Store_p_allstolen w 0)
      else
        ms <- act (Load_movesplit w) ;;
        when (negb (ms =? 0)) (
          let head := u32 dq_head in
          let split := u32 (p_split p) in
          let newsplit := u32 (split + head + 2) / 2 in
          act (Store_split w newsplit) ;;;
          act (Store_p_split w newsplit) ;;;
          act (Store_movesplit w 0));
     NAME_NEWFRAME := fun arg_1 arg_2 arg_3 =>
      t <- act Alloc_task ;;
      act (Store_f t NAME) ;;;
      act (Store_thief t THIEF_TASK) ;;;
      act (Store_d t 0 arg_1) ;;;
      act (Store_d t 1 arg_2) ;;;
      act (Store_d t 2 arg_3) ;;;
      lace_run_newframe t ;;;
      Ret (VZ 0);
     NAME_TOGETHER := fun arg_1 arg_2 arg_3 =>
      t <- act Alloc_task ;;
      act (Store_f t NAME) ;;;
      act (Store_thief t THIEF_TASK) ;;;
      act (Store_d t 0 arg_1) ;;;
      act (Store_d t 1 arg_2) ;;;
      act (Store_d t 2 arg_3) ;;;
      lace_run_together t;
     NAME_RUN := fun arg_1 arg_2 arg_3 =>
      t <- act Alloc_task ;;
      act (Store_f t NAME) ;;;
      act (Store_thief t THIEF_TASK) ;;;
      act (Store_d t 0 arg_1) ;;;
      act (Store_d t 1 arg_2) ;;;
      act (Store_d t 2 arg_3) ;;;
      lace_run_task t ;;;
      Ret (VZ 0);
     NAME_RUNEX := fun arg_1 arg_2 arg_3 =>
      t <- act Alloc_task ;;
      act (Store_f t NAME) ;;;
      act (Store_thief t THIEF_TASK) ;;;
      act (Store_d t 0 arg_1) ;;;
      act (Store_d t 1 arg_2) ;;;
      act (Store_d t 2 arg_3) ;;;
      lace_run_task_exclusive t ;;;
      Ret (VZ 0);
     NAME_SYNC := fun w dq_head =>
      ms <- act (Load_movesplit w) ;;
      if ms =? 0 then
        p <- act (Load_priv w) ;;
        if p_split p <=? dq_head then
          let t := TSlot w dq_head in
          act (Store_thief t THIEF_EMPTY) ;;;
          arg_1 <- act (Load_d t 0) ;;
          arg_2 <- act (Load_d t 1) ;;
          arg_3 <- act (Load_d t 2) ;;
          call (Fn_CALL NAME w dq_head [arg_1; arg_2; arg_3])
        else NAME_SYNC_SLOW w dq_head
      else NAME_SYNC_SLOW w dq_head |}.

Definition VOID_TASK_IMPL_3 (NAME : fid) (NAME_WORK : nat -> Z -> args_fun 3 (lcode unit)) : task_impl 3 :=
  {| NAME_WRAP := fun w dq_head t =>
      arg_1 <- act (Load_d t 0) ;;
      arg_2 <- act (Load_d t 1) ;;
      arg_3 <- act (Load_d t 2) ;;
      call (Fn_CALL NAME w dq_head [arg_1; arg_2; arg_3]) ;;;
      Ret (VZ 0);
     NAME_CALL := fun w dq_head arg_1 arg_2 arg_3 =>
      NAME_WORK w dq_head arg_1 arg_2 arg_3 ;;;
      Ret (VZ 0) |}.

(** ** Tasks with 4 arguments *)

Definition TASK_DECL_4 (NAME : fid) : task_decl 4 :=
  let NAME_SYNC_SLOW := fun (w : nat) (dq_head : Z) =>
    let t := TSlot w dq_head in
    p <- act (Load_priv w) ;;
    leap <- (if negb (p_allstolen p =? 0) then Ret true
             else if p_split p >? dq_head then r <- lace_shrink_shared w ;; Ret (negb (r =? 0))
             else Ret false) ;;
    if (leap : bool) then
      lace_leapfrog w dq_head ;;;
      act (Load_d t 0)
    else
      ms <- act (Load_movesplit w) ;;
      when (negb (ms =? 0)) (
        p <- act (Load_priv w) ;;
        let t := p_split p in
        let diff := u64 (dq_head - t) in
        let diff := u64 (diff + 1) / 2 in
        act (Store_p_split w (t + diff)) ;;;
        act (Fetch_add_split w diff) ;;;
        act (Store_movesplit w 0)) ;;;
      act (Store_thief t THIEF_EMPTY) ;;;
      arg_1 <- act (Load_d t 0) ;;
      arg_2 <- act (Load_d t 1) ;;
      arg_3 <- act (Load_d t 2) ;;
      arg_4 <- act (Load_d t 3) ;;
      call (Fn_CALL NAME w dq_head [arg_1; arg_2; arg_3; arg_4]) in
  {| NAME_SPAWN := fun w dq_head arg_1 arg_2 arg_3 arg_4 =>
      when (dq_head =? dqsize) lace_abort_stack_overflow ;;;
      let t := TSlot w dq_head in
      act (Store_f t NAME) ;;;
      act (Store_thief t THIEF_TASK) ;;;
      act (Store_d t 0 arg_1) ;;;
      act (Store_d t 1 arg_2) ;;;
      act (Store_d t 2 arg_3) ;;;
      act (Store_d t 3 arg_4) ;;;
      p <- act (Load_priv w) ;;
      if negb (p_allstolen p =? 0) then
        ms <- act (Load_movesplit w) ;;
        when (negb (ms =? 0)) (act (Store_movesplit w 0)) ;;;
        let head := u32 dq_head in
        act (Store_ts w (mkTS head (u32 (head + 1)))) ;;;
        act (Store_allstolen w 0) ;;;
        act (Store_p_split w (dq_head + 1)) ;;;
        act (Store_p_allstolen w 0)
      else
        ms <- act (Load_movesplit w) ;;
        when (negb (ms =? 0)) (
          let head := u32 dq_head in
          let split := u32 (p_split p) in
          let newsplit := u32 (split + head + 2) / 2 in
          act (Store_split w newsplit) ;;;
          act (Store_p_split w newsplit) ;;;
          act (Store_movesplit w 0));
     NAME_NEWFRAME := fun arg_1 arg_2 arg_3 arg_4 =>
      t <- act Alloc_task ;;
      act (Store_f t NAME) ;;;
      act (Store_thief t THIEF_TASK) ;;;
      act (Store_d t 0 arg_1) ;;;
      act (Store_d t 1 arg_2) ;;;
      act (Store_d t 2 arg_3) ;;;
      act (Store_d t 3 arg_4) ;;;
      lace_run_newframe t ;;;
      act (Load_d t 0);
     NAME_TOGETHER := fun arg_1 arg_2 arg_3 arg_4 =>
      t <- act Alloc_task ;;
      act (Store_f t NAME) ;;;
      act (Store_thief t THIEF_TASK) ;;;
      act (Store_d t 0 arg_1) ;;;
      act (Store_d t 1 arg_2) ;;;
      act (Store_d t 2 arg_3) ;;;
      act (Store_d t 3 arg_4) ;;;
      lace_run_together t;
     NAME_RUN := fun arg_1 arg_2 arg_3 arg_4 =>
      t <- act Alloc_task ;;
      act (Store_f t NAME) ;;;
      act (Store_thief t THIEF_TASK) ;;;
      act (Store_d t 0 arg_1) ;;;
      act (Store_d t 1 arg_2) ;;;
      act (Store_d t 2 arg_3) ;;;
      act (Store_d t 3 arg_4) ;;;
      lace_run_task t ;;;
      act (Load_d t 0);
     NAME_RUNEX := fun arg_1 arg_2 arg_3 arg_4 =>
      t <- act Alloc_task ;;
      act (Store_f t NAME) ;;;
      act (Store_thief t THIEF_TASK) ;;;
      act (Store_d t 0 arg_1) ;;;
      act (Store_d t 1 arg_2) ;;;
      act (Store_d t 2 arg_3) ;;;
      act (Store_d t 3 arg_4) ;;;
      lace_run_task_exclusive t ;;;
      act (Load_d t 0);
     NAME_SYNC := fun w dq_head =>
      ms <- act (Load_movesplit w) ;;
      if ms =? 0 then
        p <- act (Load_priv w) ;;
        if p_split p <=? dq_head then
          let t := TSlot w dq_head in
          act (Store_thief t THIEF_EMPTY) ;;;
          arg_1 <- act (Load_d t 0) ;;
          arg_2 <- act (Load_d t 1) ;;
          arg_3 <- act (Load_d t 2) ;;
          arg_4 <- act (Load_d t 3) ;;
          call (Fn_CALL NAME w dq_head [arg_1; arg_2; arg_3; arg_4])
        else NAME_SYNC_SLOW w dq_head
      else NAME_SYNC_SLOW w dq_head |}.

Definition TASK_IMPL_4 (NAME : fid) (NAME_WORK : nat -> Z -> args_fun 4 (lcode val)) : task_impl 4 :=
  {| NAME_WRAP := fun w dq_head t =>
      arg_1 <- act (Load_d t 0) ;;
      arg_2 <- act (Load_d t 1) ;;
      arg_3 <- act (Load_d t 2) ;;
      arg_4 <- act (Load_d t 3) ;;
      res <- call (Fn_CALL NAME w dq_head [arg_1; arg_2; arg_3; arg_4]) ;;
      act (Store_d t 0 res) ;;;
      Ret (VZ 0);
     NAME_CALL := fun w dq_head arg_1 arg_2 arg_3 arg_4 =>
      NAME_WORK w dq_head arg_1 arg_2 arg_3 arg_4 |}.

Definition VOID_TASK_DECL_4 (NAME : fid) : task_decl 4 :=
  let NAME_SYNC_SLOW := fun (w : nat) (dq_head : Z) =>
    let t := TSlot w dq_head in
    p <- act (Load_priv w) ;;
    leap <- (if negb (p_allstolen p =? 0) then Ret true
             else if p_split p >? dq_head then r <- lace_shrink_shared w ;; Ret (negb (r =? 0))
             else Ret false) ;;
    if (leap : bool) then
      lace_leapfrog w dq_head ;;;
      Ret (VZ 0)
    else
      ms <- act (Load_movesplit w) ;;
      when (negb (ms =? 0)) (
        p <- act (Load_priv w) ;;
        let t := p_split p in
        let diff := u64 (dq_head - t) in
        let diff := u64 (diff + 1) / 2 in
        act (Store_p_split w (t + diff)) ;;;
        act (Fetch_add_split w diff) ;;;
        act (Store_movesplit w 0)) ;;;
      act (Store_thief t THIEF_EMPTY) ;;;
      arg_1 <- act (Load_d t 0) ;;
      arg_2 <- act (Load_d t 1) ;;
      arg_3 <- act (Load_d t 2) ;;
      arg_4 <- act (Load_d t 3) ;;
      call (Fn_CALL NAME w dq_head [arg_1; arg_2; arg_3; arg_4]) in
  {| NAME_SPAWN := fun w dq_head arg_1 arg_2 arg_3 arg_4 =>
      when (dq_head =? dqsize) lace_abort_stack_overflow ;;;
      let t := TSlot w dq_head in
      act (Store_f t NAME) ;;;
      act (Store_thief t THIEF_TASK) ;;;
      act (Store_d t 0 arg_1) ;;;
      act (Store_d t 1 arg_2) ;;;
      act (Store_d t 2 arg_3) ;;;
      act (Store_d t 3 arg_4) ;;;
      p <- act (Load_priv w) ;;
      if negb (p_allstolen p =? 0) then
        ms <- act (Load_movesplit w) ;;
        when (negb (ms =? 0)) (act (Store_movesplit w 0)) ;;;
        let head := u32 dq_head in
        act (Store_ts w (mkTS head (u32 (head + 1)))) ;;;
        act (Store_allstolen w 0) ;;;
        act (Store_p_split w (dq_head + 1)) ;;;
        act (Store_p_allstolen w 0)
      else
        ms <- act (Load_movesplit w) ;;
        when (negb (ms =? 0)) (
          let head := u32 dq_head in
          let split := u32 (p_split p) in
          let newsplit := u32 (split + head + 2) / 2 in
          act (Store_split w newsplit) ;;;
          act (Store_p_split w newsplit) ;;;
          act (Store_movesplit w 0));
     NAME_NEWFRAME := fun arg_1 arg_2 arg_3 arg_4 =>
      t <- act Alloc_task ;;
      act (Store_f t NAME) ;;;
      act (Store_thief t THIEF_TASK) ;;;
      act (Store_d t 0 arg_1) ;;;
      act (Store_d t 1 arg_2) ;;;
      act (Store_d t 2 arg_3) ;;;
      act (Store_d t 3 arg_4) ;;;
      lace_run_newframe t ;;;
      Ret (VZ 0);
     NAME_TOGETHER := fun arg_1 arg_2 arg_3 arg_4 =>
      t <- act Alloc_task ;;
      act (Store_f t NAME) ;;;
      act (Store_thief t THIEF_TASK) ;;;
      act (Store_d t 0 arg_1) ;;;
      act (Store_d t 1 arg_2) ;;;
      act (Store_d t 2 arg_3) ;;;
      act (Store_d t 3 arg_4) ;;;
      lace_run_together t;
     NAME_RUN := fun arg_1 arg_2 arg_3 arg_4 =>
      t <- act Alloc_task ;;
      act (Store_f t NAME) ;;;
      act (Store_thief t THIEF_TASK) ;;;
      act (Store_d t 0 arg_1) ;;;
      act (Store_d t 1 arg_2) ;;;
      act (Store_d t 2 arg_3) ;;;
      act (Store_d t 3 arg_4) ;;;
      lace_run_task t ;;;
      Ret (VZ 0);
     NAME_RUNEX := fun arg_1 arg_2 arg_3 arg_4 =>
      t <- act Alloc_task ;;
      act (Store_f t NAME) ;;;
      act (Store_thief t THIEF_TASK) ;;;
      act (Store_d t 0 arg_1) ;;;
      act (Store_d t 1 arg_2) ;;;
      act (Store_d t 2 arg_3) ;;;
      act (Store_d t 3 arg_4) ;;;
      lace_run_task_exclusive t ;;;
      Ret (VZ 0);
     NAME_SYNC := fun w dq_head =>
      ms <- act (Load_movesplit w) ;;
      if ms =? 0 then
        p <- act (Load_priv w) ;;
        if p_split p <=? dq_head then
          let t := TSlot w dq_head in
          act (Store_thief t THIEF_EMPTY) ;;;
          arg_1 <- act (Load_d t 0) ;;
          arg_2 <- act (Load_d t 1) ;;
          arg_3 <- act (Load_d t 2) ;;
          arg_4 <- act (Load_d t 3) ;;
          call (Fn_CALL NAME w dq_head [arg_1; arg_2; arg_3; arg_4])
        else NAME_SYNC_SLOW w dq_head
      else NAME_SYNC_SLOW w dq_head |}.

Definition VOID_TASK_IMPL_4 (NAME : fid) (NAME_WORK : nat -> Z -> args_fun 4 (lcode unit)) : task_impl 4 :=
  {| NAME_WRAP := fun w dq_head t =>
      arg_1 <- act (Load_d t 0) ;;
      arg_2 <- act (Load_d t 1) ;;
      arg_3 <- act (Load_d t 2) ;;
      arg_4 <- act (Load_d t 3) ;;
      call (Fn_CALL NAME w dq_head [arg_1; arg_2; arg_3; arg_4]) ;;;
      Ret (VZ 0);
     NAME_CALL := fun w dq_head arg_1 arg_2 arg_3 arg_4 =>
      NAME_WORK w dq_head arg_1 arg_2 arg_3 arg_4 ;;;
      Ret (VZ 0) |}.

(** ** Tasks with 5 arguments *)

Definition TASK_DECL_5 (NAME : fid) : task_decl 5 :=
  let NAME_SYNC_SLOW := fun (w : nat) (dq_head : Z) =>
    let t := TSlot w dq_head in
    p <- act (Load_priv w) ;;
    leap <- (if negb (p_allstolen p =? 0) then Ret true
             else if p_split p >? dq_head then r <- lace_shrink_shared w ;; Ret (negb (r =? 0))
             else Ret false) ;;
    if (leap : bool) then
      lace_leapfrog w dq_head ;;;
      act (Load_d t 0)
    else
      ms <- act (Load_movesplit w) ;;
      when (negb (ms =? 0)) (
        p <- act (Load_priv w) ;;
        let t := p_split p in
        let diff := u64 (dq_head - t) in
        let diff := u64 (diff + 1) / 2 in
        act (Store_p_split w (t + diff)) ;;;
        act (Fetch_add_split w diff) ;;;
        act (Store_movesplit w 0)) ;;;
      act (Store_thief t THIEF_EMPTY) ;;;
      arg_1 <- act (Load_d t 0) ;;
      arg_2 <- act (Load_d t 1) ;;
      arg_3 <- act (Load_d t 2) ;;
      arg_4 <- act (Load_d t 3) ;;
      arg_5 <- act (Load_d t 4) ;;
      call (Fn_CALL NAME w dq_head [arg_1; arg_2; arg_3; arg_4; arg_5]) in
  {| NAME_SPAWN := fun w dq_head arg_1 arg_2 arg_3 arg_4 arg_5 =>
      when (dq_head =? dqsize) lace_abort_stack_overflow ;;;
      let t := TSlot w dq_head in
      act (Store_f t NAME) ;;;
      act (Store_thief t THIEF_TASK) ;;;
      act (Store_d t 0 arg_1) ;;;
      act (Store_d t 1 arg_2) ;;;
      act (Store_d t 2 arg_3) ;;;
      act (Store_d t 3 arg_4) ;;;
      act (Store_d t 4 arg_5) ;;;
      p <- act (Load_priv w) ;;
      if negb (p_allstolen p =? 0) then
        ms <- act (Load_movesplit w) ;;
        when (negb (ms =? 0)) (act (Store_movesplit w 0)) ;;;
        let head := u32 dq_head in
        act (Store_ts w (mkTS head (u32 (head + 1)))) ;;;
        act (Store_allstolen w 0) ;;;
        act (Store_p_split w (dq_head + 1)) ;;;
        act (Store_p_allstolen w 0)
      else
        ms <- act (Load_movesplit w) ;;
        when (negb (ms =? 0)) (
          let head := u32 dq_head in
          let split := u32 (p_split p) in
          let newsplit := u32 (split + head + 2) / 2 in
          act (Store_split w newsplit) ;;;
          act (Store_p_split w newsplit) ;;;
          act (Store_movesplit w 0));
     NAME_NEWFRAME := fun arg_1 arg_2 arg_3 arg_4 arg_5 =>
      t <- act Alloc_task ;;
      act (Store_f t NAME) ;;;
      act (Store_thief t THIEF_TASK) ;;;
      act (Store_d t 0 arg_1) ;;;
      act (Store_d t 1 arg_2) ;;;
      act (Store_d t 2 arg_3) ;;;
      act (Store_d t 3 arg_4) ;;;
      act (Store_d t 4 arg_5) ;;;
      lace_run_newframe t ;;;
      act (Load_d t 0);
     NAME_TOGETHER := fun arg_1 arg_2 arg_3 arg_4 arg_5 =>
      t <- act Alloc_task ;;
      act (Store_f t NAME) ;;;
      act (Store_thief t THIEF_TASK) ;;;
      act (Store_d t 0 arg_1) ;;;
      act (Store_d t 1 arg_2) ;;;
      act (Store_d t 2 arg_3) ;;;
      act (Store_d t 3 arg_4) ;;;
      act (Store_d t 4 arg_5) ;;;
      lace_run_together t;
     NAME_RUN := fun arg_1 arg_2 arg_3 arg_4 arg_5 =>
      t <- act Alloc_task ;;
      act (Store_f t NAME) ;;;
      act (Store_thief t THIEF_TASK) ;;;
      act (Store_d t 0 arg_1) ;;;
      act (Store_d t 1 arg_2) ;;;
      act (Store_d t 2 arg_3) ;;;
      act (Store_d t 3 arg_4) ;;;
      act (Store_d t 4 arg_5) ;;;
      lace_run_task t ;;;
      act (Load_d t 0);
     NAME_RUNEX := fun arg_1 arg_2 arg_3 arg_4 arg_5 =>
      t <- act Alloc_task ;;
      act (Store_f t NAME) ;;;
      act (Store_thief t THIEF_TASK) ;;;
      act (Store_d t 0 arg_1) ;;;
      act (Store_d t 1 arg_2) ;;;
      act (Store_d t 2 arg_3) ;;;
      act (Store_d t 3 arg_4) ;;;
      act (Store_d t 4 arg_5) ;;;
      lace_run_task_exclusive t ;;;
      act (Load_d t 0);
     NAME_SYNC := fun w dq_head =>
      ms <- act (Load_movesplit w) ;;
      if ms =? 0 then
        p <- act (Load_priv w) ;;
        if p_split p <=? dq_head then
          let t := TSlot w dq_head in
          act (Store_thief t THIEF_EMPTY) ;;;
          arg_1 <- act (Load_d t 0) ;;
          arg_2 <- act (Load_d t 1) ;;
          arg_3 <- act (Load_d t 2) ;;
          arg_4 <- act (Load_d t 3) ;;
          arg_5 <- act (Load_d t 4) ;;
          call (Fn_CALL NAME w dq_head [arg_1; arg_2; arg_3; arg_4; arg_5])
        else NAME_SYNC_SLOW w dq_head
      else NAME_SYNC_SLOW w dq_head |}.

Definition TASK_IMPL_5 (NAME : fid) (NAME_WORK : nat -> Z -> args_fun 5 (lcode val)) : task_impl 5 :=
  {| NAME_WRAP := fun w dq_head t =>
      arg_1 <- act (Load_d t 0) ;;
      arg_2 <- act (Load_d t 1) ;;
      arg_3 <- act (Load_d t 2) ;;
      arg_4 <- act (Load_d t 3) ;;
      arg_5 <- act (Load_d t 4) ;;
      res <- call (Fn_CALL NAME w dq_head [arg_1; arg_2; arg_3; arg_4; arg_5]) ;;
      act (Store_d t 0 res) ;;;
      Ret (VZ 0);
     NAME_CALL := fun w dq_head arg_1 arg_2 arg_3 arg_4 arg_5 =>
      NAME_WORK w dq_head arg_1 arg_2 arg_3 arg_4 arg_5 |}.

Definition VOID_TASK_DECL_5 (NAME : fid) : task_decl 5 :=
  let NAME_SYNC_SLOW := fun (w : nat) (dq_head : Z) =>
    let t := TSlot w dq_head in
    p <- act (Load_priv w) ;;
    leap <- (if negb (p_allstolen p =? 0) then Ret true
             else if p_split p >? dq_head then r <- lace_shrink_shared w ;; Ret (negb (r =? 0))
             else Ret false) ;;
    if (leap : bool) then
      lace_leapfrog w dq_head ;;;
      Ret (VZ 0)
    else
      ms <- act (Load_movesplit w) ;;
      when (negb (ms =? 0)) (
        p <- act (Load_priv w) ;;
        let t := p_split p in
        let diff := u64 (dq_head - t) in
        let diff := u64 (diff + 1) / 2 in
        act (Store_p_split w (t + diff)) ;;;
        act (Fetch_add_split w diff) ;;;
        act (Store_movesplit w 0)) ;;;
      act (Store_thief t THIEF_EMPTY) ;;;
      arg_1 <- act (Load_d t 0) ;;
      arg_2 <- act (Load_d t 1) ;;
      arg_3 <- act (Load_d t 2) ;;
      arg_4 <- act (Load_d t 3) ;;
      arg_5 <- act (Load_d t 4) ;;
      call (Fn_CALL NAME w dq_head [arg_1; arg_2; arg_3; arg_4; arg_5]) in
  {| NAME_SPAWN := fun w dq_head arg_1 arg_2 arg_3 arg_4 arg_5 =>
      when (dq_head =? dqsize) lace_abort_stack_overflow ;;;
      let t := TSlot w dq_head in
      act (Store_f t NAME) ;;;
      act (Store_thief t THIEF_TASK) ;;;
      act (Store_d t 0 arg_1) ;;;
      act (Store_d t 1 arg_2) ;;;
      act (Store_d t 2 arg_3) ;;;
      act (Store_d t 3 arg_4) ;;;
      act (Store_d t 4 arg_5) ;;;
      p <- act (Load_priv w) ;;
      if negb (p_allstolen p =? 0) then
        ms <- act (Load_movesplit w) ;;
        when (negb (ms =? 0)) (act (Store_movesplit w 0)) ;;;
        let head := u32 dq_head in
        act (Store_ts w (mkTS head (u32 (head + 1)))) ;;;
        act (Store_allstolen w 0) ;;;
        act (Store_p_split w (dq_head + 1)) ;;;
        act (Store_p_allstolen w 0)
      else
        ms <- act (Load_movesplit w) ;;
        when (negb (ms =? 0)) (
          let head := u32 dq_head in
          let split := u32 (p_split p) in
          let newsplit := u32 (split + head + 2) / 2 in
          act (Store_split w newsplit) ;;;
          act (Store_p_split w newsplit) ;;;
          act (Store_movesplit w 0));
     NAME_NEWFRAME := fun arg_1 arg_2 arg_3 arg_4 arg_5 =>
      t <- act Alloc_task ;;
      act (Store_f t NAME) ;;;
      act (Store_thief t THIEF_TASK) ;;;
      act (Store_d t 0 arg_1) ;;;
      act (Store_d t 1 arg_2) ;;;
      act (Store_d t 2 arg_3) ;;;
      act (Store_d t 3 arg_4) ;;;
      act (Store_d t 4 arg_5) ;;;
      lace_run_newframe t ;;;
      Ret (VZ 0);
     NAME_TOGETHER := fun arg_1 arg_2 arg_3 arg_4 arg_5 =>
      t <- act Alloc_task ;;
      act (Store_f t NAME) ;;;
      act (Store_thief t THIEF_TASK) ;;;
      act (Store_d t 0 arg_1) ;;;
      act (Store_d t 1 arg_2) ;;;
      act (Store_d t 2 arg_3) ;;;
      act (Store_d t 3 arg_4) ;;;
      act (Store_d t 4 arg_5) ;;;
      lace_run_together t;
     NAME_RUN := fun arg_1 arg_2 arg_3 arg_4 arg_5 =>
      t <- act Alloc_task ;;
      act (Store_f t NAME) ;;;
      act (Store_thief t THIEF_TASK) ;;;
      act (Store_d t 0 arg_1) ;;;
      act (Store_d t 1 arg_2) ;;;
      act (Store_d t 2 arg_3) ;;;
      act (Store_d t 3 arg_4) ;;;
      act (Store_d t 4 arg_5) ;;;
      lace_run_task t ;;;
      Ret (VZ 0);
     NAME_RUNEX := fun arg_1 arg_2 arg_3 arg_4 arg_5 =>
      t <- act Alloc_task ;;
      act (Store_f t NAME) ;;;
      act (Store_thief t THIEF_TASK) ;;;
      act (Store_d t 0 arg_1) ;;;
      act (Store_d t 1 arg_2) ;;;
      act (Store_d t 2 arg_3) ;;;
      act (Store_d t 3 arg_4) ;;;
      act (Store_d t 4 arg_5) ;;;
      lace_run_task_exclusive t ;;;
      Ret (VZ 0);
     NAME_SYNC := fun w dq_head =>
      ms <- act (Load_movesplit w) ;;
      if ms =? 0 then
        p <- act (Load_priv w) ;;
        if p_split p <=? dq_head then
          let t := TSlot w dq_head in
          act (Store_thief t THIEF_EMPTY) ;;;
          arg_1 <- act (Load_d t 0) ;;
          arg_2 <- act (Load_d t 1) ;;
          arg_3 <- act (Load_d t 2) ;;
          arg_4 <- act (Load_d t 3) ;;
          arg_5 <- act (Load_d t 4) ;;
          call (Fn_CALL NAME w dq_head [arg_1; arg_2; arg_3; arg_4; arg_5])
        else NAME_SYNC_SLOW w dq_head
      else NAME_SYNC_SLOW w dq_head |}.

Definition VOID_TASK_IMPL_5 (NAME : fid) (NAME_WORK : nat -> Z -> args_fun 5 (lcode unit)) : task_impl 5 :=
  {| NAME_WRAP := fun w dq_head t =>
      arg_1 <- act (Load_d t 0) ;;
      arg_2 <- act (Load_d t 1) ;;
      arg_3 <- act (Load_d t 2) ;;
      arg_4 <- act (Load_d t 3) ;;
      arg_5 <- act (Load_d t 4) ;;
      call (Fn_CALL NAME w dq_head [arg_1; arg_2; arg_3; arg_4; arg_5]) ;;;
      Ret (VZ 0);
     NAME_CALL := fun w dq_head arg_1 arg_2 arg_3 arg_4 arg_5 =>
      NAME_WORK w dq_head arg_1 arg_2 arg_3 arg_4 arg_5 ;;;
      Ret (VZ 0) |}.

(** ** Tasks with 6 arguments *)

Definition TASK_DECL_6 (NAME : fid) : task_decl 6 :=
  let NAME_SYNC_SLOW := fun (w : nat) (dq_head : Z) =>
    let t := TSlot w dq_head in
    p <- act (Load_priv w) ;;
    leap <- (if negb (p_allstolen p =? 0) then Ret true
             else if p_split p >? dq_head then r <- lace_shrink_shared w ;; Ret (negb (r =? 0))
             else Ret false) ;;
    if (leap : bool) then
      lace_leapfrog w dq_head ;;;
      act (Load_d t 0)
    else
      ms <- act (Load_movesplit w) ;;
      when (negb (ms =? 0)) (
        p <- act (Load_priv w) ;;
        let t := p_split p in
        let diff := u64 (dq_head - t) in
        let diff := u64 (diff + 1) / 2 in
        act (Store_p_split w (t + diff)) ;;;
        act (Fetch_add_split w diff) ;;;
        act (Store_movesplit w 0)) ;;;
      act (Store_thief t THIEF_EMPTY) ;;;
      arg_1 <- act (Load_d t 0) ;;
      arg_2 <- act (Load_d t 1) ;;
      arg_3 <- act (Load_d t 2) ;;
      arg_4 <- act (Load_d t 3) ;;
      arg_5 <- act (Load_d t 4) ;;
      arg_6 <- act (Load_d t 5) ;;
      call (Fn_CALL NAME w dq_head [arg_1; arg_2; arg_3; arg_4; arg_5; arg_6]) in
  {| NAME_SPAWN := fun w dq_head arg_1 arg_2 arg_3 arg_4 arg_5 arg_6 =>
      when (dq_head =? dqsize) lace_abort_stack_overflow ;;;
      let t := TSlot w dq_head in
      act (Store_f t NAME) ;;;
      act (Store_thief t THIEF_TASK) ;;;
      act (Store_d t 0 arg_1) ;;;
      act (Store_d t 1 arg_2) ;;;
      act (Store_d t 2 arg_3) ;;;
      act (Store_d t 3 arg_4) ;;;
      act (Store_d t 4 arg_5) ;;;
      act (Store_d t 5 arg_6) ;;;
      p <- act (Load_priv w) ;;
      if negb (p_allstolen p =? 0) then
        ms <- act (Load_movesplit w) ;;
        when (negb (ms =? 0)) (act (Store_movesplit w 0)) ;;;
        let head := u32 dq_head in
        act (Store_ts w (mkTS head (u32 (head + 1)))) ;;;
        act (Store_allstolen w 0) ;;;
        act (Store_p_split w (dq_head + 1)) ;;;
        act (Store_p_allstolen w 0)
      else
        ms <- act (Load_movesplit w) ;;
        when (negb (ms =? 0)) (
          let head := u32 dq_head in
          let split := u32 (p_split p) in
          let newsplit := u32 (split + head + 2) / 2 in
          act (Store_split w newsplit) ;;;
          act (Store_p_split w newsplit) ;;;
          act (Store_movesplit w 0));
     NAME_NEWFRAME := fun arg_1 arg_2 arg_3 arg_4 arg_5 arg_6 =>
      t <- act Alloc_task ;;
      act (Store_f t NAME) ;;;
      act (Store_thief t THIEF_TASK) ;;;
      act (Store_d t 0 arg_1) ;;;
      act (Store_d t 1 arg_2) ;;;
      act (Store_d t 2 arg_3) ;;;
      act (Store_d t 3 arg_4) ;;;
      act (Store_d t 4 arg_5) ;;;
      act (Store_d t 5 arg_6) ;;;
      lace_run_newframe t ;;;
      act (Load_d t 0);
     NAME_TOGETHER := fun arg_1 arg_2 arg_3 arg_4 arg_5 arg_6 =>
      t <- act Alloc_task ;;
      act (Store_f t NAME) ;;;
      act (Store_thief t THIEF_TASK) ;;;
      act (Store_d t 0 arg_1) ;;;
      act (Store_d t 1 arg_2) ;;;
      act (Store_d t 2 arg_3) ;;;
      act (Store_d t 3 arg_4) ;;;
      act (Store_d t 4 arg_5) ;;;
      act (Store_d t 5 arg_6) ;;;
      lace_run_together t;
     NAME_RUN := fun arg_1 arg_2 arg_3 arg_4 arg_5 arg_6 =>
      t <- act Alloc_task ;;
      act (Store_f t NAME) ;;;
      act (Store_thief t THIEF_TASK) ;;;
      act (Store_d t 0 arg_1) ;;;
      act (Store_d t 1 arg_2) ;;;
      act (Store_d t 2 arg_3) ;;;
      act (Store_d t 3 arg_4) ;;;
      act (Store_d t 4 arg_5) ;;;
      act (Store_d t 5 arg_6) ;;;
      lace_run_task t ;;;
      act (Load_d t 0);
     NAME_RUNEX := fun arg_1 arg_2 arg_3 arg_4 arg_5 arg_6 =>
      t <- act Alloc_task ;;
      act (Store_f t NAME) ;;;
      act (Store_thief t THIEF_TASK) ;;;
      act (Store_d t 0 arg_1) ;;;
      act (Store_d t 1 arg_2) ;;;
      act (Store_d t 2 arg_3) ;;;
      act (Store_d t 3 arg_4) ;;;
      act (Store_d t 4 arg_5) ;;;
      act (Store_d t 5 arg_6) ;;;
      lace_run_task_exclusive t ;;;
      act (Load_d t 0);
     NAME_SYNC := fun w dq_head =>
      ms <- act (Load_movesplit w) ;;
      if ms =? 0 then
        p <- act (Load_priv w) ;;
        if p_split p <=? dq_head then
          let t := TSlot w dq_head in
          act (Store_thief t THIEF_EMPTY) ;;;
          arg_1 <- act (Load_d t 0) ;;
          arg_2 <- act (Load_d t 1) ;;
          arg_3 <- act (Load_d t 2) ;;
          arg_4 <- act (Load_d t 3) ;;
          arg_5 <- act (Load_d t 4) ;;
          arg_6 <- act (Load_d t 5) ;;
          call (Fn_CALL NAME w dq_head [arg_1; arg_2; arg_3; arg_4; arg_5; arg_6])
        else NAME_SYNC_SLOW w dq_head
      else NAME_SYNC_SLOW w dq_head |}.

Definition TASK_IMPL_6 (NAME : fid) (NAME_WORK : nat -> Z -> args_fun 6 (lcode val)) : task_impl 6 :=
  {| NAME_WRAP := fun w dq_head t =>
      arg_1 <- act (Load_d t 0) ;;
      arg_2 <- act (Load_d t 1) ;;
      arg_3 <- act (Load_d t 2) ;;
      arg_4 <- act (Load_d t 3) ;;
      arg_5 <- act (Load_d t 4) ;;
      arg_6 <- act (Load_d t 5) ;;
      res <- call (Fn_CALL NAME w dq_head [arg_1; arg_2; arg_3; arg_4; arg_5; arg_6]) ;;
      act (Store_d t 0 res) ;;;
      Ret (VZ 0);
     NAME_CALL := fun w dq_head arg_1 arg_2 arg_3 arg_4 arg_5 arg_6 =>
      NAME_WORK w dq_head arg_1 arg_2 arg_3 arg_4 arg_5 arg_6 |}.

Definition VOID_TASK_DECL_6 (NAME : fid) : task_decl 6 :=
  let NAME_SYNC_SLOW := fun (w : nat) (dq_head : Z) =>
    let t := TSlot w dq_head in
    p <- act (Load_priv w) ;;
    leap <- (if negb (p_allstolen p =? 0) then Ret true
             else if p_split p >? dq_head then r <- lace_shrink_shared w ;; Ret (negb (r =? 0))
             else Ret false) ;;
    if (leap : bool) then
      lace_leapfrog w dq_head ;;;
      Ret (VZ 0)
    else
      ms <- act (Load_movesplit w) ;;
      when (negb (ms =? 0)) (
        p <- act (Load_priv w) ;;
        let t := p_split p in
        let diff := u64 (dq_head - t) in
        let diff := u64 (diff + 1) / 2 in
        act (Store_p_split w (t + diff)) ;;;
        act (Fetch_add_split w diff) ;;;
        act (Store_movesplit w 0)) ;;;
      act (Store_thief t THIEF_EMPTY) ;;;
      arg_1 <- act (Load_d t 0) ;;
      arg_2 <- act (Load_d t 1) ;;
      arg_3 <- act (Load_d t 2) ;;
      arg_4 <- act (Load_d t 3) ;;
      arg_5 <- act (Load_d t 4) ;;
      arg_6 <- act (Load_d t 5) ;;
      call (Fn_CALL NAME w dq_head [arg_1; arg_2; arg_3; arg_4; arg_5; arg_6]) in
  {| NAME_SPAWN := fun w dq_head arg_1 arg_2 arg_3 arg_4 arg_5 arg_6 =>
      when (dq_head =? dqsize) lace_abort_stack_overflow ;;;
      let t := TSlot w dq_head in
      act (Store_f t NAME) ;;;
      act (Store_thief t THIEF_TASK) ;;;
      act (Store_d t 0 arg_1) ;;;
      act (Store_d t 1 arg_2) ;;;
      act (Store_d t 2 arg_3) ;;;
      act (Store_d t 3 arg_4) ;;;
      act (Store_d t 4 arg_5) ;;;
      act (Store_d t 5 arg_6) ;;;
      p <- act (Load_priv w) ;;
      if negb (p_allstolen p =? 0) then
        ms <- act (Load_movesplit w) ;;
        when (negb (ms =? 0)) (act (Store_movesplit w 0)) ;;;
        let head := u32 dq_head in
        act (Store_ts w (mkTS head (u32 (head + 1)))) ;;;
        act (Store_allstolen w 0) ;;;
        act (Store_p_split w (dq_head + 1)) ;;;
        act (Store_p_allstolen w 0)
      else
        ms <- act (Load_movesplit w) ;;
        when (negb (ms =? 0)) (
          let head := u32 dq_head in
          let split := u32 (p_split p) in
          let newsplit := u32 (split + head + 2) / 2 in
          act (Store_split w newsplit) ;;;
          act (Store_p_split w newsplit) ;;;
          act (Store_movesplit w 0));
     NAME_NEWFRAME := fun arg_1 arg_2 arg_3 arg_4 arg_5 arg_6 =>
      t <- act Alloc_task ;;
      act (Store_f t NAME) ;;;
      act (Store_thief t THIEF_TASK) ;;;
      act (Store_d t 0 arg_1) ;;;
      act (Store_d t 1 arg_2) ;;;
      act (Store_d t 2 arg_3) ;;;
      act (Store_d t 3 arg_4) ;;;
      act (Store_d t 4 arg_5) ;;;
      act (Store_d t 5 arg_6) ;;;
      lace_run_newframe t ;;;
      Ret (VZ 0);
     NAME_TOGETHER := fun arg_1 arg_2 arg_3 arg_4 arg_5 arg_6 =>
      t <- act Alloc_task ;;
      act (Store_f t NAME) ;;;
      act (Store_thief t THIEF_TASK) ;;;
      act (Store_d t 0 arg_1) ;;;
      act (Store_d t 1 arg_2) ;;;
      act (Store_d t 2 arg_3) ;;;
      act (Store_d t 3 arg_4) ;;;
      act (Store_d t 4 arg_5) ;;;
      act (Store_d t 5 arg_6) ;;;
      lace_run_together t;
     NAME_RUN := fun arg_1 arg_2 arg_3 arg_4 arg_5 arg_6 =>
      t <- act Alloc_task ;;
      act (Store_f t NAME) ;;;
      act (Store_thief t THIEF_TASK) ;;;
      act (Store_d t 0 arg_1) ;;;
      act (Store_d t 1 arg_2) ;;;
      act (Store_d t 2 arg_3) ;;;
      act (Store_d t 3 arg_4) ;;;
      act (Store_d t 4 arg_5) ;;;
      act (Store_d t 5 arg_6) ;;;
      lace_run_task t ;;;
      Ret (VZ 0);
     NAME_RUNEX := fun arg_1 arg_2 arg_3 arg_4 arg_5 arg_6 =>
      t <- act Alloc_task ;;
      act (Store_f t NAME) ;;;
      act (Store_thief t THIEF_TASK) ;;;
      act (Store_d t 0 arg_1) ;;;
      act (Store_d t 1 arg_2) ;;;
      act (Store_d t 2 arg_3) ;;;
      act (Store_d t 3 arg_4) ;;;
      act (Store_d t 4 arg_5) ;;;
      act (Store_d t 5 arg_6) ;;;
      lace_run_task_exclusive t ;;;
      Ret (VZ 0);
     NAME_SYNC := fun w dq_head =>
      ms <- act (Load_movesplit w) ;;
      if ms =? 0 then
        p <- act (Load_priv w) ;;
        if p_split p <=? dq_head then
          let t := TSlot w dq_head in
          act (Store_thief t THIEF_EMPTY) ;;;
          arg_1 <- act (Load_d t 0) ;;
          arg_2 <- act (Load_d t 1) ;;
          arg_3 <- act (Load_d t 2) ;;
          arg_4 <- act (Load_d t 3) ;;
          arg_5 <- act (Load_d t 4) ;;
          arg_6 <- act (Load_d t 5) ;;
          call (Fn_CALL NAME w dq_head [arg_1; arg_2; arg_3; arg_4; arg_5; arg_6])
        else NAME_SYNC_SLOW w dq_head
      else NAME_SYNC_SLOW w dq_head |}.

Definition VOID_TASK_IMPL_6 (NAME : fid) (NAME_WORK : nat -> Z -> args_fun 6 (lcode unit)) : task_impl 6 :=
  {| NAME_WRAP := fun w dq_head t =>
      arg_1 <- act (Load_d t 0) ;;
      arg_2 <- act (Load_d t 1) ;;
      arg_3 <- act (Load_d t 2) ;;
      arg_4 <- act (Load_d t 3) ;;
      arg_5 <- act (Load_d t 4) ;;
      arg_6 <- act (Load_d t 5) ;;
      call (Fn_CALL NAME w dq_head [arg_1; arg_2; arg_3; arg_4; arg_5; arg_6]) ;;;
      Ret (VZ 0);
     NAME_CALL := fun w dq_head arg_1 arg_2 arg_3 arg_4 arg_5 arg_6 =>
      NAME_WORK w dq_head arg_1 arg_2 arg_3 arg_4 arg_5 arg_6 ;;;
      Ret (VZ 0) |}.

(** ** Tasks with 7 arguments *)

Definition TASK_DECL_7 (NAME : fid) : task_decl 7 :=
  let NAME_SYNC_SLOW := fun (w : nat) (dq_head : Z) =>
    let t := TSlot w dq_head in
    p <- act (Load_priv w) ;;
    leap <- (if negb (p_allstolen p =? 0) then Ret true
             else if p_split p >? dq_head then r <- lace_shrink_shared w ;; Ret (negb (r =? 0))
             else Ret false) ;;
    if (leap : bool) then
      lace_leapfrog w dq_head ;;;
      act (Load_d t 0)
    else
      ms <- act (Load_movesplit w) ;;
      when (negb (ms =? 0)) (
        p <- act (Load_priv w) ;;
        let t := p_split p in
        let diff := u64 (dq_head - t) in
        let diff := u64 (diff + 1) / 2 in
        act (Store_p_split w (t + diff)) ;;;
        act (Fetch_add_split w diff) ;;;
        act (Store_movesplit w 0)) ;;;
      act (Store_thief t THIEF_EMPTY) ;;;
      arg_1 <- act (Load_d t 0) ;;
      arg_2 <- act (Load_d t 1) ;;
      arg_3 <- act (Load_d t 2) ;;
      arg_4 <- act (Load_d t 3) ;;
      arg_5 <- act (Load_d t 4) ;;
      arg_6 <- act (Load_d t 5) ;;
      arg_7 <- act (Load_d t 6) ;;
      call (Fn_CALL NAME w dq_head [arg_1; arg_2; arg_3; arg_4; arg_5; arg_6; arg_7]) in
  {| NAME_SPAWN := fun w dq_head arg_1 arg_2 arg_3 arg_4 arg_5 arg_6 arg_7 =>
      when (dq_head =? dqsize) lace_abort_stack_overflow ;;;
      let t := TSlot w dq_head in
      act (Store_f t NAME) ;;;
      act (Store_thief t THIEF_TASK) ;;;
      act (Store_d t 0 arg_1) ;;;
      act (Store_d t 1 arg_2) ;;;
      act (Store_d t 2 arg_3) ;;;
      act (Store_d t 3 arg_4) ;;;
      act (Store_d t 4 arg_5) ;;;
      act (Store_d t 5 arg_6) ;;;
      act (Store_d t 6 arg_7) ;;;
      p <- act (Load_priv w) ;;
      if negb (p_allstolen p =? 0) then
        ms <- act (Load_movesplit w) ;;
        when (negb (ms =? 0)) (act (Store_movesplit w 0)) ;;;
        let head := u32 dq_head in
        act (Store_ts w (mkTS head (u32 (head + 1)))) ;;;
        act (Store_allstolen w 0) ;;;
        act (Store_p_split w (dq_head + 1)) ;;;
        act (Store_p_allstolen w 0)
      else
        ms <- act (Load_movesplit w) ;;
        when (negb (ms =? 0)) (
          let head := u32 dq_head in
          let split := u32 (p_split p) in
          let newsplit := u32 (split + head + 2) / 2 in
          act (Store_split w newsplit) ;;;
          act (Store_p_split w newsplit) ;;;
          act (Store_movesplit w 0));
     NAME_NEWFRAME := fun arg_1 arg_2 arg_3 arg_4 arg_5 arg_6 arg_7 =>
      t <- act Alloc_task ;;
      act (Store_f t NAME) ;;;
      act (Store_thief t THIEF_TASK) ;;;
      act (Store_d t 0 arg_1) ;;;
      act (Store_d t 1 arg_2) ;;;
      act (Store_d t 2 arg_3) ;;;
      act (Store_d t 3 arg_4) ;;;
      act (Store_d t 4 arg_5) ;;;
      act (Store_d t 5 arg_6) ;;;
      act (Store_d t 6 arg_7) ;;;
      lace_run_newframe t ;;;
      act (Load_d t 0);
     NAME_TOGETHER := fun arg_1 arg_2 arg_3 arg_4 arg_5 arg_6 arg_7 =>
      t <- act Alloc_task ;;
      act (Store_f t NAME) ;;;
      act (Store_thief t THIEF_TASK) ;;;
      act (Store_d t 0 arg_1) ;;;
      act (Store_d t 1 arg_2) ;;;
      act (Store_d t 2 arg_3) ;;;
      act (Store_d t 3 arg_4) ;;;
      act (Store_d t 4 arg_5) ;;;
      act (Store_d t 5 arg_6) ;;;
      act (Store_d t 6 arg_7) ;;;
      lace_run_together t;
     NAME_RUN := fun arg_1 arg_2 arg_3 arg_4 arg_5 arg_6 arg_7 =>
      t <- act Alloc_task ;;
      act (Store_f t NAME) ;;;
      act (Store_thief t THIEF_TASK) ;;;
      act (Store_d t 0 arg_1) ;;;
      act (Store_d t 1 arg_2) ;;;
      act (Store_d t 2 arg_3) ;;;
      act (Store_d t 3 arg_4) ;;;
      act (Store_d t 4 arg_5) ;;;
      act (Store_d t 5 arg_6) ;;;
      act (Store_d t 6 arg_7) ;;;
      lace_run_task t ;;;
      act (Load_d t 0);
     NAME_RUNEX := fun arg_1 arg_2 arg_3 arg_4 arg_5 arg_6 arg_7 =>
      t <- act Alloc_task ;;
      act (Store_f t NAME) ;;;
      act (Store_thief t THIEF_TASK) ;;;
      act (Store_d t 0 arg_1) ;;;
      act (Store_d t 1 arg_2) ;;;
      act (Store_d t 2 arg_3) ;;;
      act (Store_d t 3 arg_4) ;;;
      act (Store_d t 4 arg_5) ;;;
      act (Store_d t 5 arg_6) ;;;
      act (Store_d t 6 arg_7) ;;;
      lace_run_task_exclusive t ;;;
      act (Load_d t 0);
     NAME_SYNC := fun w dq_head =>
      ms <- act (Load_movesplit w) ;;
      if ms =? 0 then
        p <- act (Load_priv w) ;;
        if p_split p <=? dq_head then
          let t := TSlot w dq_head in
          act (Store_thief t THIEF_EMPTY) ;;;
          arg_1 <- act (Load_d t 0) ;;
          arg_2 <- act (Load_d t 1) ;;
          arg_3 <- act (Load_d t 2) ;;
          arg_4 <- act (Load_d t 3) ;;
          arg_5 <- act (Load_d t 4) ;;
          arg_6 <- act (Load_d t 5) ;;
          arg_7 <- act (Load_d t 6) ;;
          call (Fn_CALL NAME w dq_head [arg_1; arg_2; arg_3; arg_4; arg_5; arg_6; arg_7])
        else NAME_SYNC_SLOW w dq_head
      else NAME_SYNC_SLOW w dq_head |}.

Definition TASK_IMPL_7 (NAME : fid) (NAME_WORK : nat -> Z -> args_fun 7 (lcode val)) : task_impl 7 :=
  {| NAME_WRAP := fun w dq_head t =>
      arg_1 <- act (Load_d t 0) ;;
      arg_2 <- act (Load_d t 1) ;;
      arg_3 <- act (Load_d t 2) ;;
      arg_4 <- act (Load_d t 3) ;;
      arg_5 <- act (Load_d t 4) ;;
      arg_6 <- act (Load_d t 5) ;;
      arg_7 <- act (Load_d t 6) ;;
      res <- call (Fn_CALL NAME w dq_head [arg_1; arg_2; arg_3; arg_4; arg_5; arg_6; arg_7]) ;;
      act (Store_d t 0 res) ;;;
      Ret (VZ 0);
     NAME_CALL := fun w dq_head arg_1 arg_2 arg_3 arg_4 arg_5 arg_6 arg_7 =>
      NAME_WORK w dq_head arg_1 arg_2 arg_3 arg_4 arg_5 arg_6 arg_7 |}.

Definition VOID_TASK_DECL_7 (NAME : fid) : task_decl 7 :=
  let NAME_SYNC_SLOW := fun (w : nat) (dq_head : Z) =>
    let t := TSlot w dq_head in
    p <- act (Load_priv w) ;;
    leap <- (if negb (p_allstolen p =? 0) then Ret true
             else if p_split p >? dq_head then r <- lace_shrink_shared w ;; Ret (negb (r =? 0))
             else Ret false) ;;
    if (leap : bool) then
      lace_leapfrog w dq_head ;;;
      Ret (VZ 0)
    else
      ms <- act (Load_movesplit w) ;;
      when (negb (ms =? 0)) (
        p <- act (Load_priv w) ;;
        let t := p_split p in
        let diff := u64 (dq_head - t) in
        let diff := u64 (diff + 1) / 2 in
        act (Store_p_split w (t + diff)) ;;;
        act (Fetch_add_split w diff) ;;;
        act (Store_movesplit w 0)) ;;;
      act (Store_thief t THIEF_EMPTY) ;;;
      arg_1 <- act (Load_d t 0) ;;
      arg_2 <- act (Load_d t 1) ;;
      arg_3 <- act (Load_d t 2) ;;
      arg_4 <- act (Load_d t 3) ;;
      arg_5 <- act (Load_d t 4) ;;
      arg_6 <- act (Load_d t 5) ;;
      arg_7 <- act (Load_d t 6) ;;
      call (Fn_CALL NAME w dq_head [arg_1; arg_2; arg_3; arg_4; arg_5; arg_6; arg_7]) in
  {| NAME_SPAWN := fun w dq_head arg_1 arg_2 arg_3 arg_4 arg_5 arg_6 arg_7 =>
      when (dq_head =? dqsize) lace_abort_stack_overflow ;;;
      let t := TSlot w dq_head in
      act (Store_f t NAME) ;;;
      act (Store_thief t THIEF_TASK) ;;;
      act (Store_d t 0 arg_1) ;;;
      act (Store_d t 1 arg_2) ;;;
      act (Store_d t 2 arg_3) ;;;
      act (Store_d t 3 arg_4) ;;;
      act (Store_d t 4 arg_5) ;;;
      act (Store_d t 5 arg_6) ;;;
      act (Store_d t 6 arg_7) ;;;
      p <- act (Load_priv w) ;;
      if negb (p_allstolen p =? 0) then
        ms <- act (Load_movesplit w) ;;
        when (negb (ms =? 0)) (act (Store_movesplit w 0)) ;;;
        let head := u32 dq_head in
        act (Store_ts w (mkTS head (u32 (head + 1)))) ;;;
        act (Store_allstolen w 0) ;;;
        act (Store_p_split w (dq_head + 1)) ;;;
        act (Store_p_allstolen w 0)
      else
        ms <- act (Load_movesplit w) ;;
        when (negb (ms =? 0)) (
          let head := u32 dq_head in
          let split := u32 (p_split p) in
          let newsplit := u32 (split + head + 2) / 2 in
          act (Store_split w newsplit) ;;;
          act (Store_p_split w newsplit) ;;;
          act (Store_movesplit w 0));
     NAME_NEWFRAME := fun arg_1 arg_2 arg_3 arg_4 arg_5 arg_6 arg_7 =>
      t <- act Alloc_task ;;
      act (Store_f t NAME) ;;;
      act (Store_thief t THIEF_TASK) ;;;
      act (Store_d t 0 arg_1) ;;;
      act (Store_d t 1 arg_2) ;;;
      act (Store_d t 2 arg_3) ;;;
      act (Store_d t 3 arg_4) ;;;
      act (Store_d t 4 arg_5) ;;;
      act (Store_d t 5 arg_6) ;;;
      act (Store_d t 6 arg_7) ;;;
      lace_run_newframe t ;;;
      Ret (VZ 0);
     NAME_TOGETHER := fun arg_1 arg_2 arg_3 arg_4 arg_5 arg_6 arg_7 =>
      t <- act Alloc_task ;;
      act (Store_f t NAME) ;;;
      act (Store_thief t THIEF_TASK) ;;;
      act (Store_d t 0 arg_1) ;;;
      act (Store_d t 1 arg_2) ;;;
      act (Store_d t 2 arg_3) ;;;
      act (Store_d t 3 arg_4) ;;;
      act (Store_d t 4 arg_5) ;;;
      act (Store_d t 5 arg_6) ;;;
      act (Store_d t 6 arg_7) ;;;
      lace_run_together t;
     NAME_RUN := fun arg_1 arg_2 arg_3 arg_4 arg_5 arg_6 arg_7 =>
      t <- act Alloc_task ;;
      act (Store_f t NAME) ;;;
      act (Store_thief t THIEF_TASK) ;;;
      act (Store_d t 0 arg_1) ;;;
      act (Store_d t 1 arg_2) ;;;
      act (Store_d t 2 arg_3) ;;;
      act (Store_d t 3 arg_4) ;;;
      act (Store_d t 4 arg_5) ;;;
      act (Store_d t 5 arg_6) ;;;
      act (Store_d t 6 arg_7) ;;;
      lace_run_task t ;;;
      Ret (VZ 0);
     NAME_RUNEX := fun arg_1 arg_2 arg_3 arg_4 arg_5 arg_6 arg_7 =>
      t <- act Alloc_task ;;
      act (Store_f t NAME) ;;;
      act (Store_thief t THIEF_TASK) ;;;
      act (Store_d t 0 arg_1) ;;;
      act (Store_d t 1 arg_2) ;;;
      act (Store_d t 2 arg_3) ;;;
      act (Store_d t 3 arg_4) ;;;
      act (Store_d t 4 arg_5) ;;;
      act (Store_d t 5 arg_6) ;;;
      act (Store_d t 6 arg_7) ;;;
      lace_run_task_exclusive t ;;;
      Ret (VZ 0);
     NAME_SYNC := fun w dq_head =>
      ms <- act (Load_movesplit w) ;;
      if ms =? 0 then
        p <- act (Load_priv w) ;;
        if p_split p <=? dq_head then
          let t := TSlot w dq_head in
          act (Store_thief t THIEF_EMPTY) ;;;
          arg_1 <- act (Load_d t 0) ;;
          arg_2 <- act (Load_d t 1) ;;
          arg_3 <- act (Load_d t 2) ;;
          arg_4 <- act (Load_d t 3) ;;
          arg_5 <- act (Load_d t 4) ;;
          arg_6 <- act (Load_d t 5) ;;
          arg_7 <- act (Load_d t 6) ;;
          call (Fn_CALL NAME w dq_head [arg_1; arg_2; arg_3; arg_4; arg_5; arg_6; arg_7])
        else NAME_SYNC_SLOW w dq_head
      else NAME_SYNC_SLOW w dq_head |}.

Definition VOID_TASK_IMPL_7 (NAME : fid) (NAME_WORK : nat -> Z -> args_fun 7 (lcode unit)) : task_impl 7 :=
  {| NAME_WRAP := fun w dq_head t =>
      arg_1 <- act (Load_d t 0) ;;
      arg_2 <- act (Load_d t 1) ;;
      arg_3 <- act (Load_d t 2) ;;
      arg_4 <- act (Load_d t 3) ;;
      arg_5 <- act (Load_d t 4) ;;
      arg_6 <- act (Load_d t 5) ;;
      arg_7 <- act (Load_d t 6) ;;
      call (Fn_CALL NAME w dq_head [arg_1; arg_2; arg_3; arg_4; arg_5; arg_6; arg_7]) ;;;
      Ret (VZ 0);
     NAME_CALL := fun w dq_head arg_1 arg_2 arg_3 arg_4 arg_5 arg_6 arg_7 =>
      NAME_WORK w dq_head arg_1 arg_2 arg_3 arg_4 arg_5 arg_6 arg_7 ;;;
      Ret (VZ 0) |}.

(** ** Tasks with 8 arguments *)

Definition TASK_DECL_8 (NAME : fid) : task_decl 8 :=
  let NAME_SYNC_SLOW := fun (w : nat) (dq_head : Z) =>
    let t := TSlot w dq_head in
    p <- act (Load_priv w) ;;
    leap <- (if negb (p_allstolen p =? 0) then Ret true
             else if p_split p >? dq_head then r <- lace_shrink_shared w ;; Ret (negb (r =? 0))
             else Ret false) ;;
    if (leap : bool) then
      lace_leapfrog w dq_head ;;;
      act (Load_d t 0)
    else
      ms <- act (Load_movesplit w) ;;
      when (negb (ms =? 0)) (
        p <- act (Load_priv w) ;;
        let t := p_split p in
        let diff := u64 (dq_head - t) in
        let diff := u64 (diff + 1) / 2 in
        act (Store_p_split w (t + diff)) ;;;
        act (Fetch_add_split w diff) ;;;
        act (Store_movesplit w 0)) ;;;
      act (Store_thief t THIEF_EMPTY) ;;;
      arg_1 <- act (Load_d t 0) ;;
      arg_2 <- act (Load_d t 1) ;;
      arg_3 <- act (Load_d t 2) ;;
      arg_4 <- act (Load_d t 3) ;;
      arg_5 <- act (Load_d t 4) ;;
      arg_6 <- act (Load_d t 5) ;;
      arg_7 <- act (Load_d t 6) ;;
      arg_8 <- act (Load_d t 7) ;;
      call (Fn_CALL NAME w dq_head [arg_1; arg_2; arg_3; arg_4; arg_5; arg_6; arg_7; arg_8]) in
  {| NAME_SPAWN := fun w dq_head arg_1 arg_2 arg_3 arg_4 arg_5 arg_6 arg_7 arg_8 =>
      when (dq_head =? dqsize) lace_abort_stack_overflow ;;;
      let t := TSlot w dq_head in
      act (Store_f t NAME) ;;;
      act (Store_thief t THIEF_TASK) ;;;
      act (Store_d t 0 arg_1) ;;;
      act (Store_d t 1 arg_2) ;;;
      act (Store_d t 2 arg_3) ;;;
      act (Store_d t 3 arg_4) ;;;
      act (Store_d t 4 arg_5) ;;;
      act (Store_d t 5 arg_6) ;;;
      act (Store_d t 6 arg_7) ;;;
      act (Store_d t 7 arg_8) ;;;
      p <- act (Load_priv w) ;;
      if negb (p_allstolen p =? 0) then
        ms <- act (Load_movesplit w) ;;
        when (negb (ms =? 0)) (act (Store_movesplit w 0)) ;;;
        let head := u32 dq_head in
        act (Store_ts w (mkTS head (u32 (head + 1)))) ;;;
        act (Store_allstolen w 0) ;;;
        act (Store_p_split w (dq_head + 1)) ;;;
        act (Store_p_allstolen w 0)
      else
        ms <- act (Load_movesplit w) ;;
        when (negb (ms =? 0)) (
          let head := u32 dq_head in
          let split := u32 (p_split p) in
          let newsplit := u32 (split + head + 2) / 2 in
          act (Store_split w newsplit) ;;;
          act (Store_p_split w newsplit) ;;;
          act (Store_movesplit w 0));
     NAME_NEWFRAME := fun arg_1 arg_2 arg_3 arg_4 arg_5 arg_6 arg_7 arg_8 =>
      t <- act Alloc_task ;;
      act (Store_f t NAME) ;;;
      act (Store_thief t THIEF_TASK) ;;;
      act (Store_d t 0 arg_1) ;;;
      act (Store_d t 1 arg_2) ;;;
      act (Store_d t 2 arg_3) ;;;
      act (Store_d t 3 arg_4) ;;;
      act (Store_d t 4 arg_5) ;;;
      act (Store_d t 5 arg_6) ;;;
      act (Store_d t 6 arg_7) ;;;
      act (Store_d t 7 arg_8) ;;;
      lace_run_newframe t ;;;
      act (Load_d t 0);
     NAME_TOGETHER := fun arg_1 arg_2 arg_3 arg_4 arg_5 arg_6 arg_7 arg_8 =>
      t <- act Alloc_task ;;
      act (Store_f t NAME) ;;;
      act (Store_thief t THIEF_TASK) ;;;
      act (Store_d t 0 arg_1) ;;;
      act (Store_d t 1 arg_2) ;;;
      act (Store_d t 2 arg_3) ;;;
      act (Store_d t 3 arg_4) ;;;
      act (Store_d t 4 arg_5) ;;;
      act (Store_d t 5 arg_6) ;;;
      act (Store_d t 6 arg_7) ;;;
      act (Store_d t 7 arg_8) ;;;
      lace_run_together t;
     NAME_RUN := fun arg_1 arg_2 arg_3 arg_4 arg_5 arg_6 arg_7 arg_8 =>
      t <- act Alloc_task ;;
      act (Store_f t NAME) ;;;
      act (Store_thief t THIEF_TASK) ;;;
      act (Store_d t 0 arg_1) ;;;
      act (Store_d t 1 arg_2) ;;;
      act (Store_d t 2 arg_3) ;;;
      act (Store_d t 3 arg_4) ;;;
      act (Store_d t 4 arg_5) ;;;
      act (Store_d t 5 arg_6) ;;;
      act (Store_d t 6 arg_7) ;;;
      act (Store_d t 7 arg_8) ;;;
      lace_run_task t ;;;
      act (Load_d t 0);
     NAME_RUNEX := fun arg_1 arg_2 arg_3 arg_4 arg_5 arg_6 arg_7 arg_8 =>
      t <- act Alloc_task ;;
      act (Store_f t NAME) ;;;
      act (Store_thief t THIEF_TASK) ;;;
      act (Store_d t 0 arg_1) ;;;
      act (Store_d t 1 arg_2) ;;;
      act (Store_d t 2 arg_3) ;;;
      act (Store_d t 3 arg_4) ;;;
      act (Store_d t 4 arg_5) ;;;
      act (Store_d t 5 arg_6) ;;;
      act (Store_d t 6 arg_7) ;;;
      act (Store_d t 7 arg_8) ;;;
      lace_run_task_exclusive t ;;;
      act (Load_d t 0);
     NAME_SYNC := fun w dq_head =>
      ms <- act (Load_movesplit w) ;;
      if ms =? 0 then
        p <- act (Load_priv w) ;;
        if p_split p <=? dq_head then
          let t := TSlot w dq_head in
          act (Store_thief t THIEF_EMPTY) ;;;
          arg_1 <- act (Load_d t 0) ;;
          arg_2 <- act (Load_d t 1) ;;
          arg_3 <- act (Load_d t 2) ;;
          arg_4 <- act (Load_d t 3) ;;
          arg_5 <- act (Load_d t 4) ;;
          arg_6 <- act (Load_d t 5) ;;
          arg_7 <- act (Load_d t 6) ;;
          arg_8 <- act (Load_d t 7) ;;
          call (Fn_CALL NAME w dq_head [arg_1; arg_2; arg_3; arg_4; arg_5; arg_6; arg_7; arg_8])
        else NAME_SYNC_SLOW w dq_head
      else NAME_SYNC_SLOW w dq_head |}.

Definition TASK_IMPL_8 (NAME : fid) (NAME_WORK : nat -> Z -> args_fun 8 (lcode val)) : task_impl 8 :=
  {| NAME_WRAP := fun w dq_head t =>
      arg_1 <- act (Load_d t 0) ;;
      arg_2 <- act (Load_d t 1) ;;
      arg_3 <- act (Load_d t 2) ;;
      arg_4 <- act (Load_d t 3) ;;
      arg_5 <- act (Load_d t 4) ;;
      arg_6 <- act (Load_d t 5) ;;
      arg_7 <- act (Load_d t 6) ;;
      arg_8 <- act (Load_d t 7) ;;
      res <- call (Fn_CALL NAME w dq_head [arg_1; arg_2; arg_3; arg_4; arg_5; arg_6; arg_7; arg_8]) ;;
      act (Store_d t 0 res) ;;;
      Ret (VZ 0);
     NAME_CALL := fun w dq_head arg_1 arg_2 arg_3 arg_4 arg_5 arg_6 arg_7 arg_8 =>
      NAME_WORK w dq_head arg_1 arg_2 arg_3 arg_4 arg_5 arg_6 arg_7 arg_8 |}.

Definition VOID_TASK_DECL_8 (NAME : fid) : task_decl 8 :=
  let NAME_SYNC_SLOW := fun (w : nat) (dq_head : Z) =>
    let t := TSlot w dq_head in
    p <- act (Load_priv w) ;;
    leap <- (if negb (p_allstolen p =? 0) then Ret true
             else if p_split p >? dq_head then r <- lace_shrink_shared w ;; Ret (negb (r =? 0))
             else Ret false) ;;
    if (leap : bool) then
      lace_leapfrog w dq_head ;;;
      Ret (VZ 0)
    else
      ms <- act (Load_movesplit w) ;;
      when (negb (ms =? 0)) (
        p <- act (Load_priv w) ;;
        let t := p_split p in
        let diff := u64 (dq_head - t) in
        let diff := u64 (diff + 1) / 2 in
        act (Store_p_split w (t + diff)) ;;;
        act (Fetch_add_split w diff) ;;;
        act (Store_movesplit w 0)) ;;;
      act (Store_thief t THIEF_EMPTY) ;;;
      arg_1 <- act (Load_d t 0) ;;
      arg_2 <- act (Load_d t 1) ;;
      arg_3 <- act (Load_d t 2) ;;
      arg_4 <- act (Load_d t 3) ;;
      arg_5 <- act (Load_d t 4) ;;
      arg_6 <- act (Load_d t 5) ;;
      arg_7 <- act (Load_d t 6) ;;
      arg_8 <- act (Load_d t 7) ;;
      call (Fn_CALL NAME w dq_head [arg_1; arg_2; arg_3; arg_4; arg_5; arg_6; arg_7; arg_8]) in
  {| NAME_SPAWN := fun w dq_head arg_1 arg_2 arg_3 arg_4 arg_5 arg_6 arg_7 arg_8 =>
      when (dq_head =? dqsize) lace_abort_stack_overflow ;;;
      let t := TSlot w dq_head in
      act (Store_f t NAME) ;;;
      act (Store_thief t THIEF_TASK) ;;;
      act (Store_d t 0 arg_1) ;;;
      act (Store_d t 1 arg_2) ;;;
      act (Store_d t 2 arg_3) ;;;
      act (Store_d t 3 arg_4) ;;;
      act (Store_d t 4 arg_5) ;;;
      act (Store_d t 5 arg_6) ;;;
      act (Store_d t 6 arg_7) ;;;
      act (Store_d t 7 arg_8) ;;;
      p <- act (Load_priv w) ;;
      if negb (p_allstolen p =? 0) then
        ms <- act (Load_movesplit w) ;;
        when (negb (ms =? 0)) (act (Store_movesplit w 0)) ;;;
        let head := u32 dq_head in
        act (Store_ts w (mkTS head (u32 (head + 1)))) ;;;
        act (Store_allstolen w 0) ;;;
        act (Store_p_split w (dq_head + 1)) ;;;
        act (Store_p_allstolen w 0)
      else
        ms <- act (Load_movesplit w) ;;
        when (negb (ms =? 0)) (
          let head := u32 dq_head in
          let split := u32 (p_split p) in
          let newsplit := u32 (split + head + 2) / 2 in
          act (Store_split w newsplit) ;;;
          act (Store_p_split w newsplit) ;;;
          act (Store_movesplit w 0));
     NAME_NEWFRAME := fun arg_1 arg_2 arg_3 arg_4 arg_5 arg_6 arg_7 arg_8 =>
      t <- act Alloc_task ;;
      act (Store_f t NAME) ;;;
      act (Store_thief t THIEF_TASK) ;;;
      act (Store_d t 0 arg_1) ;;;
      act (Store_d t 1 arg_2) ;;;
      act (Store_d t 2 arg_3) ;;;
      act (Store_d t 3 arg_4) ;;;
      act (Store_d t 4 arg_5) ;;;
      act (Store_d t 5 arg_6) ;;;
      act (Store_d t 6 arg_7) ;;;
      act (Store_d t 7 arg_8) ;;;
      lace_run_newframe t ;;;
      Ret (VZ 0);
     NAME_TOGETHER := fun arg_1 arg_2 arg_3 arg_4 arg_5 arg_6 arg_7 arg_8 =>
      t <- act Alloc_task ;;
      act (Store_f t NAME) ;;;
      act (Store_thief t THIEF_TASK) ;;;
      act (Store_d t 0 arg_1) ;;;
      act (Store_d t 1 arg_2) ;;;
      act (Store_d t 2 arg_3) ;;;
      act (Store_d t 3 arg_4) ;;;
      act (Store_d t 4 arg_5) ;;;
      act (Store_d t 5 arg_6) ;;;
      act (Store_d t 6 arg_7) ;;;
      act (Store_d t 7 arg_8) ;;;
      lace_run_together t;
     NAME_RUN := fun arg_1 arg_2 arg_3 arg_4 arg_5 arg_6 arg_7 arg_8 =>
      t <- act Alloc_task ;;
      act (Store_f t NAME) ;;;
      act (Store_thief t THIEF_TASK) ;;;
      act (Store_d t 0 arg_1) ;;;
      act (Store_d t 1 arg_2) ;;;
      act (Store_d t 2 arg_3) ;;;
      act (Store_d t 3 arg_4) ;;;
      act (Store_d t 4 arg_5) ;;;
      act (Store_d t 5 arg_6) ;;;
      act (Store_d t 6 arg_7) ;;;
      act (Store_d t 7 arg_8) ;;;
      lace_run_task t ;;;
      Ret (VZ 0);
     NAME_RUNEX := fun arg_1 arg_2 arg_3 arg_4 arg_5 arg_6 arg_7 arg_8 =>
      t <- act Alloc_task ;;
      act (Store_f t NAME) ;;;
      act (Store_thief t THIEF_TASK) ;;;
      act (Store_d t 0 arg_1) ;;;
      act (Store_d t 1 arg_2) ;;;
      act (Store_d t 2 arg_3) ;;;
      act (Store_d t 3 arg_4) ;;;
      act (Store_d t 4 arg_5) ;;;
      act (Store_d t 5 arg_6) ;;;
      act (Store_d t 6 arg_7) ;;;
      act (Store_d t 7 arg_8) ;;;
      lace_run_task_exclusive t ;;;
      Ret (VZ 0);
     NAME_SYNC := fun w dq_head =>
      ms <- act (Load_movesplit w) ;;
      if ms =? 0 then
        p <- act (Load_priv w) ;;
        if p_split p <=? dq_head then
          let t := TSlot w dq_head in
          act (Store_thief t THIEF_EMPTY) ;;;
          arg_1 <- act (Load_d t 0) ;;
          arg_2 <- act (Load_d t 1) ;;
          arg_3 <- act (Load_d t 2) ;;
          arg_4 <- act (Load_d t 3) ;;
          arg_5 <- act (Load_d t 4) ;;
          arg_6 <- act (Load_d t 5) ;;
          arg_7 <- act (Load_d t 6) ;;
          arg_8 <- act (Load_d t 7) ;;
          call (Fn_CALL NAME w dq_head [arg_1; arg_2; arg_3; arg_4; arg_5; arg_6; arg_7; arg_8])
        else NAME_SYNC_SLOW w dq_head
      else NAME_SYNC_SLOW w dq_head |}.

Definition VOID_TASK_IMPL_8 (NAME : fid) (NAME_WORK : nat -> Z -> args_fun 8 (lcode unit)) : task_impl 8 :=
  {| NAME_WRAP := fun w dq_head t =>
      arg_1 <- act (Load_d t 0) ;;
      arg_2 <- act (Load_d t 1) ;;
      arg_3 <- act (Load_d t 2) ;;
      arg_4 <- act (Load_d t 3) ;;
      arg_5 <- act (Load_d t 4) ;;
      arg_6 <- act (Load_d t 5) ;;
      arg_7 <- act (Load_d t 6) ;;
      arg_8 <- act (Load_d t 7) ;;
      call (Fn_CALL NAME w dq_head [arg_1; arg_2; arg_3; arg_4; arg_5; arg_6; arg_7; arg_8]) ;;;
      Ret (VZ 0);
     NAME_CALL := fun w dq_head arg_1 arg_2 arg_3 arg_4 arg_5 arg_6 arg_7 arg_8 =>
      NAME_WORK w dq_head arg_1 arg_2 arg_3 arg_4 arg_5 arg_6 arg_7 arg_8 ;;;
      Ret (VZ 0) |}.

(** ** Tasks with 9 arguments *)

Definition TASK_DECL_9 (NAME : fid) : task_decl 9 :=
  let NAME_SYNC_SLOW := fun (w : nat) (dq_head : Z) =>
    let t := TSlot w dq_head in
    p <- act (Load_priv w) ;;
    leap <- (if negb (p_allstolen p =? 0) then Ret true
             else if p_split p >? dq_head then r <- lace_shrink_shared w ;; Ret (negb (r =? 0))
             else Ret false) ;;
    if (leap : bool) then
      lace_leapfrog w dq_head ;;;
      act (Load_d t 0)
    else
      ms <- act (Load_movesplit w) ;;
      when (negb (ms =? 0)) (
        p <- act (Load_priv w) ;;
        let t := p_split p in
        let diff := u64 (dq_head - t) in
        let diff := u64 (diff + 1) / 2 in
        act (Store_p_split w (t + diff)) ;;;
        act (Fetch_add_split w diff) ;;;
        act (Store_movesplit w 0)) ;;;
      act (Store_thief t THIEF_EMPTY) ;;;
      arg_1 <- act (Load_d t 0) ;;
      arg_2 <- act (Load_d t 1) ;;
      arg_3 <- act (Load_d t 2) ;;
      arg_4 <- act (Load_d t 3) ;;
      arg_5 <- act (Load_d t 4) ;;
      arg_6 <- act (Load_d t 5) ;;
      arg_7 <- act (Load_d t 6) ;;
      arg_8 <- act (Load_d t 7) ;;
      arg_9 <- act (Load_d t 8) ;;
      call (Fn_CALL NAME w dq_head [arg_1; arg_2; arg_3; arg_4; arg_5; arg_6; arg_7; arg_8; arg_9]) in
  {| NAME_SPAWN := fun w dq_head arg_1 arg_2 arg_3 arg_4 arg_5 arg_6 arg_7 arg_8 arg_9 =>
      when (dq_head =? dqsize) lace_abort_stack_overflow ;;;
      let t := TSlot w dq_head in
      act (Store_f t NAME) ;;;
      act (Store_thief t THIEF_TASK) ;;;
      act (Store_d t 0 arg_1) ;;;
      act (Store_d t 1 arg_2) ;;;
      act (Store_d t 2 arg_3) ;;;
      act (Store_d t 3 arg_4) ;;;
      act (Store_d t 4 arg_5) ;;;
      act (Store_d t 5 arg_6) ;;;
      act (Store_d t 6 arg_7) ;;;
      act (Store_d t 7 arg_8) ;;;
      act (Store_d t 8 arg_9) ;;;
      p <- act (Load_priv w) ;;
      if negb (p_allstolen p =? 0) then
        ms <- act (Load_movesplit w) ;;
        when (negb (ms =? 0)) (act (Store_movesplit w 0)) ;;;
        let head := u32 dq_head in
        act (Store_ts w (mkTS head (u32 (head + 1)))) ;;;
        act (Store_allstolen w 0) ;;;
        act (Store_p_split w (dq_head + 1)) ;;;
        act (Store_p_allstolen w 0)
      else
        ms <- act (Load_movesplit w) ;;
        when (negb (ms =? 0)) (
          let head := u32 dq_head in
          let split := u32 (p_split p) in
          let newsplit := u32 (split + head + 2) / 2 in
          act (Store_split w newsplit) ;;;
          act (Store_p_split w newsplit) ;;;
          act (Store_movesplit w 0));
     NAME_NEWFRAME := fun arg_1 arg_2 arg_3 arg_4 arg_5 arg_6 arg_7 arg_8 arg_9 =>
      t <- act Alloc_task ;;
      act (Store_f t NAME) ;;;
      act (Store_thief t THIEF_TASK) ;;;
      act (Store_d t 0 arg_1) ;;;
      act (Store_d t 1 arg_2) ;;;
      act (Store_d t 2 arg_3) ;;;
      act (Store_d t 3 arg_4) ;;;
      act (Store_d t 4 arg_5) ;;;
      act (Store_d t 5 arg_6) ;;;
      act (Store_d t 6 arg_7) ;;;
      act (Store_d t 7 arg_8) ;;;
      act (Store_d t 8 arg_9) ;;;
      lace_run_newframe t ;;;
      act (Load_d t 0);
     NAME_TOGETHER := fun arg_1 arg_2 arg_3 arg_4 arg_5 arg_6 arg_7 arg_8 arg_9 =>
      t <- act Alloc_task ;;
      act (Store_f t NAME) ;;;
      act (Store_thief t THIEF_TASK) ;;;
      act (Store_d t 0 arg_1) ;;;
      act (Store_d t 1 arg_2) ;;;
      act (Store_d t 2 arg_3) ;;;
      act (Store_d t 3 arg_4) ;;;
      act (Store_d t 4 arg_5) ;;;
      act (Store_d t 5 arg_6) ;;;
      act (Store_d t 6 arg_7) ;;;
      act (Store_d t 7 arg_8) ;;;
      act (Store_d t 8 arg_9) ;;;
      lace_run_together t;
     NAME_RUN := fun arg_1 arg_2 arg_3 arg_4 arg_5 arg_6 arg_7 arg_8 arg_9 =>
      t <- act Alloc_task ;;
      act (Store_f t NAME) ;;;
      act (Store_thief t THIEF_TASK) ;;;
      act (Store_d t 0 arg_1) ;;;
      act (Store_d t 1 arg_2) ;;;
      act (Store_d t 2 arg_3) ;;;
      act (Store_d t 3 arg_4) ;;;
      act (Store_d t 4 arg_5) ;;;
      act (Store_d t 5 arg_6) ;;;
      act (Store_d t 6 arg_7) ;;;
      act (Store_d t 7 arg_8) ;;;
      act (Store_d t 8 arg_9) ;;;
      lace_run_task t ;;;
      act (Load_d t 0);
     NAME_RUNEX := fun arg_1 arg_2 arg_3 arg_4 arg_5 arg_6 arg_7 arg_8 arg_9 =>
      t <- act Alloc_task ;;
      act (Store_f t NAME) ;;;
      act (Store_thief t THIEF_TASK) ;;;
      act (Store_d t 0 arg_1) ;;;
      act (Store_d t 1 arg_2) ;;;
      act (Store_d t 2 arg_3) ;;;
      act (Store_d t 3 arg_4) ;;;
      act (Store_d t 4 arg_5) ;;;
      act (Store_d t 5 arg_6) ;;;
      act (Store_d t 6 arg_7) ;;;
      act (Store_d t 7 arg_8) ;;;
      act (Store_d t 8 arg_9) ;;;
      lace_run_task_exclusive t ;;;
      act (Load_d t 0);
     NAME_SYNC := fun w dq_head =>
      ms <- act (Load_movesplit w) ;;
      if ms =? 0 then
        p <- act (Load_priv w) ;;
        if p_split p <=? dq_head then
          let t := TSlot w dq_head in
          act (Store_thief t THIEF_EMPTY) ;;;
          arg_1 <- act (Load_d t 0) ;;
          arg_2 <- act (Load_d t 1) ;;
          arg_3 <- act (Load_d t 2) ;;
          arg_4 <- act (Load_d t 3) ;;
          arg_5 <- act (Load_d t 4) ;;
          arg_6 <- act (Load_d t 5) ;;
          arg_7 <- act (Load_d t 6) ;;
          arg_8 <- act (Load_d t 7) ;;
          arg_9 <- act (Load_d t 8) ;;
          call (Fn_CALL NAME w dq_head [arg_1; arg_2; arg_3; arg_4; arg_5; arg_6; arg_7; arg_8; arg_9])
        else NAME_SYNC_SLOW w dq_head
      else NAME_SYNC_SLOW w dq_head |}.

Definition TASK_IMPL_9 (NAME : fid) (NAME_WORK : nat -> Z -> args_fun 9 (lcode val)) : task_impl 9 :=
  {| NAME_WRAP := fun w dq_head t =>
      arg_1 <- act (Load_d t 0) ;;
      arg_2 <- act (Load_d t 1) ;;
      arg_3 <- act (Load_d t 2) ;;
      arg_4 <- act (Load_d t 3) ;;
      arg_5 <- act (Load_d t 4) ;;
      arg_6 <- act (Load_d t 5) ;;
      arg_7 <- act (Load_d t 6) ;;
      arg_8 <- act (Load_d t 7) ;;
      arg_9 <- act (Load_d t 8) ;;
      res <- call (Fn_CALL NAME w dq_head [arg_1; arg_2; arg_3; arg_4; arg_5; arg_6; arg_7; arg_8; arg_9]) ;;
      act (Store_d t 0 res) ;;;
      Ret (VZ 0);
     NAME_CALL := fun w dq_head arg_1 arg_2 arg_3 arg_4 arg_5 arg_6 arg_7 arg_8 arg_9 =>
      NAME_WORK w dq_head arg_1 arg_2 arg_3 arg_4 arg_5 arg_6 arg_7 arg_8 arg_9 |}.

Definition VOID_TASK_DECL_9 (NAME : fid) : task_decl 9 :=
  let NAME_SYNC_SLOW := fun (w : nat) (dq_head : Z) =>
    let t := TSlot w dq_head in
    p <- act (Load_priv w) ;;
    leap <- (if negb (p_allstolen p =? 0) then Ret true
             else if p_split p >? dq_head then r <- lace_shrink_shared w ;; Ret (negb (r =? 0))
             else Ret false) ;;
    if (leap : bool) then
      lace_leapfrog w dq_head ;;;
      Ret (VZ 0)
    else
      ms <- act (Load_movesplit w) ;;
      when (negb (ms =? 0)) (
        p <- act (Load_priv w) ;;
        let t := p_split p in
        let diff := u64 (dq_head - t) in
        let diff := u64 (diff + 1) / 2 in
        act (Store_p_split w (t + diff)) ;;;
        act (Fetch_add_split w diff) ;;;
        act (Store_movesplit w 0)) ;;;
      act (Store_thief t THIEF_EMPTY) ;;;
      arg_1 <- act (Load_d t 0) ;;
      arg_2 <- act (Load_d t 1) ;;
      arg_3 <- act (Load_d t 2) ;;
      arg_4 <- act (Load_d t 3) ;;
      arg_5 <- act (Load_d t 4) ;;
      arg_6 <- act (Load_d t 5) ;;
      arg_7 <- act (Load_d t 6) ;;
      arg_8 <- act (Load_d t 7) ;;
      arg_9 <- act (Load_d t 8) ;;
      call (Fn_CALL NAME w dq_head [arg_1; arg_2; arg_3; arg_4; arg_5; arg_6; arg_7; arg_8; arg_9]) in
  {| NAME_SPAWN := fun w dq_head arg_1 arg_2 arg_3 arg_4 arg_5 arg_6 arg_7 arg_8 arg_9 =>
      when (dq_head =? dqsize) lace_abort_stack_overflow ;;;
      let t := TSlot w dq_head in
      act (Store_f t NAME) ;;;
      act (Store_thief t THIEF_TASK) ;;;
      act (Store_d t 0 arg_1) ;;;
      act (Store_d t 1 arg_2) ;;;
      act (Store_d t 2 arg_3) ;;;
      act (Store_d t 3 arg_4) ;;;
      act (Store_d t 4 arg_5) ;;;
      act (Store_d t 5 arg_6) ;;;
      act (Store_d t 6 arg_7) ;;;
      act (Store_d t 7 arg_8) ;;;
      act (Store_d t 8 arg_9) ;;;
      p <- act (Load_priv w) ;;
      if negb (p_allstolen p =? 0) then
        ms <- act (Load_movesplit w) ;;
        when (negb (ms =? 0)) (act (Store_movesplit w 0)) ;;;
        let head := u32 dq_head in
        act (Store_ts w (mkTS head (u32 (head + 1)))) ;;;
        act (Store_allstolen w 0) ;;;
        act (Store_p_split w (dq_head + 1)) ;;;
        act (Store_p_allstolen w 0)
      else
        ms <- act (Load_movesplit w) ;;
        when (negb (ms =? 0)) (
          let head := u32 dq_head in
          let split := u32 (p_split p) in
          let newsplit := u32 (split + head + 2) / 2 in
          act (Store_split w newsplit) ;;;
          act (Store_p_split w newsplit) ;;;
          act (Store_movesplit w 0));
     NAME_NEWFRAME := fun arg_1 arg_2 arg_3 arg_4 arg_5 arg_6 arg_7 arg_8 arg_9 =>
      t <- act Alloc_task ;;
      act (Store_f t NAME) ;;;
      act (Store_thief t THIEF_TASK) ;;;
      act (Store_d t 0 arg_1) ;;;
      act (Store_d t 1 arg_2) ;;;
      act (Store_d t 2 arg_3) ;;;
      act (Store_d t 3 arg_4) ;;;
      act (Store_d t 4 arg_5) ;;;
      act (Store_d t 5 arg_6) ;;;
      act (Store_d t 6 arg_7) ;;;
      act (Store_d t 7 arg_8) ;;;
      act (Store_d t 8 arg_9) ;;;
      lace_run_newframe t ;;;
      Ret (VZ 0);
     NAME_TOGETHER := fun arg_1 arg_2 arg_3 arg_4 arg_5 arg_6 arg_7 arg_8 arg_9 =>
      t <- act Alloc_task ;;
      act (Store_f t NAME) ;;;
      act (Store_thief t THIEF_TASK) ;;;
      act (Store_d t 0 arg_1) ;;;
      act (Store_d t 1 arg_2) ;;;
      act (Store_d t 2 arg_3) ;;;
      act (Store_d t 3 arg_4) ;;;
      act (Store_d t 4 arg_5) ;;;
      act (Store_d t 5 arg_6) ;;;
      act (Store_d t 6 arg_7) ;;;
      act (Store_d t 7 arg_8) ;;;
      act (Store_d t 8 arg_9) ;;;
      lace_run_together t;
     NAME_RUN := fun arg_1 arg_2 arg_3 arg_4 arg_5 arg_6 arg_7 arg_8 arg_9 =>
      t <- act Alloc_task ;;
      act (Store_f t NAME) ;;;
      act (Store_thief t THIEF_TASK) ;;;
      act (Store_d t 0 arg_1) ;;;
      act (Store_d t 1 arg_2) ;;;
      act (Store_d t 2 arg_3) ;;;
      act (Store_d t 3 arg_4) ;;;
      act (Store_d t 4 arg_5) ;;;
      act (Store_d t 5 arg_6) ;;;
      act (Store_d t 6 arg_7) ;;;
      act (Store_d t 7 arg_8) ;;;
      act (Store_d t 8 arg_9) ;;;
      lace_run_task t ;;;
      Ret (VZ 0);
     NAME_RUNEX := fun arg_1 arg_2 arg_3 arg_4 arg_5 arg_6 arg_7 arg_8 arg_9 =>
      t <- act Alloc_task ;;
      act (Store_f t NAME) ;;;
      act (Store_thief t THIEF_TASK) ;;;
      act (Store_d t 0 arg_1) ;;;
      act (Store_d t 1 arg_2) ;;;
      act (Store_d t 2 arg_3) ;;;
      act (Store_d t 3 arg_4) ;;;
      act (Store_d t 4 arg_5) ;;;
      act (Store_d t 5 arg_6) ;;;
      act (Store_d t 6 arg_7) ;;;
      act (Store_d t 7 arg_8) ;;;
      act (Store_d t 8 arg_9) ;;;
      lace_run_task_exclusive t ;;;
      Ret (VZ 0);
     NAME_SYNC := fun w dq_head =>
      ms <- act (Load_movesplit w) ;;
      if ms =? 0 then
        p <- act (Load_priv w) ;;
        if p_split p <=? dq_head then
          let t := TSlot w dq_head in
          act (Store_thief t THIEF_EMPTY) ;;;
          arg_1 <- act (Load_d t 0) ;;
          arg_2 <- act (Load_d t 1) ;;
          arg_3 <- act (Load_d t 2) ;;
          arg_4 <- act (Load_d t 3) ;;
          arg_5 <- act (Load_d t 4) ;;
          arg_6 <- act (Load_d t 5) ;;
          arg_7 <- act (Load_d t 6) ;;
          arg_8 <- act (Load_d t 7) ;;
          arg_9 <- act (Load_d t 8) ;;
          call (Fn_CALL NAME w dq_head [arg_1; arg_2; arg_3; arg_4; arg_5; arg_6; arg_7; arg_8; arg_9])
        else NAME_SYNC_SLOW w dq_head
      else NAME_SYNC_SLOW w dq_head |}.

Definition VOID_TASK_IMPL_9 (NAME : fid) (NAME_WORK : nat -> Z -> args_fun 9 (lcode unit)) : task_impl 9 :=
  {| NAME_WRAP := fun w dq_head t =>
      arg_1 <- act (Load_d t 0) ;;
      arg_2 <- act (Load_d t 1) ;;
      arg_3 <- act (Load_d t 2) ;;
      arg_4 <- act (Load_d t 3) ;;
      arg_5 <- act (Load_d t 4) ;;
      arg_6 <- act (Load_d t 5) ;;
      arg_7 <- act (Load_d t 6) ;;
      arg_8 <- act (Load_d t 7) ;;
      arg_9 <- act (Load_d t 8) ;;
      call (Fn_CALL NAME w dq_head [arg_1; arg_2; arg_3; arg_4; arg_5; arg_6; arg_7; arg_8; arg_9]) ;;;
      Ret (VZ 0);
     NAME_CALL := fun w dq_head arg_1 arg_2 arg_3 arg_4 arg_5 arg_6 arg_7 arg_8 arg_9 =>
      NAME_WORK w dq_head arg_1 arg_2 arg_3 arg_4 arg_5 arg_6 arg_7 arg_8 arg_9 ;;;
      Ret (VZ 0) |}.

(** ** Tasks with 10 arguments *)

Definition TASK_DECL_10 (NAME : fid) : task_decl 10 :=
  let NAME_SYNC_SLOW := fun (w : nat) (dq_head : Z) =>
    let t := TSlot w dq_head in
    p <- act (Load_priv w) ;;
    leap <- (if negb (p_allstolen p =? 0) then Ret true
             else if p_split p >? dq_head then r <- lace_shrink_shared w ;; Ret (negb (r =? 0))
             else Ret false) ;;
    if (leap : bool) then
      lace_leapfrog w dq_head ;;;
      act (Load_d t 0)
    else
      ms <- act (Load_movesplit w) ;;
      when (negb (ms =? 0)) (
        p <- act (Load_priv w) ;;
        let t := p_split p in
        let diff := u64 (dq_head - t) in
        let diff := u64 (diff + 1) / 2 in
        act (Store_p_split w (t + diff)) ;;;
        act (Fetch_add_split w diff) ;;;
        act (Store_movesplit w 0)) ;;;
      act (Store_thief t THIEF_EMPTY) ;;;
      arg_1 <- act (Load_d t 0) ;;
      arg_2 <- act (Load_d t 1) ;;
      arg_3 <- act (Load_d t 2) ;;
      arg_4 <- act (Load_d t 3) ;;
      arg_5 <- act (Load_d t 4) ;;
      arg_6 <- act (Load_d t 5) ;;
      arg_7 <- act (Load_d t 6) ;;
      arg_8 <- act (Load_d t 7) ;;
      arg_9 <- act (Load_d t 8) ;;
      arg_10 <- act (Load_d t 9) ;;
      call (Fn_CALL NAME w dq_head [arg_1; arg_2; arg_3; arg_4; arg_5; arg_6; arg_7; arg_8; arg_9; arg_10]) in
  {| NAME_SPAWN := fun w dq_head arg_1 arg_2 arg_3 arg_4 arg_5 arg_6 arg_7 arg_8 arg_9 arg_10 =>
      when (dq_head =? dqsize) lace_abort_stack_overflow ;;;
      let t := TSlot w dq_head in
      act (Store_f t NAME) ;;;
      act (Store_thief t THIEF_TASK) ;;;
      act (Store_d t 0 arg_1) ;;;
      act (Store_d t 1 arg_2) ;;;
      act (Store_d t 2 arg_3) ;;;
      act (Store_d t 3 arg_4) ;;;
      act (Store_d t 4 arg_5) ;;;
      act (Store_d t 5 arg_6) ;;;
      act (Store_d t 6 arg_7) ;;;
      act (Store_d t 7 arg_8) ;;;
      act (Store_d t 8 arg_9) ;;;
      act (Store_d t 9 arg_10) ;;;
      p <- act (Load_priv w) ;;
      if negb (p_allstolen p =? 0) then
        ms <- act (Load_movesplit w) ;;
        when (negb (ms =? 0)) (act (Store_movesplit w 0)) ;;;
        let head := u32 dq_head in
        act (Store_ts w (mkTS head (u32 (head + 1)))) ;;;
        act (Store_allstolen w 0) ;;;
        act (Store_p_split w (dq_head + 1)) ;;;
        act (Store_p_allstolen w 0)
      else
        ms <- act (Load_movesplit w) ;;
        when (negb (ms =? 0)) (
          let head := u32 dq_head in
          let split := u32 (p_split p) in
          let newsplit := u32 (split + head + 2) / 2 in
          act (Store_split w newsplit) ;;;
          act (Store_p_split w newsplit) ;;;
          act (Store_movesplit w 0));
     NAME_NEWFRAME := fun arg_1 arg_2 arg_3 arg_4 arg_5 arg_6 arg_7 arg_8 arg_9 arg_10 =>
      t <- act Alloc_task ;;
      act (Store_f t NAME) ;;;
      act (Store_thief t THIEF_TASK) ;;;
      act (Store_d t 0 arg_1) ;;;
      act (Store_d t 1 arg_2) ;;;
      act (Store_d t 2 arg_3) ;;;
      act (Store_d t 3 arg_4) ;;;
      act (Store_d t 4 arg_5) ;;;
      act (Store_d t 5 arg_6) ;;;
      act (Store_d t 6 arg_7) ;;;
      act (Store_d t 7 arg_8) ;;;
      act (Store_d t 8 arg_9) ;;;
      act (Store_d t 9 arg_10) ;;;
      lace_run_newframe t ;;;
      act (Load_d t 0);
     NAME_TOGETHER := fun arg_1 arg_2 arg_3 arg_4 arg_5 arg_6 arg_7 arg_8 arg_9 arg_10 =>
      t <- act Alloc_task ;;
      act (Store_f t NAME) ;;;
      act (Store_thief t THIEF_TASK) ;;;
      act (Store_d t 0 arg_1) ;;;
      act (Store_d t 1 arg_2) ;;;
      act (Store_d t 2 arg_3) ;;;
      act (Store_d t 3 arg_4) ;;;
      act (Store_d t 4 arg_5) ;;;
      act (Store_d t 5 arg_6) ;;;
      act (Store_d t 6 arg_7) ;;;
      act (Store_d t 7 arg_8) ;;;
      act (Store_d t 8 arg_9) ;;;
      act (Store_d t 9 arg_10) ;;;
      lace_run_together t;
     NAME_RUN := fun arg_1 arg_2 arg_3 arg_4 arg_5 arg_6 arg_7 arg_8 arg_9 arg_10 =>
      t <- act Alloc_task ;;
      act (Store_f t NAME) ;;;
      act (Store_thief t THIEF_TASK) ;;;
      act (Store_d t 0 arg_1) ;;;
      act (Store_d t 1 arg_2) ;;;
      act (Store_d t 2 arg_3) ;;;
      act (Store_d t 3 arg_4) ;;;
      act (Store_d t 4 arg_5) ;;;
      act (Store_d t 5 arg_6) ;;;
      act (Store_d t 6 arg_7) ;;;
      act (Store_d t 7 arg_8) ;;;
      act (Store_d t 8 arg_9) ;;;
      act (Store_d t 9 arg_10) ;;;
      lace_run_task t ;;;
      act (Load_d t 0);
     NAME_RUNEX := fun arg_1 arg_2 arg_3 arg_4 arg_5 arg_6 arg_7 arg_8 arg_9 arg_10 =>
      t <- act Alloc_task ;;
      act (Store_f t NAME) ;;;
      act (Store_thief t THIEF_TASK) ;;;
      act (Store_d t 0 arg_1) ;;;
      act (Store_d t 1 arg_2) ;;;
      act (Store_d t 2 arg_3) ;;;
      act (Store_d t 3 arg_4) ;;;
      act (Store_d t 4 arg_5) ;;;
      act (Store_d t 5 arg_6) ;;;
      act (Store_d t 6 arg_7) ;;;
      act (Store_d t 7 arg_8) ;;;
      act (Store_d t 8 arg_9) ;;;
      act (Store_d t 9 arg_10) ;;;
      lace_run_task_exclusive t ;;;
      act (Load_d t 0);
     NAME_SYNC := fun w dq_head =>
      ms <- act (Load_movesplit w) ;;
      if ms =? 0 then
        p <- act (Load_priv w) ;;
        if p_split p <=? dq_head then
          let t := TSlot w dq_head in
          act (Store_thief t THIEF_EMPTY) ;;;
          arg_1 <- act (Load_d t 0) ;;
          arg_2 <- act (Load_d t 1) ;;
          arg_3 <- act (Load_d t 2) ;;
          arg_4 <- act (Load_d t 3) ;;
          arg_5 <- act (Load_d t 4) ;;
          arg_6 <- act (Load_d t 5) ;;
          arg_7 <- act (Load_d t 6) ;;
          arg_8 <- act (Load_d t 7) ;;
          arg_9 <- act (Load_d t 8) ;;
          arg_10 <- act (Load_d t 9) ;;
          call (Fn_CALL NAME w dq_head [arg_1; arg_2; arg_3; arg_4; arg_5; arg_6; arg_7; arg_8; arg_9; arg_10])
        else NAME_SYNC_SLOW w dq_head
      else NAME_SYNC_SLOW w dq_head |}.

Definition TASK_IMPL_10 (NAME : fid) (NAME_WORK : nat -> Z -> args_fun 10 (lcode val)) : task_impl 10 :=
  {| NAME_WRAP := fun w dq_head t =>
      arg_1 <- act (Load_d t 0) ;;
      arg_2 <- act (Load_d t 1) ;;
      arg_3 <- act (Load_d t 2) ;;
      arg_4 <- act (Load_d t 3) ;;
      arg_5 <- act (Load_d t 4) ;;
      arg_6 <- act (Load_d t 5) ;;
      arg_7 <- act (Load_d t 6) ;;
      arg_8 <- act (Load_d t 7) ;;
      arg_9 <- act (Load_d t 8) ;;
      arg_10 <- act (Load_d t 9) ;;
      res <- call (Fn_CALL NAME w dq_head [arg_1; arg_2; arg_3; arg_4; arg_5; arg_6; arg_7; arg_8; arg_9; arg_10]) ;;
      act (Store_d t 0 res) ;;;
      Ret (VZ 0);
     NAME_CALL := fun w dq_head arg_1 arg_2 arg_3 arg_4 arg_5 arg_6 arg_7 arg_8 arg_9 arg_10 =>
      NAME_WORK w dq_head arg_1 arg_2 arg_3 arg_4 arg_5 arg_6 arg_7 arg_8 arg_9 arg_10 |}.

Definition VOID_TASK_DECL_10 (NAME : fid) : task_decl 10 :=
  let NAME_SYNC_SLOW := fun (w : nat) (dq_head : Z) =>
    let t := TSlot w dq_head in
    p <- act (Load_priv w) ;;
    leap <- (if negb (p_allstolen p =? 0) then Ret true
             else if p_split p >? dq_head then r <- lace_shrink_shared w ;; Ret (negb (r =? 0))
             else Ret false) ;;
    if (leap : bool) then
      lace_leapfrog w dq_head ;;;
      Ret (VZ 0)
    else
      ms <- act (Load_movesplit w) ;;
      when (negb (ms =? 0)) (
        p <- act (Load_priv w) ;;
        let t := p_split p in
        let diff := u64 (dq_head - t) in
        let diff := u64 (diff + 1) / 2 in
        act (Store_p_split w (t + diff)) ;;;
        act (Fetch_add_split w diff) ;;;
        act (Store_movesplit w 0)) ;;;
      act (Store_thief t THIEF_EMPTY) ;;;
      arg_1 <- act (Load_d t 0) ;;
      arg_2 <- act (Load_d t 1) ;;
      arg_3 <- act (Load_d t 2) ;;
      arg_4 <- act (Load_d t 3) ;;
      arg_5 <- act (Load_d t 4) ;;
      arg_6 <- act (Load_d t 5) ;;
      arg_7 <- act (Load_d t 6) ;;
      arg_8 <- act (Load_d t 7) ;;
      arg_9 <- act (Load_d t 8) ;;
      arg_10 <- act (Load_d t 9) ;;
      call (Fn_CALL NAME w dq_head [arg_1; arg_2; arg_3; arg_4; arg_5; arg_6; arg_7; arg_8; arg_9; arg_10]) in
  {| NAME_SPAWN := fun w dq_head arg_1 arg_2 arg_3 arg_4 arg_5 arg_6 arg_7 arg_8 arg_9 arg_10 =>
      when (dq_head =? dqsize) lace_abort_stack_overflow ;;;
      let t := TSlot w dq_head in
      act (Store_f t NAME) ;;;
      act (Store_thief t THIEF_TASK) ;;;
      act (Store_d t 0 arg_1) ;;;
      act (Store_d t 1 arg_2) ;;;
      act (Store_d t 2 arg_3) ;;;
      act (Store_d t 3 arg_4) ;;;
      act (Store_d t 4 arg_5) ;;;
      act (Store_d t 5 arg_6) ;;;
      act (Store_d t 6 arg_7) ;;;
      act (Store_d t 7 arg_8) ;;;
      act (Store_d t 8 arg_9) ;;;
      act (Store_d t 9 arg_10) ;;;
      p <- act (Load_priv w) ;;
      if negb (p_allstolen p =? 0) then
        ms <- act (Load_movesplit w) ;;
        when (negb (ms =? 0)) (act (Store_movesplit w 0)) ;;;
        let head := u32 dq_head in
        act (Store_ts w (mkTS head (u32 (head + 1)))) ;;;
        act (Store_allstolen w 0) ;;;
        act (Store_p_split w (dq_head + 1)) ;;;
        act (Store_p_allstolen w 0)
      else
        ms <- act (Load_movesplit w) ;;
        when (negb (ms =? 0)) (
          let head := u32 dq_head in
          let split := u32 (p_split p) in
          let newsplit := u32 (split + head + 2) / 2 in
          act (Store_split w newsplit) ;;;
          act (Store_p_split w newsplit) ;;;
          act (Store_movesplit w 0));
     NAME_NEWFRAME := fun arg_1 arg_2 arg_3 arg_4 arg_5 arg_6 arg_7 arg_8 arg_9 arg_10 =>
      t <- act Alloc_task ;;
      act (Store_f t NAME) ;;;
      act (Store_thief t THIEF_TASK) ;;;
      act (Store_d t 0 arg_1) ;;;
      act (Store_d t 1 arg_2) ;;;
      act (Store_d t 2 arg_3) ;;;
      act (Store_d t 3 arg_4) ;;;
      act (Store_d t 4 arg_5) ;;;
      act (Store_d t 5 arg_6) ;;;
      act (Store_d t 6 arg_7) ;;;
      act (Store_d t 7 arg_8) ;;;
      act (Store_d t 8 arg_9) ;;;
      act (Store_d t 9 arg_10) ;;;
      lace_run_newframe t ;;;
      Ret (VZ 0);
     NAME_TOGETHER := fun arg_1 arg_2 arg_3 arg_4 arg_5 arg_6 arg_7 arg_8 arg_9 arg_10 =>
      t <- act Alloc_task ;;
      act (Store_f t NAME) ;;;
      act (Store_thief t THIEF_TASK) ;;;
      act (Store_d t 0 arg_1) ;;;
      act (Store_d t 1 arg_2) ;;;
      act (Store_d t 2 arg_3) ;;;
      act (Store_d t 3 arg_4) ;;;
      act (Store_d t 4 arg_5) ;;;
      act (Store_d t 5 arg_6) ;;;
      act (Store_d t 6 arg_7) ;;;
      act (Store_d t 7 arg_8) ;;;
      act (Store_d t 8 arg_9) ;;;
      act (Store_d t 9 arg_10) ;;;
      lace_run_together t;
     NAME_RUN := fun arg_1 arg_2 arg_3 arg_4 arg_5 arg_6 arg_7 arg_8 arg_9 arg_10 =>
      t <- act Alloc_task ;;
      act (Store_f t NAME) ;;;
      act (Store_thief t THIEF_TASK) ;;;
      act (Store_d t 0 arg_1) ;;;
      act (Store_d t 1 arg_2) ;;;
      act (Store_d t 2 arg_3) ;;;
      act (Store_d t 3 arg_4) ;;;
      act (Store_d t 4 arg_5) ;;;
      act (Store_d t 5 arg_6) ;;;
      act (Store_d t 6 arg_7) ;;;
      act (Store_d t 7 arg_8) ;;;
      act (Store_d t 8 arg_9) ;;;
      act (Store_d t 9 arg_10) ;;;
      lace_run_task t ;;;
      Ret (VZ 0);
     NAME_RUNEX := fun arg_1 arg_2 arg_3 arg_4 arg_5 arg_6 arg_7 arg_8 arg_9 arg_10 =>
      t <- act Alloc_task ;;
      act (Store_f t NAME) ;;;
      act (Store_thief t THIEF_TASK) ;;;
      act (Store_d t 0 arg_1) ;;;
      act (Store_d t 1 arg_2) ;;;
      act (Store_d t 2 arg_3) ;;;
      act (Store_d t 3 arg_4) ;;;
      act (Store_d t 4 arg_5) ;;;
      act (Store_d t 5 arg_6) ;;;
      act (Store_d t 6 arg_7) ;;;
      act (Store_d t 7 arg_8) ;;;
      act (Store_d t 8 arg_9) ;;;
      act (Store_d t 9 arg_10) ;;;
      lace_run_task_exclusive t ;;;
      Ret (VZ 0);
     NAME_SYNC := fun w dq_head =>
      ms <- act (Load_movesplit w) ;;
      if ms =? 0 then
        p <- act (Load_priv w) ;;
        if p_split p <=? dq_head then
          let t := TSlot w dq_head in
          act (Store_thief t THIEF_EMPTY) ;;;
          arg_1 <- act (Load_d t 0) ;;
          arg_2 <- act (Load_d t 1) ;;
          arg_3 <- act (Load_d t 2) ;;
          arg_4 <- act (Load_d t 3) ;;
          arg_5 <- act (Load_d t 4) ;;
          arg_6 <- act (Load_d t 5) ;;
          arg_7 <- act (Load_d t 6) ;;
          arg_8 <- act (Load_d t 7) ;;
          arg_9 <- act (Load_d t 8) ;;
          arg_10 <- act (Load_d t 9) ;;
          call (Fn_CALL NAME w dq_head [arg_1; arg_2; arg_3; arg_4; arg_5; arg_6; arg_7; arg_8; arg_9; arg_10])
        else NAME_SYNC_SLOW w dq_head
      else NAME_SYNC_SLOW w dq_head |}.

Definition VOID_TASK_IMPL_10 (NAME : fid) (NAME_WORK : nat -> Z -> args_fun 10 (lcode unit)) : task_impl 10 :=
  {| NAME_WRAP := fun w dq_head t =>
      arg_1 <- act (Load_d t 0) ;;
      arg_2 <- act (Load_d t 1) ;;
      arg_3 <- act (Load_d t 2) ;;
      arg_4 <- act (Load_d t 3) ;;
      arg_5 <- act (Load_d t 4) ;;
      arg_6 <- act (Load_d t 5) ;;
      arg_7 <- act (Load_d t 6) ;;
      arg_8 <- act (Load_d t 7) ;;
      arg_9 <- act (Load_d t 8) ;;
      arg_10 <- act (Load_d t 9) ;;
      call (Fn_CALL NAME w dq_head [arg_1; arg_2; arg_3; arg_4; arg_5; arg_6; arg_7; arg_8; arg_9; arg_10]) ;;;
      Ret (VZ 0);
     NAME_CALL := fun w dq_head arg_1 arg_2 arg_3 arg_4 arg_5 arg_6 arg_7 arg_8 arg_9 arg_10 =>
      NAME_WORK w dq_head arg_1 arg_2 arg_3 arg_4 arg_5 arg_6 arg_7 arg_8 arg_9 arg_10 ;;;
      Ret (VZ 0) |}.

(** ** Tasks with 11 arguments *)

Definition TASK_DECL_11 (NAME : fid) : task_decl 11 :=
  let NAME_SYNC_SLOW := fun (w : nat) (dq_head : Z) =>
    let t := TSlot w dq_head in
    p <- act (Load_priv w) ;;
    leap <- (if negb (p_allstolen p =? 0) then Ret true
             else if p_split p >? dq_head then r <- lace_shrink_shared w ;; Ret (negb (r =? 0))
             else Ret false) ;;
    if (leap : bool) then
      lace_leapfrog w dq_head ;;;
      act (Load_d t 0)
    else
      ms <- act (Load_movesplit w) ;;
      when (negb (ms =? 0)) (
        p <- act (Load_priv w) ;;
        let t := p_split p in
        let diff := u64 (dq_head - t) in
        let diff := u64 (diff + 1) / 2 in
        act (Store_p_split w (t + diff)) ;;;
        act (Fetch_add_split w diff) ;;;
        act (Store_movesplit w 0)) ;;;
      act (Store_thief t THIEF_EMPTY) ;;;
      arg_1 <- act (Load_d t 0) ;;
      arg_2 <- act (Load_d t 1) ;;
      arg_3 <- act (Load_d t 2) ;;
      arg_4 <- act (Load_d t 3) ;;
      arg_5 <- act (Load_d t 4) ;;
      arg_6 <- act (Load_d t 5) ;;
      arg_7 <- act (Load_d t 6) ;;
      arg_8 <- act (Load_d t 7) ;;
      arg_9 <- act (Load_d t 8) ;;
      arg_10 <- act (Load_d t 9) ;;
      arg_11 <- act (Load_d t 10) ;;
      call (Fn_CALL NAME w dq_head [arg_1; arg_2; arg_3; arg_4; arg_5; arg_6; arg_7; arg_8; arg_9; arg_10; arg_11]) in
  {| NAME_SPAWN := fun w dq_head arg_1 arg_2 arg_3 arg_4 arg_5 arg_6 arg_7 arg_8 arg_9 arg_10 arg_11 =>
      when (dq_head =? dqsize) lace_abort_stack_overflow ;;;
      let t := TSlot w dq_head in
      act (Store_f t NAME) ;;;
      act (Store_thief t THIEF_TASK) ;;;
      act (Store_d t 0 arg_1) ;;;
      act (Store_d t 1 arg_2) ;;;
      act (Store_d t 2 arg_3) ;;;
      act (Store_d t 3 arg_4) ;;;
      act (Store_d t 4 arg_5) ;;;
      act (Store_d t 5 arg_6) ;;;
      act (Store_d t 6 arg_7) ;;;
      act (Store_d t 7 arg_8) ;;;
      act (Store_d t 8 arg_9) ;;;
      act (Store_d t 9 arg_10) ;;;
      act (Store_d t 10 arg_11) ;;;
      p <- act (Load_priv w) ;;
      if negb (p_allstolen p =? 0) then
        ms <- act (Load_movesplit w) ;;
        when (negb (ms =? 0)) (act (Store_movesplit w 0)) ;;;
        let head := u32 dq_head in
        act (Store_ts w (mkTS head (u32 (head + 1)))) ;;;
        act (Store_allstolen w 0) ;;;
        act (Store_p_split w (dq_head + 1)) ;;;
        act (Store_p_allstolen w 0)
      else
        ms <- act (Load_movesplit w) ;;
        when (negb (ms =? 0)) (
          let head := u32 dq_head in
          let split := u32 (p_split p) in
          let newsplit := u32 (split + head + 2) / 2 in
          act (Store_split w newsplit) ;;;
          act (Store_p_split w newsplit) ;;;
          act (Store_movesplit w 0));
     NAME_NEWFRAME := fun arg_1 arg_2 arg_3 arg_4 arg_5 arg_6 arg_7 arg_8 arg_9 arg_10 arg_11 =>
      t <- act Alloc_task ;;
      act (Store_f t NAME) ;;;
      act (Store_thief t THIEF_TASK) ;;;
      act (Store_d t 0 arg_1) ;;;
      act (Store_d t 1 arg_2) ;;;
      act (Store_d t 2 arg_3) ;;;
      act (Store_d t 3 arg_4) ;;;
      act (Store_d t 4 arg_5) ;;;
      act (Store_d t 5 arg_6) ;;;
      act (Store_d t 6 arg_7) ;;;
      act (Store_d t 7 arg_8) ;;;
      act (Store_d t 8 arg_9) ;;;
      act (Store_d t 9 arg_10) ;;;
      act (Store_d t 10 arg_11) ;;;
      lace_run_newframe t ;;;
      act (Load_d t 0);
     NAME_TOGETHER := fun arg_1 arg_2 arg_3 arg_4 arg_5 arg_6 arg_7 arg_8 arg_9 arg_10 arg_11 =>
      t <- act Alloc_task ;;
      act (Store_f t NAME) ;;;
      act (Store_thief t THIEF_TASK) ;;;
      act (Store_d t 0 arg_1) ;;;
      act (Store_d t 1 arg_2) ;;;
      act (Store_d t 2 arg_3) ;;;
      act (Store_d t 3 arg_4) ;;;
      act (Store_d t 4 arg_5) ;;;
      act (Store_d t 5 arg_6) ;;;
      act (Store_d t 6 arg_7) ;;;
      act (Store_d t 7 arg_8) ;;;
      act (Store_d t 8 arg_9) ;;;
      act (Store_d t 9 arg_10) ;;;
      act (Store_d t 10 arg_11) ;;;
      lace_run_together t;
     NAME_RUN := fun arg_1 arg_2 arg_3 arg_4 arg_5 arg_6 arg_7 arg_8 arg_9 arg_10 arg_11 =>
      t <- act Alloc_task ;;
      act (Store_f t NAME) ;;;
      act (Store_thief t THIEF_TASK) ;;;
      act (Store_d t 0 arg_1) ;;;
      act (Store_d t 1 arg_2) ;;;
      act (Store_d t 2 arg_3) ;;;
      act (Store_d t 3 arg_4) ;;;
      act (Store_d t 4 arg_5) ;;;
      act (Store_d t 5 arg_6) ;;;
      act (Store_d t 6 arg_7) ;;;
      act (Store_d t 7 arg_8) ;;;
      act (Store_d t 8 arg_9) ;;;
      act (Store_d t 9 arg_10) ;;;
      act (Store_d t 10 arg_11) ;;;
      lace_run_task t ;;;
      act (Load_d t 0);
     NAME_RUNEX := fun arg_1 arg_2 arg_3 arg_4 arg_5 arg_6 arg_7 arg_8 arg_9 arg_10 arg_11 =>
      t <- act Alloc_task ;;
      act (Store_f t NAME) ;;;
      act (Store_thief t THIEF_TASK) ;;;
      act (Store_d t 0 arg_1) ;;;
      act (Store_d t 1 arg_2) ;;;
      act (Store_d t 2 arg_3) ;;;
      act (Store_d t 3 arg_4) ;;;
      act (Store_d t 4 arg_5) ;;;
      act (Store_d t 5 arg_6) ;;;
      act (Store_d t 6 arg_7) ;;;
      act (Store_d t 7 arg_8) ;;;
      act (Store_d t 8 arg_9) ;;;
      act (Store_d t 9 arg_10) ;;;
      act (Store_d t 10 arg_11) ;;;
      lace_run_task_exclusive t ;;;
      act (Load_d t 0);
     NAME_SYNC := fun w dq_head =>
      ms <- act (Load_movesplit w) ;;
      if ms =? 0 then
        p <- act (Load_priv w) ;;
        if p_split p <=? dq_head then
          let t := TSlot w dq_head in
          act (Store_thief t THIEF_EMPTY) ;;;
          arg_1 <- act (Load_d t 0) ;;
          arg_2 <- act (Load_d t 1) ;;
          arg_3 <- act (Load_d t 2) ;;
          arg_4 <- act (Load_d t 3) ;;
          arg_5 <- act (Load_d t 4) ;;
          arg_6 <- act (Load_d t 5) ;;
          arg_7 <- act (Load_d t 6) ;;
          arg_8 <- act (Load_d t 7) ;;
          arg_9 <- act (Load_d t 8) ;;
          arg_10 <- act (Load_d t 9) ;;
          arg_11 <- act (Load_d t 10) ;;
          call (Fn_CALL NAME w dq_head [arg_1; arg_2; arg_3; arg_4; arg_5; arg_6; arg_7; arg_8; arg_9; arg_10; arg_11])
        else NAME_SYNC_SLOW w dq_head
      else NAME_SYNC_SLOW w dq_head |}.

Definition TASK_IMPL_11 (NAME : fid) (NAME_WORK : nat -> Z -> args_fun 11 (lcode val)) : task_impl 11 :=
  {| NAME_WRAP := fun w dq_head t =>
      arg_1 <- act (Load_d t 0) ;;
      arg_2 <- act (Load_d t 1) ;;
      arg_3 <- act (Load_d t 2) ;;
      arg_4 <- act (Load_d t 3) ;;
      arg_5 <- act (Load_d t 4) ;;
      arg_6 <- act (Load_d t 5) ;;
      arg_7 <- act (Load_d t 6) ;;
      arg_8 <- act (Load_d t 7) ;;
      arg_9 <- act (Load_d t 8) ;;
      arg_10 <- act (Load_d t 9) ;;
      arg_11 <- act (Load_d t 10) ;;
      res <- call (Fn_CALL NAME w dq_head [arg_1; arg_2; arg_3; arg_4; arg_5; arg_6; arg_7; arg_8; arg_9; arg_10; arg_11]) ;;
      act (Store_d t 0 res) ;;;
      Ret (VZ 0);
     NAME_CALL := fun w dq_head arg_1 arg_2 arg_3 arg_4 arg_5 arg_6 arg_7 arg_8 arg_9 arg_10 arg_11 =>
      NAME_WORK w dq_head arg_1 arg_2 arg_3 arg_4 arg_5 arg_6 arg_7 arg_8 arg_9 arg_10 arg_11 |}.

Definition VOID_TASK_DECL_11 (NAME : fid) : task_decl 11 :=
  let NAME_SYNC_SLOW := fun (w : nat) (dq_head : Z) =>
    let t := TSlot w dq_head in
    p <- act (Load_priv w) ;;
    leap <- (if negb (p_allstolen p =? 0) then Ret true
             else if p_split p >? dq_head then r <- lace_shrink_shared w ;; Ret (negb (r =? 0))
             else Ret false) ;;
    if (leap : bool) then
      lace_leapfrog w dq_head ;;;
      Ret (VZ 0)
    else
      ms <- act (Load_movesplit w) ;;
      when (negb (ms =? 0)) (
        p <- act (Load_priv w) ;;
        let t := p_split p in
        let diff := u64 (dq_head - t) in
        let diff := u64 (diff + 1) / 2 in
        act (Store_p_split w (t + diff)) ;;;
        act (Fetch_add_split w diff) ;;;
        act (Store_movesplit w 0)) ;;;
      act (Store_thief t THIEF_EMPTY) ;;;
      arg_1 <- act (Load_d t 0) ;;
      arg_2 <- act (Load_d t 1) ;;
      arg_3 <- act (Load_d t 2) ;;
      arg_4 <- act (Load_d t 3) ;;
      arg_5 <- act (Load_d t 4) ;;
      arg_6 <- act (Load_d t 5) ;;
      arg_7 <- act (Load_d t 6) ;;
      arg_8 <- act (Load_d t 7) ;;
      arg_9 <- act (Load_d t 8) ;;
      arg_10 <- act (Load_d t 9) ;;
      arg_11 <- act (Load_d t 10) ;;
      call (Fn_CALL NAME w dq_head [arg_1; arg_2; arg_3; arg_4; arg_5; arg_6; arg_7; arg_8; arg_9; arg_10; arg_11]) in
  {| NAME_SPAWN := fun w dq_head arg_1 arg_2 arg_3 arg_4 arg_5 arg_6 arg_7 arg_8 arg_9 arg_10 arg_11 =>
      when (dq_head =? dqsize) lace_abort_stack_overflow ;;;
      let t := TSlot w dq_head in
      act (Store_f t NAME) ;;;
      act (Store_thief t THIEF_TASK) ;;;
      act (Store_d t 0 arg_1) ;;;
      act (Store_d t 1 arg_2) ;;;
      act (Store_d t 2 arg_3) ;;;
      act (Store_d t 3 arg_4) ;;;
      act (Store_d t 4 arg_5) ;;;
      act (Store_d t 5 arg_6) ;;;
      act (Store_d t 6 arg_7) ;;;
      act (Store_d t 7 arg_8) ;;;
      act (Store_d t 8 arg_9) ;;;
      act (Store_d t 9 arg_10) ;;;
      act (Store_d t 10 arg_11) ;;;
      p <- act (Load_priv w) ;;
      if negb (p_allstolen p =? 0) then
        ms <- act (Load_movesplit w) ;;
        when (negb (ms =? 0)) (act (Store_movesplit w 0)) ;;;
        let head := u32 dq_head in
        act (Store_ts w (mkTS head (u32 (head + 1)))) ;;;
        act (Store_allstolen w 0) ;;;
        act (Store_p_split w (dq_head + 1)) ;;;
        act (Store_p_allstolen w 0)
      else
        ms <- act (Load_movesplit w) ;;
        when (negb (ms =? 0)) (
          let head := u32 dq_head in
          let split := u32 (p_split p) in
          let newsplit := u32 (split + head + 2) / 2 in
          act (Store_split w newsplit) ;;;
          act (Store_p_split w newsplit) ;;;
          act (Store_movesplit w 0));
     NAME_NEWFRAME := fun arg_1 arg_2 arg_3 arg_4 arg_5 arg_6 arg_7 arg_8 arg_9 arg_10 arg_11 =>
      t <- act Alloc_task ;;
      act (Store_f t NAME) ;;;
      act (Store_thief t THIEF_TASK) ;;;
      act (Store_d t 0 arg_1) ;;;
      act (Store_d t 1 arg_2) ;;;
      act (Store_d t 2 arg_3) ;;;
      act (Store_d t 3 arg_4) ;;;
      act (Store_d t 4 arg_5) ;;;
      act (Store_d t 5 arg_6) ;;;
      act (Store_d t 6 arg_7) ;;;
      act (Store_d t 7 arg_8) ;;;
      act (Store_d t 8 arg_9) ;;;
      act (Store_d t 9 arg_10) ;;;
      act (Store_d t 10 arg_11) ;;;
      lace_run_newframe t ;;;
      Ret (VZ 0);
     NAME_TOGETHER := fun arg_1 arg_2 arg_3 arg_4 arg_5 arg_6 arg_7 arg_8 arg_9 arg_10 arg_11 =>
      t <- act Alloc_task ;;
      act (Store_f t NAME) ;;;
      act (Store_thief t THIEF_TASK) ;;;
      act (Store_d t 0 arg_1) ;;;
      act (Store_d t 1 arg_2) ;;;
      act (Store_d t 2 arg_3) ;;;
      act (Store_d t 3 arg_4) ;;;
      act (Store_d t 4 arg_5) ;;;
      act (Store_d t 5 arg_6) ;;;
      act (Store_d t 6 arg_7) ;;;
      act (Store_d t 7 arg_8) ;;;
      act (Store_d t 8 arg_9) ;;;
      act (Store_d t 9 arg_10) ;;;
      act (Store_d t 10 arg_11) ;;;
      lace_run_together t;
     NAME_RUN := fun arg_1 arg_2 arg_3 arg_4 arg_5 arg_6 arg_7 arg_8 arg_9 arg_10 arg_11 =>
      t <- act Alloc_task ;;
      act (Store_f t NAME) ;;;
      act (Store_thief t THIEF_TASK) ;;;
      act (Store_d t 0 arg_1) ;;;
      act (Store_d t 1 arg_2) ;;;
      act (Store_d t 2 arg_3) ;;;
      act (Store_d t 3 arg_4) ;;;
      act (Store_d t 4 arg_5) ;;;
      act (Store_d t 5 arg_6) ;;;
      act (Store_d t 6 arg_7) ;;;
      act (Store_d t 7 arg_8) ;;;
      act (Store_d t 8 arg_9) ;;;
      act (Store_d t 9 arg_10) ;;;
      act (Store_d t 10 arg_11) ;;;
      lace_run_task t ;;;
      Ret (VZ 0);
     NAME_RUNEX := fun arg_1 arg_2 arg_3 arg_4 arg_5 arg_6 arg_7 arg_8 arg_9 arg_10 arg_11 =>
      t <- act Alloc_task ;;
      act (Store_f t NAME) ;;;
      act (Store_thief t THIEF_TASK) ;;;
      act (Store_d t 0 arg_1) ;;;
      act (Store_d t 1 arg_2) ;;;
      act (Store_d t 2 arg_3) ;;;
      act (Store_d t 3 arg_4) ;;;
      act (Store_d t 4 arg_5) ;;;
      act (Store_d t 5 arg_6) ;;;
      act (Store_d t 6 arg_7) ;;;
      act (Store_d t 7 arg_8) ;;;
      act (Store_d t 8 arg_9) ;;;
      act (Store_d t 9 arg_10) ;;;
      act (Store_d t 10 arg_11) ;;;
      lace_run_task_exclusive t ;;;
      Ret (VZ 0);
     NAME_SYNC := fun w dq_head =>
      ms <- act (Load_movesplit w) ;;
      if ms =? 0 then
        p <- act (Load_priv w) ;;
        if p_split p <=? dq_head then
          let t := TSlot w dq_head in
          act (Store_thief t THIEF_EMPTY) ;;;
          arg_1 <- act (Load_d t 0) ;;
          arg_2 <- act (Load_d t 1) ;;
          arg_3 <- act (Load_d t 2) ;;
          arg_4 <- act (Load_d t 3) ;;
          arg_5 <- act (Load_d t 4) ;;
          arg_6 <- act (Load_d t 5) ;;
          arg_7 <- act (Load_d t 6) ;;
          arg_8 <- act (Load_d t 7) ;;
          arg_9 <- act (Load_d t 8) ;;
          arg_10 <- act (Load_d t 9) ;;
          arg_11 <- act (Load_d t 10) ;;
          call (Fn_CALL NAME w dq_head [arg_1; arg_2; arg_3; arg_4; arg_5; arg_6; arg_7; arg_8; arg_9; arg_10; arg_11])
        else NAME_SYNC_SLOW w dq_head
      else NAME_SYNC_SLOW w dq_head |}.

Definition VOID_TASK_IMPL_11 (NAME : fid) (NAME_WORK : nat -> Z -> args_fun 11 (lcode unit)) : task_impl 11 :=
  {| NAME_WRAP := fun w dq_head t =>
      arg_1 <- act (Load_d t 0) ;;
      arg_2 <- act (Load_d t 1) ;;
      arg_3 <- act (Load_d t 2) ;;
      arg_4 <- act (Load_d t 3) ;;
      arg_5 <- act (Load_d t 4) ;;
      arg_6 <- act (Load_d t 5) ;;
      arg_7 <- act (Load_d t 6) ;;
      arg_8 <- act (Load_d t 7) ;;
      arg_9 <- act (Load_d t 8) ;;
      arg_10 <- act (Load_d t 9) ;;
      arg_11 <- act (Load_d t 10) ;;
      call (Fn_CALL NAME w dq_head [arg_1; arg_2; arg_3; arg_4; arg_5; arg_6; arg_7; arg_8; arg_9; arg_10; arg_11]) ;;;
      Ret (VZ 0);
     NAME_CALL := fun w dq_head arg_1 arg_2 arg_3 arg_4 arg_5 arg_6 arg_7 arg_8 arg_9 arg_10 arg_11 =>
      NAME_WORK w dq_head arg_1 arg_2 arg_3 arg_4 arg_5 arg_6 arg_7 arg_8 arg_9 arg_10 arg_11 ;;;
      Ret (VZ 0) |}.

(** ** Tasks with 12 arguments *)

Definition TASK_DECL_12 (NAME : fid) : task_decl 12 :=
  let NAME_SYNC_SLOW := fun (w : nat) (dq_head : Z) =>
    let t := TSlot w dq_head in
    p <- act (Load_priv w) ;;
    leap <- (if negb (p_allstolen p =? 0) then Ret true
             else if p_split p >? dq_head then r <- lace_shrink_shared w ;; Ret (negb (r =? 0))
             else Ret false) ;;
    if (leap : bool) then
      lace_leapfrog w dq_head ;;;
      act (Load_d t 0)
    else
      ms <- act (Load_movesplit w) ;;
      when (negb (ms =? 0)) (
        p <- act (Load_priv w) ;;
        let t := p_split p in
        let diff := u64 (dq_head - t) in
        let diff := u64 (diff + 1) / 2 in
        act (Store_p_split w (t + diff)) ;;;
        act (Fetch_add_split w diff) ;;;
        act (Store_movesplit w 0)) ;;;
      act (Store_thief t THIEF_EMPTY) ;;;
      arg_1 <- act (Load_d t 0) ;;
      arg_2 <- act (Load_d t 1) ;;
      arg_3 <- act (Load_d t 2) ;;
      arg_4 <- act (Load_d t 3) ;;
      arg_5 <- act (Load_d t 4) ;;
      arg_6 <- act (Load_d t 5) ;;
      arg_7 <- act (Load_d t 6) ;;
      arg_8 <- act (Load_d t 7) ;;
      arg_9 <- act (Load_d t 8) ;;
      arg_10 <- act (Load_d t 9) ;;
      arg_11 <- act (Load_d t 10) ;;
      arg_12 <- act (Load_d t 11) ;;
      call (Fn_CALL NAME w dq_head [arg_1; arg_2; arg_3; arg_4; arg_5; arg_6; arg_7; arg_8; arg_9; arg_10; arg_11; arg_12]) in
  {| NAME_SPAWN := fun w dq_head arg_1 arg_2 arg_3 arg_4 arg_5 arg_6 arg_7 arg_8 arg_9 arg_10 arg_11 arg_12 =>
      when (dq_head =? dqsize) lace_abort_stack_overflow ;;;
      let t := TSlot w dq_head in
      act (Store_f t NAME) ;;;
      act (Store_thief t THIEF_TASK) ;;;
      act (Store_d t 0 arg_1) ;;;
      act (Store_d t 1 arg_2) ;;;
      act (Store_d t 2 arg_3) ;;;
      act (Store_d t 3 arg_4) ;;;
      act (Store_d t 4 arg_5) ;;;
      act (Store_d t 5 arg_6) ;;;
      act (Store_d t 6 arg_7) ;;;
      act (Store_d t 7 arg_8) ;;;
      act (Store_d t 8 arg_9) ;;;
      act (Store_d t 9 arg_10) ;;;
      act (Store_d t 10 arg_11) ;;;
      act (Store_d t 11 arg_12) ;;;
      p <- act (Load_priv w) ;;
      if negb (p_allstolen p =? 0) then
        ms <- act (Load_movesplit w) ;;
        when (negb (ms =? 0)) (act (Store_movesplit w 0)) ;;;
        let head := u32 dq_head in
        act (Store_ts w (mkTS head (u32 (head + 1)))) ;;;
        act (Store_allstolen w 0) ;;;
        act (Store_p_split w (dq_head + 1)) ;;;
        act (Store_p_allstolen w 0)
      else
        ms <- act (Load_movesplit w) ;;
        when (negb (ms =? 0)) (
          let head := u32 dq_head in
          let split := u32 (p_split p) in
          let newsplit := u32 (split + head + 2) / 2 in
          act (Store_split w newsplit) ;;;
          act (Store_p_split w newsplit) ;;;
          act (Store_movesplit w 0));
     NAME_NEWFRAME := fun arg_1 arg_2 arg_3 arg_4 arg_5 arg_6 arg_7 arg_8 arg_9 arg_10 arg_11 arg_12 =>
      t <- act Alloc_task ;;
      act (Store_f t NAME) ;;;
      act (Store_thief t THIEF_TASK) ;;;
      act (Store_d t 0 arg_1) ;;;
      act (Store_d t 1 arg_2) ;;;
      act (Store_d t 2 arg_3) ;;;
      act (Store_d t 3 arg_4) ;;;
      act (Store_d t 4 arg_5) ;;;
      act (Store_d t 5 arg_6) ;;;
      act (Store_d t 6 arg_7) ;;;
      act (Store_d t 7 arg_8) ;;;
      act (Store_d t 8 arg_9) ;;;
      act (Store_d t 9 arg_10) ;;;
      act (Store_d t 10 arg_11) ;;;
      act (Store_d t 11 arg_12) ;;;
      lace_run_newframe t ;;;
      act (Load_d t 0);
     NAME_TOGETHER := fun arg_1 arg_2 arg_3 arg_4 arg_5 arg_6 arg_7 arg_8 arg_9 arg_10 arg_11 arg_12 =>
      t <- act Alloc_task ;;
      act (Store_f t NAME) ;;;
      act (Store_thief t THIEF_TASK) ;;;
      act (Store_d t 0 arg_1) ;;;
      act (Store_d t 1 arg_2) ;;;
      act (Store_d t 2 arg_3) ;;;
      act (Store_d t 3 arg_4) ;;;
      act (Store_d t 4 arg_5) ;;;
      act (Store_d t 5 arg_6) ;;;
      act (Store_d t 6 arg_7) ;;;
      act (Store_d t 7 arg_8) ;;;
      act (Store_d t 8 arg_9) ;;;
      act (Store_d t 9 arg_10) ;;;
      act (Store_d t 10 arg_11) ;;;
      act (Store_d t 11 arg_12) ;;;
      lace_run_together t;
     NAME_RUN := fun arg_1 arg_2 arg_3 arg_4 arg_5 arg_6 arg_7 arg_8 arg_9 arg_10 arg_11 arg_12 =>
      t <- act Alloc_task ;;
      act (Store_f t NAME) ;;;
      act (Store_thief t THIEF_TASK) ;;;
      act (Store_d t 0 arg_1) ;;;
      act (Store_d t 1 arg_2) ;;;
      act (Store_d t 2 arg_3) ;;;
      act (Store_d t 3 arg_4) ;;;
      act (Store_d t 4 arg_5) ;;;
      act (Store_d t 5 arg_6) ;;;
      act (Store_d t 6 arg_7) ;;;
      act (Store_d t 7 arg_8) ;;;
      act (Store_d t 8 arg_9) ;;;
      act (Store_d t 9 arg_10) ;;;
      act (Store_d t 10 arg_11) ;;;
      act (Store_d t 11 arg_12) ;;;
      lace_run_task t ;;;
      act (Load_d t 0);
     NAME_RUNEX := fun arg_1 arg_2 arg_3 arg_4 arg_5 arg_6 arg_7 arg_8 arg_9 arg_10 arg_11 arg_12 =>
      t <- act Alloc_task ;;
      act (Store_f t NAME) ;;;
      act (Store_thief t THIEF_TASK) ;;;
      act (Store_d t 0 arg_1) ;;;
      act (Store_d t 1 arg_2) ;;;
      act (Store_d t 2 arg_3) ;;;
      act (Store_d t 3 arg_4) ;;;
      act (Store_d t 4 arg_5) ;;;
      act (Store_d t 5 arg_6) ;;;
      act (Store_d t 6 arg_7) ;;;
      act (Store_d t 7 arg_8) ;;;
      act (Store_d t 8 arg_9) ;;;
      act (Store_d t 9 arg_10) ;;;
      act (Store_d t 10 arg_11) ;;;
      act (Store_d t 11 arg_12) ;;;
      lace_run_task_exclusive t ;;;
      act (Load_d t 0);
     NAME_SYNC := fun w dq_head =>
      ms <- act (Load_movesplit w) ;;
      if ms =? 0 then
        p <- act (Load_priv w) ;;
        if p_split p <=? dq_head then
          let t := TSlot w dq_head in
          act (Store_thief t THIEF_EMPTY) ;;;
          arg_1 <- act (Load_d t 0) ;;
          arg_2 <- act (Load_d t 1) ;;
          arg_3 <- act (Load_d t 2) ;;
          arg_4 <- act (Load_d t 3) ;;
          arg_5 <- act (Load_d t 4) ;;
          arg_6 <- act (Load_d t 5) ;;
          arg_7 <- act (Load_d t 6) ;;
          arg_8 <- act (Load_d t 7) ;;
          arg_9 <- act (Load_d t 8) ;;
          arg_10 <- act (Load_d t 9) ;;
          arg_11 <- act (Load_d t 10) ;;
          arg_12 <- act (Load_d t 11) ;;
          call (Fn_CALL NAME w dq_head [arg_1; arg_2; arg_3; arg_4; arg_5; arg_6; arg_7; arg_8; arg_9; arg_10; arg_11; arg_12])
        else NAME_SYNC_SLOW w dq_head
      else NAME_SYNC_SLOW w dq_head |}.

Definition TASK_IMPL_12 (NAME : fid) (NAME_WORK : nat -> Z -> args_fun 12 (lcode val)) : task_impl 12 :=
  {| NAME_WRAP := fun w dq_head t =>
      arg_1 <- act (Load_d t 0) ;;
      arg_2 <- act (Load_d t 1) ;;
      arg_3 <- act (Load_d t 2) ;;
      arg_4 <- act (Load_d t 3) ;;
      arg_5 <- act (Load_d t 4) ;;
      arg_6 <- act (Load_d t 5) ;;
      arg_7 <- act (Load_d t 6) ;;
      arg_8 <- act (Load_d t 7) ;;
      arg_9 <- act (Load_d t 8) ;;
      arg_10 <- act (Load_d t 9) ;;
      arg_11 <- act (Load_d t 10) ;;
      arg_12 <- act (Load_d t 11) ;;
      res <- call (Fn_CALL NAME w dq_head [arg_1; arg_2; arg_3; arg_4; arg_5; arg_6; arg_7; arg_8; arg_9; arg_10; arg_11; arg_12]) ;;
      act (Store_d t 0 res) ;;;
      Ret (VZ 0);
     NAME_CALL := fun w dq_head arg_1 arg_2 arg_3 arg_4 arg_5 arg_6 arg_7 arg_8 arg_9 arg_10 arg_11 arg_12 =>
      NAME_WORK w dq_head arg_1 arg_2 arg_3 arg_4 arg_5 arg_6 arg_7 arg_8 arg_9 arg_10 arg_11 arg_12 |}.

Definition VOID_TASK_DECL_12 (NAME : fid) : task_decl 12 :=
  let NAME_SYNC_SLOW := fun (w : nat) (dq_head : Z) =>
    let t := TSlot w dq_head in
    p <- act (Load_priv w) ;;
    leap <- (if negb (p_allstolen p =? 0) then Ret true
             else if p_split p >? dq_head then r <- lace_shrink_shared w ;; Ret (negb (r =? 0))
             else Ret false) ;;
    if (leap : bool) then
      lace_leapfrog w dq_head ;;;
      Ret (VZ 0)
    else
      ms <- act (Load_movesplit w) ;;
      when (negb (ms =? 0)) (
        p <- act (Load_priv w) ;;
        let t := p_split p in
        let diff := u64 (dq_head - t) in
        let diff := u64 (diff + 1) / 2 in
        act (Store_p_split w (t + diff)) ;;;
        act (Fetch_add_split w diff) ;;;
        act (Store_movesplit w 0)) ;;;
      act (Store_thief t THIEF_EMPTY) ;;;
      arg_1 <- act (Load_d t 0) ;;
      arg_2 <- act (Load_d t 1) ;;
      arg_3 <- act (Load_d t 2) ;;
      arg_4 <- act (Load_d t 3) ;;
      arg_5 <- act (Load_d t 4) ;;
      arg_6 <- act (Load_d t 5) ;;
      arg_7 <- act (Load_d t 6) ;;
      arg_8 <- act (Load_d t 7) ;;
      arg_9 <- act (Load_d t 8) ;;
      arg_10 <- act (Load_d t 9) ;;
      arg_11 <- act (Load_d t 10) ;;
      arg_12 <- act (Load_d t 11) ;;
      call (Fn_CALL NAME w dq_head [arg_1; arg_2; arg_3; arg_4; arg_5; arg_6; arg_7; arg_8; arg_9; arg_10; arg_11; arg_12]) in
  {| NAME_SPAWN := fun w dq_head arg_1 arg_2 arg_3 arg_4 arg_5 arg_6 arg_7 arg_8 arg_9 arg_10 arg_11 arg_12 =>
      when (dq_head =? dqsize) lace_abort_stack_overflow ;;;
      let t := TSlot w dq_head in
      act (Store_f t NAME) ;;;
      act (Store_thief t THIEF_TASK) ;;;
      act (Store_d t 0 arg_1) ;;;
      act (Store_d t 1 arg_2) ;;;
      act (Store_d t 2 arg_3) ;;;
      act (Store_d t 3 arg_4) ;;;
      act (Store_d t 4 arg_5) ;;;
      act (Store_d t 5 arg_6) ;;;
      act (Store_d t 6 arg_7) ;;;
      act (Store_d t 7 arg_8) ;;;
      act (Store_d t 8 arg_9) ;;;
      act (Store_d t 9 arg_10) ;;;
      act (Store_d t 10 arg_11) ;;;
      act (Store_d t 11 arg_12) ;;;
      p <- act (Load_priv w) ;;
      if negb (p_allstolen p =? 0) then
        ms <- act (Load_movesplit w) ;;
        when (negb (ms =? 0)) (act (Store_movesplit w 0)) ;;;
        let head := u32 dq_head in
        act (Store_ts w (mkTS head (u32 (head + 1)))) ;;;
        act (Store_allstolen w 0) ;;;
        act (Store_p_split w (dq_head + 1)) ;;;
        act (Store_p_allstolen w 0)
      else
        ms <- act (Load_movesplit w) ;;
        when (negb (ms =? 0)) (
          let head := u32 dq_head in
          let split := u32 (p_split p) in
          let newsplit := u32 (split + head + 2) / 2 in
          act (Store_split w newsplit) ;;;
          act (Store_p_split w newsplit) ;;;
          act (Store_movesplit w 0));
     NAME_NEWFRAME := fun arg_1 arg_2 arg_3 arg_4 arg_5 arg_6 arg_7 arg_8 arg_9 arg_10 arg_11 arg_12 =>
      t <- act Alloc_task ;;
      act (Store_f t NAME) ;;;
      act (Store_thief t THIEF_TASK) ;;;
      act (Store_d t 0 arg_1) ;;;
      act (Store_d t 1 arg_2) ;;;
      act (Store_d t 2 arg_3) ;;;
      act (Store_d t 3 arg_4) ;;;
      act (Store_d t 4 arg_5) ;;;
      act (Store_d t 5 arg_6) ;;;
      act (Store_d t 6 arg_7) ;;;
      act (Store_d t 7 arg_8) ;;;
      act (Store_d t 8 arg_9) ;;;
      act (Store_d t 9 arg_10) ;;;
      act (Store_d t 10 arg_11) ;;;
      act (Store_d t 11 arg_12) ;;;
      lace_run_newframe t ;;;
      Ret (VZ 0);
     NAME_TOGETHER := fun arg_1 arg_2 arg_3 arg_4 arg_5 arg_6 arg_7 arg_8 arg_9 arg_10 arg_11 arg_12 =>
      t <- act Alloc_task ;;
      act (Store_f t NAME) ;;;
      act (Store_thief t THIEF_TASK) ;;;
      act (Store_d t 0 arg_1) ;;;
      act (Store_d t 1 arg_2) ;;;
      act (Store_d t 2 arg_3) ;;;
      act (Store_d t 3 arg_4) ;;;
      act (Store_d t 4 arg_5) ;;;
      act (Store_d t 5 arg_6) ;;;
      act (Store_d t 6 arg_7) ;;;
      act (Store_d t 7 arg_8) ;;;
      act (Store_d t 8 arg_9) ;;;
      act (Store_d t 9 arg_10) ;;;
      act (Store_d t 10 arg_11) ;;;
      act (Store_d t 11 arg_12) ;;;
      lace_run_together t;
     NAME_RUN := fun arg_1 arg_2 arg_3 arg_4 arg_5 arg_6 arg_7 arg_8 arg_9 arg_10 arg_11 arg_12 =>
      t <- act Alloc_task ;;
      act (Store_f t NAME) ;;;
      act (Store_thief t THIEF_TASK) ;;;
      act (Store_d t 0 arg_1) ;;;
      act (Store_d t 1 arg_2) ;;;
      act (Store_d t 2 arg_3) ;;;
      act (Store_d t 3 arg_4) ;;;
      act (Store_d t 4 arg_5) ;;;
      act (Store_d t 5 arg_6) ;;;
      act (Store_d t 6 arg_7) ;;;
      act (Store_d t 7 arg_8) ;;;
      act (Store_d t 8 arg_9) ;;;
      act (Store_d t 9 arg_10) ;;;
      act (Store_d t 10 arg_11) ;;;
      act (Store_d t 11 arg_12) ;;;
      lace_run_task t ;;;
      Ret (VZ 0);
     NAME_RUNEX := fun arg_1 arg_2 arg_3 arg_4 arg_5 arg_6 arg_7 arg_8 arg_9 arg_10 arg_11 arg_12 =>
      t <- act Alloc_task ;;
      act (Store_f t NAME) ;;;
      act (Store_thief t THIEF_TASK) ;;;
      act (Store_d t 0 arg_1) ;;;
      act (Store_d t 1 arg_2) ;;;
      act (Store_d t 2 arg_3) ;;;
      act (Store_d t 3 arg_4) ;;;
      act (Store_d t 4 arg_5) ;;;
      act (Store_d t 5 arg_6) ;;;
      act (Store_d t 6 arg_7) ;;;
      act (Store_d t 7 arg_8) ;;;
      act (Store_d t 8 arg_9) ;;;
      act (Store_d t 9 arg_10) ;;;
      act (Store_d t 10 arg_11) ;;;
      act (Store_d t 11 arg_12) ;;;
      lace_run_task_exclusive t ;;;
      Ret (VZ 0);
     NAME_SYNC := fun w dq_head =>
      ms <- act (Load_movesplit w) ;;
      if ms =? 0 then
        p <- act (Load_priv w) ;;
        if p_split p <=? dq_head then
          let t := TSlot w dq_head in
          act (Store_thief t THIEF_EMPTY) ;;;
          arg_1 <- act (Load_d t 0) ;;
          arg_2 <- act (Load_d t 1) ;;
          arg_3 <- act (Load_d t 2) ;;
          arg_4 <- act (Load_d t 3) ;;
          arg_5 <- act (Load_d t 4) ;;
          arg_6 <- act (Load_d t 5) ;;
          arg_7 <- act (Load_d t 6) ;;
          arg_8 <- act (Load_d t 7) ;;
          arg_9 <- act (Load_d t 8) ;;
          arg_10 <- act (Load_d t 9) ;;
          arg_11 <- act (Load_d t 10) ;;
          arg_12 <- act (Load_d t 11) ;;
          call (Fn_CALL NAME w dq_head [arg_1; arg_2; arg_3; arg_4; arg_5; arg_6; arg_7; arg_8; arg_9; arg_10; arg_11; arg_12])
        else NAME_SYNC_SLOW w dq_head
      else NAME_SYNC_SLOW w dq_head |}.

Definition VOID_TASK_IMPL_12 (NAME : fid) (NAME_WORK : nat -> Z -> args_fun 12 (lcode unit)) : task_impl 12 :=
  {| NAME_WRAP := fun w dq_head t =>
      arg_1 <- act (Load_d t 0) ;;
      arg_2 <- act (Load_d t 1) ;;
      arg_3 <- act (Load_d t 2) ;;
      arg_4 <- act (Load_d t 3) ;;
      arg_5 <- act (Load_d t 4) ;;
      arg_6 <- act (Load_d t 5) ;;
      arg_7 <- act (Load_d t 6) ;;
      arg_8 <- act (Load_d t 7) ;;
      arg_9 <- act (Load_d t 8) ;;
      arg_10 <- act (Load_d t 9) ;;
      arg_11 <- act (Load_d t 10) ;;
      arg_12 <- act (Load_d t 11) ;;
      call (Fn_CALL NAME w dq_head [arg_1; arg_2; arg_3; arg_4; arg_5; arg_6; arg_7; arg_8; arg_9; arg_10; arg_11; arg_12]) ;;;
      Ret (VZ 0);
     NAME_CALL := fun w dq_head arg_1 arg_2 arg_3 arg_4 arg_5 arg_6 arg_7 arg_8 arg_9 arg_10 arg_11 arg_12 =>
      NAME_WORK w dq_head arg_1 arg_2 arg_3 arg_4 arg_5 arg_6 arg_7 arg_8 arg_9 arg_10 arg_11 arg_12 ;;;
      Ret (VZ 0) |}.

(** ** Tasks with 13 arguments *)

Definition TASK_DECL_13 (NAME : fid) : task_decl 13 :=
  let NAME_SYNC_SLOW := fun (w : nat) (dq_head : Z) =>
    let t := TSlot w dq_head in
    p <- act (Load_priv w) ;;
    leap <- (if negb (p_allstolen p =? 0) then Ret true
             else if p_split p >? dq_head then r <- lace_shrink_shared w ;; Ret (negb (r =? 0))
             else Ret false) ;;
    if (leap : bool) then
      lace_leapfrog w dq_head ;;;
      act (Load_d t 0)
    else
      ms <- act (Load_movesplit w) ;;
      when (negb (ms =? 0)) (
        p <- act (Load_priv w) ;;
        let t := p_split p in
        let diff := u64 (dq_head - t) in
        let diff := u64 (diff + 1) / 2 in
        act (Store_p_split w (t + diff)) ;;;
        act (Fetch_add_split w diff) ;;;
        act (Store_movesplit w 0)) ;;;
      act (Store_thief t THIEF_EMPTY) ;;;
      arg_1 <- act (Load_d t 0) ;;
      arg_2 <- act (Load_d t 1) ;;
      arg_3 <- act (Load_d t 2) ;;
      arg_4 <- act (Load_d t 3) ;;
      arg_5 <- act (Load_d t 4) ;;
      arg_6 <- act (Load_d t 5) ;;
      arg_7 <- act (Load_d t 6) ;;
      arg_8 <- act (Load_d t 7) ;;
      arg_9 <- act (Load_d t 8) ;;
      arg_10 <- act (Load_d t 9) ;;
      arg_11 <- act (Load_d t 10) ;;
      arg_12 <- act (Load_d t 11) ;;
      arg_13 <- act (Load_d t 12) ;;
      call (Fn_CALL NAME w dq_head [arg_1; arg_2; arg_3; arg_4; arg_5; arg_6; arg_7; arg_8; arg_9; arg_10; arg_11; arg_12; arg_13]) in
  {| NAME_SPAWN := fun w dq_head arg_1 arg_2 arg_3 arg_4 arg_5 arg_6 arg_7 arg_8 arg_9 arg_10 arg_11 arg_12 arg_13 =>
      when (dq_head =? dqsize) lace_abort_stack_overflow ;;;
      let t := TSlot w dq_head in
      act (Store_f t NAME) ;;;
      act (Store_thief t THIEF_TASK) ;;;
      act (Store_d t 0 arg_1) ;;;
      act (Store_d t 1 arg_2) ;;;
      act (Store_d t 2 arg_3) ;;;
      act (Store_d t 3 arg_4) ;;;
      act (Store_d t 4 arg_5) ;;;
      act (Store_d t 5 arg_6) ;;;
      act (Store_d t 6 arg_7) ;;;
      act (Store_d t 7 arg_8) ;;;
      act (Store_d t 8 arg_9) ;;;
      act (Store_d t 9 arg_10) ;;;
      act (Store_d t 10 arg_11) ;;;
      act (Store_d t 11 arg_12) ;;;
      act (Store_d t 12 arg_13) ;;;
      p <- act (Load_priv w) ;;
      if negb (p_allstolen p =? 0) then
        ms <- act (Load_movesplit w) ;;
        when (negb (ms =? 0)) (act (Store_movesplit w 0)) ;;;
        let head := u32 dq_head in
        act (Store_ts w (mkTS head (u32 (head + 1)))) ;;;
        act (Store_allstolen w 0) ;;;
        act (Store_p_split w (dq_head + 1)) ;;;
        act (Store_p_allstolen w 0)
      else
        ms <- act (Load_movesplit w) ;;
        when (negb (ms =? 0)) (
          let head := u32 dq_head in
          let split := u32 (p_split p) in
          let newsplit := u32 (split + head + 2) / 2 in
          act (Store_split w newsplit) ;;;
          act (Store_p_split w newsplit) ;;;
          act (Store_movesplit w 0));
     NAME_NEWFRAME := fun arg_1 arg_2 arg_3 arg_4 arg_5 arg_6 arg_7 arg_8 arg_9 arg_10 arg_11 arg_12 arg_13 =>
      t <- act Alloc_task ;;
      act (Store_f t NAME) ;;;
      act (Store_thief t THIEF_TASK) ;;;
      act (Store_d t 0 arg_1) ;;;
      act (Store_d t 1 arg_2) ;;;
      act (Store_d t 2 arg_3) ;;;
      act (Store_d t 3 arg_4) ;;;
      act (Store_d t 4 arg_5) ;;;
      act (Store_d t 5 arg_6) ;;;
      act (Store_d t 6 arg_7) ;;;
      act (Store_d t 7 arg_8) ;;;
      act (Store_d t 8 arg_9) ;;;
      act (Store_d t 9 arg_10) ;;;
      act (Store_d t 10 arg_11) ;;;
      act (Store_d t 11 arg_12) ;;;
      act (Store_d t 12 arg_13) ;;;
      lace_run_newframe t ;;;
      act (Load_d t 0);
     NAME_TOGETHER := fun arg_1 arg_2 arg_3 arg_4 arg_5 arg_6 arg_7 arg_8 arg_9 arg_10 arg_11 arg_12 arg_13 =>
      t <- act Alloc_task ;;
      act (Store_f t NAME) ;;;
      act (Store_thief t THIEF_TASK) ;;;
      act (Store_d t 0 arg_1) ;;;
      act (Store_d t 1 arg_2) ;;;
      act (Store_d t 2 arg_3) ;;;
      act (Store_d t 3 arg_4) ;;;
      act (Store_d t 4 arg_5) ;;;
      act (Store_d t 5 arg_6) ;;;
      act (Store_d t 6 arg_7) ;;;
      act (Store_d t 7 arg_8) ;;;
      act (Store_d t 8 arg_9) ;;;
      act (Store_d t 9 arg_10) ;;;
      act (Store_d t 10 arg_11) ;;;
      act (Store_d t 11 arg_12) ;;;
      act (Store_d t 12 arg_13) ;;;
      lace_run_together t;
     NAME_RUN := fun arg_1 arg_2 arg_3 arg_4 arg_5 arg_6 arg_7 arg_8 arg_9 arg_10 arg_11 arg_12 arg_13 =>
      t <- act Alloc_task ;;
      act (Store_f t NAME) ;;;
      act (Store_thief t THIEF_TASK) ;;;
      act (Store_d t 0 arg_1) ;;;
      act (Store_d t 1 arg_2) ;;;
      act (Store_d t 2 arg_3) ;;;
      act (Store_d t 3 arg_4) ;;;
      act (Store_d t 4 arg_5) ;;;
      act (Store_d t 5 arg_6) ;;;
      act (Store_d t 6 arg_7) ;;;
      act (Store_d t 7 arg_8) ;;;
      act (Store_d t 8 arg_9) ;;;
      act (Store_d t 9 arg_10) ;;;
      act (Store_d t 10 arg_11) ;;;
      act (Store_d t 11 arg_12) ;;;
      act (Store_d t 12 arg_13) ;;;
      lace_run_task t ;;;
      act (Load_d t 0);
     NAME_RUNEX := fun arg_1 arg_2 arg_3 arg_4 arg_5 arg_6 arg_7 arg_8 arg_9 arg_10 arg_11 arg_12 arg_13 =>
      t <- act Alloc_task ;;
      act (Store_f t NAME) ;;;
      act (Store_thief t THIEF_TASK) ;;;
      act (Store_d t 0 arg_1) ;;;
      act (Store_d t 1 arg_2) ;;;
      act (Store_d t 2 arg_3) ;;;
      act (Store_d t 3 arg_4) ;;;
      act (Store_d t 4 arg_5) ;;;
      act (Store_d t 5 arg_6) ;;;
      act (Store_d t 6 arg_7) ;;;
      act (Store_d t 7 arg_8) ;;;
      act (Store_d t 8 arg_9) ;;;
      act (Store_d t 9 arg_10) ;;;
      act (Store_d t 10 arg_11) ;;;
      act (Store_d t 11 arg_12) ;;;
      act (Store_d t 12 arg_13) ;;;
      lace_run_task_exclusive t ;;;
      act (Load_d t 0);
     NAME_SYNC := fun w dq_head =>
      ms <- act (Load_movesplit w) ;;
      if ms =? 0 then
        p <- act (Load_priv w) ;;
        if p_split p <=? dq_head then
          let t := TSlot w dq_head in
          act (Store_thief t THIEF_EMPTY) ;;;
          arg_1 <- act (Load_d t 0) ;;
          arg_2 <- act (Load_d t 1) ;;
          arg_3 <- act (Load_d t 2) ;;
          arg_4 <- act (Load_d t 3) ;;
          arg_5 <- act (Load_d t 4) ;;
          arg_6 <- act (Load_d t 5) ;;
          arg_7 <- act (Load_d t 6) ;;
          arg_8 <- act (Load_d t 7) ;;
          arg_9 <- act (Load_d t 8) ;;
          arg_10 <- act (Load_d t 9) ;;
          arg_11 <- act (Load_d t 10) ;;
          arg_12 <- act (Load_d t 11) ;;
          arg_13 <- act (Load_d t 12) ;;
          call (Fn_CALL NAME w dq_head [arg_1; arg_2; arg_3; arg_4; arg_5; arg_6; arg_7; arg_8; arg_9; arg_10; arg_11; arg_12; arg_13])
        else NAME_SYNC_SLOW w dq_head
      else NAME_SYNC_SLOW w dq_head |}.

Definition TASK_IMPL_13 (NAME : fid) (NAME_WORK : nat -> Z -> args_fun 13 (lcode val)) : task_impl 13 :=
  {| NAME_WRAP := fun w dq_head t =>
      arg_1 <- act (Load_d t 0) ;;
      arg_2 <- act (Load_d t 1) ;;
      arg_3 <- act (Load_d t 2) ;;
      arg_4 <- act (Load_d t 3) ;;
      arg_5 <- act (Load_d t 4) ;;
      arg_6 <- act (Load_d t 5) ;;
      arg_7 <- act (Load_d t 6) ;;
      arg_8 <- act (Load_d t 7) ;;
      arg_9 <- act (Load_d t 8) ;;
      arg_10 <- act (Load_d t 9) ;;
      arg_11 <- act (Load_d t 10) ;;
      arg_12 <- act (Load_d t 11) ;;
      arg_13 <- act (Load_d t 12) ;;
      res <- call (Fn_CALL NAME w dq_head [arg_1; arg_2; arg_3; arg_4; arg_5; arg_6; arg_7; arg_8; arg_9; arg_10; arg_11; arg_12; arg_13]) ;;
      act (Store_d t 0 res) ;;;
      Ret (VZ 0);
     NAME_CALL := fun w dq_head arg_1 arg_2 arg_3 arg_4 arg_5 arg_6 arg_7 arg_8 arg_9 arg_10 arg_11 arg_12 arg_13 =>
      NAME_WORK w dq_head arg_1 arg_2 arg_3 arg_4 arg_5 arg_6 arg_7 arg_8 arg_9 arg_10 arg_11 arg_12 arg_13 |}.

Definition VOID_TASK_DECL_13 (NAME : fid) : task_decl 13 :=
  let NAME_SYNC_SLOW := fun (w : nat) (dq_head : Z) =>
    let t := TSlot w dq_head in
    p <- act (Load_priv w) ;;
    leap <- (if negb (p_allstolen p =? 0) then Ret true
             else if p_split p >? dq_head then r <- lace_shrink_shared w ;; Ret (negb (r =? 0))
             else Ret false) ;;
    if (leap : bool) then
      lace_leapfrog w dq_head ;;;
      Ret (VZ 0)
    else
      ms <- act (Load_movesplit w) ;;
      when (negb (ms =? 0)) (
        p <- act (Load_priv w) ;;
        let t := p_split p in
        let diff := u64 (dq_head - t) in
        let diff := u64 (diff + 1) / 2 in
        act (Store_p_split w (t + diff)) ;;;
        act (Fetch_add_split w diff) ;;;
        act (Store_movesplit w 0)) ;;;
      act (Store_thief t THIEF_EMPTY) ;;;
      arg_1 <- act (Load_d t 0) ;;
      arg_2 <- act (Load_d t 1) ;;
      arg_3 <- act (Load_d t 2) ;;
      arg_4 <- act (Load_d t 3) ;;
      arg_5 <- act (Load_d t 4) ;;
      arg_6 <- act (Load_d t 5) ;;
      arg_7 <- act (Load_d t 6) ;;
      arg_8 <- act (Load_d t 7) ;;
      arg_9 <- act (Load_d t 8) ;;
      arg_10 <- act (Load_d t 9) ;;
      arg_11 <- act (Load_d t 10) ;;
      arg_12 <- act (Load_d t 11) ;;
      arg_13 <- act (Load_d t 12) ;;
      call (Fn_CALL NAME w dq_head [arg_1; arg_2; arg_3; arg_4; arg_5; arg_6; arg_7; arg_8; arg_9; arg_10; arg_11; arg_12; arg_13]) in
  {| NAME_SPAWN := fun w dq_head arg_1 arg_2 arg_3 arg_4 arg_5 arg_6 arg_7 arg_8 arg_9 arg_10 arg_11 arg_12 arg_13 =>
      when (dq_head =? dqsize) lace_abort_stack_overflow ;;;
      let t := TSlot w dq_head in
      act (Store_f t NAME) ;;;
      act (Store_thief t THIEF_TASK) ;;;
      act (Store_d t 0 arg_1) ;;;
      act (Store_d t 1 arg_2) ;;;
      act (Store_d t 2 arg_3) ;;;
      act (Store_d t 3 arg_4) ;;;
      act (Store_d t 4 arg_5) ;;;
      act (Store_d t 5 arg_6) ;;;
      act (Store_d t 6 arg_7) ;;;
      act (Store_d t 7 arg_8) ;;;
      act (Store_d t 8 arg_9) ;;;
      act (Store_d t 9 arg_10) ;;;
      act (Store_d t 10 arg_11) ;;;
      act (Store_d t 11 arg_12) ;;;
      act (Store_d t 12 arg_13) ;;;
      p <- act (Load_priv w) ;;
      if negb (p_allstolen p =? 0) then
        ms <- act (Load_movesplit w) ;;
        when (negb (ms =? 0)) (act (Store_movesplit w 0)) ;;;
        let head := u32 dq_head in
        act (Store_ts w (mkTS head (u32 (head + 1)))) ;;;
        act (Store_allstolen w 0) ;;;
        act (Store_p_split w (dq_head + 1)) ;;;
        act (Store_p_allstolen w 0)
      else
        ms <- act (Load_movesplit w) ;;
        when (negb (ms =? 0)) (
          let head := u32 dq_head in
          let split := u32 (p_split p) in
          let newsplit := u32 (split + head + 2) / 2 in
          act (Store_split w newsplit) ;;;
          act (Store_p_split w newsplit) ;;;
          act (Store_movesplit w 0));
     NAME_NEWFRAME := fun arg_1 arg_2 arg_3 arg_4 arg_5 arg_6 arg_7 arg_8 arg_9 arg_10 arg_11 arg_12 arg_13 =>
      t <- act Alloc_task ;;
      act (Store_f t NAME) ;;;
      act (Store_thief t THIEF_TASK) ;;;
      act (Store_d t 0 arg_1) ;;;
      act (Store_d t 1 arg_2) ;;;
      act (Store_d t 2 arg_3) ;;;
      act (Store_d t 3 arg_4) ;;;
      act (Store_d t 4 arg_5) ;;;
      act (Store_d t 5 arg_6) ;;;
      act (Store_d t 6 arg_7) ;;;
      act (Store_d t 7 arg_8) ;;;
      act (Store_d t 8 arg_9) ;;;
      act (Store_d t 9 arg_10) ;;;
      act (Store_d t 10 arg_11) ;;;
      act (Store_d t 11 arg_12) ;;;
      act (Store_d t 12 arg_13) ;;;
      lace_run_newframe t ;;;
      Ret (VZ 0);
     NAME_TOGETHER := fun arg_1 arg_2 arg_3 arg_4 arg_5 arg_6 arg_7 arg_8 arg_9 arg_10 arg_11 arg_12 arg_13 =>
      t <- act Alloc_task ;;
      act (Store_f t NAME) ;;;
      act (Store_thief t THIEF_TASK) ;;;
      act (Store_d t 0 arg_1) ;;;
      act (Store_d t 1 arg_2) ;;;
      act (Store_d t 2 arg_3) ;;;
      act (Store_d t 3 arg_4) ;;;
      act (Store_d t 4 arg_5) ;;;
      act (Store_d t 5 arg_6) ;;;
      act (Store_d t 6 arg_7) ;;;
      act (Store_d t 7 arg_8) ;;;
      act (Store_d t 8 arg_9) ;;;
      act (Store_d t 9 arg_10) ;;;
      act (Store_d t 10 arg_11) ;;;
      act (Store_d t 11 arg_12) ;;;
      act (Store_d t 12 arg_13) ;;;
      lace_run_together t;
     NAME_RUN := fun arg_1 arg_2 arg_3 arg_4 arg_5 arg_6 arg_7 arg_8 arg_9 arg_10 arg_11 arg_12 arg_13 =>
      t <- act Alloc_task ;;
      act (Store_f t NAME) ;;;
      act (Store_thief t THIEF_TASK) ;;;
      act (Store_d t 0 arg_1) ;;;
      act (Store_d t 1 arg_2) ;;;
      act (Store_d t 2 arg_3) ;;;
      act (Store_d t 3 arg_4) ;;;
      act (Store_d t 4 arg_5) ;;;
      act (Store_d t 5 arg_6) ;;;
      act (Store_d t 6 arg_7) ;;;
      act (Store_d t 7 arg_8) ;;;
      act (Store_d t 8 arg_9) ;;;
      act (Store_d t 9 arg_10) ;;;
      act (Store_d t 10 arg_11) ;;;
      act (Store_d t 11 arg_12) ;;;
      act (Store_d t 12 arg_13) ;;;
      lace_run_task t ;;;
      Ret (VZ 0);
     NAME_RUNEX := fun arg_1 arg_2 arg_3 arg_4 arg_5 arg_6 arg_7 arg_8 arg_9 arg_10 arg_11 arg_12 arg_13 =>
      t <- act Alloc_task ;;
      act (Store_f t NAME) ;;;
      act (Store_thief t THIEF_TASK) ;;;
      act (Store_d t 0 arg_1) ;;;
      act (Store_d t 1 arg_2) ;;;
      act (Store_d t 2 arg_3) ;;;
      act (Store_d t 3 arg_4) ;;;
      act (Store_d t 4 arg_5) ;;;
      act (Store_d t 5 arg_6) ;;;
      act (Store_d t 6 arg_7) ;;;
      act (Store_d t 7 arg_8) ;;;
      act (Store_d t 8 arg_9) ;;;
      act (Store_d t 9 arg_10) ;;;
      act (Store_d t 10 arg_11) ;;;
      act (Store_d t 11 arg_12) ;;;
      act (Store_d t 12 arg_13) ;;;
      lace_run_task_exclusive t ;;;
      Ret (VZ 0);
     NAME_SYNC := fun w dq_head =>
      ms <- act (Load_movesplit w) ;;
      if ms =? 0 then
        p <- act (Load_priv w) ;;
        if p_split p <=? dq_head then
          let t := TSlot w dq_head in
          act (Store_thief t THIEF_EMPTY) ;;;
          arg_1 <- act (Load_d t 0) ;;
          arg_2 <- act (Load_d t 1) ;;
          arg_3 <- act (Load_d t 2) ;;
          arg_4 <- act (Load_d t 3) ;;
          arg_5 <- act (Load_d t 4) ;;
          arg_6 <- act (Load_d t 5) ;;
          arg_7 <- act (Load_d t 6) ;;
          arg_8 <- act (Load_d t 7) ;;
          arg_9 <- act (Load_d t 8) ;;
          arg_10 <- act (Load_d t 9) ;;
          arg_11 <- act (Load_d t 10) ;;
          arg_12 <- act (Load_d t 11) ;;
          arg_13 <- act (Load_d t 12) ;;
          call (Fn_CALL NAME w dq_head [arg_1; arg_2; arg_3; arg_4; arg_5; arg_6; arg_7; arg_8; arg_9; arg_10; arg_11; arg_12; arg_13])
        else NAME_SYNC_SLOW w dq_head
      else NAME_SYNC_SLOW w dq_head |}.

Definition VOID_TASK_IMPL_13 (NAME : fid) (NAME_WORK : nat -> Z -> args_fun 13 (lcode unit)) : task_impl 13 :=
  {| NAME_WRAP := fun w dq_head t =>
      arg_1 <- act (Load_d t 0) ;;
      arg_2 <- act (Load_d t 1) ;;
      arg_3 <- act (Load_d t 2) ;;
      arg_4 <- act (Load_d t 3) ;;
      arg_5 <- act (Load_d t 4) ;;
      arg_6 <- act (Load_d t 5) ;;
      arg_7 <- act (Load_d t 6) ;;
      arg_8 <- act (Load_d t 7) ;;
      arg_9 <- act (Load_d t 8) ;;
      arg_10 <- act (Load_d t 9) ;;
      arg_11 <- act (Load_d t 10) ;;
      arg_12 <- act (Load_d t 11) ;;
      arg_13 <- act (Load_d t 12) ;;
      call (Fn_CALL NAME w dq_head [arg_1; arg_2; arg_3; arg_4; arg_5; arg_6; arg_7; arg_8; arg_9; arg_10; arg_11; arg_12; arg_13]) ;;;
      Ret (VZ 0);
     NAME_CALL := fun w dq_head arg_1 arg_2 arg_3 arg_4 arg_5 arg_6 arg_7 arg_8 arg_9 arg_10 arg_11 arg_12 arg_13 =>
      NAME_WORK w dq_head arg_1 arg_2 arg_3 arg_4 arg_5 arg_6 arg_7 arg_8 arg_9 arg_10 arg_11 arg_12 arg_13 ;;;
      Ret (VZ 0) |}.

(** ** Tasks with 14 arguments *)

Definition TASK_DECL_14 (NAME : fid) : task_decl 14 :=
  let NAME_SYNC_SLOW := fun (w : nat) (dq_head : Z) =>
    let t := TSlot w dq_head in
    p <- act (Load_priv w) ;;
    leap <- (if negb (p_allstolen p =? 0) then Ret true
             else if p_split p >? dq_head then r <- lace_shrink_shared w ;; Ret (negb (r =? 0))
             else Ret false) ;;
    if (leap : bool) then
      lace_leapfrog w dq_head ;;;
      act (Load_d t 0)
    else
      ms <- act (Load_movesplit w) ;;
      when (negb (ms =? 0)) (
        p <- act (Load_priv w) ;;
        let t := p_split p in
        let diff := u64 (dq_head - t) in
        let diff := u64 (diff + 1) / 2 in
        act (Store_p_split w (t + diff)) ;;;
        act (Fetch_add_split w diff) ;;;
        act (Store_movesplit w 0)) ;;;
      act (Store_thief t THIEF_EMPTY) ;;;
      arg_1 <- act (Load_d t 0) ;;
      arg_2 <- act (Load_d t 1) ;;
      arg_3 <- act (Load_d t 2) ;;
      arg_4 <- act (Load_d t 3) ;;
      arg_5 <- act (Load_d t 4) ;;
      arg_6 <- act (Load_d t 5) ;;
      arg_7 <- act (Load_d t 6) ;;
      arg_8 <- act (Load_d t 7) ;;
      arg_9 <- act (Load_d t 8) ;;
      arg_10 <- act (Load_d t 9) ;;
      arg_11 <- act (Load_d t 10) ;;
      arg_12 <- act (Load_d t 11) ;;
      arg_13 <- act (Load_d t 12) ;;
      arg_14 <- act (Load_d t 13) ;;
      call (Fn_CALL NAME w dq_head [arg_1; arg_2; arg_3; arg_4; arg_5; arg_6; arg_7; arg_8; arg_9; arg_10; arg_11; arg_12; arg_13; arg_14]) in
  {| NAME_SPAWN := fun w dq_head arg_1 arg_2 arg_3 arg_4 arg_5 arg_6 arg_7 arg_8 arg_9 arg_10 arg_11 arg_12 arg_13 arg_14 =>
      when (dq_head =? dqsize) lace_abort_stack_overflow ;;;
      let t := TSlot w dq_head in
      act (Store_f t NAME) ;;;
      act (Store_thief t THIEF_TASK) ;;;
      act (Store_d t 0 arg_1) ;;;
      act (Store_d t 1 arg_2) ;;;
      act (Store_d t 2 arg_3) ;;;
      act (Store_d t 3 arg_4) ;;;
      act (Store_d t 4 arg_5) ;;;
      act (Store_d t 5 arg_6) ;;;
      act (Store_d t 6 arg_7) ;;;
      act (Store_d t 7 arg_8) ;;;
      act (Store_d t 8 arg_9) ;;;
      act (Store_d t 9 arg_10) ;;;
      act (Store_d t 10 arg_11) ;;;
      act (Store_d t 11 arg_12) ;;;
      act (Store_d t 12 arg_13) ;;;
      act (Store_d t 13 arg_14) ;;;
      p <- act (Load_priv w) ;;
      if negb (p_allstolen p =? 0) then
        ms <- act (Load_movesplit w) ;;
        when (negb (ms =? 0)) (act (Store_movesplit w 0)) ;;;
        let head := u32 dq_head in
        act (Store_ts w (mkTS head (u32 (head + 1)))) ;;;
        act (Store_allstolen w 0) ;;;
        act (Store_p_split w (dq_head + 1)) ;;;
        act (Store_p_allstolen w 0)
      else
        ms <- act (Load_movesplit w) ;;
        when (negb (ms =? 0)) (
          let head := u32 dq_head in
          let split := u32 (p_split p) in
          let newsplit := u32 (split + head + 2) / 2 in
          act (Store_split w newsplit) ;;;
          act (Store_p_split w newsplit) ;;;
          act (Store_movesplit w 0));
     NAME_NEWFRAME := fun arg_1 arg_2 arg_3 arg_4 arg_5 arg_6 arg_7 arg_8 arg_9 arg_10 arg_11 arg_12 arg_13 arg_14 =>
      t <- act Alloc_task ;;
      act (Store_f t NAME) ;;;
      act (Store_thief t THIEF_TASK) ;;;
      act (Store_d t 0 arg_1) ;;;
      act (Store_d t 1 arg_2) ;;;
      act (Store_d t 2 arg_3) ;;;
      act (Store_d t 3 arg_4) ;;;
      act (Store_d t 4 arg_5) ;;;
      act (Store_d t 5 arg_6) ;;;
      act (Store_d t 6 arg_7) ;;;
      act (Store_d t 7 arg_8) ;;;
      act (Store_d t 8 arg_9) ;;;
      act (Store_d t 9 arg_10) ;;;
      act (Store_d t 10 arg_11) ;;;
      act (Store_d t 11 arg_12) ;;;
      act (Store_d t 12 arg_13) ;;;
      act (Store_d t 13 arg_14) ;;;
      lace_run_newframe t ;;;
      act (Load_d t 0);
     NAME_TOGETHER := fun arg_1 arg_2 arg_3 arg_4 arg_5 arg_6 arg_7 arg_8 arg_9 arg_10 arg_11 arg_12 arg_13 arg_14 =>
      t <- act Alloc_task ;;
      act (Store_f t NAME) ;;;
      act (Store_thief t THIEF_TASK) ;;;
      act (Store_d t 0 arg_1) ;;;
      act (Store_d t 1 arg_2) ;;;
      act (Store_d t 2 arg_3) ;;;
      act (Store_d t 3 arg_4) ;;;
      act (Store_d t 4 arg_5) ;;;
      act (Store_d t 5 arg_6) ;;;
      act (Store_d t 6 arg_7) ;;;
      act (Store_d t 7 arg_8) ;;;
      act (Store_d t 8 arg_9) ;;;
      act (Store_d t 9 arg_10) ;;;
      act (Store_d t 10 arg_11) ;;;
      act (Store_d t 11 arg_12) ;;;
      act (Store_d t 12 arg_13) ;;;
      act (Store_d t 13 arg_14) ;;;
      lace_run_together t;
     NAME_RUN := fun arg_1 arg_2 arg_3 arg_4 arg_5 arg_6 arg_7 arg_8 arg_9 arg_10 arg_11 arg_12 arg_13 arg_14 =>
      t <- act Alloc_task ;;
      act (Store_f t NAME) ;;;
      act (Store_thief t THIEF_TASK) ;;;
      act (Store_d t 0 arg_1) ;;;
      act (Store_d t 1 arg_2) ;;;
      act (Store_d t 2 arg_3) ;;;
      act (Store_d t 3 arg_4) ;;;
      act (Store_d t 4 arg_5) ;;;
      act (Store_d t 5 arg_6) ;;;
      act (Store_d t 6 arg_7) ;;;
      act (Store_d t 7 arg_8) ;;;
      act (Store_d t 8 arg_9) ;;;
      act (Store_d t 9 arg_10) ;;;
      act (Store_d t 10 arg_11) ;;;
      act (Store_d t 11 arg_12) ;;;
      act (Store_d t 12 arg_13) ;;;
      act (Store_d t 13 arg_14) ;;;
      lace_run_task t ;;;
      act (Load_d t 0);
     NAME_RUNEX := fun arg_1 arg_2 arg_3 arg_4 arg_5 arg_6 arg_7 arg_8 arg_9 arg_10 arg_11 arg_12 arg_13 arg_14 =>
      t <- act Alloc_task ;;
      act (Store_f t NAME) ;;;
      act (Store_thief t THIEF_TASK) ;;;
      act (Store_d t 0 arg_1) ;;;
      act (Store_d t 1 arg_2) ;;;
      act (Store_d t 2 arg_3) ;;;
      act (Store_d t 3 arg_4) ;;;
      act (Store_d t 4 arg_5) ;;;
      act (Store_d t 5 arg_6) ;;;
      act (Store_d t 6 arg_7) ;;;
      act (Store_d t 7 arg_8) ;;;
      act (Store_d t 8 arg_9) ;;;
      act (Store_d t 9 arg_10) ;;;
      act (Store_d t 10 arg_11) ;;;
      act (Store_d t 11 arg_12) ;;;
      act (Store_d t 12 arg_13) ;;;
      act (Store_d t 13 arg_14) ;;;
      lace_run_task_exclusive t ;;;
      act (Load_d t 0);
     NAME_SYNC := fun w dq_head =>
      ms <- act (Load_movesplit w) ;;
      if ms =? 0 then
        p <- act (Load_priv w) ;;
        if p_split p <=? dq_head then
          let t := TSlot w dq_head in
          act (Store_thief t THIEF_EMPTY) ;;;
          arg_1 <- act (Load_d t 0) ;;
          arg_2 <- act (Load_d t 1) ;;
          arg_3 <- act (Load_d t 2) ;;
          arg_4 <- act (Load_d t 3) ;;
          arg_5 <- act (Load_d t 4) ;;
          arg_6 <- act (Load_d t 5) ;;
          arg_7 <- act (Load_d t 6) ;;
          arg_8 <- act (Load_d t 7) ;;
          arg_9 <- act (Load_d t 8) ;;
          arg_10 <- act (Load_d t 9) ;;
          arg_11 <- act (Load_d t 10) ;;
          arg_12 <- act (Load_d t 11) ;;
          arg_13 <- act (Load_d t 12) ;;
          arg_14 <- act (Load_d t 13) ;;
          call (Fn_CALL NAME w dq_head [arg_1; arg_2; arg_3; arg_4; arg_5; arg_6; arg_7; arg_8; arg_9; arg_10; arg_11; arg_12; arg_13; arg_14])
        else NAME_SYNC_SLOW w dq_head
      else NAME_SYNC_SLOW w dq_head |}.

Definition TASK_IMPL_14 (NAME : fid) (NAME_WORK : nat -> Z -> args_fun 14 (lcode val)) : task_impl 14 :=
  {| NAME_WRAP := fun w dq_head t =>
      arg_1 <- act (Load_d t 0) ;;
      arg_2 <- act (Load_d t 1) ;;
      arg_3 <- act (Load_d t 2) ;;
      arg_4 <- act (Load_d t 3) ;;
      arg_5 <- act (Load_d t 4) ;;
      arg_6 <- act (Load_d t 5) ;;
      arg_7 <- act (Load_d t 6) ;;
      arg_8 <- act (Load_d t 7) ;;
      arg_9 <- act (Load_d t 8) ;;
      arg_10 <- act (Load_d t 9) ;;
      arg_11 <- act (Load_d t 10) ;;
      arg_12 <- act (Load_d t 11) ;;
      arg_13 <- act (Load_d t 12) ;;
      arg_14 <- act (Load_d t 13) ;;
      res <- call (Fn_CALL NAME w dq_head [arg_1; arg_2; arg_3; arg_4; arg_5; arg_6; arg_7; arg_8; arg_9; arg_10; arg_11; arg_12; arg_13; arg_14]) ;;
      act (Store_d t 0 res) ;;;
      Ret (VZ 0);
     NAME_CALL := fun w dq_head arg_1 arg_2 arg_3 arg_4 arg_5 arg_6 arg_7 arg_8 arg_9 arg_10 arg_11 arg_12 arg_13 arg_14 =>
      NAME_WORK w dq_head arg_1 arg_2 arg_3 arg_4 arg_5 arg_6 arg_7 arg_8 arg_9 arg_10 arg_11 arg_12 arg_13 arg_14 |}.

Definition VOID_TASK_DECL_14 (NAME : fid) : task_decl 14 :=
  let NAME_SYNC_SLOW := fun (w : nat) (dq_head : Z) =>
    let t := TSlot w dq_head in
    p <- act (Load_priv w) ;;
    leap <- (if negb (p_allstolen p =? 0) then Ret true
             else if p_split p >? dq_head then r <- lace_shrink_shared w ;; Ret (negb (r =? 0))
             else Ret false) ;;
    if (leap : bool) then
      lace_leapfrog w dq_head ;;;
      Ret (VZ 0)
    else
      ms <- act (Load_movesplit w) ;;
      when (negb (ms =? 0)) (
        p <- act (Load_priv w) ;;
        let t := p_split p in
        let diff := u64 (dq_head - t) in
        let diff := u64 (diff + 1) / 2 in
        act (Store_p_split w (t + diff)) ;;;
        act (Fetch_add_split w diff) ;;;
        act (Store_movesplit w 0)) ;;;
      act (Store_thief t THIEF_EMPTY) ;;;
      arg_1 <- act (Load_d t 0) ;;
      arg_2 <- act (Load_d t 1) ;;
      arg_3 <- act (Load_d t 2) ;;
      arg_4 <- act (Load_d t 3) ;;
      arg_5 <- act (Load_d t 4) ;;
      arg_6 <- act (Load_d t 5) ;;
      arg_7 <- act (Load_d t 6) ;;
      arg_8 <- act (Load_d t 7) ;;
      arg_9 <- act (Load_d t 8) ;;
      arg_10 <- act (Load_d t 9) ;;
      arg_11 <- act (Load_d t 10) ;;
      arg_12 <- act (Load_d t 11) ;;
      arg_13 <- act (Load_d t 12) ;;
      arg_14 <- act (Load_d t 13) ;;
      call (Fn_CALL NAME w dq_head [arg_1; arg_2; arg_3; arg_4; arg_5; arg_6; arg_7; arg_8; arg_9; arg_10; arg_11; arg_12; arg_13; arg_14]) in
  {| NAME_SPAWN := fun w dq_head arg_1 arg_2 arg_3 arg_4 arg_5 arg_6 arg_7 arg_8 arg_9 arg_10 arg_11 arg_12 arg_13 arg_14 =>
      when (dq_head =? dqsize) lace_abort_stack_overflow ;;;
      let t := TSlot w dq_head in
      act (Store_f t NAME) ;;;
      act (Store_thief t THIEF_TASK) ;;;
      act (Store_d t 0 arg_1) ;;;
      act (Store_d t 1 arg_2) ;;;
      act (Store_d t 2 arg_3) ;;;
      act (Store_d t 3 arg_4) ;;;
      act (Store_d t 4 arg_5) ;;;
      act (Store_d t 5 arg_6) ;;;
      act (Store_d t 6 arg_7) ;;;
      act (Store_d t 7 arg_8) ;;;
      act (Store_d t 8 arg_9) ;;;
      act (Store_d t 9 arg_10) ;;;
      act (Store_d t 10 arg_11) ;;;
      act (Store_d t 11 arg_12) ;;;
      act (Store_d t 12 arg_13) ;;;
      act (Store_d t 13 arg_14) ;;;
      p <- act (Load_priv w) ;;
      if negb (p_allstolen p =? 0) then
        ms <- act (Load_movesplit w) ;;
        when (negb (ms =? 0)) (act (Store_movesplit w 0)) ;;;
        let head := u32 dq_head in
        act (Store_ts w (mkTS head (u32 (head + 1)))) ;;;
        act (Store_allstolen w 0) ;;;
        act (Store_p_split w (dq_head + 1)) ;;;
        act (Store_p_allstolen w 0)
      else
        ms <- act (Load_movesplit w) ;;
        when (negb (ms =? 0)) (
          let head := u32 dq_head in
          let split := u32 (p_split p) in
          let newsplit := u32 (split + head + 2) / 2 in
          act (Store_split w newsplit) ;;;
          act (Store_p_split w newsplit) ;;;
          act (Store_movesplit w 0));
     NAME_NEWFRAME := fun arg_1 arg_2 arg_3 arg_4 arg_5 arg_6 arg_7 arg_8 arg_9 arg_10 arg_11 arg_12 arg_13 arg_14 =>
      t <- act Alloc_task ;;
      act (Store_f t NAME) ;;;
      act (Store_thief t THIEF_TASK) ;;;
      act (Store_d t 0 arg_1) ;;;
      act (Store_d t 1 arg_2) ;;;
      act (Store_d t 2 arg_3) ;;;
      act (Store_d t 3 arg_4) ;;;
      act (Store_d t 4 arg_5) ;;;
      act (Store_d t 5 arg_6) ;;;
      act (Store_d t 6 arg_7) ;;;
      act (Store_d t 7 arg_8) ;;;
      act (Store_d t 8 arg_9) ;;;
      act (Store_d t 9 arg_10) ;;;
      act (Store_d t 10 arg_11) ;;;
      act (Store_d t 11 arg_12) ;;;
      act (Store_d t 12 arg_13) ;;;
      act (Store_d t 13 arg_14) ;;;
      lace_run_newframe t ;;;
      Ret (VZ 0);
     NAME_TOGETHER := fun arg_1 arg_2 arg_3 arg_4 arg_5 arg_6 arg_7 arg_8 arg_9 arg_10 arg_11 arg_12 arg_13 arg_14 =>
      t <- act Alloc_task ;;
      act (Store_f t NAME) ;;;
      act (Store_thief t THIEF_TASK) ;;;
      act (Store_d t 0 arg_1) ;;;
      act (Store_d t 1 arg_2) ;;;
      act (Store_d t 2 arg_3) ;;;
      act (Store_d t 3 arg_4) ;;;
      act (Store_d t 4 arg_5) ;;;
      act (Store_d t 5 arg_6) ;;;
      act (Store_d t 6 arg_7) ;;;
      act (Store_d t 7 arg_8) ;;;
      act (Store_d t 8 arg_9) ;;;
      act (Store_d t 9 arg_10) ;;;
      act (Store_d t 10 arg_11) ;;;
      act (Store_d t 11 arg_12) ;;;
      act (Store_d t 12 arg_13) ;;;
      act (Store_d t 13 arg_14) ;;;
      lace_run_together t;
     NAME_RUN := fun arg_1 arg_2 arg_3 arg_4 arg_5 arg_6 arg_7 arg_8 arg_9 arg_10 arg_11 arg_12 arg_13 arg_14 =>
      t <- act Alloc_task ;;
      act (Store_f t NAME) ;;;
      act (Store_thief t THIEF_TASK) ;;;
      act (Store_d t 0 arg_1) ;;;
      act (Store_d t 1 arg_2) ;;;
      act (Store_d t 2 arg_3) ;;;
      act (Store_d t 3 arg_4) ;;;
      act (Store_d t 4 arg_5) ;;;
      act (Store_d t 5 arg_6) ;;;
      act (Store_d t 6 arg_7) ;;;
      act (Store_d t 7 arg_8) ;;;
      act (Store_d t 8 arg_9) ;;;
      act (Store_d t 9 arg_10) ;;;
      act (Store_d t 10 arg_11) ;;;
      act (Store_d t 11 arg_12) ;;;
      act (Store_d t 12 arg_13) ;;;
      act (Store_d t 13 arg_14) ;;;
      lace_run_task t ;;;
      Ret (VZ 0);
     NAME_RUNEX := fun arg_1 arg_2 arg_3 arg_4 arg_5 arg_6 arg_7 arg_8 arg_9 arg_10 arg_11 arg_12 arg_13 arg_14 =>
      t <- act Alloc_task ;;
      act (Store_f t NAME) ;;;
      act (Store_thief t THIEF_TASK) ;;;
      act (Store_d t 0 arg_1) ;;;
      act (Store_d t 1 arg_2) ;;;
      act (Store_d t 2 arg_3) ;;;
      act (Store_d t 3 arg_4) ;;;
      act (Store_d t 4 arg_5) ;;;
      act (Store_d t 5 arg_6) ;;;
      act (Store_d t 6 arg_7) ;;;
      act (Store_d t 7 arg_8) ;;;
      act (Store_d t 8 arg_9) ;;;
      act (Store_d t 9 arg_10) ;;;
      act (Store_d t 10 arg_11) ;;;
      act (Store_d t 11 arg_12) ;;;
      act (Store_d t 12 arg_13) ;;;
      act (Store_d t 13 arg_14) ;;;
      lace_run_task_exclusive t ;;;
      Ret (VZ 0);
     NAME_SYNC := fun w dq_head =>
      ms <- act (Load_movesplit w) ;;
      if ms =? 0 then
        p <- act (Load_priv w) ;;
        if p_split p <=? dq_head then
          let t := TSlot w dq_head in
          act (Store_thief t THIEF_EMPTY) ;;;
          arg_1 <- act (Load_d t 0) ;;
          arg_2 <- act (Load_d t 1) ;;
          arg_3 <- act (Load_d t 2) ;;
          arg_4 <- act (Load_d t 3) ;;
          arg_5 <- act (Load_d t 4) ;;
          arg_6 <- act (Load_d t 5) ;;
          arg_7 <- act (Load_d t 6) ;;
          arg_8 <- act (Load_d t 7) ;;
          arg_9 <- act (Load_d t 8) ;;
          arg_10 <- act (Load_d t 9) ;;
          arg_11 <- act (Load_d t 10) ;;
          arg_12 <- act (Load_d t 11) ;;
          arg_13 <- act (Load_d t 12) ;;
          arg_14 <- act (Load_d t 13) ;;
          call (Fn_CALL NAME w dq_head [arg_1; arg_2; arg_3; arg_4; arg_5; arg_6; arg_7; arg_8; arg_9; arg_10; arg_11; arg_12; arg_13; arg_14])
        else NAME_SYNC_SLOW w dq_head
      else NAME_SYNC_SLOW w dq_head |}.

Definition VOID_TASK_IMPL_14 (NAME : fid) (NAME_WORK : nat -> Z -> args_fun 14 (lcode unit)) : task_impl 14 :=
  {| NAME_WRAP := fun w dq_head t =>
      arg_1 <- act (Load_d t 0) ;;
      arg_2 <- act (Load_d t 1) ;;
      arg_3 <- act (Load_d t 2) ;;
      arg_4 <- act (Load_d t 3) ;;
      arg_5 <- act (Load_d t 4) ;;
      arg_6 <- act (Load_d t 5) ;;
      arg_7 <- act (Load_d t 6) ;;
      arg_8 <- act (Load_d t 7) ;;
      arg_9 <- act (Load_d t 8) ;;
      arg_10 <- act (Load_d t 9) ;;
      arg_11 <- act (Load_d t 10) ;;
      arg_12 <- act (Load_d t 11) ;;
      arg_13 <- act (Load_d t 12) ;;
      arg_14 <- act (Load_d t 13) ;;
      call (Fn_CALL NAME w dq_head [arg_1; arg_2; arg_3; arg_4; arg_5; arg_6; arg_7; arg_8; arg_9; arg_10; arg_11; arg_12; arg_13; arg_14]) ;;;
      Ret (VZ 0);
     NAME_CALL := fun w dq_head arg_1 arg_2 arg_3 arg_4 arg_5 arg_6 arg_7 arg_8 arg_9 arg_10 arg_11 arg_12 arg_13 arg_14 =>
      NAME_WORK w dq_head arg_1 arg_2 arg_3 arg_4 arg_5 arg_6 arg_7 arg_8 arg_9 arg_10 arg_11 arg_12 arg_13 arg_14 ;;;
      Ret (VZ 0) |}.

(** ** The macros by arity *)

Definition TASK_DECL (n : nat) (NAME : fid) : option (task_decl n) :=
  match n with
  | 0%nat => Some (TASK_DECL_0 NAME)
  | 1%nat => Some (TASK_DECL_1 NAME)
  | 2%nat => Some (TASK_DECL_2 NAME)
  | 3%nat => Some (TASK_DECL_3 NAME)
  | 4%nat => Some (TASK_DECL_4 NAME)
  | 5%nat => Some (TASK_DECL_5 NAME)
  | 6%nat => Some (TASK_DECL_6 NAME)
  | 7%nat => Some (TASK_DECL_7 NAME)
  | 8%nat => Some (TASK_DECL_8 NAME)
  | 9%nat => Some (TASK_DECL_9 NAME)
  | 10%nat => Some (TASK_DECL_10 NAME)
  | 11%nat => Some (TASK_DECL_11 NAME)
  | 12%nat => Some (TASK_DECL_12 NAME)
  | 13%nat => Some (TASK_DECL_13 NAME)
  | 14%nat => Some (TASK_DECL_14 NAME)
  | _ => None
  end.

Definition TASK_IMPL (n : nat) (NAME : fid) :
    (nat -> Z -> args_fun n (lcode val)) -> option (task_impl n) :=
  match n with
  | 0%nat => fun NAME_WORK => Some (TASK_IMPL_0 NAME NAME_WORK)
  | 1%nat => fun NAME_WORK => Some (TASK_IMPL_1 NAME NAME_WORK)
  | 2%nat => fun NAME_WORK => Some (TASK_IMPL_2 NAME NAME_WORK)
  | 3%nat => fun NAME_WORK => Some (TASK_IMPL_3 NAME NAME_WORK)
  | 4%nat => fun NAME_WORK => Some (TASK_IMPL_4 NAME NAME_WORK)
  | 5%nat => fun NAME_WORK => Some (TASK_IMPL_5 NAME NAME_WORK)
  | 6%nat => fun NAME_WORK => Some (TASK_IMPL_6 NAME NAME_WORK)
  | 7%nat => fun NAME_WORK => Some (TASK_IMPL_7 NAME NAME_WORK)
  | 8%nat => fun NAME_WORK => Some (TASK_IMPL_8 NAME NAME_WORK)
  | 9%nat => fun NAME_WORK => Some (TASK_IMPL_9 NAME NAME_WORK)
  | 10%nat => fun NAME_WORK => Some (TASK_IMPL_10 NAME NAME_WORK)
  | 11%nat => fun NAME_WORK => Some (TASK_IMPL_11 NAME NAME_WORK)
  | 12%nat => fun NAME_WORK => Some (TASK_IMPL_12 NAME NAME_WORK)
  | 13%nat => fun NAME_WORK => Some (TASK_IMPL_13 NAME NAME_WORK)
  | 14%nat => fun NAME_WORK => Some (TASK_IMPL_14 NAME NAME_WORK)
  | _ => fun _ => None
  end.

Definition VOID_TASK_DECL (n : nat) (NAME : fid) : option (task_decl n) :=
  match n with
  | 0%nat => Some (VOID_TASK_DECL_0 NAME)
  | 1%nat => Some (VOID_TASK_DECL_1 NAME)
  | 2%nat => Some (VOID_TASK_DECL_2 NAME)
  | 3%nat => Some (VOID_TASK_DECL_3 NAME)
  | 4%nat => Some (VOID_TASK_DECL_4 NAME)
  | 5%nat => Some (VOID_TASK_DECL_5 NAME)
  | 6%nat => Some (VOID_TASK_DECL_6 NAME)
  | 7%nat => Some (VOID_TASK_DECL_7 NAME)
  | 8%nat => Some (VOID_TASK_DECL_8 NAME)
  | 9%nat => Some (VOID_TASK_DECL_9 NAME)
  | 10%nat => Some (VOID_TASK_DECL_10 NAME)
  | 11%nat => Some (VOID_TASK_DECL_11 NAME)
  | 12%nat => Some (VOID_TASK_DECL_12 NAME)
  | 13%nat => Some (VOID_TASK_DECL_13 NAME)
  | 14%nat => Some (VOID_TASK_DECL_14 NAME)
  | _ => None
  end.

Definition VOID_TASK_IMPL (n : nat) (NAME : fid) :
    (nat -> Z -> args_fun n (lcode unit)) -> option (task_impl n) :=
  match n with
  | 0%nat => fun NAME_WORK => Some (VOID_TASK_IMPL_0 NAME NAME_WORK)
  | 1%nat => fun NAME_WORK => Some (VOID_TASK_IMPL_1 NAME NAME_WORK)
  | 2%nat => fun NAME_WORK => Some (VOID_TASK_IMPL_2 NAME NAME_WORK)
  | 3%nat => fun NAME_WORK => Some (VOID_TASK_IMPL_3 NAME NAME_WORK)
  | 4%nat => fun NAME_WORK => Some (VOID_TASK_IMPL_4 NAME NAME_WORK)
  | 5%nat => fun NAME_WORK => Some (VOID_TASK_IMPL_5 NAME NAME_WORK)
  | 6%nat => fun NAME_WORK => Some (VOID_TASK_IMPL_6 NAME NAME_WORK)
  | 7%nat => fun NAME_WORK => Some (VOID_TASK_IMPL_7 NAME NAME_WORK)
  | 8%nat => fun NAME_WORK => Some (VOID_TASK_IMPL_8 NAME NAME_WORK)
  | 9%nat => fun NAME_WORK => Some (VOID_TASK_IMPL_9 NAME NAME_WORK)
  | 10%nat => fun NAME_WORK => Some (VOID_TASK_IMPL_10 NAME NAME_WORK)
  | 11%nat => fun NAME_WORK => Some (VOID_TASK_IMPL_11 NAME NAME_WORK)
  | 12%nat => fun NAME_WORK => Some (VOID_TASK_IMPL_12 NAME NAME_WORK)
  | 13%nat => fun NAME_WORK => Some (VOID_TASK_IMPL_13 NAME NAME_WORK)
  | 14%nat => fun NAME_WORK => Some (VOID_TASK_IMPL_14 NAME NAME_WORK)
  | _ => fun _ => None
  end.

(** Every macro is the text that lace.sh generates for its arity. *)
Lemma decl14_generated n NAME d : TASK_DECL n NAME = Some d -> decl_ok NAME false n d.
Proof. do 15 (destruct n as [|n]; [intros [= <-]; solve_macro|]). done. Qed.

Lemma decl14_exists n NAME : (n <= 14)%nat -> is_Some (TASK_DECL n NAME).
Proof. intros Hn. do 15 (destruct n as [|n]; [by eexists|]). lia. Qed.

Lemma void_decl14_generated n NAME d : VOID_TASK_DECL n NAME = Some d -> decl_ok NAME true n d.
Proof. do 15 (destruct n as [|n]; [intros [= <-]; solve_macro|]). done. Qed.

Lemma void_decl14_exists n NAME : (n <= 14)%nat -> is_Some (VOID_TASK_DECL n NAME).
Proof. intros Hn. do 15 (destruct n as [|n]; [by eexists|]). lia. Qed.

Lemma impl14_generated n NAME NAME_WORK d :
  TASK_IMPL n NAME NAME_WORK = Some d -> value_impl_ok NAME n NAME_WORK d.
Proof. do 15 (destruct n as [|n]; [intros [= <-]; solve_macro|]). done. Qed.

Lemma impl14_exists n NAME NAME_WORK : (n <= 14)%nat -> is_Some (TASK_IMPL n NAME NAME_WORK).
Proof. intros Hn. do 15 (destruct n as [|n]; [by eexists|]). lia. Qed.

Lemma void_impl14_generated n NAME NAME_WORK d :
  VOID_TASK_IMPL n NAME NAME_WORK = Some d -> void_impl_ok NAME n NAME_WORK d.
Proof. do 15 (destruct n as [|n]; [intros [= <-]; solve_macro|]). done. Qed.

Lemma void_impl14_exists n NAME NAME_WORK : (n <= 14)%nat -> is_Some (VOID_TASK_IMPL n NAME NAME_WORK).
Proof. intros Hn. do 15 (destruct n as [|n]; [by eexists|]). lia. Qed.
End Macros.
