(* ===== verification/Program.v ===== *)
(** * Programs that use Lace

    The tasks of a client, the function table that [t->f] and [NAME##_CALL] go
    through, and the machine that runs all threads. *)

From S2P Require Import TaskMacros14.
From S2P Require Export TaskMacros.

(** ** Client tasks

    The operations a task may use besides spawning and syncing: [STEAL_RANDOM()],
    [LACE_MAKE_ALL_SHARED()], [YIELD_NEWFRAME()] and [lace_barrier()]. *)
Inductive task_op := OpStealRandom | OpMakeAllShared | OpYield | OpBarrier.

(** [uprog l] is the rest of a task that still has to sync the tasks [l] (innermost
    first): a task returns only when it has synced everything it spawned, which is
    the contract [SYNC] assumes. *)
Inductive uprog : list nat -> Type :=
| URet (v : val) : uprog []
| USpawn {l} (u : nat) (args : list val) (k : uprog (u :: l)) : uprog l
| USync {u l} (k : val -> uprog l) : uprog (u :: l)
| UDrop {u l} (k : uprog l) : uprog (u :: l)
| UCall {l} (u : nat) (args : list val) (k : val -> uprog l) : uprog l
| URun {l} (u : nat) (args : list val) (k : val -> uprog l) : uprog l
| URunEx {l} (u : nat) (args : list val) (k : val -> uprog l) : uprog l
| UOp {l} (o : task_op) (k : uprog l) : uprog l
| UNewframe {l} (u : nat) (args : list val) (k : val -> uprog l) : uprog l
| UTogether {l} (u : nat) (args : list val) (k : uprog l) : uprog l.

Class Client := { user_body : nat -> list val -> uprog [] }.

(** ** The macros of lace.h *)

Section Declarations.
Context {cfg : Cfg}.

(** The number of arguments the macros of the header go up to. *)
Definition max_args : nat := match lace_header with lace_h => 6 | lace14_h => 14 end.

(** The functions that task [g] is declared with; none when the header has no macro for its
    number of arguments. *)
Definition decl_of (g : fid) : option (task_decl (arity g)) :=
  match lace_header, is_void g with
  | lace_h, false => TaskMacros.TASK_DECL (arity g) g
  | lace_h, true => TaskMacros.VOID_TASK_DECL (arity g) g
  | lace14_h, false => TaskMacros14.TASK_DECL (arity g) g
  | lace14_h, true => TaskMacros14.VOID_TASK_DECL (arity g) g
  end.

(** A program with a wrong number of arguments does not compile. *)
Definition undeclared {A} (a : A) : lcode A := act Undefined ;;; Ret a.

Definition declared {A} (a : A) (c : option (lcode A)) : lcode A :=
  match c with Some c => c | None => undeclared a end.

(** [f##_SPAWN(w, __dq_head, args)] and so on, the functions the macros [SPAWN(f, ...)], [SYNC(f)],
    [RUN(f, ...)], [RUNEX(f, ...)], [NEWFRAME(f, ...)] and [TOGETHER(f, ...)] call. *)
Definition SPAWN (f : fid) (w : nat) (dq_head : Z) (args : list val) : lcode unit :=
  declared tt (d ← decl_of f; apply_args (NAME_SPAWN d w dq_head) args).

Definition SYNC (f : fid) (w : nat) (dq_head : Z) : lcode val :=
  declared (VZ 0) (d ← decl_of f; Some (NAME_SYNC d w dq_head)).

Definition RUN (f : fid) (args : list val) : lcode val :=
  declared (VZ 0) (d ← decl_of f; apply_args (NAME_RUN d) args).

Definition RUNEX (f : fid) (args : list val) : lcode val :=
  declared (VZ 0) (d ← decl_of f; apply_args (NAME_RUNEX d) args).

Definition NEWFRAME (f : fid) (args : list val) : lcode val :=
  declared (VZ 0) (d ← decl_of f; apply_args (NAME_NEWFRAME d) args).

Definition TOGETHER (f : fid) (args : list val) : lcode unit :=
  declared tt (d ← decl_of f; apply_args (NAME_TOGETHER d) args).

(** *** What they are *)

Lemma decl_of_ok g d : decl_of g = Some d -> decl_ok g (is_void g) (arity g) d.
Proof.
  unfold decl_of. destruct lace_header, (is_void g);
    [apply void_decl_generated|apply decl_generated|apply void_decl14_generated|apply decl14_generated].
Qed.

Lemma decl_of_exists g : (arity g <= max_args)%nat -> exists d, decl_of g = Some d.
Proof.
  unfold decl_of, max_args. destruct lace_header, (is_void g);
    [apply void_decl_exists|apply decl_exists|apply void_decl14_exists|apply decl14_exists].
Qed.

Lemma SPAWN_gen f w h args :
  (arity f <= max_args)%nat -> length args = arity f -> SPAWN f w h args = gen_SPAWN f w h args.
Proof. intros Hn Hl. unfold SPAWN. destruct (decl_of_exists f Hn) as [d Hf]. rewrite Hf. simpl. by rewrite (ok_SPAWN _ _ _ _ (decl_of_ok _ _ Hf)). Qed.

Lemma SYNC_gen f w h : (arity f <= max_args)%nat -> SYNC f w h = gen_SYNC f (is_void f) (arity f) w h.
Proof. intros Hn. unfold SYNC. destruct (decl_of_exists f Hn) as [d Hf]. rewrite Hf. simpl. apply (ok_SYNC _ _ _ _ (decl_of_ok _ _ Hf)). Qed.

Lemma RUN_gen f args :
  (arity f <= max_args)%nat -> length args = arity f -> RUN f args = gen_RUN f (is_void f) args.
Proof. intros Hn Hl. unfold RUN. destruct (decl_of_exists f Hn) as [d Hf]. rewrite Hf. simpl. by rewrite (ok_RUN _ _ _ _ (decl_of_ok _ _ Hf)). Qed.

Lemma RUNEX_gen f args :
  (arity f <= max_args)%nat -> length args = arity f -> RUNEX f args = gen_RUNEX f (is_void f) args.
Proof. intros Hn Hl. unfold RUNEX. destruct (decl_of_exists f Hn) as [d Hf]. rewrite Hf. simpl. by rewrite (ok_RUNEX _ _ _ _ (decl_of_ok _ _ Hf)). Qed.

Lemma NEWFRAME_gen f args :
  (arity f <= max_args)%nat -> length args = arity f -> NEWFRAME f args = gen_NEWFRAME f (is_void f) args.
Proof. intros Hn Hl. unfold NEWFRAME. destruct (decl_of_exists f Hn) as [d Hf]. rewrite Hf. simpl. by rewrite (ok_NEWFRAME _ _ _ _ (decl_of_ok _ _ Hf)). Qed.

Lemma TOGETHER_gen f args :
  (arity f <= max_args)%nat -> length args = arity f -> TOGETHER f args = gen_TOGETHER f args.
Proof. intros Hn Hl. unfold TOGETHER. destruct (decl_of_exists f Hn) as [d Hf]. rewrite Hf. simpl. by rewrite (ok_TOGETHER _ _ _ _ (decl_of_ok _ _ Hf)). Qed.

(** In every case: the template, or code that is not in any program. *)
Lemma declared_cases {n} (o : option (task_decl n)) {A} (a : A) (f : task_decl n -> args_fun n (lcode A)) args (c : lcode A) :
  (forall d, o = Some d -> length args = n -> apply_args (f d) args = Some c) ->
  declared a (d ← o; apply_args (f d) args) = undeclared a \/ declared a (d ← o; apply_args (f d) args) = c.
Proof.
  intros H. destruct o as [d|]; [|by left]. simpl. destruct (decide (length args = n)) as [Hl|Hl].
  - right. by rewrite H.
  - left. by rewrite apply_args_length.
Qed.

Lemma SPAWN_cases f w h args :
  SPAWN f w h args = undeclared tt \/ SPAWN f w h args = gen_SPAWN f w h args.
Proof. apply (declared_cases _ _ (fun d => NAME_SPAWN d w h)). intros d Hd. by apply (ok_SPAWN _ _ _ _ (decl_of_ok _ _ Hd)). Qed.

Lemma SYNC_cases f w h :
  SYNC f w h = undeclared (VZ 0) \/ SYNC f w h = gen_SYNC f (is_void f) (arity f) w h.
Proof.
  unfold SYNC. destruct (decl_of f) as [d|] eqn:Hd; [right|by left]. apply (ok_SYNC _ _ _ _ (decl_of_ok _ _ Hd)).
Qed.

Lemma RUN_cases f args :
  RUN f args = undeclared (VZ 0) \/ RUN f args = gen_RUN f (is_void f) args.
Proof. apply (declared_cases _ _ NAME_RUN). intros d Hd. by apply (ok_RUN _ _ _ _ (decl_of_ok _ _ Hd)). Qed.

Lemma RUNEX_cases f args :
  RUNEX f args = undeclared (VZ 0) \/ RUNEX f args = gen_RUNEX f (is_void f) args.
Proof. apply (declared_cases _ _ NAME_RUNEX). intros d Hd. by apply (ok_RUNEX _ _ _ _ (decl_of_ok _ _ Hd)). Qed.

Lemma NEWFRAME_cases f args :
  NEWFRAME f args = undeclared (VZ 0) \/ NEWFRAME f args = gen_NEWFRAME f (is_void f) args.
Proof. apply (declared_cases _ _ NAME_NEWFRAME). intros d Hd. by apply (ok_NEWFRAME _ _ _ _ (decl_of_ok _ _ Hd)). Qed.

Lemma TOGETHER_cases f args :
  TOGETHER f args = undeclared tt \/ TOGETHER f args = gen_TOGETHER f args.
Proof. apply (declared_cases _ _ NAME_TOGETHER). intros d Hd. by apply (ok_TOGETHER _ _ _ _ (decl_of_ok _ _ Hd)). Qed.
End Declarations.

Section Program.
Context {cfg : Cfg} {client : Client}.

Definition run_op (w : nat) (dq_head : Z) (o : task_op) : lcode unit :=
  match o with
  | OpStealRandom => lace_steal_random w dq_head
  | OpMakeAllShared => lace_make_all_shared w dq_head
  | OpYield => YIELD_NEWFRAME w dq_head
  | OpBarrier => lace_barrier
  end.

(** The macros [SPAWN], [SYNC], [DROP], [CALL], [RUN], [RUNEX], [NEWFRAME] and [TOGETHER] in the
    body of a task: [__lace_dq_head] is a local variable of the task. *)
Fixpoint interp (w : nat) (dq_head : Z) {l} (p : uprog l) : lcode val :=
  match p with
  | URet v => Ret v
  | USpawn u args k =>
      SPAWN (F_user u) w dq_head args ;;;
      interp w (dq_head + 1) k
  | @USync u _ k =>
      r <- SYNC (F_user u) w (dq_head - 1) ;;
      interp w (dq_head - 1) (k r)
  | UDrop k =>
      lace_drop w (dq_head - 1) ;;;
      interp w (dq_head - 1) k
  | UCall u args k =>
      r <- call (Fn_CALL (F_user u) w dq_head args) ;;
      interp w dq_head (k r)
  | URun u args k =>
      r <- RUN (F_user u) args ;;
      interp w dq_head (k r)
  | URunEx u args k =>
      r <- RUNEX (F_user u) args ;;
      interp w dq_head (k r)
  | UOp o k =>
      run_op w dq_head o ;;;
      interp w dq_head k
  | UNewframe u args k =>
      r <- NEWFRAME (F_user u) args ;;
      interp w dq_head (k r)
  | UTogether u args k =>
      TOGETHER (F_user u) args ;;;
      interp w dq_head k
  end.

(** [NAME##_WORK], the block after [TASK_IMPL_n]: the body of a task of the client. *)
Definition value_WORK (g : fid) (w : nat) (dq_head : Z) (args : list val) : lcode val :=
  match g with
  | F_user u => interp w dq_head (user_body u args)
  | _ => act Undefined ;;; Ret (VZ 0)
  end.

(** The block after [VOID_TASK_IMPL_n]; those in lace.c take arguments of certain types. *)
Definition void_WORK (g : fid) (w : nat) (dq_head : Z) (args : list val) : lcode unit :=
  match g, args with
  | F_lace_steal_random, [] => lace_steal_random w dq_head
  | F_lace_steal_loop, [VAtom quit] => lace_steal_loop w dq_head quit
  | F_lace_together_root, [VTask t; VAtom finished] => lace_together_root w dq_head t finished
  | F_lace_wrap_together, [VTask t] => lace_wrap_together w dq_head t
  | F_lace_newframe_root, [VTask t; VAtom done] => lace_newframe_root w dq_head t done
  | F_lace_wrap_newframe, [VTask t] => lace_wrap_newframe w dq_head t
  | F_user u, _ => interp w dq_head (user_body u args) ;;; Ret tt
  | _, _ => act Undefined
  end.

(** The functions that task [g] is implemented with. *)
Definition impl_of (g : fid) : option (task_impl (arity g)) :=
  let value := fun w dq_head => of_list (value_WORK g w dq_head) in
  let void := fun w dq_head => of_list (void_WORK g w dq_head) in
  match lace_header, is_void g with
  | lace_h, false => TaskMacros.TASK_IMPL (arity g) g value
  | lace_h, true => TaskMacros.VOID_TASK_IMPL (arity g) g void
  | lace14_h, false => TaskMacros14.TASK_IMPL (arity g) g value
  | lace14_h, true => TaskMacros14.VOID_TASK_IMPL (arity g) g void
  end.

(** The functions of the program: [NAME##_WRAP] and [NAME##_CALL] of every task. *)
Definition fn_body (f : fn) : lcode val :=
  declared (VZ 0)
    match f with
    | Fn_WRAP g w dq_head t => d ← impl_of g; Some (NAME_WRAP d w dq_head t)
    | Fn_CALL g w dq_head args => d ← impl_of g; apply_args (NAME_CALL d w dq_head) args
    end.

(** *** What they are *)

(** [NAME##_CALL] with the right number of arguments. *)
Definition gen_CALL (g : fid) (w : nat) (dq_head : Z) (args : list val) : lcode val :=
  if is_void g then void_WORK g w dq_head args ;;; Ret (VZ 0) else value_WORK g w dq_head args.

Definition impl_ok (g : fid) (d : task_impl (arity g)) : Prop :=
  (forall w h t, NAME_WRAP d w h t = gen_WRAP g (is_void g) (arity g) w h t) /\
  (forall w h args, length args = arity g -> apply_args (NAME_CALL d w h) args = Some (gen_CALL g w h args)).

Lemma value_impl g d :
  is_void g = false -> value_impl_ok g (arity g) (fun w h => of_list (value_WORK g w h)) d -> impl_ok g d.
Proof.
  intros Hv [Hw Hc]. unfold impl_ok, gen_CALL. rewrite Hv. split; [done|]. intros w h args Hl. by rewrite Hc, apply_of_list.
Qed.

Lemma void_impl g d :
  is_void g = true -> void_impl_ok g (arity g) (fun w h => of_list (void_WORK g w h)) d -> impl_ok g d.
Proof.
  intros Hv [Hw Hc]. unfold impl_ok, gen_CALL. rewrite Hv. split; [done|]. intros w h args Hl.
  destruct (Hc w h args Hl) as (c & Hap & ->). rewrite apply_of_list in Hap by done. by injection Hap as <-.
Qed.

Lemma impl_of_ok g d : impl_of g = Some d -> impl_ok g d.
Proof.
  unfold impl_of. destruct lace_header, (is_void g) eqn:Hv; intros Hd.
  - by apply void_impl; [|apply void_impl_generated].
  - by apply value_impl; [|apply impl_generated].
  - by apply void_impl; [|apply void_impl14_generated].
  - by apply value_impl; [|apply impl14_generated].
Qed.

Lemma impl_of_exists g : (arity g <= max_args)%nat -> exists d, impl_of g = Some d.
Proof.
  unfold impl_of, max_args. destruct lace_header, (is_void g);
    [apply void_impl_exists|apply impl_exists|apply void_impl14_exists|apply impl14_exists].
Qed.

Lemma fn_body_WRAP g w h t :
  (arity g <= max_args)%nat -> fn_body (Fn_WRAP g w h t) = gen_WRAP g (is_void g) (arity g) w h t.
Proof. intros Hn. unfold fn_body. destruct (impl_of_exists g Hn) as [d Hd]. rewrite Hd. apply (proj1 (impl_of_ok g d Hd)). Qed.

Lemma fn_body_CALL g w h args :
  (arity g <= max_args)%nat -> length args = arity g -> fn_body (Fn_CALL g w h args) = gen_CALL g w h args.
Proof.
  intros Hn Hl. unfold fn_body. destruct (impl_of_exists g Hn) as [d Hd]. rewrite Hd. simpl.
  by rewrite (proj2 (impl_of_ok g d Hd)).
Qed.

(** In every case: the template, or code that is not in any program. *)
Lemma fn_body_cases f :
  fn_body f = undeclared (VZ 0) \/
  fn_body f = match f with
              | Fn_WRAP g w h t => gen_WRAP g (is_void g) (arity g) w h t
              | Fn_CALL g w h args => gen_CALL g w h args
              end.
Proof.
  unfold fn_body. destruct f as [g w h t|g w h args]; (destruct (impl_of g) as [d|] eqn:Hd; [|by left]); simpl.
  - right. apply (proj1 (impl_of_ok g d Hd)).
  - destruct (decide (length args = arity g)) as [Hl|Hl].
    + right. by rewrite (proj2 (impl_of_ok g d Hd)).
    + left. by rewrite apply_args_length.
Qed.

(** ** The machine *)

Definition lace_step := step exec fn_body.
Definition lace_reachable := reachable exec fn_body.

Definition empty_task : Task := mkTask F_lace_steal_random THIEF_EMPTY (replicate d_words (VZ 0)).

(** Zero-filled memory. *)
Definition zero_mem : mem := {|
  workers := fun _ => false;
  pub := fun _ => mkWorker (mkTS 0 0) 0 0;
  priv := fun _ => mkWorkerP 0 0 0;
  slots := fun _ _ => empty_task;
  locals := fun _ => empty_task;
  n_locals := 0;
  ints := fun _ => 0;
  n_ints := 0;
  lace_newframe_t := None;
  sems := fun _ => 0;
  external_task := None;
  et_task := fun _ => TLoc 0;
  n_ets := 0;
  external_task_lock := None;
  created := fun _ => false;
  exited := false;
  freed := false |}.

(** Threads [0 .. n_workers-1] are the workers; the others are threads of the client. *)
Definition worker_thread (i : nat) : thread :=
  Thread (lace_worker_thread i ;;; Ret (VZ 0)) [].

Definition init_config (ext : list (lcode val)) : config :=
  Config ((worker_thread <$> seq 0 n_workers) ++ ((fun c => Thread c []) <$> ext)) zero_mem.
End Program.
