(* ===== verification/Barrier.v ===== *)
(** * The barrier

    [lace_barrier] (src/src/lace.c), for any number of rounds: no worker leaves a round
    before every worker has entered it, and no worker gets more than one round ahead.
    The proof is an instance of the logic of Conc.v of its own: the ghost state counts
    the rounds each worker has entered and left. *)

From S2P Require Export Program.

(** ** Ghost state and invariant *)

(** [rnd] rounds are over; worker [t] has entered [ent t] rounds and left [out t]; [rel]
    is the last worker to enter and how far it is with opening the barrier. *)
Record bghost := BG { rnd : nat; entd : nat -> nat; outd : nat -> nat; rel : option (nat * nat) }.

Definition mine (t : nat) (g : bghost) : option nat :=
  match rel g with Some (u, i) => if decide (u = t) then Some i else None | None => None end.

Section Barrier.
Context {cfg : Cfg}.

Abbreviation N := n_workers.

(** The wait flag after [n] rounds. *)
Definition flag (n : nat) : Z := if Nat.even n then 0 else 1.

Record BInv (s : mem * bghost) : Prop := {
  b_wait : ints s.1 lace_bar_wait = flag (rnd s.2);
  b_ent t : (t < N)%nat -> (rnd s.2 <= entd s.2 t <= S (rnd s.2) /\ outd s.2 t <= rnd s.2 /\
              outd s.2 t <= entd s.2 t <= S (outd s.2 t))%nat;
  b_pub t : (t < N)%nat -> Z.of_nat (entd s.2 t) <= ints s.1 (ALoc t) <= Z.of_nat (outd s.2 t) + 1;
  b_rel : match rel s.2 with
          | None => ints s.1 lace_bar_count = countb (fun t => entd s.2 t =? S (rnd s.2))%nat N /\
              ints s.1 lace_bar_count < Z.of_nat N /\
              ints s.1 lace_bar_leaving = countb (fun t => outd s.2 t <? rnd s.2)%nat N
          | Some (u, i) => (u < N)%nat /\ (forall t, (t < N)%nat -> entd s.2 t = S (rnd s.2)) /\
              match i with
              | 1%nat => ints s.1 lace_bar_count = Z.of_nat N /\ ints s.1 lace_bar_leaving = 0
              | 2%nat => ints s.1 lace_bar_count = 0 /\ ints s.1 lace_bar_leaving = 0
              | 3%nat => ints s.1 lace_bar_count = 0 /\ ints s.1 lace_bar_leaving = Z.of_nat N
              | _ => False
              end
          end;
}.

Record BRely (t : nat) (s s' : mem * bghost) : Prop := {
  br_ent : entd s'.2 t = entd s.2 t;
  br_out : outd s'.2 t = outd s.2 t;
  br_mine : mine t s'.2 = mine t s.2;
  br_pub : ints s'.1 (ALoc t) = ints s.1 (ALoc t);
  br_rnd : (rnd s.2 <= rnd s'.2)%nat;
}.

Lemma BRely_refl t s : BRely t s s.
Proof. by split. Qed.

Lemma BRely_trans t s1 s2 s3 : BRely t s1 s2 -> BRely t s2 s3 -> BRely t s1 s3.
Proof. intros [] []. split; congruence || lia. Qed.

Definition bar_logic : @logic ev fn val mem bghost unit := {|
  inv := BInv;
  rely := BRely;
  guar t s s' := forall u, u <> t -> BRely u s s';
  valid _ _ _ _ := True;
  rest _ _ := True;
  pre _ _ _ _ := False;
  post _ _ _ _ _ := False;
  rely_refl := BRely_refl;
  rely_trans := BRely_trans;
  guar_refl t s u _ := BRely_refl u s;
  guar_trans t s1 s2 s3 H1 H2 u Hne := BRely_trans u s1 s2 s3 (H1 u Hne) (H2 u Hne);
  guar_rely t u s s' Hne _ _ H := H u (not_eq_sym Hne) |}.

#[global] Instance bar_rests : AlwaysRests bar_logic.
Proof. done. Qed.

Abbreviation bsafe := (safe exec bar_logic).

(** What worker [t] knows of itself. *)
Record Me (t e o : nat) (p : Z) (st : option nat) (s : mem * bghost) : Prop := {
  me_worker : (t < N)%nat;
  me_ent : entd s.2 t = e;
  me_out : outd s.2 t = o;
  me_pub : ints s.1 (ALoc t) = p;
  me_mine : mine t s.2 = st;
}.

Lemma Me_stable t e o p st : stable bar_logic t (Me t e o p st).
Proof. intros s s' _ _ [] []. split; congruence. Qed.

(** The round worker [t] has entered is over. *)
Definition Over (t k : nat) (s : mem * bghost) : Prop :=
  Me t (S k) k (Z.of_nat k + 1) None s /\ rnd s.2 = S k.

Lemma Over_stable t k : stable bar_logic t (Over t k).
Proof.
  intros s s' Hi Hi' [HM Hr] HR. pose proof (Me_stable _ _ _ _ _ _ _ Hi Hi' HM HR) as HM'. split; [done|].
  pose proof (b_ent _ Hi' t (me_worker _ _ _ _ _ _ HM)) as H. rewrite (me_ent _ _ _ _ _ _ HM') in H.
  pose proof (br_rnd _ _ _ HR). lia.
Qed.

Lemma bsafe_act {A R} t (e : ev R) (rd : mem -> R) (upd : mem -> mem) (k : R -> lcode A) P Q s :
  (forall m, exec1 t e m = [(rd m, upd m)]) -> stable bar_logic t P -> BInv s -> P s ->
  (forall m g, BInv (m, g) -> P (m, g) -> exists g',
     (forall u, u <> t -> BRely u (m, g) (upd m, g')) /\ BInv (upd m, g') /\
     (BInv (upd m, g') -> bsafe t (k (rd m)) Q (upd m, g'))) ->
  bsafe t (Act e k) Q s.
Proof.
  intros He Hst Hi HP H. eapply (safe_act _ bar_logic _ _ _ P); [exact Hst|done|done|].
  intros [m g] Hi1 HP1. split; [done|]. intros r m' Hin. simpl in Hin. unfold exec in Hin.
  destruct (exited m); [by apply not_elem_of_nil in Hin|]. rewrite He in Hin.
  apply list_elem_of_singleton in Hin as [= -> ->]. destruct (H m g Hi1 HP1) as (g' & Hg & Hi' & Hk).
  exists g'. split_and!; [exact Hg|exact Hi'|by apply Hk].
Qed.

Lemma bsafe_read {A R} t (e : ev R) (rd : mem -> R) (k : R -> lcode A) P Q s :
  (forall m, exec1 t e m = [(rd m, m)]) -> stable bar_logic t P -> BInv s -> P s ->
  (forall m g, BInv (m, g) -> P (m, g) -> bsafe t (k (rd m)) Q (m, g)) ->
  bsafe t (Act e k) Q s.
Proof.
  intros He Hst Hi HP H. eapply (bsafe_act t e rd (fun m => m)); [done..|]. intros m g Hi1 HP1. exists g.
  split_and!; [intros u _; apply BRely_refl|done|]. intros _. by apply H.
Qed.

(** *** The steps of a worker *)

Lemma ints_upd a b x m : ints (upd_int a x m) b = if decide (a = b) then x else ints m b.
Proof.
  simpl. destruct (decide (a = b)) as [->|Hne]; [apply fn_lookup_insert|by apply fn_lookup_insert_ne].
Qed.

(** A worker that is not in the barrier keeps it closed. *)
Lemma outside_closed t k p st m g :
  BInv (m, g) -> Me t k k p st (m, g) -> rel g = None /\ rnd g = k.
Proof.
  intros Hi [Ht He Ho Hp Hm]. simpl in *. pose proof (b_ent _ Hi t Ht) as H. pose proof (b_rel _ Hi) as Hr. simpl in *.
  rewrite He, Ho in H. destruct (rel g) as [[u i]|]; [|split; [done|lia]].
  destruct Hr as (_ & Hall & _). specialize (Hall t Ht). lia.
Qed.

Definition enter_ghost (t : nat) (c : Z) (g : bghost) : bghost :=
  BG (rnd g) (<[t := S (entd g t)]> (entd g)) (outd g)
    (if Z.of_nat N =? 1 + c then Some (t, 1%nat) else None).

(** The ghost fields of other workers do not change. *)
Ltac at_other :=
  match goal with
  | |- context [<[?t := _]> ?f ?u] =>
      destruct (decide (t = u)) as [<-|?]; [rewrite !(fn_lookup_insert f)|rewrite !(fn_lookup_insert_ne f) by done]
  end.

Section Enter.
Variables (t k : nat) (m : mem) (g : bghost).
Hypotheses (Hi : BInv (m, g)) (HM : Me t k k (Z.of_nat k + 1) None (m, g)).

Let c := ints m lace_bar_count.
Let m' := upd_int lace_bar_count (c + 1) m.
Let g' := enter_ghost t c g.

Lemma enter_count : c + 1 = countb (fun u => entd g' u =? S (rnd g))%nat N.
Proof.
  destruct (outside_closed _ _ _ _ _ _ Hi HM) as [Hrel Hrnd]. destruct HM as [Ht He Ho Hp Hm].
  pose proof (b_rel _ Hi) as Hr. simpl in *. rewrite Hrel in Hr. destruct Hr as (Hc & _).
  unfold c. rewrite Hc. symmetry. apply (countb_set _ _ t); [done|apply Nat.eqb_neq; lia| |].
  - rewrite fn_lookup_insert. apply Nat.eqb_eq. lia.
  - intros i _ Hne. by rewrite fn_lookup_insert_ne.
Qed.

Lemma enter_ent u :
  (u < N)%nat -> (rnd g <= entd g' u <= S (rnd g) /\ outd g u <= rnd g /\
                  outd g u <= entd g' u <= S (outd g u))%nat.
Proof.
  intros Hu. destruct (outside_closed _ _ _ _ _ _ Hi HM) as [_ Hrnd].
  pose proof (b_ent _ Hi u Hu) as H. pose proof (me_ent _ _ _ _ _ _ HM). pose proof (me_out _ _ _ _ _ _ HM).
  simpl in *. at_other; lia.
Qed.

Lemma enter_inv : BInv (m', g').
Proof.
  destruct (outside_closed _ _ _ _ _ _ Hi HM) as [Hrel Hrnd].
  pose proof (b_rel _ Hi) as Hr. simpl in Hr. rewrite Hrel in Hr. destruct Hr as (Hc & Hlt & Hlv).
  pose proof enter_count as Hcnt. split.
  - simpl. rewrite fn_lookup_insert_ne by done. apply (b_wait _ Hi).
  - apply enter_ent.
  - intros u Hu. pose proof (b_pub _ Hi u Hu) as H. pose proof (me_ent _ _ _ _ _ _ HM) as He.
    pose proof (me_pub _ _ _ _ _ _ HM) as Hp. pose proof (me_out _ _ _ _ _ _ HM) as Ho.
    simpl in *. rewrite (fn_lookup_insert_ne (ints m)) by done. at_other; lia.
  - unfold m', g', enter_ghost. cbn [fst snd rel rnd outd]. rewrite !ints_upd. fold c.
    rewrite decide_True, decide_False by done. destruct (Z.eqb_spec (Z.of_nat N) (1 + c)) as [Heq|Hneq].
    + assert (Hall : forall u, (u < N)%nat -> entd g' u = S (rnd g)).
      { intros u Hu. apply Nat.eqb_eq. revert u Hu. apply countb_all. lia. }
      split_and!; [apply HM|apply Hall|lia|]. rewrite Hlv. apply countb_none. intros u Hu.
      apply Nat.ltb_ge. pose proof (enter_ent u Hu). rewrite (Hall u Hu) in *. lia.
    + split_and!; [exact Hcnt|lia|done].
Qed.

Lemma enter_rely u : u <> t -> BRely u (m, g) (m', g').
Proof.
  intros Hne. destruct (outside_closed _ _ _ _ _ _ Hi HM) as [Hrel _].
  split; simpl; [by rewrite fn_lookup_insert_ne|done| |by rewrite fn_lookup_insert_ne|done].
  unfold mine. simpl. rewrite Hrel. destruct (_ =? _); [|done]. by rewrite decide_False by done.
Qed.

Lemma enter_me :
  Me t (S k) k (Z.of_nat k + 1) (if Z.of_nat N =? 1 + c then Some 1%nat else None) (m', g').
Proof.
  destruct HM as [Ht He Ho Hp Hm]. simpl in *.
  split; simpl; [done|rewrite fn_lookup_insert; lia|done|by rewrite fn_lookup_insert_ne|].
  unfold mine. simpl. destruct (_ =? _); [by rewrite decide_True|done].
Qed.
End Enter.

Lemma mine_rel t g i : mine t g = Some i -> rel g = Some (t, i).
Proof. unfold mine. destruct (rel g) as [[u j]|]; [|done]. case_decide; [|done]. congruence. Qed.

(** The last worker resets the counters. *)
Definition stage_ghost (t i : nat) (g : bghost) : bghost := BG (rnd g) (entd g) (outd g) (Some (t, i)).

Lemma stage_step t k p i a x m g :
  (i = 1%nat /\ a = lace_bar_count /\ x = 0) \/ (i = 2%nat /\ a = lace_bar_leaving /\ x = Z.of_nat N) ->
  BInv (m, g) -> Me t (S k) k p (Some i) (m, g) ->
  let s' := (upd_int a x m, stage_ghost t (S i) g) in
  (forall u, u <> t -> BRely u (m, g) s') /\ BInv s' /\ Me t (S k) k p (Some (S i)) s'.
Proof.
  intros Hia Hi HM. cbv zeta. pose proof (mine_rel _ _ _ (me_mine _ _ _ _ _ _ HM)) as Hrel. simpl in Hrel.
  assert (Ha : forall b, b <> lace_bar_count -> b <> lace_bar_leaving -> ints (upd_int a x m) b = ints m b).
  { intros b H1 H2. rewrite ints_upd, decide_False by (destruct Hia as [(_ & -> & _)|(_ & -> & _)]; congruence). done. }
  split_and!.
  - intros u Hne. split; simpl; try done; [|by apply Ha]. unfold mine. simpl. rewrite Hrel.
    by rewrite !decide_False by done.
  - split; cbn [fst snd stage_ghost rnd entd outd rel].
    + rewrite Ha by done. apply (b_wait _ Hi).
    + apply (b_ent _ Hi).
    + intros u Hu. rewrite Ha by done. apply (b_pub _ Hi u Hu).
    + pose proof (b_rel _ Hi) as Hr. simpl in Hr. rewrite Hrel in Hr. destruct Hr as (Hu & Hall & Hst).
      split_and!; [done|done|].
      destruct Hia as [(-> & -> & ->)|(-> & -> & ->)]; destruct Hst; split; cbn [fst]; rewrite ints_upd; by case_decide.
  - destruct HM. split; simpl in *; try done; [by rewrite Ha|]. unfold mine. simpl. by rewrite decide_True.
Qed.

Lemma flag_flip k : 1 - flag k = flag (S k).
Proof. unfold flag. rewrite Nat.even_succ, <-Nat.negb_even. by destruct (Nat.even k). Qed.

(** Opening the barrier ends the round. *)
Lemma open_step t k p m g :
  BInv (m, g) -> Me t (S k) k p (Some 3%nat) (m, g) ->
  let s' := (upd_int lace_bar_wait (1 - flag k) m, BG (S (rnd g)) (entd g) (outd g) None) in
  (forall u, u <> t -> BRely u (m, g) s') /\ BInv s' /\ Me t (S k) k p None s' /\ rnd s'.2 = S k.
Proof.
  intros Hi HM. cbv zeta. pose proof (mine_rel _ _ _ (me_mine _ _ _ _ _ _ HM)) as Hrel. simpl in Hrel.
  pose proof (b_rel _ Hi) as Hr. simpl in Hr. rewrite Hrel in Hr. destruct Hr as (Hu & Hall & Hc & Hl).
  assert (Hrnd : rnd g = k) by (pose proof (me_ent _ _ _ _ _ _ HM) as He; simpl in He; rewrite (Hall t Hu) in He; lia).
  assert (Hout : forall u, (u < N)%nat -> outd g u = rnd g).
  { intros u Hu'. pose proof (b_ent _ Hi u Hu') as H. simpl in H. rewrite (Hall u Hu') in H. lia. }
  split_and!.
  - intros u Hne. split; simpl; try done; [|lia]. unfold mine. simpl. rewrite Hrel.
    by rewrite decide_False by done.
  - split; cbn [fst snd rnd entd outd rel]; rewrite ?ints_upd; simpl.
    + rewrite Hrnd. apply flag_flip.
    + intros u Hu'. rewrite (Hall u Hu'), (Hout u Hu'). lia.
    + intros u Hu'. apply (b_pub _ Hi u Hu').
    + rewrite Hc, Hl. split_and!; [|lia|].
      * symmetry. apply countb_none. intros u Hu'. rewrite (Hall u Hu'). apply Nat.eqb_neq. lia.
      * symmetry. apply countb_all. intros u Hu'. rewrite (Hout u Hu'). apply Nat.ltb_lt. lia.
  - by destruct HM; split.
  - simpl. by rewrite Hrnd.
Qed.

(** Leaving. *)
Lemma leave_step t k m g :
  BInv (m, g) -> Over t k (m, g) ->
  let s' := (upd_int lace_bar_leaving (ints m lace_bar_leaving + -1) m,
             BG (rnd g) (entd g) (<[t := S k]> (outd g)) (rel g)) in
  (forall u, u <> t -> BRely u (m, g) s') /\ BInv s' /\ Me t (S k) (S k) (Z.of_nat k + 1) None s'.
Proof.
  intros Hi [HM Hrnd]. cbv zeta. destruct HM as [Ht He Ho Hp Hm]. simpl in *.
  pose proof (b_rel _ Hi) as Hr. simpl in Hr.
  assert (Hrel : rel g = None).
  { destruct (rel g) as [[u i]|]; [|done]. destruct Hr as (_ & Hall & _). specialize (Hall t Ht). lia. }
  rewrite Hrel in *. destruct Hr as (Hc & Hlt & Hl). split_and!.
  - intros u Hne. split; simpl; try done; [by rewrite fn_lookup_insert_ne|]. unfold mine. simpl. by rewrite Hrel.
  - split; simpl.
    + apply (b_wait _ Hi).
    + intros u Hu. pose proof (b_ent _ Hi u Hu). simpl in *. at_other; lia.
    + intros u Hu. pose proof (b_pub _ Hi u Hu). simpl in *. change (<[lace_bar_leaving := _]> (ints m) (ALoc u)) with (ints m (ALoc u)).
      at_other; lia.
    + split_and!; [done..|]. rewrite fn_lookup_insert, Hl.
      rewrite (countb_set (fun u => <[t := S k]> (outd g) u <? rnd g)%nat (fun u => outd g u <? rnd g)%nat t); [lia|done| | |].
      * rewrite fn_lookup_insert. apply Nat.ltb_ge. lia.
      * apply Nat.ltb_lt. lia.
      * intros i _ Hne. by rewrite fn_lookup_insert_ne.
  - split; simpl; try done. by rewrite fn_lookup_insert.
Qed.

(** ** The barrier *)

Lemma bsafe_seq {A B} t (c : lcode A) (k : A -> lcode B) R Q s :
  BInv s -> bsafe t c R s -> (forall a s, BInv s -> R a s -> bsafe t (k a) Q s) ->
  bsafe t (bind c k) Q s.
Proof.
  intros Hi Hc Hk. apply (safe_bind _ bar_logic); [done|].
  eapply (safe_mono _ bar_logic); [|exact Hc]. exact Hk.
Qed.

(** The last worker opens the barrier. *)
Lemma bar_open t k s :
  BInv s -> Me t (S k) k (Z.of_nat k + 1) (Some 1%nat) s ->
  bsafe t (act (Store_int lace_bar_count 0) ;;;
           act (Store_int lace_bar_leaving (Z.of_nat N)) ;;;
           act (Store_int lace_bar_wait (1 - flag k))) (fun _ => Over t k) s.
Proof.
  intros Hi HM. cbn [bind act].
  eapply (bsafe_act t _ (fun _ => tt) (upd_int lace_bar_count 0)); [done|apply Me_stable|done|exact HM|].
  intros m g Hi1 HM1.
  destruct (stage_step t k (Z.of_nat k + 1) 1 lace_bar_count 0 m g) as (Hg & Hi2 & HM2); [by left|done..|].
  eexists. split_and!; [exact Hg|exact Hi2|]. intros _.
  eapply (bsafe_act t _ (fun _ => tt) (upd_int lace_bar_leaving (Z.of_nat N))); [done|apply Me_stable|done|exact HM2|].
  intros m3 g3 Hi3 HM3.
  destruct (stage_step t k (Z.of_nat k + 1) 2 lace_bar_leaving (Z.of_nat N) m3 g3) as (Hg4 & Hi4 & HM4); [by right|done..|].
  eexists. split_and!; [exact Hg4|exact Hi4|]. intros _.
  eapply (bsafe_act t _ (fun _ => tt) (upd_int lace_bar_wait (1 - flag k))); [done|apply Me_stable|done|exact HM4|].
  intros m5 g5 Hi5 HM5. destruct (open_step t k _ m5 g5 Hi5 HM5) as (Hg6 & Hi6 & HM6).
  eexists. split_and!; [exact Hg6|exact Hi6|]. intros _.
  apply (safe_ret _ bar_logic); [apply Over_stable|done|done].
Qed.

(** The others wait. *)
Lemma bar_spin t k s :
  BInv s -> Me t (S k) k (Z.of_nat k + 1) None s ->
  bsafe t (spin (Load_int lace_bar_wait) (fun w => negb (flag k =? w)) ;;; Ret tt) (fun _ => Over t k) s.
Proof.
  intros Hi HM. eapply (bsafe_seq _ _ _ (fun _ => Over t k)); [done| |].
  - eapply (safe_iter _ bar_logic _ (fun _ => Me t (S k) k (Z.of_nat k + 1) None));
      [done|done|intros; apply Me_stable|].
    clear dependent s. intros [] s HM Hi.
    eapply (bsafe_read t _ (fun m => ints m lace_bar_wait)); [done|apply Me_stable|done|exact HM|].
    clear dependent s. intros m g Hi HM. destruct (Z.eqb_spec (flag k) (ints m lace_bar_wait)) as [Heq|Hne]; cbn [negb].
    + apply (safe_ret _ bar_logic); [apply Me_stable|done|done].
    + assert (HO : Over t k (m, g)).
      { split; [done|]. simpl. pose proof (b_ent _ Hi t (me_worker _ _ _ _ _ _ HM)) as H.
        pose proof (me_ent _ _ _ _ _ _ HM) as He. pose proof (b_wait _ Hi) as Hw. simpl in *. rewrite Hw in Hne.
        destruct (decide (rnd g = k)) as [<-|]; [done|lia]. }
      eapply (safe_ret _ bar_logic); [apply (safe_rely _ bar_logic)|done|].
      apply (safe_ret _ bar_logic); [apply Over_stable|done|done].
  - clear dependent s. intros ? s Hi HO. apply (safe_ret _ bar_logic); [apply Over_stable|done|done].
Qed.

Lemma lace_barrier_spec t k s :
  BInv s -> Me t k k (Z.of_nat k + 1) None s ->
  bsafe t lace_barrier (fun _ => Me t (S k) (S k) (Z.of_nat k + 1) None) s.
Proof.
  intros Hi HM. unfold lace_barrier. cbn [bind act].
  eapply (bsafe_read t _ (fun m => ints m lace_bar_wait)); [done|apply Me_stable|done|exact HM|].
  clear dependent s. intros m g Hi HM. pose proof (b_wait _ Hi) as Hw. simpl in Hw. rewrite Hw.
  destruct (outside_closed _ _ _ _ _ _ Hi HM) as [_ ->].
  eapply (bsafe_act t _ (fun m => ints m lace_bar_count) (fun m => upd_int lace_bar_count (ints m lace_bar_count + 1) m));
    [done|apply Me_stable|done|exact HM|].
  clear dependent m g. intros m g Hi HM. eexists.
  split_and!; [by apply (enter_rely t k m g)|by apply (enter_inv t k m g)|]. intros Hi2.
  pose proof (enter_me t k m g HM) as HM2. set (s := (_, enter_ghost _ _ _)) in *. clearbody s.
  eapply (bsafe_seq _ _ _ (fun _ => Over t k)); [done| |].
  - destruct (_ =? _) in HM2 |- *; [by apply bar_open|by apply bar_spin].
  - clear dependent s m g. intros _ s Hi HO.
    eapply (bsafe_act t _ (fun m => ints m lace_bar_leaving)
      (fun m => upd_int lace_bar_leaving (ints m lace_bar_leaving + -1) m)); [done|apply Over_stable|done|exact HO|].
    clear dependent s. intros m g Hi HO. destruct (leave_step t k m g Hi HO) as (Hg & Hi2 & HM).
    eexists. split_and!; [exact Hg|exact Hi2|]. intros _.
    apply (safe_ret _ bar_logic); [apply Me_stable|done|done].
Qed.

(** ** A program that uses the barrier

    Every worker announces the round it enters, waits at the barrier, and then checks
    that every worker has announced this round, and none a round after the next. *)
Fixpoint saw_all (n i : nat) (j : Z) : lcode bool :=
  match n with
  | O => Ret true
  | S n' =>
      x <- act (Load_int (ALoc i)) ;;
      b <- saw_all n' (S i) j ;;
      Ret ((j <=? x) && (x <=? j + 1) && b)
  end.

Fixpoint bar_rounds (t rounds : nat) (j : Z) : lcode bool :=
  match rounds with
  | O => Ret true
  | S rounds' =>
      act (Store_int (ALoc t) j) ;;;
      lace_barrier ;;;
      b <- saw_all n_workers 0 j ;;
      b' <- bar_rounds t rounds' (j + 1) ;;
      Ret (b && b')
  end.

Definition bar_worker (rounds t : nat) : thread :=
  Thread (b <- bar_rounds t rounds 1 ;; Ret (VZ (if (b : bool) then 1 else 0))) [].

Lemma announce_step t k m g :
  BInv (m, g) -> Me t k k (Z.of_nat k) None (m, g) ->
  let s' := (upd_int (ALoc t) (Z.of_nat k + 1) m, g) in
  (forall u, u <> t -> BRely u (m, g) s') /\ BInv s' /\ Me t k k (Z.of_nat k + 1) None s'.
Proof.
  intros Hi HM. cbv zeta. destruct HM as [Ht He Ho Hp Hm]. simpl in *. split_and!.
  - intros u Hne. split; try done. simpl. rewrite fn_lookup_insert_ne; [done|congruence].
  - split; simpl; [apply (b_wait _ Hi)|apply (b_ent _ Hi)| |apply (b_rel _ Hi)].
    intros u Hu. pose proof (b_pub _ Hi u Hu). simpl in *. destruct (decide (u = t)) as [->|Hne].
    + rewrite fn_lookup_insert. lia.
    + rewrite fn_lookup_insert_ne by congruence. lia.
  - split; try done. simpl. by rewrite fn_lookup_insert.
Qed.

Lemma saw_all_spec t k n i s :
  (n + i <= N)%nat -> BInv s -> Me t (S k) (S k) (Z.of_nat k + 1) None s ->
  bsafe t (saw_all n i (Z.of_nat k + 1))
    (fun b s => b = true /\ Me t (S k) (S k) (Z.of_nat k + 1) None s) s.
Proof.
  assert (Hst : forall b, stable bar_logic t (fun s => b = true /\ Me t (S k) (S k) (Z.of_nat k + 1) None s)).
  { intros b s1 s2 Hi1 Hi2 [-> HM] HR. split; [done|]. exact (Me_stable _ _ _ _ _ _ _ Hi1 Hi2 HM HR). }
  revert i s. induction n as [|n IH]; intros i s Hn Hi HM; cbn [saw_all].
  - by apply (safe_ret _ bar_logic).
  - cbn [bind act]. eapply (bsafe_read t _ (fun m => ints m (ALoc i))); [done|apply Me_stable|done|exact HM|].
    clear dependent s. intros m g Hi HM. destruct (outside_closed _ _ _ _ _ _ Hi HM) as [_ Hrnd].
    pose proof (b_pub _ Hi i ltac:(lia)) as Hp. pose proof (b_ent _ Hi i ltac:(lia)) as He. simpl in *.
    rewrite (proj2 (Z.leb_le _ _)), (proj2 (Z.leb_le (ints m (ALoc i)) _)) by lia.
    eapply bsafe_seq; [done|by apply IH; [lia|..]|]. clear dependent m g. intros b s Hi [-> HM].
    by apply (safe_ret _ bar_logic).
Qed.

Lemma bar_rounds_spec t rounds k s :
  BInv s -> Me t k k (Z.of_nat k) None s ->
  bsafe t (bar_rounds t rounds (Z.of_nat k + 1)) (fun b _ => b = true) s.
Proof.
  revert k s. induction rounds as [|rounds IH]; intros k s Hi HM; cbn [bar_rounds].
  { by apply (safe_ret _ bar_logic). }
  cbn [bind act].
  eapply (bsafe_act t _ (fun _ => tt) (upd_int (ALoc t) (Z.of_nat k + 1))); [done|apply Me_stable|done|exact HM|].
  intros m g Hi1 HM1. destruct (announce_step t k m g Hi1 HM1) as (Hg & Hi2 & HM2).
  eexists. split_and!; [exact Hg|exact Hi2|]. intros _.
  eapply bsafe_seq; [done|by apply lace_barrier_spec|]. intros ? s3 Hi3 HM3.
  eapply bsafe_seq; [done|by apply saw_all_spec; [lia|..]|]. intros b s4 Hi4 [-> HM4].
  replace (Z.of_nat k + 1) with (Z.of_nat (S k)) in * by lia.
  eapply bsafe_seq; [done|by apply IH|]. intros b s5 Hi5 ->.
  by apply (safe_ret _ bar_logic).
Qed.
End Barrier.

Section BarrierProgram.
Context {cfg : Cfg} {client : Client}.

Definition bar_config (rounds : nat) : config := Config (bar_worker rounds <$> seq 0 n_workers) zero_mem.

Definition bar_ghost : bghost := BG 0 (fun _ => 0%nat) (fun _ => 0%nat) None.

Lemma bar_init_inv : (0 < n_workers)%nat -> BInv (zero_mem, bar_ghost).
Proof.
  intros HN. split; simpl; try done; try lia.
  split_and!; [by rewrite countb_none|lia|by rewrite countb_none].
Qed.

Lemma bar_config_ok rounds :
  (0 < n_workers)%nat ->
  config_ok exec bar_logic (fun _ v _ => v = VZ 1) (bar_config rounds).
Proof.
  intros HN. pose proof (bar_init_inv HN) as Hi. exists bar_ghost. split; [done|]. simpl. intros t th Hl.
  rewrite list_lookup_fmap in Hl. destruct (seq 0 n_workers !! t) as [u|] eqn:Hs; simplify_eq/=.
  apply lookup_seq in Hs as [-> Ht]. exists (fun v _ => v = VZ 1). split; [|by intros v s _ ?].
  eapply bsafe_seq; [done|apply (bar_rounds_spec t rounds 0); [done|by split]|].
  intros b s Hi2 ->. by apply (safe_ret _ bar_logic).
Qed.

Lemma bar_reachable_ok rounds c :
  (0 < n_workers)%nat -> reachable exec fn_body (bar_config rounds) c -> config_ok exec bar_logic (fun _ v _ => v = VZ 1) c.
Proof.
  intros HN Hr. eapply (reachable_ok exec fn_body bar_logic); [|by apply (bar_config_ok rounds)|exact Hr]. by intros ? ? ? ? _ [].
Qed.

(** C14: in every execution in which all workers go through [lace_barrier] any number of
    times, no worker leaves a round before every worker has entered it, and no worker is
    more than one round ahead: every worker that finishes saw, after each barrier, that
    each worker had announced this round or the next one. *)
Theorem barrier_synchronises rounds c t v :
  reachable exec fn_body (bar_config rounds) c ->
  threads c !! t = Some (Thread (Ret v) []) -> v = VZ 1.
Proof.
  intros Hr Hth. destruct (decide (0 < n_workers)%nat) as [HN|HN].
  - pose proof (bar_reachable_ok rounds c HN Hr) as Hok.
    by destruct (config_ok_final _ _ _ _ _ _ Hok Hth) as (g & _ & ->).
  - apply lookup_lt_Some in Hth. rewrite (reachable_length _ _ _ _ Hr) in Hth. simpl in Hth.
    rewrite length_fmap, length_seq in Hth. lia.
Qed.

(** C24: the counters of the barrier stay in range: in every state of such an execution
    [lace_bar.count] and [lace_bar.leaving] are between 0 and the number of workers and
    [lace_bar.wait] is 0 or 1, so the [atomic_int]s do not overflow. *)
Theorem barrier_counters_bounded rounds c :
  (0 < n_workers)%nat -> reachable exec fn_body (bar_config rounds) c ->
  0 <= ints (memory c) lace_bar_count <= Z.of_nat n_workers /\
  0 <= ints (memory c) lace_bar_leaving <= Z.of_nat n_workers /\
  0 <= ints (memory c) lace_bar_wait <= 1.
Proof.
  intros HN Hr. destruct (bar_reachable_ok rounds c HN Hr) as ([n e o r] & [Hw _ _ Hrel] & _). simpl in *. rewrite Hw.
  assert (0 <= flag n <= 1) by (unfold flag; destruct (Nat.even n); lia).
  destruct r as [[u [|[|[|[|i]]]]]|]; simpl in Hrel; try lia.
  destruct Hrel as (-> & _ & ->). split_and!; try lia; apply countb_range.
Qed.
End BarrierProgram.

(** Three workers, two rounds. *)
Definition bar_cfg : Cfg :=
  {| n_workers := 3; dqsize := 16; d_words := 6; lace_header := lace_h;
     user_void := fun _ => false; user_arity := fun _ => 1%nat; user_drops := false |}.

Lemma barrier_synchronises_witness :
  let cfg := bar_cfg in let client := {| user_body := fun _ _ => URet (VZ 0) |} in
  exists v, threads (round_robin exec fn_body 400 0 (bar_config 2)) !! 1%nat = Some (Thread (Ret v) []) /\ v = VZ 1.
Proof.
  intros cfg client. exists (VZ 1). split; [vm_compute; reflexivity|].
  apply (barrier_synchronises 2 (round_robin exec fn_body 400 0 (bar_config 2)) 1).
  - apply round_robin_reachable.
  - vm_compute. reflexivity.
Defined.

(** After 8 steps two workers have entered the barrier. *)
Lemma barrier_counters_bounded_witness :
  let cfg := bar_cfg in let client := {| user_body := fun _ _ => URet (VZ 0) |} in
  0 <= ints (memory (round_robin exec fn_body 8 0 (bar_config 2))) lace_bar_count <= Z.of_nat n_workers.
Proof.
  intros cfg client. assert (HN : (0 < n_workers)%nat) by (simpl; lia).
  exact (proj1 (barrier_counters_bounded 2 _ HN (round_robin_reachable exec fn_body 8 0 (bar_config 2)))).
Defined.
