(* ===== verification/Invariant.v ===== *)
(** * The invariant of the running scheduler

    Ghost state that records, for every deque, which tasks are live and who has
    them; the invariant that ties it to the memory; and what a thread may rely on
    while the other threads run. *)

From S2P Require Export Program.

(** ** Ghost state *)

(** A task is still private to the thread that builds it, available to whoever takes
    it first, taken by a worker, or done. *)
Inductive status := Mine (t : nat) | Avail | Taken (q : nat) | Done.

Definition payload : Type := nat * list val.

Record entry := mkEntry { e_pay : payload; e_st : status }.

(** Facts a worker remembers while it facts other tasks: the external task it facts and
    its descriptor; that the task at an index of its deque was taken; that the thief
    has written its name there; that it is done. *)
Inductive fact := FRun (e id : nat) | FStolen (i : Z) | FLeap (i : Z) | FDone (i : Z).

Definition fact_index (f : fact) : option Z :=
  match f with FRun _ _ => None | FStolen i | FLeap i | FDone i => Some i end.

(** [live p] is the content of worker [p]'s deque, oldest task first; [lext] the tasks
    on the stacks of client threads; [holds q] the tasks worker [q] is executing for
    others, innermost first; [facts q] what it has to
    remember meanwhile. *)
Record ghost := mkGhost {
  base : nat -> Z;
  live : nat -> list entry;
  lext : nat -> option entry;
  holds : nat -> list (tref * payload);
  facts : nat -> list fact;
}.

Definition ent (l : list entry) (i : Z) : option entry :=
  if decide (0 <= i) then l !! Z.to_nat i else None.

Definition avail (l : list entry) (i : Z) : Prop :=
  exists e, ent l i = Some e /\ e_st e = Avail.

(** What is known of a task by its address. *)
Definition tinfo (t : tref) (g : ghost) : option entry :=
  match t with TSlot p i => ent (live g p) i | TLoc id => lext g id end.

(** The part of the ghost state only thread [t] changes. *)
Record lview := LV {
  lv_base : Z;
  lv_live : list payload;
  lv_holds : list (tref * payload);
  lv_facts : list fact
}.

Definition with_live (L : lview) (l : list payload) : lview := LV (lv_base L) l (lv_holds L) (lv_facts L).
Definition with_holds (L : lview) (h : list (tref * payload)) : lview :=
  LV (lv_base L) (lv_live L) h (lv_facts L).
Definition with_facts (L : lview) (r : list fact) : lview :=
  LV (lv_base L) (lv_live L) (lv_holds L) r.

Definition view (t : nat) (g : ghost) : lview :=
  LV (base g t) (e_pay <$> live g t) (holds g t) (facts g t).

(** *** Lists indexed by [Z] *)

Lemma ent_range l i e : ent l i = Some e -> 0 <= i < zlen l.
Proof.
  unfold ent, zlen. case_decide; [|done]. intros Hl%lookup_lt_Some. lia.
Qed.

Lemma ent_is_Some l i : 0 <= i < zlen l -> exists e, ent l i = Some e.
Proof.
  unfold ent, zlen. intros Hi. rewrite decide_True by lia.
  apply lookup_lt_is_Some_2. lia.
Qed.

Lemma ent_app_l l l' i : i < zlen l -> ent (l ++ l') i = ent l i.
Proof.
  unfold ent, zlen. intros Hi. case_decide; [|done]. apply lookup_app_l. lia.
Qed.

Lemma ent_snoc l e : ent (l ++ [e]) (zlen l) = Some e.
Proof.
  unfold ent, zlen. rewrite decide_True by lia.
  rewrite Nat2Z.id. by apply list_lookup_middle.
Qed.

Lemma avail_app_l l l' i : i < zlen l -> avail (l ++ l') i <-> avail l i.
Proof. intros Hi. unfold avail. by rewrite ent_app_l. Qed.

(** Replacing the status of one entry. *)
Definition set_st (l : list entry) (i : Z) (s : status) : list entry :=
  alter (fun e => mkEntry (e_pay e) s) (Z.to_nat i) l.

Lemma pay_set_st l i s : e_pay <$> set_st l i s = e_pay <$> l.
Proof.
  unfold set_st. apply list_eq. intros j. rewrite !list_lookup_fmap.
  destruct (decide (j = Z.to_nat i)) as [->|Hne].
  - rewrite list_lookup_alter_eq. by destruct (l !! Z.to_nat i).
  - by rewrite list_lookup_alter_ne.
Qed.

Lemma zlen_set_st l i s : zlen (set_st l i s) = zlen l.
Proof. unfold zlen, set_st. by rewrite length_alter. Qed.

Lemma ent_set_st_ne l i j s : 0 <= i -> i <> j -> ent (set_st l i s) j = ent l j.
Proof.
  unfold ent, set_st. intros Hi Hne. case_decide; [|done].
  rewrite list_lookup_alter_ne; [done|lia].
Qed.

Lemma ent_set_st l i s e : ent l i = Some e -> ent (set_st l i s) i = Some (mkEntry (e_pay e) s).
Proof.
  intros H. pose proof (ent_range _ _ _ H). unfold ent, set_st in *.
  rewrite decide_True in * by lia. by rewrite list_lookup_alter_eq, H.
Qed.

(** *** Ghost updates *)

Definition g_live (p : nat) (l : list entry) (g : ghost) : ghost :=
  mkGhost (base g) (<[p := l]> (live g)) (lext g) (holds g) (facts g).
Definition g_lext (id : nat) (e : entry) (g : ghost) : ghost :=
  mkGhost (base g) (live g) (<[id := Some e]> (lext g)) (holds g) (facts g).
Definition g_holds (q : nat) (h : list (tref * payload)) (g : ghost) : ghost :=
  mkGhost (base g) (live g) (lext g) (<[q := h]> (holds g)) (facts g).
Definition g_facts (q : nat) (r : list fact) (g : ghost) : ghost :=
  mkGhost (base g) (live g) (lext g) (holds g) (<[q := r]> (facts g)).

(** Change the status of a task. *)
Definition g_status (tr : tref) (s : status) (g : ghost) : ghost :=
  match tr with
  | TSlot p i => g_live p (set_st (live g p) i s) g
  | TLoc id => mkGhost (base g) (live g)
      (<[id := (fun e => mkEntry (e_pay e) s) <$> lext g id]> (lext g)) (holds g) (facts g)
  end.

Lemma tinfo_status tr tr' s g e :
  tinfo tr g = Some e ->
  tinfo tr' (g_status tr s g) = if decide (tr = tr') then Some (mkEntry (e_pay e) s) else tinfo tr' g.
Proof.
  destruct tr as [p i|id], tr' as [p' i'|id']; simpl; intros He; try done.
  - pose proof (ent_range _ _ _ He). case_insert.
    + destruct (decide (i = i')) as [<-|Hne].
      * rewrite decide_True by done. by apply ent_set_st.
      * rewrite decide_False by congruence. apply ent_set_st_ne; [lia|done].
    + by rewrite decide_False by congruence.
  - case_insert.
    + rewrite decide_True by done. by rewrite He.
    + by rewrite decide_False by congruence.
Qed.

Lemma view_status t tr s g : view t (g_status tr s g) = view t g.
Proof.
  destruct tr as [p i|id]; unfold view; simpl; [|done].
  f_equal. case_insert; [|done]. apply pay_set_st.
Qed.

Lemma ent_status tr s g p i e :
  tinfo tr g = Some e ->
  ent (live (g_status tr s g) p) i =
  if decide (tr = TSlot p i) then Some (mkEntry (e_pay e) s) else ent (live g p) i.
Proof. apply (tinfo_status tr (TSlot p i)). Qed.

Lemma lext_status tr s g id e :
  tinfo tr g = Some e ->
  lext (g_status tr s g) id =
  if decide (tr = TLoc id) then Some (mkEntry (e_pay e) s) else lext g id.
Proof. apply (tinfo_status tr (TLoc id)). Qed.

Lemma zlen_status tr s g p : zlen (live (g_status tr s g) p) = zlen (live g p).
Proof. destruct tr; simpl; [|done]. case_insert; [|done]. apply zlen_set_st. Qed.

(** ** The invariant *)

Section Inv.
Context {cfg : Cfg}.

(** [ok (u, args) v]: the task [u(args)] may return [v]. *)
Variable ok : payload -> val -> Prop.

Definition args_in (T : Task) (args : list val) : Prop :=
  take (length args) (task_d T) = args.

(** The task is ready to be run: its function and arguments are in place. *)
Definition task_ready (T : Task) (p : payload) : Prop :=
  task_f T = F_user p.1 /\ args_in T p.2 /\ length p.2 = user_arity p.1.

(** The result [SYNC] and [RUN] return for it. *)
Definition task_res (p : payload) (T : Task) : val :=
  if user_void p.1 then VZ 0 else get_d 0 T.

Definition slot_ok (hs : nat -> list (tref * payload)) (p : nat) (i : Z) (T : Task) (e : entry) : Prop :=
  match e_st e with
  | Mine _ => False
  | Avail => task_thief T = THIEF_TASK /\ task_ready T (e_pay e)
  | Taken q => q <> p /\ (q < n_workers)%nat /\ (TSlot p i, e_pay e) ∈ hs q /\
               (task_thief T = THIEF_TASK \/ task_thief T = Thief q)
  | Done => task_thief T = THIEF_COMPLETED /\ ok (e_pay e) (task_res (e_pay e) T)
  end.

(** The capacity of the deque of [p]; only workers have one. *)
Definition dq_cap (p : nat) : Z := if decide (p < n_workers)%nat then dqsize else 0.

(** One deque: what is published between [tail] and [split] is available. *)
Record dq_inv (hs : nat -> list (tref * payload)) (p : nat) (ts : TailSplit) (sl : Z -> Task)
    (l : list entry) (b : Z) : Prop := {
  dq_len : zlen l <= dq_cap p;
  dq_slots i e : ent l i = Some e -> slot_ok hs p i (sl i) e;
  dq_shared : ts_tail ts < ts_split ts ->
    0 <= b <= ts_tail ts /\ ts_split ts <= zlen l /\
    forall i, ts_tail ts <= i < ts_split ts -> avail l i;
}.

Definition loc_ok (hs : nat -> list (tref * payload)) (id : nat) (T : Task) (e : entry) : Prop :=
  match e_st e with
  | Mine _ => True
  | Avail => task_ready T (e_pay e)
  | Taken q => (q < n_workers)%nat /\ (TLoc id, e_pay e) ∈ hs q
  | Done => ok (e_pay e) (task_res (e_pay e) T)
  end.

Definition fact_ok (q : nat) (f : fact) (m : mem) (g : ghost) : Prop :=
  match f with
  | FRun e id => (e < n_ets m)%nat /\ et_task m e = TLoc id
  | FStolen i => exists e, ent (live g q) i = Some e /\ e_st e <> Avail
  | FLeap i => exists e, ent (live g q) i = Some e /\
      (e_st e = Done \/ exists th, e_st e = Taken th /\ task_thief (slots m q i) = Thief th)
  | FDone i => exists e, ent (live g q) i = Some e /\ e_st e = Done
  end.

(** A task that was taken stays so until it is done, and its thief field only changes
    to the name of the thief. *)
Definition advances (e : entry) (T : Task) (e' : entry) (T' : Task) : Prop :=
  e_st e' = Done \/
  (e_st e' = e_st e /\
   (task_thief T' = task_thief T \/ exists th, e_st e = Taken th /\ task_thief T' = Thief th)).

Lemma fact_ok_mono q f m g m' g' :
  fact_ok q f m g ->
  (n_ets m <= n_ets m')%nat -> (forall e, (e < n_ets m)%nat -> et_task m' e = et_task m e) ->
  (forall i e, fact_index f = Some i -> ent (live g q) i = Some e -> e_st e <> Avail ->
     exists e', ent (live g' q) i = Some e' /\ advances e (slots m q i) e' (slots m' q i)) ->
  fact_ok q f m' g'.
Proof.
  intros Hf Hn Het Hadv. destruct f as [e id|i|i|i]; simpl in *.
  - destruct Hf as [H1 H2]. split; [lia|]. by rewrite Het.
  - destruct Hf as (e & He & Hst). destruct (Hadv i e) as (e' & He' & Ha); [done..|].
    exists e'. split; [done|]. destruct Ha as [->|[-> _]]; done.
  - destruct Hf as (e & He & Hst). destruct (Hadv i e) as (e' & He' & Ha); [done|done| |].
    { destruct Hst as [->|(th & -> & _)]; done. }
    exists e'. split; [done|]. destruct Ha as [->|[-> Hth]]; [by left|].
    destruct Hst as [->|(th & Hst & Ht)]; [by left|]. right. exists th. split; [done|].
    destruct Hth as [->|(th' & ? & ->)]; [done|congruence].
  - destruct Hf as (e & He & Hst). destruct (Hadv i e) as (e' & He' & Ha); [done..|by rewrite Hst|].
    exists e'. split; [done|]. destruct Ha as [?|[? _]]; congruence.
Qed.

Lemma advances_refl e T : advances e T e T.
Proof. right. eauto. Qed.

(** Facts do not notice steps that leave the deques alone. *)
Lemma fact_ok_same q f m g m' g' :
  fact_ok q f m g -> live g' = live g -> slots m' = slots m ->
  (n_ets m <= n_ets m')%nat -> (forall e, (e < n_ets m)%nat -> et_task m' e = et_task m e) ->
  fact_ok q f m' g'.
Proof.
  intros Hf Hl Hs Hn He. eapply fact_ok_mono; [done..|]. intros i e _ Hent _. rewrite Hl, Hs.
  eauto using advances_refl.
Qed.

Record Inv (s : mem * ghost) : Prop := {
  inv_newframe : lace_newframe_t s.1 = None;
  inv_dq p : dq_inv (holds s.2) p (w_ts (pub s.1 p)) (slots s.1 p) (live s.2 p) (base s.2 p);
  inv_holds q tr pay : (tr, pay) ∈ holds s.2 q -> tinfo tr s.2 = Some (mkEntry pay (Taken q));
  inv_nodup q : NoDup (fst <$> holds s.2 q);
  inv_words t : length (task_d (get_task t s.1)) = d_words;
  inv_loc id e : lext s.2 id = Some e ->
    (id < n_locals s.1)%nat /\ loc_ok (holds s.2) id (locals s.1 id) e;
  inv_ext e : external_task s.1 = Some e ->
    (e < n_ets s.1)%nat /\
    exists id en, et_task s.1 e = TLoc id /\ lext s.2 id = Some en /\ e_st en = Avail;
  inv_sem e : 0 < sems s.1 (SExt e) ->
    (e < n_ets s.1)%nat /\
    exists id en, et_task s.1 e = TLoc id /\ lext s.2 id = Some en /\ e_st en = Done;
  inv_facts q f : f ∈ facts s.2 q -> fact_ok q f s.1 s.2;
}.

(** What thread [t] relies on while others run: its own view and private data stay;
    others move the tail of its deque only up to the split point, taking exactly the
    tasks they pass; finished tasks, the part of the array above the head, the tasks
    it holds and the tasks it is building stay as they are. *)
Record Rely (t : nat) (s s' : mem * ghost) : Prop := {
  r_view : view t s'.2 = view t s.2;
  r_priv : priv s'.1 t = priv s.1 t;
  r_split : ts_split (w_ts (pub s'.1 t)) = ts_split (w_ts (pub s.1 t));
  r_allstolen : w_allstolen (pub s'.1 t) = w_allstolen (pub s.1 t);
  r_tail : ts_tail (w_ts (pub s.1 t)) <= ts_tail (w_ts (pub s'.1 t));
  r_tail_le : ts_tail (w_ts (pub s'.1 t)) = ts_tail (w_ts (pub s.1 t)) \/
              ts_tail (w_ts (pub s'.1 t)) <= ts_split (w_ts (pub s.1 t));
  r_avail i : avail (live s'.2 t) i <->
    avail (live s.2 t) i /\ ~ (ts_tail (w_ts (pub s.1 t)) <= i < ts_tail (w_ts (pub s'.1 t)));
  r_done i e : ent (live s.2 t) i = Some e -> e_st e = Done ->
    ent (live s'.2 t) i = Some e /\ slots s'.1 t i = slots s.1 t i;
  r_high i : zlen (live s.2 t) <= i -> slots s'.1 t i = slots s.1 t i;
  r_held tr pay : (tr, pay) ∈ holds s.2 t -> get_task tr s'.1 = get_task tr s.1;
  r_ext id e : lext s.2 id = Some e -> exists e', lext s'.2 id = Some e' /\ e_pay e' = e_pay e;
  r_mine id e : lext s.2 id = Some e -> e_st e = Mine t \/ e_st e = Done ->
    lext s'.2 id = Some e /\ locals s'.1 id = locals s.1 id;
  r_locals : (n_locals s.1 <= n_locals s'.1)%nat;
  r_n_ets : (n_ets s.1 <= n_ets s'.1)%nat;
  r_et e : (e < n_ets s.1)%nat -> et_task s'.1 e = et_task s.1 e;
  r_lock : external_task_lock s.1 = Some t -> external_task_lock s'.1 = Some t;
  r_exited : exited s.1 = true -> exited s'.1 = true;
}.

(** Every task somebody has an interest in can be accessed. *)
Lemma tinfo_valid tr e m g : Inv (m, g) -> tinfo tr g = Some e -> tref_valid tr m.
Proof.
  intros HI. destruct tr as [p i|id]; simpl; intros He.
  - apply ent_range in He. pose proof (dq_len _ _ _ _ _ _ (inv_dq _ HI p)) as Hl. simpl in Hl.
    unfold dq_cap in Hl. case_decide; [|lia]. split; [done|lia].
  - by destruct (inv_loc _ HI id e He).
Qed.

Definition Guar (t : nat) (s s' : mem * ghost) : Prop := forall t', t' <> t -> Rely t' s s'.

Lemma view_holds t s s' : view t s' = view t s -> holds s' t = holds s t.
Proof. unfold view. congruence. Qed.

Lemma view_zlen t s s' : view t s' = view t s -> zlen (live s' t) = zlen (live s t).
Proof.
  unfold view. intros H. simplify_eq. rewrite <-(zlen_fmap e_pay (live s' t)).
  by match goal with H : _ <$> _ = _ |- _ => rewrite H; rewrite zlen_fmap end.
Qed.

Lemma Rely_refl t s : Rely t s s.
Proof. split; try done; try lia; eauto. intros i. split; [intros; split; [done|lia]|tauto]. Qed.

Lemma Rely_trans t s1 s2 s3 : Rely t s1 s2 -> Rely t s2 s3 -> Rely t s1 s3.
Proof.
  intros [] []. split; try congruence; try lia.
  - intros i. rewrite r_avail1, r_avail0. split; intros; destruct_and?; split_and?; auto; lia.
  - intros i e H1 H2. destruct (r_done0 i e H1 H2) as [H3 H4].
    destruct (r_done1 i e H3 H2) as [H5 H6]. split; congruence.
  - intros i Hi. rewrite r_high1, r_high0; [done..|].
    by rewrite (view_zlen _ _ _ r_view0).
  - intros tr pay H. rewrite (r_held1 tr pay); [by eapply r_held0|].
    by rewrite (view_holds _ _ _ r_view0).
  - intros id e H. destruct (r_ext0 id e H) as (e1 & H1 & P1).
    destruct (r_ext1 id e1 H1) as (e2 & H2 & P2). exists e2. split; congruence.
  - intros id e H1 H2. destruct (r_mine0 id e H1 H2) as [H3 H4].
    destruct (r_mine1 id e H3 H2) as [H5 H6]. split; congruence.
  - intros e He. rewrite r_et1, r_et0; [done..|lia].
  - auto.
  - auto.
Qed.

(** A step thread [t] may take: the others can rely on it and it keeps the invariant. *)
Definition good (t : nat) (s s' : mem * ghost) : Prop := Guar t s s' /\ Inv s'.

Lemma good_trans t s1 s2 s3 : good t s1 s2 -> good t s2 s3 -> good t s1 s3.
Proof. intros [G1 _] [G2 I2]. split; [|done]. intros t' Ht. eapply Rely_trans; eauto. Qed.

End Inv.
