(* ===== verification/Steps.v ===== *)
(** * The steps the scheduler takes

    Every change a thread makes to the shared memory, with the change of the ghost
    state that goes with it, keeps the invariant and is one the other threads can
    rely on. *)

From S2P Require Export Invariant.

Section Steps.
Context {cfg : Cfg}.
Variable ok : payload -> val -> Prop.
Abbreviation Inv := (Inv ok).
Abbreviation good := (good ok).

(** ** Steps that touch no task *)

(** Memories that agree on everything but the private data of [t], the public word
    and flags of [t], [movesplit], integers, the suspend semaphore and the mutex. *)
Record core_eq (t : nat) (m m' : mem) : Prop := {
  ce_newframe : lace_newframe_t m' = lace_newframe_t m;
  ce_slots : slots m' = slots m;
  ce_locals : locals m' = locals m;
  ce_n_locals : n_locals m' = n_locals m;
  ce_external : external_task m' = external_task m;
  ce_et : et_task m' = et_task m;
  ce_n_ets : n_ets m' = n_ets m;
  ce_sems e : sems m' (SExt e) = sems m (SExt e);
  ce_priv p : p <> t -> priv m' p = priv m p;
  ce_ts p : p <> t -> w_ts (pub m' p) = w_ts (pub m p);
  ce_allstolen p : p <> t -> w_allstolen (pub m' p) = w_allstolen (pub m p);
  ce_lock p : p <> t -> external_task_lock m = Some p -> external_task_lock m' = Some p;
  ce_exited : exited m = true -> exited m' = true;
}.

Lemma core_eq_get_task t m m' tr : core_eq t m m' -> get_task tr m' = get_task tr m.
Proof. intros []. destruct tr; simpl; congruence. Qed.

Definition shared_ok (ts : TailSplit) (l : list entry) (b : Z) : Prop :=
  ts_tail ts < ts_split ts ->
  0 <= b <= ts_tail ts /\ ts_split ts <= zlen l /\
  forall i, ts_tail ts <= i < ts_split ts -> avail l i.

Lemma no_move l tl i : avail l i <-> avail l i /\ ~ (tl <= i < tl).
Proof. split; [intros; split; [done|lia]|tauto]. Qed.

#[local] Hint Resolve no_move : core.

Lemma good_core t m m' g :
  Inv (m, g) -> core_eq t m m' ->
  shared_ok (w_ts (pub m' t)) (live g t) (base g t) ->
  good t (m, g) (m', g).
Proof.
  intros HI HC Hsh. pose proof (fun tr => core_eq_get_task t m m' tr HC) as Hgt.
  destruct HC as [Cnf Csl Clo Cnl Cx Cet Cne Cse Cpr Cts Cas Clk Cex]. split.
  - intros t' Ht. specialize (Cts t' Ht). split; simpl; rewrite ?Cts; try done; try congruence; try lia; eauto.
    + intros; split; congruence.
    + intros; split; congruence.
  - split; simpl; try (by apply HI); try congruence.
    + rewrite Cnf. apply HI.
    + intros p. rewrite Csl. destruct (inv_dq _ _ HI p) as [D1 D2 D3]. split; [done..|].
      destruct (decide (p = t)) as [->|Hne]; [done|]. by rewrite Cts.
    + intros tr. rewrite Hgt. apply HI.
    + intros id e. rewrite Cnl, Clo. apply HI.
    + intros e. rewrite Cx, Cne, Cet. apply HI.
    + intros e. rewrite Cse, Cne, Cet. apply HI.
    + intros q f Hin%(inv_facts _ _ HI). eapply fact_ok_same; [done..|simpl; lia|simpl; congruence].
Qed.

(** Steps that only touch the external task, its descriptors and semaphores. *)
Lemma good_ext_core t m m' g :
  Inv (m, g) ->
  lace_newframe_t m' = lace_newframe_t m -> pub m' = pub m -> priv m' = priv m ->
  slots m' = slots m -> locals m' = locals m -> n_locals m' = n_locals m ->
  (n_ets m <= n_ets m')%nat -> external_task_lock m' = external_task_lock m ->
  exited m' = exited m ->
  (forall e, (e < n_ets m)%nat -> et_task m' e = et_task m e) ->
  (forall e, external_task m' = Some e -> external_task m = Some e) ->
  (forall e, 0 < sems m' (SExt e) -> 0 < sems m (SExt e) \/
     ((e < n_ets m)%nat /\ exists id en, et_task m e = TLoc id /\ lext g id = Some en /\ e_st en = Done)) ->
  good t (m, g) (m', g).
Proof.
  intros HI Hnf Hpub Hpriv Hsl Hlo Hnl Hne Hlk Hex Het Hx Hse.
  assert (Hgt : forall tr, get_task tr m' = get_task tr m) by (intros []; simpl; congruence).
  split.
  - intros t' Ht. split; simpl; rewrite ?Hpub, ?Hpriv, ?Hsl, ?Hlo, ?Hnl, ?Hlk, ?Hex; try done; try lia; eauto.
  - split; simpl; rewrite ?Hnf, ?Hpub, ?Hsl, ?Hlo, ?Hnl; try apply HI.
    + intros tr. rewrite Hgt. apply HI.
    + intros e He%Hx. destruct (inv_ext _ _ HI e He) as (? & id & en & ? & ? & ?). simpl in *.
      split; [lia|]. exists id, en. by rewrite Het.
    + intros e [He|He]%Hse.
      * destruct (inv_sem _ _ HI e He) as (? & id & en & ? & ? & ?). simpl in *.
        split; [lia|]. exists id, en. by rewrite Het.
      * destruct He as (? & id & en & ? & ? & ?). split; [lia|]. exists id, en. by rewrite Het.
    + intros q f Hin%(inv_facts _ _ HI). by eapply fact_ok_same.
Qed.

(** Changing what the thread remembers. *)
Lemma good_facts t m g r :
  Inv (m, g) -> (forall f, f ∈ r -> fact_ok t f m g) -> good t (m, g) (m, g_facts t r g).
Proof.
  intros HI Hr. split.
  - intros t' Ht. split; simpl; try done; try lia; eauto.
    unfold view; simpl. by rewrite fn_lookup_insert_ne.
  - split; simpl; try apply HI. intros q f. case_insert; [apply Hr|apply HI].
Qed.

(** ** Writing a task that belongs to the thread *)

Lemma slots_set_task tr T m p i :
  slots (set_task tr T m) p i = if decide (tr = TSlot p i) then T else slots m p i.
Proof.
  destruct tr as [p' i'|id]; simpl; [|by repeat case_decide].
  unfold insert, fn_insert. repeat case_decide; simplify_eq; done.
Qed.

Lemma locals_set_task tr T m id :
  locals (set_task tr T m) id = if decide (tr = TLoc id) then T else locals m id.
Proof.
  destruct tr as [p' i'|id']; simpl; [by repeat case_decide|].
  unfold insert, fn_insert. repeat case_decide; simplify_eq; done.
Qed.

Lemma get_set_task tr tr' T m :
  get_task tr' (set_task tr T m) = if decide (tr = tr') then T else get_task tr' m.
Proof.
  destruct tr' as [p i|id]; unfold get_task; [apply slots_set_task|apply locals_set_task].
Qed.

(** Memories that differ in one task only. *)
Record task_upd (tr : tref) (m m' : mem) : Prop := {
  tu_newframe : lace_newframe_t m' = lace_newframe_t m;
  tu_pub : pub m' = pub m;
  tu_priv : priv m' = priv m;
  tu_n_locals : n_locals m' = n_locals m;
  tu_external : external_task m' = external_task m;
  tu_et : et_task m' = et_task m;
  tu_n_ets : n_ets m' = n_ets m;
  tu_sems : sems m' = sems m;
  tu_lock : external_task_lock m' = external_task_lock m;
  tu_exited : exited m' = exited m;
  tu_task tr' : tr' <> tr -> get_task tr' m' = get_task tr' m;
}.

Lemma task_upd_set tr T m : task_upd tr m (set_task tr T m).
Proof.
  split; try (by destruct tr). intros tr' Hne. rewrite get_set_task. by rewrite decide_False by congruence.
Qed.

Lemma task_upd_refl tr m : task_upd tr m m.
Proof. by split. Qed.

(** Thread [t] may write [tr]: a slot above its own head, a stack task it is still
    building, or a task it has taken. *)
Definition own_slot (t : nat) (tr : tref) (g : ghost) : Prop :=
  match tr with
  | TSlot p i => p = t /\ zlen (live g t) <= i
  | TLoc id => exists e, lext g id = Some e /\ e_st e = Mine t
  end.

Definition held (t : nat) (tr : tref) (g : ghost) : Prop := exists pay, (tr, pay) ∈ holds g t.

Definition owns (t : nat) (tr : tref) (g : ghost) : Prop := own_slot t tr g \/ held t tr g.

Lemma held_tinfo t tr m g :
  Inv (m, g) -> held t tr g -> exists pay, tinfo tr g = Some (mkEntry pay (Taken t)).
Proof. intros HI (pay & H). exists pay. by apply (inv_holds _ _ HI). Qed.

(** Nobody else has an interest in it. *)
Lemma owns_excl t t' tr m g : Inv (m, g) -> owns t tr g -> t' <> t -> ~ held t' tr g.
Proof.
  intros HI Ho Hne Hh. apply (held_tinfo t' tr m g HI) in Hh as (pay & Hp).
  destruct Ho as [Ho|Ho].
  - destruct tr as [p i|id]; simpl in *.
    + destruct Ho as [-> Hi]. apply ent_range in Hp. lia.
    + destruct Ho as (e & He & Hm). by simplify_eq.
  - apply (held_tinfo t tr m g HI) in Ho as (pay' & Hp'). congruence.
Qed.

Lemma owns_slot_ne t t' i m g :
  Inv (m, g) -> owns t (TSlot t' i) g -> t' <> t ->
  exists e, ent (live g t') i = Some e /\ e_st e = Taken t.
Proof.
  intros HI [[-> _]|Hh] Hne; [done|].
  apply (held_tinfo t _ m g HI) in Hh as (pay & Hp). eauto.
Qed.

Lemma owns_loc t id m g :
  Inv (m, g) -> owns t (TLoc id) g ->
  exists e, lext g id = Some e /\ (e_st e = Mine t \/ e_st e = Taken t).
Proof.
  intros HI [(e & He & Hm)|Hh]; [eauto|].
  apply (held_tinfo t _ m g HI) in Hh as (pay & Hp). eauto.
Qed.

Lemma set_task_guar t m g tr T :
  Inv (m, g) -> owns t tr g -> Guar t (m, g) (set_task tr T m, g).
Proof.
  intros HI Ho t' Ht. destruct (task_upd_set tr T m).
  split; simpl; rewrite ?tu_pub0, ?tu_priv0, ?tu_n_locals0, ?tu_et0, ?tu_n_ets0, ?tu_lock0, ?tu_exited0;
    try done; try lia; eauto.
  - intros i e He Hd. split; [done|]. rewrite slots_set_task. case_decide; [|done]. subst tr.
    destruct (owns_slot_ne t t' i m g) as (e' & ? & ?); [done..|]. congruence.
  - intros i Hi. rewrite slots_set_task. case_decide; [|done]. subst tr.
    destruct (owns_slot_ne t t' i m g) as (e' & Hr%ent_range & ?); [done..|]. lia.
  - intros tr' pay Hin. rewrite get_set_task. case_decide; [|done]. subst tr'.
    exfalso. eapply (owns_excl t t'); eauto. by exists pay.
  - intros id e He Hd. split; [done|]. rewrite locals_set_task. case_decide; [|done]. subst tr.
    destruct (owns_loc t id m g HI Ho) as (e' & He' & [Hs|Hs]); destruct Hd; congruence.
Qed.

Lemma set_task_inv t m g tr T :
  Inv (m, g) -> owns t tr g -> length (task_d T) = d_words ->
  (held t tr g -> task_thief T = task_thief (get_task tr m) \/ task_thief T = Thief t) ->
  Inv (set_task tr T m, g).
Proof.
  intros HI Ho Hlen Hth. destruct (task_upd_set tr T m).
  split; simpl; rewrite ?tu_newframe0, ?tu_pub0, ?tu_external0, ?tu_sems0, ?tu_et0, ?tu_n_ets0, ?tu_n_locals0;
    try apply HI.
  - intros p. destruct (inv_dq _ _ HI p) as [H1 H2 H3]. simpl in *. split; [done| |done].
    intros i e He. rewrite slots_set_task. case_decide; [|by apply H2]. subst tr.
    destruct Ho as [[-> Hi]|Hh]; [apply ent_range in He; lia|].
    specialize (Hth Hh). apply (held_tinfo t _ m g HI) in Hh as (pay & Hp). simpl in Hp.
    specialize (H2 i e He). rewrite Hp in He. simplify_eq. unfold slot_ok in *. simpl in *.
    destruct H2 as (? & ? & ? & ?). split_and!; [done..|]. destruct Hth as [->| ->]; [done|by right].
  - intros tr'. rewrite get_set_task. case_decide; [done|]. apply HI.
  - intros id e He. destruct (inv_loc _ _ HI id e He) as [H1 H2]. split; [done|].
    rewrite locals_set_task. case_decide; [|done]. subst tr.
    destruct (owns_loc t id m g HI Ho) as (e' & He' & Hst). simpl in *. simplify_eq.
    unfold loc_ok in *. by destruct Hst as [Hst|Hst]; rewrite Hst in *.
  - intros q f Hin%(inv_facts _ _ HI). eapply fact_ok_mono; [done|simpl; by rewrite ?tu_n_ets0|by rewrite tu_et0|].
    intros i e _ He _. exists e. split; [done|]. rewrite slots_set_task.
    case_decide; [|apply advances_refl]. subst tr. right. split; [done|].
    destruct Ho as [[-> Hi]|Hh]; [simpl in *; apply ent_range in He; lia|].
    destruct (Hth Hh); [by left|right]. exists t. split; [|done].
    apply (held_tinfo t _ m g HI) in Hh as (pay & Hp). simpl in Hp. by simplify_eq/=.
Qed.

Lemma good_set_task t m g tr T :
  Inv (m, g) -> owns t tr g -> length (task_d T) = d_words ->
  (held t tr g -> task_thief T = task_thief (get_task tr m) \/ task_thief T = Thief t) ->
  good t (m, g) (set_task tr T m, g).
Proof. intros. split; [by apply set_task_guar|by eapply set_task_inv]. Qed.

(** ** Pushing and popping the owner's end of the deque *)

Lemma live_guar t m g l : Guar t (m, g) (m, g_live t l g).
Proof.
  intros t' Ht. split; simpl; rewrite ?fn_lookup_insert_ne by done; try done; try lia; eauto.
  unfold view; simpl. by rewrite fn_lookup_insert_ne.
Qed.

Lemma good_push t m g pay :
  Inv (m, g) -> zlen (live g t) < dq_cap t ->
  task_thief (slots m t (zlen (live g t))) = THIEF_TASK ->
  task_ready (slots m t (zlen (live g t))) pay ->
  good t (m, g) (m, g_live t (live g t ++ [mkEntry pay Avail]) g).
Proof.
  intros HI Hlen Hth Hrd. split; [apply live_guar|]. split; simpl; try apply HI.
  - intros p. destruct (inv_dq _ _ HI p) as [H1 H2 H3]. simpl in *. case_insert; [|done].
    rename p into t. assert (zlen (live g t ++ [mkEntry pay Avail]) = zlen (live g t) + 1) as Hz
      by (by rewrite zlen_app). split.
    + lia.
    + intros i e He. pose proof (ent_range _ _ _ He) as Hr.
      destruct (decide (i = zlen (live g t))) as [->|Hne].
      * rewrite ent_snoc in He. by simplify_eq.
      * rewrite ent_app_l in He by lia. by apply H2.
    + intros Hts. destruct (H3 Hts) as (Hb & Hs & Ha). split_and!; [lia..|].
      intros i Hi. apply avail_app_l; [lia|]. by apply Ha.
  - intros q tr pay' Hin. rewrite <-(inv_holds _ _ HI q tr pay' Hin). destruct tr as [p i|id]; [|done].
    simpl. case_insert; [|done]. apply ent_app_l.
    specialize (inv_holds _ _ HI q _ pay' Hin) as Ht%ent_range. simpl in *. lia.
  - intros q f Hin%(inv_facts _ _ HI). eapply fact_ok_mono; [done..|]. simpl.
    intros i e _ He _. exists e. split; [|apply advances_refl]. case_insert; [|done].
    rewrite ent_app_l; [done|]. apply ent_range in He. lia.
Qed.

Lemma good_pop t m g l e :
  Inv (m, g) -> live g t = l ++ [e] -> (forall q, e_st e <> Taken q) ->
  shared_ok (w_ts (pub m t)) l (base g t) ->
  (forall f i, f ∈ facts g t -> fact_index f = Some i -> i < zlen l) ->
  good t (m, g) (m, g_live t l g).
Proof.
  intros HI Hl Hst Hsh Hf. split; [apply live_guar|]. split; simpl; try apply HI.
  - intros p. destruct (inv_dq _ _ HI p) as [H1 H2 H3]. simpl in *. case_insert; [|done].
    rewrite Hl in *. rewrite zlen_app in *. split; [unfold zlen in *; simpl in *; lia| |done].
    intros i e' He. apply H2. rewrite ent_app_l; [done|]. apply ent_range in He. lia.
  - intros q tr pay Hin. pose proof (inv_holds _ _ HI q tr pay Hin) as Ht. simpl in *.
    rewrite <-Ht. destruct tr as [p i|id]; [|done]. simpl in *. case_insert; [|done].
    rewrite Hl in *. pose proof (ent_range _ _ _ Ht) as Hr. rewrite zlen_app in Hr.
    destruct (decide (i = zlen l)) as [->|Hne].
    + rewrite ent_snoc in Ht. simplify_eq. by destruct (Hst q).
    + rewrite ent_app_l; [done|]. unfold zlen in *; simpl in *; lia.
  - intros q f Hin. pose proof (inv_facts _ _ HI q f Hin) as Hok. eapply fact_ok_mono; [done..|]. simpl.
    intros i e' Hfi He _. exists e'. split; [|apply advances_refl]. case_insert; [|done].
    rewrite <-He, Hl. symmetry. apply ent_app_l. eauto.
Qed.

(** ** Taking a task and completing it *)

(** Thread [t] takes [tr]. *)
Definition g_take (t : nat) (tr : tref) (pay : payload) (g : ghost) : ghost :=
  g_holds t ((tr, pay) :: holds g t) (g_status tr (Taken t) g).

(** Thread [t] is done with [tr], the last task it took. *)
Definition g_complete (t : nat) (tr : tref) (H : list (tref * payload)) (g : ghost) : ghost :=
  g_holds t H (g_status tr Done g).

#[local] Arguments g_take : simpl never.
#[local] Arguments g_complete : simpl never.

Lemma holds_status tr s g : holds (g_status tr s g) = holds g.
Proof. by destruct tr. Qed.

Lemma facts_status tr s g : facts (g_status tr s g) = facts g.
Proof. by destruct tr. Qed.

Lemma base_status tr s g : base (g_status tr s g) = base g.
Proof. by destruct tr. Qed.

(** Both change one status, the holdings of [t] and nothing else. *)
Record status_step (t : nat) (tr : tref) (pay : payload) (s : status) (H : list (tref * payload))
    (g g' : ghost) : Prop := {
  ss_base : base g' = base g;
  ss_holds : holds g' = <[t := H]> (holds g);
  ss_facts : facts g' = facts g;
  ss_tinfo tr' : tinfo tr' g' = if decide (tr = tr') then Some (mkEntry pay s) else tinfo tr' g;
  ss_ent p i : ent (live g' p) i = if decide (tr = TSlot p i) then Some (mkEntry pay s) else ent (live g p) i;
  ss_lext id : lext g' id = if decide (tr = TLoc id) then Some (mkEntry pay s) else lext g id;
  ss_zlen p : zlen (live g' p) = zlen (live g p);
  ss_view t' : t' <> t -> view t' g' = view t' g;
}.

Lemma status_step_intro t tr pay s s0 H g :
  tinfo tr g = Some (mkEntry pay s0) ->
  status_step t tr pay s H g (g_holds t H (g_status tr s g)).
Proof.
  intros Htr. split; simpl.
  - apply base_status.
  - by rewrite holds_status.
  - by rewrite facts_status.
  - intros tr'. change (tinfo tr' (g_status tr s g) = if decide (tr = tr') then Some (mkEntry pay s) else tinfo tr' g).
    by rewrite (tinfo_status tr tr' s g _ Htr).
  - intros p i. by rewrite (ent_status tr s g p i _ Htr).
  - intros id. by rewrite (lext_status tr s g id _ Htr).
  - intros p. apply zlen_status.
  - intros t' Hne. rewrite <-(view_status t' tr s g). unfold view; simpl. by rewrite fn_lookup_insert_ne.
Qed.

Lemma avail_status_step t tr pay s H g g' p i :
  status_step t tr pay s H g g' -> s <> Avail ->
  avail (live g' p) i <-> avail (live g p) i /\ tr <> TSlot p i.
Proof.
  intros Hss Hs. unfold avail. rewrite (ss_ent _ _ _ _ _ _ _ Hss). case_decide.
  - split; [intros (e & ? & ?); by simplify_eq|by intros [_ ?]].
  - tauto.
Qed.

(** Taking a task nobody holds keeps what the invariant says of holders. *)
Lemma take_holds t tr pay st m g g' :
  Inv (m, g) -> tinfo tr g = Some (mkEntry pay st) -> (forall q, st <> Taken q) ->
  status_step t tr pay (Taken t) ((tr, pay) :: holds g t) g g' ->
  (forall q tr' pay', (tr', pay') ∈ holds g' q -> tinfo tr' g' = Some (mkEntry pay' (Taken q))) /\
  (forall q, NoDup (holds g' q).*1) /\
  (forall q x, x ∈ holds g q -> x ∈ holds g' q) /\
  (tr, pay) ∈ holds g' t.
Proof.
  intros HI Htr Hst Hss. assert (Hnot : forall q pay', (tr, pay') ∈ holds g q -> False).
  { intros q pay' Hin. apply (inv_holds _ _ HI) in Hin. simpl in Hin. rewrite Htr in Hin.
    injection Hin as _ Heq. by apply (Hst q). }
  rewrite (ss_holds _ _ _ _ _ _ _ Hss). split_and!.
  - intros q tr' pay' Hin. rewrite (ss_tinfo _ _ _ _ _ _ _ Hss). case_insert.
    + apply elem_of_cons in Hin as [Hin|Hin]; [simplify_eq; by rewrite decide_True|].
      rewrite decide_False; [by apply (inv_holds _ _ HI)|]. intros ->. eauto.
    + rewrite decide_False; [by apply (inv_holds _ _ HI)|]. intros ->. eauto.
  - intros q. case_insert; [|apply HI]. simpl. constructor; [|apply HI].
    intros ((tr' & pay') & -> & Hin)%list_elem_of_fmap. eauto.
  - intros q x Hin. case_insert; [|done]. by apply elem_of_cons; right.
  - rewrite fn_lookup_insert. by left.
Qed.

Lemma slot_ok_mono hs hs' p i T e :
  (forall q x, x ∈ hs q -> x ∈ hs' q) -> slot_ok ok hs p i T e -> slot_ok ok hs' p i T e.
Proof. intros H. unfold slot_ok. destruct (e_st e); [done..| |done]. intros (?&?&?&?). eauto. Qed.

Lemma loc_ok_mono hs hs' id T e :
  (forall q x, x ∈ hs q -> x ∈ hs' q) -> loc_ok ok hs id T e -> loc_ok ok hs' id T e.
Proof. intros H. unfold loc_ok. destruct (e_st e); [done..| |done]. intros (?&?). eauto. Qed.

(** *** Stealing from a deque *)

Section Steal.
Variables (t v : nat) (tl sp : Z) (pay : payload) (m : mem) (g g' : ghost).
Hypothesis HI : Inv (m, g).
Hypothesis Hne : v <> t.
Hypothesis Hts : w_ts (pub m v) = mkTS tl sp.
Hypothesis Hlt : tl < sp.
Hypothesis Htr : tinfo (TSlot v tl) g = Some (mkEntry pay Avail).
Hypothesis Hss : status_step t (TSlot v tl) pay (Taken t) ((TSlot v tl, pay) :: holds g t) g g'.

Let m' := upd_pub v (set_ts (mkTS (tl + 1) sp)) m.

Lemma steal_lext id : lext g' id = lext g id.
Proof. rewrite (ss_lext _ _ _ _ _ _ _ Hss). by rewrite decide_False by done. Qed.

Lemma steal_avail p i : avail (live g' p) i <-> avail (live g p) i /\ TSlot v tl <> TSlot p i.
Proof. by apply (avail_status_step _ _ _ _ _ _ _ _ _ Hss). Qed.

Lemma steal_guar : Guar t (m, g) (m', g').
Proof.
  intros t' Ht'. split; simpl; try done; try lia; eauto.
  - by apply (ss_view _ _ _ _ _ _ _ Hss).
  - by case_insert; rewrite ?Hts.
  - by case_insert.
  - case_insert; rewrite ?Hts; simpl; lia.
  - case_insert; rewrite ?Hts; simpl; lia.
  - intros i. rewrite steal_avail. case_insert; rewrite ?Hts; simpl.
    + split; intros [? Hn]; (split; [done|]); [|intros [=]; apply Hn; lia].
      intros ?. apply Hn. f_equal. lia.
    + split; intros [? Hn]; (split; [done|]); [lia|congruence].
  - intros i e He Hd. split; [|done]. rewrite (ss_ent _ _ _ _ _ _ _ Hss). rewrite decide_False; [done|].
    intros [= <- <-]. simpl in Htr. by simplify_eq/=.
  - intros id e He. rewrite steal_lext. eauto.
  - intros id e He _. by rewrite steal_lext.
Qed.

Lemma steal_dq p :
  (t < n_workers)%nat -> (forall q x, x ∈ holds g q -> x ∈ holds g' q) -> (TSlot v tl, pay) ∈ holds g' t ->
  dq_inv ok (holds g') p (w_ts (pub m' p)) (slots m' p) (live g' p) (base g' p).
Proof.
  intros Ht Tm Tt. pose proof steal_avail as Hav. destruct (inv_dq _ _ HI p) as [P1 P2 P3]. simpl in P1, P2, P3.
  rewrite (ss_base _ _ _ _ _ _ _ Hss). split.
  - by rewrite (ss_zlen _ _ _ _ _ _ _ Hss).
  - intros i e He. rewrite (ss_ent _ _ _ _ _ _ _ Hss) in He. case_decide as Hd.
    + simplify_eq. specialize (P2 _ _ Htr). unfold slot_ok in *. simpl in P2 |- *.
      split_and!; [done..|left; tauto].
    + eapply slot_ok_mono; [apply Tm|]. by apply P2.
  - rewrite (ss_zlen _ _ _ _ _ _ _ Hss). unfold m'. simpl. case_insert; simpl.
    + rewrite Hts in P3. simpl in P3. destruct (P3 Hlt) as (? & ? & Ha). intros Hlt'. split_and!; [lia..|].
      intros i Hi. apply Hav. split; [apply Ha; lia|]. intros [=]. lia.
    + intros Hlt'. destruct (P3 Hlt') as (? & ? & Ha). split_and!; [lia..|].
      intros i Hi. apply Hav. split; [by apply Ha|]. congruence.
Qed.

Lemma steal_inv : (t < n_workers)%nat -> Inv (m', g').
Proof.
  intros Ht. destruct (take_holds t (TSlot v tl) pay Avail m g g' HI Htr) as (Th & Tn & Tm & Tt); [done..|].
  split; simpl; rewrite ?(ss_facts _ _ _ _ _ _ _ Hss); try done; try apply HI.
  - intros p. by apply steal_dq.
  - intros id e He. rewrite steal_lext in He. destruct (inv_loc _ _ HI id e He) as [L1 L2]. split; [done|].
    by eapply loc_ok_mono; [apply Tm|].
  - intros e He. destruct (inv_ext _ _ HI e He) as (? & id & en & ? & ? & ?). split; [done|].
    exists id, en. by rewrite steal_lext.
  - intros e He. destruct (inv_sem _ _ HI e He) as (? & id & en & ? & ? & ?). split; [done|].
    exists id, en. by rewrite steal_lext.
  - intros q f Hin%(inv_facts _ _ HI). eapply fact_ok_mono; [done..|]. simpl.
    intros i e _ He Hst. exists e. rewrite (ss_ent _ _ _ _ _ _ _ Hss). split; [|apply advances_refl].
    case_decide as Hd; [|done]. by simplify_eq/=.
Qed.
End Steal.

Lemma good_steal t v m g tl sp :
  Inv (m, g) -> v <> t -> (t < n_workers)%nat ->
  w_ts (pub m v) = mkTS tl sp -> tl < sp ->
  exists pay,
    tinfo (TSlot v tl) g = Some (mkEntry pay Avail) /\
    task_ready (slots m v tl) pay /\
    good t (m, g) (upd_pub v (set_ts (mkTS (tl + 1) sp)) m, g_take t (TSlot v tl) pay g).
Proof.
  intros HI Hne Ht Hts Hlt.
  destruct (inv_dq _ _ HI v) as [H1 H2 H3]. simpl in H1, H2, H3.
  rewrite Hts in H3. destruct (H3 Hlt) as (Hb & Hs & Ha). simpl in *.
  destruct (Ha tl) as ([pay st] & He & Hst); [lia|]. simpl in Hst. subst st. exists pay.
  specialize (H2 _ _ He) as Hok. unfold slot_ok in Hok. simpl in Hok. destruct Hok as [Hth Hrd].
  assert (Htr : tinfo (TSlot v tl) g = Some (mkEntry pay Avail)) by done.
  pose proof (status_step_intro t (TSlot v tl) pay (Taken t) Avail ((TSlot v tl, pay) :: holds g t) g Htr) as Hss.
  split_and!; [done..|]. split; [by eapply steal_guar|by eapply steal_inv].
Qed.

(** *** Taking a task on a stack *)

Section TakeLoc.
Variables (t id : nat) (pay : payload) (st : status) (m : mem) (g g' : ghost).
Hypothesis HI : Inv (m, g).
Hypothesis Hid : lext g id = Some (mkEntry pay st).
Hypothesis Hst : st = Avail \/ st = Mine t.
Hypothesis Hss : status_step t (TLoc id) pay (Taken t) ((TLoc id, pay) :: holds g t) g g'.
Hypothesis Hlive : live g' = live g.

Lemma take_loc_lext id' : lext g' id' = if decide (id = id') then Some (mkEntry pay (Taken t)) else lext g id'.
Proof. rewrite (ss_lext _ _ _ _ _ _ _ Hss). repeat case_decide; congruence. Qed.

Lemma take_loc_guar : Guar t (m, g) (m, g').
Proof.
  intros t' Ht'. split; simpl; rewrite ?Hlive; try done; try lia; eauto.
  - by apply (ss_view _ _ _ _ _ _ _ Hss).
  - intros id' en Hen. rewrite take_loc_lext. case_decide; [simplify_eq; eauto|eauto].
  - intros id' en Hen Hd. rewrite take_loc_lext. case_decide; [|done]. simplify_eq/=.
    destruct Hst, Hd; congruence.
Qed.

Lemma take_loc_inv :
  (t < n_workers)%nat -> (forall e, external_task m = Some e -> et_task m e <> TLoc id) -> Inv (m, g').
Proof.
  intros Ht Hx.
  destruct (take_holds t (TLoc id) pay st m g g' HI Hid) as (Th & Tn & Tm & Tt);
    [intros q; destruct Hst; congruence|done|].
  split; simpl; rewrite ?(ss_facts _ _ _ _ _ _ _ Hss); try done; try apply HI.
  - intros p. destruct (inv_dq _ _ HI p) as [P1 P2 P3]. simpl in P1, P2, P3.
    rewrite Hlive, (ss_base _ _ _ _ _ _ _ Hss). split; [done| |done].
    intros i en Hen. eapply slot_ok_mono; [apply Tm|]. by apply P2.
  - intros id' en. rewrite take_loc_lext. case_decide as Heq.
    + subst id'. destruct (inv_loc _ _ HI _ _ Hid) as [? _]. intros [= <-]. by split.
    + intros Hen. destruct (inv_loc _ _ HI id' en Hen). split; [done|]. by eapply loc_ok_mono; [apply Tm|].
  - intros e He. destruct (inv_ext _ _ HI e He) as (? & id' & en & Het & Hi & ?). split; [done|].
    exists id', en. rewrite take_loc_lext. split_and!; [done| |done]. case_decide; [|done]. subst id'.
    by destruct (Hx e He).
  - intros e He. destruct (inv_sem _ _ HI e He) as (? & id' & en & ? & Hi & Hd). split; [done|].
    exists id', en. rewrite take_loc_lext. split_and!; [done| |done]. case_decide; [|done].
    simplify_eq/=. by destruct Hst; subst.
  - intros q f Hin%(inv_facts _ _ HI). by eapply fact_ok_same.
Qed.
End TakeLoc.

Lemma good_take_loc t id pay st m g :
  Inv (m, g) -> lext g id = Some (mkEntry pay st) -> st = Avail \/ st = Mine t -> (t < n_workers)%nat ->
  (forall e, external_task m = Some e -> et_task m e <> TLoc id) ->
  good t (m, g) (m, g_take t (TLoc id) pay g).
Proof.
  intros HI Hid Hst Ht Hx.
  pose proof (status_step_intro t (TLoc id) pay (Taken t) st ((TLoc id, pay) :: holds g t) g Hid) as Hss.
  split; [by eapply take_loc_guar|by eapply take_loc_inv].
Qed.

Lemma good_take_ext t m g e id pay :
  Inv (m, g) -> (t < n_workers)%nat -> external_task m = Some e ->
  et_task m e = TLoc id -> lext g id = Some (mkEntry pay Avail) ->
  good t (m, g) (set_external None m, g_take t (TLoc id) pay g).
Proof.
  intros HI Ht He Het Hid.
  assert (Hg : good t (m, g) (set_external None m, g)) by (apply good_ext_core; [done..|by left]).
  eapply good_trans; [exact Hg|]. eapply good_take_loc; [apply Hg|done|by left|done|done].
Qed.

(** *** Completing a task *)

(** Completing the last task taken keeps what the invariant says of the others. *)
Lemma complete_holds t tr pay m g g' H :
  Inv (m, g) -> holds g t = (tr, pay) :: H ->
  status_step t tr pay Done H g g' ->
  (forall q tr' pay', (tr', pay') ∈ holds g' q -> tinfo tr' g' = Some (mkEntry pay' (Taken q))) /\
  (forall q, NoDup (holds g' q).*1) /\
  (forall q tr' pay', tr' <> tr -> (tr', pay') ∈ holds g q -> (tr', pay') ∈ holds g' q).
Proof.
  intros HI Hh Hss. rewrite (ss_holds _ _ _ _ _ _ _ Hss).
  pose proof (inv_nodup _ _ HI t) as Hnd. simpl in Hnd. rewrite Hh in Hnd. simpl in Hnd.
  apply NoDup_cons in Hnd as [Hnin Hnd].
  assert (Htr : tinfo tr g = Some (mkEntry pay (Taken t))).
  { apply (inv_holds _ _ HI). simpl. rewrite Hh. by left. }
  split_and!.
  - intros q tr' pay' Hin. rewrite (ss_tinfo _ _ _ _ _ _ _ Hss). case_insert.
    + rewrite decide_False.
      * apply (inv_holds _ _ HI). simpl. rewrite Hh. by right.
      * intros ->. apply Hnin. by apply (list_elem_of_fmap_2 fst) in Hin.
    + rewrite decide_False; [by apply (inv_holds _ _ HI)|]. intros ->.
      apply (inv_holds _ _ HI) in Hin. simpl in Hin. congruence.
  - intros q. case_insert; [done|apply HI].
  - intros q tr' pay' Hne Hin. case_insert; [|done]. rewrite Hh in Hin.
    apply elem_of_cons in Hin as [Hin|Hin]; [congruence|done].
Qed.

Section Complete.
Variables (t : nat) (tr : tref) (pay : payload) (H : list (tref * payload)) (m m' : mem) (g g' : ghost).
Hypothesis HI : Inv (m, g).
Hypothesis Hh : holds g t = (tr, pay) :: H.
Hypothesis Htr : tinfo tr g = Some (mkEntry pay (Taken t)).
Hypothesis Hu : task_upd tr m m'.
Hypothesis Hss : status_step t tr pay Done H g g'.

Lemma complete_avail p i : avail (live g' p) i <-> avail (live g p) i.
Proof.
  rewrite (avail_status_step _ _ _ _ _ _ _ _ _ Hss) by done. split; [by intros []|].
  intros Ha. split; [done|]. intros Heq. destruct Ha as (e & He & Hst).
  pose proof Htr as Htr'. rewrite Heq in Htr'. simpl in Htr'. by simplify_eq/=.
Qed.

Lemma complete_guar : Guar t (m, g) (m', g').
Proof.
  pose proof complete_avail as Hav. destruct Hu as [Unf Upub Upriv Unl Ux Uet Une Use Ulk Uex Utask].
  destruct Hss as [Sb Sh Sf St Se Sl Sz Sv]. intros t' Ht.
  split; simpl; rewrite ?Upub, ?Upriv, ?Unl, ?Uet, ?Une, ?Ulk, ?Uex; try done; try lia; eauto.
  - intros i. rewrite Hav. apply no_move.
  - intros i e He Hd. rewrite Se. rewrite decide_False; [split; [done|]|].
    + apply (Utask (TSlot t' i)). intros <-. simpl in Htr. by simplify_eq/=.
    + intros ->. simpl in Htr. by simplify_eq/=.
  - intros i Hi. apply (Utask (TSlot t' i)). intros <-. simpl in Htr. apply ent_range in Htr. lia.
  - intros tr' pay' Hin. apply Utask. intros ->. apply (inv_holds _ _ HI) in Hin. simpl in Hin. congruence.
  - intros id e He. rewrite Sl. case_decide as Heq; [|eauto]. rewrite Heq in Htr. simpl in Htr.
    simplify_eq. eauto.
  - intros id e He Hd.
    assert (Hne : tr <> TLoc id).
    { intros ->. simpl in Htr. simplify_eq/=. by destruct Hd. }
    rewrite Sl, decide_False by done. split; [done|]. by apply (Utask (TLoc id)).
Qed.

Hypothesis Hlen : length (task_d (get_task tr m')) = d_words.
Hypothesis Hres : ok pay (task_res pay (get_task tr m')).
Hypothesis Hthief : forall p i, tr = TSlot p i -> task_thief (get_task tr m') = THIEF_COMPLETED.

Lemma complete_dq p :
  (forall q tr' pay', tr' <> tr -> (tr', pay') ∈ holds g q -> (tr', pay') ∈ holds g' q) ->
  dq_inv ok (holds g') p (w_ts (pub m' p)) (slots m' p) (live g' p) (base g' p).
Proof.
  intros Tm. pose proof complete_avail as Hav. destruct (inv_dq _ _ HI p) as [H1 H2 H3]. simpl in H1, H2, H3.
  rewrite (tu_pub _ _ _ Hu), (ss_base _ _ _ _ _ _ _ Hss). split; rewrite ?(ss_zlen _ _ _ _ _ _ _ Hss).
  - done.
  - intros i e He. rewrite (ss_ent _ _ _ _ _ _ _ Hss) in He. case_decide as Heq.
    + injection He as <-. unfold slot_ok. simpl.
      change (slots m' p i) with (get_task (TSlot p i) m'). rewrite <-Heq. by split; [eapply Hthief|].
    + assert (Hs : slots m' p i = slots m p i) by (by apply (tu_task _ _ _ Hu (TSlot p i))). rewrite Hs.
      specialize (H2 i e He). unfold slot_ok in *. destruct (e_st e); try done.
      destruct H2 as (? & ? & ? & ?). split_and!; [done..| |done]. by apply Tm.
  - intros Hlt. destruct (H3 Hlt) as (? & ? & Ha). split_and!; [lia..|].
    intros i Hi. apply Hav. by apply Ha.
Qed.

Lemma complete_inv : Inv (m', g').
Proof.
  destruct (complete_holds t tr pay m g g' H HI Hh Hss) as (Th & Tn & Tm).
  pose proof (fun p => complete_dq p Tm) as Hdq.
  destruct Hu as [Unf Upub Upriv Unl Ux Uet Une Use Ulk Uex Utask]. destruct Hss as [Sb Sh Sf St Se Sl Sz Sv].
  assert (Hkeep : forall id en, lext g id = Some en -> e_st en = Avail \/ e_st en = Done -> lext g' id = Some en).
  { intros id en Hen Hst. rewrite Sl. case_decide as Heq; [|done]. rewrite Heq in Htr. simpl in Htr.
    simplify_eq/=. by destruct Hst. }
  split; simpl; rewrite ?Unf, ?Ux, ?Use, ?Uet, ?Une, ?Sf, ?Unl; try done; try apply HI.
  - intros tr'. destruct (decide (tr' = tr)) as [->|Hne]; [done|]. rewrite (Utask tr' Hne). apply HI.
  - intros id e He. rewrite Sl in He. case_decide as Heq.
    + rewrite Heq in Htr. destruct (inv_loc _ _ HI id _ Htr) as [? _]. split; [done|]. injection He as <-.
      unfold loc_ok. simpl. change (locals m' id) with (get_task (TLoc id) m'). by rewrite <-Heq.
    + destruct (inv_loc _ _ HI id e He) as [? Hl]. split; [done|].
      assert (Hs : locals m' id = locals m id) by (by apply (Utask (TLoc id))). rewrite Hs.
      unfold loc_ok in *. simpl in Hl. destruct (e_st e); try done. destruct Hl. split; [done|]. by apply Tm.
  - intros e He. destruct (inv_ext _ _ HI e He) as (? & id & en & ? & Hl & ?). split; [done|].
    exists id, en. split_and!; [done| |done]. by apply Hkeep; [|left].
  - intros e He. destruct (inv_sem _ _ HI e He) as (? & id & en & ? & Hl & ?). split; [done|].
    exists id, en. split_and!; [done| |done]. by apply Hkeep; [|right].
  - intros q f Hin%(inv_facts _ _ HI). eapply fact_ok_mono; [done|simpl; by rewrite Une|by rewrite Uet|].
    intros i e _ He _. rewrite Se. case_decide as Heq; [eexists; split; [done|by left]|].
    assert (Hs : slots m' q i = slots m q i) by (by apply (Utask (TSlot q i))).
    exists e. rewrite Hs. split; [done|apply advances_refl].
Qed.
End Complete.

Lemma good_complete t tr pay H m m' g :
  Inv (m, g) -> holds g t = (tr, pay) :: H -> task_upd tr m m' ->
  length (task_d (get_task tr m')) = d_words -> ok pay (task_res pay (get_task tr m')) ->
  (forall p i, tr = TSlot p i -> task_thief (get_task tr m') = THIEF_COMPLETED) ->
  good t (m, g) (m', g_complete t tr H g).
Proof.
  intros HI Hh Hu Hlen Hres Hth.
  assert (Htr : tinfo tr g = Some (mkEntry pay (Taken t))).
  { apply (inv_holds _ _ HI). simpl. rewrite Hh. by left. }
  pose proof (status_step_intro t tr pay Done (Taken t) H g Htr) as Hss.
  split; [by eapply complete_guar|by eapply complete_inv].
Qed.

(** ** Tasks offered by client threads *)

Lemma good_alloc_task t m g pay :
  Inv (m, g) ->
  good t (m, g) (set_locals (locals m) (S (n_locals m)) m, g_lext (n_locals m) (mkEntry pay (Mine t)) g).
Proof.
  intros HI. assert (Hnone : lext g (n_locals m) = None).
  { destruct (lext g (n_locals m)) eqn:E; [|done]. destruct (inv_loc _ _ HI _ _ E). simpl in *. lia. }
  assert (Hne : forall id e, lext g id = Some e -> n_locals m <> id) by (intros id e H <-; congruence).
  split.
  - intros t' Ht. split; simpl; try done; try lia; eauto.
    + intros id e He. rewrite fn_lookup_insert_ne by eauto. eauto.
    + intros id e He _. by rewrite fn_lookup_insert_ne by eauto.
  - split; simpl; try apply HI.
    + intros q tr pay' Hin. rewrite <-(inv_holds _ _ HI q tr pay' Hin). destruct tr as [p i|id]; [done|].
      simpl. apply fn_lookup_insert_ne. apply (inv_holds _ _ HI) in Hin. eauto.
    + intros id e. case_insert; [intros [= <-]; split; [lia|done]|].
      intros He. destruct (inv_loc _ _ HI id e He). simpl in *. split; [lia|done].
    + intros e He. destruct (inv_ext _ _ HI e He) as (? & id & en & ? & ? & ?). split; [done|].
      exists id, en. by rewrite fn_lookup_insert_ne by eauto.
    + intros e He. destruct (inv_sem _ _ HI e He) as (? & id & en & ? & ? & ?). split; [done|].
      exists id, en. by rewrite fn_lookup_insert_ne by eauto.
Qed.

Lemma good_publish t m g e id pay :
  Inv (m, g) -> lext g id = Some (mkEntry pay (Mine t)) -> task_ready (locals m id) pay ->
  (e < n_ets m)%nat -> et_task m e = TLoc id ->
  good t (m, g) (set_external (Some e) m, g_status (TLoc id) Avail g).
Proof.
  intros HI Hid Hrd Hn He.
  assert (Hl : forall id', lext (g_status (TLoc id) Avail g) id' =
    if decide (id = id') then Some (mkEntry pay Avail) else lext g id').
  { intros id'. rewrite (lext_status (TLoc id) Avail g id' _ Hid).
    repeat case_decide; first [done|congruence]. }
  set (g' := g_status (TLoc id) Avail g) in *.
  assert (Hgl : live g' = live g /\ base g' = base g /\ holds g' = holds g /\ facts g' = facts g) by done.
  destruct Hgl as (Hlive & Hbase & Hholds & Hfacts). clearbody g'. split.
  - intros t' Ht. split; simpl; rewrite ?Hlive; try done; try lia; eauto.
    + unfold view. congruence.
    + intros id' en Hen. rewrite Hl. case_decide; [simplify_eq; eauto|eauto].
    + intros id' en Hen Hd. rewrite Hl. case_decide; [|done]. simplify_eq/=. destruct Hd; congruence.
  - split; simpl; rewrite ?Hlive, ?Hbase, ?Hholds, ?Hfacts; try apply HI.
    + intros q tr pay' Hin. rewrite <-(inv_holds _ _ HI q tr pay' Hin). destruct tr as [p i|id']; simpl; [congruence|].
      rewrite Hl. case_decide; [|done]. subst. apply (inv_holds _ _ HI) in Hin. simpl in Hin. congruence.
    + intros id' en. rewrite Hl. case_decide.
      * intros [= <-]. subst. destruct (inv_loc _ _ HI _ _ Hid) as [? _]. done.
      * apply HI.
    + intros e' [= <-]. split; [done|]. exists id, (mkEntry pay Avail). rewrite Hl. by rewrite decide_True.
    + intros e' He'. destruct (inv_sem _ _ HI e' He') as (? & id' & en & ? & Hi & ?). split; [done|].
      exists id', en. rewrite Hl. split_and!; [done| |done]. case_decide; [|done]. simpl in *. by simplify_eq/=.
    + intros q f Hin%(inv_facts _ _ HI). by eapply fact_ok_same.
Qed.
End Steps.
