(* ===== verification/Scheduler.v ===== *)
(** * The rely-guarantee logic of the scheduler

    The logic instance for the invariant of Invariant.v, the assertions a worker
    makes about its own deque, and the rules for its accesses. *)

From S2P Require Export Steps.

(** ** Assumptions on the configuration

    The deque indices fit in the 32-bit halves of the public word with room for the
    sums the code computes, [lace_get_head] may look at four slots, the numbers of the workers
    fit in the 16 bits of [WorkerP.worker], the arguments and the result of every task fit in
    its data area, and the header has a macro for its number of arguments. *)
Class CfgOk {cfg : Cfg} : Prop := {
  dq_small : dqsize < 2 ^ 31;
  dq_min : 4 <= dqsize;
  n_small : Z.of_nat n_workers <= 2 ^ 16;
  args_fit : forall u, (user_arity u <= d_words)%nat;
  res_fit : (0 < d_words)%nat;
  arity_declared : forall u, (user_arity u <= max_args)%nat;
}.

(** *** The macros of the tasks of the client *)

Section UserTasks.
Context {cfg : Cfg} {cfg_ok : CfgOk} {client : Client} (u w : nat) (dq_head : Z) (args : list val).

Lemma SYNC_user : SYNC (F_user u) w dq_head = gen_SYNC (F_user u) (user_void u) (user_arity u) w dq_head.
Proof. apply (SYNC_gen (F_user u)), arity_declared. Qed.

Lemma WRAP_user t :
  fn_body (Fn_WRAP (F_user u) w dq_head t) = gen_WRAP (F_user u) (user_void u) (user_arity u) w dq_head t.
Proof. apply (fn_body_WRAP (F_user u)), arity_declared. Qed.

Context (Hlen : length args = user_arity u).

Lemma SPAWN_user : SPAWN (F_user u) w dq_head args = gen_SPAWN (F_user u) w dq_head args.
Proof. by apply (SPAWN_gen (F_user u)); [apply arity_declared|]. Qed.

Lemma RUN_user : RUN (F_user u) args = with_stack_task (F_user u) args lace_run_task (user_void u).
Proof. by apply (RUN_gen (F_user u)); [apply arity_declared|]. Qed.

Lemma RUNEX_user : RUNEX (F_user u) args = with_stack_task (F_user u) args lace_run_task_exclusive (user_void u).
Proof. by apply (RUNEX_gen (F_user u)); [apply arity_declared|]. Qed.

Lemma CALL_user :
  fn_body (Fn_CALL (F_user u) w dq_head args) =
  (r <- interp w dq_head (user_body u args) ;; Ret (if user_void u then VZ 0 else r)).
Proof.
  rewrite (fn_body_CALL (F_user u)) by (apply arity_declared || done). unfold gen_CALL. simpl.
  destruct (user_void u); [by rewrite bind_assoc|]. symmetry. apply bind_ret_r.
Qed.
End UserTasks.

(** ** What a worker knows of its own deque *)

(** Below [c] nothing of the frame is available, from [c] on everything is. *)
Definition bnd (l : list entry) (b c : Z) : Prop :=
  0 <= b <= c /\ c <= zlen l /\
  (forall i, b <= i < c -> ~ avail l i) /\
  (forall i, c <= i < zlen l -> avail l i).

(** [Open]: thieves may take tasks up to the split point, the boundary is the tail.
    [Closed c]: the split point is not above the tail, so nobody can take anything;
    the boundary is [c]. *)
Inductive mode := Open | Closed (c : Z).

Record ostate := OState {
  o_view : lview;
  o_mode : mode;
  o_psplit : Z;
  o_pallstolen : Z;
  o_allstolen : Z;
  o_split : Z;
  o_tail : Z -> Prop;
  o_high : Z -> Task -> Prop;
}.

Section Scheduler.
Context {cfg : Cfg}.

Definition mode_ok (md : mode) (l : list entry) (b tl sp : Z) : Prop :=
  match md with
  | Open => bnd l b tl /\ sp <= zlen l
  | Closed c => sp <= tl /\ bnd l b c
  end.

Record Own (t : nat) (o : ostate) (s : mem * ghost) : Prop := {
  own_worker : (t < n_workers)%nat;
  own_view : view t s.2 = o_view o;
  own_psplit : p_split (priv s.1 t) = o_psplit o;
  own_pallstolen : p_allstolen (priv s.1 t) = o_pallstolen o;
  own_allstolen : w_allstolen (pub s.1 t) = o_allstolen o;
  own_split : ts_split (w_ts (pub s.1 t)) = o_split o;
  own_tail : o_tail o (ts_tail (w_ts (pub s.1 t)));
  own_closed x y : o_tail o x -> x <= y -> y = x \/ y <= o_split o -> o_tail o y;
  own_mode : mode_ok (o_mode o) (live s.2 t) (base s.2 t) (ts_tail (w_ts (pub s.1 t))) (o_split o);
  own_high i : zlen (live s.2 t) <= i -> o_high o i (slots s.1 t i);
}.

(** The slots above the head are empty, unless the client uses [DROP]: that leaves the
    dropped task in its slot. *)
Definition empty_slot (i : Z) (T : Task) : Prop := i < dqsize -> task_thief T = THIEF_EMPTY.
Definition clean (i : Z) (T : Task) : Prop := user_drops = false -> empty_slot i T.

(** The two states between operations: not everything stolen, or everything. *)

Definition o_rest0 (L : lview) (hi : Z -> Task -> Prop) (sp : Z) : ostate :=
  OState L Open sp 0 0 sp (fun x => x <= sp) hi.

Definition o_rest1 (L : lview) (hi : Z -> Task -> Prop) (ps a sp : Z) : ostate :=
  OState L (Closed (zlen (lv_live L))) ps a a sp (fun x => zlen (lv_live L) <= x) hi.

Definition Rest0 (t : nat) (L : lview) (hi : Z -> Task -> Prop) (s : mem * ghost) : Prop :=
  exists sp, Own t (o_rest0 L hi sp) s.

(** When everything is stolen the private split point is not below the head, so that
    the next [SYNC] takes the slow path. *)
Definition Rest1 (t : nat) (L : lview) (hi : Z -> Task -> Prop) (s : mem * ghost) : Prop :=
  exists ps a sp, a <> 0 /\ zlen (lv_live L) <= ps /\ Own t (o_rest1 L hi ps a sp) s.

Definition AtH (t : nat) (L : lview) (hi : Z -> Task -> Prop) (s : mem * ghost) : Prop :=
  Rest0 t L hi s \/ Rest1 t L hi s.

Abbreviation At t L := (AtH t L clean).

Lemma bnd_rely l l' b c tl tl' :
  (forall i, avail l' i <-> avail l i /\ ~ (tl <= i < tl')) -> zlen l' = zlen l ->
  tl <= tl' -> (tl = c /\ tl' <= zlen l) \/ tl' = tl ->
  bnd l b c -> bnd l' b (if decide (tl = c) then tl' else c).
Proof.
  intros Ha Hz Hle Hc (H1 & H2 & H3 & H4).
  case_decide as Hd; unfold bnd; rewrite Hz.
  - split_and!; [lia..| |].
    + intros i Hi [Hav Hn]%Ha. apply (H3 i); [lia|done].
    + intros i Hi. apply Ha. split; [apply H4; lia|lia].
  - destruct Hc as [?|?]; [lia|]. subst tl'. split_and!; [lia..| |].
    + intros i Hi [Hav Hn]%Ha. apply (H3 i); [lia|done].
    + intros i Hi. apply Ha. split; [apply H4; lia|lia].
Qed.

Lemma mode_ok_rely md l l' b tl tl' sp :
  (forall i, avail l' i <-> avail l i /\ ~ (tl <= i < tl')) -> zlen l' = zlen l ->
  tl <= tl' -> tl' = tl \/ tl' <= sp -> mode_ok md l b tl sp -> mode_ok md l' b tl' sp.
Proof.
  intros Ha Hz Hle Hc. destruct md as [|c]; simpl.
  - intros [Hb Hs]. rewrite Hz. split; [|done].
    pose proof (bnd_rely l l' b tl tl tl' Ha Hz Hle) as H. rewrite decide_True in H by done.
    apply H; [|done]. left. destruct Hb as (? & ? & _). destruct Hc; lia.
  - intros [Hs Hb]. assert (tl' = tl) as -> by lia. split; [done|].
    pose proof (bnd_rely l l' b c tl tl Ha Hz Hle) as H.
    assert (Hif : (if decide (tl = c) then tl else c) = c) by (case_decide; congruence).
    rewrite Hif in H. apply H; [by right|done].
Qed.

Lemma Own_rely t o s s' : Own t o s -> Rely t s s' -> Own t o s'.
Proof.
  intros [] []. split; try congruence.
  - eapply own_closed0; [done|lia|]. rewrite <-own_split0. done.
  - done.
  - replace (base s'.2 t) with (base s.2 t) by (unfold view in r_view; congruence).
    apply (mode_ok_rely _ (live s.2 t) _ _ (ts_tail (w_ts (pub s.1 t)))); try done.
    + by apply view_zlen.
    + by rewrite <-own_split0.
  - intros i Hi. rewrite (view_zlen _ _ _ r_view) in Hi. rewrite r_high by done. by apply own_high0.
Qed.

(** The worker's knowledge does not depend on the rest of the state. *)
Lemma Own_frame t o o' m g m' g' :
  Own t o (m, g) ->
  priv m' t = priv m t -> w_ts (pub m' t) = w_ts (pub m t) ->
  w_allstolen (pub m' t) = w_allstolen (pub m t) -> slots m' t = slots m t ->
  live g' t = live g t -> base g' t = base g t ->
  o' = OState (LV (lv_base (o_view o)) (lv_live (o_view o)) (holds g' t) (facts g' t)) (o_mode o) (o_psplit o)
         (o_pallstolen o) (o_allstolen o) (o_split o) (o_tail o) (o_high o) ->
  Own t o' (m', g').
Proof.
  intros [] Hp Hts Has Hsl Hl Hb ->. simpl in *.
  split; simpl; rewrite ?Hp, ?Hts, ?Has, ?Hsl, ?Hl, ?Hb; try done.
  rewrite <-own_view0. unfold view. simpl. by rewrite Hl, Hb.
Qed.

Lemma At_frame t L L' hi m g m' g' :
  AtH t L hi (m, g) ->
  priv m' t = priv m t -> w_ts (pub m' t) = w_ts (pub m t) ->
  w_allstolen (pub m' t) = w_allstolen (pub m t) -> slots m' t = slots m t ->
  live g' t = live g t -> base g' t = base g t ->
  L' = LV (lv_base L) (lv_live L) (holds g' t) (facts g' t) -> AtH t L' hi (m', g').
Proof.
  intros [(sp & H)|(ps & a & sp & Ha & Hp & H)] ?????? ->.
  - left. exists sp. eapply Own_frame; [exact H|done..].
  - right. exists ps, a, sp. split_and!; [done..|]. eapply Own_frame; [exact H|done..].
Qed.

Lemma At_view t L hi s : AtH t L hi s -> view t s.2 = L.
Proof. intros [(sp & [])|(ps & a & sp & Ha & Hp & [])]; done. Qed.

Lemma At_worker t L hi s : AtH t L hi s -> (t < n_workers)%nat.
Proof. intros [(sp & [])|(ps & a & sp & Ha & Hp & [])]; done. Qed.

Lemma Own_shared t o s :
  Own t o s -> shared_ok (w_ts (pub s.1 t)) (live s.2 t) (base s.2 t).
Proof.
  intros [] Hlt. rewrite own_split0 in *. destruct (o_mode o) as [|c]; simpl in own_mode0.
  - destruct own_mode0 as [(H1 & H2 & H3 & H4) H5]. split_and!; [lia..|].
    intros i Hi. apply H4. lia.
  - lia.
Qed.
(** ** The logic *)

Variable ok : payload -> val -> Prop.

(** Accesses count as long as the process has not called [exit()].  Client tasks are called at rest, at the head of the deque; [NAME##_WRAP] on a task
    the worker has taken.  Both give the deque back as it was. *)
Definition lace_pre (t : nat) (g : fn) (L : lview) (s : mem * ghost) : Prop :=
  match g with
  | Fn_CALL (F_user u) w dq_head args =>
      w = t /\ At t L s /\ dq_head = zlen (lv_live L) /\ length args = user_arity u
  | Fn_WRAP (F_user u) w dq_head tr =>
      w = t /\ At t L s /\ dq_head = zlen (lv_live L) /\
      exists pay H, lv_holds L = (tr, pay) :: H /\ u = pay.1 /\ task_ready (get_task tr s.1) pay
  | _ => False
  end.

Definition lace_post (t : nat) (g : fn) (L : lview) (v : val) (s : mem * ghost) : Prop :=
  match g with
  | Fn_CALL (F_user u) w dq_head args => At t L s /\ ok (u, args) v
  | Fn_WRAP (F_user u) w dq_head tr =>
      At t L s /\
      exists pay H, lv_holds L = (tr, pay) :: H /\ ok pay (task_res pay (get_task tr s.1))
  | _ => False
  end.

Lemma lace_guar_rely t t' s s' :
  t <> t' -> Inv ok s -> Inv ok s' -> Guar t s s' -> Rely t' s s'.
Proof. intros Hne _ _ H. by apply H. Qed.

Definition lace_logic : logic := {|
  inv := Inv ok;
  rely := Rely;
  guar := Guar;
  valid R t e s := exited s.1 = false -> ev_valid R t e s.1;
  rest _ _ := True;
  pre := lace_pre;
  post := lace_post;
  rely_refl := Rely_refl;
  rely_trans := Rely_trans;
  guar_refl t s t' _ := Rely_refl t' s;
  guar_trans t s1 s2 s3 H1 H2 t' Hne := Rely_trans t' s1 s2 s3 (H1 t' Hne) (H2 t' Hne);
  guar_rely := lace_guar_rely |}.

#[global] Instance lace_rests : AlwaysRests lace_logic.
Proof. done. Qed.

Abbreviation lsafe := (safe exec lace_logic).

(** ** Stable assertions *)

Class Stable (t : nat) (P : mem * ghost -> Prop) : Prop := stable_intro : stable lace_logic t P.

(** The content of a task the thread has taken. *)
Definition Held (t : nat) (tr : tref) (P : Task -> Prop) (s : mem * ghost) : Prop :=
  held t tr s.2 /\ P (get_task tr s.1).

(** The content of a stack task the thread is building. *)
Definition Building (t id : nat) (pay : payload) (P : Task -> Prop) (s : mem * ghost) : Prop :=
  lext s.2 id = Some (mkEntry pay (Mine t)) /\ P (locals s.1 id).

(** A stack task with this payload exists; it is done with this content. *)
Definition Offered (id : nat) (pay : payload) (s : mem * ghost) : Prop :=
  exists e, lext s.2 id = Some e /\ e_pay e = pay.
Definition ExtDone (id : nat) (pay : payload) (P : Task -> Prop) (s : mem * ghost) : Prop :=
  lext s.2 id = Some (mkEntry pay Done) /\ P (locals s.1 id).

(** The descriptor [e] belongs to stack task [id]. *)
Definition EtIs (e id : nat) (s : mem * ghost) : Prop :=
  (e < n_ets s.1)%nat /\ et_task s.1 e = TLoc id.

#[global] Instance Stable_and t P Q : Stable t P -> Stable t Q -> Stable t (fun s => P s /\ Q s).
Proof. intros HP HQ s s' Hi Hi' [H1 H2] Hr. split; [by eapply (HP s)|by eapply (HQ s)]. Qed.

#[global] Instance Stable_pure t (P : Prop) : Stable t (fun _ => P).
Proof. by intros s s' _ _ H _. Qed.

#[global] Instance Stable_Own t o : Stable t (Own t o).
Proof. intros s s' _ _ H Hr. by eapply Own_rely. Qed.

#[global] Instance Stable_Rest0 t L hi : Stable t (Rest0 t L hi).
Proof. intros s s' _ _ (sp & H) Hr. exists sp. by eapply Own_rely. Qed.

#[global] Instance Stable_Rest1 t L hi : Stable t (Rest1 t L hi).
Proof.
  intros s s' _ _ (ps & a & sp & Ha & Hp & H) Hr. exists ps, a, sp. split_and!; [done..|].
  by eapply Own_rely.
Qed.

#[global] Instance Stable_or t P Q : Stable t P -> Stable t Q -> Stable t (fun s => P s \/ Q s).
Proof. intros HP HQ s s' Hi Hi' [H|H] Hr; [left; by eapply (HP s)|right; by eapply (HQ s)]. Qed.

#[global] Instance Stable_At t L hi : Stable t (AtH t L hi).
Proof. apply Stable_or; apply _. Qed.

#[global] Instance Stable_Held t tr P : Stable t (Held t tr P).
Proof.
  intros s s' _ _ [[pay Hh] HP] Hr. split.
  - exists pay. by rewrite (view_holds _ _ _ (r_view _ _ _ Hr)).
  - by rewrite (r_held _ _ _ Hr tr pay Hh).
Qed.

#[global] Instance Stable_Building t id pay P : Stable t (Building t id pay P).
Proof.
  intros s s' _ _ [H HP] Hr. destruct (r_mine _ _ _ Hr id _ H) as [H1 H2]; [by left|].
  split; [done|]. by rewrite H2.
Qed.

#[global] Instance Stable_Offered t id pay : Stable t (Offered id pay).
Proof.
  intros s s' _ _ (e & H & He) Hr. destruct (r_ext _ _ _ Hr id _ H) as (e' & H1 & H2).
  exists e'. split; congruence.
Qed.

#[global] Instance Stable_ExtDone t id pay P : Stable t (ExtDone id pay P).
Proof.
  intros s s' _ _ [H HP] Hr. destruct (r_mine _ _ _ Hr id _ H) as [H1 H2]; [by right|].
  split; [done|]. by rewrite H2.
Qed.

#[global] Instance Stable_EtIs t e id : Stable t (EtIs e id).
Proof.
  intros s s' _ _ [H He] Hr. pose proof (r_n_ets _ _ _ Hr). split; [lia|].
  by rewrite (r_et _ _ _ Hr).
Qed.

#[global] Instance Stable_lsafe {A} t (c : lcode A) Q : Stable t (lsafe t c Q).
Proof. apply (safe_rely _ lace_logic). Qed.

(** ** Rules for sequences and single accesses *)

Lemma lsafe_seq {A B} t (c : lcode A) (k : A -> lcode B) R Q s :
  Inv ok s -> lsafe t c R s -> (forall a s, Inv ok s -> R a s -> lsafe t (k a) Q s) ->
  lsafe t (bind c k) Q s.
Proof.
  intros Hi Hc Hk. apply (safe_bind _ lace_logic); [done|].
  eapply (safe_mono _ lace_logic); [|exact Hc]. exact Hk.
Qed.

Lemma lsafe_ret {A} t (a : A) (Q : A -> mem * ghost -> Prop) s :
  Stable t (Q a) -> Inv ok s -> Q a s -> lsafe t (Ret a) Q s.
Proof. apply (safe_ret _ lace_logic). Qed.

Lemma exec_exec1 {R} t (e : ev R) m r m' : (r, m') ∈ exec R t e m -> (r, m') ∈ exec1 t e m.
Proof. unfold exec. by destruct (exited m); [intros ?%not_elem_of_nil|]. Qed.

Lemma safe_read {A R} t (e : ev R) (rd : mem -> R) (k : R -> lcode A) P Q s :
  (forall m, exec1 t e m = [(rd m, m)]) -> Stable t P -> Inv ok s -> P s ->
  (forall s, Inv ok s -> P s -> ev_valid R t e s.1 /\ lsafe t (k (rd s.1)) Q s) ->
  lsafe t (Act e k) Q s.
Proof.
  intros He Hst Hi HP H. eapply (safe_act _ lace_logic _ _ _ P); [exact Hst|done|done|].
  intros s1 Hi1 HP1. destruct (H s1 Hi1 HP1) as [Hv Hs]. split; [by intros _|].
  intros r m Hin%exec_exec1. rewrite He in Hin. apply list_elem_of_singleton in Hin. simplify_eq.
  exists s1.2. rewrite <-surjective_pairing. split_and!; [|done..].
  intros t' _. apply Rely_refl.
Qed.

Lemma safe_write {A R} t (e : ev R) (rd : mem -> R) (upd : mem -> mem) (k : R -> lcode A) P Q s :
  (forall m, exec1 t e m = [(rd m, upd m)] \/ exec1 t e m = []) -> Stable t P -> Inv ok s -> P s ->
  (forall m g, Inv ok (m, g) -> P (m, g) ->
     ev_valid R t e m /\
     exists g', good ok t (m, g) (upd m, g') /\ (Inv ok (upd m, g') -> lsafe t (k (rd m)) Q (upd m, g'))) ->
  lsafe t (Act e k) Q s.
Proof.
  intros He Hst Hi HP H. eapply (safe_act _ lace_logic _ _ _ P); [exact Hst|done|done|].
  intros [m g] Hi1 HP1. destruct (H m g Hi1 HP1) as (Hv & g' & [Hg Hi'] & Hs). split; [by intros _|].
  intros r m' Hin%exec_exec1. destruct (He m) as [He'|He']; simpl in Hin; rewrite He' in Hin.
  - apply list_elem_of_singleton in Hin. simplify_eq. exists g'. eauto.
  - by apply not_elem_of_nil in Hin.
Qed.

(** A weak compare-and-swap: it succeeds only on the expected value, and may always fail. *)
Lemma safe_cas {A C} `{EqDecision C} t (e : ev bool) (cur : mem -> C) (old : C) (upd : mem -> mem)
    (k : bool -> lcode A) P Q s :
  (forall m, exec1 t e m = weak_cas (cur m) old m (upd m)) -> Stable t P -> Inv ok s -> P s ->
  (forall m g, Inv ok (m, g) -> P (m, g) ->
     ev_valid bool t e m /\
     (cur m = old -> exists g', good ok t (m, g) (upd m, g') /\
        (Inv ok (upd m, g') -> lsafe t (k true) Q (upd m, g'))) /\
     lsafe t (k false) Q (m, g)) ->
  lsafe t (Act e k) Q s.
Proof.
  intros He Hst Hi HP H. eapply (safe_act _ lace_logic _ _ _ P); [exact Hst|done|done|].
  intros [m g] Hi1 HP1. destruct (H m g Hi1 HP1) as (Hv & Ht & Hf). split; [by intros _|].
  intros r m' Hin%exec_exec1. simpl in Hin. rewrite He in Hin. unfold weak_cas in Hin.
  assert (Hok : r = false /\ m' = m \/ r = true /\ m' = upd m /\ cur m = old).
  { case_decide as Hc; repeat (apply elem_of_cons in Hin as [[= -> ->]|Hin]; [eauto|]);
      by apply not_elem_of_nil in Hin. }
  destruct Hok as [(-> & ->)|(-> & -> & Hc)].
  - exists g. split_and!; [intros t' _; apply Rely_refl|done..].
  - destruct (Ht Hc) as (g' & [Hg Hi'] & Hs). exists g'. eauto.
Qed.

(** A worker changes its own flags, split point or private data. *)
Lemma safe_own_write {A R} t (e : ev R) (rd : mem -> R) (upd : mem -> mem) (k : R -> lcode A) o o' P Q s :
  (forall m, exec1 t e m = [(rd m, upd m)]) ->
  Stable t P -> Inv ok s -> Own t o s -> P s ->
  (forall m, core_eq t m (upd m)) ->
  (forall m g, Inv ok (m, g) -> Own t o (m, g) -> P (m, g) -> Own t o' (upd m, g)) ->
  (forall m, (t < n_workers)%nat -> ev_valid R t e m) ->
  (forall m g, Inv ok (upd m, g) -> Own t o (m, g) -> P (m, g) -> Own t o' (upd m, g) ->
     lsafe t (k (rd m)) Q (upd m, g)) ->
  lsafe t (Act e k) Q s.
Proof.
  intros He Hst Hi Ho HP Hc Ho' Hv Hk.
  apply (safe_write t e rd upd k (fun s => Own t o s /\ P s)); [eauto|apply _|done|done|].
  intros m g Hi1 [Ho1 HP1]. split; [by apply Hv, Ho1|]. exists g.
  pose proof (Ho' m g Hi1 Ho1 HP1) as Ho2. split.
  - apply good_core; [done|done|]. by apply (Own_shared t o' (upd m, g)).
  - intros Hi2. by apply Hk.
Qed.
End Scheduler.

(** A worker at rest, with nothing above the head of its deque. *)
Abbreviation At t L := (AtH t L clean).
