(* ===== verification/Neutral.v ===== *)
(** * Code that does not touch the deques

    Barriers, the suspend and resume protocol, the counters, random seeds and spin
    loops only access integers, the suspend semaphore and hints.  Code made of such
    accesses keeps everything a thread knows of the deques and tasks. *)

From S2P Require Export Scheduler.

#[global] Arguments safe : simpl never.

Section Neutral.
Context {cfg : Cfg}.
Variable ok : payload -> val -> Prop.
Abbreviation lsafe := (safe exec (lace_logic ok)).

(** Memories that agree on everything the assertions of thread [t] mention. *)
Record same_core (t : nat) (m m' : mem) : Prop := {
  sc_core : core_eq t m m';
  sc_ts : w_ts (pub m' t) = w_ts (pub m t);
  sc_allstolen : w_allstolen (pub m' t) = w_allstolen (pub m t);
  sc_psplit : p_split (priv m' t) = p_split (priv m t);
  sc_pallstolen : p_allstolen (priv m' t) = p_allstolen (priv m t);
  sc_lock : external_task_lock m' = external_task_lock m;
}.

Lemma good_same_core t m m' g : Inv ok (m, g) -> same_core t m m' -> good ok t (m, g) (m', g).
Proof.
  intros HI []. apply good_core; [done..|]. rewrite sc_ts0.
  by destruct (inv_dq _ _ HI t).
Qed.

(** Assertions that only depend on that part. *)
Class Frame (t : nat) (P : mem * ghost -> Prop) : Prop :=
  frame_intro : forall m m' g, same_core t m m' -> P (m, g) -> P (m', g).

#[global] Instance Frame_and t P Q : Frame t P -> Frame t Q -> Frame t (fun s => P s /\ Q s).
Proof. intros HP HQ m m' g Hc [H1 H2]. split; [by eapply HP|by eapply HQ]. Qed.

#[global] Instance Frame_pure t (P : Prop) : Frame t (fun _ => P).
Proof. by intros m m' g _ H. Qed.

#[global] Instance Frame_Own t o : Frame t (Own t o).
Proof.
  intros m m' g [Hc] []. simpl in *.
  split; simpl; rewrite ?sc_ts0, ?sc_allstolen0, ?sc_psplit0, ?sc_pallstolen0, ?(ce_slots _ _ _ Hc); done.
Qed.

#[global] Instance Frame_At t L hi : Frame t (AtH t L hi).
Proof.
  intros m m' g Hc [(sp & H)|(ps & a & sp & Ha & Hp & H)].
  - left. exists sp. by eapply Frame_Own.
  - right. exists ps, a, sp. split_and!; [done..|]. by eapply Frame_Own.
Qed.

#[global] Instance Frame_Held t tr P : Frame t (Held t tr P).
Proof.
  intros m m' g [Hc] [H HP]. split; [done|]. simpl in *. by rewrite (core_eq_get_task _ _ _ _ Hc).
Qed.

#[global] Instance Frame_Building t id pay P : Frame t (Building t id pay P).
Proof. intros m m' g [Hc] [H HP]. split; [done|]. simpl in *. by rewrite (ce_locals _ _ _ Hc). Qed.

#[global] Instance Frame_Offered t id pay : Frame t (Offered id pay).
Proof. by intros m m' g _ H. Qed.

#[global] Instance Frame_ExtDone t id pay P : Frame t (ExtDone id pay P).
Proof. intros m m' g [Hc] [H HP]. split; [done|]. simpl in *. by rewrite (ce_locals _ _ _ Hc). Qed.

#[global] Instance Frame_EtIs t e id : Frame t (EtIs e id).
Proof.
  intros m m' g [Hc] H. unfold EtIs in *. simpl in *.
  by rewrite (ce_n_ets _ _ _ Hc), (ce_et _ _ _ Hc).
Qed.

(** The thread has the mutex. *)
Definition Locked (t : nat) (s : mem * ghost) : Prop := external_task_lock s.1 = Some t.

#[global] Instance Stable_Locked t : Stable ok t (Locked t).
Proof. intros s s' _ _ H Hr. by apply (r_lock _ _ _ Hr). Qed.

#[global] Instance Frame_Locked t : Frame t (Locked t).
Proof. intros m m' g [] H. unfold Locked in *. simpl in *. by rewrite sc_lock0. Qed.

(** ** Neutral accesses *)

Definition neutral {R} (t : nat) (e : ev R) : Prop :=
  match e with
  | Load_workers w | Store_workers w | Load_allstolen w | Load_movesplit w
  | Store_movesplit w _ | Load_ts w | Load_tail w | Load_split w => (w < n_workers)%nat
  | Load_priv w | Store_p_seed w _ => (w < n_workers)%nat /\ t = w
  | Alloc_int _ | Load_int _ | Store_int _ _ | Fetch_add_int _ _ | Cas_int _ _ _
  | Load_newframe | Cond_broadcast | Load_external | Get_worker
  | Pthread_create _ | Thread_begin | Exit
  | Aligned_alloc | Clear_workers | Free_workers => True
  | Sem_init s _ | Sem_post s | Sem_wait s => s = suspend_semaphore
  | _ => False
  end.

Lemma neutral_valid {R} t (e : ev R) m : neutral t e -> ev_valid R t e m.
Proof. by destruct e; simpl. Qed.

Lemma neutral_same {R} t (e : ev R) m r m' :
  neutral t e -> (r, m') ∈ exec1 t e m -> same_core t m m'.
Proof.
  destruct e; simpl; intros Hn Hin; try done;
    unfold weak_cas in *; repeat case_match;
    repeat (apply elem_of_cons in Hin as [Hin|Hin]; simplify_eq);
    try (by apply not_elem_of_nil in Hin);
    try destruct Hn; subst;
    repeat split; simpl; try done; intros; try (by rewrite fn_lookup_insert_ne);
    by case_insert.
Qed.

Lemma safe_neutral {A R} t (e : ev R) (k : R -> lcode A) P Q s :
  neutral t e -> Stable ok t P -> Frame t P -> Inv ok s -> P s ->
  (forall r s, Inv ok s -> P s -> lsafe t (k r) Q s) -> lsafe t (Act e k) Q s.
Proof.
  intros Hn Hst Hf Hi HP Hk. eapply (safe_act _ (lace_logic ok) _ _ _ P); [exact Hst|done|done|].
  intros [m g] Hi1 HP1. split; [intros _; by apply neutral_valid|].
  intros r m' Hin%exec_exec1. exists g. pose proof (neutral_same t e m r m' Hn Hin) as Hs.
  destruct (good_same_core t m m' g Hi1 Hs) as [Hg Hi']. split_and!; [done..|].
  apply Hk; [done|]. by eapply Hf.
Qed.

(** Code that only makes neutral accesses. *)
Fixpoint neutral_code (t : nat) {A} (c : lcode A) : Prop :=
  match c with
  | Ret _ => True
  | Act e k => neutral t e /\ forall r, neutral_code t (k r)
  | Call _ _ => False
  | Iter b i k => (forall i, neutral_code t (b i)) /\ forall r, neutral_code t (k r)
  end.

Lemma neutral_bind t {A B} (c : lcode A) (k : A -> lcode B) :
  neutral_code t c -> (forall a, neutral_code t (k a)) -> neutral_code t (bind c k).
Proof.
  intros Hc Hk. induction c; simpl in *; [done| |done|]; destruct Hc; split; auto.
Qed.

Theorem safe_neutral_code {A} t (c : lcode A) P s :
  neutral_code t c -> Stable ok t P -> Frame t P -> Inv ok s -> P s -> lsafe t c (fun _ => P) s.
Proof.
  intros Hc Hst Hf. revert s.
  cut (forall s (Q : A -> mem * ghost -> Prop), Inv ok s -> P s ->
         (forall a s, Inv ok s -> P s -> Q a s) -> lsafe t c Q s).
  { intros H s Hi HP. apply H; eauto. }
  induction c as [A a|A R e k IH|A f k IH|A S B b IHb i k IH]; simpl in Hc; intros s Q Hi HP HQ.
  - eapply (safe_ret_at _ (lace_logic ok)); [exact Hst|done..|]. intros s1 Hi1 HP1. split; [done|]. by apply HQ.
  - destruct Hc. eapply safe_neutral; [done..|]. eauto.
  - done.
  - destruct Hc. eapply (safe_iter _ _ _ (fun _ => P)); [done|done|by intros|].
    intros x s1 Hx Hi1. apply IHb; [done..|]. intros [x'|y] s2 Hi2 HP2; eauto.
Qed.
End Neutral.

(** Code that is neutral by inspection. *)
Ltac neutral :=
  repeat first
    [ done
    | progress simpl
    | apply neutral_bind
    | progress unfold when, spin
    | match goal with
      | |- _ /\ _ => split
      | |- forall _, _ => intro
      | |- neutral_code _ (if ?b then _ else _) => destruct b
      | |- neutral_code _ (match ?x with _ => _ end) => destruct x
      | |- neutral _ _ => red
      end ].

Section NeutralCode.
Context {cfg : Cfg}.

Lemma neutral_barrier t : neutral_code t lace_barrier.
Proof. unfold lace_barrier, spin. neutral. Qed.

Lemma neutral_suspend t : neutral_code t lace_suspend.
Proof. unfold lace_suspend, spin. neutral. Qed.

Lemma neutral_for t n i g : (forall j, neutral_code t (g j)) -> neutral_code t (for_upto n i g).
Proof. intros H. revert i. induction n; simpl; intros; [done|]. by apply neutral_bind. Qed.

Lemma neutral_resume t : neutral_code t lace_resume.
Proof. unfold lace_resume. neutral; try apply neutral_for; neutral. Qed.
End NeutralCode.

(** From here on [safe] is used through its rules only. *)
#[global] Opaque safe.
