(* ===== verification/StealProofs.v ===== *)
(** * Stealing: [lace_steal], external tasks and the loops that call them *)

From S2P Require Import Rng.
From S2P Require Export Neutral.

(** Reduce the monadic code up to its first access. *)
Ltac code := cbn [bind act call loop when call_f spin].

(** Use the rule for a load with the assertion [P]. *)
Ltac load_with P :=
  code; eapply (safe_read _ _ _ _ _ P);
  [reflexivity|apply _|done|done|];
  let s := fresh "s" in let Hi := fresh "Hi" in let HP := fresh "HP" in
  intros s Hi HP; split; [|code].

(** An access that does not matter, keeping [P]. *)
Ltac skip_with P :=
  code; eapply (safe_neutral _ _ _ _ P);
  [neutral|apply _|apply _|done|done|];
  let r := fresh "r" in let s := fresh "s" in let Hi := fresh "Hi" in let HP := fresh "HP" in
  intros r s Hi HP; code.

(** The same for a whole function. *)
Tactic Notation "skip_code" constr(P) "by" tactic3(lem) :=
  eapply (lsafe_seq _ _ _ _ (fun _ => P)); [done|apply safe_neutral_code; [solve [lem]|apply _|apply _|done|done]|];
  let r := fresh "r" in let s := fresh "s" in let Hi := fresh "Hi" in let HP := fresh "HP" in
  intros r s Hi HP; code.

Ltac ret := apply lsafe_ret; [first [apply _|apply Stable_lsafe]|done|].

Section StealProofs.
Context {cfg : Cfg} {cfg_ok : CfgOk}.
Variable ok : payload -> val -> Prop.
Abbreviation lsafe := (safe exec (lace_logic ok)).

(** A task of another deque, or on some stack. *)
Definition foreign (t : nat) (tr : tref) : Prop :=
  match tr with TSlot p _ => p <> t | TLoc _ => True end.

Lemma held_foreign t tr m g : Inv ok (m, g) -> held t tr g -> foreign t tr.
Proof.
  intros HI Hh. destruct (held_tinfo ok t tr m g HI Hh) as (pay & Hp). destruct tr as [p i|id]; [|done].
  simpl in *. specialize (dq_slots _ _ _ _ _ _ _ (inv_dq _ _ HI p) i _ Hp). unfold slot_ok. simpl.
  intros (? & _). congruence.
Qed.

Lemma held_valid t tr m g : Inv ok (m, g) -> held t tr g -> tref_valid tr m.
Proof.
  intros HI Hh. destruct (held_tinfo ok t tr m g HI Hh) as (pay & Hp). by eapply tinfo_valid.
Qed.

Lemma status_frame t tr st g : foreign t tr -> live (g_status tr st g) t = live g t.
Proof. destruct tr as [p i|id]; simpl; [|done]. intros Hne. by rewrite fn_lookup_insert_ne. Qed.

Lemma set_task_frame t tr T m :
  foreign t tr ->
  priv (set_task tr T m) t = priv m t /\ pub (set_task tr T m) t = pub m t /\
  slots (set_task tr T m) t = slots m t.
Proof. destruct tr as [p i|id]; simpl; [|done]. intros Hne. by rewrite fn_lookup_insert_ne. Qed.

(** Writing a taken task, or changing its status, does not touch the own deque. *)
Lemma At_foreign t L tr st T H m g :
  At t L (m, g) -> foreign t tr ->
  At t (with_holds L H) (set_task tr T m, g_holds t H (g_status tr st g)).
Proof.
  intros Hat Hf. destruct (set_task_frame t tr T m Hf) as (Hp & Hpb & Hs).
  eapply (At_frame t L _ _ m g); [done|done|by rewrite Hpb..|done| | |].
  - by apply (status_frame t tr st g).
  - simpl. by rewrite base_status.
  - simpl. rewrite fn_lookup_insert, facts_status. by rewrite <-(At_view t L _ _ Hat).
Qed.

Lemma At_set_task t L tr T m g :
  At t L (m, g) -> foreign t tr -> At t L (set_task tr T m, g).
Proof.
  intros Hat Hf. destruct (set_task_frame t tr T m Hf) as (Hp & Hpb & Hs).
  eapply (At_frame t L _ _ m g); [done|done|by rewrite Hpb..|done|done|done|].
  by rewrite <-(At_view t L _ _ Hat).
Qed.

(** Running a task the worker has just taken, up to and including its completion. *)
Lemma safe_run_held t L tr pay H dq_head {A} (k : unit -> lcode A) Q s :
  Inv ok s -> At t L s -> lv_holds L = (tr, pay) :: H -> dq_head = zlen (lv_live L) ->
  Held t tr (fun T => task_ready T pay) s ->
  (forall s, Inv ok s -> At t (with_holds L H) s -> tinfo tr s.2 = Some (mkEntry pay Done) ->
     lsafe t (k tt) Q s) ->
  lsafe t (call_f t dq_head tr ;;; r <- act (Store_thief tr THIEF_COMPLETED) ;; k r) Q s.
Proof.
  intros Hi Hat HL Hh Hheld Hk.
  load_with (fun s => At t L s /\ Held t tr (fun T => task_ready T pay) s).
  { destruct s0 as [m g]. destruct HP as [_ [Hd _]]. by eapply held_valid. }
  destruct HP as [Hat0 [Hd0 Hrd]]. pose proof Hrd as (Hf & _). rewrite Hf.
  apply (safe_call _ (lace_logic ok) _ _ _ (fun s => At t L s /\ Held t tr (fun T => task_ready T pay) s) _ L);
    [apply (_ : Stable ok t _)|done|done| |].
  { intros s1 _ [Hat1 [_ Hrd1]]. simpl. split_and!; [done..|]. exists pay, H. by split_and!. }
  simpl. intros _ s1 Hi1 (Hat1 & pay' & H' & HL' & Hok). rewrite HL in HL'. simplify_eq.
  code. eapply (safe_write ok t _ (fun _ => tt) (upd_task tr (set_task_thief THIEF_COMPLETED)) _
    (fun s => At t L s /\ Held t tr (fun T => ok pay' (task_res pay' T)) s)); [by left|apply _|done| |].
  { split; [done|]. split; [|done]. exists pay'. rewrite <-(At_view t L _ s1 Hat1) in HL. simpl in HL.
    rewrite HL. by left. }
  intros m g Hi2 [Hat2 [Hd2 Hok2]]. split; [by eapply held_valid|].
  exists (g_complete t tr H' g).
  assert (Hhg : holds g t = (tr, pay') :: H') by (rewrite <-HL, <-(At_view t L _ _ Hat2); done).
  split.
  { assert (Hgt : get_task tr (upd_task tr (set_task_thief THIEF_COMPLETED) m) =
      set_task_thief THIEF_COMPLETED (get_task tr m)) by (unfold upd_task; by rewrite get_set_task, decide_True).
    eapply (good_complete ok); rewrite ?Hgt; [done..|apply task_upd_set|apply (inv_words _ _ Hi2 tr)|done|done]. }
  intros Hi3. apply Hk; [done| |].
  - apply At_foreign; [done|]. exact (held_foreign _ _ _ _ Hi2 Hd2).
  - assert (Ht : tinfo tr g = Some (mkEntry pay' (Taken t))).
    { apply (inv_holds _ _ Hi2). simpl. rewrite Hhg. by left. }
    change (tinfo tr (g_status tr Done g) = Some (mkEntry pay' Done)).
    rewrite (tinfo_status tr tr Done g _ Ht). by rewrite decide_True.
Qed.

(** A write to a taken task that leaves it ready. *)
Lemma safe_store_held t tr pay L {A} (k : unit -> lcode A) Q s :
  Inv ok s -> At t L s -> Held t tr (fun T => task_ready T pay) s ->
  (forall s, Inv ok s -> At t L s -> Held t tr (fun T => task_ready T pay) s -> lsafe t (k tt) Q s) ->
  lsafe t (r <- act (Store_thief tr (Thief t)) ;; k r) Q s.
Proof.
  intros Hi Hat Hh Hk. code.
  eapply (safe_write ok t _ (fun _ => tt) (upd_task tr (set_task_thief (Thief t))) _
    (fun s => At t L s /\ Held t tr (fun T => task_ready T pay) s)); [by left|apply _|done..|].
  intros m g Hi1 [Hat1 [Hd1 Hrd1]]. simpl in *. split; [exact (held_valid _ _ _ _ Hi1 Hd1)|].
  exists g. split.
  - apply good_set_task; [done|by right|apply (inv_words _ _ Hi1 tr)|by right].
  - intros Hi2. apply Hk; [done| |].
    + apply At_set_task; [done|]. exact (held_foreign _ _ _ _ Hi1 Hd1).
    + split; [done|]. unfold upd_task. simpl. rewrite get_set_task, decide_True by done. done.
Qed.

(** The step that takes a task: what the thief knows after a successful exchange. *)
Lemma steal_step t L v tl sp m g :
  Inv ok (m, g) -> At t L (m, g) -> v <> t -> w_ts (pub m v) = mkTS tl sp -> tl < sp ->
  exists pay, good ok t (m, g) (upd_pub v (set_ts (mkTS (u32 (tl + 1)) sp)) m, g_take t (TSlot v tl) pay g) /\
    let s' := (upd_pub v (set_ts (mkTS (u32 (tl + 1)) sp)) m, g_take t (TSlot v tl) pay g) in
    At t (with_holds L ((TSlot v tl, pay) :: lv_holds L)) s' /\
    Held t (TSlot v tl) (fun T => task_ready T pay) s'.
Proof.
  intros Hi Hat Hne Hts Hlt.
  destruct (good_steal ok t v m g tl sp) as (pay & Htr & Hrd & Hgood); [by eauto using At_worker..|].
  assert (Hu : u32 (tl + 1) = tl + 1).
  { apply wrap_id. pose proof (ent_range _ _ _ Htr). pose proof (dq_len _ _ _ _ _ _ _ (inv_dq _ _ Hi v)) as Hl.
    pose proof dq_small as Hdq. simpl in Hl. unfold dq_cap in Hl. case_decide; lia. }
  exists pay. rewrite Hu. split; [done|]. simpl.
  set (g' := g_take t (TSlot v tl) pay g).
  assert (Hh : holds g' t = (TSlot v tl, pay) :: lv_holds L).
  { unfold g'. simpl. rewrite fn_lookup_insert. by rewrite <-(At_view t L _ _ Hat). }
  split.
  - eapply (At_frame t L _ _ m g); [done|done| | |done| |done|]; try (simpl; by rewrite fn_lookup_insert_ne).
    rewrite Hh. by rewrite <-(At_view t L _ _ Hat).
  - split; [|done]. exists pay. cbn [snd]. rewrite Hh. by left.
Qed.

Lemma lace_steal_spec t L dq_head v s :
  Inv ok s -> At t L s -> dq_head = zlen (lv_live L) ->
  (forall w, v = Some w -> w <> t /\ (w < n_workers)%nat) ->
  lsafe t (lace_steal t dq_head v) (fun _ => At t L) s.
Proof.
  intros Hi Hat Hh Hv. unfold lace_steal. destruct v as [v|]; [|by ret].
  destruct (Hv v eq_refl) as [Hne Hn].
  skip_with (At t L). case_match; [by ret|].
  skip_with (At t L). destruct r0 as [tl sp]. simpl. case_match eqn:Elt.
  - apply Z.ltb_lt in Elt.
    eapply (safe_cas ok t _ (fun m => w_ts (pub m v)) (mkTS tl sp)
              (upd_pub v (set_ts (mkTS (u32 (tl + 1)) sp))) _ (At t L)); [done|apply _|done..|].
    intros m g Hi2 Hat2. split_and!; [done| |by ret].
    intros Hts. destruct (steal_step t L v tl sp m g) as (pay & Hgood & Hat3 & Hheld); [done..|].
    eexists. split; [exact Hgood|]. intros Hi3. eapply safe_store_held; [done..|].
    clear dependent m g. intros s2 Hi2 Hat2 Hheld. eapply safe_run_held; [done..|].
    intros s3 Hi3 Hat3 _. ret. by destruct L.
  - skip_with (At t L). skip_code (At t L) by neutral. by ret.
Qed.

(** Taking the external task out of the mailbox. *)
Lemma take_external t L e m g :
  Inv ok (m, g) -> At t L (m, g) -> external_task m = Some e ->
  exists id pay g', good ok t (m, g) (set_external None m, g') /\
    At t (with_facts (with_holds L ((TLoc id, pay) :: lv_holds L)) (FRun e id :: lv_facts L)) (set_external None m, g') /\
    Held t (TLoc id) (fun T => task_ready T pay) (set_external None m, g').
Proof.
  intros Hi Hat He. destruct (inv_ext _ _ Hi e He) as (Hn & id & [pay st] & Het & Hid & Hst). simpl in *. subst st.
  pose proof (good_take_ext ok t m g e id pay Hi (At_worker _ _ _ _ Hat) He Het Hid) as Hg.
  pose proof (At_view t L _ _ Hat) as Hv. simpl in Hv.
  exists id, pay, (g_facts t (FRun e id :: lv_facts L) (g_take t (TLoc id) pay g)). split_and!.
  - eapply good_trans; [exact Hg|]. apply good_facts; [apply Hg|].
    intros f [->|Hin]%elem_of_cons; [done|]. rewrite <-Hv in Hin.
    eapply fact_ok_same; [by apply (inv_facts _ _ Hi t f)|done..].
  - eapply (At_frame t L _ _ m g); [done..|]. simpl. rewrite !fn_lookup_insert. by rewrite <-Hv.
  - split; [exists pay; simpl; rewrite fn_lookup_insert; by left|].
    by destruct (inv_loc _ _ Hi id _ Hid).
Qed.

(** Waking up the thread that offered a finished task. *)
Lemma post_external t L e id pay R m g :
  Inv ok (m, g) -> At t L (m, g) -> lv_facts L = FRun e id :: R -> lext g id = Some (mkEntry pay Done) ->
  good ok t (m, g) (upd_sem (SExt e) (sems m (SExt e) + 1) m, g_facts t R g) /\
  At t (with_facts L R) (upd_sem (SExt e) (sems m (SExt e) + 1) m, g_facts t R g).
Proof.
  intros Hi Hat HR Hid. pose proof (At_view t L _ _ Hat) as Hv. simpl in Hv. rewrite <-Hv in HR. simpl in HR.
  destruct (inv_facts _ _ Hi t (FRun e id)) as [Hn Het]; [simpl; rewrite HR; by left|].
  assert (Hg : good ok t (m, g) (upd_sem (SExt e) (sems m (SExt e) + 1) m, g)).
  { apply good_ext_core; [done..|]. intros e'. simpl. destruct (decide (e = e')) as [<-|Hne].
    - intros _. right. split; [done|]. eauto.
    - rewrite fn_lookup_insert_ne by congruence. by left. }
  split.
  - eapply good_trans; [exact Hg|]. apply good_facts; [apply Hg|]. intros f Hin.
    eapply fact_ok_same; [apply (inv_facts _ _ Hi t f)|done..]. simpl. rewrite HR. by right.
  - eapply (At_frame t L _ _ m g); [done..|]. simpl. rewrite fn_lookup_insert. by rewrite <-Hv.
Qed.

Lemma lace_steal_external_spec t L dq_head s :
  Inv ok s -> At t L s -> dq_head = zlen (lv_live L) ->
  lsafe t (lace_steal_external t dq_head) (fun _ => At t L) s.
Proof.
  intros Hi Hat Hh. unfold lace_steal_external. code.
  eapply (safe_write ok t _ external_task (set_external None) _ (At t L)); [by left|apply _|done..|].
  intros m g Hi1 Hat1. split; [done|]. destruct (external_task m) as [e|] eqn:He.
  2: { exists g. split; [apply good_ext_core; [done..|by left]|]. intros Hi2. ret.
       eapply (At_frame t L _ _ m g); [done..|]. by rewrite <-(At_view t L _ _ Hat1). }
  destruct (take_external t L e m g Hi1 Hat1 He) as (id & pay & g' & Hgood & Hat2 & Hheld).
  exists g'. split; [done|]. intros Hi2. set (L1 := with_holds _ _) in Hat2.
  load_with (fun s => At t (with_facts L1 (FRun e id :: lv_facts L)) s /\ Held t (TLoc id) (fun T => task_ready T pay) s).
  { done. }
  destruct HP as [Hat3 Hheld3]. destruct (inv_facts _ _ Hi0 t (FRun e id)) as [_ ->].
  { pose proof (f_equal lv_facts (At_view t _ _ _ Hat3)) as Hr. simpl in Hr. rewrite Hr. by left. }
  eapply safe_store_held; [done..|]. intros s2 Hi3 Hat4 Hheld4.
  eapply safe_store_held; [done..|]. intros s3 Hi4 Hat5 Hheld5.
  eapply safe_run_held; [done..|]. intros s4 Hi5 Hat6 Hdone. code.
  eapply (safe_write ok t _ (fun _ => tt) (fun m => upd_sem (SExt e) (sems m (SExt e) + 1) m) _
    (fun s => At t (with_facts L (FRun e id :: lv_facts L)) s /\ ExtDone id pay (fun _ => True) s));
    [by left|apply _|done|done|].
  clear. intros m g Hi [Hat [Hd _]]. split; [done|].
  destruct (post_external t _ e id pay _ m g Hi Hat eq_refl Hd) as [Hg Hat'].
  exists (g_facts t (lv_facts L) g). split; [done|]. intros Hi'. ret. by destruct L.
Qed.

Lemma yield_newframe_spec t dq_head P s :
  Stable ok t P -> Inv ok s -> P s -> lsafe t (YIELD_NEWFRAME t dq_head) (fun _ => P) s.
Proof.
  intros Hst Hi HP. unfold YIELD_NEWFRAME. load_with P; [done|].
  rewrite (inv_newframe _ _ Hi0). by ret.
Qed.

(** [lace_steal(self, head, workers[v])] *)
Lemma steal_worker_spec t L dq_head v s :
  Inv ok s -> At t L s -> dq_head = zlen (lv_live L) ->
  0 <= v < Z.of_nat n_workers -> v <> Z.of_nat t ->
  lsafe t (victim <- act (Load_workers (Z.to_nat v)) ;; lace_steal t dq_head victim) (fun _ => At t L) s.
Proof.
  intros Hi Hat Hh Hv Hne. load_with (At t L); [simpl; lia|].
  apply lace_steal_spec; [done..|]. intros w. case_match; intros; simplify_eq. lia.
Qed.

Lemma lace_steal_random_spec t L dq_head s :
  Inv ok s -> At t L s -> dq_head = zlen (lv_live L) ->
  lsafe t (lace_steal_random t dq_head) (fun _ => At t L) s.
Proof.
  intros Hi Hat Hh. pose proof (At_worker _ _ _ _ Hat) as Ht. pose proof n_small. unfold lace_steal_random.
  rewrite worker_field_id by lia.
  eapply lsafe_seq; [done|by apply (yield_newframe_spec t dq_head (At t L)); [apply _|..]|].
  clear dependent s. intros ? s Hi Hat. skip_with (At t L).
  case_match; [by apply lace_steal_external_spec|].
  unfold when. case_match eqn:En; [|by ret]. apply Z.ltb_lt in En.
  skip_with (At t L).
  pose proof (random_victim_ok (Z.of_nat t) (Z.of_nat n_workers) (p_seed r0)) as Hv.
  destruct (random_victim _ _ _) as [v seed]. simpl in Hv. destruct Hv as [Hv Hne]; [lia..|].
  skip_with (At t L).
  eapply (lsafe_seq _ _ (victim <- act (Load_workers (Z.to_nat v)) ;; lace_steal t dq_head victim)).
  - done.
  - by apply steal_worker_spec.
  - intros ? s3 Hi3 Hat3. by ret.
Qed.

(** [lace_quits], the flags on the stack of [lace_newframe_root]: any integer may be
    used to end the loop. *)
Lemma lace_steal_loop_spec t L dq_head quit s :
  Inv ok s -> At t L s -> dq_head = zlen (lv_live L) ->
  lsafe t (lace_steal_loop t dq_head quit) (fun _ => At t L) s.
Proof.
  intros Hi Hat Hh. pose proof (At_worker _ _ _ _ Hat) as Ht. pose proof n_small. unfold lace_steal_loop, steal_loop_turn.
  rewrite worker_field_id by lia.
  eapply (safe_iter _ _ _ (fun sel s => sel_ok (Z.of_nat n_workers) sel /\ At t L s));
    [done|split; [unfold sel_ok; simpl; lia|done]|intros sel; apply (_ : Stable ok t _)|].
  clear dependent s. intros sel s [Hsel Hat] Hi. skip_with (At t L).
  case_match; [ret; by ret|]. rename s0 into s1.
  eapply (lsafe_seq _ _ _ _ (fun sel' s => sel_ok (Z.of_nat n_workers) sel' /\ At t L s)); [done| |].
  { case_match eqn:En; [|ret; done]. apply Z.ltb_lt in En.
    destruct (select_victim_ok (Z.of_nat t) (Z.of_nat n_workers) sel) as [Hok Hne]; [lia..|done|].
    eapply (lsafe_seq _ _ (victim <- act _ ;; lace_steal t dq_head victim)); [done|by apply steal_worker_spec|].
    intros ? s3 Hi3 Hat3. by ret. }
  clear dependent s s1. intros sel' s Hi [Hsel' Hat].
  eapply lsafe_seq; [done|by apply (yield_newframe_spec t dq_head (At t L)); [apply _|..]|].
  clear dependent s. intros ? s Hi Hat. skip_with (At t L).
  eapply (lsafe_seq _ _ _ _ (fun _ => At t L)); [done|case_match; [by apply lace_steal_external_spec|by ret]|].
  clear dependent s s0. intros ? s Hi Hat. skip_with (At t L).
  skip_code (At t L) by (unfold when; neutral; apply neutral_barrier).
  by ret.
Qed.
End StealProofs.
