(* ===== verification/OwnerRules.v ===== *)
(** * Rules for the accesses a worker makes to its own deque *)

From S2P Require Export StealProofs.

(** Replacing components of what a worker knows. *)
Definition o_set_split (o : ostate) (md : mode) (x : Z) (tp : Z -> Prop) : ostate :=
  OState (o_view o) md (o_psplit o) (o_pallstolen o) (o_allstolen o) x tp (o_high o).
Definition o_set_allstolen (o : ostate) (x : Z) : ostate :=
  OState (o_view o) (o_mode o) (o_psplit o) (o_pallstolen o) x (o_split o) (o_tail o) (o_high o).
Definition o_set_psplit (o : ostate) (x : Z) : ostate :=
  OState (o_view o) (o_mode o) x (o_pallstolen o) (o_allstolen o) (o_split o) (o_tail o) (o_high o).
Definition o_set_pallstolen (o : ostate) (x : Z) : ostate :=
  OState (o_view o) (o_mode o) (o_psplit o) x (o_allstolen o) (o_split o) (o_tail o) (o_high o).

Section OwnerRules.
Context {cfg : Cfg}.
Variable ok : payload -> val -> Prop.
Abbreviation lsafe := (safe exec (lace_logic ok)).

Lemma core_eq_pub t f m : core_eq t m (upd_pub t f m).
Proof. split; simpl; try done; intros; by rewrite fn_lookup_insert_ne. Qed.

Lemma core_eq_priv t f m : core_eq t m (upd_priv t f m).
Proof. split; simpl; try done; intros; by rewrite fn_lookup_insert_ne. Qed.

Lemma Own_zlen t o s : Own t o s -> zlen (live s.2 t) = zlen (lv_live (o_view o)).
Proof. intros H. rewrite <-(own_view _ _ _ H). simpl. by rewrite zlen_fmap. Qed.

Lemma Own_cap t o s : Inv ok s -> Own t o s -> zlen (lv_live (o_view o)) <= dqsize.
Proof.
  intros Hi H. rewrite <-(Own_zlen t o s H).
  pose proof (dq_len _ _ _ _ _ _ _ (inv_dq _ _ Hi t)) as Hl. unfold dq_cap in Hl.
  case_decide as Hd; [done|]. by destruct (Hd (own_worker _ _ _ H)).
Qed.

(** The tail only moves up to the split point. *)
Definition tail_closed (tp : Z -> Prop) (x : Z) : Prop :=
  forall y z, tp y -> y <= z -> z = y \/ z <= x -> tp z.

(** What the new split point and mode have to satisfy, whatever the tail is. *)
Definition split_ok (o : ostate) (md : mode) (x : Z) (tp : Z -> Prop) : Prop :=
  tail_closed tp x /\
  forall l b tl, o_tail o tl -> zlen l = zlen (lv_live (o_view o)) ->
    mode_ok (o_mode o) l b tl (o_split o) -> tp tl /\ mode_ok md l b tl x.

Lemma Own_split t o md x tp m g :
  Own t o (m, g) -> split_ok o md x tp ->
  Own t (o_set_split o md x tp) (upd_pub t (set_split x) m, g).
Proof.
  intros H [Hc Hs]. pose proof (Own_zlen _ _ _ H) as Hz. destruct H. simpl in *.
  destruct (Hs (live g t) (base g t) (ts_tail (w_ts (pub m t)))) as [H1 H2]; [done..|].
  split; simpl; rewrite ?fn_lookup_insert; simpl; done.
Qed.

(** Learning something without a write. *)
Lemma Own_refine t o md (tp : Z -> Prop) m g :
  Own t o (m, g) -> tp (ts_tail (w_ts (pub m t))) -> tail_closed tp (o_split o) ->
  (forall l b, zlen l = zlen (lv_live (o_view o)) ->
     mode_ok (o_mode o) l b (ts_tail (w_ts (pub m t))) (o_split o) ->
     mode_ok md l b (ts_tail (w_ts (pub m t))) (o_split o)) ->
  Own t (o_set_split o md (o_split o) tp) (m, g).
Proof.
  intros H Htp Hc Hm. pose proof (Own_zlen _ _ _ H) as Hz. destruct H. simpl in *.
  split; simpl; try done. by apply Hm.
Qed.

Lemma safe_store_split {A} t o md x tp (k : unit -> lcode A) Q s :
  Inv ok s -> Own t o s -> split_ok o md x tp ->
  (forall s, Inv ok s -> Own t (o_set_split o md x tp) s -> lsafe t (k tt) Q s) ->
  lsafe t (Act (Store_split t x) k) Q s.
Proof.
  intros Hi Ho Hs Hk.
  eapply (safe_own_write ok t _ (fun _ => tt) (upd_pub t (set_split x)) k o _ (fun _ => True));
    [done|apply _|done..|apply core_eq_pub|intros m g _ Ho1 _; by apply Own_split|done|].
  intros m g Hi1 _ _ Ho1. by apply Hk.
Qed.

Lemma safe_fetch_add_split {A} t o md x tp (k : Z -> lcode A) Q s :
  Inv ok s -> Own t o s -> split_ok o md (u32 (o_split o + x)) tp ->
  (forall s, Inv ok s -> Own t (o_set_split o md (u32 (o_split o + x)) tp) s -> lsafe t (k (o_split o)) Q s) ->
  lsafe t (Act (Fetch_add_split t x) k) Q s.
Proof.
  intros Hi Ho Hs Hk.
  eapply (safe_own_write ok t _ (fun m => ts_split (w_ts (pub m t)))
    (fun m => upd_pub t (set_split (u32 (ts_split (w_ts (pub m t)) + x))) m) k o
    (o_set_split o md (u32 (o_split o + x)) tp) (fun _ => True));
    [done|apply _|done..|intros; apply core_eq_pub| |done|].
  - intros m g _ Ho1 _. pose proof (own_split _ _ _ Ho1) as He. simpl in He. rewrite He. by apply Own_split.
  - intros m g Hi1 Ho0 _ Ho1. pose proof (own_split _ _ _ Ho0) as He. simpl in He. rewrite He in *. by apply Hk.
Qed.

Lemma safe_store_ts {A} t o md x y (tp : Z -> Prop) (k : unit -> lcode A) Q s :
  Inv ok s -> Own t o s -> tp x -> tail_closed tp y ->
  (forall l b tl, o_tail o tl -> zlen l = zlen (lv_live (o_view o)) ->
     mode_ok (o_mode o) l b tl (o_split o) -> mode_ok md l b x y) ->
  (forall s, Inv ok s -> Own t (o_set_split o md y tp) s -> lsafe t (k tt) Q s) ->
  lsafe t (Act (Store_ts t (mkTS x y)) k) Q s.
Proof.
  intros Hi Ho Htp Hc Hm Hk.
  eapply (safe_own_write ok t _ (fun _ => tt) (upd_pub t (set_ts (mkTS x y))) k o
    (o_set_split o md y tp) (fun _ => True));
    [done|apply _|done..|apply core_eq_pub| |done|].
  - intros m g _ Ho1 _. pose proof (Own_zlen _ _ _ Ho1) as Hz. destruct Ho1. simpl in *.
    split; simpl; rewrite ?fn_lookup_insert; simpl; try done. by eapply Hm.
  - intros m g Hi1 _ _ Ho1. by apply Hk.
Qed.

Ltac own_field :=
  match goal with
  | |- forall m g, Inv _ _ -> Own _ _ _ -> True -> Own _ _ _ =>
      intros m g _ [] _; split; simpl in *; rewrite ?fn_lookup_insert; done
  end.

Lemma safe_store_allstolen {A} t o x (k : unit -> lcode A) Q s :
  Inv ok s -> Own t o s ->
  (forall s, Inv ok s -> Own t (o_set_allstolen o x) s -> lsafe t (k tt) Q s) ->
  lsafe t (Act (Store_allstolen t x) k) Q s.
Proof.
  intros Hi Ho Hk.
  eapply (safe_own_write ok t _ (fun _ => tt) (upd_pub t (set_allstolen x)) k o (o_set_allstolen o x)
    (fun _ => True)); [done|apply _|done..|apply core_eq_pub|own_field|done|].
  intros m g Hi1 _ _ Ho1. by apply Hk.
Qed.

Lemma safe_store_psplit {A} t o x (k : unit -> lcode A) Q s :
  Inv ok s -> Own t o s ->
  (forall s, Inv ok s -> Own t (o_set_psplit o x) s -> lsafe t (k tt) Q s) ->
  lsafe t (Act (Store_p_split t x) k) Q s.
Proof.
  intros Hi Ho Hk.
  eapply (safe_own_write ok t _ (fun _ => tt) (upd_priv t (set_p_split x)) k o (o_set_psplit o x)
    (fun _ => True)); [done|apply _|done..|apply core_eq_priv|own_field|done|].
  intros m g Hi1 _ _ Ho1. by apply Hk.
Qed.

Lemma safe_store_pallstolen {A} t o x (k : unit -> lcode A) Q s :
  Inv ok s -> Own t o s ->
  (forall s, Inv ok s -> Own t (o_set_pallstolen o x) s -> lsafe t (k tt) Q s) ->
  lsafe t (Act (Store_p_allstolen t x) k) Q s.
Proof.
  intros Hi Ho Hk.
  eapply (safe_own_write ok t _ (fun _ => tt) (upd_priv t (set_p_allstolen x)) k o (o_set_pallstolen o x)
    (fun _ => True)); [done|apply _|done..|apply core_eq_priv|own_field|done|].
  intros m g Hi1 _ _ Ho1. by apply Hk.
Qed.

Lemma safe_load_priv {A} t o (k : WorkerP -> lcode A) Q s :
  Inv ok s -> Own t o s ->
  (forall p s, Inv ok s -> Own t o s -> p_split p = o_psplit o -> p_allstolen p = o_pallstolen o ->
     lsafe t (k p) Q s) ->
  lsafe t (Act (Load_priv t) k) Q s.
Proof.
  intros Hi Ho Hk. eapply (safe_read ok t _ (fun m => priv m t) _ (Own t o)); [done|apply _|done..|].
  intros s1 Hi1 Ho1. split; [by split; [apply Ho1|]|]. apply Hk; [done..|apply Ho1|apply Ho1].
Qed.
End OwnerRules.
