(* ===== verification/ShrinkProofs.v ===== *)
(** * Moving the split point back: [lace_shrink_shared] *)

From S2P Require Export OwnerRules.

Section ShrinkProofs.
Context {cfg : Cfg} {cfg_ok : CfgOk}.
Variable ok : payload -> val -> Prop.
Abbreviation lsafe := (safe exec (lace_logic ok)).

(** The owner sets both flags when everything is stolen. *)
Lemma all_stolen_spec t L hi ps sp pa a s :
  Inv ok s -> Own t (OState L (Closed (zlen (lv_live L))) ps pa a sp (fun x => zlen (lv_live L) <= x) hi) s ->
  zlen (lv_live L) <= ps ->
  lsafe t (act (Store_allstolen t 1) ;;; act (Store_p_allstolen t 1)) (fun _ => Rest1 t L hi) s.
Proof.
  intros Hi Ho Hps. code. eapply safe_store_allstolen; [done..|].
  intros s1 Hi1 Ho1. code. eapply safe_store_pallstolen; [done..|].
  intros s2 Hi2 Ho2. ret. by exists ps, 1, sp.
Qed.

(** The tail is a valid index of the deque, so the sums below do not overflow. *)
Lemma Own_open_tail t o s :
  Own t o s -> o_mode o = Open -> 0 <= ts_tail (w_ts (pub s.1 t)) <= zlen (lv_live (o_view o)).
Proof.
  intros Ho Hm. rewrite <-(Own_zlen t o s Ho). pose proof (own_mode _ _ _ Ho) as Hmd.
  rewrite Hm in Hmd. destruct Hmd as [(? & ? & _) _]. lia.
Qed.

(** [newsplit = (tail + split) / 2] *)
Lemma half_sum tl sp :
  0 <= tl < sp -> sp < 2 ^ 31 -> tl <= u32 (tl + sp) / 2 < sp.
Proof.
  intros H1 H2. rewrite wrap_id by lia. split.
  - apply Z.div_le_lower_bound; lia.
  - apply Z.div_lt_upper_bound; lia.
Qed.

Definition shrunk (t : nat) (L : lview) (hi : Z -> Task -> Prop) (sp r : Z) (s : mem * ghost) : Prop :=
  (r = 1 /\ Rest1 t L hi s) \/ (r = 0 /\ exists sp', sp' < sp /\ Own t (o_rest0 L hi sp') s).

#[global] Instance Stable_ex {A} t (P : A -> mem * ghost -> Prop) :
  (forall x, Stable ok t (P x)) -> Stable ok t (fun s => exists x, P x s).
Proof. intros HP s s' Hi Hi' [x H] Hr. exists x. by eapply (HP x s). Qed.

#[global] Instance Stable_shrunk t L hi sp r : Stable ok t (shrunk t L hi sp r).
Proof. unfold shrunk. apply _. Qed.

Lemma shrink_all_stolen t L hi sp ps x s :
  Inv ok s -> Own t (OState L (Closed (zlen (lv_live L))) ps 0 0 x (fun x => zlen (lv_live L) <= x) hi) s ->
  zlen (lv_live L) <= ps ->
  lsafe t (act (Store_allstolen t 1) ;;; act (Store_p_allstolen t 1) ;;; Ret 1) (shrunk t L hi sp) s.
Proof.
  intros Hi Ho Hps.
  eapply (lsafe_seq _ _ (act (Store_allstolen t 1) ;;; act (Store_p_allstolen t 1)));
    [done|by eapply all_stolen_spec|].
  intros ? s1 Hi1 Hr. ret. by left.
Qed.

(** Finishing with a split point below the old one. *)
Lemma shrink_done t L hi sp ps x s :
  Inv ok s -> Own t (OState L Open ps 0 0 x (fun y => y <= x) hi) s -> x < sp ->
  lsafe t (act (Store_p_split t x) ;;; Ret 0) (shrunk t L hi sp) s.
Proof.
  intros Hi Ho Hx. code. eapply safe_store_psplit; [done..|].
  intros s1 Hi1 Ho1. ret. right. split; [done|]. by exists x.
Qed.

(** After the first store the tail is read again. *)
Lemma shrink_again t L hi sp x s :
  Inv ok s -> Own t (OState L Open sp 0 0 x (fun y => y <= sp) hi) s ->
  sp = zlen (lv_live L) -> x < sp ->
  lsafe t (tail <- act (Load_tail t) ;;
    if tail =? sp then act (Store_allstolen t 1) ;;; act (Store_p_allstolen t 1) ;;; Ret 1
    else
      newsplit <- (if x <? tail then
                     act (Store_split t (u32 (tail + sp) / 2)) ;;; Ret (u32 (tail + sp) / 2)
                   else Ret x) ;;
      act (Store_p_split t newsplit) ;;; Ret 0) (shrunk t L hi sp) s.
Proof.
  intros Hi Ho Hsp Hx. pose proof dq_small as Hdq.
  load_with (Own t (OState L Open sp 0 0 x (fun y => y <= sp) hi)); [by apply HP|].
  pose proof (Own_cap _ _ _ _ Hi0 HP) as Hcap. destruct (Own_open_tail _ _ _ HP eq_refl) as [H0 H1].
  pose proof (own_tail _ _ _ HP) as Htl. destruct s0 as [m g]. simpl in *.
  set (tl := ts_tail (w_ts (pub m t))) in *. destruct (Z.eqb_spec tl sp) as [He|Hne].
  - eapply (shrink_all_stolen _ _ _ _ sp x); [done| |lia].
    apply (Own_refine _ _ _ _ _ _ HP); [simpl; fold tl; lia|intros y z ?? _; lia|].
    simpl. fold tl. intros l b Hl [Hb _].
    split; [lia|]. by rewrite <-Hsp, <-He.
  - destruct (Z.ltb_spec x tl) as [Hlt|Hge]; code.
    + assert (Ho1 : Own t (OState L (Closed tl) sp 0 0 x (fun y => y = tl) hi) (m, g)).
      { apply (Own_refine _ _ _ _ _ _ HP); [done| |].
        - intros y z -> Hz [->|?]; simpl in *; [done|lia].
        - simpl. fold tl. intros l b Hl [Hb _]. split; [lia|done]. }
      pose proof (half_sum tl sp ltac:(lia) ltac:(lia)) as Hns.
      eapply (safe_store_split _ _ _ Open _ (fun y => y <= u32 (tl + sp) / 2)); [done|exact Ho1| |].
      * split; [intros y z ?? [->|?]; lia|]. simpl. intros l b y -> Hl [_ Hb]. split; [lia|].
        split; [done|lia].
      * intros s2 Hi2 Ho2. code. eapply shrink_done; [done|exact Ho2|lia].
    + eapply shrink_done; [done| |exact Hx].
      apply (Own_refine _ _ Open (fun y => y <= x) _ _ HP); [done|intros y z ?? [->|?]; simpl in *; lia|done].
Qed.

Lemma lace_shrink_shared_spec t L hi sp s :
  Inv ok s -> Own t (o_rest0 L hi sp) s -> sp = zlen (lv_live L) ->
  lsafe t (lace_shrink_shared t) (shrunk t L hi sp) s.
Proof.
  intros Hi Ho Hsp. pose proof dq_small as Hdq. unfold lace_shrink_shared.
  load_with (Own t (o_rest0 L hi sp)); [by apply HP|].
  pose proof (Own_cap _ _ _ _ Hi0 HP) as Hcap. destruct (Own_open_tail _ _ _ HP eq_refl) as [H0 H1].
  pose proof (own_tail _ _ _ HP) as Htl. pose proof (own_split _ _ _ HP) as Hs. destruct s0 as [m g]. simpl in *.
  rewrite Hs. set (tl := ts_tail (w_ts (pub m t))) in *. destruct (Z.eqb_spec tl sp) as [He|Hne].
  - eapply (shrink_all_stolen _ _ _ _ sp sp); [done| |lia].
    apply (Own_refine _ _ _ _ _ _ HP); [simpl; fold tl; lia|intros y z ?? _; lia|].
    simpl. fold tl. intros l b Hl [Hb _].
    split; [lia|]. by rewrite <-Hsp, <-He.
  - pose proof (half_sum tl sp ltac:(lia) ltac:(lia)) as Hns.
    eapply (safe_store_split _ _ _ Open _ (fun y => y <= sp)); [done|exact HP| |].
    + split; [intros y z ?? [->|?]; lia|]. simpl. intros l b y Hy Hl [Hb _]. split; [done|].
      split; [done|lia].
    + intros s2 Hi2 Ho2. by apply shrink_again; [..|lia].
Qed.

(** *** Sharing everything *)

Lemma lace_make_all_shared_spec t L hi s :
  Inv ok s -> AtH t L hi s ->
  lsafe t (lace_make_all_shared t (zlen (lv_live L))) (fun _ => AtH t L hi) s.
Proof.
  intros Hi Hat. pose proof dq_small as Hdq. unfold lace_make_all_shared. code.
  destruct Hat as [(sp & Ho)|(ps & a & sp & Ha & Hps & Ho)];
    (eapply safe_load_priv; [done..|]); intros p s1 Hi1 Ho1 -> _; cbn [o_psplit o_rest0 o_rest1];
    pose proof (Own_cap _ _ _ _ Hi1 Ho1) as Hcap; simpl in Hcap;
    rewrite (wrap_id 32) by (pose proof (zlen_nonneg (lv_live L)); lia).
  - destruct (Z.eqb_spec sp (zlen (lv_live L))) as [He|Hne]; [ret; left; by exists sp|].
    cbn [negb when]. eapply safe_store_psplit; [done..|]. intros s2 Hi2 Ho2. code.
    eapply (safe_store_split _ _ _ Open _ (fun y => y <= zlen (lv_live L))); [done|exact Ho2| |].
    + split; [intros y z ?? [->|?]; lia|]. simpl. intros l b y Hy Hl [Hb _].
      split; [rewrite <-Hl; apply Hb|]. split; [done|lia].
    + intros s3 Hi3 Ho3. ret. left. by exists (zlen (lv_live L)).
  - destruct (Z.eqb_spec ps (zlen (lv_live L))) as [He|Hne]; [ret; right; by exists ps, a, sp|].
    cbn [negb when]. eapply safe_store_psplit; [done..|]. intros s2 Hi2 Ho2. code.
    eapply (safe_store_split _ _ _ (Closed (zlen (lv_live L))) _ (fun y => zlen (lv_live L) <= y));
      [done|exact Ho2| |].
    + split; [intros y z ?? _; lia|]. simpl. intros l b y Hy Hl [_ Hb]. by split.
    + intros s3 Hi3 Ho3. ret. right. exists (zlen (lv_live L)), a, (zlen (lv_live L)). by split_and!.
Qed.
End ShrinkProofs.
