(* ===== verification/TaskProofs.v ===== *)
(** * Writing and reading the data of a task *)

From S2P Require Export ShrinkProofs.

Section TaskProofs.
Context {cfg : Cfg} {cfg_ok : CfgOk}.
Variable ok : payload -> val -> Prop.
Abbreviation lsafe := (safe exec (lace_logic ok)).

(** *** Words of a task *)

Lemma take_set_d i x T :
  (i < length (task_d T))%nat -> take (S i) (task_d (set_d i x T)) = take i (task_d T) ++ [x].
Proof.
  intros Hi. simpl. rewrite (take_S_r _ _ x) by (by apply list_lookup_insert_eq).
  by rewrite take_insert_ge by done.
Qed.

Lemma length_set_d i x T : length (task_d (set_d i x T)) = length (task_d T).
Proof. apply length_insert. Qed.

Lemma get_d_args i T args x :
  args_in T args -> args !! i = Some x -> get_d i T = x.
Proof.
  unfold args_in, get_d. intros Ha Hx. rewrite nth_lookup.
  pose proof (lookup_lt_Some _ _ _ Hx) as Hlt.
  by rewrite <-(lookup_take_lt (task_d T) (length args) i Hlt), Ha, Hx.
Qed.

(** *** Building a task

    [W P]: the thread may write the task [tr], whose content satisfies [P]. *)
Definition Writable (t : nat) (tr : tref) (W : (Task -> Prop) -> mem * ghost -> Prop) : Prop :=
  forall A (e : ev unit) f (P P' : Task -> Prop) (k : unit -> lcode A) Q s,
    (forall m, exec1 t e m = [(tt, upd_task tr f m)]) ->
    (forall m, tref_valid tr m -> ev_valid unit t e m) ->
    (forall T, length (task_d T) = d_words -> P T -> length (task_d (f T)) = d_words /\ P' (f T)) ->
    Inv ok s -> W P s ->
    (forall s, Inv ok s -> W P' s -> lsafe t (k tt) Q s) ->
    lsafe t (Act e k) Q s.

(** The task after [done] arguments have been stored. *)
Definition filled (u : nat) (done : list val) (T : Task) : Prop :=
  task_f T = F_user u /\ task_thief T = THIEF_TASK /\ args_in T done.

Definition task_full (pay : payload) (T : Task) : Prop :=
  task_thief T = THIEF_TASK /\ task_ready T pay.

Lemma store_args_spec t tr W u args s :
  forall done, Writable t tr W -> (forall P, Stable ok t (W P)) ->
  (length done + length args <= d_words)%nat -> Inv ok s -> W (filled u done) s ->
  lsafe t (store_args tr (length done) args) (fun _ => W (filled u (done ++ args))) s.
Proof.
  revert s. induction args as [|x args IH]; intros s done HW Hst Hlen Hi Hw; cbn [store_args].
  - ret. by rewrite app_nil_r.
  - code. eapply (HW _ _ (set_d (length done) x) _ (filled u (done ++ [x]))); [done| | |done|exact Hw|].
    + intros m Hv. simpl in *. split; [done|lia].
    + intros T Hd (Hf & Hth & Ha). rewrite length_set_d. split; [done|]. split_and!; [done..|].
      unfold args_in in *. rewrite length_app. cbn [length]. rewrite Nat.add_1_r, take_set_d; [by rewrite Ha|].
      simpl in *. lia.
    + intros s1 Hi1 Hw1. replace (S (length done)) with (length (done ++ [x])) by (rewrite length_app; simpl; lia).
      rewrite (cons_middle x done args), app_assoc. apply IH; [done..| |done|done].
      rewrite length_app. simpl in *. lia.
Qed.

Lemma init_task_spec t tr W u args s :
  Writable t tr W -> (forall P, Stable ok t (W P)) -> length args = user_arity u ->
  Inv ok s -> W (fun _ => True) s ->
  lsafe t (init_task (F_user u) tr args) (fun _ => W (filled u args)) s.
Proof.
  intros HW Hst Hlen Hi Hw. unfold init_task. code.
  eapply (HW _ _ (set_task_f (F_user u)) _ (fun T => task_f T = F_user u)); [done..| |done|exact Hw|]; [done|].
  intros s1 Hi1 Hw1. code.
  eapply (HW _ _ (set_task_thief THIEF_TASK) _ (filled u [])); [done..| |done|exact Hw1|]; [done|].
  intros s2 Hi2 Hw2. pose proof (args_fit u).
  apply (store_args_spec t tr W u args s2 []); [done..|simpl; lia|done|done].
Qed.

Lemma filled_full u args T : length args = user_arity u -> filled u args T -> task_full (u, args) T.
Proof. intros Hl (? & ? & ?). by repeat split. Qed.

(** *** Reading the arguments *)

Lemma load_args_spec t tr R args i s :
  Stable ok t R ->
  (forall m g, Inv ok (m, g) -> R (m, g) -> tref_valid tr m /\ args_in (get_task tr m) args) ->
  (length args <= d_words)%nat -> (i <= length args)%nat -> Inv ok s -> R s ->
  lsafe t (load_args tr i (length args - i)) (fun v s => v = drop i args /\ R s) s.
Proof.
  intros Hst HR Hlen Hi. remember (length args - i)%nat as n eqn:Hn.
  revert i s Hi Hn. induction n as [|n IH]; intros i s Hi Hn Hinv Hr; cbn [load_args].
  - ret. split; [|done]. symmetry. apply drop_ge. lia.
  - load_with R.
    { destruct s0 as [m g]. destruct (HR m g) as [Hv _]; [done..|]. split; [done|]. lia. }
    destruct s0 as [m g]. destruct (HR m g) as [_ Ha]; [done..|]. simpl.
    destruct (lookup_lt_is_Some_2 args i) as [x Hx]; [lia|].
    rewrite (get_d_args i _ args x Ha Hx).
    eapply lsafe_seq; [done|apply (IH (S i)); [lia|lia|done|done]|].
    intros v s1 Hi1 [-> Hr1]. ret. split; [|done]. by rewrite (drop_S args x i).
Qed.

Lemma load_args_all t tr R args s :
  Stable ok t R ->
  (forall m g, Inv ok (m, g) -> R (m, g) -> tref_valid tr m /\ args_in (get_task tr m) args) ->
  (length args <= d_words)%nat -> Inv ok s -> R s ->
  lsafe t (load_args tr 0 (length args)) (fun v s => v = args /\ R s) s.
Proof.
  intros Hst HR Hlen Hi Hr. pose proof (load_args_spec t tr R args 0 s Hst HR Hlen) as H.
  rewrite Nat.sub_0_r, drop_0 in H. apply H; [lia|done..].
Qed.

(** The result of a finished task. *)
Lemma load_res_spec t tr (R : mem * ghost -> Prop) pay s :
  Stable ok t R ->
  (forall m g, Inv ok (m, g) -> R (m, g) -> tref_valid tr m /\ ok pay (task_res pay (get_task tr m))) ->
  Inv ok s -> R s ->
  lsafe t (load_res (user_void pay.1) tr) (fun v s => ok pay v /\ R s) s.
Proof.
  intros Hst HR Hi Hr. pose proof res_fit as Hfit. unfold load_res. destruct (user_void pay.1) eqn:Hv.
  - ret. split; [|done]. destruct s as [m g]. destruct (HR m g) as [_ H]; [done..|].
    unfold task_res in H. by rewrite Hv in H.
  - load_with R; destruct s0 as [m g]; destruct (HR m g) as [Hva H]; try done.
    ret. split; [|done]. unfold task_res in H. by rewrite Hv in H.
Qed.
End TaskProofs.
