(* ===== verification/SpawnProofs.v ===== *)
(** * SPAWN: pushing a task and growing the shared part *)

From S2P Require Export TaskProofs.

Section SpawnProofs.
Context {cfg : Cfg} {cfg_ok : CfgOk}.
Variable ok : payload -> val -> Prop.
Abbreviation lsafe := (safe exec (lace_logic ok)).

(** *** The slot at the head *)

(** Above the head everything is clean, except the head itself, which satisfies [P]. *)
Definition high (h : Z) (P : Task -> Prop) (i : Z) (T : Task) : Prop :=
  if decide (i = h) then P T else clean i T.

Lemma Own_high t o hi m g m' :
  Own t o (m, g) -> priv m' t = priv m t -> pub m' t = pub m t ->
  (forall i, zlen (lv_live (o_view o)) <= i -> o_high o i (slots m t i) -> hi i (slots m' t i)) ->
  Own t (OState (o_view o) (o_mode o) (o_psplit o) (o_pallstolen o) (o_allstolen o) (o_split o)
           (o_tail o) hi) (m', g).
Proof.
  intros Ho Hp Hpub Hhi. pose proof (Own_zlen _ _ _ Ho) as Hz. pose proof (own_high _ _ _ Ho) as Hh.
  destruct Ho. simpl in *. split; simpl; rewrite ?Hp, ?Hpub; try done.
  intros i Hi. apply Hhi; [lia|]. by apply Hh.
Qed.

Lemma AtH_high t L hi m g i :
  AtH t L hi (m, g) -> zlen (lv_live L) <= i -> hi i (slots m t i).
Proof.
  intros [(sp & H)|(ps & a & sp & Ha & Hps & H)] Hi; pose proof (Own_zlen _ _ _ H) as Hz; simpl in *.
  - apply (own_high _ _ _ H). simpl. lia.
  - apply (own_high _ _ _ H). simpl. lia.
Qed.

Lemma AtH_change t L hi hi' m g m' :
  AtH t L hi (m, g) -> priv m' t = priv m t -> pub m' t = pub m t ->
  (forall i, zlen (lv_live L) <= i -> hi i (slots m t i) -> hi' i (slots m' t i)) ->
  AtH t L hi' (m', g).
Proof.
  intros [(sp & H)|(ps & a & sp & Ha & Hps & H)] Hp Hpub Hhi.
  - left. exists sp. by apply (Own_high _ _ _ _ _ _ H).
  - right. exists ps, a, sp. split_and!; [done..|]. by apply (Own_high _ _ _ _ _ _ H).
Qed.

Lemma AtH_mono t L (hi hi' : Z -> Task -> Prop) s :
  (forall i T, zlen (lv_live L) <= i -> hi i T -> hi' i T) -> AtH t L hi s -> AtH t L hi' s.
Proof. intros H Hat. destruct s as [m g]. eapply AtH_change; [done..|]. auto. Qed.

Lemma head_valid t L hi s :
  AtH t L hi s -> zlen (lv_live L) < dqsize -> tref_valid (TSlot t (zlen (lv_live L))) s.1.
Proof.
  intros Hat Hlt. simpl. pose proof (zlen_nonneg (lv_live L)). split; [by eapply At_worker|lia].
Qed.

Lemma head_owned t L hi m g :
  Inv ok (m, g) -> AtH t L hi (m, g) ->
  own_slot t (TSlot t (zlen (lv_live L))) g /\ ~ held t (TSlot t (zlen (lv_live L))) g.
Proof.
  intros Hi Hat. split.
  - split; [done|]. rewrite <-(At_view _ _ _ _ Hat). simpl. by rewrite zlen_fmap.
  - intros Hh. by apply (held_foreign ok _ _ _ _ Hi Hh).
Qed.

Lemma head_writable t L :
  zlen (lv_live L) < dqsize ->
  Writable ok t (TSlot t (zlen (lv_live L))) (fun P => AtH t L (high (zlen (lv_live L)) P)).
Proof.
  intros Hlt A e f P P' k Q s He Hv Hf Hi Hw Hk. set (h := zlen (lv_live L)) in *.
  eapply (safe_write ok t e (fun _ => tt) (upd_task (TSlot t h) f) k (AtH t L (high h P)));
    [by left|apply _|done..|].
  intros m g Hi1 Hat. split; [by apply Hv, (head_valid _ _ _ _ Hat)|]. exists g.
  destruct (head_owned t L _ m g Hi1 Hat) as [Ho Hnh].
  pose proof (inv_words _ _ Hi1 (TSlot t h)) as Hd.
  assert (HP : P (slots m t h)).
  { pose proof (AtH_high _ _ _ _ _ h Hat ltac:(lia)) as Hh. unfold high in Hh. by rewrite decide_True in Hh. }
  destruct (Hf _ Hd HP) as [Hd' HP']. split.
  - apply good_set_task; [done|by left|done|done].
  - intros Hi2. apply Hk; [done|]. apply (AtH_change t L (high h P) _ m g); [done..|].
    intros i Hi' Hhi. unfold upd_task. rewrite slots_set_task. unfold high in *.
    destruct (decide (i = h)) as [->|Hne]; [by rewrite decide_True|]. by rewrite decide_False by congruence.
Qed.

(** *** The push *)

Definition push (L : lview) (pay : payload) : lview := with_live L (lv_live L ++ [pay]).

Lemma zlen_snoc {A} (l : list A) x : zlen (l ++ [x]) = zlen l + 1.
Proof. by rewrite zlen_app. Qed.

Lemma bnd_snoc l b c pay : bnd l b c -> bnd (l ++ [mkEntry pay Avail]) b c.
Proof.
  intros (H1 & H2 & H3 & H4). unfold bnd. rewrite zlen_snoc. split_and!; [lia..| |].
  - intros i Hi. rewrite avail_app_l by lia. apply H3. lia.
  - intros i Hi. destruct (decide (i = zlen l)) as [->|Hne].
    + exists (mkEntry pay Avail). by rewrite ent_snoc.
    + apply avail_app_l; [lia|]. apply H4. lia.
Qed.

Lemma mode_ok_snoc md l b tl sp pay :
  mode_ok md l b tl sp -> mode_ok md (l ++ [mkEntry pay Avail]) b tl sp.
Proof.
  destruct md; simpl; rewrite ?zlen_snoc; intros [H1 H2]; split; try lia; by apply bnd_snoc.
Qed.

Lemma Own_push t o pay hi m g :
  Own t o (m, g) ->
  (forall i T, zlen (lv_live (o_view o)) < i -> o_high o i T -> hi i T) ->
  Own t (OState (push (o_view o) pay) (o_mode o) (o_psplit o) (o_pallstolen o) (o_allstolen o)
           (o_split o) (o_tail o) hi) (m, g_live t (live g t ++ [mkEntry pay Avail]) g).
Proof.
  intros Ho Hhi. pose proof (Own_zlen _ _ _ Ho) as Hz. pose proof (own_high _ _ _ Ho) as Hh.
  destruct Ho. simpl in *. split; simpl; rewrite ?fn_lookup_insert; try done.
  - rewrite <-own_view. unfold view, push. simpl. rewrite fn_lookup_insert. by rewrite fmap_app.
  - by apply mode_ok_snoc.
  - intros i. rewrite zlen_snoc. intros Hi. apply Hhi; [lia|]. apply Hh. lia.
Qed.

(** What the worker knows after the push when everything else was stolen. *)
Definition pushed1 (t : nat) (L : lview) (pay : payload) (s : mem * ghost) : Prop :=
  exists ps a sp, a <> 0 /\
    Own t (OState (push L pay) (Closed (zlen (lv_live L))) ps a a sp (fun x => zlen (lv_live L) <= x) clean) s.

Lemma push_step t L pay m g :
  Inv ok (m, g) -> AtH t L (high (zlen (lv_live L)) (task_full pay)) (m, g) ->
  zlen (lv_live L) < dqsize ->
  let g' := g_live t (live g t ++ [mkEntry pay Avail]) g in
  good ok t (m, g) (m, g') /\
  ((p_allstolen (priv m t) = 0 /\ exists sp, sp <= zlen (lv_live L) /\ p_split (priv m t) = sp /\
      Own t (o_rest0 (push L pay) clean sp) (m, g')) \/
   (p_allstolen (priv m t) <> 0 /\ pushed1 t L pay (m, g'))).
Proof.
  intros Hi Hat Hlt. pose proof (AtH_high _ _ _ _ _ (zlen (lv_live L)) Hat ltac:(lia)) as Hf.
  unfold high in Hf. rewrite decide_True in Hf by done. destruct Hf as [Hth Hrd].
  assert (Hz : zlen (live g t) = zlen (lv_live L)).
  { rewrite <-(At_view _ _ _ _ Hat). simpl. by rewrite zlen_fmap. }
  assert (Hhi : forall i T, zlen (lv_live L) < i -> high (zlen (lv_live L)) (task_full pay) i T -> clean i T).
  { intros i T Hlt'. unfold high. by rewrite decide_False by lia. }
  split.
  - apply good_push; [done| |by rewrite Hz..]. unfold dq_cap.
    rewrite decide_True by (by eapply At_worker). lia.
  - destruct Hat as [(sp & H)|(ps & a & sp & Ha & Hps & H)].
    + left. split; [apply (own_pallstolen _ _ _ H)|]. exists sp. split_and!.
      * pose proof (own_mode _ _ _ H) as [_ Hs]. simpl in *. lia.
      * apply (own_psplit _ _ _ H).
      * by apply (Own_push _ _ pay clean _ _ H).
    + right. split; [pose proof (own_pallstolen _ _ _ H) as He; simpl in He; congruence|]. exists ps, a, sp. split; [done|].
      by apply (Own_push _ _ pay clean _ _ H).
Qed.

(** [newsplit = (split + head + 2) / 2] *)
Lemma grow_split sp h :
  0 <= sp <= h -> h + 1 < 2 ^ 31 -> sp <= u32 (u32 sp + u32 h + 2) / 2 <= h + 1.
Proof.
  intros H1 H2. rewrite (wrap_id 32 sp), (wrap_id 32 h), wrap_id by lia. split.
  - apply Z.div_le_lower_bound; lia.
  - apply Z.div_le_upper_bound; lia.
Qed.

(** The shared part grows when a thief has asked for it. *)
Lemma spawn_grow t L pay sp p s :
  Inv ok s -> Own t (o_rest0 (push L pay) clean sp) s -> sp <= zlen (lv_live L) -> p_split p = sp ->
  lsafe t (ms <- act (Load_movesplit t) ;;
    when (negb (ms =? 0)) (
      let newsplit := u32 (u32 (p_split p) + u32 (zlen (lv_live L)) + 2) / 2 in
      act (Store_split t newsplit) ;;;
      act (Store_p_split t newsplit) ;;;
      act (Store_movesplit t 0))) (fun _ => At t (push L pay)) s.
Proof.
  intros Hi Ho Hsp Hp. pose proof dq_small as Hdq. pose proof (own_worker _ _ _ Ho) as Ht.
  skip_with (Own t (o_rest0 (push L pay) clean sp)). unfold when. case_match; [|ret; left; by exists sp].
  pose proof (Own_cap _ _ _ _ Hi0 HP) as Hcap. simpl in Hcap. rewrite zlen_snoc in Hcap.
  destruct (Own_open_tail _ _ _ HP eq_refl) as [H0 _]. pose proof (own_tail _ _ _ HP) as Htl. simpl in Htl.
  rewrite Hp. pose proof (grow_split sp (zlen (lv_live L)) ltac:(lia) ltac:(lia)) as Hns.
  set (ns := u32 _ / 2) in *. clearbody ns. code.
  eapply (safe_store_split _ _ _ Open ns (fun y => y <= ns)); [done|exact HP| |].
  { split; [intros y z ?? [->|?]; lia|]. simpl. intros l b y Hy Hl [Hb _]. rewrite zlen_snoc in Hl.
    split; [lia|]. split; [done|lia]. }
  intros s2 Hi2 Ho2. code. eapply safe_store_psplit; [done..|]. intros s3 Hi3 Ho3.
  assert (Hat : At t (push L pay) s3) by (left; by exists ns). skip_with (At t (push L pay)). by ret.
Qed.

(** When everything was stolen, the new task is shared at once. *)
Lemma spawn_share t L pay s :
  Inv ok s -> pushed1 t L pay s ->
  lsafe t (ms <- act (Load_movesplit t) ;;
    when (negb (ms =? 0)) (act (Store_movesplit t 0)) ;;;
    act (Store_ts t (mkTS (u32 (zlen (lv_live L))) (u32 (u32 (zlen (lv_live L)) + 1)))) ;;;
    act (Store_allstolen t 0) ;;;
    act (Store_p_split t (zlen (lv_live L) + 1)) ;;;
    act (Store_p_allstolen t 0)) (fun _ => At t (push L pay)) s.
Proof.
  intros Hi (ps & a & sp & Ha & Ho). pose proof dq_small as Hdq. pose proof (own_worker _ _ _ Ho) as Ht.
  pose proof (Own_cap _ _ _ _ Hi Ho) as Hcap. simpl in Hcap. rewrite zlen_snoc in Hcap.
  pose proof (zlen_nonneg (lv_live L)) as H0. rewrite (wrap_id 32), wrap_id by lia.
  set (h := zlen (lv_live L)) in *. set (o := OState _ _ _ _ _ _ _ _) in Ho.
  skip_with (Own t o). skip_code (Own t o) by neutral.
  eapply (safe_store_ts _ _ _ Open _ _ (fun y => y <= h + 1)); [done|done|lia| | |].
  { intros y z ?? [->|?]; lia. }
  { simpl. intros l b tl _ Hl [_ Hb]. rewrite zlen_snoc in Hl. split; [done|lia]. }
  intros s2 Hi2 Ho2. code. eapply safe_store_allstolen; [done..|]. intros s3 Hi3 Ho3. code.
  eapply safe_store_psplit; [done..|]. intros s4 Hi4 Ho4. code.
  eapply safe_store_pallstolen; [done..|]. intros s5 Hi5 Ho5. ret. left. by exists (h + 1).
Qed.

(** After [exit()] nothing happens any more. *)
Lemma safe_exited {A R} t (e : ev R) (k : R -> lcode A) Q s :
  Inv ok s -> exited s.1 = true -> lsafe t (Act e k) Q s.
Proof.
  intros Hi He. eapply (safe_act _ (lace_logic ok) _ _ _ (fun s => exited s.1 = true)); [|done..|].
  - intros s1 s2 _ _ H Hr. by apply (r_exited _ _ _ Hr).
  - intros s1 _ H. split; [simpl; congruence|]. intros r m. unfold exec. rewrite H.
    by intros ?%not_elem_of_nil.
Qed.

Lemma abort_spec {A R} t (e : ev R) (k : R -> lcode A) Q s :
  Inv ok s -> lsafe t (lace_abort_stack_overflow ;;; Act e k) Q s.
Proof.
  intros Hi. unfold lace_abort_stack_overflow. code.
  eapply (safe_write ok t _ (fun _ => tt) (set_exited true) _ (fun _ => True)); [by left|apply _|done..|].
  intros m g Hi1 _. split; [done|]. exists g. split.
  - apply good_same_core; [done|]. by eapply (neutral_same t Exit m tt); [|left].
  - intros Hi2. by apply safe_exited.
Qed.

Lemma At_cap t L hi s : Inv ok s -> AtH t L hi s -> zlen (lv_live L) <= dqsize.
Proof. intros Hi [(sp & H)|(ps & a & sp & Ha & Hps & H)]; apply (Own_cap ok _ _ _ Hi H). Qed.

Lemma gen_SPAWN_spec t L u args s :
  Inv ok s -> At t L s -> length args = user_arity u ->
  lsafe t (gen_SPAWN (F_user u) t (zlen (lv_live L)) args) (fun _ => At t (push L (u, args))) s.
Proof.
  intros Hi Hat Hargs. unfold gen_SPAWN. pose proof (At_cap _ _ _ _ Hi Hat) as Hcap.
  destruct (Z.eqb_spec (zlen (lv_live L)) dqsize) as [He|Hne]; [by apply abort_spec|].
  assert (Hlt : zlen (lv_live L) < dqsize) by lia. set (h := zlen (lv_live L)) in *. code.
  eapply lsafe_seq; [done| |].
  { apply (init_task_spec ok _ _ (fun P => AtH t L (high h P)));
      [by apply head_writable|apply _|done..|].
    eapply AtH_mono; [|done]. intros i T _ Hc. unfold high. by case_decide. }
  intros [] s1 Hi1 Hat1. unfold spawn_publish. code.
  eapply (safe_write ok t _ (fun m => priv m t) (fun m => m) _ (AtH t L (high h (task_full (u, args)))));
    [by left|apply _|done| |].
  { eapply AtH_mono; [|exact Hat1]. intros i T _. unfold high. case_decide; [by apply filled_full|done]. }
  intros m g Hi2 Hat2. split; [split; [by eapply At_worker|done]|].
  destruct (push_step t L (u, args) m g Hi2 Hat2 Hlt) as [Hg Hc]. eexists. split; [exact Hg|].
  intros Hi3. destruct Hc as [(Hp & sp & Hsp & Hps & Ho)|(Hp & Hpu)].
  - rewrite Hp. by eapply spawn_grow.
  - rewrite (proj2 (Z.eqb_neq _ _) Hp). by apply spawn_share.
Qed.
End SpawnProofs.
