(* ===== verification/SyncProofs.v ===== *)
(** * SYNC: popping a task, or waiting for its thief *)

From S2P Require Export SpawnProofs.

Section SyncProofs.
Context {cfg : Cfg} {cfg_ok : CfgOk}.
Variable ok : payload -> val -> Prop.
Abbreviation lsafe := (safe exec (lace_logic ok)).

(** *** The pop *)

(** Everything the worker remembers is about older tasks, and its frame starts below. *)
Definition below (L : lview) : Prop :=
  lv_base L <= zlen (lv_live L) /\
  forall f i, f ∈ lv_facts L -> fact_index f = Some i -> i < zlen (lv_live L).

Lemma live_push t L pay g :
  view t g = push L pay ->
  exists l e, live g t = l ++ [e] /\ e_pay e = pay /\ zlen l = zlen (lv_live L) /\ e_pay <$> l = lv_live L.
Proof.
  unfold view, push, with_live. intros H. simplify_eq. destruct L as [b l0 h f]. simpl in *. simplify_eq.
  match goal with H : e_pay <$> _ = _ |- _ => apply fmap_app_inv in H as (l & l2 & Hl & Hl2 & ->); rename Hl2 into Hx end.
  destruct l2 as [|e [|]]; simplify_eq/=. exists l, e. by rewrite zlen_fmap.
Qed.

Lemma bnd_init l e b c : bnd (l ++ [e]) b c -> c <= zlen l -> bnd l b c.
Proof.
  intros (H1 & H2 & H3 & H4) Hc. rewrite zlen_snoc in *. unfold bnd. split_and!; [lia..| |].
  - intros i Hi Ha. apply (H3 i Hi). apply avail_app_l; [lia|done].
  - intros i Hi. apply (avail_app_l _ [e]); [lia|]. apply H4. lia.
Qed.

Lemma mode_shared md l b ts :
  mode_ok md l b (ts_tail ts) (ts_split ts) -> shared_ok ts l b.
Proof.
  intros H Hlt. destruct md; simpl in H.
  - destruct H as [(H1 & H2 & H3 & H4) H5]. split_and!; [lia..|]. intros i Hi. apply H4. lia.
  - lia.
Qed.

Lemma pop_ghost t o L pay md (hi : Z -> Task -> Prop) m g l e :
  Inv ok (m, g) -> Own t o (m, g) -> o_view o = push L pay -> o_high o = clean ->
  live g t = l ++ [e] -> (forall q, e_st e <> Taken q) -> below L ->
  mode_ok md l (base g t) (ts_tail (w_ts (pub m t))) (o_split o) ->
  hi (zlen (lv_live L)) (slots m t (zlen (lv_live L))) ->
  (forall i T, zlen (lv_live L) < i -> clean i T -> hi i T) ->
  good ok t (m, g) (m, g_live t l g) /\
  Own t (OState L md (o_psplit o) (o_pallstolen o) (o_allstolen o) (o_split o) (o_tail o) hi)
    (m, g_live t l g).
Proof.
  intros Hi Ho Hv Hhi Hl Hst Hbel Hmd Htop Hrest. set (h := zlen (lv_live L)) in *.
  pose proof (own_view _ _ _ Ho) as Hvw. rewrite Hv in Hvw. simpl in Hvw.
  destruct (live_push t L pay g Hvw) as (l' & e' & Hl' & _ & Hz & Hf). rewrite Hl in Hl'.
  apply app_inj_tail in Hl' as [<- <-]. split.
  - eapply good_pop; [done..| |].
    + apply (mode_shared md). pose proof (own_split _ _ _ Ho) as Hs. simpl in Hs. by rewrite Hs.
    + intros f i Hin. rewrite Hz. apply (proj2 Hbel).
      change (lv_facts L) with (lv_facts (push L pay)). by rewrite <-Hvw.
  - pose proof (own_high _ _ _ Ho) as Hhigh. rewrite Hhi in Hhigh. destruct Ho. simpl in *.
    split; simpl; rewrite ?fn_lookup_insert; try done.
    + unfold view in *. simpl. rewrite fn_lookup_insert, Hf. injection Hvw as Hb _ Hho Hfa.
      destruct L. simpl in *. congruence.
    + intros i Hge. rewrite Hl, zlen_snoc, Hz in Hhigh.
      destruct (decide (i = h)) as [->|]; [done|]. apply Hrest; [|apply Hhigh]; lia.
Qed.

Lemma pop_step t o L pay md (P : Task -> Prop) m g l e :
  Inv ok (m, g) -> Own t o (m, g) -> o_view o = push L pay -> o_high o = clean ->
  live g t = l ++ [e] -> (forall q, e_st e <> Taken q) -> below L ->
  mode_ok md l (base g t) (ts_tail (w_ts (pub m t))) (o_split o) ->
  P (set_task_thief THIEF_EMPTY (slots m t (zlen (lv_live L)))) ->
  let m' := upd_task (TSlot t (zlen (lv_live L))) (set_task_thief THIEF_EMPTY) m in
  let g' := g_live t l g in
  good ok t (m, g) (m', g') /\
  Own t (OState L md (o_psplit o) (o_pallstolen o) (o_allstolen o) (o_split o) (o_tail o)
           (high (zlen (lv_live L)) P)) (m', g').
Proof.
  intros Hi Ho Hv Hhi Hl Hst Hbel Hmd HP. set (h := zlen (lv_live L)) in *. cbv zeta.
  destruct (pop_ghost t o L pay md (fun i T => if decide (i = h) then T = slots m t h else clean i T) m g l e)
    as [Hpop Ho']; try done.
  { simpl. by rewrite decide_True. }
  { intros i T Hlt Hc. by rewrite decide_False by (unfold h; lia). }
  pose proof (Own_zlen _ _ _ Ho') as Hz. simpl in Hz. rewrite fn_lookup_insert in Hz. split.
  - eapply good_trans; [exact Hpop|]. apply good_set_task; [apply Hpop|left|apply (inv_words _ _ Hi)|].
    + split; [done|]. simpl. rewrite fn_lookup_insert. unfold h. lia.
    + intros Hh. by destruct (held_foreign ok _ _ _ _ (proj2 Hpop) Hh).
  - apply (Own_high _ _ (high h P) _ _ _ Ho'); [done..|]. cbn [o_view o_high]. intros i Hge Hold. unfold high.
    unfold upd_task. rewrite slots_set_task. cbn [get_task].
    destruct (decide (i = h)) as [->|Hne]; [by rewrite decide_True|]. by rewrite decide_False by congruence.
Qed.

Lemma At_below t L hi m g : Inv ok (m, g) -> AtH t L hi (m, g) -> below L.
Proof.
  intros Hi Hat. pose proof (At_view _ _ _ _ Hat) as Hv. simpl in Hv. split.
  - rewrite <-Hv. simpl. rewrite zlen_fmap.
    destruct Hat as [(sp & H)|(ps & a & sp & Ha & Hps & H)].
    + pose proof (own_mode _ _ _ H) as [(? & ? & _) _]. simpl in *. lia.
    + pose proof (own_mode _ _ _ H) as [_ (? & ? & _)]. simpl in *. lia.
  - intros f i Hin Hf. rewrite <-Hv in *. simpl in *. rewrite zlen_fmap.
    apply (inv_facts _ _ Hi) in Hin.
    destruct f; simplify_eq/=; destruct Hin as (e & He & _); apply ent_range in He; lia.
Qed.

(** The fast path: the task is above the split point, nobody else can reach it. *)
Lemma top_private t L pay sp m g :
  Inv ok (m, g) -> Own t (o_rest0 (push L pay) clean sp) (m, g) -> sp <= zlen (lv_live L) ->
  exists l e, live g t = l ++ [e] /\ e_pay e = pay /\ e_st e = Avail /\
    task_full pay (slots m t (zlen (lv_live L))) /\
    mode_ok Open l (base g t) (ts_tail (w_ts (pub m t))) sp.
Proof.
  intros Hi Ho Hsp. pose proof (own_view _ _ _ Ho) as Hvw.
  destruct (live_push t L pay g Hvw) as (l & e & Hl & He & Hz & _).
  pose proof (own_mode _ _ _ Ho) as [Hb _]. pose proof (own_tail _ _ _ Ho) as Htl. simpl in *. rewrite Hl in Hb.
  assert (Hav : avail (l ++ [e]) (zlen l)).
  { destruct Hb as (_ & _ & _ & Hb). apply Hb. rewrite zlen_snoc. lia. }
  destruct Hav as (e' & He' & Hst). rewrite ent_snoc in He'. simplify_eq.
  assert (Hsl : slot_ok ok (holds g) t (zlen l) (slots m t (zlen l)) e').
  { apply (dq_slots _ _ _ _ _ _ _ (inv_dq _ _ Hi t)). simpl. rewrite Hl. apply ent_snoc. }
  unfold slot_ok in Hsl. rewrite Hst in Hsl. rewrite Hz in *. exists l, e'. split_and!; try done.
  - eapply bnd_init; [done|lia].
  - lia.
Qed.

Lemma pop_private t L pay sp m g :
  Inv ok (m, g) -> Own t (o_rest0 (push L pay) clean sp) (m, g) -> sp <= zlen (lv_live L) -> below L ->
  exists g', good ok t (m, g) (upd_task (TSlot t (zlen (lv_live L))) (set_task_thief THIEF_EMPTY) m, g') /\
    AtH t L (high (zlen (lv_live L)) (fun T => task_thief T = THIEF_EMPTY /\ task_ready T pay))
      (upd_task (TSlot t (zlen (lv_live L))) (set_task_thief THIEF_EMPTY) m, g').
Proof.
  intros Hi Ho Hsp Hbel. destruct (top_private t L pay sp m g Hi Ho Hsp) as (l & e & Hl & He & Hst & [_ Hrd] & Hm).
  destruct (pop_step t _ L pay Open (fun T => task_thief T = THIEF_EMPTY /\ task_ready T pay) m g l e Hi Ho)
    as [Hg Ho']; try done; [congruence|].
  eexists. split; [exact Hg|]. left. by exists sp.
Qed.

(** [DROP] leaves the task where it is. *)
Lemma drop_private t L pay sp m g :
  user_drops = true ->
  Inv ok (m, g) -> Own t (o_rest0 (push L pay) clean sp) (m, g) -> sp <= zlen (lv_live L) -> below L ->
  exists g', good ok t (m, g) (m, g') /\ At t L (m, g').
Proof.
  intros Hd Hi Ho Hsp Hbel. destruct (top_private t L pay sp m g Hi Ho Hsp) as (l & e & Hl & He & Hst & _ & Hm).
  destruct (pop_ghost t _ L pay Open clean m g l e Hi Ho) as [Hg Ho']; try done; [congruence|intros ?; congruence|].
  eexists. split; [exact Hg|]. left. by exists sp.
Qed.

(** *** Running the popped task *)

Lemma call_popped_spec t L pay sp s :
  Inv ok s -> Own t (o_rest0 (push L pay) clean sp) s -> sp <= zlen (lv_live L) -> below L ->
  zlen (lv_live L) < dqsize ->
  lsafe t (call_popped (F_user pay.1) (user_arity pay.1) t (zlen (lv_live L)))
    (fun v s => At t L s /\ ok pay v) s.
Proof.
  intros Hi Ho Hsp Hbel Hlt. unfold call_popped. set (h := zlen (lv_live L)) in *. code.
  eapply (safe_write ok t _ (fun _ => tt) (upd_task (TSlot t h) (set_task_thief THIEF_EMPTY)) _
    (Own t (o_rest0 (push L pay) clean sp))); [by left|apply _|done..|].
  intros m g Hi1 Ho1. split; [split; [apply Ho1|pose proof (zlen_nonneg (lv_live L)); lia]|].
  destruct (pop_private t L pay sp m g Hi1 Ho1 Hsp Hbel) as (g' & Hg & Hat). exists g'. split; [done|].
  intros Hi2. set (P := fun T => task_thief T = THIEF_EMPTY /\ task_ready T pay) in *.
  assert (Hlen : length pay.2 = user_arity pay.1).
  { pose proof (AtH_high _ _ _ _ _ h Hat ltac:(lia)) as Hh. unfold high in Hh.
    rewrite decide_True in Hh by done. by destruct Hh as (_ & _ & _ & ?). }
  rewrite <-Hlen. eapply lsafe_seq; [done| |].
  { apply (load_args_all ok t _ (AtH t L (high h P)) pay.2); [apply _| |rewrite Hlen; apply args_fit|done..].
    clear dependent m g g'. intros m g Hi1 Hat1. split; [by apply (head_valid _ _ _ (m, g) Hat1)|].
    pose proof (AtH_high _ _ _ _ _ h Hat1 ltac:(lia)) as Hh. unfold high in Hh.
    rewrite decide_True in Hh by done. by destruct Hh as (_ & _ & ? & _). }
  clear dependent m g g'. intros args s1 Hi1 [-> Hat1].
  eapply (safe_call _ (lace_logic ok) _ _ _ (At t L) _ L); [apply Stable_At|done| | |].
  { eapply AtH_mono; [|exact Hat1]. intros i T _. unfold high. case_decide; [|done]. by intros [? _] _ ?. }
  { intros s2 Hi2 Hat2. by repeat split. }
  intros v s2 Hi2 [Hat2 Hok]. ret. destruct pay. by split.
Qed.

(** *** Deciding between the two *)

Lemma must_leap_spec t L pay s :
  Inv ok s -> At t (push L pay) s ->
  lsafe t (must_leap t (zlen (lv_live L)))
    (fun b s => if b then Rest1 t (push L pay) clean s
                else exists sp, sp <= zlen (lv_live L) /\ Own t (o_rest0 (push L pay) clean sp) s) s.
Proof.
  intros Hi Hat. unfold must_leap. set (h := zlen (lv_live L)).
  destruct Hat as [(sp & Ho)|(ps & a & sp & Ha & Hps & Ho)]; code.
  - eapply safe_load_priv; [done..|]. intros p s1 Hi1 Ho1 Hp Hpa. simpl in Hp, Hpa. rewrite Hpa, Hp. cbn [negb Z.eqb].
    pose proof (own_mode _ _ _ Ho1) as [_ Hs]. pose proof (Own_zlen _ _ _ Ho1) as Hz.
    simpl in Hs, Hz. rewrite zlen_snoc in Hz. destruct (Z.gtb_spec sp h).
    + eapply lsafe_seq; [done|apply lace_shrink_shared_spec; [done|exact Ho1|]|].
      { simpl. rewrite zlen_snoc. lia. }
      intros r s2 Hi2 [[-> Hr]|[-> (sp' & Hlt & Ho2)]]; ret; [done|]. exists sp'. split; [lia|done].
    + ret. by exists sp.
  - eapply safe_load_priv; [done..|]. intros p s1 Hi1 Ho1 Hp Hpa. simpl in Hpa. rewrite Hpa.
    rewrite (proj2 (Z.eqb_neq _ _) Ha). ret. by exists ps, a, sp.
Qed.
End SyncProofs.
