(* ===== verification/LeapProofs.v ===== *)
(** * Waiting for a thief: [lace_leapfrog], and SYNC as a whole *)

From S2P Require Export SyncProofs.

Section LeapProofs.
Context {cfg : Cfg} {cfg_ok : CfgOk}.
Variable ok : payload -> val -> Prop.
Abbreviation lsafe := (safe exec (lace_logic ok)).

(** *** What the owner learns from the thief field of a task it waits for *)

Lemma Rest1_facts t L hi F m g :
  Rest1 t L hi (m, g) -> Rest1 t (with_facts L F) hi (m, g_facts t F g).
Proof.
  intros (ps & a & sp & Ha & Hps & H). exists ps, a, sp. split_and!; [done..|].
  eapply Own_frame; [exact H|done..|]. simpl. rewrite fn_lookup_insert.
  pose proof (own_view _ _ _ H) as Hv. simpl in Hv. by rewrite <-Hv.
Qed.

Lemma AtH_facts t L hi F m g :
  AtH t L hi (m, g) -> AtH t (with_facts L F) hi (m, g_facts t F g).
Proof.
  intros H. eapply (At_frame t L); [done..|]. simpl. rewrite fn_lookup_insert.
  by rewrite <-(At_view _ _ _ _ H).
Qed.

(** The view while the worker waits for its top task, remembering [f]. *)
Definition waiting (L : lview) (pay : payload) (f : fact) : lview :=
  with_facts (push L pay) (f :: lv_facts L).

Definition knows (t : nat) (h : Z) (th : thief_t) (R : fact -> Prop) : Prop :=
  match th with
  | THIEF_COMPLETED => R (FDone h)
  | Thief q => q <> t /\ (q < n_workers)%nat /\ R (FLeap h)
  | _ => R (FStolen h)
  end.

Lemma knows_mono t h th (R R' : fact -> Prop) :
  (forall f, R f -> R' f) -> knows t h th R -> knows t h th R'.
Proof. destruct th; simpl; intuition. Qed.

Lemma entry_knows t h e m g :
  Inv ok (m, g) -> ent (live g t) h = Some e -> e_st e <> Avail ->
  knows t h (task_thief (slots m t h)) (fun f => fact_ok t f m g).
Proof.
  intros Hi He Hst. pose proof (dq_slots _ _ _ _ _ _ _ (inv_dq _ _ Hi t) h e He) as Hs.
  unfold slot_ok in Hs. simpl in Hs. destruct (e_st e) as [| |q|] eqn:Est; try done.
  - destruct Hs as (Hq & Hn & _ & [-> | Hth]); simpl.
    + exists e. split; [done|congruence].
    + rewrite Hth. simpl. split_and!; [done..|]. exists e. split; [done|]. right. by exists q.
  - destruct Hs as [-> _]. simpl. by exists e.
Qed.

(** [thief = t->thief] on a task that was taken. *)
Lemma safe_load_thief {A} t L pay F0 (R : lview -> mem * ghost -> Prop) (X : thief_t -> Prop)
    (k : thief_t -> lcode A) Q s :
  (forall L, Stable ok t (R L)) ->
  (forall L F m g, R L (m, g) -> R (with_facts L F) (m, g_facts t F g)) ->
  (forall L s, R L s -> AtH t L clean s) ->
  lv_facts L ⊆ F0 ->
  (forall m g, Inv ok (m, g) -> R (with_facts (push L pay) F0) (m, g) ->
     X (task_thief (slots m t (zlen (lv_live L)))) /\
     exists e, ent (live g t) (zlen (lv_live L)) = Some e /\ e_st e <> Avail) ->
  Inv ok s -> R (with_facts (push L pay) F0) s ->
  (forall th s, X th -> Inv ok s ->
     knows t (zlen (lv_live L)) th (fun f => R (waiting L pay f) s) -> lsafe t (k th) Q s) ->
  lsafe t (Act (Load_thief (TSlot t (zlen (lv_live L)))) k) Q s.
Proof.
  intros Hst Hfr Hat HF Hent Hi HR Hk. set (h := zlen (lv_live L)) in *.
  eapply (safe_write ok t _ (fun m => task_thief (slots m t h)) (fun m => m) _
    (R (with_facts (push L pay) F0))); [by left|apply Hst|done..|].
  intros m g Hi1 HR1. destruct (Hent m g Hi1 HR1) as (HX & e & He & Hste). split.
  { eapply (tinfo_valid ok (TSlot t h) e m g Hi1 He). }
  pose proof (entry_knows t h e m g Hi1 He Hste) as Hkn.
  assert (Hold : forall f, f ∈ lv_facts L -> fact_ok t f m g).
  { intros f Hin. apply (inv_facts _ _ Hi1 t f). simpl.
    pose proof (At_view _ _ _ _ (Hat _ _ HR1)) as Hv. apply (f_equal lv_facts) in Hv. simpl in Hv.
    rewrite Hv. by apply HF. }
  assert (Hf : exists f, fact_ok t f m g /\
    forall s, R (waiting L pay f) s -> knows t h (task_thief (slots m t h)) (fun f => R (waiting L pay f) s)).
  { destruct (task_thief (slots m t h)); simpl in Hkn; [by exists (FStolen h)..|by exists (FDone h)|].
    destruct Hkn as (? & ? & ?). by exists (FLeap h). }
  destruct Hf as (f & Hf & Hkf). exists (g_facts t (f :: lv_facts L) g). split.
  - apply good_facts; [done|]. intros f' [->|Hin]%elem_of_cons; auto.
  - intros Hi2. apply Hk; [done..|]. apply Hkf. unfold waiting.
    change (push L pay) with (with_facts (with_facts (push L pay) F0) (lv_facts L)) at 1.
    by apply (Hfr (with_facts (push L pay) F0)).
Qed.

Lemma At_fact t L hi f m g : Inv ok (m, g) -> AtH t L hi (m, g) -> f ∈ lv_facts L -> fact_ok t f m g.
Proof.
  intros Hi Hat Hin. apply (inv_facts _ _ Hi t f). pose proof (At_view _ _ _ _ Hat) as Hv.
  apply (f_equal lv_facts) in Hv. simpl in *. by rewrite Hv.
Qed.

(** *** The loop that waits for the thief to write its name *)

Definition spin_thief (t : nat) (h : Z) (thief : thief_t) : lcode thief_t :=
  loop thief (fun th =>
    if thief_le1 th then th' <- act (Load_thief (TSlot t h)) ;; Ret (inl th')
    else Ret (inr th)).

Abbreviation known t L pay th s :=
  (knows t (zlen (lv_live L)) th (fun f => At t (waiting L pay f) s)).

#[local] Instance Stable_knows t h th (R : fact -> mem * ghost -> Prop) :
  (forall f, Stable ok t (R f)) -> Stable ok t (fun s => knows t h th (fun f => R f s)).
Proof.
  intros HR. destruct th; [exact (HR _)..|]. intros s s' Hi Hi' (? & ? & H) Hr.
  split_and!; [done..|]. exact (HR _ s s' Hi Hi' H Hr).
Qed.

Lemma spin_thief_spec t L pay th s :
  Inv ok s -> known t L pay th s ->
  lsafe t (spin_thief t (zlen (lv_live L)) th) (fun th s => thief_le1 th = false /\ known t L pay th s) s.
Proof.
  intros Hi Hk. unfold spin_thief, loop.
  eapply (safe_iter _ _ _ (fun th s => known t L pay th s)); [done|exact Hk|intros; apply Stable_knows; apply _|].
  clear dependent s th. intros th s Hk Hi. destruct (thief_le1 th) eqn:Hle.
  - assert (Hat : At t (waiting L pay (FStolen (zlen (lv_live L)))) s) by (by destruct th).
    code. eapply (safe_load_thief t L pay _ (fun L => At t L) (fun _ => True));
      [apply _|intros; by apply AtH_facts|done|by apply list_subseteq_cons| |done|exact Hat|].
    + intros m g Hi1 Hat1. split; [done|].
      apply (At_fact t _ _ (FStolen (zlen (lv_live L))) m g Hi1 Hat1). by left.
    + intros th' s1 _ Hi1 Hk1. by apply lsafe_ret; [apply Stable_knows; apply _|..].
  - ret. by apply lsafe_ret; [apply Stable_and; [apply _|apply Stable_knows; apply _]|..].
Qed.

(** *** Stealing from the thief until it is done *)

Definition leap_loop (self : nat) (h : Z) (thief : thief_t) (dq_head : Z) : lcode unit :=
  loop (thief, 32) (fun '(thief, attempts) =>
    if TASK_IS_COMPLETED thief then Ret (inr tt)
    else
      res <- lace_steal_from_thief self dq_head thief ;;
      attempts <- (match res with
                   | LACE_NOWORK =>
                       YIELD_NEWFRAME self dq_head ;;;
                       let attempts := attempts - 1 in
                       if attempts =? 0 then lace_steal_random self dq_head ;;; Ret 32
                       else Ret attempts
                   | _ => Ret attempts
                   end) ;;
      thief <- act (Load_thief (TSlot self h)) ;;
      Ret (inl (thief, attempts))).

(** One round: steal from the thief, sometimes from somebody else. *)
Lemma leap_round_spec t L dq_head res attempts s :
  Inv ok s -> At t L s -> dq_head = zlen (lv_live L) ->
  lsafe t (match res with
           | LACE_NOWORK =>
               YIELD_NEWFRAME t dq_head ;;;
               let attempts := attempts - 1 in
               if attempts =? 0 then lace_steal_random t dq_head ;;; Ret 32 else Ret attempts
           | _ => Ret attempts
           end) (fun _ => At t L) s.
Proof.
  intros Hi Hat Hh. destruct res; [by ret..|].
  eapply lsafe_seq; [done|by apply (yield_newframe_spec ok t dq_head (At t L)); [apply _|..]|].
  intros ? s1 Hi1 Hat1. cbv zeta. case_match; [|by ret].
  eapply lsafe_seq; [done|by apply (lace_steal_random_spec ok t L)|]. intros ? s2 Hi2 Hat2. by ret.
Qed.

Lemma leap_loop_spec t L pay th s :
  Inv ok s -> thief_le1 th = false -> known t L pay th s ->
  lsafe t (leap_loop t (zlen (lv_live L)) th (zlen (lv_live L) + 1))
    (fun _ => At t (waiting L pay (FDone (zlen (lv_live L))))) s.
Proof.
  intros Hi Hle Hk. unfold leap_loop, loop.
  eapply (safe_iter _ _ _ (fun '(th, _) s => thief_le1 th = false /\ known t L pay th s)); [done|done| |].
  { intros [th' ?]. apply (Stable_and ok t); [apply _|apply Stable_knows; apply _]. }
  clear dependent s th. intros [th attempts] s [Hle Hk] Hi.
  assert (Hz : zlen (lv_live L) + 1 = zlen (lv_live (waiting L pay (FLeap (zlen (lv_live L)))))).
  { simpl. by rewrite zlen_snoc. }
  destruct th as [| | |q]; try done; simpl in Hk.
  - cbn [TASK_IS_COMPLETED]. ret. by ret.
  - destruct Hk as (Hq & Hn & Hat). cbn [TASK_IS_COMPLETED lace_steal_from_thief].
    eapply lsafe_seq; [done|apply (lace_steal_spec ok t _ _ _ _ Hi Hat Hz)|].
    { intros w [= <-]. done. }
    intros res s1 Hi1 Hat1. eapply lsafe_seq; [done|by apply (leap_round_spec t _ _ res attempts s1 Hi1 Hat1)|].
    intros att s2 Hi2 Hat2. code.
    eapply (safe_load_thief t L pay _ (fun L => At t L) (fun th => thief_le1 th = false));
      [apply _|intros; by apply AtH_facts|done|by apply list_subseteq_cons| |done|exact Hat2|].
    + intros m g Hi3 Hat3.
      destruct (At_fact t _ _ (FLeap (zlen (lv_live L))) m g Hi3 Hat3) as (e & He & Hst); [by left|].
      pose proof (dq_slots _ _ _ _ _ _ _ (inv_dq _ _ Hi3 t) _ e He) as Hs. simpl in Hs.
      destruct Hst as [Hst|(q' & Hst & Hth)].
      * unfold slot_ok in Hs. rewrite Hst in Hs. destruct Hs as [-> _]. split; [done|].
        exists e. split; [done|congruence].
      * rewrite Hth. split; [done|]. exists e. split; [done|congruence].
    + intros th' s3 Hle3 Hi3 Hk3.
      apply lsafe_ret; [apply (Stable_and ok t); [apply _|apply Stable_knows; apply _]|done|done].
Qed.

(** *** After the leap *)

(** The comment in the code, tail = split = head, holds: nothing is left to steal. *)
Lemma rest0_done t L pay sp m g :
  Inv ok (m, g) -> Own t (o_rest0 (waiting L pay (FDone (zlen (lv_live L)))) clean sp) (m, g) ->
  ts_tail (w_ts (pub m t)) = zlen (lv_live L) + 1 /\ sp = zlen (lv_live L) + 1.
Proof.
  intros Hi Ho. assert (Hat : At t (waiting L pay (FDone (zlen (lv_live L)))) (m, g)) by (left; by exists sp).
  destruct (At_fact t _ _ (FDone (zlen (lv_live L))) m g Hi Hat) as (e & He & Hst); [by left|].
  pose proof (Own_zlen _ _ _ Ho) as Hz. pose proof (own_mode _ _ _ Ho) as [(H1 & H2 & H3 & H4) H5].
  pose proof (own_tail _ _ _ Ho) as H6. simpl in *. rewrite zlen_snoc in Hz.
  destruct (Z.le_gt_cases (ts_tail (w_ts (pub m t))) (zlen (lv_live L))) as [Hle|Hgt]; [|lia].
  destruct (H4 (zlen (lv_live L))) as (e' & He' & Hst'); [lia|]. congruence.
Qed.

Lemma post_leap_spec t L pay s :
  let L' := waiting L pay (FDone (zlen (lv_live L))) in
  Inv ok s -> At t L' s ->
  lsafe t (p <- act (Load_priv t) ;;
           when (p_allstolen p =? 0) (act (Store_allstolen t 1) ;;; act (Store_p_allstolen t 1)))
    (fun _ => Rest1 t L' clean) s.
Proof.
  intros L' Hi [(sp & Ho)|(ps & a & sp & Ha & Hps & Ho)]; code.
  - eapply safe_load_priv; [done..|]. intros p s1 Hi1 Ho1 _ ->. destruct s1 as [m g].
    destruct (rest0_done t L pay sp m g Hi1 Ho1) as [Htl Hsp]. cbn [o_rest0 o_pallstolen when Z.eqb].
    eapply (all_stolen_spec ok t L' clean sp sp); [done| |].
    + apply (Own_refine _ _ (Closed (zlen (lv_live L'))) _ _ _ Ho1);
        [simpl; rewrite zlen_snoc; lia|intros y z ?? _; lia|].
      simpl. intros l b Hl [Hb Hs]. rewrite zlen_snoc in *. split; [lia|]. by rewrite <-Htl.
    + simpl. rewrite zlen_snoc. lia.
  - eapply safe_load_priv; [done..|]. intros p s1 Hi1 Ho1 _ ->. cbn [o_rest1 o_pallstolen].
    rewrite (proj2 (Z.eqb_neq _ _) Ha). ret. by exists ps, a, sp.
Qed.

Definition finished (pay : payload) (T : Task) : Prop :=
  task_thief T = THIEF_EMPTY /\ ok pay (task_res pay T).

(** [t->thief = THIEF_EMPTY] pops the finished task. *)
Lemma pop_done t L pay m g :
  Inv ok (m, g) -> Rest1 t (waiting L pay (FDone (zlen (lv_live L)))) clean (m, g) -> below L ->
  exists g', good ok t (m, g) (upd_task (TSlot t (zlen (lv_live L))) (set_task_thief THIEF_EMPTY) m, g') /\
    AtH t L (high (zlen (lv_live L)) (finished pay))
      (upd_task (TSlot t (zlen (lv_live L))) (set_task_thief THIEF_EMPTY) m, g').
Proof.
  intros Hi HR Hbel. set (h := zlen (lv_live L)) in *.
  assert (Hat : At t (waiting L pay (FDone h)) (m, g)) by (by right).
  destruct (At_fact t _ clean (FDone h) m g Hi Hat) as (e & He & Hst); [by left|].
  assert (Hg1 : good ok t (m, g) (m, g_facts t (lv_facts L) g)).
  { apply good_facts; [done|]. intros f Hin. apply (At_fact t _ clean f m g Hi Hat). by right. }
  apply (Rest1_facts _ _ _ (lv_facts L)) in HR as (ps & a & sp & Ha & Hps & Ho).
  set (g1 := g_facts t (lv_facts L) g) in *.
  assert (Hvw : view t g1 = push L pay) by apply (own_view _ _ _ Ho).
  destruct (live_push t L pay g1 Hvw) as (l & e' & Hl & Hpay & Hz & _).
  assert (e' = e) as ->.
  { change (live g1 t) with (live g t) in Hl. rewrite Hl in He. unfold h in He. rewrite <-Hz, ent_snoc in He.
    by simplify_eq. }
  pose proof (dq_slots _ _ _ _ _ _ _ (inv_dq _ _ Hi t) _ e He) as Hs. simpl in Hs.
  unfold slot_ok in Hs. rewrite Hst in Hs. destruct Hs as [_ Hok].
  pose proof (own_mode _ _ _ Ho) as [Hsp Hb]. simpl in Hsp, Hb. change (live g t) with (live g1 t) in Hb.
  rewrite Hl in Hb.
  destruct (pop_step ok t _ L pay (Closed h) (finished pay) m g1 l e (proj2 Hg1) Ho) as [Hg2 Ho2]; try done.
  - congruence.
  - split; [done|]. destruct Hb as (H1 & H2 & H3 & H4). rewrite !zlen_snoc in *.
    assert (base g1 t <= h) by (change (base g1 t) with (lv_base (view t g1)); rewrite Hvw; apply Hbel).
    change (base g t) with (base g1 t) in *. split_and!; [lia..| |lia].
    intros i Hi' Hav. apply (H3 i); [lia|]. apply avail_app_l; [lia|done].
  - split; [done|]. by rewrite <-Hpay.
  - eexists. split; [eapply good_trans; [exact Hg1|exact Hg2]|]. right. exists ps, a, sp.
    simpl in Hps. rewrite zlen_snoc in Hps. split_and!; [done|lia|].
    apply (Own_refine _ _ (Closed h) (fun x => h <= x) _ _ Ho2); [|intros y z ?? _; lia|done].
    pose proof (own_tail _ _ _ Ho) as Htl. simpl in Htl |- *. rewrite zlen_snoc in Htl. unfold h. lia.
Qed.

(** *** The whole function *)

Lemma lace_leapfrog_eq t h :
  lace_leapfrog t h =
  (thief <- act (Load_thief (TSlot t h)) ;;
   (if TASK_IS_COMPLETED thief then Ret tt
    else
      thief <- spin_thief t h thief ;;
      leap_loop t h thief (h + 1) ;;;
      p <- act (Load_priv t) ;;
      when (p_allstolen p =? 0) (act (Store_allstolen t 1) ;;; act (Store_p_allstolen t 1))) ;;;
   act (Store_thief (TSlot t h) THIEF_EMPTY)).
Proof. done. Qed.

Lemma rest1_not_avail t L pay F m g :
  Rest1 t (with_facts (push L pay) F) clean (m, g) -> below L ->
  exists e, ent (live g t) (zlen (lv_live L)) = Some e /\ e_st e <> Avail.
Proof.
  intros (ps & a & sp & Ha & Hps & Ho) [Hbase _]. pose proof (Own_zlen _ _ _ Ho) as Hz.
  pose proof (own_mode _ _ _ Ho) as [Hsp (H1 & H2 & H3 & H4)].
  pose proof (f_equal lv_base (own_view _ _ _ Ho)) as Hv. simpl in *. rewrite zlen_snoc in *.
  pose proof (zlen_nonneg (lv_live L)).
  destruct (ent_is_Some (live g t) (zlen (lv_live L))) as [e He]; [lia|]. exists e. split; [done|].
  intros Hst. apply (H3 (zlen (lv_live L))); [lia|]. by exists e.
Qed.

Lemma lace_leapfrog_spec t L pay s :
  Inv ok s -> Rest1 t (push L pay) clean s -> below L ->
  lsafe t (lace_leapfrog t (zlen (lv_live L)))
    (fun _ => AtH t L (high (zlen (lv_live L)) (finished pay))) s.
Proof.
  intros Hi HR Hbel. rewrite lace_leapfrog_eq. set (h := zlen (lv_live L)). code.
  eapply (safe_load_thief t L pay (lv_facts L) (fun L => Rest1 t L clean) (fun _ => True));
    [apply _|intros; by apply Rest1_facts|by right|done| |done|by destruct L|].
  { intros m g Hi1 HR1. split; [done|]. by eapply rest1_not_avail. }
  clear dependent s. intros th s _ Hi Hk. fold h in Hk.
  eapply (lsafe_seq _ _ _ _ (fun _ => Rest1 t (waiting L pay (FDone h)) clean)); [done| |].
  - destruct (TASK_IS_COMPLETED th) eqn:Hc; [ret; by destruct th|].
    eapply lsafe_seq; [done|apply (spin_thief_spec t L pay th s Hi)|].
    { eapply knows_mono; [|exact Hk]. intros f Hf. by right. }
    clear dependent s th. intros th s Hi [Hle Hk].
    eapply lsafe_seq; [done|by apply (leap_loop_spec t L pay th s Hi Hle)|].
    intros ? s1 Hi1 Hat1. by apply post_leap_spec.
  - clear dependent s th. intros ? s Hi HR. code.
    eapply (safe_write ok t _ (fun _ => tt) (upd_task (TSlot t h) (set_task_thief THIEF_EMPTY)) _
      (Rest1 t (waiting L pay (FDone h)) clean)); [by left|apply _|done..|].
    intros m g Hi1 HR1. split.
    + destruct (At_fact t _ clean (FDone h) m g Hi1 (or_intror HR1)) as (e & He & _); [by left|].
      eapply (tinfo_valid ok (TSlot t h) e m g Hi1 He).
    + destruct (pop_done t L pay m g Hi1 HR1 Hbel) as (g' & Hg & Hat). exists g'. split; [done|].
      intros Hi2. by ret.
Qed.

(** *** SYNC *)

Lemma finished_clean h pay i T : high h (finished pay) i T -> clean i T.
Proof. unfold high. case_decide; [|done]. by intros [? _] _ _. Qed.

(** [diff = (diff + 1) / 2; w->split = t + diff;] *)
Lemma half_diff sp h :
  0 <= sp <= h -> h < 2 ^ 31 ->
  let diff := u64 (u64 (h - sp) + 1) / 2 in
  sp <= sp + diff <= h /\ u32 (sp + diff) = sp + diff.
Proof.
  intros H1 H2 diff. assert (0 <= diff <= h - sp).
  { unfold diff. rewrite (wrap_id 64 (h - sp)), wrap_id by lia. split.
    - apply Z.div_pos; lia.
    - destruct (Z.eq_dec h sp); [subst; by rewrite Z.sub_diag|]. apply Z.div_le_upper_bound; lia. }
  split; [lia|]. apply wrap_id. lia.
Qed.

(** The shared part grows when a thief has asked for it. *)
Lemma sync_grow t L pay sp s :
  Inv ok s -> Own t (o_rest0 (push L pay) clean sp) s -> sp <= zlen (lv_live L) ->
  lsafe t (sync_movesplit t (zlen (lv_live L)))
    (fun _ s => exists sp, sp <= zlen (lv_live L) /\ Own t (o_rest0 (push L pay) clean sp) s) s.
Proof.
  intros Hi Ho Hsp. pose proof dq_small as Hdq. pose proof (own_worker _ _ _ Ho) as Ht.
  unfold sync_movesplit. skip_with (Own t (o_rest0 (push L pay) clean sp)). clear dependent s.
  unfold when. case_match; [|ret; by exists sp]. code.
  eapply safe_load_priv; [done..|]. clear dependent s0. intros p s Hi Ho Hp _. simpl in Hp. rewrite Hp.
  pose proof (Own_cap ok _ _ _ Hi Ho) as Hcap. simpl in Hcap. rewrite zlen_snoc in Hcap.
  destruct (Own_open_tail _ _ _ Ho eq_refl) as [H0 _]. pose proof (own_tail _ _ _ Ho) as Htl. simpl in Htl.
  destruct (half_diff sp (zlen (lv_live L))) as [Hd Hu]; [lia..|]. set (diff := u64 _ / 2) in *. clearbody diff.
  code. eapply safe_store_psplit; [done..|]. intros s1 Hi1 Ho1. code.
  eapply (safe_fetch_add_split _ _ _ Open _ (fun y => y <= sp + diff)); [done|exact Ho1| |].
  { cbn. rewrite Hu. split; [intros y z ?? [->|?]; lia|]. intros l b y Hy Hl [Hb _]. simpl in *.
    rewrite zlen_snoc in Hl. split; [lia|]. split; [done|lia]. }
  intros s2 Hi2 Ho2. cbn in Ho2. rewrite Hu in Ho2.
  assert (Ho3 : Own t (o_rest0 (push L pay) clean (sp + diff)) s2) by exact Ho2.
  skip_with (Own t (o_rest0 (push L pay) clean (sp + diff))). ret. exists (sp + diff). split; [lia|done].
Qed.

(** [NAME##_SYNC_SLOW] *)
Lemma gen_SYNC_SLOW_spec t L pay s :
  Inv ok s -> At t (push L pay) s -> below L ->
  lsafe t (gen_SYNC_SLOW (F_user pay.1) (user_void pay.1) (user_arity pay.1) t (zlen (lv_live L)))
    (fun v s => At t L s /\ ok pay v) s.
Proof.
  intros Hi Hat Hbel. pose proof (At_worker _ _ _ _ Hat) as Ht. pose proof (At_cap ok _ _ _ _ Hi Hat) as Hcap.
  simpl in Hcap. rewrite zlen_snoc in Hcap. unfold gen_SYNC_SLOW. set (h := zlen (lv_live L)) in *.
  eapply lsafe_seq; [done|by apply must_leap_spec|]. clear dependent s. intros [] s Hi HR.
  - eapply lsafe_seq; [done|by apply lace_leapfrog_spec|]. clear dependent s. intros ? s Hi Hat.
    eapply safe_mono; [|eapply (load_res_spec ok t (TSlot t h) (AtH t L (high h (finished pay))) pay);
      [apply _| |done|exact Hat]].
    + intros v s1 Hi1 [Hok Hat1]. split; [|done]. eapply AtH_mono; [|exact Hat1].
      intros i T _. apply finished_clean.
    + intros m g Hi1 Hat1. split; [by apply (head_valid _ _ _ (m, g) Hat1); lia|].
      pose proof (AtH_high _ _ _ _ _ h Hat1 ltac:(lia)) as Hh. unfold high in Hh.
      rewrite decide_True in Hh by done. apply Hh.
  - destruct HR as (sp & Hsp & Ho).
    eapply (lsafe_seq _ _ _ _
      (fun _ s => exists sp, sp <= h /\ Own t (o_rest0 (push L pay) clean sp) s)); [done|by eapply (sync_grow t L pay sp)|].
    intros ? s1 Hi1 (sp1 & Hsp1 & Ho1). by eapply call_popped_spec; [..|lia].
Qed.

Lemma gen_SYNC_spec t L pay s :
  Inv ok s -> At t (push L pay) s -> below L ->
  lsafe t (gen_SYNC (F_user pay.1) (user_void pay.1) (user_arity pay.1) t (zlen (lv_live L)))
    (fun v s => At t L s /\ ok pay v) s.
Proof.
  intros Hi Hat Hbel. pose proof (At_worker _ _ _ _ Hat) as Ht. unfold gen_SYNC.
  skip_with (At t (push L pay)). case_match; [|by apply gen_SYNC_SLOW_spec].
  clear dependent s. rename s0 into s, Hi0 into Hi.
  pose proof (At_cap ok _ _ _ _ Hi HP) as Hcap. simpl in Hcap. rewrite zlen_snoc in Hcap.
  destruct HP as [(sp & Ho)|(ps & a & sp & Ha & Hps & Ho)].
  - eapply safe_load_priv; [done..|]. intros p s1 Hi1 Ho1 Hp _. simpl in Hp. rewrite Hp.
    destruct (Z.leb_spec sp (zlen (lv_live L))).
    + by eapply call_popped_spec; [..|lia].
    + apply gen_SYNC_SLOW_spec; [done| |done]. left. by exists sp.
  - eapply safe_load_priv; [done..|]. intros p s1 Hi1 Ho1 Hp _. simpl in Hp, Hps. rewrite Hp.
    rewrite zlen_snoc in Hps. rewrite (proj2 (Z.leb_gt _ _)) by lia.
    apply gen_SYNC_SLOW_spec; [done| |done]. right. exists ps, a, sp. split_and!; [done| |done].
    simpl. by rewrite zlen_snoc.
Qed.

(** *** DROP *)

Lemma drop_ret t L pay sp s :
  user_drops = true -> Inv ok s -> Own t (o_rest0 (push L pay) clean sp) s -> sp <= zlen (lv_live L) ->
  below L -> lsafe t (Ret tt) (fun _ => At t L) s.
Proof.
  intros Hd Hi Ho Hsp Hbel.
  eapply (safe_ghost _ (lace_logic ok) _ _ (Own t (o_rest0 (push L pay) clean sp))); [apply Stable_Own|done|done|].
  intros m g Hi1 Ho1. destruct (drop_private ok t L pay sp m g) as (g' & [Hg Hi'] & Hat); [done..|].
  exists g'. split_and!; [done..|]. by ret.
Qed.

Lemma lace_drop_slow_spec t L pay s :
  user_drops = true -> Inv ok s -> At t (push L pay) s -> below L ->
  lsafe t (lace_drop_slow t (zlen (lv_live L))) (fun _ => At t L) s.
Proof.
  intros Hd Hi Hat Hbel. unfold lace_drop_slow.
  eapply lsafe_seq; [done|by apply must_leap_spec|]. clear dependent s. intros [] s Hi HR; cbn [when].
  - eapply safe_mono; [|by apply lace_leapfrog_spec]. intros ? s1 _ Hat1. eapply AtH_mono; [|exact Hat1].
    intros i T _. apply finished_clean.
  - destruct HR as (sp & Hsp & Ho). by eapply drop_ret.
Qed.

Lemma lace_drop_spec t L pay s :
  user_drops = true -> Inv ok s -> At t (push L pay) s -> below L ->
  lsafe t (lace_drop t (zlen (lv_live L))) (fun _ => At t L) s.
Proof.
  intros Hd Hi Hat Hbel. pose proof (At_worker _ _ _ _ Hat) as Ht. unfold lace_drop.
  skip_with (At t (push L pay)). case_match; [|by eapply lace_drop_slow_spec].
  destruct HP as [(sp & Ho)|(ps & a & sp & Ha & Hps & Ho)];
    (eapply safe_load_priv; [done..|]); intros p s1 Hi1 Ho1 -> _; cbn [o_psplit o_rest0 o_rest1].
  - destruct (Z.leb_spec sp (zlen (lv_live L))); [by eapply drop_ret|].
    eapply lace_drop_slow_spec; [done..| |done]. left. by exists sp.
  - simpl in Hps. rewrite zlen_snoc in Hps. rewrite (proj2 (Z.leb_gt _ _)) by lia.
    eapply lace_drop_slow_spec; [done..| |done]. right. exists ps, a, sp. split_and!; [done| |done].
    simpl. by rewrite zlen_snoc.
Qed.
End LeapProofs.
