(* ===== verification/HeadProofs.v ===== *)
(** * Finding the head of the deque: [lace_get_head] *)

From S2P Require Export LeapProofs.

Section HeadProofs.
Context {cfg : Cfg} {cfg_ok : CfgOk}.
Variable ok : payload -> val -> Prop.
Abbreviation lsafe := (safe exec (lace_logic ok)).

(** The slots above the head are empty. *)
Variable hi : Z -> Task -> Prop.
Hypothesis hi_empty : forall i T, hi i T -> empty_slot i T.


(** A slot is empty exactly from the head on. *)
Lemma thief_is0_head t L m g i :
  Inv ok (m, g) -> AtH t L hi (m, g) -> 0 <= i < dqsize ->
  thief_is0 (task_thief (slots m t i)) = (zlen (lv_live L) <=? i).
Proof.
  intros Hi Hat Hr. destruct (Z.leb_spec (zlen (lv_live L)) i) as [Hle|Hlt].
  - by rewrite (hi_empty _ _ (AtH_high _ _ _ _ _ i Hat Hle)) by lia.
  - assert (Hz : zlen (live g t) = zlen (lv_live L)).
    { rewrite <-(At_view _ _ _ _ Hat). simpl. by rewrite zlen_fmap. }
    destruct (ent_is_Some (live g t) i) as [e He]; [lia|].
    pose proof (dq_slots _ _ _ _ _ _ _ (inv_dq _ _ Hi t) i e He) as Hs. unfold slot_ok in Hs. simpl in Hs.
    destruct (e_st e); [done|by destruct Hs as [-> _]| |by destruct Hs as [-> _]].
    by destruct Hs as (_ & _ & _ & [-> | ->]).
Qed.

Lemma safe_probe {A} t L (P : mem * ghost -> Prop) i (k : thief_t -> lcode A) Q s :
  Stable ok t P -> 0 <= i < dqsize -> Inv ok s -> AtH t L hi s -> P s ->
  (forall th s, thief_is0 th = (zlen (lv_live L) <=? i) -> Inv ok s -> AtH t L hi s -> P s -> lsafe t (k th) Q s) ->
  lsafe t (Act (Load_thief (TSlot t i)) k) Q s.
Proof.
  intros Hst Hr Hi Hat HP Hk. load_with (fun s => AtH t L hi s /\ P s).
  { split; [by eapply At_worker, HP0|done]. }
  destruct HP0 as [Hat0 HP0]. apply Hk; [|done..]. destruct s0 as [m g]. by apply (thief_is0_head t L m g).
Qed.

(** The two loops of the search. *)
Definition double_loop (self : nat) : lcode (Z * Z) :=
  loop (2, dqsize) (fun '(low, high) =>
    if u64 (low * 2) >=? high then Ret (inr (low, high))
    else
      t <- act (Load_thief (TSlot self (u64 (low * 2)))) ;;
      Ret (if thief_is0 t then inr (low, u64 (low * 2)) else inl (u64 (low * 2), high))).

Definition bisect_loop (self : nat) (bounds : Z * Z) : lcode Z :=
  loop bounds (fun '(low, high) =>
    if low <? high then
      let mid := low + (high - low) / 2 in
      t <- act (Load_thief (TSlot self mid)) ;;
      Ret (inl (if thief_is0 t then (low, mid) else (mid + 1, high)))
    else Ret (inr low)).

Definition brackets (L : lview) (b : Z * Z) : Prop :=
  0 <= b.1 <= zlen (lv_live L) /\ zlen (lv_live L) <= b.2 <= dqsize.

Lemma double_loop_spec t L P s :
  Stable ok t P -> 2 <= zlen (lv_live L) <= dqsize -> Inv ok s -> AtH t L hi s -> P s ->
  lsafe t (double_loop t) (fun b s => brackets L b /\ AtH t L hi s /\ P s) s.
Proof.
  intros Hst Hn Hi Hat HP. pose proof dq_small as Hdq. unfold double_loop, loop.
  eapply (safe_iter _ _ _ (fun '(low, high) s => (2 <= low <= zlen (lv_live L) /\ high = dqsize) /\ AtH t L hi s /\ P s));
    [done|split; [lia|done]|intros [low high]; apply (_ : Stable ok t _)|].
  clear dependent s. intros [low high] s ((Hl & ->) & Hat & HP) Hi.
  rewrite (wrap_id 64) by lia. rewrite Z.geb_leb. destruct (Z.leb_spec dqsize (low * 2)).
  - ret. apply lsafe_ret; [apply _|done|]. split; [split; simpl; lia|done].
  - code. eapply (safe_probe t L P); [done|lia|done..|]. intros th s1 -> Hi1 Hat1 HP1.
    destruct (Z.leb_spec (zlen (lv_live L)) (low * 2)); ret.
    + apply lsafe_ret; [apply _|done|]. split; [split; simpl; lia|done].
    + split; [lia|done].
Qed.

Lemma bisect_loop_spec t L P b s :
  Stable ok t P -> brackets L b -> Inv ok s -> AtH t L hi s -> P s ->
  lsafe t (bisect_loop t b) (fun h s => h = zlen (lv_live L) /\ AtH t L hi s /\ P s) s.
Proof.
  intros Hst Hb Hi Hat HP. unfold bisect_loop, loop.
  eapply (safe_iter _ _ _ (fun b s => brackets L b /\ AtH t L hi s /\ P s));
    [done|done|intros x; apply (_ : Stable ok t _)|].
  clear dependent s b. intros [low high] s ((Hl & Hh) & Hat & HP) Hi. simpl in *.
  destruct (Z.ltb_spec low high) as [Hlt|Hge].
  - assert (Hmid : low <= low + (high - low) / 2 < high).
    { pose proof (Z.div_pos (high - low) 2 ltac:(lia) ltac:(lia)).
      pose proof (Z.div_lt_upper_bound (high - low) 2 (high - low) ltac:(lia) ltac:(lia)). lia. }
    set (mid := low + (high - low) / 2) in *. clearbody mid. cbv zeta. code.
    eapply (safe_probe t L P); [done|lia|done..|]. intros th s1 -> Hi1 Hat1 HP1. ret.
    destruct (Z.leb_spec (zlen (lv_live L)) mid); (split; [split; simpl; lia|done]).
  - ret. apply lsafe_ret; [apply _|done|]. split; [lia|done].
Qed.

Lemma lace_get_head_spec t L P s :
  Stable ok t P -> Inv ok s -> AtH t L hi s -> P s ->
  lsafe t (lace_get_head t) (fun h s => h = zlen (lv_live L) /\ AtH t L hi s /\ P s) s.
Proof.
  intros Hst Hi Hat HP. pose proof dq_min as Hmin. pose proof (At_cap ok _ _ _ _ Hi Hat) as Hcap.
  pose proof (zlen_nonneg (lv_live L)) as H0. unfold lace_get_head. code.
  eapply (safe_probe t L P); [done|lia|done..|]. clear dependent s. intros th s -> Hi Hat HP.
  destruct (Z.leb_spec (zlen (lv_live L)) 0); [ret; split; [lia|done]|]. code.
  eapply (safe_probe t L P); [done|lia|done..|]. clear dependent s. intros th1 s -> Hi Hat HP.
  destruct (Z.leb_spec (zlen (lv_live L)) 1); [ret; split; [lia|done]|]. code.
  eapply (safe_probe t L P); [done|lia|done..|]. clear dependent s. intros th2 s -> Hi Hat HP.
  destruct (Z.leb_spec (zlen (lv_live L)) 2); [ret; split; [lia|done]|]. code.
  eapply (safe_probe t L P); [done|lia|done..|]. clear dependent s. intros th3 s -> Hi Hat HP.
  destruct (Z.leb_spec (zlen (lv_live L)) 3); [ret; split; [lia|done]|].
  change (lsafe t (b <- double_loop t ;; bisect_loop t b) (fun h s => h = zlen (lv_live L) /\ AtH t L hi s /\ P s) s).
  eapply lsafe_seq; [done|by apply (double_loop_spec t L P); [..|lia| | |]|].
  intros b s1 Hi1 (Hb & Hat1 & HP1). by apply bisect_loop_spec.
Qed.
End HeadProofs.

Lemma clean_empty {cfg : Cfg} : user_drops = false -> forall i T, clean i T -> empty_slot i T.
Proof. intros Hd i T Hc. by apply Hc. Qed.
