(* ===== verification/WaitFree.v ===== *)
(** * Wait-freedom of the owner's operations

    The operations a worker does on its own deque finish within a fixed number of its
    own steps, whatever the other threads do meanwhile, and never block: [SPAWN],
    [lace_shrink_shared], [LACE_MAKE_ALL_SHARED] and the search of [lace_get_head]. *)

From S2P Require Export HeadProofs.

Section WaitFree.
Context {cfg : Cfg}.

(** ** Counting the steps of one thread *)

Definition nonblocking {R} (e : ev R) : Prop := forall t m, exec1 t e m <> [].

(** [within c n Q]: with a budget of [n] steps [c] returns, whatever its accesses return,
    and [Q] holds of the result and the rest of the budget; no access blocks. *)
Fixpoint within {A} (c : lcode A) (n : nat) (Q : A -> nat -> Prop) : Prop :=
  match c with
  | Ret a => Q a n
  | Act e k => nonblocking e /\ exists n', n = S n' /\ forall r, within (k r) n' Q
  | Call _ _ => False
  | Iter b s k => exists I, I s n /\
      forall x n1, I x n1 -> exists n2, n1 = S n2 /\
        within (b x) n2 (fun r n3 => match r with inl x' => I x' n3 | inr y => within (k y) n3 Q end)
  end.

Definition wait_free {A} (n : nat) (c : lcode A) : Prop := within c n (fun _ _ => True).

Lemma within_mono {A} (c : lcode A) n (Q Q' : A -> nat -> Prop) :
  (forall a n, Q a n -> Q' a n) -> within c n Q -> within c n Q'.
Proof.
  revert n Q Q'. induction c as [A a|A R e k IH|A f k IH|A S B b IHb s k IH]; simpl; intros n Q Q' HQ.
  - eauto.
  - intros (He & n' & -> & Hk). eauto 7.
  - done.
  - intros (I & HI & Hb). exists I. split; [done|]. intros x n1 Hx. destruct (Hb x n1 Hx) as (n2 & -> & H2).
    exists n2. split; [done|]. eapply IHb; [|exact H2]. intros [x'|y] n3; eauto.
Qed.

Lemma within_bind {A B} (c : lcode A) (f : A -> lcode B) n Q :
  within c n (fun a n' => within (f a) n' Q) -> within (bind c f) n Q.
Proof.
  revert n. induction c as [A a|A R e k IH|A g k IH|A S B' b IHb s k IH]; simpl; intros n.
  - done.
  - intros (He & n' & -> & Hk). eauto 7.
  - done.
  - intros (I & HI & Hb). exists I. split; [done|]. intros x n1 Hx. destruct (Hb x n1 Hx) as (n2 & -> & H2).
    exists n2. split; [done|]. eapply within_mono; [|exact H2]. intros [x'|y] n3; eauto.
Qed.

Lemma within_unroll {A S B} (b : S -> lcode (S + B)) s (k : B -> lcode A) n Q :
  within (Iter b s k) n Q -> exists n', n = Datatypes.S n' /\ within (unroll b s k) n' Q.
Proof.
  intros (I & HI & Hb). destruct (Hb s n HI) as (n2 & -> & H2). exists n2. split; [done|].
  apply within_bind. eapply within_mono; [|exact H2]. intros [x'|y] n3 H3; [|done]. simpl. eauto.
Qed.

(** Budgets may be larger than needed. *)
Lemma within_frame {A} (c : lcode A) n n2 (Q : A -> nat -> Prop) :
  within c n Q -> within c (n + n2)%nat (fun a n => (n2 <= n)%nat /\ Q a (n - n2)%nat).
Proof.
  revert n Q. induction c as [A a|A R e k IH|A g k IH|A S B b IHb s k IH]; simpl; intros n Q.
  - intros HQ. split; [lia|]. by replace (n + n2 - n2)%nat with n by lia.
  - intros (He & n' & -> & Hk). split; [done|]. exists (n' + n2)%nat. split; [lia|]. intros r. by apply IH.
  - done.
  - intros (I & HI & Hb). exists (fun x n => (n2 <= n)%nat /\ I x (n - n2)%nat).
    split; [split; [lia|by replace (n + n2 - n2)%nat with n by lia]|].
    intros x m [Hm Hx]. destruct (Hb x _ Hx) as (n3 & Hn3 & H3). exists (n3 + n2)%nat. split; [lia|].
    eapply within_mono; [|by apply (IHb x)]. intros [x'|y] n4 [Hle H4]; [done|].
    replace n4 with (n4 - n2 + n2)%nat by lia. by apply IH.
Qed.

Lemma wait_free_le {A} n n' (c : lcode A) : wait_free n c -> (n <= n')%nat -> wait_free n' c.
Proof.
  intros H Hn. replace n' with (n + (n' - n))%nat by lia. eapply within_mono; [|by apply within_frame]. done.
Qed.

Lemma wait_free_seq {A B} n1 n2 (c : lcode A) (f : A -> lcode B) :
  wait_free n1 c -> (forall a, wait_free n2 (f a)) -> wait_free (n1 + n2) (bind c f).
Proof.
  intros Hc Hf. apply within_bind. eapply within_mono; [|by apply (within_frame c n1 n2)].
  intros a n [Hn _]. by eapply wait_free_le.
Qed.

Lemma wait_free_act {A R} n (e : ev R) (k : R -> lcode A) :
  nonblocking e -> (forall r, wait_free n (k r)) -> wait_free (S n) (Act e k).
Proof. intros He Hk. split; [done|]. by exists n. Qed.

Lemma wait_free_ret {A} n (a : A) : wait_free n (Ret a).
Proof. done. Qed.

(** A loop whose state has a measure that bounds the turns left, each with one access. *)
Lemma wait_free_loop {S B} (mu : S -> nat) (I : S -> Prop) c (b : S -> lcode (S + B)) s :
  I s ->
  (forall x, I x -> within (b x) (c + mu x * Datatypes.S c)%nat (fun r n => match r with
     | inl x' => I x' /\ (Datatypes.S c + mu x' * Datatypes.S c <= n)%nat
     | inr _ => True
     end)) ->
  wait_free (Datatypes.S c + mu s * Datatypes.S c) (loop s b).
Proof.
  intros Hs Hb. exists (fun x n => I x /\ (Datatypes.S c + mu x * Datatypes.S c <= n)%nat). split; [done|].
  intros x n [HI Hn]. exists (Nat.pred n). split; [lia|].
  replace (Nat.pred n) with (c + mu x * Datatypes.S c + (Nat.pred n - (c + mu x * Datatypes.S c)))%nat by lia.
  eapply within_mono; [|apply within_frame, (Hb x HI)].
  intros [x'|y] n3; simpl; [|done]. intros [? [? ?]]. split; [done|lia].
Qed.

(** ** Straight-line operations *)

Ltac count :=
  repeat first
    [ apply wait_free_ret
    | progress code
    | apply wait_free_act; [by intros ??|intros ?]
    | progress unfold when
    | match goal with
      | |- wait_free _ (if ?b then _ else _) => destruct b
      | |- wait_free _ (bind (if ?b then _ else _) _) => destruct b
      end ].

Lemma wait_free_store_args t i args : wait_free (length args) (store_args t i args).
Proof.
  revert i. induction args as [|x args IH]; intros i; simpl; [apply wait_free_ret|].
  apply wait_free_act; [done|]. intros _. apply IH.
Qed.

Lemma wait_free_spawn_publish w dq_head : wait_free 7 (spawn_publish w dq_head).
Proof. unfold spawn_publish. count. Qed.

Lemma wait_free_SPAWN NAME w dq_head args : wait_free (length args + 10) (gen_SPAWN NAME w dq_head args).
Proof.
  unfold gen_SPAWN. replace (length args + 10)%nat with (1 + (2 + length args + 7))%nat by lia.
  apply wait_free_seq; [count|]. intros _. apply wait_free_seq.
  - unfold init_task. do 2 (apply wait_free_act; [done|]; intros _). apply wait_free_store_args.
  - intros _. apply wait_free_spawn_publish.
Qed.

Lemma wait_free_shrink w : wait_free 5 (lace_shrink_shared w).
Proof. unfold lace_shrink_shared. count. Qed.

Lemma wait_free_must_leap w dq_head : wait_free 6 (must_leap w dq_head).
Proof.
  unfold must_leap. code. apply wait_free_act; [done|]. intros p. case_match; [apply wait_free_ret|].
  case_match; [|apply wait_free_ret]. apply (wait_free_seq 5 0); [apply wait_free_shrink|]. intros r. count.
Qed.

(** ** The search for the head *)

(** The turns a binary search of [n] elements takes. *)
Definition lg (n : Z) : nat := if n <=? 0 then 0 else S (Z.to_nat (Z.log2 n)).

Lemma lg_half n : 0 < n -> (lg (n / 2) < lg n)%nat.
Proof.
  intros Hn. unfold lg. rewrite (proj2 (Z.leb_gt n 0)) by done.
  destruct (Z.leb_spec (n / 2) 0) as [|H]; [lia|].
  pose proof (Z.log2_nonneg (n / 2)). rewrite (Z.div_mod n 2) at 2 by lia.
  assert (Hl : Z.log2 (n / 2) < Z.log2 (2 * (n / 2))) by (rewrite Z.log2_double by lia; lia).
  pose proof (Z.log2_le_mono (2 * (n / 2)) (2 * (n / 2) + n mod 2)). pose proof (Z.mod_pos_bound n 2). lia.
Qed.

Lemma lg_mono n m : n <= m -> (lg n <= lg m)%nat.
Proof.
  intros H. unfold lg. destruct (Z.leb_spec n 0), (Z.leb_spec m 0); try lia.
  pose proof (Z.log2_le_mono n m H). lia.
Qed.

Lemma within_bisect w low high :
  wait_free (2 + lg (high - low) * 2) (bisect_loop w (low, high)).
Proof.
  apply (wait_free_loop (fun b : Z * Z => lg (b.2 - b.1)) (fun _ => True) 1); [done|].
  clear low high. intros [low high] _. simpl. destruct (Z.ltb_spec low high) as [Hlt|]; [|done].
  code. split; [done|]. eexists. split; [done|]. intros r. split; [done|].
  assert (Hhalf : (lg ((high - low) / 2) < lg (high - low))%nat) by (apply lg_half; lia).
  assert (Hl : (lg (high - (low + (high - low) / 2 + 1)) <= lg ((high - low) / 2))%nat).
  { apply lg_mono. pose proof (Z.div_mod (high - low) 2). pose proof (Z.mod_pos_bound (high - low) 2). lia. }
  destruct (thief_is0 r); simpl; [|lia].
  replace (low + (high - low) / 2 - low) with ((high - low) / 2) by lia. lia.
Qed.

Lemma within_double w (Q : Z * Z -> nat -> Prop) n2 :
  2 <= dqsize < 2 ^ 63 ->
  (forall low high n, 0 <= low -> high <= dqsize -> (n2 <= n)%nat -> Q (low, high) n) ->
  within (double_loop w) (2 + Z.to_nat (Z.log2 dqsize) * 2 + n2)%nat Q.
Proof.
  intros Hdq HQ. unfold double_loop, loop.
  exists (fun b n => 2 <= b.1 < 2 ^ 63 /\ b.2 = dqsize /\
            (2 + Z.to_nat (Z.log2 dqsize - Z.log2 b.1) * 2 + n2 <= n)%nat).
  split; [split_and!; simpl; lia|]. intros [low high] n (Hl & Hh & Hn). simpl in *. subst high.
  exists (Nat.pred n). split; [lia|]. rewrite (wrap_id 64) by lia. rewrite Z.geb_leb.
  destruct (Z.leb_spec dqsize (low * 2)) as [|Hlt]; [apply HQ; lia|]. code. split; [done|].
  exists (Nat.pred (Nat.pred n)). split; [lia|]. intros r. destruct (thief_is0 r); [apply HQ; lia|].
  assert (Hlog : Z.log2 (low * 2) = Z.succ (Z.log2 low)).
  { rewrite Z.mul_comm. apply Z.log2_double. lia. }
  pose proof (Z.log2_le_mono (low * 2) dqsize). pose proof (Z.log2_nonneg low).
  split; [simpl; lia|]. split; [done|]. simpl. rewrite Hlog. lia.
Qed.

Lemma wait_free_get_head w :
  2 <= dqsize < 2 ^ 63 -> wait_free (4 * Z.to_nat (Z.log2 dqsize) + 10) (lace_get_head w).
Proof.
  intros Hdq. unfold lace_get_head. set (lgn := Z.to_nat (Z.log2 dqsize)).
  replace (4 * lgn + 10)%nat with (S (S (S (S (2 + lgn * 2 + (2 + S lgn * 2))))))%nat by lia. code.
  do 4 (apply wait_free_act; [done|]; intros ?; case_match; [apply wait_free_ret|]).
  change (wait_free (2 + lgn * 2 + (2 + S lgn * 2)) (b <- double_loop w ;; bisect_loop w b)).
  apply within_bind, within_double; [done|]. intros low high n Hl Hh Hn.
  eapply wait_free_le; [apply within_bisect|].
  assert (Hle : (lg (high - low) <= lg dqsize)%nat) by (apply lg_mono; lia).
  unfold lg in Hle at 2. rewrite (proj2 (Z.leb_gt dqsize 0)) in Hle by lia. fold lgn in Hle. lia.
Qed.
End WaitFree.

(** ** What this means for the machine *)

Section Machine.
Context {cfg : Cfg} {client : Client}.

(** An execution in which thread [t] takes [n] steps and the others any number. *)
Inductive steps_of (t : nat) : nat -> @config ev fn val mem -> @config ev fn val mem -> Prop :=
| steps_refl c : steps_of t 0 c c
| steps_own n ths m th th' m' c :
    ths !! t = Some th -> (th', m') ∈ thread_step exec fn_body t th m ->
    steps_of t n (Config (<[t := th']> ths) m') c -> steps_of t (S n) (Config ths m) c
| steps_other n ths m u th th' m' c :
    u <> t -> ths !! u = Some th -> (th', m') ∈ thread_step exec fn_body u th m ->
    steps_of t n (Config (<[u := th']> ths) m') c -> steps_of t n (Config ths m) c.

Lemma steps_reachable t n c c' : steps_of t n c c' -> lace_reachable c c'.
Proof. intros Hs. induction Hs; [apply rtc_refl|..]; (eapply rtc_l; [by econstructor|done]). Qed.

(** On the way from [c] to [c'] thread [t] returned to the frames [st]. *)
Definition returned (t : nat) (st : list (val -> lcode val)) (c c' : @config ev fn val mem) : Prop :=
  exists c1 v, lace_reachable c c1 /\ lace_reachable c1 c' /\ threads c1 !! t = Some (Thread (Ret v) st).

Definition can_step (t : nat) (c : @config ev fn val mem) : Prop :=
  exists th, threads c !! t = Some th /\ thread_step exec fn_body t th (memory c) <> [].

(** In every execution the thread that runs [d] has returned after [n] of its own steps,
    and until then it can always make the next one (unless the process exits). *)
Definition returns_within (n : nat) (d : lcode val) : Prop :=
  forall c t st k c', threads c !! t = Some (Thread d st) -> steps_of t k c c' ->
    returned t st c c' \/ ((k < n)%nat /\ (exited (memory c') = false -> can_step t c')).

Lemma wait_free_can_step n d t st c :
  wait_free n d -> threads c !! t = Some (Thread d st) -> exited (memory c) = false ->
  (exists v, d = Ret v) \/ ((0 < n)%nat /\ can_step t c).
Proof.
  intros Hw Hth Hx. destruct d as [v|R e k|f k|S B b s k]; simpl in Hw.
  - by left; exists v.
  - destruct Hw as (He & n' & -> & _). right. split; [lia|]. exists (Thread (Act e k) st). split; [done|].
    unfold thread_step, exec. simpl. rewrite Hx. destruct (exec1 t e (memory c)) eqn:E; [by apply He in E|done].
  - done.
  - destruct Hw as (I & HI & Hb). destruct (Hb s n HI) as (n2 & -> & _). right. split; [lia|].
    by exists (Thread (Iter b s k) st).
Qed.

Lemma wait_free_step n d t st th' m m' :
  wait_free n d -> (th', m') ∈ thread_step exec fn_body t (Thread d st) m ->
  (exists v, d = Ret v) \/ exists n' d', n = S n' /\ th' = Thread d' st /\ wait_free n' d'.
Proof.
  intros Hw Hin. destruct d as [v|R e k|f k|S B b s k].
  - by left; exists v.
  - destruct Hw as (He & n' & -> & Hk). right.
    apply list_elem_of_fmap in Hin as ([r m1] & [= -> ->] & _). exists n', (k r). split_and!; [done..|]. apply Hk.
  - done.
  - apply within_unroll in Hw as (n' & -> & Hw). right.
    apply list_elem_of_singleton in Hin as [= -> ->]. by exists n', (unroll b s k).
Qed.

Lemma returned_step t st c c1 c' : lace_step c c1 -> returned t st c1 c' -> returned t st c c'.
Proof. intros Hs (c2 & v & H1 & H2 & H3). exists c2, v. split_and!; [|done..]. by eapply rtc_l. Qed.

Lemma wait_free_returns n d : wait_free n d -> returns_within n d.
Proof.
  intros Hw c t st k c' Hth Hs. revert n d Hw Hth.
  induction Hs as [c|k ths m th th' m' c' Hl Hin Hs IH|k ths m u th th' m' c' Hne Hl Hin Hs IH]; intros n d Hw Hth.
  - destruct (exited (memory c)) eqn:Hx.
    + destruct d as [v|R e kk|f kk|S B b s kk]; simpl in Hw; [|right; split; [|done]..].
      * left. exists c, v. split_and!; [apply rtc_refl..|done].
      * destruct Hw as (_ & n' & -> & _). lia.
      * done.
      * destruct Hw as (I & HI & Hb). destruct (Hb s n HI) as (n2 & -> & _). lia.
    + destruct (wait_free_can_step n d t st c) as [[v ->]|[Hn Hc]]; [done..| |by right].
      left. exists c, v. split_and!; [apply rtc_refl..|done].
  - simpl in Hth. rewrite Hth in Hl. injection Hl as <-.
    destruct (wait_free_step n d t st th' m m' Hw Hin) as [[v ->]|(n' & d' & -> & -> & Hw')].
    + left. exists (Config ths m), v. split_and!; [apply rtc_refl| |done].
      eapply rtc_l; [by econstructor|]. by eapply steps_reachable.
    + destruct (IH n' d') as [Hr|[Hk Hc]]; [done|by apply list_lookup_insert_eq; eapply lookup_lt_Some| |].
      * left. eapply returned_step; [|exact Hr]. by econstructor.
      * right. split; [lia|done].
  - simpl in Hth. destruct (IH n d) as [Hr|HR]; [done|simpl; by rewrite list_lookup_insert_ne| |by right].
    left. eapply returned_step; [|exact Hr]. by econstructor.
Qed.

(** C18: the operations of the owner are wait-free: in every execution a worker is done with
    [SPAWN] after a number of its own steps that depends only on the number of arguments,
    with [lace_shrink_shared] after 5 and with the decision of a slow [SYNC] after 6, no
    matter what the other threads do, and none of them ever blocks. *)
Theorem owner_operations_wait_free NAME w dq_head args v :
  returns_within (length args + 10) (gen_SPAWN NAME w dq_head args ;;; Ret v) /\
  returns_within 5 (r <- lace_shrink_shared w ;; Ret (VZ r)) /\
  returns_within 6 (b <- must_leap w dq_head ;; Ret (VZ (if b : bool then 1 else 0))).
Proof.
  split_and!; apply wait_free_returns.
  - replace (length args + 10)%nat with (length args + 10 + 0)%nat by lia.
    apply wait_free_seq; [apply wait_free_SPAWN|done].
  - apply (wait_free_seq 5 0); [apply wait_free_shrink|done].
  - apply (wait_free_seq 6 0); [apply wait_free_must_leap|done].
Qed.

(** C19: [lace_get_head] returns within a number of steps logarithmic in the size of the
    deque, whatever is in the deque. *)
Theorem get_head_logarithmic w :
  2 <= dqsize < 2 ^ 63 ->
  returns_within (4 * Z.to_nat (Z.log2 dqsize) + 10) (h <- lace_get_head w ;; Ret (VZ h)).
Proof.
  intros Hdq. apply wait_free_returns. rewrite <-(Nat.add_0_r (_ + 10)).
  apply wait_free_seq; [by apply wait_free_get_head|done].
Qed.
End Machine.

Lemma get_head_logarithmic_witness :
  let cfg := demo_cfg in let client := {| user_body := fun _ _ => URet (VZ 0) |} in
  returns_within (4 * Z.to_nat (Z.log2 dqsize) + 10) (h <- lace_get_head 0 ;; Ret (VZ h)).
Proof. intros cfg client. apply (get_head_logarithmic 0). simpl. lia. Defined.
