(* ===== verification/RunProofs.v ===== *)
(** * RUN: tasks started by client threads and by workers *)

From S2P Require Export HeadProofs.

Section RunProofs.
Context {cfg : Cfg} {cfg_ok : CfgOk}.
Variable ok : payload -> val -> Prop.
Abbreviation lsafe := (safe exec (lace_logic ok)).

(** *** The mutex *)

(** Assertions that do not mention the mutex. *)
Class LockFree (P : mem * ghost -> Prop) : Prop :=
  lock_free : forall m g l, P (m, g) -> P (set_lock l m, g).

#[global] Instance LockFree_and P Q : LockFree P -> LockFree Q -> LockFree (fun s => P s /\ Q s).
Proof. intros HP HQ m g l [H1 H2]. split; [by apply HP|by apply HQ]. Qed.
#[global] Instance LockFree_pure (P : Prop) : LockFree (fun _ => P).
Proof. by intros m g l H. Qed.
#[global] Instance LockFree_Building t id pay P : LockFree (Building t id pay P).
Proof. by intros m g l H. Qed.
#[global] Instance LockFree_Offered id pay : LockFree (Offered id pay).
Proof. by intros m g l H. Qed.
#[global] Instance LockFree_ExtDone id pay P : LockFree (ExtDone id pay P).
Proof. by intros m g l H. Qed.
#[global] Instance LockFree_EtIs e id : LockFree (EtIs e id).
Proof. by intros m g l H. Qed.

Lemma good_set_lock t m g l :
  Inv ok (m, g) -> (forall p, p <> t -> external_task_lock m <> Some p) -> good ok t (m, g) (set_lock l m, g).
Proof.
  intros Hi Hl. apply good_core; [done| |by destruct (inv_dq _ _ Hi t)].
  split; try done. intros p Hp Hm. by destruct (Hl p Hp).
Qed.

Lemma safe_mutex_lock {A} t P (k : unit -> lcode A) Q s :
  Stable ok t P -> LockFree P -> Inv ok s -> P s ->
  (forall s, Inv ok s -> P s -> Locked t s -> lsafe t (k tt) Q s) ->
  lsafe t (Act Mutex_lock k) Q s.
Proof.
  intros Hst Hf Hi HP Hk. eapply (safe_act _ (lace_logic ok) _ _ _ P); [exact Hst|done..|].
  intros [m g] Hi1 HP1. split; [done|]. intros r m' Hin%exec_exec1. simpl in Hin.
  destruct (external_task_lock m) eqn:Hl; [by apply not_elem_of_nil in Hin|].
  apply list_elem_of_singleton in Hin. simplify_eq. exists g.
  destruct (good_set_lock t m g (Some t) Hi1) as [Hg Hi2]; [intros p _; by rewrite Hl|].
  split_and!; [done..|]. apply Hk; [done|by apply Hf|done].
Qed.

Lemma safe_mutex_unlock {A} t P (k : unit -> lcode A) Q s :
  Stable ok t P -> LockFree P -> Inv ok s -> P s -> Locked t s ->
  (forall s, Inv ok s -> P s -> lsafe t (k tt) Q s) ->
  lsafe t (Act Mutex_unlock k) Q s.
Proof.
  intros Hst Hf Hi HP Hl Hk.
  eapply (safe_write ok t _ (fun _ => tt) (set_lock None) _ (fun s => P s /\ Locked t s));
    [by left|by apply Stable_and; [|apply Stable_Locked]|done..|].
  intros m g Hi1 [HP1 Hl1]. split; [done|]. exists g. split.
  - apply good_set_lock; [done|]. intros p Hp. unfold Locked in Hl1. simpl in Hl1. congruence.
  - intros Hi2. apply Hk; [done|]. by apply Hf.
Qed.

Lemma cond_wait_while_spec t P a c s :
  Stable ok t P -> Frame t P -> LockFree P -> Inv ok s -> P s -> Locked t s ->
  lsafe t (cond_wait_while a c) (fun _ s => P s /\ Locked t s) s.
Proof.
  intros Hst Hfr Hf Hi HP Hl. unfold cond_wait_while, loop.
  eapply (safe_iter _ _ _ (fun _ s => P s /\ Locked t s)); [done|done|intros x; apply (_ : Stable ok t _)|].
  clear dependent s. intros [] s [HP Hl] Hi. skip_with (fun s => P s /\ Locked t s).
  clear dependent s. destruct HP0 as [HP Hl]. case_match; [|ret; by apply lsafe_ret; [apply _|..]].
  unfold cond_wait. code. eapply safe_mutex_unlock; [done..|]. intros s1 Hi1 HP1. code.
  eapply safe_mutex_lock; [done..|]. intros s2 Hi2 HP2 Hl2. by ret.
Qed.

(** *** The task on the stack of the caller *)

(** Assertions about the own deque survive changes elsewhere. *)
Class OwnFrame (t : nat) (P : mem * ghost -> Prop) : Prop :=
  own_frame : forall m g m' g', P (m, g) ->
    priv m' t = priv m t -> pub m' t = pub m t -> slots m' t = slots m t ->
    live g' t = live g t -> base g' t = base g t -> holds g' t = holds g t -> facts g' t = facts g t ->
    P (m', g').

#[global] Instance OwnFrame_pure t (P : Prop) : OwnFrame t (fun _ => P).
Proof. by intros m g m' g' H. Qed.

#[global] Instance OwnFrame_At t L : OwnFrame t (At t L).
Proof.
  intros m g m' g' H Hp Hpb Hs Hl Hb Hh Hf. eapply (At_frame t L); [done|done|by rewrite Hpb..|done|done|done|].
  rewrite Hh, Hf. by rewrite <-(At_view _ _ _ _ H).
Qed.

Lemma building_writable t id pay F :
  Stable ok t F -> (forall m g T, F (m, g) -> F (set_task (TLoc id) T m, g)) ->
  Writable ok t (TLoc id) (fun P s => F s /\ Building t id pay P s).
Proof.
  intros HFs HF A e f P P' k Q s He Hv Hf Hi [HFs0 Hb] Hk.
  eapply (safe_write ok t e (fun _ => tt) (upd_task (TLoc id) f) k (fun s => F s /\ Building t id pay P s));
    [by left|apply _|done..|].
  intros m g Hi1 [HF1 [Hid HP]]. cbn [fst snd] in Hid, HP. split; [by apply Hv; apply (inv_loc _ _ Hi1 id _ Hid)|].
  destruct (Hf _ (inv_words _ _ Hi1 (TLoc id)) HP) as [Hd' HP']. exists g. split.
  - apply good_set_task; [done|left; simpl; eauto|done|].
    intros (pay' & Hin). apply (inv_holds _ _ Hi1) in Hin. simpl in Hin. congruence.
  - intros Hi2. apply Hk; [done|]. split; [by apply HF|]. split; [done|]. simpl. by rewrite fn_lookup_insert.
Qed.

(** [Task _t; Task *t = &_t;] *)
Lemma safe_alloc_task {A} t F pay (k : tref -> lcode A) Q s :
  Stable ok t F -> OwnFrame t F -> Inv ok s -> F s ->
  (forall id s, Inv ok s -> F s -> Building t id pay (fun _ => True) s -> lsafe t (k (TLoc id)) Q s) ->
  lsafe t (Act Alloc_task k) Q s.
Proof.
  intros HFs HF Hi HF0 Hk.
  eapply (safe_write ok t _ (fun m => TLoc (n_locals m))
    (fun m => set_locals (locals m) (S (n_locals m)) m) _ F); [by left|done..|].
  intros m g Hi1 HF1. split; [done|]. eexists. split; [by apply (good_alloc_task ok t m g pay)|].
  intros Hi2. apply Hk; [done|by eapply HF|]. split; [|done]. simpl. by rewrite fn_lookup_insert.
Qed.

Definition result_in (pay : payload) (T : Task) : Prop := ok pay (task_res pay T).

(** What [lace_run_task] and [lace_run_task_exclusive] promise. *)
Definition runs_task (t : nat) (F : mem * ghost -> Prop) (run : tref -> lcode unit) : Prop :=
  forall id pay s, Inv ok s -> F s -> Building t id pay (task_full pay) s ->
    lsafe t (run (TLoc id)) (fun _ s => F s /\ ExtDone id pay (result_in pay) s) s.

Lemma with_stack_task_spec t F run u args s :
  Stable ok t F -> OwnFrame t F -> runs_task t F run -> length args = user_arity u ->
  Inv ok s -> F s ->
  lsafe t (with_stack_task (F_user u) args run (user_void u)) (fun v s => F s /\ ok (u, args) v) s.
Proof.
  intros HFs HF Hrun Hlen Hi HF0. unfold with_stack_task. code.
  eapply (safe_alloc_task t F (u, args)); [done..|]. clear dependent s. intros id s Hi HF0 Hb. code.
  eapply lsafe_seq; [done|apply (init_task_spec ok t _ (fun P s => F s /\ Building t id (u, args) P s));
    [apply building_writable; [done|intros; by eapply HF]|intros; apply _|done..]|].
  clear dependent s. intros ? s Hi [HF0 [Hid Hfull]].
  eapply lsafe_seq; [done|apply (Hrun id (u, args)); [done..|]|].
  { split; [done|]. by apply filled_full. }
  clear dependent s. intros ? s Hi [HF0 Hd].
  eapply safe_mono; [|eapply (load_res_spec ok t (TLoc id) (fun s => F s /\ ExtDone id (u, args) (result_in (u, args)) s) (u, args));
    [apply _| |done|done]].
  - intros v s1 Hi1 (? & ? & _). done.
  - intros m g Hi1 [_ [Hd1 Hr]]. split; [|done]. simpl in *. by apply (inv_loc _ _ Hi1 id _ Hd1).
Qed.

(** *** RUN by a worker: the task is executed directly *)

Lemma At_take_loc t L id pay m g :
  At t L (m, g) -> At t (with_holds L ((TLoc id, pay) :: lv_holds L)) (m, g_take t (TLoc id) pay g).
Proof.
  intros Hat. eapply (At_frame t L); [done..|]. simpl. rewrite fn_lookup_insert.
  by rewrite <-(At_view _ _ _ _ Hat).
Qed.

Lemma At_complete_loc t L H id m g :
  At t L (m, g) -> At t (with_holds L H) (m, g_complete t (TLoc id) H g).
Proof.
  intros Hat. eapply (At_frame t L); [done..|]. simpl. rewrite fn_lookup_insert.
  by rewrite <-(At_view _ _ _ _ Hat).
Qed.

Lemma call_f_own t L id pay s :
  Inv ok s -> At t L s -> Building t id pay (task_full pay) s ->
  lsafe t (call_f t (zlen (lv_live L)) (TLoc id))
    (fun _ s => At t L s /\ ExtDone id pay (result_in pay) s) s.
Proof.
  intros Hi Hat Hb. code.
  eapply (safe_write ok t _ (fun m => task_f (get_task (TLoc id) m)) (fun m => m) _
    (fun s => At t L s /\ Building t id pay (task_full pay) s)); [by left|apply _|done..|].
  intros m g Hi1 [Hat1 [Hid [Hth Hrd]]]. cbn [fst snd] in *.
  split; [by apply (inv_loc _ _ Hi1 id _ Hid)|]. eexists. split.
  { eapply (good_take_loc ok t id pay (Mine t)); [done..|by right|by eapply At_worker|].
    intros e He Het. destruct (inv_ext _ _ Hi1 e He) as (_ & id' & en & Het' & Hid' & Hst). simpl in *.
    rewrite Het in Het'. simplify_eq/=. }
  intros Hi2. pose proof Hrd as (Hf & _). cbn [get_task]. rewrite Hf.
  set (L1 := with_holds L ((TLoc id, pay) :: lv_holds L)).
  eapply (safe_call _ (lace_logic ok) _ _ _
    (fun s => At t L1 s /\ Held t (TLoc id) (fun T => task_ready T pay) s) _ L1);
    [apply (_ : Stable ok t _)|done| | |].
  { split; [by apply At_take_loc|]. split; [|done]. exists pay. simpl. rewrite fn_lookup_insert. by left. }
  { intros s1 Hi3 [Hat3 [_ Hrd3]]. split_and!; [done..|]. by exists pay, (lv_holds L). }
  clear dependent m g. intros v s1 Hi1 (Hat1 & pay' & H' & HL' & Hok). simplify_eq/=.
  assert (Hh1 : held t (TLoc id) s1.2).
  { exists pay'. pose proof (f_equal lv_holds (At_view _ _ _ _ Hat1)) as Hv. simpl in Hv. rewrite Hv. by left. }
  eapply (safe_ghost _ (lace_logic ok) _ _
    (fun s => At t L1 s /\ Held t (TLoc id) (fun T => ok pay' (task_res pay' T)) s));
    [apply (_ : Stable ok t _)|done|done|].
  clear dependent s1. intros m g Hi1 [Hat1 [_ Hok]].
  assert (Hh : holds g t = (TLoc id, pay') :: lv_holds L).
  { apply (f_equal lv_holds (At_view _ _ _ _ Hat1)). }
  destruct (good_complete ok t (TLoc id) pay' (lv_holds L) m m g) as [Hg Hi2];
    [done..|apply task_upd_refl|apply (inv_words _ _ Hi1)|done|done|].
  exists (g_complete t (TLoc id) (lv_holds L) g). split_and!; [done..|]. ret. split.
  - replace L with (with_holds L1 (lv_holds L)) at 1 by (by destruct L). by apply At_complete_loc.
  - split; [|done]. simpl. rewrite fn_lookup_insert.
    assert (Htr : tinfo (TLoc id) g = Some (mkEntry pay' (Taken t))).
    { apply (inv_holds _ _ Hi1). simpl. rewrite Hh. by left. }
    simpl in Htr. by rewrite Htr.
Qed.

(** Both entry points start the same way. *)
Lemma run_task_worker t L (run : option nat -> lcode unit) id pay s :
  run (Some t) = (dq_head <- lace_get_head t ;; call_f t dq_head (TLoc id) ;;; Ret tt) ->
  user_drops = false -> Inv ok s -> At t L s -> Building t id pay (task_full pay) s ->
  lsafe t (self <- act Get_worker ;; run self) (fun _ s => At t L s /\ ExtDone id pay (result_in pay) s) s.
Proof.
  intros Hrun Hd Hi Hat Hb. load_with (fun s => At t L s /\ Building t id pay (task_full pay) s); [done|].
  destruct HP as [Hat1 Hb1]. rewrite decide_True by (by eapply At_worker). rewrite Hrun.
  eapply lsafe_seq; [done|by apply (lace_get_head_spec ok clean (clean_empty Hd) t L (Building t id pay (task_full pay))); [apply _|..]|].
  intros h s1 Hi1 (-> & Hat2 & Hb2). eapply lsafe_seq; [done|by apply call_f_own|].
  intros ? s2 Hi2 H2. by ret.
Qed.

Lemma lace_run_task_worker t L : user_drops = false -> runs_task t (At t L) lace_run_task.
Proof. intros Hd id pay s Hi Hat Hb. by eapply run_task_worker. Qed.

Lemma lace_run_task_exclusive_worker t L : user_drops = false -> runs_task t (At t L) lace_run_task_exclusive.
Proof. intros Hd id pay s Hi Hat Hb. by eapply run_task_worker. Qed.

(** *** RUN by another thread: the task is offered to the workers *)

(** The task is ready on the stack and the descriptor [e] belongs to it. *)
Definition ready_ext (t id : nat) (pay : payload) (e : nat) (s : mem * ghost) : Prop :=
  Building t id pay (fun T => task_ready T pay) s /\ EtIs e id s.

#[local] Instance Stable_ready_ext t id pay e : Stable ok t (ready_ext t id pay e).
Proof. unfold ready_ext. apply _. Qed.
#[local] Instance Frame_ready_ext t id pay e : Frame t (ready_ext t id pay e).
Proof. unfold ready_ext. apply _. Qed.
#[local] Instance LockFree_ready_ext t id pay e : LockFree (ready_ext t id pay e).
Proof. unfold ready_ext. apply _. Qed.

(** [ExtTask et; et.task = task; task->thief = 0; sem_init(&et.sem, 0, 0);] *)
Lemma ext_begin {A} t id pay (k : nat -> lcode A) Q s :
  Inv ok s -> Building t id pay (task_full pay) s ->
  (forall e s, Inv ok s -> ready_ext t id pay e s -> lsafe t (k e) Q s) ->
  lsafe t (et <- act (Alloc_ext (TLoc id)) ;;
           act (Store_thief (TLoc id) THIEF_EMPTY) ;;;
           act (Sem_init (SExt et) 0) ;;; k et) Q s.
Proof.
  intros Hi Hb Hk. code.
  eapply (safe_write ok t _ n_ets (fun m => set_ets (<[n_ets m := TLoc id]> (et_task m)) (S (n_ets m)) m) _
    (Building t id pay (task_full pay))); [by left|apply _|done..|].
  intros m g Hi1 Hb1. split; [done|]. exists g. split.
  { apply good_ext_core; try done; simpl; try lia.
    intros e He. apply fn_lookup_insert_ne. lia. }
  intros Hi2. set (e := n_ets m). set (m' := set_ets _ _ m) in *.
  assert (He : EtIs e id (m', g)).
  { split; simpl; [unfold e; lia|]. unfold e. by rewrite fn_lookup_insert. }
  eapply (building_writable t id pay (EtIs e id) ltac:(apply _) ltac:(done) _ _ (set_task_thief THIEF_EMPTY)
    (task_full pay) (fun T => task_ready T pay)); [done|done|by intros T Hd [_ ?]|done|done|].
  clearbody e. clear dependent s m g. intros s Hi [He Hb]. code.
  eapply (safe_write ok t _ (fun _ => tt) (upd_sem (SExt e) 0) _ (ready_ext t id pay e)); [by left|apply _|done|done|].
  clear dependent s. intros m g Hi Hr. split; [done|]. exists g. split; [|intros Hi2; by apply Hk].
  apply good_ext_core; try done. intros e'. simpl. destruct (decide (e = e')) as [<-|Hne].
  - rewrite fn_lookup_insert. lia.
  - rewrite fn_lookup_insert_ne by congruence. by left.
Qed.

(** Putting the descriptor in the mailbox. *)
Lemma offer_external_spec t id pay e s :
  Inv ok s -> ready_ext t id pay e s ->
  lsafe t (offer_external e) (fun _ s => Offered id pay s /\ EtIs e id s) s.
Proof.
  intros Hi Hr. unfold offer_external, loop.
  eapply (safe_iter _ _ _ (fun _ => ready_ext t id pay e)); [done|done|intros; apply (_ : Stable ok t _)|].
  clear dependent s. intros exp s Hr Hi. code.
  eapply (safe_act _ (lace_logic ok) _ _ _ (ready_ext t id pay e)); [apply (_ : Stable ok t _)|done..|].
  clear dependent s. intros [m g] Hi [[Hid Hrd] [Hn Het]]. cbn [fst snd] in *. split; [done|].
  intros r m' Hin%exec_exec1. simpl in Hin.
  assert (Hc : r.1 = false /\ m' = m \/ r.1 = true /\ m' = set_external (Some e) m).
  { case_decide; repeat (apply elem_of_cons in Hin as [[= -> ->]|Hin]; [eauto|]); by apply not_elem_of_nil in Hin. }
  destruct Hc as [(-> & ->)|(-> & ->)].
  - exists g. split_and!; [intros t' _; apply Rely_refl|done|]. ret. done.
  - destruct (good_publish ok t m g e id pay Hi Hid Hrd Hn Het) as [Hg Hi2].
    eexists. split_and!; [exact Hg|exact Hi2|]. ret. apply lsafe_ret; [apply _|done|]. split; [|done].
    exists (mkEntry pay Avail). split; [|done]. simpl. rewrite fn_lookup_insert, Hid. done.
Qed.

(** [sem_wait(&et.sem)] returns only when the task is done. *)
Lemma ext_wait {A} t id pay e (k : unit -> lcode A) Q s :
  Inv ok s -> Offered id pay s -> EtIs e id s ->
  (forall s, Inv ok s -> ExtDone id pay (result_in pay) s -> lsafe t (k tt) Q s) ->
  lsafe t (r <- act (Sem_wait (SExt e)) ;; k r) Q s.
Proof.
  intros Hi Hof Het Hk. code.
  eapply (safe_act _ (lace_logic ok) _ _ _ (fun s => Offered id pay s /\ EtIs e id s));
    [apply (_ : Stable ok t _)|done..|].
  clear dependent s. intros [m g] Hi [(en & Hid & Hpay) [Hn Het]]. cbn [fst snd] in *. split; [done|].
  intros r m' Hin%exec_exec1. simpl in Hin. case_match eqn:Hlt; [|by apply not_elem_of_nil in Hin].
  apply Z.ltb_lt in Hlt. apply list_elem_of_singleton in Hin. simplify_eq.
  destruct (inv_sem _ _ Hi e Hlt) as (_ & id' & en' & Het' & Hid' & Hst). simpl in *.
  rewrite Het in Het'. injection Het' as <-. rewrite Hid in Hid'. injection Hid' as <-.
  destruct (inv_loc _ _ Hi id en Hid) as [_ Hl]. unfold loc_ok in Hl. rewrite Hst in Hl.
  set (m' := upd_sem (SExt e) (sems m (SExt e) - 1) m).
  assert (Hg : good ok t (m, g) (m', g)).
  { apply good_ext_core; try done. intros e'. simpl. destruct (decide (e = e')) as [<-|Hne].
    - rewrite fn_lookup_insert. left. lia.
    - rewrite fn_lookup_insert_ne by congruence. by left. }
  exists g. destruct Hg as [Hg Hi2]. split_and!; [done..|]. apply Hk; [done|]. destruct en as [p st].
  simpl in Hst. subst st. by split.
Qed.

(** [pthread_mutex_lock], a critical section of neutral code, [pthread_mutex_unlock]. *)
Ltac lock P := code; eapply (safe_mutex_lock _ P); [apply _|apply _|done|done|];
  let s := fresh "s" in let Hi := fresh "Hi" in let HP := fresh "HP" in let Hl := fresh "Hl" in
  intros s Hi HP Hl.
Ltac unlock P := code; eapply (safe_mutex_unlock _ P); [apply _|apply _|done|done|done|];
  let s := fresh "s" in let Hi := fresh "Hi" in let HP := fresh "HP" in intros s Hi HP.
Ltac wait_while P :=
  eapply lsafe_seq; [done|apply (cond_wait_while_spec _ P); [apply _|apply _|apply _|done|done|done]|];
  let s := fresh "s" in let Hi := fresh "Hi" in let HP := fresh "HP" in let Hl := fresh "Hl" in
  intros ? s Hi [HP Hl].
Ltac guarded t P :=
  skip_with (fun s => P s /\ Locked t s);
  match goal with H : P _ /\ Locked _ _ |- _ => destruct H end.

Lemma not_worker {A} t (k : option nat -> lcode A) P Q s :
  Stable ok t P -> Frame t P -> (n_workers <= t)%nat -> Inv ok s -> P s ->
  (forall s, Inv ok s -> P s -> lsafe t (k None) Q s) ->
  lsafe t (self <- act Get_worker ;; k self) Q s.
Proof.
  intros Hst Hf Ht Hi HP Hk. load_with P; [done|]. rewrite decide_False by lia. by apply Hk.
Qed.

Lemma lace_run_task_external t :
  (n_workers <= t)%nat -> runs_task t (fun _ => True) lace_run_task.
Proof.
  intros Ht id pay s Hi _ Hb. unfold lace_run_task.
  eapply (not_worker t _ (Building t id pay (task_full pay))); [apply _|apply _|done..|].
  clear dependent s. intros s Hi Hb.
  skip_code (Building t id pay (task_full pay)) by apply neutral_resume.
  apply ext_begin with (pay := pay); [done..|]. clear dependent s s0. intros e s Hi Hr.
  set (P := ready_ext t id pay e) in *. lock P. wait_while P. guarded t P. guarded t P. unlock P.
  eapply lsafe_seq; [done|by apply offer_external_spec|]. clear dependent s s0 s1 s2 s3 s4.
  intros ? s Hi [Hof Het]. apply (ext_wait t id pay e); [done..|]. clear dependent s. intros s Hi Hd.
  set (D := ExtDone id pay (result_in pay)) in *. lock D. guarded t D. guarded t D. guarded t D.
  eapply (lsafe_seq _ _ _ _ (fun _ s => D s /\ Locked t s)); [done| |].
  { case_match; [|ret; done]. guarded t D. unfold when. case_match; [|by ret]. guarded t D. by ret. }
  intros ? s5 Hi5 [HD Hl5]. unlock D. clear dependent s5.
  eapply safe_mono; [|apply (safe_neutral_code ok t _ D); [apply neutral_suspend|apply _|apply _|done|done]].
  by intros ? s6 _ HD.
Qed.

Lemma lace_run_task_exclusive_external t :
  (n_workers <= t)%nat -> runs_task t (fun _ => True) lace_run_task_exclusive.
Proof.
  intros Ht id pay s Hi _ Hb. unfold lace_run_task_exclusive.
  eapply (not_worker t _ (Building t id pay (task_full pay))); [apply _|apply _|done..|].
  clear dependent s. intros s Hi Hb.
  skip_code (Building t id pay (task_full pay)) by apply neutral_resume.
  apply ext_begin with (pay := pay); [done..|]. clear dependent s s0. intros e s Hi Hr.
  set (P := ready_ext t id pay e) in *. lock P. wait_while P. guarded t P. wait_while P. unlock P.
  eapply lsafe_seq; [done|by apply offer_external_spec|]. clear dependent s s0 s1 s2 s3 s4.
  intros ? s Hi [Hof Het]. apply (ext_wait t id pay e); [done..|]. clear dependent s. intros s Hi Hd.
  set (D := ExtDone id pay (result_in pay)) in *. lock D. guarded t D. guarded t D. unlock D.
  eapply safe_mono; [|apply (safe_neutral_code ok t _ D); [apply neutral_suspend|apply _|apply _|done|done]].
  by intros ? s6 _ HD.
Qed.
End RunProofs.
