(* ===== verification/Semantics.v ===== *)
(** * What a program computes

    The sequential meaning of client tasks: a spawned task is evaluated where it is
    synced.  The scheduler may run it earlier and on another worker; ForkJoin.v shows
    that the results are the same. *)

From S2P Require Export Program.

Section Semantics.
Context {cfg : Cfg} {client : Client}.

(** [Returns u args v]: the call [u(args)] returns [v] (nothing, written [VZ 0], for a
    [VOID_TASK_n]).  [ReturnsP p pend v]: the rest [p] of a task returns [v], when [pend]
    are the arguments of the tasks it still has to sync, innermost first. *)
Inductive Returns : nat -> list val -> val -> Prop :=
| Returns_task u args v :
    ReturnsP (user_body u args) [] v -> Returns u args (if user_void u then VZ 0 else v)
with ReturnsP : forall {l}, uprog l -> list (list val) -> val -> Prop :=
| ReturnsP_ret v : ReturnsP (URet v) [] v
| ReturnsP_spawn l u args (k : uprog (u :: l)) pend v :
    ReturnsP k (args :: pend) v -> ReturnsP (USpawn u args k) pend v
| ReturnsP_sync l u (k : val -> uprog l) args pend r v :
    Returns u args r -> ReturnsP (k r) pend v -> ReturnsP (@USync u l k) (args :: pend) v
| ReturnsP_drop l u (k : uprog l) args pend v :
    ReturnsP k pend v -> ReturnsP (@UDrop u l k) (args :: pend) v
| ReturnsP_call l u args (k : val -> uprog l) pend r v :
    Returns u args r -> ReturnsP (k r) pend v -> ReturnsP (UCall u args k) pend v
| ReturnsP_run l u args (k : val -> uprog l) pend r v :
    Returns u args r -> ReturnsP (k r) pend v -> ReturnsP (URun u args k) pend v
| ReturnsP_runex l u args (k : val -> uprog l) pend r v :
    Returns u args r -> ReturnsP (k r) pend v -> ReturnsP (URunEx u args k) pend v
| ReturnsP_op l o (k : uprog l) pend v :
    ReturnsP k pend v -> ReturnsP (UOp o k) pend v
| ReturnsP_newframe l u args (k : val -> uprog l) pend r v :
    Returns u args r -> ReturnsP (k r) pend v -> ReturnsP (UNewframe u args k) pend v
| ReturnsP_together l u args (k : uprog l) pend v :
    ReturnsP k pend v -> ReturnsP (UTogether u args k) pend v.

Scheme Returns_ind2 := Induction for Returns Sort Prop
with ReturnsP_ind2 := Induction for ReturnsP Sort Prop.
Combined Scheme Returns_mutind from Returns_ind2, ReturnsP_ind2.

Lemma Returns_void u args v : Returns u args v -> user_void u = true -> v = VZ 0.
Proof. intros H Hv. destruct H. by rewrite Hv. Qed.

(** The tasks the correctness theorem is about: every task gets as many arguments as
    it is declared with, there are no NEWFRAME and TOGETHER, and a client that uses DROP
    does not use RUN and RUNEX inside tasks ([lace_get_head] cannot find the head of a
    deque with dropped tasks). *)
Fixpoint prog_ok {l} (p : uprog l) : Prop :=
  match p with
  | URet _ => True
  | USpawn u args k => length args = user_arity u /\ prog_ok k
  | USync k => forall v, prog_ok (k v)
  | UCall u args k => length args = user_arity u /\ forall v, prog_ok (k v)
  | URun u args k | URunEx u args k =>
      user_drops = false /\ length args = user_arity u /\ forall v, prog_ok (k v)
  | UDrop k => user_drops = true /\ prog_ok k
  | UOp _ k => prog_ok k
  | UNewframe _ _ _ | UTogether _ _ _ => False
  end.

Definition client_ok : Prop :=
  forall u args, length args = user_arity u -> prog_ok (user_body u args).

(** ** Client threads

    A thread of the client starts and stops Lace and runs tasks. *)
Inductive cprog :=
| CRet (v : val)
| CStart (k : cprog)
| CStop (k : cprog)
| CSuspend (k : cprog)
| CResume (k : cprog)
| CRun (u : nat) (args : list val) (k : val -> cprog)
| CRunEx (u : nat) (args : list val) (k : val -> cprog)
| CNewframe (u : nat) (args : list val) (k : val -> cprog)
| CTogether (u : nat) (args : list val) (k : cprog).

Fixpoint cinterp (p : cprog) : lcode val :=
  match p with
  | CRet v => Ret v
  | CStart k => lace_start ;;; cinterp k
  | CStop k => lace_stop ;;; cinterp k
  | CSuspend k => lace_suspend ;;; cinterp k
  | CResume k => lace_resume ;;; cinterp k
  | CRun u args k => r <- RUN (F_user u) args ;; cinterp (k r)
  | CRunEx u args k => r <- RUNEX (F_user u) args ;; cinterp (k r)
  | CNewframe u args k => r <- NEWFRAME (F_user u) args ;; cinterp (k r)
  | CTogether u args k => TOGETHER (F_user u) args ;;; cinterp k
  end.

Inductive ReturnsC : cprog -> val -> Prop :=
| ReturnsC_ret v : ReturnsC (CRet v) v
| ReturnsC_start k v : ReturnsC k v -> ReturnsC (CStart k) v
| ReturnsC_stop k v : ReturnsC k v -> ReturnsC (CStop k) v
| ReturnsC_suspend k v : ReturnsC k v -> ReturnsC (CSuspend k) v
| ReturnsC_resume k v : ReturnsC k v -> ReturnsC (CResume k) v
| ReturnsC_run u args k r v : Returns u args r -> ReturnsC (k r) v -> ReturnsC (CRun u args k) v
| ReturnsC_runex u args k r v : Returns u args r -> ReturnsC (k r) v -> ReturnsC (CRunEx u args k) v
| ReturnsC_newframe u args k r v : Returns u args r -> ReturnsC (k r) v -> ReturnsC (CNewframe u args k) v
| ReturnsC_together u args k v : ReturnsC k v -> ReturnsC (CTogether u args k) v.

Fixpoint cprog_ok (p : cprog) : Prop :=
  match p with
  | CRet _ => True
  | CStart k | CStop k | CSuspend k | CResume k => cprog_ok k
  | CRun u args k | CRunEx u args k => length args = user_arity u /\ forall v, cprog_ok (k v)
  | CNewframe _ _ _ | CTogether _ _ _ => False
  end.

(** ** The sequential evaluator

    The same meaning as a program: [evalP] runs the rest of a task with the calls given by
    [ev_call], [eval] bounds the depth of nested calls. *)
Fixpoint evalP (ev_call : nat -> list val -> option val) {l} (p : uprog l) (pend : list (list val)) :
    option val :=
  match p with
  | URet v => match pend with [] => Some v | _ => None end
  | USpawn u args k => evalP ev_call k (args :: pend)
  | @USync u _ k =>
      match pend with
      | args :: pend' => r ← ev_call u args; evalP ev_call (k r) pend'
      | [] => None
      end
  | UDrop k => match pend with _ :: pend' => evalP ev_call k pend' | [] => None end
  | UCall u args k | URun u args k | URunEx u args k | UNewframe u args k =>
      r ← ev_call u args; evalP ev_call (k r) pend
  | UOp _ k | UTogether _ _ k => evalP ev_call k pend
  end.

Fixpoint eval (fuel u : nat) (args : list val) : option val :=
  match fuel with
  | O => None
  | S n => v ← evalP (eval n) (user_body u args) []; Some (if user_void u then VZ 0 else v)
  end.

Fixpoint evalC (fuel : nat) (p : cprog) : option val :=
  match p with
  | CRet v => Some v
  | CStart k | CStop k | CSuspend k | CResume k | CTogether _ _ k => evalC fuel k
  | CRun u args k | CRunEx u args k | CNewframe u args k => r ← eval fuel u args; evalC fuel (k r)
  end.

Lemma evalP_mono (f f' : nat -> list val -> option val) {l} (p : uprog l) pend v :
  (forall u args v, f u args = Some v -> f' u args = Some v) ->
  evalP f p pend = Some v -> evalP f' p pend = Some v.
Proof.
  intros Hf. revert pend. induction p; intros pend; simpl; try done; eauto;
    try (destruct pend as [|args pend]; [done|]); eauto;
    (destruct (f u _) as [r|] eqn:E; [|done]); rewrite (Hf _ _ _ E); simpl; eauto.
Qed.

Lemma eval_mono n n' u args v : (n <= n')%nat -> eval n u args = Some v -> eval n' u args = Some v.
Proof.
  revert n' u args v. induction n as [|n IH]; intros n' u args v Hn; [done|]. destruct n' as [|n']; [lia|]. simpl.
  destruct (evalP (eval n) _ _) as [r|] eqn:E; [|done].
  erewrite (evalP_mono (eval n) (eval n')); [done| |exact E]. intros u' args' v'. apply IH. lia.
Qed.

(** *** The evaluator and the relation agree *)

Lemma evalP_sound f {l} (p : uprog l) pend v :
  (forall u args v, f u args = Some v -> Returns u args v) ->
  evalP f p pend = Some v -> ReturnsP p pend v.
Proof.
  intros Hf. revert pend v. induction p; intros pend v'; simpl.
  1: by destruct pend; [intros [= <-]; constructor|].
  2, 3: destruct pend as [|args' pend]; [done|].
  all: try (destruct (f u _) as [r|] eqn:E; [|done]); simpl; intros Hev; econstructor; eauto.
Qed.

Lemma eval_sound n u args v : eval n u args = Some v -> Returns u args v.
Proof.
  revert u args v. induction n as [|n IH]; intros u args v; simpl; [done|].
  destruct (evalP (eval n) _ _) as [r|] eqn:E; [|done]. simpl. intros [= <-]. constructor.
  eapply evalP_sound; eauto.
Qed.

Lemma evalP_fuel {l} (p : uprog l) pend v n n' :
  (n <= n')%nat -> evalP (eval n) p pend = Some v -> evalP (eval n') p pend = Some v.
Proof. intros Hn. apply evalP_mono. intros u args w. by apply eval_mono. Qed.

Lemma eval_complete_mut :
  (forall u args v, Returns u args v -> exists n, eval n u args = Some v) /\
  (forall l (p : uprog l) pend v, ReturnsP p pend v -> exists n, evalP (eval n) p pend = Some v).
Proof.
  assert (Hcall : forall l (k : val -> uprog l) u args pend r v n n',
    eval n u args = Some r -> evalP (eval n') (k r) pend = Some v ->
    (r ← eval (n + n') u args; evalP (eval (n + n')) (k r) pend) = Some v).
  { intros l k u args pend r v n n' H1 H2. rewrite (eval_mono n (n + n') _ _ r); [|lia|done]. simpl.
    apply (evalP_fuel _ _ _ n'); [lia|done]. }
  apply (Returns_mutind
    (fun u args v _ => exists n, eval n u args = Some v)
    (fun l p pend v _ => exists n, evalP (eval n) p pend = Some v)); simpl; try done.
  - intros u args v _ [n H]. exists (S n). simpl. by rewrite H.
  - intros v. by exists 0%nat.
  - intros l u k args pend r v _ [n H1] _ [n' H2]. eexists. by eapply (Hcall _ k).
  - intros l u args k pend r v _ [n H1] _ [n' H2]. eexists. by eapply (Hcall _ k).
  - intros l u args k pend r v _ [n H1] _ [n' H2]. eexists. by eapply (Hcall _ k).
  - intros l u args k pend r v _ [n H1] _ [n' H2]. eexists. by eapply (Hcall _ k).
  - intros l u args k pend r v _ [n H1] _ [n' H2]. eexists. by eapply (Hcall _ k).
Qed.

Lemma Returns_eval_det n u args v v' : Returns u args v -> eval n u args = Some v' -> v = v'.
Proof.
  intros Hr He. destruct (proj1 eval_complete_mut u args v Hr) as [n' Hn'].
  apply (eval_mono n (n + n')) in He; [|lia]. apply (eval_mono n' (n + n')) in Hn'; [|lia]. congruence.
Qed.

Lemma Returns_det u args v v' : Returns u args v -> Returns u args v' -> v = v'.
Proof.
  intros H1 H2. destruct (proj1 eval_complete_mut u args v' H2) as [n Hn]. by eapply Returns_eval_det.
Qed.

Lemma ReturnsC_eval_det n p v v' : ReturnsC p v -> evalC n p = Some v' -> v = v'.
Proof.
  intros Hr. induction Hr as [v|k v Hr IH|k v Hr IH|k v Hr IH|k v Hr IH|u args k r v Hu Hr IH|u args k r v Hu Hr IH
    |u args k r v Hu Hr IH|u args k v Hr IH]; simpl; try done; [congruence|..];
    (destruct (eval n u args) as [r'|] eqn:E; [|done]); simpl; by rewrite <-(Returns_eval_det n u args r r').
Qed.

(** The relational meaning of tasks and the executable evaluator agree: a call returns
    [v] exactly if some amount of fuel evaluates it to [v], and then every call of the
    same task with the same arguments returns [v]. *)
Theorem eval_iff_returns u args v :
  (Returns u args v <-> exists n, eval n u args = Some v) /\
  (Returns u args v -> forall v', Returns u args v' -> v' = v).
Proof.
  split; [split; [apply (proj1 eval_complete_mut)|intros [n Hn]; by eapply eval_sound]|].
  intros Hv v' Hv'. by eapply Returns_det.
Qed.
End Semantics.
