(* ===== verification/Solo.v ===== *)
(** * Running one thread to the end

    A total-correctness logic for one thread that runs while the others stand still:
    [solo t c m Q] says that thread [t], running [c] from memory [m], can return (the
    code terminates) with a value and a memory that satisfy [Q].  With it the completion theorem
    constructs the executions in which every client gets its result. *)

From Stdlib Require Import FunctionalExtensionality.
From S2P Require Export TaskProofs Semantics.

Section Runs.
Context {cfg : Cfg} {client : Client}.

(** [runs t c m a m']: thread [t] alone can run [c] from [m] until it returns [a] in [m']. *)
Inductive runs (t : nat) : forall {A}, lcode A -> mem -> A -> mem -> Prop :=
| runs_ret {A} (a : A) m : runs t (Ret a) m a m
| runs_act {A R} (e : ev R) (k : R -> lcode A) m r m1 a m2 :
    (r, m1) ∈ exec R t e m -> runs t (k r) m1 a m2 -> runs t (Act e k) m a m2
| runs_call {A} f (k : val -> lcode A) m v m1 a m2 :
    runs t (fn_body f) m v m1 -> runs t (k v) m1 a m2 -> runs t (Call f k) m a m2
| runs_next {A S B} (b : S -> lcode (S + B)) s s' (k : B -> lcode A) m m1 a m2 :
    runs t (b s) m (inl s') m1 -> runs t (Iter b s' k) m1 a m2 -> runs t (Iter b s k) m a m2
| runs_exit {A S B} (b : S -> lcode (S + B)) s y (k : B -> lcode A) m m1 a m2 :
    runs t (b s) m (inr y) m1 -> runs t (k y) m1 a m2 -> runs t (Iter b s k) m a m2.

Lemma runs_bind t {A B} (c : lcode A) (f : A -> lcode B) m a m1 b m2 :
  runs t c m a m1 -> runs t (f a) m1 b m2 -> runs t (bind c f) m b m2.
Proof. intros Hc. induction Hc; intros Hf; simpl; eauto using runs. Qed.

Definition solo (t : nat) {A} (c : lcode A) (m : mem) (Q : A -> mem -> Prop) : Prop :=
  exists a m', runs t c m a m' /\ Q a m'.

Lemma solo_ret t {A} (a : A) m (Q : A -> mem -> Prop) : Q a m -> solo t (Ret a) m Q.
Proof. intros HQ. exists a, m. split; [constructor|done]. Qed.

Lemma solo_mono t {A} (c : lcode A) m (Q Q' : A -> mem -> Prop) :
  solo t c m Q -> (forall a m', Q a m' -> Q' a m') -> solo t c m Q'.
Proof. intros (a & m' & Hr & HQ) H. exists a, m'. auto. Qed.

Lemma solo_bind t {A B} (c : lcode A) (f : A -> lcode B) m Q :
  solo t c m (fun a m' => solo t (f a) m' Q) -> solo t (bind c f) m Q.
Proof.
  intros (a & m1 & Hc & b & m2 & Hf & HQ). exists b, m2. split; [by eapply runs_bind|done].
Qed.

Lemma solo_seq t {A B} (c : lcode A) (f : A -> lcode B) m R Q :
  solo t c m R -> (forall a m', R a m' -> solo t (f a) m' Q) -> solo t (bind c f) m Q.
Proof. intros Hc Hf. apply solo_bind. by eapply solo_mono. Qed.

Lemma solo_act t {A R} (e : ev R) (k : R -> lcode A) m r m' Q :
  exited m = false -> (r, m') ∈ exec1 t e m -> solo t (k r) m' Q -> solo t (Act e k) m Q.
Proof.
  intros Hx Hin (a & m2 & Hr & HQ). exists a, m2. split; [|done].
  eapply runs_act; [|done]. unfold exec. by rewrite Hx.
Qed.

(** An access with one outcome. *)
Lemma solo_step t {A R} (e : ev R) (k : R -> lcode A) m r m' Q :
  exited m = false -> exec1 t e m = [(r, m')] -> solo t (k r) m' Q -> solo t (Act e k) m Q.
Proof. intros Hx He. apply solo_act; [done|]. rewrite He. by left. Qed.

(** A successful compare-and-swap. *)
Lemma solo_cas t {A C} `{EqDecision C} (e : ev bool) (k : bool -> lcode A) m (cur old : C) m' Q :
  exited m = false -> exec1 t e m = weak_cas cur old m m' -> cur = old ->
  solo t (k true) m' Q -> solo t (Act e k) m Q.
Proof.
  intros Hx He Hc. apply solo_act; [done|]. rewrite He. unfold weak_cas. rewrite decide_True by done. by left.
Qed.

Lemma solo_call t {A} f (k : val -> lcode A) m Q :
  solo t (fn_body f) m (fun v m' => solo t (k v) m' Q) -> solo t (Call f k) m Q.
Proof.
  intros (v & m1 & Hf & a & m2 & Hk & HQ). exists a, m2. split; [by eapply runs_call|done].
Qed.

Lemma solo_next t {A S B} (b : S -> lcode (S + B)) s (k : B -> lcode A) m Q :
  solo t (b s) m (fun r m' => match r with
                              | inl s' => solo t (Iter b s' k) m' Q
                              | inr y => solo t (k y) m' Q
                              end) -> solo t (Iter b s k) m Q.
Proof.
  intros ([s'|y] & m1 & Hb & a & m2 & Hk & HQ); exists a, m2; (split; [|done]).
  - by eapply runs_next.
  - by eapply runs_exit.
Qed.

(** A loop with a measure that decreases in every turn. *)
Lemma solo_loop t {S B} (mu : S -> nat) (I : S -> mem -> Prop) (b : S -> lcode (S + B)) s m Q :
  I s m ->
  (forall s m, I s m -> solo t (b s) m (fun r m' => match r with
     | inl s' => I s' m' /\ (mu s' < mu s)%nat
     | inr y => Q y m'
     end)) -> solo t (loop s b) m Q.
Proof.
  intros HI Hb. remember (mu s) as n eqn:Hn. revert s m HI Hn.
  induction n as [n IH] using lt_wf_ind. intros s m HI ->. apply solo_next.
  eapply solo_mono; [by apply Hb|]. intros [s'|y] m' H; [|by apply solo_ret].
  destruct H as [HI' Hlt]. by eapply IH.
Qed.

(** ** Solo runs are executions of the machine *)

(** Steps of one thread. *)
Definition tstep (t : nat) (x y : @thread ev fn val * mem) : Prop := y ∈ thread_step exec fn_body t x.1 x.2.

Lemma runs_tsteps t {A} (c : lcode A) m a m' :
  runs t c m a m' -> forall K st,
  rtc (tstep t) (Thread (bind c K) st, m) (Thread (K a) st, m').
Proof.
  intros Hr. induction Hr as [A a m|A R e k m r m1 a m2 He Hk IH|A f k m v m1 a m2 Hf IHf Hk IHk
    |A S B b s s' k m m1 a m2 Hb IHb Hk IHk|A S B b s y k m m1 a m2 Hb IHb Hk IHk]; intros K st.
  - apply rtc_refl.
  - eapply rtc_l; [|by apply IH]. unfold tstep, thread_step. simpl.
    apply list_elem_of_fmap. by exists (r, m1).
  - eapply rtc_l; [unfold tstep, thread_step; by left|].
    etransitivity; [rewrite <-(bind_ret_r (fn_body f)); apply IHf|].
    eapply rtc_l; [unfold tstep, thread_step; by left|]. apply IHk.
  - eapply rtc_l; [unfold tstep, thread_step; by left|]. unfold unroll.
    etransitivity; [apply (IHb (fun r => match r with inl s' => _ | inr y => _ end))|]. apply IHk.
  - eapply rtc_l; [unfold tstep, thread_step; by left|]. unfold unroll.
    etransitivity; [apply (IHb (fun r => match r with inl s' => _ | inr y => _ end))|]. apply IHk.
Qed.

Lemma tsteps_reachable t th m th' m' ths :
  rtc (tstep t) (th, m) (th', m') -> ths !! t = Some th ->
  lace_reachable (Config ths m) (Config (<[t := th']> ths) m').
Proof.
  remember (th, m) as x eqn:Hx. remember (th', m') as y eqn:Hy. intros Hr.
  revert th m th' m' ths Hx Hy. induction Hr as [x|x [th1 m1] z Hs Hr IH]; intros th m th' m' ths Hx Hy Hl; simplify_eq.
  - rewrite list_insert_id by done. apply rtc_refl.
  - eapply rtc_l; [by econstructor|].
    assert (H1 : <[t:=th1]> ths !! t = Some th1) by (apply list_lookup_insert_eq; by eapply lookup_lt_Some).
    pose proof (IH th1 m1 th' m' (<[t:=th1]> ths) eq_refl eq_refl H1) as H.
    by rewrite list_insert_insert_eq in H.
Qed.

(** A thread that is about to run [c] can run it and go on with what comes after. *)
Lemma solo_reachable t {A} (c : lcode A) K st ths m (Q : A -> mem -> Prop) :
  ths !! t = Some (Thread (bind c K) st) -> solo t c m Q ->
  exists a m', Q a m' /\ lace_reachable (Config ths m) (Config (<[t := Thread (K a) st]> ths) m').
Proof.
  intros Hl (a & m' & Hr & HQ). exists a, m'. split; [done|].
  eapply tsteps_reachable; [by apply runs_tsteps|done].
Qed.
End Runs.
