(* ===== verification/SoloTasks.v ===== *)
(** * A worker that runs tasks alone

    What the generated functions do when no other worker interferes: [SPAWN], [SYNC],
    [DROP], [RUN] inside a task and the other operations return, and a task whose
    evaluation fits in the deque returns the value the evaluator gives. *)

From S2P Require Import Rng.
From S2P Require Export Solo HeadProofs.

(** ** The evaluator with the deque

    The sequential evaluator of Semantics.v, with the head [h] of the deque: a [SPAWN] on a
    full deque has no value, neither have the operations that need the other workers. *)
Section EvalD.
Context {cfg : Cfg} {client : Client}.

Fixpoint evalDP (ev_call : Z -> nat -> list val -> option val) (h : Z) {l} (p : uprog l)
    (pend : list (list val)) : option val :=
  match p with
  | URet v => match pend with [] => Some v | _ => None end
  | USpawn u args k => if h <? dqsize then evalDP ev_call (h + 1) k (args :: pend) else None
  | @USync u _ k =>
      match pend with
      | args :: pend' => r ← ev_call (h - 1) u args; evalDP ev_call (h - 1) (k r) pend'
      | [] => None
      end
  | UDrop k => match pend with _ :: pend' => evalDP ev_call (h - 1) k pend' | [] => None end
  | UCall u args k | URun u args k | URunEx u args k =>
      r ← ev_call h u args; evalDP ev_call h (k r) pend
  | UOp OpBarrier _ => None
  | UOp _ k => evalDP ev_call h k pend
  | UNewframe _ _ _ | UTogether _ _ _ => None
  end.

Fixpoint evalD (fuel : nat) (h : Z) (u : nat) (args : list val) : option val :=
  match fuel with
  | O => None
  | S n => v ← evalDP (evalD n) h (user_body u args) []; Some (if user_void u then VZ 0 else v)
  end.

(** It gives the values of the evaluator without the deque. *)
Lemma evalDP_eval (f : Z -> nat -> list val -> option val) g h {l} (p : uprog l) pend v :
  (forall h u args v, f h u args = Some v -> g u args = Some v) ->
  evalDP f h p pend = Some v -> evalP g p pend = Some v.
Proof.
  intros Hf. revert h pend. induction p; intros h pend; simpl; try done.
  - case_match; [|done]. eauto.
  - destruct pend as [|args pend]; [done|]. destruct (f _ _ _) as [r|] eqn:E; [|done]. rewrite (Hf _ _ _ _ E). simpl. eauto.
  - destruct pend as [|args pend]; [done|]. eauto.
  - destruct (f _ _ _) as [r|] eqn:E; [|done]. rewrite (Hf _ _ _ _ E). simpl. eauto.
  - destruct (f _ _ _) as [r|] eqn:E; [|done]. rewrite (Hf _ _ _ _ E). simpl. eauto.
  - destruct (f _ _ _) as [r|] eqn:E; [|done]. rewrite (Hf _ _ _ _ E). simpl. eauto.
  - destruct o; eauto; done.
Qed.

Lemma evalD_eval n h u args v : evalD n h u args = Some v -> eval n u args = Some v.
Proof.
  revert h u args v. induction n as [|n IH]; intros h u args v; simpl; [done|].
  destruct (evalDP _ _ _ _) as [r|] eqn:E; [|done]. rewrite (evalDP_eval (evalD n) (eval n) h _ [] r); eauto.
Qed.
End EvalD.

(** One access with one outcome. *)
Ltac step := code; eapply solo_step; [first [done|congruence]|reflexivity|]; code.

Section SoloTasks.
Context {cfg : Cfg} {cfg_ok : CfgOk} {client : Client}.

(** ** The state of a worker that runs alone *)

(** What a worker does not change by running tasks. *)
Record Keeps (w : nat) (m0 m : mem) : Prop := {
  fr_workers : workers m = workers m0;
  fr_ints : ints m = ints m0;
  fr_sems : sems m = sems m0;
  fr_newframe : lace_newframe_t m = lace_newframe_t m0;
  fr_external : external_task m = external_task m0;
  fr_et : et_task m = et_task m0;
  fr_ets : n_ets m = n_ets m0;
  fr_lock : external_task_lock m = external_task_lock m0;
  fr_created : created m = created m0;
  fr_exited : exited m = exited m0;
  fr_slots v : v <> w -> slots m v = slots m0 v;
  fr_priv v : v <> w -> priv m v = priv m0 v;
  fr_ts v : v <> w -> w_ts (pub m v) = w_ts (pub m0 v);
  fr_allstolen v : v <> w -> w_allstolen (pub m v) = w_allstolen (pub m0 v);
  fr_nlocals : (n_locals m0 <= n_locals m)%nat;
  fr_locals id : (id < n_locals m0)%nat -> locals m id = locals m0 id;
  fr_words id : length (task_d (locals m id)) = length (task_d (locals m0 id));
}.

Lemma Keeps_refl w m : Keeps w m m.
Proof. by split. Qed.

Lemma Keeps_trans w m1 m2 m3 : Keeps w m1 m2 -> Keeps w m2 m3 -> Keeps w m1 m3.
Proof.
  intros [] []. split; try congruence.
  - intros v Hv. rewrite fr_slots1, fr_slots0; done.
  - intros v Hv. rewrite fr_priv1, fr_priv0; done.
  - intros v Hv. rewrite fr_ts1, fr_ts0; done.
  - intros v Hv. rewrite fr_allstolen1, fr_allstolen0; done.
  - lia.
  - intros id Hid. rewrite fr_locals1, fr_locals0; [done..|lia].
Qed.

(** Nothing to do outside the worker's own deque: no thief can take anything from another
    worker, there is no external task and no new frame. *)
Record Calm (w : nat) (m : mem) : Prop := {
  c_worker : (w < n_workers)%nat;
  c_exited : exited m = false;
  c_newframe : lace_newframe_t m = None;
  c_external : external_task m = None;
  c_others v : v <> w -> (v < n_workers)%nat -> ts_split (w_ts (pub m v)) <= ts_tail (w_ts (pub m v));
  c_locals id : length (task_d (locals m id)) = d_words;
}.

Lemma Calm_keeps w m m' : Calm w m -> Keeps w m m' -> Calm w m'.
Proof.
  intros [] []. split; try congruence.
  intros v Hv Hn. rewrite fr_ts0 by done. by apply c_others0.
Qed.

(** The deque of [w] contains the tasks [live], the last one on top, and nothing was ever
    stolen from it. *)
Record Deque (w : nat) (live : list payload) (m : mem) : Prop := {
  d_tail : ts_tail (w_ts (pub m w)) = 0;
  d_split : ts_split (w_ts (pub m w)) = p_split (priv m w);
  d_bound : 0 <= p_split (priv m w) <= zlen live;
  d_allstolen : w_allstolen (pub m w) = 0;
  d_pallstolen : p_allstolen (priv m w) = 0;
  d_len : zlen live <= dqsize;
  d_slot i pay : live !! i = Some pay -> task_full pay (slots m w (Z.of_nat i));
  d_data i : length (task_d (slots m w i)) = d_words;
  d_high i : zlen live <= i < dqsize -> user_drops = false -> task_thief (slots m w i) = THIEF_EMPTY;
}.

(** The state a step may lead to. *)
Definition Next (w : nat) (live : list payload) (m0 m : mem) : Prop := Deque w live m /\ Keeps w m0 m.

(** ** Building and reading tasks *)

Lemma get_set_same tr T m : get_task tr (set_task tr T m) = T.
Proof. destruct tr; simpl; by rewrite !fn_lookup_insert. Qed.

Lemma set_task_twice tr T T' m : set_task tr T (set_task tr T' m) = set_task tr T m.
Proof.
  destruct tr; unfold set_task, set_slots, set_locals; simpl; f_equal; rewrite ?fn_lookup_insert; by rewrite !fn_insert_twice.
Qed.

Lemma exited_set_task tr T m : exited (set_task tr T m) = exited m.
Proof. by destruct tr. Qed.

Lemma solo_store_args t tr u args done T m Q :
  exited m = false -> filled u done T -> length (task_d T) = d_words -> (length done + length args <= d_words)%nat ->
  (forall T, filled u (done ++ args) T -> length (task_d T) = d_words -> Q tt (set_task tr T m)) ->
  solo t (store_args tr (length done) args) (set_task tr T m) Q.
Proof.
  intros Hx. revert done T. induction args as [|x args IH]; intros done T HT Hd Hlen HQ; cbn [store_args].
  - apply solo_ret, HQ; [by rewrite app_nil_r|done].
  - code. eapply solo_step; [by rewrite exited_set_task|reflexivity|]. unfold upd_task.
    rewrite get_set_same, set_task_twice. destruct HT as (Hf & Hth & Ha). simpl in Hlen.
    replace (S (length done)) with (length (done ++ [x])) by (rewrite length_app; simpl; lia).
    apply IH.
    + split_and!; [done..|]. unfold args_in in *. rewrite length_app. cbn [length].
      rewrite Nat.add_1_r, take_set_d; [by rewrite Ha|]. lia.
    + by rewrite length_set_d.
    + rewrite length_app. simpl. lia.
    + intros T' HT'. rewrite <-app_assoc in HT'. by apply HQ.
Qed.

Lemma solo_init_task t tr u args m Q :
  exited m = false -> length (task_d (get_task tr m)) = d_words -> length args = user_arity u ->
  (forall T, task_full (u, args) T -> length (task_d T) = d_words -> Q tt (set_task tr T m)) ->
  solo t (init_task (F_user u) tr args) m Q.
Proof.
  intros Hx Hd Hlen HQ. unfold init_task. code. eapply solo_step; [done|reflexivity|].
  code. eapply solo_step; [unfold upd_task; by rewrite exited_set_task|reflexivity|]. unfold upd_task.
  rewrite get_set_same, set_task_twice. pose proof (args_fit u).
  apply (solo_store_args t tr u args []); [done|by split_and!|done|simpl; lia|].
  intros T HT. apply HQ. by apply filled_full.
Qed.

Lemma solo_load_args t tr args i m Q :
  exited m = false -> args_in (get_task tr m) args -> (i <= length args)%nat -> Q (drop i args) m ->
  solo t (load_args tr i (length args - i)) m Q.
Proof.
  intros Hx Ha. remember (length args - i)%nat as n eqn:Hn. revert i Q Hn.
  induction n as [|n IH]; intros i Q Hn Hi HQ; cbn [load_args].
  - apply solo_ret. by rewrite drop_ge in HQ by lia.
  - code. eapply solo_step; [done|reflexivity|]. destruct (lookup_lt_is_Some_2 args i) as [x Hl]; [lia|].
    rewrite (get_d_args i _ args x Ha Hl). apply solo_bind, (IH (S i)); [lia|lia|].
    apply solo_ret. by rewrite <-(drop_S args x i).
Qed.

Lemma solo_load_all t tr u args m Q :
  exited m = false -> args_in (get_task tr m) args -> length args = user_arity u -> Q args m ->
  solo t (load_args tr 0 (user_arity u)) m Q.
Proof.
  intros Hx Ha <- HQ. rewrite <-(Nat.sub_0_r (length args)). apply solo_load_args; [done..|lia|]. by rewrite drop_0.
Qed.

(** ** How the accesses change the state *)

Lemma Keeps_own w (f : Worker -> Worker) m : Keeps w m (upd_pub w f m).
Proof. split; simpl; try done; intros v Hv; by rewrite fn_lookup_insert_ne. Qed.

Lemma Keeps_private w (f : WorkerP -> WorkerP) m : Keeps w m (upd_priv w f m).
Proof. split; simpl; try done; intros v Hv; by rewrite fn_lookup_insert_ne. Qed.

Lemma Keeps_movesplit w v x m : Keeps w m (upd_pub v (set_movesplit x) m).
Proof. split; simpl; try done; intros v' Hv; by case_insert. Qed.

Lemma Keeps_slot w i T m : Keeps w m (set_task (TSlot w i) T m).
Proof. split; simpl; try done; intros v Hv; by rewrite fn_lookup_insert_ne. Qed.

Lemma Deque_same w live m m' :
  Deque w live m -> w_ts (pub m' w) = w_ts (pub m w) -> w_allstolen (pub m' w) = w_allstolen (pub m w) ->
  p_split (priv m' w) = p_split (priv m w) -> p_allstolen (priv m' w) = p_allstolen (priv m w) ->
  slots m' w = slots m w -> Deque w live m'.
Proof. intros [] Hts Has Hps Hpas Hs. split; rewrite ?Hts, ?Has, ?Hps, ?Hpas, ?Hs; done. Qed.

Lemma Deque_movesplit w live v x m : Deque w live m -> Deque w live (upd_pub v (set_movesplit x) m).
Proof. intros Hd. apply (Deque_same w live m); [done|..]; simpl; by try case_insert. Qed.

Lemma Deque_split w live sp m :
  Deque w live m -> 0 <= sp <= zlen live ->
  Deque w live (upd_priv w (set_p_split sp) (upd_pub w (set_split sp) m)).
Proof. intros [] Hsp. split; simpl; rewrite ?fn_lookup_insert; simpl; done. Qed.

(** The order of the two stores does not matter. *)
Lemma Deque_split' w live sp m :
  Deque w live m -> 0 <= sp <= zlen live ->
  Deque w live (upd_pub w (set_split sp) (upd_priv w (set_p_split sp) m)).
Proof. exact (Deque_split w live sp m). Qed.

Lemma Deque_push w live pay T m :
  Deque w live m -> zlen live < dqsize -> task_full pay T -> length (task_d T) = d_words ->
  Deque w (live ++ [pay]) (set_task (TSlot w (zlen live)) T m).
Proof.
  intros [] Hlt HT Hd. pose proof (zlen_nonneg live). split; simpl; rewrite ?zlen_app; try done.
  - change (zlen [pay]) with 1. lia.
  - change (zlen [pay]) with 1. lia.
  - intros i pay' Hi. rewrite fn_lookup_insert. destruct (decide (i = length live)) as [->|Hne].
    + rewrite list_lookup_middle in Hi by done. simplify_eq. by rewrite fn_lookup_insert.
    + rewrite fn_lookup_insert_ne by (unfold zlen; lia). apply d_slot0.
      rewrite lookup_app_l in Hi; [done|]. apply lookup_lt_Some in Hi. rewrite length_app in Hi. simpl in Hi. lia.
  - intros i. rewrite fn_lookup_insert. by case_insert.
  - change (zlen [pay]) with 1. intros i Hi Hdr. rewrite fn_lookup_insert.
    rewrite fn_lookup_insert_ne by lia. apply d_high0; [lia|done].
Qed.

(** The top of the deque. *)
Lemma Deque_top w live pay m : Deque w (live ++ [pay]) m -> task_full pay (slots m w (zlen live)).
Proof. intros Hd. apply (d_slot _ _ _ Hd). by apply list_lookup_middle. Qed.

Lemma Deque_pop w live pay m :
  Deque w (live ++ [pay]) m -> p_split (priv m w) <= zlen live ->
  Deque w live (upd_task (TSlot w (zlen live)) (set_task_thief THIEF_EMPTY) m).
Proof.
  intros [] Hsp. rewrite zlen_app in *. change (zlen [pay]) with 1 in *.
  split; simpl; try done; try lia.
  - intros i pay' Hi. rewrite fn_lookup_insert. pose proof (lookup_lt_Some _ _ _ Hi).
    rewrite fn_lookup_insert_ne by (unfold zlen; lia). apply d_slot0. by apply lookup_app_l_Some.
  - intros i. rewrite fn_lookup_insert. case_insert; apply d_data0.
  - intros i Hi Hdr. rewrite fn_lookup_insert. case_insert; [done|]. apply d_high0; [lia|done].
Qed.

Lemma Deque_drop w live pay m :
  user_drops = true -> Deque w (live ++ [pay]) m -> p_split (priv m w) <= zlen live -> Deque w live m.
Proof.
  intros Hdr [] Hsp. rewrite zlen_app in *. change (zlen [pay]) with 1 in *. split; try done; try lia.
  - intros i pay' Hi. apply d_slot0. by apply lookup_app_l_Some.
  - congruence.
Qed.

(** ** SPAWN *)

Lemma dq_fits w live m : Deque w live m -> 0 <= p_split (priv m w) <= zlen live /\ zlen live < 2 ^ 31.
Proof. intros []. pose proof dq_small. lia. Qed.

Lemma solo_spawn_publish w live pay m :
  exited m = false -> Deque w (live ++ [pay]) m ->
  solo w (spawn_publish w (zlen live)) m (fun _ m' => Next w (live ++ [pay]) m m').
Proof.
  intros Hx Hd. pose proof (dq_fits _ _ _ Hd) as Hfit. pose proof (zlen_nonneg live) as Hz.
  rewrite zlen_app in Hfit. change (zlen [pay]) with 1 in Hfit.
  unfold spawn_publish. step. rewrite (d_pallstolen _ _ _ Hd). cbn [negb Z.eqb]. step.
  destruct (w_movesplit (pub m w) =? 0); cbn [negb when]; [apply solo_ret; split; [done|apply Keeps_refl]|].
  rewrite (wrap_id 32 (zlen live)), (wrap_id 32 (p_split _)), wrap_id by lia.
  set (sp := (p_split (priv m w) + zlen live + 2) / 2).
  assert (Hsp : 0 <= sp <= zlen live + 1).
  { unfold sp. split; [apply Z.div_pos; lia|]. apply Z.lt_succ_r, Z.div_lt_upper_bound; lia. }
  step. step. step. apply solo_ret. split.
  - apply Deque_movesplit, Deque_split; [done|]. rewrite zlen_app. change (zlen [pay]) with 1. lia.
  - eapply Keeps_trans; [apply Keeps_own|]. eapply Keeps_trans; [apply Keeps_private|apply Keeps_movesplit].
Qed.

Lemma solo_SPAWN w live u args m :
  exited m = false -> Deque w live m -> zlen live < dqsize -> length args = user_arity u ->
  solo w (gen_SPAWN (F_user u) w (zlen live) args) m (fun _ m' => Next w (live ++ [(u, args)]) m m').
Proof.
  intros Hx Hd Hlt Hlen. unfold gen_SPAWN. rewrite (proj2 (Z.eqb_neq _ _)) by lia. code.
  apply solo_bind, solo_init_task; [done|apply (d_data _ _ _ Hd)|done|]. intros T HT HTd.
  pose proof (Deque_push w live (u, args) T m Hd Hlt HT HTd) as Hp.
  eapply solo_mono; [by apply solo_spawn_publish|]. intros _ m' [Hd' Hf]. split; [done|].
  eapply Keeps_trans; [apply Keeps_slot|exact Hf].
Qed.

(** ** SYNC and DROP *)

Lemma solo_shrink w live pay m :
  exited m = false -> Deque w (live ++ [pay]) m -> 0 < p_split (priv m w) ->
  solo w (lace_shrink_shared w) m (fun r m' =>
    r = 0 /\ Next w (live ++ [pay]) m m' /\ p_split (priv m' w) = p_split (priv m w) / 2).
Proof.
  intros Hx Hd Hpos. pose proof (dq_fits _ _ _ Hd) as Hfit. unfold lace_shrink_shared. step.
  set (sp := p_split (priv m w)) in *. rewrite (d_tail _ _ _ Hd), (d_split _ _ _ Hd). fold sp.
  rewrite (proj2 (Z.eqb_neq 0 sp)), Z.add_0_l by lia. rewrite (wrap_id 32) by lia.
  assert (Hh : 0 <= sp / 2 < sp) by (split; [apply Z.div_pos|apply Z.div_lt]; lia).
  step. step. simpl. rewrite fn_lookup_insert. simpl. rewrite (d_tail _ _ _ Hd).
  rewrite (proj2 (Z.eqb_neq 0 sp)), (proj2 (Z.ltb_ge (sp / 2) 0)) by lia. step. apply solo_ret. split_and!; [done| |].
  - split; [apply Deque_split; [done|lia]|]. eapply Keeps_trans; [apply Keeps_own|apply Keeps_private].
  - simpl. by rewrite fn_lookup_insert.
Qed.

(** Not everything is stolen, so the task on top is taken back. *)
Lemma solo_must_leap w live pay m :
  exited m = false -> Deque w (live ++ [pay]) m ->
  solo w (must_leap w (zlen live)) m (fun b m' =>
    b = false /\ Next w (live ++ [pay]) m m' /\ p_split (priv m' w) <= zlen live).
Proof.
  intros Hx Hd. pose proof (dq_fits _ _ _ Hd) as Hfit. pose proof (zlen_nonneg live).
  rewrite zlen_app in Hfit. change (zlen [pay]) with 1 in Hfit. unfold must_leap. step.
  rewrite (d_pallstolen _ _ _ Hd). cbn [negb Z.eqb]. rewrite Z.gtb_ltb.
  destruct (Z.ltb_spec (zlen live) (p_split (priv m w))).
  - eapply solo_seq; [by apply (solo_shrink w live pay); [..|lia]|]. intros r m' (-> & Hn & Hsp).
    apply solo_ret. split_and!; [done|done|]. rewrite Hsp. apply Z.lt_succ_r, Z.div_lt_upper_bound; lia.
  - apply solo_ret. split_and!; [done| |lia]. split; [done|apply Keeps_refl].
Qed.

Lemma solo_sync_movesplit w live pay m :
  exited m = false -> Deque w (live ++ [pay]) m -> p_split (priv m w) <= zlen live ->
  solo w (sync_movesplit w (zlen live)) m (fun _ m' =>
    Next w (live ++ [pay]) m m' /\ p_split (priv m' w) <= zlen live).
Proof.
  intros Hx Hd Hle. pose proof (dq_fits _ _ _ Hd) as Hfit. pose proof (zlen_nonneg live).
  rewrite zlen_app in Hfit. change (zlen [pay]) with 1 in Hfit. unfold sync_movesplit. step.
  destruct (w_movesplit (pub m w) =? 0); cbn [negb when].
  { apply solo_ret. split; [split; [done|apply Keeps_refl]|done]. }
  step. set (sp := p_split (priv m w)) in *. rewrite (wrap_id 64 (zlen live - sp)), wrap_id by lia.
  set (diff := (zlen live - sp + 1) / 2).
  assert (Hdiff : 0 <= diff <= zlen live - sp).
  { unfold diff. split; [apply Z.div_pos; lia|]. destruct (decide (sp = zlen live)) as [->|].
    - by rewrite Z.sub_diag.
    - apply Z.lt_succ_r, Z.div_lt_upper_bound; lia. }
  step. step. simpl. rewrite (d_split _ _ _ Hd). fold sp. rewrite (wrap_id 32) by lia. step.
  apply solo_ret. split.
  - split.
    + apply Deque_movesplit, Deque_split'; [done|]. rewrite zlen_app. change (zlen [pay]) with 1. lia.
    + eapply Keeps_trans; [apply Keeps_private|]. eapply Keeps_trans; [apply Keeps_own|apply Keeps_movesplit].
  - simpl. rewrite fn_lookup_insert. simpl. lia.
Qed.

Lemma solo_call_popped w live u args m Q :
  exited m = false -> Deque w (live ++ [(u, args)]) m -> p_split (priv m w) <= zlen live ->
  (forall m', Next w live m m' -> solo w (fn_body (Fn_CALL (F_user u) w (zlen live) args)) m' Q) ->
  solo w (call_popped (F_user u) (user_arity u) w (zlen live)) m Q.
Proof.
  intros Hx Hd Hle HQ. destruct (Deque_top _ _ _ _ Hd) as (_ & _ & Ha & Hlen). unfold call_popped. step.
  apply solo_bind, (solo_load_all w _ u args).
  - by unfold upd_task; rewrite exited_set_task.
  - unfold upd_task. by rewrite get_set_same.
  - done.
  - apply solo_call. eapply solo_mono; [|intros v m' H; by apply solo_ret]. apply HQ. split; [|apply Keeps_slot].
    by eapply Deque_pop.
Qed.

(** [SYNC] continues with a direct call of the task, in the deque without it. *)
Lemma solo_SYNC w live u args m Q :
  exited m = false -> Deque w (live ++ [(u, args)]) m ->
  (forall m', Next w live m m' -> solo w (fn_body (Fn_CALL (F_user u) w (zlen live) args)) m' Q) ->
  solo w (gen_SYNC (F_user u) (user_void u) (user_arity u) w (zlen live)) m Q.
Proof.
  intros Hx Hd HQ.
  assert (Hslow : solo w (gen_SYNC_SLOW (F_user u) (user_void u) (user_arity u) w (zlen live)) m Q).
  { unfold gen_SYNC_SLOW. eapply solo_seq; [by apply (solo_must_leap w live (u, args))|].
    intros b m1 (-> & [Hd1 Hf1] & Hle1).
    assert (Hx1 : exited m1 = false) by (by rewrite (fr_exited _ _ _ Hf1)).
    eapply solo_seq; [by apply (solo_sync_movesplit w live (u, args))|]. intros _ m2 [[Hd2 Hf2] Hle2].
    apply (solo_call_popped w live u args); [by rewrite (fr_exited _ _ _ Hf2)|done..|].
    intros m' [Hd' Hf']. apply HQ. split; [done|]. eapply Keeps_trans; [exact Hf1|]. by eapply Keeps_trans. }
  unfold gen_SYNC. step. destruct (w_movesplit (pub m w) =? 0); [|done]. step.
  destruct (Z.leb_spec (p_split (priv m w)) (zlen live)); [|done]. by apply (solo_call_popped w live u args).
Qed.

Lemma solo_drop w live pay m :
  exited m = false -> user_drops = true -> Deque w (live ++ [pay]) m ->
  solo w (lace_drop w (zlen live)) m (fun _ m' => Next w live m m').
Proof.
  intros Hx Hdr Hd.
  assert (Hslow : solo w (lace_drop_slow w (zlen live)) m (fun _ m' => Next w live m m')).
  { unfold lace_drop_slow. eapply solo_seq; [by apply (solo_must_leap w live pay)|].
    intros b m1 (-> & [Hd1 Hf1] & Hle1). apply solo_ret. split; [|done]. by eapply Deque_drop. }
  unfold lace_drop. step. destruct (w_movesplit (pub m w) =? 0); [|done]. step.
  destruct (Z.leb_spec (p_split (priv m w)) (zlen live)); [|done]. apply solo_ret.
  split; [by eapply Deque_drop|apply Keeps_refl].
Qed.

(** ** The other operations of a task *)

Lemma solo_yield w dq_head m Q :
  exited m = false -> lace_newframe_t m = None -> Q tt m -> solo w (YIELD_NEWFRAME w dq_head) m Q.
Proof. intros Hx Hn HQ. unfold YIELD_NEWFRAME. step. rewrite Hn. by apply solo_ret. Qed.

Lemma solo_make_all_shared w live m :
  exited m = false -> Deque w live m ->
  solo w (lace_make_all_shared w (zlen live)) m (fun _ m' => Next w live m m').
Proof.
  intros Hx Hd. pose proof (dq_fits _ _ _ Hd). pose proof (zlen_nonneg live). unfold lace_make_all_shared. step.
  destruct (p_split (priv m w) =? zlen live); cbn [negb when].
  - apply solo_ret. split; [done|apply Keeps_refl].
  - step. step. apply solo_ret. rewrite (wrap_id 32) by lia. split; [by apply Deque_split'; [|lia]|].
    eapply Keeps_trans; [apply Keeps_private|apply Keeps_own].
Qed.

(** A worker that has nothing to steal may at most get a request for more work. *)
Lemma solo_steal_idle w dq_head victim m :
  exited m = false ->
  (forall v, victim = Some v -> ts_split (w_ts (pub m v)) <= ts_tail (w_ts (pub m v))) ->
  solo w (lace_steal w dq_head victim) m
    (fun _ m' => m' = m \/ exists v, m' = upd_pub v (set_movesplit 1) m).
Proof.
  intros Hx Hv. unfold lace_steal. destruct victim as [v|]; [|apply solo_ret; by left]. specialize (Hv v eq_refl).
  step. destruct (w_allstolen (pub m v) =? 0); cbn [negb]; [|apply solo_ret; by left]. step.
  rewrite (proj2 (Z.ltb_ge _ _)) by done. step. destruct (w_movesplit (pub m v) =? 0); code.
  - step. apply solo_ret. right. by exists v.
  - apply solo_ret. by left.
Qed.

Lemma solo_steal_calm w live dq_head victim m :
  Calm w m -> Deque w live m -> (forall v, victim = Some v -> v <> w /\ (v < n_workers)%nat) ->
  solo w (lace_steal w dq_head victim) m (fun _ m' => Next w live m m').
Proof.
  intros Hc Hd Hv. eapply solo_mono; [apply solo_steal_idle; [apply Hc|]|].
  - intros v Hvic. destruct (Hv v Hvic). by apply (c_others _ _ Hc).
  - intros _ m' [->|[v ->]]; (split; [|]); auto using Keeps_refl, Keeps_movesplit, Deque_movesplit.
Qed.

Lemma solo_steal_random w live m :
  Calm w m -> Deque w live m ->
  solo w (lace_steal_random w (zlen live)) m (fun _ m' => Next w live m m').
Proof.
  intros Hc Hd. pose proof (c_exited _ _ Hc) as Hx. pose proof (c_worker _ _ Hc) as Hw. pose proof n_small.
  unfold lace_steal_random. rewrite worker_field_id by lia. apply solo_bind, solo_yield; [done|apply Hc|]. step. rewrite (c_external _ _ Hc).
  destruct (Z.ltb_spec 1 (Z.of_nat n_workers)); code; [|apply solo_ret; split; [done|apply Keeps_refl]].
  step. pose proof (random_victim_ok (Z.of_nat w) (Z.of_nat n_workers) (p_seed (priv m w))) as Hv.
  destruct (random_victim _ _ _) as [v seed]. cbv zeta in Hv. cbn [fst] in Hv. step. step.
  set (m1 := upd_priv w (set_p_seed seed) m).
  assert (Hf1 : Keeps w m m1) by apply Keeps_private.
  eapply solo_seq; [apply (solo_steal_calm w live); [by eapply Calm_keeps| |]|].
  - apply (Deque_same w live m); [done|..]; simpl; try done; by rewrite fn_lookup_insert.
  - intros v' Hv'. case_match; simplify_eq. destruct Hv as [? ?]; lia.
  - intros _ m' [Hd' Hf']. apply solo_ret. split; [done|]. by eapply Keeps_trans.
Qed.

(** ** Finding the head *)

Lemma head_probe w live m i :
  user_drops = false -> Deque w live m -> 0 <= i < dqsize ->
  thief_is0 (task_thief (slots m w i)) = (zlen live <=? i).
Proof.
  intros Hdr Hd Hi. destruct (Z.leb_spec (zlen live) i) as [Hle|Hlt].
  - by rewrite (d_high _ _ _ Hd i) by (done || lia).
  - destruct (lookup_lt_is_Some_2 live (Z.to_nat i)) as [pay Hp]; [unfold zlen in Hlt; lia|].
    destruct (d_slot _ _ _ Hd _ _ Hp) as [Hth _]. rewrite Z2Nat.id in Hth by lia. by rewrite Hth.
Qed.

Lemma solo_probe w live m i {A} (k : thief_t -> lcode A) Q :
  exited m = false -> user_drops = false -> Deque w live m -> 0 <= i < dqsize ->
  (forall th, thief_is0 th = (zlen live <=? i) -> solo w (k th) m Q) ->
  solo w (Act (Load_thief (TSlot w i)) k) m Q.
Proof. intros Hx Hdr Hd Hi Hk. eapply solo_step; [done|reflexivity|]. apply Hk. by apply head_probe. Qed.

Lemma solo_double w live m Q :
  exited m = false -> user_drops = false -> Deque w live m -> 2 <= zlen live ->
  (forall low high, 0 <= low <= zlen live -> zlen live <= high <= dqsize -> Q (low, high) m) ->
  solo w (double_loop w) m Q.
Proof.
  intros Hx Hdr Hd Hz HQ. pose proof (d_len _ _ _ Hd). pose proof dq_small.
  apply (solo_loop w (fun b : Z * Z => Z.to_nat (dqsize - b.1))
           (fun b m' => m' = m /\ 2 <= b.1 <= zlen live /\ b.2 = dqsize)); [split_and!; simpl; (done || lia)|].
  intros [low high] ? (-> & Hl & Hh). simpl in *. subst high. rewrite (wrap_id 64) by lia. rewrite Z.geb_leb.
  destruct (Z.leb_spec dqsize (low * 2)); [apply solo_ret, HQ; lia|]. code.
  apply (solo_probe w live); [done..|lia|]. intros th ->. apply solo_ret.
  destruct (Z.leb_spec (zlen live) (low * 2)); [apply HQ; lia|].
  split_and!; simpl; (done || lia).
Qed.

Lemma solo_bisect w live m low high (Q : Z -> mem -> Prop) :
  exited m = false -> user_drops = false -> Deque w live m ->
  0 <= low <= zlen live -> zlen live <= high <= dqsize -> Q (zlen live) m ->
  solo w (bisect_loop w (low, high)) m Q.
Proof.
  intros Hx Hdr Hd Hl Hh HQ.
  apply (solo_loop w (fun b : Z * Z => Z.to_nat (b.2 - b.1))
           (fun b m' => m' = m /\ 0 <= b.1 <= zlen live /\ zlen live <= b.2 <= dqsize)); [split_and!; simpl; (done || lia)|].
  clear low high Hl Hh. intros [low high] ? (-> & Hl & Hh). simpl in *.
  destruct (Z.ltb_spec low high); [|apply solo_ret; by replace low with (zlen live) by lia].
  assert (Hmid : low <= low + (high - low) / 2 < high).
  { pose proof (Z.div_pos (high - low) 2). pose proof (Z.div_lt_upper_bound (high - low) 2 (high - low)). lia. }
  set (mid := low + (high - low) / 2) in *. clearbody mid. code. apply (solo_probe w live); [done..|lia|].
  intros th ->. apply solo_ret. destruct (Z.leb_spec (zlen live) mid); split_and!; simpl; (done || lia).
Qed.

Lemma solo_get_head w live m (Q : Z -> mem -> Prop) :
  exited m = false -> user_drops = false -> Deque w live m -> Q (zlen live) m -> solo w (lace_get_head w) m Q.
Proof.
  intros Hx Hdr Hd HQ. pose proof dq_min. pose proof (d_len _ _ _ Hd). pose proof (zlen_nonneg live).
  unfold lace_get_head. code.
  apply (solo_probe w live); [done..|lia|]. intros th0 ->.
  destruct (Z.leb_spec (zlen live) 0); [apply solo_ret; by replace 0 with (zlen live) by lia|]. code.
  apply (solo_probe w live); [done..|lia|]. intros th1 ->.
  destruct (Z.leb_spec (zlen live) 1); [apply solo_ret; by replace 1 with (zlen live) by lia|]. code.
  apply (solo_probe w live); [done..|lia|]. intros th2 ->.
  destruct (Z.leb_spec (zlen live) 2); [apply solo_ret; by replace 2 with (zlen live) by lia|]. code.
  apply (solo_probe w live); [done..|lia|]. intros th3 ->.
  destruct (Z.leb_spec (zlen live) 3); [apply solo_ret; by replace 3 with (zlen live) by lia|].
  change (solo w (b <- double_loop w ;; bisect_loop w b) m Q).
  apply solo_bind, (solo_double w live); [done..|lia|]. intros low high Hl Hh. by apply (solo_bisect w live).
Qed.

(** ** Calling tasks *)

(** [NAME##_WRAP] runs the task with the arguments it finds and stores the result. *)
Lemma solo_WRAP w u args h tr m Q :
  exited m = false -> args_in (get_task tr m) args -> length args = user_arity u ->
  solo w (fn_body (Fn_CALL (F_user u) w h args)) m (fun v m' =>
    exited m' = false /\ Q (VZ 0) (if user_void u then m' else upd_task tr (set_d 0 v) m')) ->
  solo w (fn_body (Fn_WRAP (F_user u) w h tr)) m Q.
Proof.
  intros Hx Ha Hlen Hc. rewrite WRAP_user. unfold gen_WRAP.
  apply solo_bind, (solo_load_all w tr u args); [done..|]. code. apply solo_call.
  eapply solo_mono; [exact Hc|]. intros v m' [Hx' HQ]. destruct (user_void u); code.
  - by apply solo_ret.
  - eapply solo_step; [done|reflexivity|]. by apply solo_ret.
Qed.

(** Calls of tasks whose evaluation takes at most [n] nested calls. *)
Definition calls_return (n : nat) : Prop :=
  forall w live u args v m,
    evalD n (zlen live) u args = Some v -> length args = user_arity u -> Calm w m -> Deque w live m ->
    solo w (fn_body (Fn_CALL (F_user u) w (zlen live) args)) m (fun r m' => r = v /\ Next w live m m').

Lemma get_set_d i v T : (i < length (task_d T))%nat -> get_d i (set_d i v T) = v.
Proof.
  intros Hi. unfold get_d, set_d. simpl. rewrite nth_lookup, list_lookup_insert_eq by done. done.
Qed.

(** A fresh task on the stack. *)
Lemma Keeps_local w T m :
  length (task_d T) = length (task_d (locals m (n_locals m))) ->
  Keeps w m (set_task (TLoc (n_locals m)) T (set_locals (locals m) (S (n_locals m)) m)).
Proof.
  intros HT. split; simpl; try done; try lia.
  - intros id Hid. by rewrite fn_lookup_insert_ne by lia.
  - intros id. by case_insert.
Qed.

Lemma Keeps_local_upd w id f m m' :
  Keeps w m m' -> (n_locals m <= id)%nat -> (forall T, length (task_d (f T)) = length (task_d T)) ->
  Keeps w m (upd_task (TLoc id) f m').
Proof.
  intros [] Hid Hf. split; simpl; try done.
  - intros id' Hlt. rewrite fn_lookup_insert_ne by lia. by apply fr_locals0.
  - intros id'. case_insert; [rewrite Hf|]; apply fr_words0.
Qed.

(** What [load_res] returns after [NAME##_WRAP]. *)
Lemma solo_load_res t u v tr m (Q : val -> mem -> Prop) :
  exited m = false -> (user_void u = true -> v = VZ 0) -> (user_void u = false -> get_d 0 (get_task tr m) = v) ->
  Q v m -> solo t (load_res (user_void u) tr) m Q.
Proof.
  intros Hx Hv Hd HQ. unfold load_res. destruct (user_void u).
  - apply solo_ret. by rewrite <-(Hv eq_refl).
  - code. eapply solo_step; [done|reflexivity|]. rewrite (Hd eq_refl). by apply solo_ret.
Qed.

Lemma evalD_void n h u args v : evalD n h u args = Some v -> user_void u = true -> v = VZ 0.
Proof. destruct n; simpl; [done|]. destruct (evalDP _ _ _ _); [|done]. simpl. intros [= <-] ->. done. Qed.

(** [RUN] and [RUNEX] by the worker itself: both find the head and call the task there. *)
Definition runs_at_head (w : nat) (run : tref -> lcode unit) : Prop :=
  forall live tr m Q, exited m = false -> Deque w live m ->
    solo w (call_f w (zlen live) tr) m (fun _ m' => Q tt m') -> solo w (run tr) m Q.

Lemma run_task_at_head w : user_drops = false -> (w < n_workers)%nat -> runs_at_head w lace_run_task.
Proof.
  intros Hdr Hw live tr m Q Hx Hd Hc. unfold lace_run_task. step. rewrite decide_True by done.
  apply solo_bind, (solo_get_head w live); [done..|].
  change (solo w (call_f w (zlen live) tr ;;; Ret tt) m Q).
  eapply solo_seq; [exact Hc|]. intros ? m' HQ. by apply solo_ret.
Qed.

Lemma run_task_exclusive_at_head w :
  user_drops = false -> (w < n_workers)%nat -> runs_at_head w lace_run_task_exclusive.
Proof.
  intros Hdr Hw live tr m Q Hx Hd Hc. unfold lace_run_task_exclusive. step. rewrite decide_True by done.
  apply solo_bind, (solo_get_head w live); [done..|].
  change (solo w (call_f w (zlen live) tr ;;; Ret tt) m Q).
  eapply solo_seq; [exact Hc|]. intros ? m' HQ. by apply solo_ret.
Qed.

Lemma solo_worker_RUN n w run live u args v m :
  calls_return n -> runs_at_head w run -> evalD n (zlen live) u args = Some v -> length args = user_arity u ->
  Calm w m -> Deque w live m ->
  solo w (with_stack_task (F_user u) args run (user_void u)) m (fun r m' => r = v /\ Next w live m m').
Proof.
  intros Hcalls Hrun Hev Hlen Hc Hd. pose proof (c_exited _ _ Hc) as Hx. unfold with_stack_task. step.
  set (id := n_locals m). set (m1 := set_locals (locals m) (S id) m).
  apply solo_bind, solo_init_task; [done|apply (c_locals _ _ Hc)|done|]. intros T HT HTd.
  set (m2 := set_task (TLoc id) T m1).
  assert (Hk2 : Keeps w m m2) by (apply Keeps_local; by rewrite (c_locals _ _ Hc)).
  pose proof (Calm_keeps _ _ _ Hc Hk2) as Hc2.
  assert (Hd2 : Deque w live m2) by (by apply (Deque_same w live m)).
  assert (Hx2 : exited m2 = false) by apply Hc2.
  assert (Hg2 : get_task (TLoc id) m2 = T) by apply get_set_same.
  destruct HT as (_ & Hf & Ha & _). simpl in Hf, Ha.
  apply solo_bind, (Hrun live); [done..|]. unfold call_f. code. eapply solo_step; [done|reflexivity|].
  rewrite Hg2, Hf. apply solo_call, (solo_WRAP w u args); [done|by rewrite Hg2|done|].
  eapply solo_mono; [by apply Hcalls|]. intros r m3 (-> & Hd3 & Hk3).
  assert (Hx3 : exited m3 = false) by (by rewrite (fr_exited _ _ _ Hk3)). split; [done|].
  assert (Hl3 : locals m3 id = T).
  { rewrite (fr_locals _ _ _ Hk3) by (simpl; lia). exact Hg2. }
  apply solo_ret. apply (solo_load_res w u v); [by destruct (user_void u)|by apply (evalD_void n (zlen live) u args)| |].
  - intros ->. unfold upd_task. rewrite get_set_same. simpl. rewrite Hl3. apply get_set_d.
    pose proof res_fit. simpl. lia.
  - split; [done|]. destruct (user_void u); [split; [done|by eapply Keeps_trans]|]. split.
    + by apply (Deque_same w live m3).
    + apply Keeps_local_upd; [by eapply Keeps_trans|done|]. intros T'. apply length_set_d.
Qed.

(** The tasks a program still has to sync, in the order of the deque. *)
Definition pending (l : list nat) (pend : list (list val)) : list payload := reverse (zip l pend).

Lemma pending_cons u l args pend : pending (u :: l) (args :: pend) = pending l pend ++ [(u, args)].
Proof. unfold pending. simpl. by rewrite reverse_cons. Qed.

Lemma Next_trans w live live' m1 m2 m3 : Next w live m1 m2 -> Next w live' m2 m3 -> Next w live' m1 m3.
Proof. intros [_ H1] [Hd H2]. split; [done|]. by eapply Keeps_trans. Qed.

Lemma zlen_pred (live : list payload) pay : zlen (live ++ [pay]) - 1 = zlen live.
Proof. rewrite zlen_app. change (zlen [pay]) with 1. lia. Qed.

Lemma zlen_succ (live : list payload) pay : zlen live + 1 = zlen (live ++ [pay]).
Proof. rewrite zlen_app. by change (zlen [pay]) with 1. Qed.

Lemma solo_op w live o m :
  o <> OpBarrier -> Calm w m -> Deque w live m ->
  solo w (run_op w (zlen live) o) m (fun _ m' => Next w live m m').
Proof.
  intros Ho Hc Hd. pose proof (c_exited _ _ Hc). destruct o; cbn [run_op]; [| | |done].
  - by apply solo_steal_random.
  - by apply solo_make_all_shared.
  - apply solo_yield; [done|apply Hc|]. split; [done|apply Keeps_refl].
Qed.

(** Go on with the rest of the task from the state [Hn]. *)
Ltac go_on IH Hn :=
  cbv beta in Hn; eapply solo_mono; [apply IH; [done|simpl in *; lia|done|by eapply Calm_keeps, Hn|apply Hn]|];
  intros ?r ?m [-> ?Hn]; split; [done|by eapply Next_trans].

(** The rest of a task whose evaluation fits in the deque runs to its end. *)
Lemma solo_interp n w (base : list payload) {l} (p : uprog l) pend v m :
  calls_return n -> prog_ok p -> length pend = length l ->
  evalDP (evalD n) (zlen (base ++ pending l pend)) p pend = Some v ->
  Calm w m -> Deque w (base ++ pending l pend) m ->
  solo w (interp w (zlen (base ++ pending l pend)) p) m (fun r m' => r = v /\ Next w base m m').
Proof.
  intros Hcalls. revert pend m.
  induction p as [v0|l u args k IH|u l k IH|u l k IH|l u args k IH|l u args k IH|l u args k IH|l o k IH|l u args k IH|l u args k IH];
    intros pend m Hok Hlen Hev Hc Hd; simpl in Hok; cbn [interp evalDP] in *.
  - destruct pend; [|done]. injection Hev as <-. apply solo_ret. split; [done|].
    change (pending [] []) with (@nil payload) in Hd. rewrite app_nil_r in Hd. split; [done|apply Keeps_refl].
  - destruct Hok as [Hargs Hok]. destruct (Z.ltb_spec (zlen (base ++ pending l pend)) dqsize); [|done].
    rewrite SPAWN_user by done. eapply solo_seq; [by apply solo_SPAWN; [apply Hc|..]|]. intros ? m1 Hn1.
    rewrite (zlen_succ _ (u, args)), <-app_assoc, <-pending_cons in *.
    go_on IH Hn1.
  - destruct pend as [|args pend]; [done|]. rewrite pending_cons, app_assoc in *. rewrite zlen_pred in *.
    destruct (evalD n _ u args) as [r|] eqn:Er; [|done]. simpl in Hev.
    pose proof (Deque_top _ _ _ _ Hd) as (_ & _ & _ & Hargs).
    rewrite SYNC_user. apply solo_bind, (solo_SYNC w _ u args); [apply Hc|done|]. intros m1 Hn1.
    pose proof (Calm_keeps _ _ _ Hc (proj2 Hn1)) as Hc1.
    eapply solo_mono; [by apply Hcalls; [..|apply Hn1]|]. intros r' m2 [-> Hn2].
    pose proof (Next_trans _ _ _ _ _ _ Hn1 Hn2) as Hn3. go_on IH Hn3.
  - destruct pend as [|args pend]; [done|]. rewrite pending_cons, app_assoc in *. rewrite zlen_pred in *.
    destruct Hok as [Hdr Hok]. eapply solo_seq; [by apply (solo_drop w _ (u, args)); [apply Hc|..]|]. intros ? m1 Hn1.
    go_on IH Hn1.
  - destruct Hok as [Hargs Hok]. destruct (evalD n _ u args) as [r|] eqn:Er; [|done]. simpl in Hev. code.
    apply solo_call. eapply solo_mono; [by apply Hcalls|]. intros r' m1 [-> Hn1].
    go_on IH Hn1.
  - destruct Hok as (Hdr & Hargs & Hok). destruct (evalD n _ u args) as [r|] eqn:Er; [|done]. simpl in Hev.
    rewrite RUN_user by done. eapply solo_seq; [by apply (solo_worker_RUN n); [|apply run_task_at_head; [|apply Hc]|..]|]. intros r' m1 [-> Hn1].
    go_on IH Hn1.
  - destruct Hok as (Hdr & Hargs & Hok). destruct (evalD n _ u args) as [r|] eqn:Er; [|done]. simpl in Hev.
    rewrite RUNEX_user by done. eapply solo_seq; [by apply (solo_worker_RUN n); [|apply run_task_exclusive_at_head; [|apply Hc]|..]|]. intros r' m1 [-> Hn1].
    go_on IH Hn1.
  - assert (Ho : o <> OpBarrier) by (by destruct o).
    assert (Hev' : evalDP (evalD n) (zlen (base ++ pending l pend)) k pend = Some v) by (by destruct o).
    eapply solo_seq; [by apply solo_op|]. intros ? m1 Hn1.
    go_on IH Hn1.
  - done.
  - done.
Qed.

(** Every call whose evaluation fits in the deque returns its value. *)
Lemma calls_return_all (Hcl : client_ok) n : calls_return n.
Proof.
  induction n as [|n IH]; intros w live u args v m Hev Hlen Hc Hd; simpl in Hev; [done|].
  destruct (evalDP (evalD n) _ _ _) as [r|] eqn:Er; [|done]. simpl in Hev. simplify_eq.
  rewrite CALL_user by done. pose proof (solo_interp n w live (user_body u args) [] r m IH) as H.
  change (pending [] []) with (@nil payload) in H. rewrite app_nil_r in H.
  eapply solo_seq; [by apply H; [apply Hcl|..]|]. intros r' m' [-> Hn]. by apply solo_ret.
Qed.
End SoloTasks.

