(* ===== verification/Drive.v ===== *)
(** * Executions with several threads

    Constructing executions: one client thread makes progress through its code while the
    workers move between the points where they wait.  [reaches] runs one thread up to
    some point of its code; [drive] runs the code of a client to its end, with the workers
    at known positions. *)

From S2P Require Import Rng.
From S2P Require Export SoloTasks.

(** ** One thread, up to a point *)

Section Reaches.
Context {cfg : Cfg} {client : Client}.

Definition reaches (t : nat) (c : lcode val) (m : mem) (Q : lcode val -> mem -> Prop) : Prop :=
  exists c' m', Q c' m' /\ forall st, rtc (tstep t) (Thread c st, m) (Thread c' st, m').

Lemma reaches_now t c m (Q : lcode val -> mem -> Prop) : Q c m -> reaches t c m Q.
Proof. intros HQ. exists c, m. split; [done|]. intros st. apply rtc_refl. Qed.

Lemma reaches_act t {R} (e : ev R) k m r m' Q :
  exited m = false -> (r, m') ∈ exec1 t e m -> reaches t (k r) m' Q -> reaches t (Act e k) m Q.
Proof.
  intros Hx Hin (c' & m2 & HQ & Hs). exists c', m2. split; [done|]. intros st. eapply rtc_l; [|apply Hs].
  unfold tstep, thread_step. simpl. apply list_elem_of_fmap. exists (r, m'). split; [done|].
  unfold exec. by rewrite Hx.
Qed.

Lemma reaches_step t {R} (e : ev R) k m r m' Q :
  exited m = false -> exec1 t e m = [(r, m')] -> reaches t (k r) m' Q -> reaches t (Act e k) m Q.
Proof. intros Hx He. apply reaches_act; [done|]. rewrite He. by left. Qed.

Lemma reaches_bind t {A} (c : lcode A) K m Q :
  solo t c m (fun a m' => reaches t (K a) m' Q) -> reaches t (bind c K) m Q.
Proof.
  intros (a & m1 & Hr & c' & m2 & HQ & Hs). exists c', m2. split; [done|]. intros st.
  etransitivity; [by apply runs_tsteps|apply Hs].
Qed.

Lemma reaches_unroll t {S B} (b : S -> lcode (S + B)) s k m Q :
  reaches t (bind (b s) (fun r => match r with inl s' => Iter b s' k | inr y => k y end)) m Q ->
  reaches t (Iter b s k) m Q.
Proof.
  intros (c' & m2 & HQ & Hs). exists c', m2. split; [done|]. intros st.
  eapply rtc_l; [unfold tstep, thread_step; by left|apply Hs].
Qed.

End Reaches.

(** ** The positions of the workers *)

(** Not started; at the head of the steal loop; waiting for the suspend semaphore; waiting
    in the barrier for [lace_bar.wait] to change from [w0]; finished. *)
Inductive wpos :=
| PNew
| PLoop (sel : selection)
| PSleep (sel : selection)
| PBar (sel : selection) (w0 : Z)
| PDone.

Section Drive.
Context {cfg : Cfg} {client : Client}.

Definition worker_exit : lcode val := act (Fetch_add_int workers_running (-1)) ;;; Ret (VZ 0).

Definition at_loop (i : nat) (sel : selection) : lcode val :=
  Iter (steal_loop_turn i 0 lace_quits) sel (fun _ => worker_exit).

Definition turn_done (i : nat) (r : selection + unit) : lcode val :=
  match r with inl sel => at_loop i sel | inr _ => worker_exit end.

Definition wcode (i : nat) (p : wpos) : lcode val :=
  match p with
  | PNew => lace_worker_thread i ;;; Ret (VZ 0)
  | PLoop sel => at_loop i sel
  | PSleep sel =>
      (act (Sem_wait suspend_semaphore) ;;; lace_barrier ;;; act (Fetch_add_int workers_running 1) ;;; Ret tt) ;;;
      at_loop i sel
  | PBar sel w0 =>
      spin (Load_int lace_bar_wait) (fun w => negb (w0 =? w)) ;;;
      act (Fetch_add_int lace_bar_leaving (-1)) ;;;
      act (Fetch_add_int workers_running 1) ;;;
      at_loop i sel
  | PDone => Ret (VZ 0)
  end.

(** The workers are at the positions [pos]. *)
Definition Workers (pos : nat -> wpos) (c : @config ev fn val mem) : Prop :=
  forall i, (i < n_workers)%nat -> threads c !! i = Some (Thread (wcode i (pos i)) []).

(** The other clients did not move. *)
Definition others_wait (t : nat) (c c' : @config ev fn val mem) : Prop :=
  forall j, (n_workers <= j)%nat -> j <> t -> threads c' !! j = threads c !! j.

(** A worker moves from one position to another. *)
Inductive wmove : (nat -> wpos) * mem -> (nat -> wpos) * mem -> Prop :=
| wmove_one pos i p m m' :
    (i < n_workers)%nat -> reaches i (wcode i (pos i)) m (fun c' m2 => c' = wcode i p /\ m2 = m') ->
    wmove (pos, m) (<[i := p]> pos, m').

Lemma wmove_reachable x y c :
  wmove x y -> Workers x.1 c -> memory c = x.2 ->
  exists c', lace_reachable c c' /\ Workers y.1 c' /\ memory c' = y.2 /\
    forall j, (n_workers <= j)%nat -> threads c' !! j = threads c !! j.
Proof.
  intros Hm Hw Hmem. destruct Hm as [pos i p m m' Hi (c' & m2 & [-> ->] & Hs)]. simpl in *.
  exists (Config (<[i := Thread (wcode i p) []]> (threads c)) m'). split_and!.
  - destruct c as [ths m0]. simpl in *. subst m0. eapply tsteps_reachable; [apply Hs|by apply Hw].
  - intros j Hj. simpl. destruct (decide (i = j)) as [<-|Hne].
    + rewrite fn_lookup_insert. apply list_lookup_insert_eq. eapply lookup_lt_Some, Hw, Hi.
    + rewrite fn_lookup_insert_ne, list_lookup_insert_ne by done. by apply Hw.
  - done.
  - intros j Hj. simpl. apply list_lookup_insert_ne. lia.
Qed.

Lemma wmoves_reachable x y c :
  rtc wmove x y -> Workers x.1 c -> memory c = x.2 ->
  exists c', lace_reachable c c' /\ Workers y.1 c' /\ memory c' = y.2 /\
    forall j, (n_workers <= j)%nat -> threads c' !! j = threads c !! j.
Proof.
  intros Hr. revert c. induction Hr as [x|x y z Hm Hr IH]; intros c Hw Hmem.
  - exists c. split_and!; [apply rtc_refl|done..].
  - destruct (wmove_reachable x y c Hm Hw Hmem) as (c1 & Hr1 & Hw1 & Hm1 & Ht1).
    destruct (IH c1 Hw1 Hm1) as (c2 & Hr2 & Hw2 & Hm2 & Ht2). exists c2.
    split_and!; [by eapply reachable_trans|done..|]. intros j Hj. by rewrite Ht2, Ht1.
Qed.

(** [drive t c pos m Q]: client [t] can run [c] to its end, when it starts in memory [m] with
    the workers at [pos]; [Q] holds of the result and the state it ends in. *)
Definition drive (t : nat) {A} (c : lcode A) (pos : nat -> wpos) (m : mem)
    (Q : A -> (nat -> wpos) -> mem -> Prop) : Prop :=
  forall cf K st, (n_workers <= t)%nat -> Workers pos cf -> memory cf = m ->
    threads cf !! t = Some (Thread (bind c K) st) ->
    exists a pos' cf', lace_reachable cf cf' /\ Workers pos' cf' /\ Q a pos' (memory cf') /\
      threads cf' !! t = Some (Thread (K a) st) /\ others_wait t cf cf'.

Lemma drive_solo t {A} (c : lcode A) pos m (Q : A -> (nat -> wpos) -> mem -> Prop) :
  solo t c m (fun a m' => Q a pos m') -> drive t c pos m Q.
Proof.
  intros Hs [ths m0] K st Ht Hw Hm Hl. simpl in *. subst m0.
  destruct (solo_reachable t c K st ths m _ Hl Hs) as (a & m' & HQ & Hr).
  exists a, pos, (Config (<[t := Thread (K a) st]> ths) m'). split_and!; [done| |done| |].
  - intros i Hi. simpl. rewrite list_lookup_insert_ne by lia. by apply Hw.
  - simpl. apply list_lookup_insert_eq. by eapply lookup_lt_Some.
  - intros j Hj Hne. simpl. by rewrite list_lookup_insert_ne.
Qed.

Lemma drive_ret t {A} (a : A) pos m (Q : A -> (nat -> wpos) -> mem -> Prop) : Q a pos m -> drive t (Ret a) pos m Q.
Proof. intros HQ. apply drive_solo. by apply solo_ret. Qed.

Lemma others_trans t c1 c2 c3 : others_wait t c1 c2 -> others_wait t c2 c3 -> others_wait t c1 c3.
Proof. intros H1 H2 j Hj Hne. by rewrite H2, H1. Qed.

Lemma drive_bind t {A B} (c : lcode A) (f : A -> lcode B) pos m Q :
  drive t c pos m (fun a pos' m' => drive t (f a) pos' m' Q) -> drive t (bind c f) pos m Q.
Proof.
  intros Hc cf K st Ht Hw Hm Hl. rewrite bind_assoc in Hl.
  destruct (Hc cf _ st Ht Hw Hm Hl) as (a & pos1 & c1 & Hr1 & Hw1 & Hf & Hl1 & Ho1).
  destruct (Hf c1 K st Ht Hw1 eq_refl Hl1) as (b & pos2 & c2 & Hr2 & Hw2 & HQ & Hl2 & Ho2).
  exists b, pos2, c2. split_and!; [by eapply reachable_trans|done..|by eapply others_trans].
Qed.

Lemma drive_mono t {A} (c : lcode A) pos m (Q Q' : A -> (nat -> wpos) -> mem -> Prop) :
  drive t c pos m Q -> (forall a pos m, Q a pos m -> Q' a pos m) -> drive t c pos m Q'.
Proof.
  intros Hc HQ cf K st Ht Hw Hm Hl. destruct (Hc cf K st Ht Hw Hm Hl) as (a & pos1 & c1 & ? & ? & ? & ? & ?).
  exists a, pos1, c1. split_and!; auto.
Qed.

Lemma drive_step t {A R} (e : ev R) (k : R -> lcode A) pos m r m' Q :
  exited m = false -> exec1 t e m = [(r, m')] -> drive t (k r) pos m' Q -> drive t (Act e k) pos m Q.
Proof.
  intros Hx He Hk. change (Act e k) with (bind (act e) k). apply drive_bind, drive_solo.
  eapply solo_step; [done|exact He|]. by apply solo_ret.
Qed.

Lemma drive_cas t {A C} `{EqDecision C} (e : ev bool) (k : bool -> lcode A) pos m (cur old : C) m' Q :
  exited m = false -> exec1 t e m = weak_cas cur old m m' -> cur = old ->
  drive t (k true) pos m' Q -> drive t (Act e k) pos m Q.
Proof.
  intros Hx He Hc Hk. change (Act e k) with (bind (act e) k). apply drive_bind, drive_solo.
  eapply solo_cas; [done|exact He|done|]. by apply solo_ret.
Qed.

(** A loop that ends in its first turn. *)
Lemma drive_loop t {S B} (b : S -> lcode (S + B)) s pos m Q :
  drive t (b s) pos m (fun r pos' m' => exists y, r = inr y /\ Q y pos' m') -> drive t (loop s b) pos m Q.
Proof.
  intros Hb cf K st Ht Hw Hm Hl. destruct cf as [ths m0]. simpl in Hl.
  set (K1 := fun r : S + B => match r with inl s' => Iter b s' (fun y => K y) | inr y => K y end).
  set (th1 := Thread (bind (b s) K1) st).
  assert (Hr : lace_reachable (Config ths m0) (Config (<[t := th1]> ths) m0)).
  { eapply rtc_l; [|apply rtc_refl]. econstructor; [exact Hl|]. by left. }
  destruct (Hb (Config (<[t := th1]> ths) m0) K1 st Ht) as (r & pos1 & c1 & Hr1 & Hw1 & (y & -> & HQ) & Hl1 & Ho1).
  - intros i Hi. simpl. rewrite list_lookup_insert_ne by lia. by apply Hw.
  - done.
  - simpl. apply list_lookup_insert_eq. by eapply lookup_lt_Some.
  - exists y, pos1, c1. split_and!; [by eapply reachable_trans|done..|].
    intros j Hj Hne. rewrite Ho1 by done. simpl. by rewrite list_lookup_insert_ne.
Qed.

(** The workers move while the client waits. *)
Lemma drive_workers t {A} (c : lcode A) pos m pos' m' Q :
  rtc wmove (pos, m) (pos', m') -> drive t c pos' m' Q -> drive t c pos m Q.
Proof.
  intros Hr Hc cf K st Ht Hw Hm Hl.
  destruct (wmoves_reachable _ _ cf Hr Hw Hm) as (c1 & Hr1 & Hw1 & Hm1 & Ht1). simpl in *.
  destruct (Hc c1 K st Ht Hw1 Hm1) as (a & pos2 & c2 & Hr2 & Hw2 & HQ & Hl2 & Ho2); [by rewrite Ht1|].
  exists a, pos2, c2. split_and!; [by eapply reachable_trans|done..|].
  intros j Hj Hne. by rewrite Ho2, Ht1.
Qed.
End Drive.
