(* ===== verification/Lifecycle.v ===== *)
(** * The life of the workers

    The moves of the workers between the points where they wait: starting, running an
    external task, going to sleep, waking up through the barrier, and stopping, and with
    them the operations of the clients that wait for these moves. *)

From Stdlib Require Import FunctionalExtensionality.
From S2P Require Import Rng.
From S2P Require Export Drive.

(** The global counters, flags and locks. *)
Record regs := mkRegs {
  r_awaken : Z; r_running : Z; r_must : Z; r_quits : Z; r_sem : Z;
  r_count : Z; r_leaving : Z; r_wait : Z;
  r_counter : Z; r_exclusive : Z;
  r_lockd : option nat; r_offer : option nat;
}.

Definition with_running x r := mkRegs (r_awaken r) x (r_must r) (r_quits r) (r_sem r) (r_count r) (r_leaving r) (r_wait r) (r_counter r) (r_exclusive r) (r_lockd r) (r_offer r).
Definition with_must x r := mkRegs (r_awaken r) (r_running r) x (r_quits r) (r_sem r) (r_count r) (r_leaving r) (r_wait r) (r_counter r) (r_exclusive r) (r_lockd r) (r_offer r).
Definition with_quits x r := mkRegs (r_awaken r) (r_running r) (r_must r) x (r_sem r) (r_count r) (r_leaving r) (r_wait r) (r_counter r) (r_exclusive r) (r_lockd r) (r_offer r).
Definition with_sem x r := mkRegs (r_awaken r) (r_running r) (r_must r) (r_quits r) x (r_count r) (r_leaving r) (r_wait r) (r_counter r) (r_exclusive r) (r_lockd r) (r_offer r).
Definition with_count x r := mkRegs (r_awaken r) (r_running r) (r_must r) (r_quits r) (r_sem r) x (r_leaving r) (r_wait r) (r_counter r) (r_exclusive r) (r_lockd r) (r_offer r).
Definition with_leaving x r := mkRegs (r_awaken r) (r_running r) (r_must r) (r_quits r) (r_sem r) (r_count r) x (r_wait r) (r_counter r) (r_exclusive r) (r_lockd r) (r_offer r).
Definition with_wait x r := mkRegs (r_awaken r) (r_running r) (r_must r) (r_quits r) (r_sem r) (r_count r) (r_leaving r) x (r_counter r) (r_exclusive r) (r_lockd r) (r_offer r).
Definition with_counter x r := mkRegs (r_awaken r) (r_running r) (r_must r) (r_quits r) (r_sem r) (r_count r) (r_leaving r) (r_wait r) x (r_exclusive r) (r_lockd r) (r_offer r).
Definition with_exclusive x r := mkRegs (r_awaken r) (r_running r) (r_must r) (r_quits r) (r_sem r) (r_count r) (r_leaving r) (r_wait r) (r_counter r) x (r_lockd r) (r_offer r).
Definition with_offer x r := mkRegs (r_awaken r) (r_running r) (r_must r) (r_quits r) (r_sem r) (r_count r) (r_leaving r) (r_wait r) (r_counter r) (r_exclusive r) (r_lockd r) x.

Section Lifecycle.
Context {cfg : Cfg} {cfg_ok : CfgOk} {client : Client}.

Abbreviation N := (Z.of_nat n_workers).

(** No worker has a task. *)
Record Idle (m : mem) : Prop := {
  i_exited : exited m = false;
  i_newframe : lace_newframe_t m = None;
  i_deque i : (i < n_workers)%nat -> Deque i [] m;
  i_locals id : length (task_d (locals m id)) = d_words;
}.

Record Holds (m : mem) (r : regs) : Prop := {
  h_idle : Idle m;
  h_awaken : ints m lace_awaken_count = r_awaken r;
  h_running : ints m workers_running = r_running r;
  h_must : ints m must_suspend = r_must r;
  h_quits : ints m lace_quits = r_quits r;
  h_sem : sems m suspend_semaphore = r_sem r;
  h_count : ints m lace_bar_count = r_count r;
  h_leaving : ints m lace_bar_leaving = r_leaving r;
  h_wait : ints m lace_bar_wait = r_wait r;
  h_counter : ints m external_task_counter = r_counter r;
  h_exclusive : ints m external_task_exclusive = r_exclusive r;
  h_lock : external_task_lock m = r_lockd r;
  h_offer : external_task m = r_offer r;
}.

(** The stacks of the clients are as before. *)
Definition Stacks (m m' : mem) : Prop := locals m' = locals m /\ n_locals m' = n_locals m.

Lemma Stacks_trans m1 m2 m3 : Stacks m1 m2 -> Stacks m2 m3 -> Stacks m1 m3.
Proof. unfold Stacks. intuition congruence. Qed.

Lemma Idle_same m m' :
  Idle m -> exited m' = exited m -> lace_newframe_t m' = lace_newframe_t m -> pub m' = pub m -> priv m' = priv m ->
  slots m' = slots m -> locals m' = locals m -> Idle m'.
Proof.
  intros [] Hx Hn Hp Hpr Hs Hl. split; [congruence..| |].
  - intros i Hi. by apply (Deque_same i [] m); rewrite ?Hp, ?Hpr, ?Hs; auto.
  - intros id. by rewrite Hl.
Qed.

(** A request for more work. *)
Definition Asked (m m' : mem) : Prop := m' = m \/ exists v, m' = upd_pub v (set_movesplit 1) m.

Lemma Holds_asked m m' r : Holds m r -> Asked m m' -> Holds m' r /\ Stacks m m'.
Proof.
  intros HH [->|[v ->]]; [done|]. split; [|done]. destruct HH as [[]]. split; try done. split; try done.
  intros i Hi. by apply Deque_movesplit, i_deque0.
Qed.

(** A step on one of the counters, flags or locks. *)
Ltac holds HH :=
  destruct HH; split; simpl;
  [match goal with H : Idle _ |- _ => by apply (Idle_same _ _ H) end|
   repeat match goal with
   | |- context [<[?a := _]> ?f ?a] => rewrite fn_lookup_insert
   | |- context [<[_ := _]> ?f _] => rewrite fn_lookup_insert_ne by done
   end; try done; try lia..].

(** ** A turn of the steal loop that finds nothing to steal *)

Definition turn_rest (i : nat) (sel : selection) : lcode (selection + unit) :=
  e <- act Load_external ;;
  (match e with
   | Some _ => lace_steal_external i 0
   | None => Ret tt
   end) ;;;
  ms <- act (Load_int must_suspend) ;;
  when (negb (ms =? 0))
    (act (Fetch_add_int workers_running (-1)) ;;;
     act (Sem_wait suspend_semaphore) ;;;
     lace_barrier ;;;
     act (Fetch_add_int workers_running 1) ;;;
     Ret tt) ;;;
  Ret (inl sel).

Lemma idle_victim m i v : Idle m -> v <> i -> (v < n_workers)%nat -> ts_split (w_ts (pub m v)) <= ts_tail (w_ts (pub m v)).
Proof.
  intros Hi Hne Hv. pose proof (i_deque _ Hi v Hv) as Hd. rewrite (d_tail _ _ _ Hd), (d_split _ _ _ Hd).
  pose proof (d_bound _ _ _ Hd) as Hb. change (zlen []) with 0 in Hb. lia.
Qed.

Lemma reaches_turn i sel m Q :
  (i < n_workers)%nat -> Idle m -> ints m lace_quits = 0 -> sel_ok N sel ->
  (forall sel' m', sel_ok N sel' -> Asked m m' -> reaches i (bind (turn_rest i sel') (turn_done i)) m' Q) ->
  reaches i (at_loop i sel) m Q.
Proof.
  intros Hi Hid Hq Hsel HQ. pose proof (i_exited _ Hid) as Hx. pose proof n_small as Hn.
  apply reaches_unroll. change (fun r => match r with inl s' => _ | inr y => _ end) with (turn_done i).
  unfold steal_loop_turn. rewrite worker_field_id by lia.
  cbn [bind act]. eapply reaches_step; [done|reflexivity|]. rewrite Hq. cbn [negb Z.eqb].
  rewrite bind_assoc. apply reaches_bind.
  apply (solo_mono _ _ _ (fun sel' m' => sel_ok N sel' /\ Asked m m')).
  - destruct (Z.ltb_spec 1 N); [|apply solo_ret; split; [done|by left]].
    destruct (select_victim_ok (Z.of_nat i) N sel) as [Hok Hne]; [lia..|done|].
    set (sel' := select_victim _ _ _) in *. clearbody sel'. unfold sel_ok in Hok.
    cbn [bind act]. eapply solo_step; [done|reflexivity|].
    eapply solo_seq; [apply solo_steal_idle; [done|]|].
    + intros v Hv. case_match; simplify_eq. apply (idle_victim m i); [done|lia|lia].
    + intros ? m' Ha. apply solo_ret. by split.
  - intros sel' m' [Hok Ha]. rewrite bind_assoc. apply reaches_bind, solo_yield.
    + destruct Ha as [->|[v ->]]; done.
    + destruct Ha as [->|[v ->]]; apply Hid.
    + by apply HQ.
Qed.

(** A worker that can reach another position can move there. *)
Lemma move_to i pos m (Q : wpos -> mem -> Prop) :
  (i < n_workers)%nat -> reaches i (wcode i (pos i)) m (fun c' m' => exists p, c' = wcode i p /\ Q p m') ->
  exists p m', wmove (pos, m) (<[i := p]> pos, m') /\ Q p m'.
Proof.
  intros Hi (c' & m' & (p & -> & HQ) & Hrun). exists p, m'. split; [|done].
  constructor; [done|]. exists (wcode i p), m'. by split_and!.
Qed.

(** The workers move one after the other. *)
Lemma each_worker (J : nat -> (nat -> wpos) -> mem -> Prop) n pos m :
  J 0%nat pos m ->
  (forall k pos m, (k < n)%nat -> J k pos m ->
     exists p m', wmove (pos, m) (<[k := p]> pos, m') /\ J (S k) (<[k := p]> pos) m') ->
  exists pos' m', rtc wmove (pos, m) (pos', m') /\ J n pos' m'.
Proof.
  intros H0 Hs. induction n as [|n IH]; [exists pos, m; split; [apply rtc_refl|done]|].
  destruct IH as (pos1 & m1 & Hr & HJ); [intros; apply Hs; [lia|done]|].
  destruct (Hs n pos1 m1) as (p & m2 & Hm & HJ2); [lia|done|]. exists (<[n := p]> pos1), m2.
  split; [|done]. eapply rtc_r; [exact Hr|exact Hm].
Qed.

Definition in_loop (p : wpos) : Prop := exists sel, p = PLoop sel /\ sel_ok N sel.
Definition asleep (p : wpos) : Prop := exists sel, p = PSleep sel /\ sel_ok N sel.
Definition in_barrier (w0 : Z) (p : wpos) : Prop := exists sel, p = PBar sel w0 /\ sel_ok N sel.

(** The first [k] workers satisfy [P'], the others still [P]. *)
Definition split_at (k : nat) (P P' : wpos -> Prop) (pos : nat -> wpos) : Prop :=
  forall i, (i < n_workers)%nat -> if decide (i < k)%nat then P' (pos i) else P (pos i).

Lemma split_start P P' pos : (forall i, (i < n_workers)%nat -> P (pos i)) -> split_at 0 P P' pos.
Proof. intros H i Hi. rewrite decide_False by lia. by apply H. Qed.

Lemma split_end P P' pos : split_at n_workers P P' pos -> forall i, (i < n_workers)%nat -> P' (pos i).
Proof. intros H i Hi. specialize (H i Hi). by rewrite decide_True in H. Qed.

Lemma split_here k P P' pos : split_at k P P' pos -> (k < n_workers)%nat -> P (pos k).
Proof. intros H Hk. specialize (H k Hk). by rewrite decide_False in H by lia. Qed.

Lemma split_next k P P' pos p : split_at k P P' pos -> P' p -> split_at (S k) P P' (<[k := p]> pos).
Proof.
  intros H Hp i Hi. specialize (H i Hi). destruct (decide (k = i)) as [<-|Hne].
  - rewrite fn_lookup_insert, decide_True by lia. done.
  - rewrite fn_lookup_insert_ne by done. destruct (decide (i < k)%nat).
    + by rewrite decide_True by lia.
    + by rewrite decide_False by lia.
Qed.

(** ** Going to sleep *)

Lemma move_sleep i pos m r :
  (i < n_workers)%nat -> in_loop (pos i) -> Holds m r -> r_quits r = 0 -> r_must r = 1 -> r_offer r = None ->
  exists p m', wmove (pos, m) (<[i := p]> pos, m') /\ asleep p /\
    Holds m' (with_running (r_running r - 1) r) /\ Stacks m m'.
Proof.
  intros Hi (sel & Hp & Hsel) HH Hq Hms Hof. apply move_to; [done|].
  rewrite Hp. cbn [wcode]. apply reaches_turn; [done|apply HH|by rewrite (h_quits _ _ HH)|done|].
  intros sel' m1 Hsel' Ha. destruct (Holds_asked _ _ _ HH Ha) as [HH1 Hs1].
  pose proof (i_exited _ (h_idle _ _ HH1)) as Hx. unfold turn_rest. cbn [bind act].
  eapply reaches_step; [done|reflexivity|]. rewrite (h_offer _ _ HH1), Hof. cbn [bind].
  eapply reaches_step; [done|reflexivity|]. rewrite (h_must _ _ HH1), Hms. cbn [negb Z.eqb when bind].
  eapply reaches_step; [done|reflexivity|]. apply reaches_now. exists (PSleep sel'). split_and!.
  - cbn [wcode bind act]. f_equal. extensionality x. rewrite !bind_assoc. done.
  - by exists sel'.
  - rewrite (h_running _ _ HH1). holds HH1.
  - done.
Qed.

Lemma all_sleep pos m r :
  (forall i, (i < n_workers)%nat -> in_loop (pos i)) ->
  Holds m r -> r_quits r = 0 -> r_must r = 1 -> r_offer r = None -> r_running r = N ->
  exists pos' m', rtc wmove (pos, m) (pos', m') /\ (forall i, (i < n_workers)%nat -> asleep (pos' i)) /\
    Holds m' (with_running 0 r) /\ Stacks m m'.
Proof.
  intros Hp HH Hq Hms Hof Hr.
  destruct (each_worker (fun k pos m' => split_at k in_loop asleep pos /\
      Holds m' (with_running (N - Z.of_nat k) r) /\ Stacks m m') n_workers pos m) as (pos' & m' & Hrun & Hs & HH' & Hst).
  - split_and!; [by apply split_start| |done]. rewrite Z.sub_0_r, <-Hr. by destruct r.
  - intros k pos1 m1 Hk (Hs & HH1 & Hst). destruct (move_sleep k pos1 m1 _ Hk (split_here _ _ _ _ Hs Hk) HH1) as
      (p & m2 & Hm & Ha & HH2 & Hst2); [done..|]. exists p, m2. split_and!; [done|by apply split_next| |by eapply Stacks_trans].
    simpl in HH2. replace (N - Z.of_nat (S k)) with (N - Z.of_nat k - 1) by lia. done.
  - exists pos', m'. split_and!; [done|by eapply split_end| |done]. by rewrite Z.sub_diag in HH'.
Qed.

(** ** Waking up *)

Lemma move_enter i pos m r :
  (i < n_workers)%nat -> asleep (pos i) -> Holds m r -> 0 < r_sem r -> 1 + r_count r <> N ->
  exists p m', wmove (pos, m) (<[i := p]> pos, m') /\ in_barrier (r_wait r) p /\
    Holds m' (with_sem (r_sem r - 1) (with_count (r_count r + 1) r)) /\ Stacks m m'.
Proof.
  intros Hi (sel & Hp & Hsel) HH Hsem Hc. apply move_to; [done|]. rewrite Hp. cbn [wcode bind act].
  pose proof (i_exited _ (h_idle _ _ HH)) as Hx.
  eapply reaches_step; [done|simpl; rewrite (h_sem _ _ HH), (proj2 (Z.ltb_lt _ _)) by done; reflexivity|].
  unfold lace_barrier. cbn [bind act]. eapply reaches_step; [done|reflexivity|].
  eapply reaches_step; [done|reflexivity|]. simpl ints. rewrite (h_count _ _ HH), (h_wait _ _ HH).
  rewrite (proj2 (Z.eqb_neq _ _)) by lia. apply reaches_now. exists (PBar sel (r_wait r)). split_and!.
  - reflexivity.
  - by exists sel.
  - holds HH.
  - done.
Qed.

(** The last worker to come opens the barrier and passes through. *)
Lemma move_last i pos m r :
  (i < n_workers)%nat -> asleep (pos i) -> Holds m r -> 0 < r_sem r -> 1 + r_count r = N ->
  exists p m', wmove (pos, m) (<[i := p]> pos, m') /\ in_loop p /\
    Holds m' (with_sem (r_sem r - 1) (with_count 0 (with_wait (1 - r_wait r)
      (with_leaving (N - 1) (with_running (r_running r + 1) r))))) /\ Stacks m m'.
Proof.
  intros Hi (sel & Hp & Hsel) HH Hsem Hc. apply move_to; [done|]. rewrite Hp. cbn [wcode bind act].
  pose proof (i_exited _ (h_idle _ _ HH)) as Hx.
  eapply reaches_step; [done|simpl; rewrite (h_sem _ _ HH), (proj2 (Z.ltb_lt _ _)) by done; reflexivity|].
  unfold lace_barrier. cbn [bind act]. do 2 (eapply reaches_step; [done|reflexivity|]).
  simpl ints. rewrite (h_count _ _ HH), (h_wait _ _ HH), (proj2 (Z.eqb_eq _ _)) by lia. cbn [bind].
  do 5 (eapply reaches_step; [done|reflexivity|]; cbn [bind]).
  apply reaches_now. exists (PLoop sel). split_and!; [done|by exists sel| |done].
  simpl ints. holds HH.
Qed.

Lemma move_leave i pos m r w0 :
  (i < n_workers)%nat -> in_barrier w0 (pos i) -> Holds m r -> r_wait r <> w0 ->
  exists p m', wmove (pos, m) (<[i := p]> pos, m') /\ in_loop p /\
    Holds m' (with_leaving (r_leaving r - 1) (with_running (r_running r + 1) r)) /\ Stacks m m'.
Proof.
  intros Hi (sel & Hp & Hsel) HH Hne. apply move_to; [done|]. rewrite Hp. cbn [wcode].
  pose proof (i_exited _ (h_idle _ _ HH)) as Hx. apply reaches_bind.
  apply (solo_mono _ _ _ (fun _ m' => m' = m)).
  { apply solo_next. cbn [bind act]. eapply solo_step; [done|reflexivity|]. apply solo_ret.
    rewrite (h_wait _ _ HH), (proj2 (Z.eqb_neq _ _)) by done. by apply solo_ret. }
  intros ? ? ->. cbn [bind act]. do 2 (eapply reaches_step; [done|reflexivity|]; cbn [bind]).
  apply reaches_now. exists (PLoop sel). split_and!; [done|by exists sel| |done].
  simpl ints. holds HH.
Qed.

(** All but the last wait in the barrier. *)
Lemma all_enter pos m r :
  (forall i, (i < n_workers)%nat -> asleep (pos i)) -> (0 < n_workers)%nat ->
  Holds m r -> r_sem r = N -> r_count r = 0 ->
  exists pos' m', rtc wmove (pos, m) (pos', m') /\ split_at (n_workers - 1) asleep (in_barrier (r_wait r)) pos' /\
    Holds m' (with_sem 1 (with_count (N - 1) r)) /\ Stacks m m'.
Proof.
  intros Hp HN HH Hsem Hc.
  destruct (each_worker (fun k pos m' => split_at k asleep (in_barrier (r_wait r)) pos /\
      Holds m' (with_sem (N - Z.of_nat k) (with_count (Z.of_nat k) r)) /\ Stacks m m')
      (n_workers - 1) pos m) as (pos' & m' & Hrun & Hs & HH' & Hst).
  - split_and!; [by apply split_start| |done]. rewrite Z.sub_0_r, <-Hsem. replace (Z.of_nat 0) with (r_count r) by lia. by destruct r.
  - intros k pos1 m1 Hk (Hs & HH1 & Hst).
    destruct (move_enter k pos1 m1 _ ltac:(lia) (split_here _ _ _ _ Hs ltac:(lia)) HH1) as (p & m2 & Hm & Ha & HH2 & Hst2);
      [simpl; lia..|]. exists p, m2. split_and!; [done|by apply split_next| |by eapply Stacks_trans].
    unfold with_sem, with_count in HH2 |- *. simpl in HH2. replace (Z.of_nat (S k)) with (Z.of_nat k + 1) by lia.
    replace (N - (Z.of_nat k + 1)) with (N - Z.of_nat k - 1) by lia. done.
  - exists pos', m'. split_and!; [done..| |done].
    replace (N - Z.of_nat (n_workers - 1)) with 1 in HH' by lia.
    by replace (Z.of_nat (n_workers - 1)) with (N - 1) in HH' by lia.
Qed.

(** Those that wait in the barrier leave it. *)
Definition leaving_at (k : nat) (w0 : Z) (pos : nat -> wpos) : Prop :=
  forall i, (i < n_workers)%nat ->
    if decide (i < k \/ i = n_workers - 1)%nat then in_loop (pos i) else in_barrier w0 (pos i).

Lemma leaving_next k w0 pos p :
  (k < n_workers - 1)%nat -> leaving_at k w0 pos -> in_loop p -> leaving_at (S k) w0 (<[k := p]> pos).
Proof.
  intros Hk H Hp i Hi. specialize (H i Hi). destruct (decide (k = i)) as [<-|Hne].
  - rewrite fn_lookup_insert, decide_True by lia. done.
  - rewrite fn_lookup_insert_ne by done. destruct (decide (i < k \/ i = n_workers - 1)%nat).
    + by rewrite decide_True by lia.
    + by rewrite decide_False by lia.
Qed.

Lemma all_leave pos m r w0 :
  leaving_at 0 w0 pos -> (0 < n_workers)%nat -> Holds m r -> r_wait r <> w0 -> r_leaving r = N - 1 -> r_running r = 1 ->
  exists pos' m', rtc wmove (pos, m) (pos', m') /\ (forall i, (i < n_workers)%nat -> in_loop (pos' i)) /\
    Holds m' (with_leaving 0 (with_running N r)) /\ Stacks m m'.
Proof.
  intros Hp HN HH Hw Hl Hr.
  destruct (each_worker (fun k pos m' => leaving_at k w0 pos /\
      Holds m' (with_leaving (N - 1 - Z.of_nat k) (with_running (1 + Z.of_nat k) r)) /\ Stacks m m')
      (n_workers - 1) pos m) as (pos' & m' & Hrun & Hs & HH' & Hst).
  - split_and!; [done| |done]. rewrite Z.sub_0_r, <-Hl. replace (1 + Z.of_nat 0) with (r_running r) by lia. by destruct r.
  - intros k pos1 m1 Hk (Hs & HH1 & Hst). pose proof (Hs k ltac:(lia)) as Hk1. rewrite decide_False in Hk1 by lia.
    destruct (move_leave k pos1 m1 _ w0 ltac:(lia) Hk1 HH1 Hw) as (p & m2 & Hm & Ha & HH2 & Hst2).
    exists p, m2. split_and!; [done|by apply leaving_next| |by eapply Stacks_trans].
    unfold with_leaving, with_running in HH2 |- *. simpl in HH2.
    replace (N - 1 - Z.of_nat (S k)) with (N - 1 - Z.of_nat k - 1) by lia.
    by replace (1 + Z.of_nat (S k)) with (1 + Z.of_nat k + 1) by lia.
  - exists pos', m'. split_and!; [done| | |done].
    + intros i Hi. pose proof (Hs i Hi) as H. by rewrite decide_True in H by lia.
    + replace (N - 1 - Z.of_nat (n_workers - 1)) with 0 in HH' by lia.
      by replace (1 + Z.of_nat (n_workers - 1)) with N in HH' by lia.
Qed.

Lemma all_wake pos m r :
  (forall i, (i < n_workers)%nat -> asleep (pos i)) -> (0 < n_workers)%nat ->
  Holds m r -> r_sem r = N -> r_count r = 0 -> r_running r = 0 ->
  exists pos' m', rtc wmove (pos, m) (pos', m') /\ (forall i, (i < n_workers)%nat -> in_loop (pos' i)) /\
    Holds m' (with_sem 0 (with_count 0 (with_wait (1 - r_wait r) (with_leaving 0 (with_running N r))))) /\ Stacks m m'.
Proof.
  intros Hp HN HH Hsem Hc Hr.
  destruct (all_enter pos m r Hp HN HH Hsem Hc) as (pos1 & m1 & Hrun1 & Hs1 & HH1 & Hst1).
  pose proof (Hs1 (n_workers - 1)%nat ltac:(lia)) as Hlast. rewrite decide_False in Hlast by lia.
  destruct (move_last (n_workers - 1) pos1 m1 _ ltac:(lia) Hlast HH1) as (p & m2 & Hm & Hlp & HH2 & Hst2); [simpl; lia..|].
  assert (Hlv : leaving_at 0 (r_wait r) (<[(n_workers - 1)%nat := p]> pos1)).
  { intros i Hi. destruct (decide (n_workers - 1 = i)%nat) as [<-|Hne].
    - by rewrite fn_lookup_insert, decide_True by lia.
    - rewrite fn_lookup_insert_ne, decide_False by lia. pose proof (Hs1 i Hi) as H. by rewrite decide_True in H by lia. }
  destruct (all_leave _ m2 _ (r_wait r) Hlv HN HH2) as (pos3 & m3 & Hrun3 & Hs3 & HH3 & Hst3); [simpl; lia..|].
  exists pos3, m3. split_and!; [|done|by destruct r|].
  - etransitivity; [exact Hrun1|]. eapply rtc_l; [exact Hm|done].
  - eapply Stacks_trans; [exact Hst1|]. by eapply Stacks_trans.
Qed.

(** ** Starting and stopping *)

Lemma move_stop i pos m r :
  (i < n_workers)%nat -> in_loop (pos i) -> Holds m r -> r_quits r <> 0 ->
  exists p m', wmove (pos, m) (<[i := p]> pos, m') /\ p = PDone /\
    Holds m' (with_running (r_running r - 1) r) /\ Stacks m m'.
Proof.
  intros Hi (sel & Hp & Hsel) HH Hq. apply move_to; [done|]. rewrite Hp. cbn [wcode].
  pose proof (i_exited _ (h_idle _ _ HH)) as Hx. apply reaches_unroll. unfold steal_loop_turn. cbn [bind act].
  eapply reaches_step; [done|reflexivity|]. rewrite (h_quits _ _ HH), (proj2 (Z.eqb_neq _ _)) by done. cbn [negb bind].
  unfold worker_exit. cbn [bind act]. eapply reaches_step; [done|reflexivity|].
  apply reaches_now. exists PDone. split_and!; [done|done| |done]. rewrite (h_running _ _ HH). holds HH.
Qed.

Lemma all_stop pos m r :
  (forall i, (i < n_workers)%nat -> in_loop (pos i)) -> Holds m r -> r_quits r <> 0 -> r_running r = N ->
  exists pos' m', rtc wmove (pos, m) (pos', m') /\ (forall i, (i < n_workers)%nat -> pos' i = PDone) /\
    Holds m' (with_running 0 r) /\ Stacks m m'.
Proof.
  intros Hp HH Hq Hr.
  destruct (each_worker (fun k pos m' => split_at k in_loop (fun p => p = PDone) pos /\
      Holds m' (with_running (N - Z.of_nat k) r) /\ Stacks m m') n_workers pos m) as (pos' & m' & Hrun & Hs & HH' & Hst).
  - split_and!; [by apply split_start| |done]. rewrite Z.sub_0_r, <-Hr. by destruct r.
  - intros k pos1 m1 Hk (Hs & HH1 & Hst). destruct (move_stop k pos1 m1 _ Hk (split_here _ _ _ _ Hs Hk) HH1) as
      (p & m2 & Hm & Ha & HH2 & Hst2); [done..|]. exists p, m2. split_and!; [done|by apply split_next| |by eapply Stacks_trans].
    simpl in HH2. replace (N - Z.of_nat (S k)) with (N - Z.of_nat k - 1) by lia. done.
  - exists pos', m'. split_and!; [done|exact (split_end _ _ _ Hs)| |done]. by rewrite Z.sub_diag in HH'.
Qed.

(** The memory after [lace_init_worker]: an empty deque. *)
Definition init_mem (i : nat) (m : mem) : mem :=
  upd_priv i (set_p_allstolen 0) (upd_priv i (set_p_split 0) (upd_pub i (set_movesplit 0)
    (upd_pub i (set_allstolen 0) (upd_pub i (set_ts (mkTS 0 0)) (set_workers (<[i := true]> (workers m)) m))))).

Lemma Holds_init i m r : Holds m r -> Holds (init_mem i m) r.
Proof.
  intros HH. destruct HH as [[]]. split; try done. split; try done. intros j Hj.
  destruct (decide (i = j)) as [<-|Hne].
  - destruct (i_deque0 i Hj). split; simpl; rewrite ?fn_lookup_insert; simpl; done.
  - apply (Deque_same j [] m); [by apply i_deque0|..]; simpl; by rewrite ?fn_lookup_insert_ne.
Qed.

Lemma solo_init_worker i m Q : exited m = false -> Q tt (init_mem i m) -> solo i (lace_init_worker i) m Q.
Proof.
  intros Hx HQ. unfold lace_init_worker. cbn [bind act].
  eapply (solo_act _ _ _ _ true); [done|by left|]. cbn [negb when bind].
  do 6 (eapply solo_step; [done|reflexivity|]). by apply solo_ret.
Qed.

Lemma move_start i pos m r :
  (i < n_workers)%nat -> pos i = PNew -> Holds m r -> created m i = true -> 0 < r_sem r ->
  task_thief (slots m i 0) = THIEF_EMPTY ->
  exists p m', wmove (pos, m) (<[i := p]> pos, m') /\ in_loop p /\
    Holds m' (with_sem (r_sem r - 1) (with_running (r_running r + 1) r)) /\
    Stacks m m' /\ created m' = created m /\ slots m' = slots m.
Proof.
  intros Hi Hp HH Hc Hsem Hth. apply move_to; [done|]. rewrite Hp. cbn [wcode]. unfold lace_worker_thread.
  pose proof (i_exited _ (h_idle _ _ HH)) as Hx. cbn [bind act].
  eapply reaches_step; [done|simpl; by rewrite Hc|]. rewrite bind_assoc. apply reaches_bind, solo_init_worker; [done|].
  pose proof (Holds_init i m r HH) as HH1. cbn [bind].
  eapply reaches_step; [done|simpl; rewrite (h_sem _ _ HH), (proj2 (Z.ltb_lt _ _)) by done; reflexivity|].
  eapply reaches_step; [done|reflexivity|]. unfold lace_get_head. cbn [bind act].
  eapply reaches_step; [done|reflexivity|]. simpl get_task. rewrite Hth. cbn [thief_is0 bind].
  unfold lace_steal_loop. pose proof n_small. rewrite worker_field_id by lia.
  apply reaches_now. exists (PLoop (mkSel (Z.of_nat i) 0 (Z.of_nat i))). split_and!; [done| | |done..].
  - eexists. split; [done|]. unfold sel_ok. simpl. lia.
  - simpl ints. rewrite (h_running _ _ HH). holds HH1.
Qed.

Lemma all_start pos m r :
  (forall i, (i < n_workers)%nat -> pos i = PNew) -> Holds m r ->
  (forall i, (i < n_workers)%nat -> created m i = true /\ task_thief (slots m i 0) = THIEF_EMPTY) ->
  r_sem r = N -> r_running r = 0 ->
  exists pos' m', rtc wmove (pos, m) (pos', m') /\ (forall i, (i < n_workers)%nat -> in_loop (pos' i)) /\
    Holds m' (with_sem 0 (with_running N r)) /\ Stacks m m'.
Proof.
  intros Hp HH Hc Hsem Hr.
  destruct (each_worker (fun k pos m' => split_at k (fun p => p = PNew) in_loop pos /\
      Holds m' (with_sem (N - Z.of_nat k) (with_running (Z.of_nat k) r)) /\ Stacks m m' /\
      created m' = created m /\ slots m' = slots m) n_workers pos m) as (pos' & m' & Hrun & Hs & HH' & Hst & _).
  - split_and!; [by apply split_start| |done..]. rewrite Z.sub_0_r, <-Hsem. replace (Z.of_nat 0) with (r_running r) by lia.
    by destruct r.
  - intros k pos1 m1 Hk (Hs & HH1 & Hst & Hcr & Hsl).
    destruct (move_start k pos1 m1 _ Hk (split_here _ _ _ _ Hs Hk) HH1) as (p & m2 & Hm & Ha & HH2 & Hst2 & Hcr2 & Hsl2);
      [rewrite Hcr; by apply Hc|simpl; lia|rewrite Hsl; by apply Hc|].
    exists p, m2. split_and!; [done|by apply split_next| |by eapply Stacks_trans|congruence..].
    unfold with_sem, with_running in HH2 |- *. simpl in HH2. replace (Z.of_nat (S k)) with (Z.of_nat k + 1) by lia.
    by replace (N - (Z.of_nat k + 1)) with (N - Z.of_nat k - 1) by lia.
  - exists pos', m'. split_and!; [done|exact (split_end _ _ _ Hs)| |done]. by rewrite Z.sub_diag in HH'.
Qed.

(** ** Running an external task *)

Lemma Idle_keeps i m m' : Idle m -> Keeps i m m' -> Deque i [] m' -> Idle m'.
Proof.
  intros Hid Hk Hd. destruct Hid. split.
  - by rewrite (fr_exited _ _ _ Hk).
  - by rewrite (fr_newframe _ _ _ Hk).
  - intros j Hj. destruct (decide (j = i)) as [->|Hne]; [done|].
    apply (Deque_same j [] m); [by apply i_deque0|by apply (fr_ts _ _ _ Hk)|by apply (fr_allstolen _ _ _ Hk)
      |by rewrite (fr_priv _ _ _ Hk)|by rewrite (fr_priv _ _ _ Hk)|by apply (fr_slots _ _ _ Hk)].
  - intros id. by rewrite (fr_words _ _ _ Hk).
Qed.

Lemma Idle_calm i m : (i < n_workers)%nat -> Idle m -> external_task m = None -> Calm i m.
Proof. intros Hi Hid He. split; try apply Hid; try done. intros v Hne Hv. by apply (idle_victim m i). Qed.

(** A task on the stack of a client, and what is left there when it has been run. *)
Definition offers (m : mem) (e id u : nat) (args : list val) : Prop :=
  et_task m e = TLoc id /\ (id < n_locals m)%nat /\ task_ready (locals m id) (u, args).

Record Ran (m m' : mem) (e id u : nat) (v : val) : Prop := {
  ran_idle : Idle m';
  ran_ints : ints m' = ints m;
  ran_sems : sems m' = <[SExt e := sems m (SExt e) + 1]> (sems m);
  ran_external : external_task m' = None;
  ran_lock : external_task_lock m' = external_task_lock m;
  ran_result : user_void u = false -> get_d 0 (locals m' id) = v;
  ran_nlocals : (n_locals m <= n_locals m')%nat;
}.

Lemma Idle_upd_local id f m :
  Idle m -> (forall T, length (task_d (f T)) = length (task_d T)) -> Idle (upd_task (TLoc id) f m).
Proof.
  intros [] Hf. split; simpl; try done.
  - intros i Hi. by apply (Deque_same i [] m); auto.
  - intros id'. case_insert; [by rewrite Hf|done].
Qed.

Lemma solo_steal_external i e id u args v n m :
  client_ok -> (i < n_workers)%nat -> Idle m -> external_task m = Some e -> offers m e id u args ->
  evalD n 0 u args = Some v ->
  solo i (lace_steal_external i 0) m (fun _ m' => Ran m m' e id u v).
Proof.
  intros Hcl Hi Hid He (Het & Hlt & Hf & Ha & Hlen) Hev. simpl in Hf, Ha, Hlen.
  pose proof (i_exited _ Hid) as Hx. unfold lace_steal_external. cbn [bind act].
  eapply solo_step; [done|reflexivity|]. rewrite He. set (m1 := set_external None m).
  eapply solo_step; [done|reflexivity|]. change (et_task m1 e) with (et_task m e). rewrite Het.
  do 2 (eapply solo_step; [done|reflexivity|]). set (m2 := upd_task _ _ (upd_task _ _ m1)).
  assert (Hid2 : Idle m2).
  { unfold m2. do 2 (apply Idle_upd_local; [|done]). by apply (Idle_same m). }
  assert (Hg2 : task_f (locals m2 id) = F_user u /\ args_in (locals m2 id) args).
  { unfold m2, m1. simpl. by rewrite !fn_lookup_insert. }
  destruct Hg2 as [Hf2 Ha2].
  unfold call_f. cbn [bind act call]. eapply solo_step; [done|reflexivity|].
  change (get_task (TLoc id) m2) with (locals m2 id). rewrite Hf2.
  apply solo_call, (solo_WRAP i u args); [done..|].
  change 0 with (zlen (@nil payload)). eapply solo_mono; [apply (calls_return_all Hcl n i [] u args v); [done..| |]|].
  { by apply Idle_calm. } { by apply Hid2. }
  intros r m3 (-> & Hd3 & Hk3). pose proof (Idle_keeps i m2 m3 Hid2 Hk3 Hd3) as Hid3. split; [apply Hid3|].
  set (m4 := if user_void u then m3 else upd_task (TLoc id) (set_d 0 v) m3).
  assert (Hid4 : Idle m4).
  { unfold m4. destruct (user_void u); [done|]. apply Idle_upd_local; [done|]. intros T. apply length_set_d. }
  assert (H4 : ints m4 = ints m3 /\ sems m4 = sems m3 /\ external_task m4 = external_task m3 /\
    external_task_lock m4 = external_task_lock m3 /\ n_locals m4 = n_locals m3) by (by unfold m4; destruct (user_void u)).
  destruct H4 as (H4i & H4s & H4e & H4l & H4n).
  pose proof (i_exited _ Hid4) as Hx4. eapply solo_step; [done|reflexivity|].
  eapply solo_step; [done|reflexivity|]. apply solo_ret. split; simpl.
  - apply (Idle_same (upd_task (TLoc id) (set_task_thief THIEF_COMPLETED) m4)); [|done..]. by apply Idle_upd_local.
  - rewrite H4i, (fr_ints _ _ _ Hk3). done.
  - rewrite H4s, (fr_sems _ _ _ Hk3). done.
  - rewrite H4e, (fr_external _ _ _ Hk3). done.
  - rewrite H4l, (fr_lock _ _ _ Hk3). done.
  - intros Hv. rewrite fn_lookup_insert. unfold m4. rewrite Hv. simpl. rewrite fn_lookup_insert.
    change (get_d 0 (set_d 0 v (locals m3 id)) = v). apply get_set_d. rewrite (i_locals _ Hid3). apply res_fit.
  - rewrite H4n. exact (fr_nlocals _ _ _ Hk3).
Qed.

Lemma move_external i pos m r e id u args v n :
  client_ok -> (i < n_workers)%nat -> in_loop (pos i) -> Holds m r -> r_quits r = 0 -> r_must r = 0 ->
  r_offer r = Some e -> offers m e id u args -> evalD n 0 u args = Some v ->
  exists p m', wmove (pos, m) (<[i := p]> pos, m') /\ in_loop p /\ Holds m' (with_offer None r) /\
    (user_void u = false -> get_d 0 (locals m' id) = v) /\ sems m' (SExt e) = sems m (SExt e) + 1.
Proof.
  intros Hcl Hi (sel & Hp & Hsel) HH Hq Hms Hof Hoff Hev. apply move_to; [done|]. rewrite Hp. cbn [wcode].
  apply reaches_turn; [done|apply HH|by rewrite (h_quits _ _ HH)|done|]. intros sel' m1 Hsel' Ha.
  destruct (Holds_asked _ _ _ HH Ha) as [HH1 Hs1]. pose proof (i_exited _ (h_idle _ _ HH1)) as Hx.
  assert (Hoff1 : offers m1 e id u args) by (destruct Ha as [->|[v' ->]]; done).
  assert (Hse : sems m1 = sems m) by (destruct Ha as [->|[v' ->]]; done).
  pose proof (h_offer _ _ HH1) as Ho1. rewrite Hof in Ho1.
  unfold turn_rest. cbn [bind act]. eapply reaches_step; [done|reflexivity|]. rewrite Ho1.
  rewrite bind_assoc. apply reaches_bind. eapply solo_mono; [by apply (solo_steal_external i e id u args v n); [..|apply HH1| | |]|].
  intros ? m2 [[]]. cbn [bind act]. eapply reaches_step; [done|reflexivity|].
  rewrite ran_ints0, (h_must _ _ HH1), Hms. cbn [negb Z.eqb when bind turn_done].
  apply reaches_now. exists (PLoop sel'). split_and!; [done|by exists sel'| |done|].
  - destruct HH1. split; simpl; rewrite ?ran_ints0; try done.
    + by rewrite ran_sems0, fn_lookup_insert_ne.
    + by rewrite ran_lock0.
  - rewrite ran_sems0, fn_lookup_insert. by rewrite Hse.
Qed.
End Lifecycle.
