(* ===== verification/Completion.v ===== *)
(** * Clients get their results

    The protocol a client follows ([lace_start], then any number of [RUN]s, [lace_suspend]s
    and [lace_resume]s, then [lace_stop]), and the theorem that every client whose program
    evaluates within the deque can run to its end. *)

From S2P Require Export Lifecycle.

(** Not started; running with [lace_awaken_count = 1 + a]; suspended; stopped. *)
Inductive phase := Off | Awake (a : nat) | Asleep | Stopped.

(** What [lace_resume] and [lace_suspend] do to the phase. *)
Definition resumed (ph : phase) : phase :=
  match ph with Awake a => Awake (S a) | _ => Awake 0 end.

Definition suspended (a : nat) : phase := match a with O => Asleep | S a' => Awake a' end.

(** The workers have been started and not yet stopped. *)
Definition started (ph : phase) : Prop := match ph with Awake _ | Asleep => True | _ => False end.

Section Phases.
Context {cfg : Cfg} {cfg_ok : CfgOk} {client : Client}.

Abbreviation N := (Z.of_nat n_workers).

Definition quiet (awaken running wait : Z) : regs := mkRegs awaken running 0 0 0 0 0 wait 0 0 None None.

Definition InPhase (ph : phase) (pos : nat -> wpos) (m : mem) : Prop :=
  match ph with
  | Off =>
      (forall i, (i < n_workers)%nat -> pos i = PNew) /\ Holds m (quiet 0 0 0) /\
      forall i, task_thief (slots m i 0) = THIEF_EMPTY
  | Awake a =>
      (forall i, (i < n_workers)%nat -> in_loop (pos i)) /\ exists w, Holds m (quiet (1 + Z.of_nat a) N w)
  | Asleep =>
      (forall i, (i < n_workers)%nat -> asleep (pos i)) /\ exists w, Holds m (quiet 0 0 w)
  | Stopped => (forall i, (i < n_workers)%nat -> pos i = PDone) /\ Idle m
  end.

Lemma InPhase_idle ph pos m : InPhase ph pos m -> Idle m.
Proof. destruct ph; simpl; [intros (_ & H & _)|intros (_ & w & H)|intros (_ & w & H)|intros [_ H]]; by try apply H. Qed.

(** ** Small loops *)

Lemma solo_spin t {R} (e : ev R) stop x m (Q : R -> mem -> Prop) :
  exited m = false -> exec1 t e m = [(x, m)] -> stop x = true -> Q x m -> solo t (spin e stop) m Q.
Proof.
  intros Hx He Hs HQ. unfold spin. apply solo_next. cbn [bind act]. eapply solo_step; [done|exact He|].
  apply solo_ret. rewrite Hs. by apply solo_ret.
Qed.

Lemma solo_posts t s n i m (Q : unit -> mem -> Prop) :
  exited m = false -> Q tt (upd_sem s (sems m s + Z.of_nat n) m) ->
  solo t (for_upto n i (fun _ => act (Sem_post s))) m Q.
Proof.
  revert i m. induction n as [|n IH]; intros i m Hx HQ; cbn [for_upto].
  - apply solo_ret. unfold upd_sem in HQ. rewrite Z.add_0_r, fn_insert_same in HQ. by destruct m.
  - cbn [bind act]. eapply solo_step; [done|reflexivity|]. apply IH; [done|]. unfold upd_sem, set_sems in *. simpl.
    rewrite fn_lookup_insert, fn_insert_twice. by replace (sems m s + 1 + Z.of_nat n) with (sems m s + Z.of_nat (S n)) by lia.
Qed.

Lemma solo_creates t n i m (Q : unit -> mem -> Prop) :
  exited m = false ->
  (forall f, (forall j, (i <= j < i + n)%nat -> f j = true) -> (forall j, created m j = true -> f j = true) ->
     Q tt (set_created f m)) ->
  solo t (for_upto n i (fun i => act (Pthread_create i))) m Q.
Proof.
  revert i m. induction n as [|n IH]; intros i m Hx HQ; cbn [for_upto].
  - apply solo_ret. replace m with (set_created (created m) m) by (by destruct m). apply HQ; [lia|done].
  - cbn [bind act]. eapply solo_step; [done|reflexivity|]. apply IH; [done|]. intros f Hf Hm.
    change (set_created f (set_created _ m)) with (set_created f m). apply HQ.
    + intros j Hj. destruct (decide (j = i)) as [->|]; [|apply Hf; lia]. apply Hm. simpl. by rewrite fn_lookup_insert.
    + intros j Hj. apply Hm. simpl. by case_insert.
Qed.

(** ** Resuming and suspending *)

Lemma drive_resume t ph pos m :
  (0 < n_workers)%nat -> started ph -> InPhase ph pos m ->
  drive t lace_resume pos m (fun _ pos' m' => InPhase (resumed ph) pos' m' /\ Stacks m m').
Proof.
  intros HN Hph Hin. pose proof (i_exited _ (InPhase_idle _ _ _ Hin)) as Hx. apply drive_loop. cbn [bind act].
  eapply drive_step; [done|reflexivity|]. destruct ph as [|a| |]; try done; simpl in Hin; destruct Hin as (Hp & w & HH).
  - rewrite (h_awaken _ _ HH). simpl r_awaken. rewrite (proj2 (Z.ltb_ge _ _)), (proj2 (Z.eqb_neq _ _)) by lia.
    eapply drive_cas; [done|reflexivity|by rewrite (h_awaken _ _ HH)|]. apply drive_ret. eexists. split; [done|].
    split; [|done]. split; [done|]. exists w. destruct HH. split; simpl;
      [by apply (Idle_same _ _ h_idle)|rewrite fn_lookup_insert; lia|rewrite ?fn_lookup_insert_ne by done; done..].
  - rewrite (h_awaken _ _ HH). simpl r_awaken. cbn [Z.ltb Z.eqb Z.compare].
    eapply drive_cas; [done|reflexivity|by rewrite (h_awaken _ _ HH)|].
    apply drive_bind, drive_solo, solo_posts; [done|]. cbn [bind act].
    eapply drive_step; [done|reflexivity|].
    set (m1 := upd_int _ _ _).
    assert (HH1 : Holds m1 (with_sem N (quiet 1 0 w))).
    { unfold m1. destruct HH. split; simpl; [by apply (Idle_same _ _ h_idle)|..];
        rewrite ?fn_lookup_insert, ?fn_lookup_insert_ne by done; try done; simpl in *; lia. }
    destruct (all_wake pos m1 _ Hp HN HH1) as (pos' & m2 & Hrun & Hp' & HH2 & Hst); [done..|].
    eapply drive_workers; [exact Hrun|]. apply drive_ret. eexists. split; [done|]. split; [|exact Hst].
    split; [done|]. eexists. exact HH2.
Qed.

(** A change of one of the flags. *)
Ltac flags HH :=
  destruct HH; split; simpl;
  [match goal with H : Idle _ |- _ => by apply (Idle_same _ _ H) end|
   rewrite ?fn_lookup_insert, ?fn_lookup_insert_ne by done; try done; simpl in *; try lia..].

Lemma drive_suspend t a pos m :
  (0 < n_workers)%nat -> InPhase (Awake a) pos m ->
  drive t lace_suspend pos m (fun _ pos' m' => InPhase (suspended a) pos' m' /\ Stacks m m').
Proof.
  intros HN Hin. pose proof (i_exited _ (InPhase_idle _ _ _ Hin)) as Hx. apply drive_loop. cbn [bind act].
  destruct Hin as (Hp & w & HH). eapply drive_step; [done|reflexivity|].
  rewrite (h_awaken _ _ HH). simpl r_awaken. rewrite (proj2 (Z.leb_gt _ _)) by lia. destruct a as [|a].
  - cbn [Z.add Z.eqb Pos.eqb Z.of_nat]. eapply drive_cas; [done|reflexivity|by rewrite (h_awaken _ _ HH)|].
    set (m1 := upd_int _ _ m). assert (HH1 : Holds m1 (quiet (-1) N w)) by (unfold m1; flags HH).
    apply drive_bind, drive_solo. eapply solo_spin; [done|reflexivity|rewrite (h_running _ _ HH1); by apply Z.eqb_refl|].
    cbn [bind act]. eapply drive_step; [done|reflexivity|].
    set (m2 := upd_int _ _ m1). assert (HH2 : Holds m2 (with_must 1 (quiet (-1) N w))) by (unfold m2; flags HH1).
    destruct (all_sleep pos m2 _ Hp HH2) as (pos' & m3 & Hrun & Hp' & HH3 & Hst); [done..|].
    eapply drive_workers; [exact Hrun|]. pose proof (i_exited _ (h_idle _ _ HH3)) as Hx3.
    apply drive_bind, drive_solo. eapply solo_spin; [done|reflexivity|by rewrite (h_running _ _ HH3)|].
    cbn [bind act]. do 2 (eapply drive_step; [done|reflexivity|]). apply drive_ret. eexists. split; [done|].
    split; [|exact Hst]. split; [done|]. exists w. flags HH3.
  - rewrite (proj2 (Z.eqb_neq _ _)) by lia. eapply drive_cas; [done|reflexivity|by rewrite (h_awaken _ _ HH)|].
    apply drive_ret. eexists. split; [done|]. split; [|done]. split; [done|]. exists w. flags HH.
Qed.

(** ** Starting and stopping *)

Lemma solo_start t m (Q : unit -> mem -> Prop) :
  Holds m (quiet 0 0 0) ->
  (forall m', Holds m' (with_sem N (quiet 1 0 0)) -> slots m' = slots m -> Stacks m m' ->
     (forall i, (i < n_workers)%nat -> created m' i = true) -> Q tt m') ->
  solo t lace_start m Q.
Proof.
  intros HH HQ. pose proof (i_exited _ (h_idle _ _ HH)) as Hx. unfold lace_start, lace_barrier_init. cbn [bind act].
  do 8 (eapply solo_step; [done|reflexivity|]).
  do 3 (eapply (solo_act _ _ _ _ true); [done|by left|]). cbn [negb orb when bind].
  do 2 (eapply solo_step; [done|reflexivity|]).
  apply solo_bind, solo_creates; [done|]. intros f Hf _. cbn [bind].
  apply solo_next. cbn [bind act]. eapply solo_step; [done|reflexivity|]. simpl ints.
  rewrite ?fn_lookup_insert. cbn [Z.ltb Z.eqb Z.compare].
  eapply solo_cas; [done|reflexivity|simpl; by rewrite fn_lookup_insert|].
  apply solo_bind, solo_posts; [done|]. eapply solo_step; [done|reflexivity|]. apply solo_ret. apply solo_ret. apply HQ.
  - split; simpl; [|destruct HH; rewrite ?fn_lookup_insert, ?fn_lookup_insert_ne by done; done..].
    apply (Idle_same m); [apply HH|done|simpl; by rewrite (i_newframe _ (h_idle _ _ HH))|done..].
  - done.
  - done.
  - intros i Hi. simpl. apply Hf. lia.
Qed.

Lemma drive_start t pos m :
  InPhase Off pos m ->
  drive t lace_start pos m (fun _ pos' m' => InPhase (Awake 0) pos' m' /\ Stacks m m').
Proof.
  intros (Hp & HH & Hs). rewrite <-(bind_ret_r lace_start). apply drive_bind, drive_solo, solo_start; [done|].
  intros m1 HH1 Hsl Hst Hc.
  destruct (all_start pos m1 _ Hp HH1) as (pos' & m2 & Hrun & Hp' & HH2 & Hst2);
    [intros i Hi; rewrite Hsl; auto|done|done|].
  eapply drive_workers; [exact Hrun|]. apply drive_ret. split; [|by eapply Stacks_trans]. split; [done|]. by exists 0.
Qed.

Lemma drive_stop t ph pos m :
  (0 < n_workers)%nat -> started ph -> InPhase ph pos m ->
  drive t lace_stop pos m (fun _ pos' m' => InPhase Stopped pos' m').
Proof.
  intros HN Hph Hin. unfold lace_stop. apply drive_bind. eapply drive_mono; [by apply drive_resume|].
  intros _ pos1 m1 [Hin1 _]. assert (Ha : exists a, resumed ph = Awake a) by (destruct ph; eauto).
  destruct Ha as [a Ha]. rewrite Ha in Hin1. destruct Hin1 as (Hp & w & HH). pose proof (i_exited _ (h_idle _ _ HH)) as Hx.
  apply drive_bind, drive_solo. eapply solo_spin; [done|reflexivity|rewrite (h_running _ _ HH); by apply Z.eqb_refl|].
  cbn [bind act]. eapply drive_step; [done|reflexivity|]. set (m2 := upd_int _ _ m1).
  assert (HH2 : Holds m2 (with_quits 1 (quiet (1 + Z.of_nat a) N w))) by (unfold m2; flags HH).
  destruct (all_stop pos1 m2 _ Hp HH2) as (pos' & m3 & Hrun & Hp' & HH3 & Hst); [done..|].
  eapply drive_workers; [exact Hrun|]. pose proof (i_exited _ (h_idle _ _ HH3)) as Hx3.
  apply drive_bind, drive_solo. eapply solo_spin; [done|reflexivity|by rewrite (h_running _ _ HH3)|].
  unfold lace_barrier_destroy. apply drive_bind, drive_solo, solo_bind.
  eapply solo_spin; [done|reflexivity|by rewrite (h_leaving _ _ HH3)|]. apply solo_ret.
  do 2 (eapply drive_step; [done|reflexivity|]). apply drive_ret. split; [done|]. apply (Idle_same m3); try done. apply HH3.
Qed.

(** ** Running tasks *)

Ltac cstep := eapply drive_step; [done|reflexivity|]; cbn [bind].

(** The client offers its task, worker 0 runs it and signals the client. *)
Lemma drive_offer t pos m r e id u args v n {A} (k : unit -> lcode A) Q :
  client_ok -> (0 < n_workers)%nat -> (forall i, (i < n_workers)%nat -> in_loop (pos i)) ->
  Holds m r -> r_quits r = 0 -> r_must r = 0 -> r_offer r = None -> sems m (SExt e) = 0 ->
  offers m e id u args -> evalD n 0 u args = Some v ->
  (forall pos' m', (forall i, (i < n_workers)%nat -> in_loop (pos' i)) -> Holds m' r ->
    (user_void u = false -> get_d 0 (locals m' id) = v) -> drive t (k tt) pos' m' Q) ->
  drive t (offer_external e ;;; Act (Sem_wait (SExt e)) k) pos m Q.
Proof.
  intros Hcl HN Hp HH Hq Hms Hof Hsem Hoff Hev Hk. pose proof (i_exited _ (h_idle _ _ HH)) as Hx.
  apply drive_bind. unfold offer_external. apply drive_loop. cbn [bind act].
  change (Act (Cas_external None (Some e)) ?k) with (bind (act (Cas_external None (Some e))) k).
  apply drive_bind, drive_solo. eapply (solo_act _ _ _ _ (true, None)); [done| |].
  { simpl. rewrite (h_offer _ _ HH), Hof, decide_True by done. by left. }
  apply solo_ret. apply drive_ret. eexists. split; [done|]. set (m1 := set_external (Some e) m).
  assert (HH1 : Holds m1 (with_offer (Some e) r)) by (unfold m1; flags HH).
  destruct (move_external 0 pos m1 _ e id u args v n Hcl HN (Hp _ HN) HH1) as (p & m2 & Hm & Hlp & HH2 & Hres & Hs2); [done..|].
  eapply drive_workers; [eapply rtc_l; [exact Hm|apply rtc_refl]|].
  pose proof (i_exited _ (h_idle _ _ HH2)) as Hx2.
  eapply drive_step; [done|simpl; rewrite Hs2; change (sems m1 (SExt e)) with (sems m (SExt e)); rewrite Hsem; reflexivity|].
  apply Hk.
  - intros i Hi. destruct (decide (0%nat = i)) as [<-|Hne]; [by rewrite fn_lookup_insert|].
    rewrite fn_lookup_insert_ne by done. by apply Hp.
  - replace r with (with_offer None (with_offer (Some e) r)) by (by destruct r; simpl in *; subst). flags HH2.
  - done.
Qed.

(** Nobody has claimed the workers, so the wait ends at once. *)
Lemma drive_no_wait t a cond pos m (Q : unit -> (nat -> wpos) -> mem -> Prop) :
  exited m = false -> cond (ints m a) = false -> Q tt pos m -> drive t (cond_wait_while a cond) pos m Q.
Proof.
  intros Hx Hc HQ. apply drive_loop. cbn [bind act]. cstep. rewrite Hc. apply drive_ret. by eexists.
Qed.

(** The functions that hand a task over to the workers. *)
Definition runs_external (t : nat) (run : tref -> lcode unit) : Prop :=
  forall ph pos m id u args v n,
    started ph -> InPhase ph pos m ->
    (id < n_locals m)%nat -> task_ready (locals m id) (u, args) -> evalD n 0 u args = Some v ->
    drive t (run (TLoc id)) pos m (fun _ pos' m' =>
      InPhase ph pos' m' /\ (user_void u = false -> get_d 0 (locals m' id) = v)).

(** After a [lace_resume] the matching [lace_suspend] leads back. *)
Lemma resumed_suspended ph :
  started ph -> exists a, resumed ph = Awake a /\ suspended a = ph.
Proof. destruct ph; try done; eauto. Qed.

Lemma get_worker_client t m : (n_workers <= t)%nat -> exec1 t Get_worker m = [(None, m)].
Proof. intros Ht. simpl. by rewrite decide_False by lia. Qed.

(** The task and its descriptor are ready to be offered. *)
Lemma offers_prepared m id u args :
  (id < n_locals m)%nat -> task_ready (locals m id) (u, args) ->
  let m' := upd_sem (SExt (n_ets m)) 0 (upd_task (TLoc id) (set_task_thief THIEF_EMPTY)
              (set_ets (<[n_ets m := TLoc id]> (et_task m)) (S (n_ets m)) m)) in
  offers m' (n_ets m) id u args /\ sems m' (SExt (n_ets m)) = 0.
Proof.
  intros Hid Hrd. cbv zeta. split; [|simpl; by rewrite fn_lookup_insert]. split_and!; simpl.
  - by rewrite fn_lookup_insert.
  - done.
  - by rewrite fn_lookup_insert.
Qed.

Lemma Holds_prepared m r id e :
  Holds m r ->
  Holds (upd_sem (SExt (n_ets m)) 0 (upd_task (TLoc id) (set_task_thief THIEF_EMPTY)
              (set_ets (<[n_ets m := e]> (et_task m)) (S (n_ets m)) m))) r.
Proof.
  intros HH. destruct HH. split; simpl; try done.
  apply (Idle_same (upd_task (TLoc id) (set_task_thief THIEF_EMPTY) m)); try done. by apply Idle_upd_local.
Qed.

(** The part both functions start with: wake up the workers and prepare the task. *)
Lemma drive_prepare t ph pos m id u args {A} (k : nat -> lcode A) Q :
  (0 < n_workers)%nat -> (n_workers <= t)%nat -> started ph ->
  InPhase ph pos m -> (id < n_locals m)%nat -> task_ready (locals m id) (u, args) ->
  (forall a w e pos' m', suspended a = ph -> (forall i, (i < n_workers)%nat -> in_loop (pos' i)) ->
     Holds m' (quiet (1 + Z.of_nat a) N w) -> offers m' e id u args -> sems m' (SExt e) = 0 ->
     drive t (k e) pos' m' Q) ->
  drive t (lace_resume ;;;
    Act (Alloc_ext (TLoc id)) (fun et => Act (Store_thief (TLoc id) THIEF_EMPTY) (fun _ =>
      Act (Sem_init (SExt et) 0) (fun _ => k et)))) pos m Q.
Proof.
  intros HN Ht Hph Hin Hid Hrd Hk. destruct (resumed_suspended ph Hph) as (a & Ha & Hsu).
  apply drive_bind. eapply drive_mono; [by apply drive_resume|].
  intros _ pos1 m1 [Hin1 [Hst1 Hst1']]. rewrite Ha in Hin1. destruct Hin1 as (Hp & w & HH).
  rewrite <-Hst1 in Hrd. rewrite <-Hst1' in Hid. pose proof (i_exited _ (h_idle _ _ HH)) as Hx. do 3 cstep.
  destruct (offers_prepared m1 id u args Hid Hrd) as [Hoff Hsem].
  exact (Hk a w (n_ets m1) pos1 _ Hsu Hp (Holds_prepared m1 _ id (TLoc id) HH) Hoff Hsem).
Qed.

Lemma run_task_external t :
  client_ok -> (0 < n_workers)%nat -> (n_workers <= t)%nat -> runs_external t lace_run_task.
Proof.
  intros Hcl HN Ht ph pos m id u args v n Hph Hin Hid Hrd Hev. pose proof (i_exited _ (InPhase_idle _ _ _ Hin)) as Hx.
  unfold lace_run_task. cbn [bind act]. eapply drive_step; [done|by apply get_worker_client|].
  eapply (drive_prepare t ph); [done..|]. clear dependent pos m. intros a w e pos m Hsu Hp HH Hoff Hsem.
  pose proof (i_exited _ (h_idle _ _ HH)) as Hx. eapply drive_step; [done|simpl; rewrite (h_lock _ _ HH); reflexivity|].
  apply drive_bind, drive_no_wait; [done|simpl; by rewrite (h_exclusive _ _ HH)|]. cbn [bind act]. do 3 cstep.
  set (m2 := set_lock None _). assert (HH2 : Holds m2 (with_counter 1 (quiet (1 + Z.of_nat a) N w))).
  { unfold m2. simpl ints. rewrite (h_counter _ _ HH). flags HH. }
  eapply (drive_offer t pos m2 _ e id u args v n); [done|done|done|exact HH2|done..|].
  intros pos1 m3 Hp1 HH3 Hres. pose proof (i_exited _ (h_idle _ _ HH3)) as Hx3.
  eapply drive_step; [done|simpl; rewrite (h_lock _ _ HH3); reflexivity|]. do 3 cstep. simpl ints.
  rewrite fn_lookup_insert_ne, (h_exclusive _ _ HH3) by done. cbn [negb Z.eqb r_exclusive with_counter quiet bind]. cstep.
  set (m4 := set_lock None _). assert (HH4 : Holds m4 (quiet (1 + Z.of_nat a) N w)).
  { unfold m4. rewrite (h_counter _ _ HH3). flags HH3. }
  eapply drive_mono; [apply (drive_suspend t a); [done|split; [done|by exists w]]|].
  intros _ pos5 m5 [Hin5 [Hl5 _]]. rewrite Hsu in Hin5. split; [done|]. by rewrite Hl5.
Qed.

Lemma run_task_exclusive_external t :
  client_ok -> (0 < n_workers)%nat -> (n_workers <= t)%nat -> runs_external t lace_run_task_exclusive.
Proof.
  intros Hcl HN Ht ph pos m id u args v n Hph Hin Hid Hrd Hev. pose proof (i_exited _ (InPhase_idle _ _ _ Hin)) as Hx.
  unfold lace_run_task_exclusive. cbn [bind act]. eapply drive_step; [done|by apply get_worker_client|].
  eapply (drive_prepare t ph); [done..|]. clear dependent pos m. intros a w e pos m Hsu Hp HH Hoff Hsem.
  pose proof (i_exited _ (h_idle _ _ HH)) as Hx. eapply drive_step; [done|simpl; rewrite (h_lock _ _ HH); reflexivity|].
  apply drive_bind, drive_no_wait; [done|simpl; by rewrite (h_exclusive _ _ HH)|]. cbn [bind act]. cstep.
  apply drive_bind, drive_no_wait; [done|simpl; rewrite fn_lookup_insert_ne by done; by rewrite (h_counter _ _ HH)|].
  cbn [bind act]. cstep.
  set (m2 := set_lock None _). assert (HH2 : Holds m2 (with_exclusive 1 (quiet (1 + Z.of_nat a) N w))) by (unfold m2; flags HH).
  eapply (drive_offer t pos m2 _ e id u args v n); [done|done|done|exact HH2|done..|].
  intros pos1 m3 Hp1 HH3 Hres. pose proof (i_exited _ (h_idle _ _ HH3)) as Hx3.
  eapply drive_step; [done|simpl; rewrite (h_lock _ _ HH3); reflexivity|]. do 3 cstep.
  set (m4 := set_lock None _). assert (HH4 : Holds m4 (quiet (1 + Z.of_nat a) N w)) by (unfold m4; flags HH3).
  eapply drive_mono; [apply (drive_suspend t a); [done|split; [done|by exists w]]|].
  intros _ pos5 m5 [Hin5 [Hl5 _]]. rewrite Hsu in Hin5. split; [done|]. by rewrite Hl5.
Qed.

Lemma InPhase_local ph pos m T :
  InPhase ph pos m -> length (task_d T) = d_words ->
  InPhase ph pos (set_task (TLoc (n_locals m)) T (set_locals (locals m) (S (n_locals m)) m)).
Proof.
  intros Hin HT. set (m' := set_task _ _ _).
  assert (Hid : Idle m').
  { pose proof (InPhase_idle _ _ _ Hin) as []. split; simpl; try done.
    - intros i Hi. by apply (Deque_same i [] m); auto.
    - intros id. by case_insert. }
  assert (HH : forall r, Holds m r -> Holds m' r) by (intros r []; by split).
  destruct ph; simpl in *.
  - destruct Hin as (? & ? & ?). split_and!; auto.
  - destruct Hin as (? & w & ?). split; [done|]. exists w. auto.
  - destruct Hin as (? & w & ?). split; [done|]. exists w. auto.
  - destruct Hin as [? _]. done.
Qed.

Lemma drive_RUN t run ph pos m u args v n :
  runs_external t run -> started ph -> InPhase ph pos m ->
  length args = user_arity u -> evalD n 0 u args = Some v ->
  drive t (with_stack_task (F_user u) args run (user_void u)) pos m (fun r pos' m' => r = v /\ InPhase ph pos' m').
Proof.
  intros Hrun Hph Hin Hlen Hev. pose proof (InPhase_idle _ _ _ Hin) as Hid. pose proof (i_exited _ Hid) as Hx.
  unfold with_stack_task. cbn [bind act]. cstep.
  apply drive_bind, drive_solo, solo_init_task; [done|apply (i_locals _ Hid)|done|]. intros T [_ HT] HTd.
  pose proof (InPhase_local ph pos m T Hin HTd) as Hin1. set (m1 := set_task _ _ _) in *.
  apply drive_bind. eapply drive_mono; [apply (Hrun ph pos m1 (n_locals m) u args v n); [done..| | |done]|].
  - simpl. lia.
  - simpl. by rewrite fn_lookup_insert.
  - intros _ pos2 m2 [Hin2 Hres]. apply drive_solo, (solo_load_res t u v).
    + apply (i_exited _ (InPhase_idle _ _ _ Hin2)).
    + by apply (evalD_void n 0 u args).
    + done.
    + by split.
Qed.

(** ** Client programs *)

(** The evaluator for client threads that follow the protocol: the value and the phase the
    program ends in. *)
Fixpoint evalLife (fuel : nat) (ph : phase) (p : cprog) : option (val * phase) :=
  match p with
  | CRet v => Some (v, ph)
  | CStart k => match ph with Off => evalLife fuel (Awake 0) k | _ => None end
  | CStop k => match ph with Awake _ | Asleep => evalLife fuel Stopped k | _ => None end
  | CSuspend k => match ph with Awake a => evalLife fuel (suspended a) k | _ => None end
  | CResume k => match ph with Awake _ | Asleep => evalLife fuel (resumed ph) k | _ => None end
  | CRun u args k | CRunEx u args k =>
      match ph with
      | Awake _ | Asleep => r ← evalD fuel 0 u args; evalLife fuel ph (k r)
      | _ => None
      end
  | CNewframe _ _ _ | CTogether _ _ _ => None
  end.

(** Clients that take turns. *)
Fixpoint evalTurns (fuel : nat) (ph : phase) (progs : list cprog) : option (list val * phase) :=
  match progs with
  | [] => Some ([], ph)
  | p :: progs' =>
      '(v, ph1) ← evalLife fuel ph p;
      '(vs, ph2) ← evalTurns fuel ph1 progs';
      Some (v :: vs, ph2)
  end.

Lemma drive_client t fuel ph p v ph' pos m :
  client_ok -> (0 < n_workers)%nat -> (n_workers <= t)%nat -> cprog_ok p ->
  evalLife fuel ph p = Some (v, ph') -> InPhase ph pos m ->
  drive t (cinterp p) pos m (fun r pos' m' => r = v /\ InPhase ph' pos' m').
Proof.
  intros Hcl HN Ht. revert ph pos m. induction p as [v0|k IH|k IH|k IH|k IH|u args k IH|u args k IH|u args k IH|u args k IH];
    intros ph pos m Hok Hev Hin; simpl in Hok, Hev; cbn [cinterp].
  - simplify_eq. by apply drive_ret.
  - destruct ph; try done. apply drive_bind. eapply drive_mono; [by apply drive_start|].
    intros _ pos1 m1 [Hin1 _]. by apply (IH (Awake 0)).
  - apply drive_bind. eapply drive_mono; [apply (drive_stop t ph); [done|by destruct ph|done]|].
    intros ? pos1 m1 Hin1. apply (IH Stopped); [done|by destruct ph|done].
  - destruct ph as [|a| |]; try done. apply drive_bind. eapply drive_mono; [by apply (drive_suspend t a)|].
    intros _ pos1 m1 [Hin1 _]. by apply (IH (suspended a)).
  - apply drive_bind. eapply drive_mono; [apply (drive_resume t ph); [done|by destruct ph|done]|].
    intros _ pos1 m1 [Hin1 _]. apply (IH (resumed ph)); [done|by destruct ph|done].
  - destruct Hok as [Hlen Hok]. destruct (evalD fuel 0 u args) as [r|] eqn:Er; [|by destruct ph].
    assert (Hr : runs_external t lace_run_task) by (by apply run_task_external).
    rewrite RUN_user by done. apply drive_bind. eapply drive_mono; [refine (drive_RUN t _ ph pos m u args r fuel Hr _ Hin Hlen Er); by destruct ph|].
    intros r' pos1 m1 [-> Hin1]. apply (IH r ph); [done|by destruct ph|done].
  - destruct Hok as [Hlen Hok]. destruct (evalD fuel 0 u args) as [r|] eqn:Er; [|by destruct ph].
    assert (Hr : runs_external t lace_run_task_exclusive) by (by apply run_task_exclusive_external).
    rewrite RUNEX_user by done. apply drive_bind. eapply drive_mono; [refine (drive_RUN t _ ph pos m u args r fuel Hr _ Hin Hlen Er); by destruct ph|].
    intros r' pos1 m1 [-> Hin1]. apply (IH r ph); [done|by destruct ph|done].
  - done.
  - done.
Qed.

(** The values are those of the sequential semantics. *)
Lemma evalLife_returns fuel ph p v ph' : evalLife fuel ph p = Some (v, ph') -> ReturnsC p v.
Proof.
  revert ph. induction p as [v0|k IH|k IH|k IH|k IH|u args k IH|u args k IH|u args k IH|u args k IH]; intros ph H; simpl in H.
  - simplify_eq. constructor.
  - destruct ph; try done. constructor. eauto.
  - destruct ph; try done; constructor; eauto.
  - destruct ph; try done. constructor. eauto.
  - destruct ph; try done; constructor; eauto.
  - destruct (evalD fuel 0 u args) as [r|] eqn:Er; [|by destruct ph]. econstructor; [by eapply eval_sound, evalD_eval|].
    destruct ph; try done; eauto.
  - destruct (evalD fuel 0 u args) as [r|] eqn:Er; [|by destruct ph]. econstructor; [by eapply eval_sound, evalD_eval|].
    destruct ph; try done; eauto.
  - done.
  - done.
Qed.

(** ** The initial state *)

Lemma zero_phase : InPhase Off (fun _ => PNew) zero_mem.
Proof.
  assert (Hlen : length (replicate d_words (VZ 0)) = d_words) by apply length_replicate.
  split; [done|]. split; [|done]. split; try done. split; try done.
  intros i Hi. pose proof dq_min. split; simpl; try done; change (zlen (@nil payload)) with 0; try lia.
Qed.

Lemma init_client_thread (progs : list cprog) i :
  threads (init_config (cinterp <$> progs)) !! (n_workers + i)%nat =
    (fun p => Thread (cinterp p) []) <$> progs !! i.
Proof.
  simpl. rewrite lookup_app_r; rewrite length_fmap, length_seq; [|lia].
  replace (n_workers + i - n_workers)%nat with i by lia. rewrite <-list_fmap_compose, list_lookup_fmap. done.
Qed.

Lemma init_workers (progs : list cprog) : Workers (fun _ => PNew) (init_config (cinterp <$> progs)).
Proof.
  intros i Hi. simpl. rewrite lookup_app_l by (by rewrite length_fmap, length_seq).
  by rewrite list_lookup_fmap, lookup_seq_lt.
Qed.

(** Clients [k], [k + 1], ... run one after the other. *)
Lemma turns_complete fuel ph progs vs ph' k pos c :
  client_ok -> (0 < n_workers)%nat -> Forall cprog_ok progs -> evalTurns fuel ph progs = Some (vs, ph') ->
  Workers pos c -> InPhase ph pos (memory c) ->
  (forall i p, progs !! i = Some p -> threads c !! (n_workers + k + i)%nat = Some (Thread (cinterp p) [])) ->
  exists c' pos', lace_reachable c c' /\ Workers pos' c' /\ InPhase ph' pos' (memory c') /\
    (forall i v, vs !! i = Some v -> threads c' !! (n_workers + k + i)%nat = Some (Thread (Ret v) [])) /\
    (forall j, (j < k)%nat -> threads c' !! (n_workers + j)%nat = threads c !! (n_workers + j)%nat).
Proof.
  intros Hcl HN. revert ph vs k pos c. induction progs as [|p progs IH]; intros ph vs k pos c Hok Hev Hw Hin Hth; simpl in Hev.
  - simplify_eq. exists c, pos. split_and!; [apply rtc_refl|done..].
  - destruct (evalLife fuel ph p) as [[v ph1]|] eqn:E1; [|done]. simpl in Hev.
    destruct (evalTurns fuel ph1 progs) as [[vs' ph2]|] eqn:E2; [|done]. simpl in Hev. simplify_eq.
    apply Forall_cons in Hok as [Hp Hok]. pose proof (Hth 0%nat p eq_refl) as H0. rewrite Nat.add_0_r in H0.
    rewrite <-(bind_ret_r (cinterp p)) in H0.
    destruct (drive_client (n_workers + k) fuel ph p v ph1 pos (memory c) Hcl HN ltac:(lia) Hp E1 Hin c _ [] ltac:(lia) Hw eq_refl H0)
      as (r & pos1 & c1 & Hr1 & Hw1 & [-> Hin1] & Hth1 & Ho1).
    destruct (IH ph1 vs' (S k) pos1 c1 Hok E2 Hw1 Hin1) as (c2 & pos2 & Hr2 & Hw2 & Hin2 & Hfin & Hold).
    + intros i q Hq. rewrite Ho1 by lia. replace (n_workers + S k + i)%nat with (n_workers + k + S i)%nat by lia. by apply Hth.
    + exists c2, pos2. split_and!; [by eapply reachable_trans|done..| |].
      * intros [|i] v' Hv; simpl in Hv.
        -- simplify_eq. rewrite Nat.add_0_r, Hold by lia. done.
        -- replace (n_workers + k + S i)%nat with (n_workers + S k + i)%nat by lia. by apply Hfin.
      * intros j Hj. rewrite Hold by lia. apply Ho1; lia.
Qed.

Lemma evalTurns_returns fuel ph progs vs ph' i p v :
  evalTurns fuel ph progs = Some (vs, ph') -> progs !! i = Some p -> vs !! i = Some v -> ReturnsC p v.
Proof.
  revert ph vs i. induction progs as [|q progs IH]; intros ph vs i Hev Hp Hv; simpl in Hev; [done|].
  destruct (evalLife fuel ph q) as [[v1 ph1]|] eqn:E1; [|done]. simpl in Hev.
  destruct (evalTurns fuel ph1 progs) as [[vs' ph2]|] eqn:E2; [|done]. simpl in Hev. simplify_eq.
  destruct i as [|i]; simpl in *; simplify_eq; [by eapply evalLife_returns|by eapply IH].
Qed.

End Phases.
