(* ===== verification/Effects.v ===== *)
(** * Code that keeps away from some of the shared state

    [quiet_code t calls c phi] says, by inspection of the code, that thread [t] running [c]
    makes no access the effect [eff] forbids, and that its result satisfies [phi].  Almost all
    functions of Lace are quiet in this sense for the variables with which the workers are
    suspended and stopped; Protocol.v only has to look at the others.  Findings.v uses it with
    another effect. *)

From S2P Require Export Barrier Completion.

(** ** Effects *)

(** The variables with which a client starts, suspends, resumes and stops the workers. *)
Definition flag_var (a : aref) : bool :=
  match a with lace_awaken_count | workers_running | must_suspend | lace_quits => true | _ => false end.

(** The integers that may be written, the semaphores that may be used, and whether the memory
    of the workers may be released. *)
Class Effect := {
  may_write : aref -> bool;
  may_use : sref -> bool;
  may_free : bool;
  only_flags a : may_write a = false -> flag_var a = true;
}.

(** ** Values

    The address of one of the flags of the protocol never gets into a task; the address of a
    local variable of Lace may. *)
Definition word_ok (v : val) : Prop := match v with VAtom a => exists n, a = ALoc n | _ => True end.

Record Words (m : mem) : Prop := {
  words_slots w i : Forall word_ok (task_d (slots m w i));
  words_locals id : Forall word_ok (task_d (locals m id));
}.

Section Effects.
Context {cfg : Cfg} {eff : Effect}.

Definition quiet_ev {R} (e : ev R) : Prop :=
  match e with
  | Store_int a _ | Fetch_add_int a _ | Cas_int a _ _ => may_write a = true
  | Sem_init s _ | Sem_post s | Sem_wait s => may_use s = true
  | Exchange_external x | Cas_external _ x => forall e, x = Some e -> may_use (SExt e) = true
  | Store_d _ _ x => word_ok x
  | Free_workers => may_free = true
  | _ => True
  end.

(** What is known of the result. *)
Definition result_ok {R} (t : nat) (e : ev R) : R -> Prop :=
  match e in ev R return R -> Prop with
  | Load_d _ _ => fun r => word_ok r
  | Alloc_int _ => fun r => exists n, r = ALoc n
  | Alloc_ext _ => fun r => may_use (SExt r) = true
  | Exchange_external _ => fun r => forall e, r = Some e -> may_use (SExt e) = true
  | Get_worker => fun r => r = if decide (t < n_workers)%nat then Some t else None
  | _ => fun _ => True
  end.

(** The external tasks whose semaphore may not be used exist and are not offered. *)
Record EInv (m : mem) : Prop := {
  einv_words : Words m;
  einv_ext e : may_use (SExt e) = false -> (e < n_ets m)%nat /\ external_task m <> Some e;
}.

(** The memories agree on what may not be changed. *)
Record esame (m m' : mem) : Prop := {
  es_ints a : may_write a = false -> ints m' a = ints m a;
  es_sems s : may_use s = false -> sems m' s = sems m s;
  es_freed : may_free = false -> freed m' = freed m;
}.

Lemma esame_refl m : esame m m.
Proof. by split. Qed.

Lemma Words_get m tr : Words m -> Forall word_ok (task_d (get_task tr m)).
Proof. intros [H1 H2]. destruct tr; simpl; auto. Qed.

Lemma Words_set m tr T : Words m -> Forall word_ok (task_d T) -> Words (set_task tr T m).
Proof. intros [H1 H2] HT. destruct tr; split; simpl; intros; repeat case_insert; auto. Qed.

Lemma Words_same m m' : slots m' = slots m -> locals m' = locals m -> Words m -> Words m'.
Proof. intros H1 H2 [A B]. split; intros; rewrite ?H1, ?H2; auto. Qed.

Lemma get_d_ok i T : Forall word_ok (task_d T) -> word_ok (get_d i T).
Proof.
  intros H. unfold get_d. destruct (nth_in_or_default i (task_d T) (VZ 0)) as [Hin| ->]; [|done].
  rewrite Forall_forall in H. apply H. by apply list_elem_of_In.
Qed.

Lemma esame_set_task m tr T : esame m (set_task tr T m).
Proof. by destruct tr. Qed.

Lemma esame_upd_int m a x : may_write a = true -> esame m (upd_int a x m).
Proof. intros Ha. split; simpl; try done. intros b Hb. case_insert; [congruence|done]. Qed.

Lemma esame_upd_sem m s x : may_use s = true -> esame m (upd_sem s x m).
Proof. intros Hs. split; simpl; try done. intros s' Hs'. case_insert; [congruence|done]. Qed.

Lemma EInv_same m m' :
  slots m' = slots m -> locals m' = locals m -> (n_ets m <= n_ets m')%nat ->
  (forall e, may_use (SExt e) = false -> external_task m' = Some e -> external_task m = Some e) -> EInv m -> EInv m'.
Proof.
  intros H1 H2 Hn He [HW HE]. split; [by apply (Words_same m)|]. intros e Hf. destruct (HE e Hf) as [Hlt Hne].
  split; [lia|]. intros Heq. by destruct (Hne (He e Hf Heq)).
Qed.

Lemma EInv_set_task m tr T : EInv m -> Forall word_ok (task_d T) -> EInv (set_task tr T m).
Proof. intros [HW HE] HT. split; [by apply Words_set|]. by destruct tr. Qed.

Lemma EInv_get m tr : EInv m -> Forall word_ok (task_d (get_task tr m)).
Proof. intros [HW _]. by apply Words_get. Qed.

Lemma ext_may_use m x e : EInv m -> x = external_task m -> x = Some e -> may_use (SExt e) = true.
Proof.
  intros [_ HE] Hx Hs. destruct (may_use (SExt e)) eqn:Hf; [done|]. destruct (HE e Hf) as [_ Hne]. congruence.
Qed.

(** The outcomes of an access, case by case. *)
Ltac outcomes Hin :=
  simpl in Hin; unfold weak_cas in Hin; repeat case_match;
  repeat (apply elem_of_cons in Hin as [Hin|Hin]; simplify_eq);
  try (by apply not_elem_of_nil in Hin).

Lemma quiet_exec {R} t (e : ev R) m r m' :
  quiet_ev e -> (r, m') ∈ exec1 t e m -> EInv m -> esame m m' /\ EInv m' /\ result_ok t e r.
Proof.
  intros Hq Hin HE. destruct e; simpl in Hq; outcomes Hin; simpl;
    (split_and!;
     [first [apply esame_refl | by apply esame_upd_int | by apply esame_upd_sem | apply esame_set_task | by split | idtac]
     |first [exact HE | by apply (EInv_same m) | apply EInv_set_task; [exact HE|] | idtac]
     |try done]); try (apply (EInv_get m); exact HE).
  - by apply get_d_ok, EInv_get.
  - apply (Forall_insert _ _ i x (EInv_get m t0 HE) Hq).
  - split; simpl; try done. intros a Ha. rewrite fn_lookup_insert_ne; [done|]. intros <-. by apply only_flags in Ha.
  - by eexists.
  - apply (EInv_same m); simpl; try done; lia.
  - destruct (may_use (SExt (n_ets m))) eqn:Hf; [done|]. destruct (einv_ext _ HE _ Hf). lia.
  - apply (EInv_same m); try done. simpl. intros e Hf He. specialize (Hq e He). congruence.
  - intros e. by apply (ext_may_use m).
  - apply (EInv_same m); try done. simpl. intros e Hf He. specialize (Hq e He). congruence.
  - by rewrite decide_True.
  - by rewrite decide_False.
  - split; simpl; try done. congruence.
Qed.

Definition fn_pre (f : fn) : Prop :=
  match f with Fn_WRAP _ _ _ _ => True | Fn_CALL _ _ _ args => Forall word_ok args end.

(** Code that only makes quiet accesses and whose result satisfies [phi]; [calls] says
    whether it may call functions. *)
Fixpoint quiet_code (t : nat) (calls : Prop) {A} (c : lcode A) (phi : A -> Prop) : Prop :=
  match c with
  | Ret a => phi a
  | Act e k => quiet_ev e /\ forall r, result_ok t e r -> quiet_code t calls (k r) phi
  | Call f k => calls /\ fn_pre f /\ forall v, word_ok v -> quiet_code t calls (k v) phi
  | Iter b i k => exists I, I i /\ forall x, I x -> quiet_code t calls (b x) (fun r =>
      match r with inl x' => I x' | inr y => quiet_code t calls (k y) phi end)
  end.

Lemma quiet_mono t calls {A} (c : lcode A) (phi psi : A -> Prop) :
  (forall a, phi a -> psi a) -> quiet_code t calls c phi -> quiet_code t calls c psi.
Proof.
  revert phi psi. induction c as [A a|A R e k IH|A f k IH|A S B b IHb i k IH]; simpl; intros phi psi Hpp.
  - auto.
  - intros [He Hk]. split; eauto.
  - intros (Ht & Hf & Hk). split_and!; eauto.
  - intros (I & Hi & Hb). exists I. split; [done|]. intros x Hx. eapply IHb; [|by apply Hb]. intros [x'|y]; eauto.
Qed.

Lemma quiet_bind t calls {A B} (c : lcode A) (k : A -> lcode B) phi :
  quiet_code t calls c (fun a => quiet_code t calls (k a) phi) -> quiet_code t calls (bind c k) phi.
Proof.
  induction c as [A a|A R e k' IH|A f k' IH|A S B' b IHb i k' IH]; simpl.
  - done.
  - intros [He Hk]. split; auto.
  - intros (Ht & Hf & Hk). split_and!; auto.
  - intros (I & Hi & Hb). exists I. split; [done|]. intros x Hx. eapply quiet_mono; [|by apply Hb]. intros [x'|y]; auto.
Qed.

End Effects.

(** ** Rules *)

Section Rules.
Context {cfg : Cfg} {eff : Effect} (t : nat) (c : Prop).

Lemma quiet_ret {A} (a : A) (phi : A -> Prop) : phi a -> quiet_code t c (Ret a) phi.
Proof. done. Qed.

Lemma quiet_event {R} (e : ev R) (phi : R -> Prop) :
  quiet_ev e -> (forall r, result_ok t e r -> phi r) -> quiet_code t c (act e) phi.
Proof. by split. Qed.

Lemma quiet_Act {A R} (e : ev R) (k : R -> lcode A) phi :
  quiet_ev e -> (forall r, result_ok t e r -> quiet_code t c (k r) phi) -> quiet_code t c (Act e k) phi.
Proof. by split. Qed.

Lemma quiet_call f (phi : val -> Prop) : c -> fn_pre f -> (forall v, word_ok v -> phi v) -> quiet_code t c (call f) phi.
Proof. intros. split; [done|by split]. Qed.

Lemma quiet_loop {S B} (I : S -> Prop) (i : S) (b : S -> lcode (S + B)) (phi : B -> Prop) :
  I i -> (forall x, I x -> quiet_code t c (b x) (fun r => match r with inl x' => I x' | inr y => phi y end)) ->
  quiet_code t c (loop i b) phi.
Proof. intros Hi Hb. by exists I. Qed.

Lemma quiet_use {A} (p : lcode A) (phi psi : A -> Prop) :
  quiet_code t c p phi -> (forall a, phi a -> psi a) -> quiet_code t c p psi.
Proof. intros H1 H2. by eapply quiet_mono. Qed.
End Rules.

Create HintDb quiet.

(** Code that is quiet by inspection, with the lemmas of the hint database for the functions
    it uses. *)
Ltac not_flag :=
  cbn [quiet_ev];
  match goal with
  | |- may_write ?a = true => let H := fresh in destruct (may_write a) eqn:H; [done|]; by apply only_flags in H
  | |- forall e, _ = Some e -> may_use (SExt e) = true => intros ? [=]; subst; auto
  | |- may_use (SExt _) = true => auto
  end.

Ltac quiet :=
  repeat first
    [ done
    | match goal with
      | |- quiet_code _ _ (bind _ _) _ => apply quiet_bind
      | |- quiet_code _ _ (Ret _) _ => apply quiet_ret
      | |- quiet_code _ _ (act _) _ => apply quiet_event; [first [exact I | done | not_flag | cbn [quiet_ev]]|cbn [result_ok]]
      | |- quiet_code _ _ (Act _ _) _ => apply quiet_Act; [first [exact I | done | not_flag | cbn [quiet_ev]]|cbn [result_ok]]
      | |- quiet_code _ _ (call _) _ => apply quiet_call; [assumption|first [exact I | cbn [fn_pre]]|]
      | |- quiet_code _ _ (loop _ _) _ => apply (quiet_loop _ _ (fun _ => True)); [exact I|]
      | |- quiet_code _ _ (spin _ _) _ => unfold spin
      | |- quiet_code _ _ (when _ _) _ => unfold when
      | |- quiet_code _ _ (let _ := _ in _) _ => cbv zeta
      | |- quiet_code _ _ (if ?b then _ else _) _ => destruct b eqn:?
      | |- quiet_code _ _ (match ?x with _ => _ end) _ => destruct x eqn:?
      | |- quiet_code _ _ _ _ => eapply quiet_use; [solve [eauto 2 with quiet]|]
      | |- match (if ?b then _ else _) with inl _ => _ | inr _ => _ end => destruct b eqn:?
      | |- match ?x with inl _ => _ | inr _ => _ end => destruct x eqn:?
      | |- _ /\ _ => split
      | |- forall _, _ => intro
      end
    | progress cbv beta ].

(** ** The functions of Lace *)

Section QuietCode.
Context {cfg : Cfg} {eff : Effect} (t : nat) (c : Prop).

Abbreviation quiet_any p := (quiet_code t c p (fun _ => True)).

Lemma quiet_barrier : quiet_any lace_barrier.
Proof. unfold lace_barrier. quiet. Qed.
#[local] Hint Resolve quiet_barrier : quiet.

Lemma quiet_init i : quiet_any (lace_init_worker i).
Proof. unfold lace_init_worker. quiet. Qed.

Lemma quiet_get_head w : quiet_any (lace_get_head w).
Proof. unfold lace_get_head. quiet. Qed.
#[local] Hint Resolve quiet_get_head : quiet.

Lemma quiet_shrink w : quiet_any (lace_shrink_shared w).
Proof. unfold lace_shrink_shared. quiet. Qed.
#[local] Hint Resolve quiet_shrink : quiet.

Context (Hc : c).

Lemma quiet_call_f w h tr : quiet_code t c (call_f w h tr) word_ok.
Proof. unfold call_f. quiet. Qed.
#[local] Hint Resolve quiet_call_f : quiet.

Lemma quiet_steal w h v : quiet_any (lace_steal w h v).
Proof. unfold lace_steal. quiet. Qed.
#[local] Hint Resolve quiet_steal : quiet.

Lemma quiet_steal_external w h : quiet_any (lace_steal_external w h).
Proof. unfold lace_steal_external. quiet. Qed.
#[local] Hint Resolve quiet_steal_external : quiet.

Lemma quiet_exec_in_new_frame w h tr : quiet_any (lace_exec_in_new_frame w h tr).
Proof. unfold lace_exec_in_new_frame. quiet. Qed.
#[local] Hint Resolve quiet_exec_in_new_frame : quiet.

Lemma quiet_yield w h : quiet_any (lace_yield w h).
Proof. unfold lace_yield. quiet. Qed.
#[local] Hint Resolve quiet_yield : quiet.

Lemma quiet_YIELD w h : quiet_any (YIELD_NEWFRAME w h).
Proof. unfold YIELD_NEWFRAME. quiet. Qed.
#[local] Hint Resolve quiet_YIELD : quiet.

Lemma quiet_steal_random w h : quiet_any (lace_steal_random w h).
Proof. unfold lace_steal_random. quiet. Qed.
#[local] Hint Resolve quiet_steal_random : quiet.

Lemma quiet_offer_newframe w h tr : quiet_any (offer_newframe w h tr).
Proof. unfold offer_newframe. quiet. Qed.
#[local] Hint Resolve quiet_offer_newframe : quiet.

Lemma quiet_together_root w h tr n : quiet_any (lace_together_root w h tr (ALoc n)).
Proof. unfold lace_together_root. quiet. Qed.

Lemma quiet_newframe_root w h tr n : quiet_any (lace_newframe_root w h tr (ALoc n)).
Proof. unfold lace_newframe_root. quiet. Qed.

Lemma quiet_wrap_together w h tr : quiet_any (lace_wrap_together w h tr).
Proof. unfold lace_wrap_together. quiet. Qed.
#[local] Hint Resolve quiet_wrap_together : quiet.

Lemma quiet_wrap_newframe w h tr : quiet_any (lace_wrap_newframe w h tr).
Proof. unfold lace_wrap_newframe. quiet. Qed.
#[local] Hint Resolve quiet_wrap_newframe : quiet.

(** A worker runs a task it [RUN]s itself. *)
Context (Ht : (t < n_workers)%nat).

Lemma quiet_get_worker {A} (k : option nat -> lcode A) phi :
  quiet_code t c (k (Some t)) phi -> quiet_code t c (bind (act Get_worker) k) phi.
Proof. intros H. apply quiet_bind, quiet_event; [done|]. cbn [result_ok]. intros r ->. by rewrite decide_True. Qed.

Lemma quiet_run_task tr : quiet_any (lace_run_task tr).
Proof. unfold lace_run_task. apply quiet_get_worker. quiet. Qed.

Lemma quiet_run_task_exclusive tr : quiet_any (lace_run_task_exclusive tr).
Proof. unfold lace_run_task_exclusive. apply quiet_get_worker. quiet. Qed.

Lemma quiet_run_newframe tr : quiet_any (lace_run_newframe tr).
Proof. unfold lace_run_newframe. apply quiet_get_worker. quiet. Qed.

Lemma quiet_run_together tr : quiet_any (lace_run_together tr).
Proof. unfold lace_run_together. apply quiet_get_worker. quiet. Qed.
#[local] Hint Resolve quiet_run_task quiet_run_task_exclusive quiet_run_newframe quiet_run_together : quiet.

(** *** Tasks *)

Lemma quiet_leapfrog w h : quiet_any (lace_leapfrog w h).
Proof. unfold lace_leapfrog, lace_steal_from_thief. quiet. Qed.
#[local] Hint Resolve quiet_leapfrog : quiet.

Lemma quiet_must_leap w h : quiet_any (must_leap w h).
Proof. unfold must_leap. quiet. Qed.
#[local] Hint Resolve quiet_must_leap : quiet.

Lemma quiet_drop w h : quiet_any (lace_drop w h).
Proof. unfold lace_drop, lace_drop_slow. quiet. Qed.
#[local] Hint Resolve quiet_drop : quiet.

Lemma quiet_store_args tr i args : Forall word_ok args -> quiet_any (store_args tr i args).
Proof. intros H. revert i. induction H; intros i; simpl store_args; quiet. Qed.
#[local] Hint Resolve quiet_store_args : quiet.

Lemma quiet_load_args tr i n : quiet_code t c (load_args tr i n) (Forall word_ok).
Proof. revert i. induction n as [|n IH]; intros i; cbn [load_args]; quiet. by constructor. Qed.
#[local] Hint Resolve quiet_load_args : quiet.

Lemma quiet_load_res void tr : quiet_code t c (load_res void tr) word_ok.
Proof. unfold load_res. quiet. Qed.
#[local] Hint Resolve quiet_load_res : quiet.

Lemma quiet_spawn g w h args : Forall word_ok args -> quiet_any (gen_SPAWN g w h args).
Proof. intros H. unfold gen_SPAWN, init_task, spawn_publish, lace_abort_stack_overflow. quiet. Qed.

Lemma quiet_call_popped g n w h : quiet_code t c (call_popped g n w h) word_ok.
Proof. unfold call_popped. quiet. Qed.
#[local] Hint Resolve quiet_call_popped : quiet.

Lemma quiet_sync g void n w h : quiet_code t c (gen_SYNC g void n w h) word_ok.
Proof. unfold gen_SYNC, gen_SYNC_SLOW, sync_movesplit. quiet. Qed.

Lemma quiet_stack_task g args run void :
  Forall word_ok args -> (forall tr, quiet_any (run tr)) -> quiet_code t c (with_stack_task g args run void) word_ok.
Proof. intros Ha Hr. unfold with_stack_task, init_task. quiet. Qed.

Lemma quiet_together g args : Forall word_ok args -> quiet_any (gen_TOGETHER g args).
Proof. intros Ha. unfold gen_TOGETHER, init_task. quiet. Qed.

(** *** The macros *)

Lemma quiet_undeclared {A} (a : A) (phi : A -> Prop) : phi a -> quiet_code t c (undeclared a) phi.
Proof. intros Ha. unfold undeclared. quiet. Qed.

Lemma quiet_SPAWN f w h args : Forall word_ok args -> quiet_any (SPAWN f w h args).
Proof. intros H. destruct (SPAWN_cases f w h args) as [-> | ->]; [by apply quiet_undeclared|by apply quiet_spawn]. Qed.

Lemma quiet_SYNC f w h : quiet_code t c (SYNC f w h) word_ok.
Proof. destruct (SYNC_cases f w h) as [-> | ->]; [by apply quiet_undeclared|by apply quiet_sync]. Qed.

Lemma quiet_RUN f args : Forall word_ok args -> quiet_code t c (RUN f args) word_ok.
Proof.
  intros H. destruct (RUN_cases f args) as [-> | ->]; [by apply quiet_undeclared|]. by apply quiet_stack_task; [|apply quiet_run_task].
Qed.

Lemma quiet_RUNEX f args : Forall word_ok args -> quiet_code t c (RUNEX f args) word_ok.
Proof.
  intros H. destruct (RUNEX_cases f args) as [-> | ->]; [by apply quiet_undeclared|].
  by apply quiet_stack_task; [|apply quiet_run_task_exclusive].
Qed.

Lemma quiet_NEWFRAME f args : Forall word_ok args -> quiet_code t c (NEWFRAME f args) word_ok.
Proof.
  intros H. destruct (NEWFRAME_cases f args) as [-> | ->]; [by apply quiet_undeclared|].
  by apply quiet_stack_task; [|apply quiet_run_newframe].
Qed.

Lemma quiet_TOGETHER f args : Forall word_ok args -> quiet_any (TOGETHER f args).
Proof. intros H. destruct (TOGETHER_cases f args) as [-> | ->]; [by apply quiet_undeclared|by apply quiet_together]. Qed.

Lemma quiet_op w h o : quiet_any (run_op w h o).
Proof. unfold run_op, lace_make_all_shared. quiet. Qed.

Lemma quiet_WRAP g void n w h tr : quiet_code t c (gen_WRAP g void n w h tr) word_ok.
Proof. unfold gen_WRAP. quiet. Qed.
End QuietCode.

(** ** Clients

    A task gets addresses only from Lace itself. *)
Fixpoint uprog_words {l} (p : uprog l) : Prop :=
  match p with
  | URet v => word_ok v
  | USpawn _ args k => Forall word_ok args /\ uprog_words k
  | USync k => forall r, word_ok r -> uprog_words (k r)
  | UDrop k => uprog_words k
  | UCall _ args k | URun _ args k | URunEx _ args k | UNewframe _ args k =>
      Forall word_ok args /\ forall r, word_ok r -> uprog_words (k r)
  | UOp _ k => uprog_words k
  | UTogether _ args k => Forall word_ok args /\ uprog_words k
  end.

Definition client_words {client : Client} : Prop :=
  forall u args, Forall word_ok args -> uprog_words (user_body u args).

Section QuietClients.
Context {cfg : Cfg} {eff : Effect} {client : Client}.

Abbreviation N := n_workers.

Lemma quiet_interp t w h {l} (p : uprog l) :
  (t < N)%nat -> uprog_words p -> quiet_code t True (interp w h p) word_ok.
Proof.
  intros Ht. revert h. induction p as [v|l u args k IH|u l k IH|u l k IH|l u args k IH|l u args k IH|l u args k IH|l o k IH
    |l u args k IH|l u args k IH]; intros h Hp; cbn [interp uprog_words] in *; try apply quiet_bind.
  - done.
  - destruct Hp. eapply quiet_use; [by apply quiet_SPAWN|auto].
  - eapply quiet_use; [by apply quiet_SYNC|auto].
  - eapply quiet_use; [by apply quiet_drop|auto].
  - destruct Hp. apply quiet_call; [done..|auto].
  - destruct Hp. eapply quiet_use; [by apply quiet_RUN|auto].
  - destruct Hp. eapply quiet_use; [by apply quiet_RUNEX|auto].
  - eapply quiet_use; [by apply quiet_op|auto].
  - destruct Hp. eapply quiet_use; [by apply quiet_NEWFRAME|auto].
  - destruct Hp. eapply quiet_use; [by apply quiet_TOGETHER|auto].
Qed.

(** Every function but the steal loop is quiet. *)
Lemma quiet_void_WORK t g w h args :
  client_words -> (t < N)%nat -> Forall word_ok args -> (forall q, g = F_lace_steal_loop -> args <> [VAtom q]) ->
  quiet_code t True (void_WORK g w h args) (fun _ => True).
Proof.
  intros Hcl Ht Ha Hq. destruct g as [| | | | | |u]; cbn [void_WORK].
  7: { apply quiet_bind. eapply quiet_use; [by apply quiet_interp, Hcl|done]. }
  all: try (destruct args as [|[z|tr|a] [|[z2|tr2|a2] [|]]]; try done).
  - by apply quiet_steal_random.
  - by destruct (Hq a eq_refl).
  - apply Forall_cons in Ha as [_ Ha]. apply Forall_cons in Ha as [[n ->] _]. by apply quiet_together_root.
  - by apply quiet_wrap_together.
  - apply Forall_cons in Ha as [_ Ha]. apply Forall_cons in Ha as [[n ->] _]. by apply quiet_newframe_root.
  - by apply quiet_wrap_newframe.
Qed.

Lemma quiet_CALL t g w h args :
  client_words -> (t < N)%nat -> Forall word_ok args -> (forall q, g = F_lace_steal_loop -> args <> [VAtom q]) ->
  quiet_code t True (gen_CALL g w h args) word_ok.
Proof.
  intros Hcl Ht Ha Hq. unfold gen_CALL. destruct (is_void g).
  - apply quiet_bind. eapply quiet_use; [by apply quiet_void_WORK|done].
  - destruct g as [| | | | | |u]; cbn [value_WORK]; try done. by apply quiet_interp, Hcl.
Qed.

End QuietClients.
