(* ===== verification/Protocol.v ===== *)
(** * The protocol between the workers and the client

    A second instance of the logic of Conc.v, for the variables with which a client starts,
    suspends, resumes and stops the workers: [lace_awaken_count], [workers_running],
    [must_suspend], [lace_quits], the suspend semaphore, and whether the memory of the
    workers has been freed.  All other code, the tasks of the client included, only makes
    accesses that do not touch them ([quiet_code]). *)

From S2P Require Export Effects.

(** ** Ghost state *)

(** Where a worker is: not yet resumed; running; it has seen [must_suspend]; waiting for the
    semaphore; on its way back; it has seen [lace_quits]; finished. *)
Inductive wstate := WNew | WRun | WGo | WSus | WBack | WEx | WFin.

(** Counted in [workers_running]. *)
Definition counted (w : wstate) : bool := match w with WRun | WGo | WEx => true | _ => false end.

(** Waiting for the suspend semaphore. *)
Definition waiting (w : wstate) : bool := match w with WNew | WSus => true | _ => false end.

(** What the client is doing: the workers have not been resumed yet; [k] workers have been
    sent back to work; all workers run and are asked to suspend; all workers are suspended;
    all workers run and are asked to quit; all workers have quit. *)
Inductive cphase := PhOff | PhPost (k : nat) | PhMust | PhDown | PhQuit | PhStopped.

(** The states the workers may be in. *)
Definition allowed (ph : cphase) (w : wstate) : bool :=
  match ph, w with
  | PhOff, WNew => true
  | PhPost _, (WNew | WSus | WBack | WRun) => true
  | PhMust, (WRun | WGo | WSus) => true
  | PhDown, WSus => true
  | PhQuit, (WRun | WEx | WFin) => true
  | PhStopped, WFin => true
  | _, _ => false
  end.

Record pghost := PG { ws : nat -> wstate; cl : cphase }.

Definition g_ws (t : nat) (w : wstate) (g : pghost) : pghost := PG (<[t := w]> (ws g)) (cl g).
Definition g_cl (ph : cphase) (g : pghost) : pghost := PG (ws g) ph.

(** The variables of the protocol. *)
#[export] Instance protocol_effect : Effect := {|
  may_write a := negb (flag_var a);
  may_use s := match s with suspend_semaphore => false | SExt _ => true end;
  may_free := false;
  only_flags a := proj1 (negb_false_iff (flag_var a)) |}.

Section Protocol.
Context {cfg : Cfg}.

Abbreviation N := n_workers.

Record PInv (s : mem * pghost) : Prop := {
  pi_running : ints s.1 workers_running = countb (fun i => counted (ws s.2 i)) N;
  pi_allowed i : (i < N)%nat -> allowed (cl s.2) (ws s.2 i) = true;
  pi_must : match cl s.2 with PhMust | PhDown => True | _ => ints s.1 must_suspend = 0 end;
  pi_quits : match cl s.2 with PhQuit | PhStopped => True | _ => ints s.1 lace_quits = 0 end;
  pi_sem : match cl s.2 with
           | PhPost k => (k <= N)%nat /\
               sems s.1 suspend_semaphore + Z.of_nat N - Z.of_nat k = countb (fun i => waiting (ws s.2 i)) N
           | _ => sems s.1 suspend_semaphore = 0
           end;
  pi_freed : freed s.1 = true -> cl s.2 = PhStopped;
  pi_words : Words s.1;
}.

(** Worker [t] is the only one to change its state, and the client, thread [N], the only
    one to change the phase and its flags. *)
Record PRely (t : nat) (s s' : mem * pghost) : Prop := {
  pr_ws : (t < N)%nat -> ws s'.2 t = ws s.2 t;
  pr_cl : t = N -> cl s'.2 = cl s.2 /\ ints s'.1 lace_awaken_count = ints s.1 lace_awaken_count /\
    ints s'.1 must_suspend = ints s.1 must_suspend;
}.

Lemma PRely_refl t s : PRely t s s.
Proof. by split. Qed.

Lemma PRely_trans t s1 s2 s3 : PRely t s1 s2 -> PRely t s2 s3 -> PRely t s1 s3.
Proof.
  intros [A1 A2] [B1 B2]. split; intros H.
  - by rewrite B1, A1.
  - destruct (A2 H) as (? & ? & ?), (B2 H) as (? & ? & ?). split_and!; congruence.
Qed.

Definition is_suspend_wait {R} (e : ev R) : Prop :=
  match e with Sem_wait s => s = suspend_semaphore | _ => False end.

(** Worker [t] is in state [w]. *)
Definition WS (t : nat) (w : wstate) (s : mem * pghost) : Prop := (t < N)%nat /\ ws s.2 t = w.

(** The client is in phase [ph]; [lace_awaken_count] is [a] and [must_suspend] is [b]. *)
Definition CL (ph : cphase) (a b : Z) (s : mem * pghost) : Prop :=
  cl s.2 = ph /\ ints s.1 lace_awaken_count = a /\ ints s.1 must_suspend = b.

(** A worker makes no access after it has quit, and while it is suspended it only waits for
    the semaphore. *)
Definition pvalid (R : Type) (t : nat) (e : ev R) (s : mem * pghost) : Prop :=
  (t < N)%nat ->
  match cl s.2 with PhStopped => False | PhDown => is_suspend_wait e | _ => True end.

(** Nor is it anywhere but at that access while it is suspended. *)
Definition prest (t : nat) (s : mem * pghost) : Prop := (t < N)%nat -> cl s.2 <> PhDown.

Definition plogic : @logic ev fn val mem pghost unit := {|
  inv := PInv;
  rely := PRely;
  guar t s s' := forall u, u <> t -> PRely u s s';
  valid := pvalid;
  rest := prest;
  pre t f _ s := fn_pre f /\ WS t WRun s;
  post t f _ v s := word_ok v /\ WS t WRun s;
  rely_refl := PRely_refl;
  rely_trans := PRely_trans;
  guar_refl t s u _ := PRely_refl u s;
  guar_trans t s1 s2 s3 H1 H2 u Hne := PRely_trans u s1 s2 s3 (H1 u Hne) (H2 u Hne);
  guar_rely t u s s' Hne _ _ H := H u (not_eq_sym Hne) |}.

Abbreviation psafe := (safe exec plogic).

Lemma WS_stable t w : stable plogic t (WS t w).
Proof. intros s s' _ _ [Ht Hw] [Hr _]. split; [done|]. by rewrite Hr. Qed.

Lemma CL_stable ph a b : stable plogic N (CL ph a b).
Proof. intros s s' _ _ (H1 & H2 & H3) [_ Hr]. destruct (Hr eq_refl) as (? & ? & ?). split_and!; congruence. Qed.

(** A step that may fail to be enabled or have several outcomes. *)
Lemma psafe_act {A R} t (e : ev R) (k : R -> lcode A) P Q s :
  stable plogic t P -> PInv s -> P s ->
  (forall m g, PInv (m, g) -> P (m, g) -> pvalid R t e (m, g) /\
     forall r m', (r, m') ∈ exec1 t e m ->
       exists g', (forall u, u <> t -> PRely u (m, g) (m', g')) /\ PInv (m', g') /\
         (PInv (m', g') -> psafe t (k r) Q (m', g'))) ->
  psafe t (Act e k) Q s.
Proof.
  intros Hst Hi HP H. eapply (safe_act _ plogic _ _ _ P); [exact Hst|done|done|].
  intros [m g] Hi1 HP1. destruct (H m g Hi1 HP1) as [Hv Hk]. split; [exact Hv|].
  intros r m' Hin%exec_exec1. destruct (Hk r m' Hin) as (g' & Hg & Hi' & Hs). exists g'. split_and!; [exact Hg|exact Hi'|by apply Hs].
Qed.

(** ** Quiet accesses *)

(** Assertions a thread keeps while it runs quiet code. *)
Record Keep (t : nat) (calls : Prop) (P : mem * pghost -> Prop) : Prop := {
  keep_stable : stable plogic t P;
  keep_same m m' g : esame m m' -> P (m, g) -> P (m', g);
  keep_valid R (e : ev R) s : PInv s -> P s -> pvalid R t e s;
  keep_rest s : PInv s -> P s -> prest t s;
  keep_call s : calls -> P s <-> WS t WRun s;
}.

Lemma PInv_same m m' g : esame m m' -> Words m' -> PInv (m, g) -> PInv (m', g).
Proof.
  intros [Hf Hs Hfr] HW []. split; simpl in *; try done.
  - by rewrite Hf.
  - destruct (cl g); try done; by rewrite Hf.
  - destruct (cl g); try done; by rewrite Hf.
  - by rewrite Hs.
  - by rewrite Hfr.
Qed.

Lemma PRely_same u m m' g : esame m m' -> PRely u (m, g) (m', g).
Proof. intros [Hf _ _]. split; simpl; [done|]. intros _. by rewrite !Hf. Qed.

Lemma PInv_effect s : PInv s -> EInv s.1.
Proof. intros Hi. split; [apply Hi|done]. Qed.

Lemma quiet_act {A R} t calls (e : ev R) (k : R -> lcode A) P Q s :
  Keep t calls P -> quiet_ev e -> PInv s -> P s ->
  (forall r s, result_ok t e r -> PInv s -> P s -> psafe t (k r) Q s) -> psafe t (Act e k) Q s.
Proof.
  intros HK He Hi HP Hk. eapply (psafe_act t e k P); [apply HK|done..|]. intros m g Hi1 HP1.
  split; [by apply (keep_valid _ _ _ HK)|]. intros r m' Hin.
  destruct (quiet_exec t e m r m' He Hin (PInv_effect _ Hi1)) as (Hs & [HW _] & Hr). exists g.
  split_and!; [intros u _; by apply PRely_same|by apply (PInv_same m)|]. intros Hi'. apply Hk; [done..|].
  by apply (keep_same _ _ _ HK m).
Qed.

Lemma safe_quiet {A} t calls (c : lcode A) phi P (Q : A -> mem * pghost -> Prop) s :
  Keep t calls P -> quiet_code t calls c phi -> PInv s -> P s ->
  (forall a s, phi a -> PInv s -> P s -> Q a s) -> psafe t c Q s.
Proof.
  intros HK. revert phi s Q. induction c as [A a|A R e k IH|A f k IH|A S B b IHb i k IH]; simpl; intros phi s Q Hc Hi HP HQ.
  - eapply (safe_ret_at _ _ _ _ P); [apply HK|done..|]. intros s1 Hi1 HP1. split; [by apply (keep_rest _ _ _ HK)|auto].
  - destruct Hc as [He Hk]. eapply quiet_act; [done..|]. intros r s1 Hr Hi1 HP1. by apply (IH r phi); auto.
  - destruct Hc as (Hc & Hf & Hk). eapply (safe_call_at _ plogic _ _ _ P _ tt); [apply HK|done..| |].
    + intros s1 Hi1 HP1. split; [by apply (keep_rest _ _ _ HK)|]. split; [done|]. by apply (keep_call _ _ _ HK).
    + intros v s1 Hi1 [Hv Hw]. apply (IH v phi); auto. by apply (keep_call _ _ _ HK).
  - destruct Hc as (I & HI & Hb). eapply (safe_iter_at _ plogic _ (fun x s => I x /\ P s)); [done|by split| |].
    + intros x s1 s2 H1 H2 [Hx HP1] Hr. split; [done|]. exact (keep_stable _ _ _ HK _ _ H1 H2 HP1 Hr).
    + intros x s1 [Hx HP1] Hi1. split; [by apply (keep_rest _ _ _ HK)|].
      eapply IHb; [by apply Hb|done..|]. intros [x'|y] s2 Hr Hi2 HP2; [done|]. by apply (IH y phi).
Qed.

Lemma WS_rest t w s : w <> WSus -> PInv s -> WS t w s -> prest t s.
Proof.
  intros Hne Hi [Ht Hw] _ Hd. pose proof (pi_allowed _ Hi t Ht) as Ha. rewrite Hw, Hd in Ha. by destruct w.
Qed.

Lemma client_rest s : prest N s.
Proof. intros H. lia. Qed.

(** A worker that is neither suspended nor finished, and the client. *)
Lemma Keep_worker t w calls : w <> WSus -> w <> WFin -> (calls -> w = WRun) -> Keep t calls (WS t w).
Proof.
  intros Hs Hf Hc. split.
  - apply WS_stable.
  - done.
  - intros R e s Hi [Ht Hw] _. pose proof (pi_allowed _ Hi t Ht) as Ha. rewrite Hw in Ha.
    by destruct (cl s.2), w.
  - intros s. by apply WS_rest.
  - intros s H. by rewrite (Hc H).
Qed.

Lemma Keep_client ph a b : Keep N False (CL ph a b).
Proof.
  split.
  - apply CL_stable.
  - intros m m' g [Hf _ _] (H1 & H2 & H3). unfold CL in *. simpl in *. by rewrite !Hf.
  - intros R e s _ _ H. lia.
  - intros s _ _. apply client_rest.
  - done.
Qed.
End Protocol.

