(* ===== verification/Shutdown.v ===== *)
(** * Suspending and stopping the workers

    The proof, in the logic of Protocol.v, that [lace_suspend] returns only when every worker
    waits for the suspend semaphore, and that [lace_stop] frees the memory of the workers only
    when no worker uses it any more.  The client is one thread that starts, suspends, resumes
    and stops the workers and runs tasks on them; the tasks may use everything, [NEWFRAME] and
    [TOGETHER] included. *)

From S2P Require Export Protocol.

(** ** Clients *)

(** [follows ph p ph']: [p] uses the library as documented when it begins in phase [ph],
    and ends in phase [ph']. *)
Fixpoint follows (ph : phase) (p : cprog) (ph' : phase) : Prop :=
  match p with
  | CRet _ => ph = ph'
  | CStart k => ph = Off /\ follows (Awake 0) k ph'
  | CStop k => started ph /\ follows Stopped k ph'
  | CSuspend k => match ph with Awake a => follows (suspended a) k ph' | _ => False end
  | CResume k => started ph /\ follows (resumed ph) k ph'
  | CRun _ args k | CRunEx _ args k | CNewframe _ args k =>
      started ph /\ Forall word_ok args /\ forall r, follows ph (k r) ph'
  | CTogether _ args k => started ph /\ Forall word_ok args /\ follows ph k ph'
  end.

Section Shutdown.
Context {cfg : Cfg} {client : Client}.

Abbreviation N := n_workers.
Abbreviation psafe := (safe exec plogic).

(** ** The workers *)

(** A worker changes its state. *)
Lemma PInv_move t w' m m' g :
  (t < N)%nat -> PInv (m, g) -> allowed (cl g) w' = true ->
  ints m' workers_running = ints m workers_running + Z.b2z (counted w') - Z.b2z (counted (ws g t)) ->
  ints m' must_suspend = ints m must_suspend -> ints m' lace_quits = ints m lace_quits ->
  sems m' suspend_semaphore =
    sems m suspend_semaphore +
      match cl g with PhPost _ => Z.b2z (waiting w') - Z.b2z (waiting (ws g t)) | _ => 0 end ->
  freed m' = freed m -> slots m' = slots m -> locals m' = locals m ->
  PInv (m', g_ws t w' g).
Proof.
  intros Ht [] Ha Hr Hm Hq Hs Hf Hsl Hlo. split; simpl in *.
  - rewrite countb_insert by done. lia.
  - intros i Hi. case_insert; auto.
  - by rewrite Hm.
  - by rewrite Hq.
  - destruct (cl g); rewrite ?countb_insert by done; lia.
  - by rewrite Hf.
  - by apply (Words_same m).
Qed.

Lemma psafe_move {A R} t w (e : ev R) (k : R -> lcode A) (to : R -> wstate) Q s :
  PInv s -> WS t w s ->
  (forall m g, PInv (m, g) -> (t < N)%nat -> ws g t = w -> pvalid R t e (m, g) /\
     forall r m', (r, m') ∈ exec1 t e m ->
       PInv (m', g_ws t (to r) g) /\
       ints m' lace_awaken_count = ints m lace_awaken_count /\ ints m' must_suspend = ints m must_suspend) ->
  (forall r s, PInv s -> WS t (to r) s -> psafe t (k r) Q s) ->
  psafe t (Act e k) Q s.
Proof.
  intros Hi Hw H Hk. eapply (psafe_act t e k (WS t w)); [apply WS_stable|done..|].
  intros m g Hi1 [Ht1 Hw1]. destruct (H m g Hi1 Ht1 Hw1) as [Hv Ho]. split; [done|]. intros r m' Hin.
  destruct (Ho r m' Hin) as (Hi' & Ha & Hm). exists (g_ws t (to r) g). split_and!; [|done|].
  - intros u Hne. split; simpl; [intros _; by rewrite fn_lookup_insert_ne|done].
  - intros _. apply Hk; [done|]. split; [done|]. simpl. by rewrite fn_lookup_insert.
Qed.

(** The state of a worker restricts the phase. *)
Ltac in_phase Hi Ht Hw :=
  let Ha := fresh "Ha" in
  pose proof (pi_allowed _ Hi _ Ht) as Ha; simpl in Ha; rewrite Hw in Ha;
  let Hc := fresh "Hc" in destruct (cl _) eqn:Hc; try done.

Lemma valid_worker {R} t w (e : ev R) m g :
  PInv (m, g) -> (t < N)%nat -> ws g t = w -> w <> WSus -> w <> WFin -> pvalid R t e (m, g).
Proof. intros Hi Ht Hw H1 H2. eapply (keep_valid _ _ _ (Keep_worker t w False H1 H2 ltac:(done))); [done|by split]. Qed.

(** The accesses of a worker to the flags. *)
Ltac move_tac w to :=
  intros Hi Hw Hk; eapply (psafe_move _ w _ _ to); [done..| |exact Hk];
  intros m g Hi1 Ht Hw1.

Lemma psafe_must {A} t (k : Z -> lcode A) Q s :
  PInv s -> WS t WRun s ->
  (forall x s, PInv s -> WS t (if x =? 0 then WRun else WGo) s -> psafe t (k x) Q s) ->
  psafe t (Act (Load_int must_suspend) k) Q s.
Proof.
  move_tac WRun (fun x => if x =? 0 then WRun else WGo). split; [by eapply valid_worker|].
  intros r m' [= -> ->]%list_elem_of_singleton. split; [|done]. pose proof (pi_must _ Hi1) as Hm. simpl in Hm.
  destruct (Z.eqb_spec (ints m must_suspend) 0) as [E|E]; in_phase Hi1 Ht Hw1;
    apply (PInv_move t _ m); try done; rewrite ?Hw1, ?Hc; simpl; try done; lia.
Qed.

Lemma psafe_quit {A} t (k : Z -> lcode A) Q s :
  PInv s -> WS t WRun s ->
  (forall x s, PInv s -> WS t (if x =? 0 then WRun else WEx) s -> psafe t (k x) Q s) ->
  psafe t (Act (Load_int lace_quits) k) Q s.
Proof.
  move_tac WRun (fun x => if x =? 0 then WRun else WEx). split; [by eapply valid_worker|].
  intros r m' [= -> ->]%list_elem_of_singleton. split; [|done]. pose proof (pi_quits _ Hi1) as Hm. simpl in Hm.
  destruct (Z.eqb_spec (ints m lace_quits) 0) as [E|E]; in_phase Hi1 Ht Hw1;
    apply (PInv_move t _ m); try done; rewrite ?Hw1, ?Hc; simpl; try done; lia.
Qed.

(** The worker leaves [workers_running] or comes back. *)
Lemma psafe_running {A} t w w' x (k : Z -> lcode A) Q s :
  match w, w' with
  | WGo, WSus | WEx, WFin => x = -1
  | WBack, WRun => x = 1
  | _, _ => False
  end ->
  PInv s -> WS t w s -> (forall r s, PInv s -> WS t w' s -> psafe t (k r) Q s) ->
  psafe t (Act (Fetch_add_int workers_running x) k) Q s.
Proof.
  intros Hx. move_tac w (fun _ : Z => w'). split; [by eapply valid_worker; [..|destruct w|destruct w]|].
  intros r m' [= -> ->]%list_elem_of_singleton. simpl. rewrite !fn_lookup_insert_ne by done. split; [|done].
  in_phase Hi1 Ht Hw1; destruct w; try done; destruct w'; try done; subst x;
    (apply (PInv_move t _ m); try done; rewrite ?Hw1, ?Hc; simpl;
     rewrite ?fn_lookup_insert, ?fn_lookup_insert_ne by done; simpl; try done; lia).
Qed.

Lemma psafe_wait {A} t w (k : unit -> lcode A) Q s :
  waiting w = true -> PInv s -> WS t w s -> (forall s, PInv s -> WS t WBack s -> psafe t (k tt) Q s) ->
  psafe t (Act (Sem_wait suspend_semaphore) k) Q s.
Proof.
  intros Hwait Hi Hw Hk. eapply (psafe_move _ w _ _ (fun _ => WBack)); [done..| |by intros [] s1 Hi1 Hw1; apply Hk].
  intros m g Hi1 Ht Hw1. pose proof (pi_sem _ Hi1) as Hs. simpl in Hs. split.
  - intros _. simpl. in_phase Hi1 Ht Hw1. by destruct w.
  - intros r m' Hin. simpl in Hin. destruct (Z.ltb_spec 0 (sems m suspend_semaphore)) as [Hlt|]; [|by apply not_elem_of_nil in Hin].
    apply list_elem_of_singleton in Hin as [= -> ->]. split; [|done]. in_phase Hi1 Ht Hw1; try lia.
    apply (PInv_move t _ m); try done; rewrite ?Hw1, ?Hc, ?Hwait; simpl; rewrite ?fn_lookup_insert; try done; try lia.
    destruct w; simpl; try done; lia.
Qed.

Lemma psafe_end {A} t w (a : A) (Q : A -> mem * pghost -> Prop) s :
  w <> WSus -> PInv s -> WS t w s -> (forall s, PInv s -> WS t w s -> Q a s) -> psafe t (Ret a) Q s.
Proof.
  intros Hne Hi Hw HQ. eapply (safe_ret_at _ _ _ _ (WS t w)); [apply WS_stable|done..|].
  intros s1 Hi1 Hw1. split; [by apply (WS_rest t w)|auto].
Qed.

(** Quiet code in the middle of the code of a running worker. *)
Lemma psafe_work {A B} t (c : lcode A) (k : A -> lcode B) phi Q s :
  quiet_code t True c phi -> PInv s -> WS t WRun s ->
  (forall a s, phi a -> PInv s -> WS t WRun s -> psafe t (k a) Q s) -> psafe t (bind c k) Q s.
Proof.
  intros Hc Hi Hw Hk. apply safe_bind; [done|]. eapply (safe_quiet t True); [by apply (Keep_worker t WRun)|done..|]. auto.
Qed.

Lemma psafe_suspended {A} t (k : unit -> lcode A) Q s :
  PInv s -> WS t WGo s -> (forall s, PInv s -> WS t WRun s -> psafe t (k tt) Q s) ->
  psafe t (bind (act (Fetch_add_int workers_running (-1)) ;;; act (Sem_wait suspend_semaphore) ;;;
                 lace_barrier ;;; act (Fetch_add_int workers_running 1) ;;; Ret tt) k) Q s.
Proof.
  intros Hi Hw Hk. cbn [bind act]. eapply (psafe_running t WGo WSus); [done..|]. intros _ s1 Hi1 Hw1.
  cbn [bind act]. eapply (psafe_wait t WSus); [done..|]. intros s2 Hi2 Hw2. rewrite ?bind_assoc. apply safe_bind; [done|].
  eapply (safe_quiet t False); [by apply (Keep_worker t WBack)|apply quiet_barrier|done..|]. intros _ s3 _ Hi3 Hw3.
  eapply (psafe_running t WBack WRun); [done..|]. intros _ s4 Hi4 Hw4. by apply Hk.
Qed.

(** The flag that ends the steal loop of a new frame is a local variable. *)
Definition quit_state (quit : aref) : wstate := match quit with lace_quits => WEx | _ => WRun end.

Lemma quit_awake quit : quit_state quit <> WSus.
Proof. by destruct quit. Qed.

Lemma psafe_read_quit {A} t quit (k : Z -> lcode A) Q s :
  quit = lace_quits \/ (exists n, quit = ALoc n) -> PInv s -> WS t WRun s ->
  (forall x s, PInv s -> WS t (if x =? 0 then WRun else quit_state quit) s -> psafe t (k x) Q s) ->
  psafe t (Act (Load_int quit) k) Q s.
Proof.
  intros [->|[n ->]] Hi Hw Hk; [by apply psafe_quit|]. eapply (quiet_act t True); [by apply (Keep_worker t WRun)|done..|].
  intros x s1 _ Hi1 Hw1. apply Hk; [done|]. by destruct (x =? 0).
Qed.

Lemma psafe_turn t w h quit sel s :
  quit = lace_quits \/ (exists n, quit = ALoc n) -> PInv s -> WS t WRun s ->
  psafe t (steal_loop_turn w h quit sel) (fun r s => WS t (match r with inl _ => WRun | inr _ => quit_state quit end) s) s.
Proof.
  intros Hq Hi Hw. unfold steal_loop_turn. apply psafe_read_quit; [done..|]. intros q s1 Hi1 Hw1.
  destruct (q =? 0); simpl negb; cbv iota.
  2: { eapply (psafe_end t); [apply quit_awake|done|exact Hw1|done]. }
  eapply (psafe_work t _ _ (fun _ => True)); [|done..|].
  { destruct (1 <? _); [|done]. apply quiet_bind, quiet_event; [done|]. intros v _.
    apply quiet_bind. eapply quiet_use; [by apply quiet_steal|done]. }
  intros sel' s2 _ Hi2 Hw2. eapply psafe_work; [by apply quiet_YIELD|done..|]. intros _ s3 _ Hi3 Hw3.
  eapply (quiet_act t True); [by apply (Keep_worker t WRun)|done..|]. intros e s4 _ Hi4 Hw4.
  eapply (psafe_work t _ _ (fun _ => True)); [by destruct e; [apply quiet_steal_external|]|done..|]. intros _ s5 _ Hi5 Hw5.
  apply psafe_must; [done..|]. intros ms s6 Hi6 Hw6. destruct (ms =? 0); cbn [negb when].
  - by eapply (psafe_end t WRun).
  - apply psafe_suspended; [done..|]. intros s7 Hi7 Hw7. by eapply (psafe_end t WRun).
Qed.

Lemma psafe_steal_loop t w h quit s :
  quit = lace_quits \/ (exists n, quit = ALoc n) -> PInv s -> WS t WRun s ->
  psafe t (lace_steal_loop w h quit) (fun _ s => WS t (quit_state quit) s) s.
Proof.
  intros Hq Hi Hw. eapply (safe_iter_at _ plogic _ (fun _ => WS t WRun)); [done..|intros _; apply WS_stable|].
  intros sel s1 Hw1 Hi1. split; [by apply (WS_rest t WRun)|]. eapply safe_mono; [|by apply psafe_turn]. intros [sel'|y] s2 Hi2 Hw2; [done|].
  by eapply (psafe_end t (quit_state quit)); [apply quit_awake|..].
Qed.

Lemma psafe_worker_thread t s :
  PInv s -> WS t WNew s -> psafe t (cur (worker_thread t)) (fun _ s => WS t WFin s) s.
Proof.
  intros Hi Hw. unfold worker_thread, lace_worker_thread. cbn [cur]. cbn [bind act]. rewrite ?bind_assoc.
  eapply (quiet_act t False); [by apply (Keep_worker t WNew)|done..|]. intros _ s1 _ Hi1 Hw1. cbn [bind act]. rewrite ?bind_assoc.
  apply safe_bind; [done|]. eapply (safe_quiet t False); [by apply (Keep_worker t WNew)|apply quiet_init|done..|].
  intros _ s2 _ Hi2 Hw2. cbn [bind act]. rewrite ?bind_assoc. eapply (psafe_wait t WNew); [done..|]. intros s3 Hi3 Hw3.
  cbn [bind act]. rewrite ?bind_assoc. eapply (psafe_running t WBack WRun); [done..|]. intros _ s4 Hi4 Hw4. cbn [bind act]. rewrite ?bind_assoc.
  eapply psafe_work; [apply quiet_get_head|done..|]. intros h s5 _ Hi5 Hw5. cbn [bind act]. rewrite ?bind_assoc.
  apply safe_bind; [done|]. eapply safe_mono; [|apply (psafe_steal_loop t _ _ lace_quits); [by left|done..]].
  intros ? s6 Hi6 Hw6. cbn [bind act]. rewrite ?bind_assoc. eapply (psafe_running t WEx WFin); [done..|]. intros _ s7 Hi7 Hw7.
  by eapply (psafe_end t WFin).
Qed.

(** ** The tasks *)

Lemma protocol_bodies t f x s :
  client_words -> PInv s -> pre plogic t f x s -> psafe t (fn_body f) (post plogic t f x) s.
Proof.
  intros Hcl Hi [Hf Hw]. pose proof (proj1 Hw) as Ht.
  assert (Hquiet : forall c, quiet_code t True c word_ok -> psafe t c (post plogic t f x) s).
  { intros c Hc. eapply (safe_quiet t True); [by apply (Keep_worker t WRun)|exact Hc|done..|]. by intros a s1 Ha Hi1 Hw1. }
  destruct (fn_body_cases f) as [-> | ->]; [by apply Hquiet, quiet_undeclared|].
  destruct f as [g w h tr|g w h args]; cbn [fn_pre] in *; [by apply Hquiet, quiet_WRAP|].
  destruct (decide (g = F_lace_steal_loop)) as [->|Hne]; [|by apply Hquiet, quiet_CALL].
  destruct args as [|[z|tr|q] [|]]; try (by apply Hquiet, quiet_CALL).
  change (gen_CALL _ _ _ _) with (lace_steal_loop w h q ;;; Ret (VZ 0)).
  apply safe_bind; [done|]. apply Forall_cons in Hf as [[n ->] _].
  eapply safe_mono; [|apply (psafe_steal_loop t w h (ALoc n)); [right; by eexists|done..]].
  intros ? s1 Hi1 Hw1. eapply (psafe_end t WRun); [done|done|exact Hw1|]. by split.
Qed.

(** ** The client *)

(** What the client knows in each phase of its program. *)
Definition Phase (ph : phase) (s : mem * pghost) : Prop :=
  match ph with
  | Off => CL PhOff 0 0 s
  | Awake a => CL (PhPost N) (1 + Z.of_nat a) 0 s
  | Asleep => CL PhDown 0 0 s
  | Stopped => exists a, CL PhStopped a 0 s
  end.

Lemma Phase_stable ph : stable plogic N (Phase ph).
Proof. destruct ph; try apply CL_stable. intros s s' H1 H2 [a H] Hr. exists a. by apply (CL_stable _ _ _ s). Qed.

Lemma psafe_done {A} (x : A) P (Q : A -> mem * pghost -> Prop) s :
  stable plogic N P -> PInv s -> P s -> (forall s, PInv s -> P s -> Q x s) -> psafe N (Ret x) Q s.
Proof.
  intros Hst Hi HP HQ. eapply (safe_ret_at _ _ _ _ P); [exact Hst|done..|]. intros s1 Hi1 HP1. split; [apply client_rest|auto].
Qed.

Lemma psafe_client {A R} (e : ev R) (k : R -> lcode A) ph a b Q s :
  PInv s -> CL ph a b s ->
  (forall m g, PInv (m, g) -> CL ph a b (m, g) -> forall r m', (r, m') ∈ exec1 N e m ->
     exists ph', PInv (m', g_cl ph' g) /\ (PInv (m', g_cl ph' g) -> psafe N (k r) Q (m', g_cl ph' g))) ->
  psafe N (Act e k) Q s.
Proof.
  intros Hi HC H. eapply (psafe_act N e k (CL ph a b)); [apply CL_stable|done..|]. intros m g Hi1 HC1.
  split; [intros Hlt; lia|]. intros r m' Hin. destruct (H m g Hi1 HC1 r m' Hin) as (ph' & Hi' & Hk).
  exists (g_cl ph' g). split_and!; [|done..]. intros u Hne. by split.
Qed.

Lemma psafe_quiet_client {A B} (c : lcode A) (k : A -> lcode B) phi ph a b Q s :
  quiet_code N False c phi -> PInv s -> CL ph a b s ->
  (forall x s, phi x -> PInv s -> CL ph a b s -> psafe N (k x) Q s) -> psafe N (bind c k) Q s.
Proof.
  intros Hc Hi HC Hk. apply safe_bind; [done|]. eapply (safe_quiet N False); [apply Keep_client|done..|]. auto.
Qed.

Lemma PInv_awaken x m g : PInv (m, g) -> PInv (upd_int lace_awaken_count x m, g).
Proof. intros []. split; simpl in *; rewrite ?fn_lookup_insert_ne by done; try done. by apply (Words_same m). Qed.

Lemma psafe_load_awaken {A} (k : Z -> lcode A) ph a b Q s :
  PInv s -> CL ph a b s -> (forall s, PInv s -> CL ph a b s -> psafe N (k a) Q s) ->
  psafe N (Act (Load_int lace_awaken_count) k) Q s.
Proof.
  intros Hi HC Hk. eapply psafe_client; [done..|]. intros m g Hi1 HC1 r m' [= -> ->]%list_elem_of_singleton.
  exists (cl g). destruct g. split; [done|]. intros _. destruct HC1 as (H1 & H2 & H3). simpl in *. rewrite H2. by apply Hk.
Qed.

(** A store of the client to one of the flags. *)
Lemma psafe_store {A} v x (k : unit -> lcode A) ph a b a' b' Q s :
  PInv s -> CL ph a b s ->
  (forall m g, PInv (m, g) -> CL ph a b (m, g) -> PInv (upd_int v x m, g) /\ CL ph a' b' (upd_int v x m, g)) ->
  (forall s, PInv s -> CL ph a' b' s -> psafe N (k tt) Q s) ->
  psafe N (Act (Store_int v x) k) Q s.
Proof.
  intros Hi HC H Hk. eapply psafe_client; [done..|]. intros m g Hi1 HC1 r m' [= -> ->]%list_elem_of_singleton.
  exists (cl g). destruct (H m g Hi1 HC1). destruct g. split; [done|]. intros _. by apply Hk.
Qed.

Lemma psafe_store_awaken {A} x (k : unit -> lcode A) ph a b Q s :
  PInv s -> CL ph a b s -> (forall s, PInv s -> CL ph x b s -> psafe N (k tt) Q s) ->
  psafe N (Act (Store_int lace_awaken_count x) k) Q s.
Proof.
  intros Hi HC Hk. eapply (psafe_store _ _ _ ph a b x b); [done..| |exact Hk]. intros m g Hi1 (H1 & H2 & H3).
  split; [by apply PInv_awaken|]. unfold CL. simpl. by rewrite fn_lookup_insert, fn_lookup_insert_ne.
Qed.

Lemma psafe_cas_awaken {A} new ph' (k : bool -> lcode A) ph a b Q s :
  PInv s -> CL ph a b s -> (forall m g, PInv (m, g) -> CL ph a b (m, g) -> PInv (m, g_cl ph' g)) ->
  (forall s, PInv s -> CL ph' new b s -> psafe N (k true) Q s) ->
  (forall s, PInv s -> CL ph a b s -> psafe N (k false) Q s) ->
  psafe N (Act (Cas_int lace_awaken_count a new) k) Q s.
Proof.
  intros Hi HC H Ht Hf. eapply psafe_client; [done..|]. intros m g Hi1 HC1 r m' Hin.
  assert (Hcase : (r, m') = (true, upd_int lace_awaken_count new m) \/ (r, m') = (false, m)).
  { simpl in Hin. unfold weak_cas in Hin. case_decide; [apply elem_of_cons in Hin as [Hin|Hin]; [by left|]|];
      right; by apply list_elem_of_singleton in Hin. }
  destruct Hcase as [[= -> ->]|[= -> ->]].
  - exists ph'. split; [by apply PInv_awaken, H|]. intros Hi'. apply Ht; [done|]. destruct HC1 as (H1 & H2 & H3).
    unfold CL. simpl. by rewrite fn_lookup_insert, fn_lookup_insert_ne.
  - exists (cl g). destruct g. split; [done|]. intros _. by apply Hf.
Qed.

(** Waiting until [workers_running] has the value [x], which moves the client to the phase [ph']. *)
Lemma psafe_spin_running {A} x ph' (k : Z -> lcode A) ph a b Q s :
  PInv s -> CL ph a b s ->
  (forall m g, PInv (m, g) -> CL ph a b (m, g) -> ints m workers_running = x -> PInv (m, g_cl ph' g)) ->
  (forall s, PInv s -> CL ph' a b s -> psafe N (k x) Q s) ->
  psafe N (bind (spin (Load_int workers_running) (fun r => r =? x)) k) Q s.
Proof.
  intros Hi HC H Hk. apply safe_bind; [done|]. eapply (safe_iter_at _ plogic _ (fun _ => CL ph a b)); [done..|intros _; apply CL_stable|].
  intros [] s1 HC1 Hi1. split; [apply client_rest|]. eapply psafe_client; [done..|]. intros m g Hi2 HC2 r m' [= -> ->]%list_elem_of_singleton.
  destruct (Z.eqb_spec (ints m workers_running) x) as [E|E].
  - exists ph'. split; [by apply H|]. intros Hi3. eapply (psafe_done _ (CL ph' a b)); [apply CL_stable|done|by destruct HC2|].
    intros s4 Hi4 HC4. rewrite E. eapply (psafe_done _ (CL ph' a b)); [apply CL_stable|done..].
  - exists (cl g). destruct g. split; [done|]. intros _. eapply (psafe_done _ (CL ph a b)); [apply CL_stable|done..].
Qed.

(** *** Changes of phase *)

Lemma PInv_resume m g ph : ph = PhOff \/ ph = PhDown -> PInv (m, g) -> CL ph 0 0 (m, g) -> PInv (m, g_cl (PhPost 0) g).
Proof.
  intros Hph [] (Hc & _ & Hm). simpl in *. rewrite Hc in *.
  assert (Hw : forall i, (i < N)%nat -> ws g i = WNew \/ ws g i = WSus).
  { intros i Hi. specialize (pi_allowed i Hi). destruct Hph as [-> | ->], (ws g i); (done || auto). }
  split; simpl; try done.
  - intros i Hi. by destruct (Hw i Hi) as [-> | ->].
  - by destruct Hph as [-> | ->].
  - split; [lia|]. rewrite (proj2 (countb_all _ _)); [destruct Hph as [-> | ->]; lia|].
    intros i Hi. by destruct (Hw i Hi) as [-> | ->].
  - intros Hf. specialize (pi_freed Hf). by destruct Hph as [-> | ->].
Qed.

Lemma PInv_post m g k : (k < N)%nat -> PInv (m, g) -> cl g = PhPost k ->
  PInv (upd_sem suspend_semaphore (sems m suspend_semaphore + 1) m, g_cl (PhPost (S k)) g).
Proof.
  intros Hk [] Hc. simpl in *. rewrite Hc in *. split; simpl; try done.
  - rewrite fn_lookup_insert. lia.
  - intros Hf. by specialize (pi_freed Hf).
  - by apply (Words_same m).
Qed.

(** All workers run. *)
Lemma all_running m g a b :
  PInv (m, g) -> CL (PhPost N) a b (m, g) -> ints m workers_running = Z.of_nat N ->
  b = 0 /\ sems m suspend_semaphore = 0 /\ forall i, (i < N)%nat -> ws g i = WRun.
Proof.
  intros [] (Hc & _ & Hm) Hr. simpl in *. rewrite Hc in *.
  assert (Hw : forall i, (i < N)%nat -> ws g i = WRun).
  { intros i Hi. pose proof (proj1 (countb_all _ _) (eq_trans (eq_sym pi_running) Hr) i Hi) as Hn. simpl in Hn.
    specialize (pi_allowed i Hi). by destruct (ws g i). }
  split_and!; [congruence| |done]. rewrite countb_none in pi_sem; [lia|]. intros i Hi. by rewrite Hw.
Qed.

Lemma PInv_all_running ph' m g a b :
  ph' = PhMust \/ ph' = PhQuit -> PInv (m, g) -> CL (PhPost N) a b (m, g) -> ints m workers_running = Z.of_nat N ->
  PInv (m, g_cl ph' g).
Proof.
  intros Hph Hi HC Hr. destruct (all_running _ _ _ _ Hi HC Hr) as (Hb & Hs & Hw). destruct Hi, HC as (Hc & _ & Hm).
  simpl in *. rewrite Hc in *. split; simpl; try done.
  - intros i Hi. rewrite Hw by done. by destruct Hph as [-> | ->].
  - by destruct Hph as [-> | ->].
  - by destruct Hph as [-> | ->].
  - by destruct Hph as [-> | ->].
  - intros Hf. by specialize (pi_freed Hf).
Qed.

Lemma PInv_none_running ph ph' m g a b :
  (ph = PhMust /\ ph' = PhDown) \/ (ph = PhQuit /\ ph' = PhStopped) ->
  PInv (m, g) -> CL ph a b (m, g) -> ints m workers_running = 0 -> PInv (m, g_cl ph' g).
Proof.
  intros Hph [] (Hc & _ & Hm) Hr. simpl in *. rewrite Hc in *. split; simpl; try done.
  - intros i Hi. pose proof (countb_zero _ _ (eq_trans (eq_sym pi_running) Hr) i Hi) as Hz. simpl in Hz.
    specialize (pi_allowed i Hi). destruct Hph as [[-> ->]|[-> ->]]; by destruct (ws g i).
  - by destruct Hph as [[-> ->]|[-> ->]].
  - by destruct Hph as [[-> ->]|[-> ->]].
  - by destruct Hph as [[-> ->]|[-> ->]].
  - intros Hf. specialize (pi_freed Hf). by destruct Hph as [[-> ->]|[-> ->]].
Qed.

(** A store to [must_suspend] or [lace_quits] in a phase that does not say what it is. *)
Lemma PInv_must x m g : PInv (m, g) -> cl g = PhMust \/ cl g = PhDown -> PInv (upd_int must_suspend x m, g).
Proof.
  intros [] Hc. split; simpl in *; rewrite ?fn_lookup_insert_ne by done; try done.
  - by destruct Hc as [-> | ->].
  - by apply (Words_same m).
Qed.

Lemma PInv_quits x m g : PInv (m, g) -> cl g = PhQuit -> PInv (upd_int lace_quits x m, g).
Proof.
  intros [] Hc. split; simpl in *; rewrite ?fn_lookup_insert_ne by done; try done.
  - by rewrite Hc.
  - by apply (Words_same m).
Qed.

(** Before the first resume the stores of [lace_start] change nothing. *)
Lemma PInv_off v m g :
  PInv (m, g) -> cl g = PhOff -> v = lace_quits \/ v = workers_running \/ v = must_suspend -> PInv (upd_int v 0 m, g).
Proof.
  intros [] Hc Hv. simpl in *. rewrite Hc in *. assert (Hr : ints m workers_running = 0).
  { rewrite pi_running. apply countb_none. intros i Hi. specialize (pi_allowed i Hi). by destruct (ws g i). }
  assert (H0 : forall a, ints m a = 0 -> ints (upd_int v 0 m) a = 0) by (intros a Ha; simpl; by case_insert).
  split; simpl in *; rewrite ?Hc; auto; try done.
  - rewrite <-pi_running, Hr. auto.
  - by apply (Words_same m).
Qed.

(** *** The functions of the client *)

Ltac finish_in P := eapply (psafe_done _ P); [by apply CL_stable || apply Phase_stable|done..].

Lemma psafe_posts n i k a b s :
  (k + n <= N)%nat -> PInv s -> CL (PhPost k) a b s ->
  psafe N (for_upto n i (fun _ => act (Sem_post suspend_semaphore))) (fun _ => CL (PhPost (k + n)) a b) s.
Proof.
  revert i k s. induction n as [|n IH]; intros i k s Hk Hi HC; cbn [for_upto].
  - rewrite Nat.add_0_r. finish_in (CL (PhPost k) a b).
  - eapply psafe_client; [done..|]. intros m g Hi1 HC1 r m' [= -> ->]%list_elem_of_singleton. exists (PhPost (S k)).
    split; [apply PInv_post; [lia|done|apply HC1]|]. intros Hi2. replace (k + S n)%nat with (S k + n)%nat by lia.
    apply IH; [lia|done|]. by destruct HC1.
Qed.

(** The end of a turn of the loops of [lace_suspend] and [lace_resume]. *)
Definition turn_post (before after : phase) (r : unit + unit) (s : mem * pghost) : Prop :=
  match r with inl _ => Phase before s | inr y => psafe N (Ret y) (fun _ => Phase after) s end.

Lemma psafe_leave before after s : PInv s -> Phase after s -> psafe N (Ret (inr tt)) (turn_post before after) s.
Proof.
  intros Hi HP. eapply (psafe_done _ (Phase after)); [apply Phase_stable|done..|]. intros s1 Hi1 HP1. finish_in (Phase after).
Qed.

Lemma psafe_again before after s : PInv s -> Phase before s -> psafe N (Ret (inl tt)) (turn_post before after) s.
Proof. intros Hi HP. finish_in (Phase before). Qed.

(** [lace_resume] when the workers sleep. *)
Lemma psafe_wake ph c s :
  c = PhOff \/ c = PhDown -> Phase ph = CL c 0 0 -> PInv s -> CL c 0 0 s ->
  psafe N (Act (Cas_int lace_awaken_count 0 (-1)) (fun ok : bool =>
      if ok then for_upto N 0 (fun _ => act (Sem_post suspend_semaphore)) ;;;
                 Act (Store_int lace_awaken_count 1) (fun _ => Ret (inr tt))
      else Ret (inl tt))) (turn_post ph (Awake 0)) s.
Proof.
  intros Hc Heq Hi HC. eapply (psafe_cas_awaken _ (PhPost 0)); [done..|by intros; eapply PInv_resume| |].
  - intros s1 Hi1 HC1. apply safe_bind; [done|]. eapply safe_mono; [|apply (psafe_posts N 0 0 (-1) 0); [lia|done..]].
    intros ? s2 Hi2 HC2. eapply (psafe_store_awaken _ _ (PhPost N) (-1) 0); [done..|]. intros s3 Hi3 HC3. by apply psafe_leave.
  - intros s1 Hi1 HC1. rewrite <-Heq in HC1. by apply psafe_again.
Qed.

Lemma psafe_resume ph s :
  ph <> Stopped -> PInv s -> Phase ph s -> psafe N lace_resume (fun _ => Phase (resumed ph)) s.
Proof.
  intros Hph Hi HP. eapply (safe_iter_at _ plogic _ (fun _ => Phase ph)); [done..|intros _; apply Phase_stable|].
  clear s Hi HP. intros [] s HP Hi. split; [apply client_rest|]. change (safe exec plogic N (A := unit + unit) ?c _ s) with (psafe N c (turn_post ph (resumed ph)) s).
  destruct ph as [|a| |]; try done; simpl in HP.
  - eapply psafe_load_awaken; [done..|]. intros s1 Hi1 HC1. by apply (psafe_wake Off PhOff); [left|..].
  - eapply psafe_load_awaken; [done..|]. intros s1 Hi1 HC1.
    rewrite (proj2 (Z.ltb_ge _ _)), (proj2 (Z.eqb_neq _ _)) by lia.
    eapply (psafe_cas_awaken _ (PhPost N)); [done..| | |].
    + intros m g Hi2 (<- & _ & _). by destruct g.
    + intros s2 Hi2 HC2. apply psafe_leave; [done|]. simpl. by replace (1 + Z.of_nat (S a)) with (1 + Z.of_nat a + 1) by lia.
    + intros s2 Hi2 HC2. by apply psafe_again.
  - eapply psafe_load_awaken; [done..|]. intros s1 Hi1 HC1. by apply (psafe_wake Asleep PhDown); [right|..].
Qed.

(** [lace_suspend] when the workers must go to sleep. *)
Lemma psafe_sleep s :
  PInv s -> CL (PhPost N) (-1) 0 s ->
  psafe N (spin (Load_int workers_running) (fun r => r =? Z.of_nat N) ;;;
           act (Store_int must_suspend 1) ;;;
           spin (Load_int workers_running) (fun r => r =? 0) ;;;
           act (Store_int must_suspend 0) ;;;
           act (Store_int lace_awaken_count 0) ;;;
           Ret (inr tt)) (turn_post (Awake 0) Asleep) s.
Proof.
  intros Hi HC. eapply (psafe_spin_running _ PhMust); [done..|intros; eapply PInv_all_running; [by left|done..]|].
  intros s1 Hi1 HC1. eapply (psafe_store _ _ _ PhMust (-1) 0 (-1) 1); [done..| |].
  { intros m g Hi2 (H1 & H2 & H3). split; [apply PInv_must; [done|by left]|].
    unfold CL. simpl. by rewrite fn_lookup_insert, fn_lookup_insert_ne. }
  intros s2 Hi2 HC2. cbn [bind act]. eapply (psafe_spin_running _ PhDown); [done..|intros; eapply PInv_none_running; [by left|done..]|].
  intros s3 Hi3 HC3. eapply (psafe_store _ _ _ PhDown (-1) 1 (-1) 0); [done..| |].
  { intros m g Hi4 (H1 & H2 & H3). split; [apply PInv_must; [done|by right]|].
    unfold CL. simpl. by rewrite fn_lookup_insert, fn_lookup_insert_ne. }
  intros s4 Hi4 HC4. cbn [bind act]. eapply psafe_store_awaken; [done..|]. intros s5 Hi5 HC5. by apply psafe_leave.
Qed.

Lemma psafe_suspend a s :
  PInv s -> Phase (Awake a) s -> psafe N lace_suspend (fun _ => Phase (suspended a)) s.
Proof.
  intros Hi HP. eapply (safe_iter_at _ plogic _ (fun _ => Phase (Awake a))); [done..|intros _; apply Phase_stable|].
  clear s Hi HP. intros [] s HP Hi. split; [apply client_rest|]. change (safe exec plogic N (A := unit + unit) ?c _ s) with (psafe N c (turn_post (Awake a) (suspended a)) s).
  eapply psafe_load_awaken; [done..|]. intros s1 Hi1 HC1. rewrite (proj2 (Z.leb_gt _ _)) by lia.
  assert (Hkeep : forall m g, PInv (m, g) -> CL (PhPost N) (1 + Z.of_nat a) 0 (m, g) -> PInv (m, g_cl (PhPost N) g)).
  { intros m g Hi2 (<- & _ & _). by destruct g. }
  destruct a as [|a].
  - eapply (psafe_cas_awaken _ (PhPost N)); [done..| |].
    + intros s2 Hi2 HC2. by apply psafe_sleep.
    + intros s2 Hi2 HC2. by apply psafe_again.
  - rewrite (proj2 (Z.eqb_neq _ _)) by lia. eapply (psafe_cas_awaken _ (PhPost N)); [done..| |].
    + intros s2 Hi2 HC2. apply psafe_leave; [done|]. simpl. by replace (1 + Z.of_nat a) with (1 + Z.of_nat (S a) - 1) by lia.
    + intros s2 Hi2 HC2. by apply psafe_again.
Qed.

Lemma psafe_stop ph s : started ph -> PInv s -> Phase ph s -> psafe N lace_stop (fun _ => Phase Stopped) s.
Proof.
  intros Hph Hi HP. unfold lace_stop. apply safe_bind; [done|].
  eapply safe_mono; [|apply (psafe_resume ph); [by intros ->|done..]]. intros u s1 Hi1 HC1.
  assert (exists a, CL (PhPost N) a 0 s1) as [a HC] by (destruct ph; try done; eexists; exact HC1). clear HC1.
  eapply (psafe_spin_running _ PhQuit); [done..|intros; eapply PInv_all_running; [by right|done..]|].
  intros s2 Hi2 HC2. eapply (psafe_store _ _ _ PhQuit a 0 a 0); [done..| |].
  { intros m g Hi3 (H1 & H2 & H3). split; [by apply PInv_quits|]. unfold CL. simpl. by rewrite !fn_lookup_insert_ne. }
  intros s3 Hi3 HC3. cbn [bind act].
  eapply (psafe_spin_running _ PhStopped); [done..|intros; eapply PInv_none_running; [by right|done..]|].
  intros s4 Hi4 HC4. eapply (psafe_quiet_client _ _ (fun _ => True)); [unfold lace_barrier_destroy; quiet|done..|].
  intros _ s5 _ Hi5 HC5. eapply psafe_client; [done..|]. intros m g Hi6 HC6 r m' [= -> ->]%list_elem_of_singleton.
  exists (cl g). destruct g as [w c], HC6 as (H1 & H2 & H3). simpl in *. subst c. split.
  - destruct Hi6. split; try done. by apply (Words_same m).
  - intros Hi7. eapply (quiet_act N False _ _ (CL PhStopped a 0)); [apply Keep_client|done..|]. intros x s7 _ Hi8 HC7.
    eapply (psafe_done _ (CL PhStopped a 0)); [apply CL_stable|done..|]. intros s8 _ HC8. by exists a.
Qed.

Lemma psafe_off_store {A} v (k : unit -> lcode A) Q s :
  v = lace_quits \/ v = workers_running \/ v = must_suspend ->
  PInv s -> CL PhOff 0 0 s -> (forall s, PInv s -> CL PhOff 0 0 s -> psafe N (k tt) Q s) ->
  psafe N (Act (Store_int v 0) k) Q s.
Proof.
  intros Hv Hi HC Hk. eapply (psafe_store _ _ _ PhOff 0 0 0 0); [done..| |exact Hk]. intros m g Hi1 (H1 & H2 & H3).
  split; [by apply PInv_off|]. unfold CL. simpl. rewrite fn_lookup_insert_ne by (by destruct Hv as [-> | [-> | ->]]).
  split_and!; [done..|]. by case_insert.
Qed.

Lemma quiet_creates n i : quiet_code N False (for_upto n i (fun i => act (Pthread_create i))) (fun _ => True).
Proof. revert i. induction n as [|n IH]; intros i; cbn [for_upto]; quiet. Qed.

(** A quiet access or quiet code of the client. *)
Ltac cquiet :=
  cbn [bind act];
  match goal with
  | HC : CL ?ph ?a ?b ?s |- safe _ _ _ (Act _ _) _ ?s =>
      eapply (quiet_act N False _ _ (CL ph a b)); [apply Keep_client|first [exact I | done | not_flag]|done|exact HC|];
      clear HC; let x := fresh "x" in intros x ? _ ? HC
  | HC : CL ?ph ?a ?b ?s |- safe _ _ _ (bind _ _) _ ?s =>
      eapply (psafe_quiet_client _ _ (fun _ => True) ph a b); [solve [quiet]|done|exact HC|];
      clear HC; let x := fresh "x" in intros x ? _ ? HC
  end.

Lemma psafe_start s : PInv s -> Phase Off s -> psafe N lace_start (fun _ => Phase (Awake 0)) s.
Proof.
  intros Hi HC. unfold lace_start.
  apply psafe_off_store; [tauto|done..|]. intros s1 Hi1 HC1. apply psafe_off_store; [tauto|done..|]. intros s2 Hi2 HC2.
  cbn [bind act]. eapply (psafe_quiet_client _ _ (fun _ => True)); [unfold lace_barrier_init; quiet|done..|]. intros _ s3 _ Hi3 HC3.
  eapply psafe_client; [done..|]. intros m g Hi4 HC4 r m' [= -> ->]%list_elem_of_singleton. exists (cl g).
  destruct g as [w c], HC4 as (H1 & H2 & H3). simpl in *. subst c. split.
  { destruct Hi4. split; simpl in *; try done; by apply (Words_same m). }
  intros Hi5. assert (HC5 : CL PhOff 0 0 (upd_sem suspend_semaphore 0 m, g_cl PhOff (PG w PhOff))) by done.
  apply psafe_off_store; [tauto|done..|]. clear - cfg client. intros s Hi HC. cbn [bind act].
  eapply psafe_store_awaken; [done..|]. clear s Hi HC. intros s Hi HC.
  do 6 cquiet. eapply (psafe_quiet_client _ _ (fun _ => True)); [apply quiet_creates|done..|].
  intros _ s7 _ Hi7 HC7. by apply (psafe_resume Off).
Qed.

Lemma psafe_get_worker {A} (k : option nat -> lcode A) ph a b Q s :
  PInv s -> CL ph a b s -> (forall s, PInv s -> CL ph a b s -> psafe N (k None) Q s) ->
  psafe N (Act Get_worker k) Q s.
Proof.
  intros Hi HC Hk. eapply (quiet_act N False _ _ (CL ph a b)); [apply Keep_client|done..|]. cbn [result_ok].
  intros r s1 -> Hi1 HC1. rewrite decide_False by lia. by apply Hk.
Qed.

(** Functions a client thread runs a task with. *)
Definition client_run (run : tref -> lcode unit) : Prop :=
  forall tr ph s, started ph -> PInv s -> Phase ph s -> psafe N (run tr) (fun _ => Phase ph) s.

Lemma Phase_CL ph s : PInv s -> Phase ph s -> exists c a b, CL c a b s /\ forall s, CL c a b s -> Phase ph s.
Proof.
  intros Hi HP. destruct ph; simpl in *; [by eexists _, _, _..|]. destruct HP as [a HP]. eexists _, _, _. split; [exact HP|]. eauto.
Qed.

Lemma quiet_cond_wait v cond : quiet_code N False (cond_wait_while v cond) (fun _ => True).
Proof. unfold cond_wait_while, cond_wait. quiet. Qed.

Lemma quiet_offer et : quiet_code N False (offer_external et) (fun _ => True).
Proof. unfold offer_external. quiet. Qed.

#[local] Hint Resolve quiet_cond_wait quiet_offer : quiet.

Lemma run_task_client : client_run lace_run_task.
Proof.
  intros tr ph s Hph Hi HP. unfold lace_run_task. cbn [bind act]. destruct (Phase_CL ph s Hi HP) as (c & a & b & HC & Hback).
  eapply psafe_get_worker; [done..|]. clear s Hi HP HC. intros s Hi HC%Hback. apply safe_bind; [done|].
  eapply safe_mono; [|apply (psafe_resume ph); [by intros ->|done..]]. destruct (resumed_suspended ph Hph) as (a' & Hr & <-).
  rewrite Hr. clear s Hi HC. intros ? s Hi HC. simpl in HC. repeat cquiet. by apply psafe_suspend.
Qed.

Lemma run_task_exclusive_client : client_run lace_run_task_exclusive.
Proof.
  intros tr ph s Hph Hi HP. unfold lace_run_task_exclusive. cbn [bind act]. destruct (Phase_CL ph s Hi HP) as (c & a & b & HC & Hback).
  eapply psafe_get_worker; [done..|]. clear s Hi HP HC. intros s Hi HC%Hback. apply safe_bind; [done|].
  eapply safe_mono; [|apply (psafe_resume ph); [by intros ->|done..]]. destruct (resumed_suspended ph Hph) as (a' & Hr & <-).
  rewrite Hr. clear s Hi HC. intros ? s Hi HC. simpl in HC. repeat cquiet. by apply psafe_suspend.
Qed.

(** [RUN(lace_wrap_..., t)] *)
Lemma run_wrap_client g : client_run (run_wrap g).
Proof.
  intros tr ph s Hph Hi HP. destruct (Phase_CL ph s Hi HP) as (c & a & b & HC & Hback). unfold run_wrap.
  do 4 cquiet. apply run_task_client; auto.
Qed.

Lemma run_newframe_client : client_run lace_run_newframe.
Proof.
  intros tr ph s Hph Hi HP. unfold lace_run_newframe. cbn [bind act]. destruct (Phase_CL ph s Hi HP) as (c & a & b & HC & Hback).
  eapply psafe_get_worker; [done..|]. intros s1 Hi1 HC1%Hback. by apply run_wrap_client.
Qed.

Lemma run_together_client : client_run lace_run_together.
Proof.
  intros tr ph s Hph Hi HP. unfold lace_run_together. cbn [bind act]. destruct (Phase_CL ph s Hi HP) as (c & a & b & HC & Hback).
  eapply psafe_get_worker; [done..|]. intros s1 Hi1 HC1%Hback. by apply run_wrap_client.
Qed.

(** A task on the stack of the client. *)
Lemma psafe_stack_task {A} g args (k : tref -> lcode A) ph s :
  Forall word_ok args -> PInv s -> Phase ph s ->
  (forall t s, PInv s -> Phase ph s -> psafe N (k t) (fun _ => Phase ph) s) ->
  psafe N (t <- act Alloc_task ;; init_task g t args ;;; k t) (fun _ => Phase ph) s.
Proof.
  intros Ha Hi HP Hk. destruct (Phase_CL ph s Hi HP) as (c & a & b & HC & Hback). cquiet.
  eapply (psafe_quiet_client _ _ (fun _ => True)); [|done|exact HC|].
  { unfold init_task. quiet. by apply quiet_store_args. }
  intros _ s2 _ Hi2 HC2. auto.
Qed.

Lemma psafe_undeclared {A} (x : A) ph s : PInv s -> Phase ph s -> psafe N (undeclared x) (fun _ => Phase ph) s.
Proof.
  intros Hi HP. destruct (Phase_CL ph s Hi HP) as (c & a & b & HC & Hback). unfold undeclared. cquiet.
  eapply (psafe_done _ (Phase ph)); [apply Phase_stable|auto..].
Qed.

Lemma psafe_RUN run g args void ph s :
  client_run run -> Forall word_ok args -> started ph -> PInv s -> Phase ph s ->
  psafe N (with_stack_task g args run void) (fun _ => Phase ph) s.
Proof.
  intros Hrun Ha Hph Hi HP. apply psafe_stack_task; [done..|]. clear s Hi HP. intros t s Hi HP.
  apply safe_bind; [done|]. eapply safe_mono; [|by apply (Hrun t ph)]. intros ? s1 Hi1 HP1.
  destruct (Phase_CL ph s1 Hi1 HP1) as (c1 & a1 & b1 & HC1 & Hback1).
  eapply (safe_quiet N False); [apply (Keep_client c1 a1 b1)|apply quiet_load_res|done..|]. auto.
Qed.

Lemma psafe_TOGETHER g args ph s :
  Forall word_ok args -> started ph -> PInv s -> Phase ph s ->
  psafe N (gen_TOGETHER g args) (fun _ => Phase ph) s.
Proof.
  intros Ha Hph Hi HP. apply psafe_stack_task; [done..|]. intros t s1 Hi1 HP1. by apply run_together_client.
Qed.

Lemma psafe_program p ph ph' s :
  follows ph p ph' -> PInv s -> Phase ph s -> psafe N (cinterp p) (fun _ => Phase ph') s.
Proof.
  revert ph s. induction p as [v|k IH|k IH|k IH|k IH|u args k IH|u args k IH|u args k IH|u args k IH]; intros ph s Hf Hi HP;
    cbn [follows cinterp] in *; try (apply safe_bind; [done|]).
  - subst ph'. finish_in (Phase ph).
  - destruct Hf as [-> Hf]. eapply safe_mono; [|by apply psafe_start]. intros ? s1 Hi1 HP1. by apply (IH (Awake 0)).
  - destruct Hf as [Hs Hf]. eapply safe_mono; [|by apply (psafe_stop ph)]. intros ? s1 Hi1 HP1. by apply (IH Stopped).
  - destruct ph as [|a| |]; try done. eapply safe_mono; [|by apply (psafe_suspend a)]. intros ? s1 Hi1 HP1. by apply (IH (suspended a)).
  - destruct Hf as [Hs Hf]. eapply safe_mono; [|apply (psafe_resume ph); [by intros ->|done..]].
    intros ? s1 Hi1 HP1. by apply (IH (resumed ph)).
  - destruct Hf as (Hs & Ha & Hf). eapply (safe_mono _ _ _ _ (fun _ => Phase ph)); [intros r s1 Hi1 HP1; by apply (IH r ph)|].
    destruct (RUN_cases (F_user u) args) as [-> | ->]; [by apply psafe_undeclared|].
    by apply (psafe_RUN _ _ _ _ ph); [apply run_task_client|..].
  - destruct Hf as (Hs & Ha & Hf). eapply (safe_mono _ _ _ _ (fun _ => Phase ph)); [intros r s1 Hi1 HP1; by apply (IH r ph)|].
    destruct (RUNEX_cases (F_user u) args) as [-> | ->]; [by apply psafe_undeclared|].
    by apply (psafe_RUN _ _ _ _ ph); [apply run_task_exclusive_client|..].
  - destruct Hf as (Hs & Ha & Hf). eapply (safe_mono _ _ _ _ (fun _ => Phase ph)); [intros r s1 Hi1 HP1; by apply (IH r ph)|].
    destruct (NEWFRAME_cases (F_user u) args) as [-> | ->]; [by apply psafe_undeclared|].
    by apply (psafe_RUN _ _ _ _ ph); [apply run_newframe_client|..].
  - destruct Hf as (Hs & Ha & Hf). eapply (safe_mono _ _ _ _ (fun _ => Phase ph)); [intros r s1 Hi1 HP1; by apply (IH ph)|].
    destruct (TOGETHER_cases (F_user u) args) as [-> | ->]; [by apply psafe_undeclared|by apply psafe_TOGETHER].
Qed.

(** ** All threads together *)

Definition final_ok (ph : phase) (t : nat) (_ : val) (s : mem * pghost) : Prop := t = N -> Phase ph s.

Lemma zero_PInv : PInv (zero_mem, PG (fun _ => WNew) PhOff).
Proof.
  assert (Hw : Forall word_ok (replicate d_words (VZ 0))) by (by apply Forall_replicate).
  split; simpl; try done. by rewrite countb_none.
Qed.

Lemma protocol_ok p ph c :
  client_words -> follows Off p ph -> lace_reachable (init_config [cinterp p]) c -> config_ok exec plogic (final_ok ph) c.
Proof.
  intros Hcl Hf Hr. eapply (reachable_ok exec fn_body plogic); [intros; by apply protocol_bodies| |exact Hr].
  exists (PG (fun _ => WNew) PhOff). split; [apply zero_PInv|]. intros t th Hth. simpl in Hth.
  destruct (decide (t < N)%nat) as [Hlt|Hge].
  - rewrite lookup_app_l in Hth by (by rewrite length_fmap, length_seq). rewrite list_lookup_fmap, lookup_seq_lt in Hth by done.
    injection Hth as <-. exists (fun _ s => WS t WFin s). split.
    + apply psafe_worker_thread; [apply zero_PInv|by split].
    + intros v s Hi HW ->. lia.
  - rewrite lookup_app_r in Hth by (rewrite length_fmap, length_seq; lia). rewrite length_fmap, length_seq in Hth.
    destruct (t - N)%nat as [|n] eqn:E; [|by destruct n]. injection Hth as <-. replace t with N by lia.
    exists (fun _ => Phase ph). split; [by apply (psafe_program p Off); [|apply zero_PInv|]|]. by intros v s Hi HP _.
Qed.
End Shutdown.
