(* ===== verification/ForkJoin.v ===== *)
(** * Fork-join correctness

    Every task of the client, whatever worker runs it and whenever, returns what the
    sequential semantics says, and the scheduler never makes an invalid access. *)

From S2P Require Export RunProofs Semantics.

Section ForkJoin.
Context {cfg : Cfg} {cfg_ok : CfgOk} {client : Client}.
Hypothesis tasks_ok : client_ok.

Definition eval_ok (pay : payload) (v : val) : Prop := Returns pay.1 pay.2 v.

Abbreviation lsafe := (safe exec (lace_logic eval_ok)).
Abbreviation Inv := (Inv eval_ok).

(** *** The body of a task *)

(** The deque while the tasks [ps] wait to be synced. *)
Definition pending (L : lview) (ps : list payload) : lview := with_live L (lv_live L ++ reverse ps).

Lemma pending_push L pay ps : pending L (pay :: ps) = push (pending L ps) pay.
Proof. unfold pending, push, with_live. simpl. by rewrite reverse_cons, app_assoc. Qed.

Lemma pending_nil L : pending L [] = L.
Proof. unfold pending, with_live. simpl. rewrite app_nil_r. by destruct L. Qed.

Lemma below_pending L ps : below L -> below (pending L ps).
Proof.
  intros [Hb Hf]. unfold pending. split; simpl; rewrite zlen_app; pose proof (zlen_nonneg (reverse ps)).
  - lia.
  - intros f i Hin Hi. specialize (Hf f i Hin Hi). lia.
Qed.

Lemma zlen_pending_cons L pay ps : zlen (lv_live (pending L (pay :: ps))) - 1 = zlen (lv_live (pending L ps)).
Proof. rewrite pending_push. simpl. rewrite zlen_snoc. lia. Qed.

Lemma zlen_pending_succ L pay ps : zlen (lv_live (pending L ps)) + 1 = zlen (lv_live (pending L (pay :: ps))).
Proof. rewrite <-(zlen_pending_cons L pay ps). lia. Qed.

Lemma run_op_spec t L o s :
  Inv s -> At t L s -> lsafe t (run_op t (zlen (lv_live L)) o) (fun _ => At t L) s.
Proof.
  intros Hi Hat. destruct o; cbn [run_op].
  - by apply lace_steal_random_spec.
  - by apply lace_make_all_shared_spec.
  - apply yield_newframe_spec; [apply _|done..].
  - apply (safe_neutral_code eval_ok t _ (At t L)); [apply neutral_barrier|apply _|apply _|done..].
Qed.

Lemma interp_spec t L {l} (p : uprog l) :
  below L -> prog_ok p -> forall ps s, l = ps.*1 -> Inv s -> At t (pending L ps) s ->
  lsafe t (interp t (zlen (lv_live (pending L ps))) p) (fun v s => At t L s /\ ReturnsP p ps.*2 v) s.
Proof.
  intros Hbel. induction p as [v|l u args k IH|u l k IH|u l k IH|l u args k IH|l u args k IH|l u args k IH|l o k IH|l u args k IH|l u args k IH];
    intros Hok ps s Hl Hi Hat; simpl in Hok; try done; cbn [interp].
  - destruct ps; [|done]. rewrite pending_nil in Hat. ret. split; [done|constructor].
  - destruct Hok as [Hlen Hok]. rewrite SPAWN_user by done. eapply lsafe_seq; [done|by apply gen_SPAWN_spec|].
    intros ? s1 Hi1 Hat1. cbv beta in Hat1. rewrite <-pending_push in Hat1.
    rewrite (zlen_pending_succ L (u, args) ps).
    eapply safe_mono; [|apply (IH Hok ((u, args) :: ps)); [by rewrite Hl|done|exact Hat1]].
    intros v s2 _ [??]. split; [done|by constructor].
  - destruct ps as [|[u' args] ps]; simpl in Hl; [done|]. injection Hl as -> ->. rewrite zlen_pending_cons. rewrite pending_push in Hat.
    rewrite SYNC_user. eapply lsafe_seq; [done|apply (gen_SYNC_spec eval_ok t _ (u', args)); [done..|by apply below_pending]|].
    intros r s1 Hi1 [Hat1 Hr].
    eapply safe_mono; [|apply (IH r (Hok r) ps); [done..|exact Hat1]].
    intros v s2 _ [??]. split; [done|by econstructor].
  - destruct Hok as [Hd Hok]. destruct ps as [|[u' args] ps]; simpl in Hl; [done|]. injection Hl as -> ->.
    rewrite zlen_pending_cons. rewrite pending_push in Hat.
    eapply lsafe_seq; [done|apply (lace_drop_spec eval_ok t _ (u', args)); [done..|by apply below_pending]|].
    intros ? s1 Hi1 Hat1. eapply safe_mono; [|apply (IH Hok ps); [done..|exact Hat1]].
    intros v s2 _ [??]. split; [done|by econstructor].
  - destruct Hok as [Hlen Hok]. code.
    eapply (safe_call _ (lace_logic eval_ok) _ _ _ (At t (pending L ps)) _ (pending L ps));
      [apply Stable_At|done..| |].
    { intros s1 _ Hat1. by split_and!. }
    intros r s1 Hi1 [Hat1 Hr]. eapply safe_mono; [|by apply (IH r (Hok r) ps)].
    intros v s2 _ [??]. split; [done|by econstructor].
  - destruct Hok as (Hd & Hlen & Hok). rewrite RUN_user by done.
    eapply lsafe_seq; [done|apply (with_stack_task_spec eval_ok t (At t (pending L ps)));
      [apply _|apply _|by apply lace_run_task_worker|done..]|].
    intros r s1 Hi1 [Hat1 Hr]. eapply safe_mono; [|by apply (IH r (Hok r) ps)].
    intros v s2 _ [??]. split; [done|by econstructor].
  - destruct Hok as (Hd & Hlen & Hok). rewrite RUNEX_user by done.
    eapply lsafe_seq; [done|apply (with_stack_task_spec eval_ok t (At t (pending L ps)));
      [apply _|apply _|by apply lace_run_task_exclusive_worker|done..]|].
    intros r s1 Hi1 [Hat1 Hr]. eapply safe_mono; [|by apply (IH r (Hok r) ps)].
    intros v s2 _ [??]. split; [done|by econstructor].
  - eapply lsafe_seq; [done|by apply run_op_spec|]. intros ? s1 Hi1 Hat1.
    eapply safe_mono; [|by apply (IH Hok ps)]. intros v s2 _ [??]. split; [done|by constructor].
Qed.

(** *** The functions a task is called through *)

Lemma CALL_spec t L u args s :
  Inv s -> At t L s -> length args = user_arity u ->
  lsafe t (fn_body (Fn_CALL (F_user u) t (zlen (lv_live L)) args))
    (fun v s => At t L s /\ eval_ok (u, args) v) s.
Proof.
  intros Hi Hat Hlen. rewrite CALL_user by done.
  assert (Hbel : below L) by (destruct s as [m g]; by eapply At_below).
  pose proof (interp_spec t L (user_body u args) Hbel (tasks_ok u args Hlen) [] s eq_refl Hi) as Hin.
  rewrite pending_nil in Hin. eapply lsafe_seq; [done|by apply Hin|].
  intros r s1 Hi1 [Hat1 Hr]. ret. split; [done|]. by apply (Returns_task u args r).
Qed.

Lemma eval_void pay v : user_void pay.1 = true -> eval_ok pay v -> eval_ok pay (VZ 0).
Proof. unfold eval_ok. intros Hv H. by rewrite (Returns_void _ _ _ H Hv) in H. Qed.

(** [t->d.res = NAME##_CALL(...)] *)
Lemma store_result_spec t L tr pay H r s :
  Inv s -> At t L s -> lv_holds L = (tr, pay) :: H -> eval_ok pay r ->
  lsafe t ((if user_void pay.1 then Ret tt else act (Store_d tr 0 r)) ;;; Ret (VZ 0))
    (fun _ s => At t L s /\ Held t tr (fun T => eval_ok pay (task_res pay T)) s) s.
Proof.
  intros Hi Hat HL Hr.
  assert (Hheld : forall s, At t L s -> held t tr s.2).
  { intros s' Hat'. exists pay. pose proof (f_equal lv_holds (At_view _ _ _ _ Hat')) as Hv. simpl in Hv.
    rewrite Hv, HL. by left. }
  destruct (user_void pay.1) eqn:Hv; code.
  - ret. split; [done|]. split; [by apply Hheld|]. unfold task_res. rewrite Hv. by eapply eval_void.
  - eapply (safe_write eval_ok t _ (fun _ => tt) (upd_task tr (set_d 0 r)) _ (At t L)); [by left|apply _|done..|].
    intros m g Hi1 Hat1. pose proof (Hheld _ Hat1) as Hh. simpl in Hh.
    pose proof (inv_words _ _ Hi1 tr) as Hd. pose proof res_fit as Hfit. simpl in Hd. split.
    { split; [exact (held_valid eval_ok _ _ _ _ Hi1 Hh)|done]. }
    exists g. split.
    + apply good_set_task; [done|by right|by rewrite length_set_d|by left].
    + intros Hi2. ret. split; [apply At_set_task; [done|exact (held_foreign eval_ok _ _ _ _ Hi1 Hh)]|].
      split; [done|]. unfold upd_task, task_res. cbn [fst]. rewrite get_set_task, decide_True, Hv by done.
      unfold get_d. simpl. destruct (task_d (get_task tr m)); [simpl in *; lia|done].
Qed.

Lemma gen_WRAP_spec t L tr pay H s :
  Inv s -> At t L s -> lv_holds L = (tr, pay) :: H -> task_ready (get_task tr s.1) pay ->
  lsafe t (gen_WRAP (F_user pay.1) (user_void pay.1) (user_arity pay.1) t (zlen (lv_live L)) tr)
    (fun _ s => At t L s /\ Held t tr (fun T => eval_ok pay (task_res pay T)) s) s.
Proof.
  intros Hi Hat HL Hrd. unfold gen_WRAP. destruct Hrd as (Hf & Ha & Hlen). rewrite <-Hlen.
  assert (Hh : held t tr s.2).
  { exists pay. pose proof (f_equal lv_holds (At_view _ _ _ _ Hat)) as Hv. simpl in Hv. rewrite Hv, HL. by left. }
  eapply lsafe_seq; [done|apply (load_args_all eval_ok t tr
    (fun s => At t L s /\ Held t tr (fun T => args_in T pay.2) s) pay.2); [apply _| |rewrite Hlen; apply args_fit|done..]|].
  { intros m g Hi1 [_ [Hh1 Ha1]]. split; [exact (held_valid eval_ok _ _ _ _ Hi1 Hh1)|done]. }
  clear dependent s. intros args s Hi [-> [Hat _]]. code.
  eapply (safe_call _ (lace_logic eval_ok) _ _ _ (At t L) _ L); [apply Stable_At|done..| |].
  { intros s1 _ Hat1. by split_and!. }
  intros r s1 Hi1 [Hat1 Hr]. eapply store_result_spec; [done..|]. by destruct pay.
Qed.

(** Every function meets its specification. *)
Lemma bodies_ok t f L s :
  Inv s -> pre (lace_logic eval_ok) t f L s ->
  lsafe t (fn_body f) (post (lace_logic eval_ok) t f L) s.
Proof.
  intros Hi Hpre. destruct f as [[| | | | | |u] w h tr|[| | | | | |u] w h args]; try done; simpl in Hpre.
  - destruct Hpre as (-> & Hat & -> & pay & H & HL & -> & Hrd). rewrite WRAP_user.
    eapply (safe_mono _ (lace_logic eval_ok)); [|by eapply gen_WRAP_spec].
    intros v s1 Hi1 [Hat1 [_ Hr]]. simpl. split; [done|]. by exists pay, H.
  - destruct Hpre as (-> & Hat & -> & Hlen).
    eapply (safe_mono _ (lace_logic eval_ok)); [|by apply CALL_spec]. done.
Qed.

(** *** The worker threads *)

(** An empty deque. *)
Definition fresh : lview := LV 0 [] [] [].

Lemma lace_init_worker_spec t hi s :
  Inv s -> AtH t fresh hi s -> lsafe t (lace_init_worker t) (fun _ => AtH t fresh hi) s.
Proof.
  intros Hi Hat. pose proof (At_worker _ _ _ _ Hat) as Ht. unfold lace_init_worker.
  skip_with (AtH t fresh hi). clear dependent s. rename s0 into s.
  skip_code (AtH t fresh hi) by neutral. clear dependent s. rename s0 into s.
  skip_with (AtH t fresh hi).
  assert (Ho : exists ps pa a sp tp md, Own t (OState fresh md ps pa a sp tp hi) s0).
  { destruct HP as [(sp & H)|(ps & a & sp & _ & _ & H)]; by do 6 eexists. }
  clear dependent s. destruct Ho as (ps & pa & a & sp & tp & md & Ho).
  eapply (safe_store_ts _ _ _ Open _ _ (fun y => y <= 0)); [done|exact Ho|done| | |].
  { intros y z ?? [->|?]; lia. }
  { intros l b tl _ Hl Hmd. simpl in Hl. unfold zlen in Hl. destruct l; [|simpl in *; lia].
    assert (b = 0) as ->. { destruct md; simpl in Hmd; unfold bnd, zlen in Hmd; simpl in Hmd; lia. }
    split; [|done]. unfold bnd, zlen; simpl. split_and!; intros; lia. }
  clear dependent s0. intros s Hi Ho. code. eapply safe_store_allstolen; [done..|].
  clear dependent s. intros s Hi Ho. set (o := o_set_allstolen _ _) in Ho. skip_with (Own t o).
  eapply safe_store_psplit; [done..|]. clear dependent s s0. intros s Hi Ho. code.
  eapply safe_store_pallstolen; [done..|]. clear dependent s. intros s Hi Ho. ret. left. by exists 0.
Qed.

Lemma worker_thread_spec t s :
  Inv s -> AtH t fresh empty_slot s -> lsafe t (lace_worker_thread t ;;; Ret (VZ 0)) (fun _ _ => True) s.
Proof.
  intros Hi Hat. unfold lace_worker_thread. code. skip_with (AtH t fresh empty_slot). clear dependent s. rename s0 into s.
  apply (safe_bind _ (lace_logic eval_ok)); [done|].
  eapply lsafe_seq; [done|by apply lace_init_worker_spec|]. clear dependent s. intros ? s Hi Hat.
  skip_with (AtH t fresh empty_slot). clear dependent s. rename s0 into s.
  skip_with (AtH t fresh empty_slot). clear dependent s. rename s0 into s.
  eapply lsafe_seq; [done|by apply (lace_get_head_spec eval_ok empty_slot ltac:(done) t fresh (fun _ => True)); [apply _|..]|].
  clear dependent s. intros h s Hi (-> & Hat & _).
  eapply lsafe_seq; [done|apply (lace_steal_loop_spec eval_ok t fresh); [done| |done]|].
  { eapply AtH_mono; [|exact Hat]. by intros i T _ He _. }
  clear dependent s. intros ? s Hi Hat. skip_with (At t fresh). ret. by ret.
Qed.

(** *** The threads of the client *)

Lemma lace_start_spec t s : Inv s -> lsafe t lace_start (fun _ _ => True) s.
Proof.
  intros Hi. unfold lace_start. do 2 skip_with (fun _ : mem * ghost => True).
  skip_code (fun _ : mem * ghost => True) by (unfold lace_barrier_init; neutral).
  do 6 skip_with (fun _ : mem * ghost => True).
  skip_code (fun _ : mem * ghost => True) by neutral. skip_with (fun _ : mem * ghost => True).
  eapply (safe_write eval_ok t _ (fun _ => tt) (set_newframe None) _ (fun _ => True)); [by left|apply _|done..|].
  intros m g Hi' _. split; [done|]. exists g. split.
  { apply good_same_core; [done|]. split; try done. split; try done.
    symmetry. apply (inv_newframe _ _ Hi'). }
  intros Hi20. skip_code (fun _ : mem * ghost => True) by (apply neutral_for; intros j; neutral).
  apply (safe_neutral_code eval_ok t _ (fun _ => True)); [apply neutral_resume|apply _|apply _|done|done].
Qed.

Lemma lace_stop_neutral t : neutral_code t lace_stop.
Proof. unfold lace_stop. apply neutral_bind; [apply neutral_resume|]. intros _. unfold lace_barrier_destroy. neutral. Qed.

Lemma cinterp_spec t p s :
  (n_workers <= t)%nat -> cprog_ok p -> Inv s -> lsafe t (cinterp p) (fun v _ => ReturnsC p v) s.
Proof.
  intros Ht. revert s. induction p as [v|k IH|k IH|k IH|k IH|u args k IH|u args k IH|u args k IH|u args k IH];
    intros s Hok Hi; simpl in Hok; cbn [cinterp]; try done.
  - ret. constructor.
  - eapply lsafe_seq; [done|by apply lace_start_spec|]. intros ? s1 Hi1 _.
    eapply safe_mono; [|by apply IH]. intros v s2 _ ?. by constructor.
  - skip_code (fun _ : mem * ghost => True) by apply lace_stop_neutral.
    eapply safe_mono; [|by apply IH]. intros v s2 _ ?. by constructor.
  - skip_code (fun _ : mem * ghost => True) by apply neutral_suspend.
    eapply safe_mono; [|by apply IH]. intros v s2 _ ?. by constructor.
  - skip_code (fun _ : mem * ghost => True) by apply neutral_resume.
    eapply safe_mono; [|by apply IH]. intros v s2 _ ?. by constructor.
  - destruct Hok as [Hlen Hok]. rewrite RUN_user by done. eapply lsafe_seq; [done|
      by apply (with_stack_task_spec eval_ok t (fun _ => True)); [apply _|apply _|apply lace_run_task_external|..]|].
    intros r s1 Hi1 [_ Hr]. eapply safe_mono; [|by apply IH]. intros v s2 _ ?. by econstructor.
  - destruct Hok as [Hlen Hok]. rewrite RUNEX_user by done. eapply lsafe_seq; [done|
      by apply (with_stack_task_spec eval_ok t (fun _ => True));
        [apply _|apply _|apply lace_run_task_exclusive_external|..]|].
    intros r s1 Hi1 [_ Hr]. eapply safe_mono; [|by apply IH]. intros v s2 _ ?. by econstructor.
Qed.

(** *** The initial configuration *)

Definition zero_ghost : ghost := mkGhost (fun _ => 0) (fun _ => []) (fun _ => None) (fun _ => []) (fun _ => []).

Lemma zero_inv : Inv (zero_mem, zero_ghost).
Proof.
  split; simpl; try done.
  - intros p. pose proof dq_min. split; [|intros i e He; apply ent_range in He; unfold zlen in He; simpl in He; lia|done].
    unfold zlen, dq_cap. simpl. case_decide; lia.
  - by intros q tr pay ?%not_elem_of_nil.
  - intros q. constructor.
  - intros [p i|id]; simpl; by rewrite length_replicate.
  - by intros q f ?%not_elem_of_nil.
Qed.

Lemma zero_Own t : (t < n_workers)%nat -> Own t (o_rest0 fresh empty_slot 0) (zero_mem, zero_ghost).
Proof.
  intros Ht. split; simpl; try done; try lia.
  unfold bnd, zlen; simpl. split; [|done]. split_and!; intros; lia.
Qed.

Lemma zero_AtH t : (t < n_workers)%nat -> AtH t fresh empty_slot (zero_mem, zero_ghost).
Proof. intros Ht. left. exists 0. by apply zero_Own. Qed.

Lemma zero_At t : (t < n_workers)%nat -> At t fresh (zero_mem, zero_ghost).
Proof. intros Ht. eapply AtH_mono; [|by apply zero_AtH]. by intros i T _ He _. Qed.

(** What each thread promises when it ends. *)
Definition final (progs : list cprog) (t : nat) (v : val) (s : mem * ghost) : Prop :=
  forall i p, t = (n_workers + i)%nat -> progs !! i = Some p -> ReturnsC p v.

Lemma init_ok progs :
  Forall cprog_ok progs ->
  config_ok exec (lace_logic eval_ok) (final progs) (init_config (cinterp <$> progs)).
Proof.
  intros Hok. exists zero_ghost. split; [apply zero_inv|]. intros t th Hl. simpl in Hl.
  destruct (decide (t < n_workers)%nat) as [Ht|Ht].
  - rewrite lookup_app_l in Hl by (by rewrite length_fmap, length_seq).
    rewrite list_lookup_fmap, lookup_seq_lt in Hl by done. simplify_eq/=.
    exists (fun _ _ => True). split; [apply worker_thread_spec; [apply zero_inv|by apply zero_AtH]|].
    simpl. intros v s _ _ i p ->. lia.
  - rewrite lookup_app_r in Hl by (rewrite length_fmap, length_seq; lia).
    rewrite length_fmap, length_seq, !list_lookup_fmap in Hl.
    destruct (progs !! (t - n_workers)%nat) as [p|] eqn:Hp; simplify_eq/=.
    exists (fun v _ => ReturnsC p v). split.
    + apply cinterp_spec; [lia|by eapply Forall_lookup_1|apply zero_inv].
    + intros v s _ Hr i p' -> Hp'. replace (n_workers + i - n_workers)%nat with i in Hp by lia. congruence.
Qed.

Lemma reachable_config_ok progs c :
  Forall cprog_ok progs -> lace_reachable (init_config (cinterp <$> progs)) c ->
  config_ok exec (lace_logic eval_ok) (final progs) c.
Proof.
  intros Hok Hr. eapply (reachable_ok exec fn_body (lace_logic eval_ok)); [|by apply init_ok|done].
  intros t f x s. by apply bodies_ok.
Qed.
End ForkJoin.
