(* ===== verification/Demo.v ===== *)
(** * A concrete program

    The Fibonacci task of the benchmarks on two workers, with which the theorems are
    applied to concrete runs. *)

From S2P Require Export Effects ForkJoin.

Module Fib.

#[export] Existing Instance demo_cfg.

#[export] Instance demo_cfg_ok : CfgOk.
Proof. split; unfold max_args; simpl; try lia; intros; lia. Qed.

(** [TASK_1(int, pfib, int, n) { if (n < 2) return n; SPAWN(pfib, n-1);
     int k = CALL(pfib, n-2); int m = SYNC(pfib); return m + k; }] *)
Definition pfib (args : list val) : uprog [] :=
  match args with
  | [VZ n] =>
      if n <? 2 then URet (VZ n)
      else
        USpawn 0 [VZ (n - 1)]
          (UCall 0 [VZ (n - 2)] (fun k =>
             USync (fun m =>
               match m, k with
               | VZ m, VZ k => URet (VZ (m + k))
               | _, _ => URet (VZ 0)
               end)))
  | _ => URet (VZ 0)
  end.

#[export] Instance demo_client : Client := {| user_body := fun _ => pfib |}.

Lemma demo_client_ok : client_ok.
Proof.
  intros u args _. simpl. unfold pfib. repeat case_match; simpl; try done.
  split; [done|]. split; [done|]. intros a b. by repeat case_match.
Qed.

Lemma demo_client_words : client_words.
Proof.
  intros u args Ha. simpl. unfold pfib. repeat case_match; simpl; try done.
  split; [by repeat constructor|]. split; [by repeat constructor|]. intros k _ m _. by repeat case_match.
Qed.

(** [lace_start(2, 16); r = RUN(pfib, n); lace_stop(); return r;] *)
Definition demo_main (n : Z) : cprog := CStart (CRun 0 [VZ n] (fun r => CStop (CRet r))).

Definition demo_run (fuel : nat) (n : Z) : config :=
  round_robin exec fn_body fuel 0 (init_config (cinterp <$> [demo_main n])).

Lemma demo_run_reachable fuel n : lace_reachable (init_config (cinterp <$> [demo_main n])) (demo_run fuel n).
Proof. apply round_robin_reachable. Qed.

(** ** Concrete states

    The deque of worker 0 has one task, [pfib(1)], in slot 0; it is shared and still
    available, or stolen and finished. *)
Definition one_task (th : thief_t) (tail stolen : Z) : mem :=
  set_pub (<[0%nat := mkWorker (mkTS tail 1) stolen 0]> (pub zero_mem))
    (set_priv (<[0%nat := mkWorkerP 1 stolen 0]> (priv zero_mem))
      (set_task (TSlot 0 0) (mkTask (F_user 0) th (VZ 1 :: replicate 5 (VZ 0))) zero_mem)).

Definition one_entry (st : status) : ghost := g_live 0 [mkEntry (0%nat, [VZ 1]) st] zero_ghost.

Definition shared_state : mem * ghost := (one_task THIEF_TASK 0 0, one_entry Avail).
Definition stolen_state : mem * ghost := (one_task THIEF_COMPLETED 1 1, one_entry Done).

(** The deque with that task. *)
Definition one_view : lview := push fresh (0%nat, [VZ 1]).

Lemma one_ent st p i e :
  ent (live (one_entry st) p) i = Some e -> p = 0%nat /\ i = 0 /\ e = mkEntry (0%nat, [VZ 1]) st.
Proof.
  simpl. case_insert; intros He; pose proof (ent_range _ _ _ He) as Hr; unfold zlen in Hr; simpl in Hr; [|lia].
  assert (i = 0) as -> by lia. by injection He as <-.
Qed.

Lemma one_inv th tail stolen st :
  (tail < 1 -> tail = 0 /\ st = Avail) ->
  slot_ok eval_ok (fun _ => []) 0 0 (mkTask (F_user 0) th (VZ 1 :: replicate 5 (VZ 0))) (mkEntry (0%nat, [VZ 1]) st) ->
  Inv eval_ok (one_task th tail stolen, one_entry st).
Proof.
  intros Htail Hslot. split; simpl; try done.
  - intros p. split.
    + simpl. case_insert; [|apply (dq_len _ _ _ _ _ _ _ (inv_dq _ _ zero_inv p))]. unfold zlen, dq_cap. simpl. lia.
    + intros i e He. destruct (one_ent st p i e He) as (-> & -> & ->). exact Hslot.
    + simpl. case_insert; simpl; [|lia]. intros Ht. destruct (Htail Ht) as [-> ->].
      split_and!; [done..|]. intros i Hi. assert (i = 0) as -> by lia. by eexists.
  - by intros q tr pay ?%not_elem_of_nil.
  - intros q. constructor.
  - intros [p i|id]; [|done]. simpl. case_insert; [|done]. case_insert; done.
  - by intros q f ?%not_elem_of_nil.
Qed.

Lemma pfib_1 : Returns 0 [VZ 1] (VZ 1).
Proof. change (Returns 0 [VZ 1] (if user_void 0 then VZ 0 else VZ 1)). do 2 constructor. Qed.

Lemma shared_inv : Inv eval_ok shared_state.
Proof. by apply one_inv; [|split_and!]. Qed.

Lemma stolen_inv : Inv eval_ok stolen_state.
Proof. apply one_inv; [lia|]. split; [done|apply pfib_1]. Qed.

Lemma one_clean th tail stolen st i :
  zlen (live (one_entry st) 0%nat) <= i -> clean i (slots (one_task th tail stolen) 0%nat i).
Proof.
  unfold zlen. simpl. intros Hi _. rewrite fn_lookup_insert. by rewrite fn_lookup_insert_ne by lia.
Qed.

Lemma fresh_below : below fresh.
Proof. split; [done|]. by intros f i ?%not_elem_of_nil. Qed.

Lemma shared_own : Own 0 (o_rest0 one_view clean 1) shared_state.
Proof.
  split; simpl; try done; try lia.
  - split; [|done]. split_and!; [done..|intros; lia|].
    intros i Hi. assert (i = 0) as -> by (unfold zlen in Hi; simpl in Hi; lia). by eexists.
  - apply (one_clean THIEF_TASK 0 0 Avail).
Qed.

Lemma stolen_rest : Rest1 0 one_view clean stolen_state.
Proof.
  exists 1, 1, 1. split_and!; [done..|]. split; simpl; try done; try lia.
  - split; [done|]. unfold bnd, zlen. simpl. split_and!; [done..| |intros; lia].
    intros i Hi (e & He & Hst). by destruct (one_ent Done 0 i e He) as (_ & _ & ->).
  - apply (one_clean THIEF_COMPLETED 1 1 Done).
Qed.
End Fib.
