(* ===== verification/Contracts.v ===== *)
(** * The contracts of the operations

    What each operation of the scheduler does for the worker that calls it, under any
    interference from the other threads that the scheduler allows.  All of them are
    stated in the logic of Scheduler.v: [lsafe t c Q s] says that thread [t] can run [c]
    from [s] while the others run, that every access it makes is valid and keeps the
    invariant, and that [Q] holds of the result and the state when [c] returns. *)

From S2P Require Export Demo.

Section Contracts.
Context {cfg : Cfg} {cfg_ok : CfgOk} {client : Client}.

Abbreviation lsafe := (safe exec (lace_logic eval_ok)).
Abbreviation Inv := (Inv eval_ok).

(** C9: [SPAWN] puts the new task on top of the deque, and the [SYNC] that follows returns
    a value the task may return and takes the task off again, also when thieves stole
    the task in between. *)
Theorem spawn_sync_roundtrip t L u args s :
  Inv s -> At t L s -> length args = user_arity u ->
  lsafe t (SPAWN (F_user u) t (zlen (lv_live L)) args ;;;
           SYNC (F_user u) t (zlen (lv_live L)))
    (fun v s => At t L s /\ Returns u args v) s.
Proof.
  intros Hi Hat Hlen.
  assert (Hb : below L) by (destruct s as [m g]; exact (At_below _ _ _ _ _ _ Hi Hat)).
  rewrite SPAWN_user by done. eapply lsafe_seq; [done|by apply gen_SPAWN_spec|]. intros ? s1 Hi1 Hat1.
  rewrite SYNC_user. exact (gen_SYNC_spec eval_ok t L (u, args) s1 Hi1 Hat1 Hb).
Qed.

(** C10: [SYNC] of the task on top of the deque returns a value that task may return and
    leaves the deque without it. *)
Theorem sync_contract t L pay s :
  Inv s -> At t (push L pay) s -> below L ->
  lsafe t (SYNC (F_user pay.1) t (zlen (lv_live L)))
    (fun v s => At t L s /\ Returns pay.1 pay.2 v) s.
Proof. rewrite SYNC_user. apply gen_SYNC_spec. Qed.

(** C20: a task that is spawned and then dropped with [DROP] is off the deque again; if it was
    stolen, [DROP] returns only after the thief is done with it. *)
Theorem spawn_drop_roundtrip t L u args s :
  user_drops = true -> Inv s -> At t L s -> length args = user_arity u ->
  lsafe t (SPAWN (F_user u) t (zlen (lv_live L)) args ;;; lace_drop t (zlen (lv_live L)))
    (fun _ => At t L) s.
Proof.
  intros Hd Hi Hat Hlen.
  assert (Hb : below L) by (destruct s as [m g]; exact (At_below _ _ _ _ _ _ Hi Hat)).
  rewrite SPAWN_user by done. eapply lsafe_seq; [done|by apply gen_SPAWN_spec|]. intros ? s1 Hi1 Hat1.
  exact (lace_drop_spec eval_ok t L (u, args) s1 Hd Hi1 Hat1 Hb).
Qed.

(** C21: [LACE_MAKE_ALL_SHARED] and [STEAL_RANDOM] inside a task leave the tasks of the deque
    as they are. *)
Theorem task_ops_contract t L s :
  Inv s -> At t L s ->
  lsafe t (lace_make_all_shared t (zlen (lv_live L))) (fun _ => At t L) s /\
  lsafe t (lace_steal_random t (zlen (lv_live L))) (fun _ => At t L) s.
Proof. intros Hi Hat. split; [by apply lace_make_all_shared_spec|by apply lace_steal_random_spec]. Qed.

(** C11: [lace_steal] from another worker runs a stolen task completely and gives the
    thief's own deque back as it was, whatever it returns. *)
Theorem steal_contract t L v s :
  Inv s -> At t L s -> v <> t -> (v < n_workers)%nat ->
  lsafe t (lace_steal t (zlen (lv_live L)) (Some v)) (fun _ => At t L) s.
Proof. intros Hi Hat Hne Hv. apply lace_steal_spec; [done..|]. by intros w [= <-]. Qed.

(** C12: when everything is stolen, [lace_leapfrog] returns only after the thief has
    finished the task on top of the deque: its result is in the slot, the slot is marked
    empty again and the rest of the deque is as before. *)
Theorem leapfrog_contract t L pay s :
  Inv s -> Rest1 t (push L pay) clean s -> below L ->
  lsafe t (lace_leapfrog t (zlen (lv_live L)))
    (fun _ s => AtH t L (high (zlen (lv_live L)) (fun T =>
       task_thief T = THIEF_EMPTY /\ Returns pay.1 pay.2 (task_res pay T))) s) s.
Proof. exact (lace_leapfrog_spec eval_ok t L pay s). Qed.

(** C13: [lace_shrink_shared], called when all live tasks are shared, either finds that
    every task is stolen, publishes that and returns 1, or takes back at least one task by
    moving both split points to the same lower index and returns 0. *)
Theorem shrink_contract t L hi s :
  Inv s -> Own t (o_rest0 L hi (zlen (lv_live L))) s ->
  lsafe t (lace_shrink_shared t)
    (fun r s => (r = 1 /\ Rest1 t L hi s) \/
                (r = 0 /\ exists sp, sp < zlen (lv_live L) /\ Own t (o_rest0 L hi sp) s)) s.
Proof. intros Hi Ho. by apply lace_shrink_shared_spec. Qed.

(** C17: [lace_get_head] finds the index of the first free slot of the worker's deque, for
    clients that do not use [DROP]. *)
Theorem get_head_exact t L s :
  user_drops = false -> Inv s -> At t L s -> lsafe t (lace_get_head t) (fun h s => h = zlen (lv_live L) /\ At t L s) s.
Proof.
  intros Hd Hi Hat. eapply safe_mono; [|by apply (lace_get_head_spec eval_ok clean (clean_empty Hd) t L (fun _ => True)); [apply _|..]].
  by intros h s1 _ (-> & ? & _).
Qed.

(** C15: [RUN] and [RUNEX] by a thread that is not a worker return a value the task may
    return. *)
Theorem run_external_contract t u args s :
  (n_workers <= t)%nat -> length args = user_arity u -> Inv s ->
  lsafe t (RUN (F_user u) args) (fun v _ => Returns u args v) s /\
  lsafe t (RUNEX (F_user u) args) (fun v _ => Returns u args v) s.
Proof.
  intros Ht Hlen Hi. rewrite RUN_user, RUNEX_user by done. split.
  - eapply safe_mono; [|by apply (with_stack_task_spec eval_ok t (fun _ => True));
      [apply _|apply _|apply lace_run_task_external|..]]. by intros v s1 _ [_ ?].
  - eapply safe_mono; [|by apply (with_stack_task_spec eval_ok t (fun _ => True));
      [apply _|apply _|apply lace_run_task_exclusive_external|..]]. by intros v s1 _ [_ ?].
Qed.

(** C16: [RUN] and [RUNEX] by a worker, in the middle of a task, run the new task at the
    head of the worker's deque, return a value the task may return and leave the deque
    as it was. *)
Theorem run_worker_contract t L u args s :
  user_drops = false -> length args = user_arity u -> Inv s -> At t L s ->
  lsafe t (RUN (F_user u) args) (fun v s => At t L s /\ Returns u args v) s /\
  lsafe t (RUNEX (F_user u) args) (fun v s => At t L s /\ Returns u args v) s.
Proof.
  intros Hd Hlen Hi Hat. rewrite RUN_user, RUNEX_user by done. split.
  - by apply (with_stack_task_spec eval_ok t (At t L)); [apply _|apply _|apply lace_run_task_worker|..].
  - by apply (with_stack_task_spec eval_ok t (At t L)); [apply _|apply _|apply lace_run_task_exclusive_worker|..].
Qed.
End Contracts.

(** ** The contracts in concrete states *)

Import Fib.

(** A worker with an empty deque. *)
Lemma spawn_sync_roundtrip_witness :
  safe exec (lace_logic eval_ok) 0
    (SPAWN (F_user 0) 0 (zlen (lv_live fresh)) [VZ 5] ;;;
     SYNC (F_user 0) 0 (zlen (lv_live fresh)))
    (fun v s => At 0%nat fresh s /\ Returns 0 [VZ 5] v) (zero_mem, zero_ghost).
Proof.
  apply (spawn_sync_roundtrip 0 fresh 0 [VZ 5] (zero_mem, zero_ghost));
    [apply zero_inv|apply zero_At; simpl; lia|reflexivity].
Defined.

Lemma steal_contract_witness :
  safe exec (lace_logic eval_ok) 0 (lace_steal 0 (zlen (lv_live fresh)) (Some 1%nat)) (fun _ => At 0%nat fresh) (zero_mem, zero_ghost).
Proof.
  apply (steal_contract 0 fresh 1 (zero_mem, zero_ghost));
    [apply zero_inv|apply zero_At; simpl; lia|lia|simpl; lia].
Defined.

Lemma sync_contract_witness :
  safe exec (lace_logic eval_ok) 0 (SYNC (F_user 0) 0 (zlen (lv_live fresh)))
    (fun v s => At 0%nat fresh s /\ Returns 0 [VZ 1] v) shared_state.
Proof.
  apply (sync_contract 0 fresh (0%nat, [VZ 1]) shared_state);
    [apply shared_inv|left; exists 1; apply shared_own|exact fresh_below].
Defined.

Lemma leapfrog_contract_witness :
  safe exec (lace_logic eval_ok) 0 (lace_leapfrog 0 (zlen (lv_live fresh)))
    (fun _ s => AtH 0 fresh (high (zlen (lv_live fresh)) (fun T =>
       task_thief T = THIEF_EMPTY /\ Returns 0 [VZ 1] (task_res (0%nat, [VZ 1]) T))) s) stolen_state.
Proof.
  apply (leapfrog_contract 0 fresh (0%nat, [VZ 1]) stolen_state);
    [apply stolen_inv|apply stolen_rest|exact fresh_below].
Defined.

Lemma shrink_contract_witness :
  safe exec (lace_logic eval_ok) 0 (lace_shrink_shared 0)
    (fun r s => (r = 1 /\ Rest1 0 one_view clean s) \/
                (r = 0 /\ exists sp, sp < zlen (lv_live one_view) /\ Own 0 (o_rest0 one_view clean sp) s)) shared_state.
Proof.
  apply (shrink_contract 0 one_view clean shared_state); [apply shared_inv|apply shared_own].
Defined.

Lemma get_head_exact_witness :
  safe exec (lace_logic eval_ok) 1 (lace_get_head 1) (fun h s => h = zlen (lv_live fresh) /\ At 1%nat fresh s) (zero_mem, zero_ghost).
Proof.
  apply (get_head_exact 1 fresh (zero_mem, zero_ghost)); [reflexivity|apply zero_inv|apply zero_At; simpl; lia].
Defined.

Lemma run_external_contract_witness :
  safe exec (lace_logic eval_ok) 2 (RUN (F_user 0) [VZ 5]) (fun v _ => Returns 0 [VZ 5] v)
    (zero_mem, zero_ghost).
Proof.
  refine (proj1 (run_external_contract 2 0 [VZ 5] (zero_mem, zero_ghost) _ _ _)); [simpl; lia|reflexivity|apply zero_inv].
Defined.

Lemma run_worker_contract_witness :
  safe exec (lace_logic eval_ok) 0 (RUN (F_user 0) [VZ 5])
    (fun v s => At 0%nat fresh s /\ Returns 0 [VZ 5] v) (zero_mem, zero_ghost).
Proof.
  refine (proj1 (run_worker_contract 0 fresh 0 [VZ 5] (zero_mem, zero_ghost) _ _ _ _));
    [reflexivity|reflexivity|apply zero_inv|apply zero_At; simpl; lia].
Defined.

Lemma task_ops_contract_witness :
  safe exec (lace_logic eval_ok) 0 (lace_make_all_shared 0 (zlen (lv_live one_view)))
    (fun _ => At 0%nat one_view) shared_state.
Proof.
  refine (proj1 (task_ops_contract 0 one_view shared_state _ _)); [apply shared_inv|].
  left. exists 1. apply shared_own.
Defined.

(** A client that uses [DROP]. *)
Definition drop_cfg : Cfg :=
  {| n_workers := 2; dqsize := 16; d_words := 6; lace_header := lace_h;
     user_void := fun _ => false; user_arity := fun _ => 1%nat; user_drops := true |}.

Lemma drop_cfg_ok : @CfgOk drop_cfg.
Proof. split; unfold max_args; simpl; try lia; intros; lia. Qed.

Lemma spawn_drop_roundtrip_witness :
  let cfg := drop_cfg in
  safe exec (lace_logic eval_ok) 0
    (SPAWN (F_user 0) 0 (zlen (lv_live fresh)) [VZ 5] ;;; lace_drop 0 (zlen (lv_live fresh)))
    (fun _ => At 0%nat fresh) (zero_mem, zero_ghost).
Proof.
  intros cfg. pose proof drop_cfg_ok as Hok.
  apply (spawn_drop_roundtrip (cfg_ok := Hok) 0 fresh 0 [VZ 5] (zero_mem, zero_ghost));
    [reflexivity|apply zero_inv|apply zero_At; simpl; lia|reflexivity].
Defined.
