(* ===== verification/Findings.v ===== *)
(** * Executions that show where the code falls short

    Each theorem gives a concrete execution of the model.  They mark the limits of the
    correctness theorems: what the clients of Correctness.v may not do, and what may
    happen to those that wait. *)

From S2P Require Export Demo.

(** ** What a thread does next *)

Definition next_call (c : @config ev fn val mem) (t : nat) : option fn :=
  match cur <$> threads c !! t with
  | Some (Call f _) => Some f
  | _ => None
  end.

Definition finished_with (c : @config ev fn val mem) (t : nat) : option val :=
  match threads c !! t with
  | Some (Thread (Ret v) []) => Some v
  | _ => None
  end.

Definition is_sem_wait {R} (e : ev R) (s : sref) : bool :=
  match e with Sem_wait s' => bool_decide (s = s') | _ => false end.

Definition is_undefined {R} (e : ev R) : bool := match e with Undefined => true | _ => false end.

Definition next_is (P : forall R, ev R -> bool) (c : @config ev fn val mem) (t : nat) : bool :=
  match cur <$> threads c !! t with
  | Some (@Act _ _ _ _ R e _) => P R e
  | _ => false
  end.

(** The thread waits for a semaphore that nobody has posted. *)
Definition waits_for (c : @config ev fn val mem) (t : nat) (s : sref) : Prop :=
  next_is (fun R e => is_sem_wait e s) c t = true /\ sems (memory c) s = 0.

(** ** Two client threads that run tasks at the same time *)

Module LostTask.
Import Fib.

Definition progs : list cprog := [demo_main 1; CRun 0 [VZ 1] CRet].

(** The first client offers its task, the second one replaces it, then everybody runs. *)
Definition offered : config := run_alone exec fn_body 200 2 (init_config (cinterp <$> progs)).
Definition replaced : config := run_alone exec fn_body 200 3 offered.
Definition after : config := round_robin exec fn_body 1500 0 replaced.

(** What the threads may do from then on: everything but use the semaphore of the first task. *)
#[local] Instance lost_effect : Effect := {|
  may_write _ := true;
  may_use s := match s with SExt O => false | _ => true end;
  may_free := true;
  only_flags _ H := match eq_true_false_abs _ eq_refl H with end |}.

Definition LostInv (s : mem * unit) : Prop := EInv s.1 /\ sems s.1 (SExt 0) = 0.

Definition lost_logic : @logic ev fn val mem unit unit := {|
  inv := LostInv;
  rely _ _ _ := True;
  guar _ _ _ := True;
  valid R t e s := t = 2%nat -> is_sem_wait e (SExt 0) = true;
  rest t s := t <> 2%nat;
  pre t f _ s := (t < n_workers)%nat /\ fn_pre f;
  post t f _ v s := word_ok v;
  rely_refl _ _ := I;
  rely_trans _ _ _ _ _ _ := I;
  guar_refl _ _ := I;
  guar_trans _ _ _ _ _ _ := I;
  guar_rely _ _ _ _ _ _ _ _ := I |}.

Abbreviation lsafe := (safe exec lost_logic).

Lemma lost_act {A R} t (e : ev R) (k : R -> lcode A) Q s :
  t <> 2%nat -> quiet_ev e -> LostInv s -> (forall r s, result_ok t e r -> LostInv s -> lsafe t (k r) Q s) -> lsafe t (Act e k) Q s.
Proof.
  intros Ht He Hi Hk. eapply (safe_act _ lost_logic _ _ _ (fun _ => True)); [done..|]. intros [m g] [HE Hs] _. split; [by intros ->|].
  intros r m' Hin%exec_exec1. destruct (quiet_exec t e m r m' He Hin HE) as (Hsame & HE' & Hr). exists tt.
  assert (Hi' : LostInv (m', tt)) by (split; [done|]; simpl; by rewrite (es_sems _ _ Hsame)). split_and!; [done|done|]. by apply Hk.
Qed.

(** Only workers call functions. *)
Lemma lost_quiet {A} t calls (c : lcode A) phi s :
  t <> 2%nat -> (calls -> t < n_workers)%nat -> quiet_code t calls c phi -> LostInv s -> lsafe t c (fun a _ => phi a) s.
Proof.
  intros Ht Hcalls. revert phi s. induction c as [A a|A R e k IH|A f k IH|A S B b IHb i k IH]; simpl; intros phi s Hc Hi.
  - by eapply (safe_ret_at _ _ _ _ (fun _ => True)).
  - destruct Hc as [He Hk]. apply lost_act; auto.
  - destruct Hc as (Hc & Hf & Hk). eapply (safe_call_at _ lost_logic _ _ _ (fun _ => True) _ tt); [done..| |].
    + intros s1 _ _. split; [exact Ht|]. split; auto.
    + intros v s1 Hi1 Hv. by apply IH; [apply Hk|].
  - destruct Hc as (I & HI & Hb). eapply (safe_iter_at _ lost_logic _ (fun x _ => I x)); [exact Hi|exact HI|by intros x s1 s2 _ _ Hx _|].
    intros x s1 Hx Hi1. split; [done|]. eapply safe_mono; [|by apply IHb; [apply Hb|]].
    intros [x'|y] s2 Hi2 Hr; [done|]. by apply IH.
Qed.

(** *** The workers and the second client *)

#[local] Hint Resolve quiet_barrier quiet_init quiet_get_head quiet_steal quiet_YIELD quiet_steal_external : quiet.

Lemma quiet_steal_loop t w h quit : quiet_code t True (lace_steal_loop w h quit) (fun _ => True).
Proof. unfold lace_steal_loop, steal_loop_turn. quiet. Qed.
#[local] Hint Resolve quiet_steal_loop : quiet.

Lemma quiet_worker_thread t : quiet_code t True (cur (worker_thread t)) (fun _ => True).
Proof. unfold worker_thread, lace_worker_thread. cbn [cur]. quiet. Qed.

(** The second client waits for its own task and returns the result. *)
Definition second_rest : lcode val :=
  r <- ((act (Sem_wait (SExt 1)) ;;;
         act Mutex_lock ;;;
         c <- act (Load_int external_task_counter) ;;
         act (Store_int external_task_counter (c - 1)) ;;;
         x <- act (Load_int external_task_exclusive) ;;
         (if negb (x =? 0) then
            c <- act (Load_int external_task_counter) ;;
            when (c =? 0) (act Cond_broadcast)
          else Ret tt) ;;;
         act Mutex_unlock ;;;
         lace_suspend) ;;;
        act (Load_d (TLoc 1) 0)) ;;
  Ret r.

Lemma quiet_second : quiet_code 3 False second_rest (fun _ => True).
Proof. unfold second_rest, lace_suspend. quiet. Qed.

Lemma lost_bodies t f x s : LostInv s -> pre lost_logic t f x s -> lsafe t (fn_body f) (post lost_logic t f x) s.
Proof.
  intros Hi [Ht Hf]. assert (t <> 2%nat) by (unfold n_workers in Ht; simpl in Ht; lia).
  change (lsafe t (fn_body f) (fun v _ => word_ok v) s). apply (lost_quiet t True); [done..| |done].
  destruct (fn_body_cases f) as [-> | ->]; [by apply quiet_undeclared|].
  destruct f as [g w h tr|g w h args]; cbn [fn_pre] in *; [by apply quiet_WRAP|].
  destruct (decide (g = F_lace_steal_loop)) as [->|Hne]; [|by apply quiet_CALL; [apply demo_client_words|..]].
  destruct args as [|[z|tr|q] [|]]; try (by apply quiet_CALL; [apply demo_client_words|..]).
  change (gen_CALL _ _ _ _) with (lace_steal_loop w h q ;;; Ret (VZ 0)). quiet.
Qed.

(** *** The state after the replacement *)

Lemma replaced_words : Words (memory replaced).
Proof.
  assert (Hs : slots (memory replaced) = slots zero_mem) by (vm_compute; reflexivity).
  assert (Hl : forall id, exists x, task_d (locals (memory replaced) id) = VZ x :: replicate 5 (VZ 0)).
  { intros [|[|id]]; eexists; vm_compute; reflexivity. }
  split; [intros w i; rewrite Hs; repeat constructor|]. intros id. destruct (Hl id) as [x ->]. repeat constructor.
Qed.

Lemma replaced_inv : LostInv (memory replaced, tt).
Proof.
  split; [|vm_compute; reflexivity]. split; [exact replaced_words|].
  intros [|e] Hu; [|done]. split; [apply Nat.ltb_lt; vm_compute; reflexivity|vm_compute; discriminate].
Qed.

Lemma replaced_threads :
  threads replaced !! 0%nat = Some (worker_thread 0) /\ threads replaced !! 1%nat = Some (worker_thread 1) /\
  threads replaced !! 3%nat = Some (Thread second_rest []) /\ length (threads replaced) = 4%nat.
Proof. split_and!; reflexivity. Qed.

(** A thread that waits for the semaphore of the lost task makes no step. *)
Lemma lost_wait th s : next_is (fun R e => is_sem_wait e (SExt 0)) (Config [th] zero_mem) 0 = true -> LostInv s ->
  thread_ok exec lost_logic 2 (fun _ _ => True) th s.
Proof.
  intros Hw Hi. exists (fun _ _ => False). destruct th as [c st]. split.
  - unfold next_is in Hw. simpl in Hw. destruct c as [|R e k| |]; try done.
    eapply (safe_act _ lost_logic _ _ _ (fun _ => True)); [done..|]. intros [m g] [HE Hs] _. simpl in Hs.
    split; [intros _; exact Hw|]. intros r m' Hin%exec_exec1. destruct e; try done. apply bool_decide_eq_true in Hw. subst s0.
    simpl in Hin. rewrite Hs in Hin. by apply not_elem_of_nil in Hin.
  - clear Hw. cbn [stk]. induction st as [|k st IH]; [by intros v s1 _ HF|]. exists (fun _ _ => False). split; [by intros v s1 _ HF|exact IH].
Qed.

Lemma lost_thread t calls c s :
  t <> 2%nat -> (calls -> t < n_workers)%nat -> quiet_code t calls c (fun _ => True) -> LostInv s ->
  thread_ok exec lost_logic t (fun _ _ => True) (Thread c []) s.
Proof. intros Ht Hc Hq Hi. exists (fun _ _ => True). split; [|done]. by apply (lost_quiet t calls). Qed.

Lemma lost_config c :
  LostInv (memory c, tt) -> threads c !! 0%nat = Some (worker_thread 0) -> threads c !! 1%nat = Some (worker_thread 1) ->
  next_is (fun R e => is_sem_wait e (SExt 0)) c 2 = true -> threads c !! 3%nat = Some (Thread second_rest []) ->
  length (threads c) = 4%nat -> config_ok exec lost_logic (fun _ _ _ => True) c.
Proof.
  intros Hi H0 H1 H2 H3 Hlen. exists tt. split; [exact Hi|]. intros t th Hth.
  pose proof (lookup_lt_Some _ _ _ Hth) as Hlt. rewrite Hlen in Hlt. assert (2 <= n_workers)%nat by (simpl; lia).
  destruct t as [|[|[|[|t]]]]; [| | | |lia].
  - rewrite H0 in Hth. injection Hth as <-. apply (lost_thread 0 True); [lia..|apply quiet_worker_thread|done].
  - rewrite H1 in Hth. injection Hth as <-. apply (lost_thread 1 True); [lia..|apply quiet_worker_thread|done].
  - apply lost_wait; [|exact Hi]. unfold next_is in H2. rewrite Hth in H2. exact H2.
  - rewrite H3 in Hth. injection Hth as <-. apply (lost_thread 3 False); [lia|done|apply quiet_second|done].
Qed.

End LostTask.

(** ** New frames *)

Module SpuriousFailure.
Import Fib.

(** A task that starts another one with [NEWFRAME]. *)
#[export] Instance client : Client :=
  {| user_body := fun u _ => match u with O => UNewframe 1 [VZ 5] URet | _ => URet (VZ 7) end |}.

(** The client thread offers the task; worker 0 runs it up to the compare-and-swap on
    [lace_newframe.t], which fails spuriously. *)
Definition offered : config := run_alone exec fn_body 200 2 (init_config (cinterp <$> [demo_main 1])).
Definition schedule : list (nat * nat) := (replicate 36 (0, 0) ++ [(0, 1); (0, 0); (0, 0)])%nat.

Definition null_copied (c : @config ev fn val mem) : bool :=
  bool_decide (lace_newframe_t (memory c) = None) && next_is (fun R e => is_undefined e) c 0.

Lemma offered_reachable : lace_reachable (init_config (cinterp <$> [demo_main 1])) offered.
Proof. apply run_alone_reachable. Qed.

Lemma schedule_null : from_option null_copied false (sched exec fn_body schedule offered) = true.
Proof. vm_compute. reflexivity. Qed.

(** C30: a spurious failure of the weak compare-and-swap in [lace_wrap_newframe] (the same loop
    is in [lace_wrap_together]) makes the worker call [lace_yield] while [lace_newframe.t] is
    null, which copies the task from a null pointer. *)
Theorem newframe_null_pointer :
  exists c, lace_reachable (init_config (cinterp <$> [demo_main 1])) c /\
    lace_newframe_t (memory c) = None /\ next_is (fun R e => is_undefined e) c 0 = true.
Proof.
  destruct (sched_exists exec fn_body schedule offered null_copied schedule_null) as (c & Hr & Hc).
  apply andb_prop in Hc as [H1%bool_decide_eq_true H2]. exists c. split; [|by split].
  exact (reachable_trans _ _ _ _ _ offered_reachable Hr).
Qed.
End SpuriousFailure.

(** ** TOGETHER *)

Module SharedTask.
Import Fib.

(** A task that runs [f(5)] on all workers; [f] returns 7. *)
#[export] Instance client : Client :=
  {| user_body := fun u _ => match u with O => UTogether 1 [VZ 5] (URet (VZ 0)) | _ => URet (VZ 7) end |}.

Definition run : config :=
  run_alone exec fn_body 7 1
    (run_alone exec fn_body 40 0
      (round_robin exec fn_body 291 0 (init_config (cinterp <$> [demo_main 1])))).

(** C31: with [TOGETHER] the workers do not get a personal copy of the task: they share it, and
    the result of the worker that is first overwrites the argument before another worker
    has read it.  The only call in the program is [f(5)]; here worker 1 calls [f(7)]. *)
Theorem together_argument_overwritten :
  exists c h, lace_reachable (init_config (cinterp <$> [demo_main 1])) c /\
    next_call c 1 = Some (Fn_CALL (F_user 1) 1 h [VZ 7]).
Proof.
  exists run, 0. split.
  - eapply reachable_trans; [apply round_robin_reachable|].
    eapply reachable_trans; apply run_alone_reachable.
  - vm_compute. reflexivity.
Qed.
End SharedTask.

(** ** DROP *)

Module DroppedTask.
Import Fib.

(** A worker spawns a task, drops it, and looks for the head of its deque. *)
Definition spawn_drop_head : lcode val :=
  SPAWN (F_user 0) 0 0 [VZ 5] ;;;
  lace_drop 0 0 ;;;
  h <- lace_get_head 0 ;;
  Ret (VZ h).

(** C32: [DROP] of a task that was not stolen leaves it marked as a task in its slot, so that
    [lace_get_head] (called by [RUN] inside a task and by [LACE_VARS]) takes the slot for
    used.  In the execution shown here a worker spawns one task on an empty deque, drops it and
    calls [lace_get_head], which returns 1 although the deque is empty again. *)
Theorem drop_misleads_get_head :
  exists c, reachable exec fn_body (Config [Thread spawn_drop_head []] zero_mem) c /\
    finished_with c 0 = Some (VZ 1).
Proof.
  exists (run_alone exec fn_body 100 0 (Config [Thread spawn_drop_head []] zero_mem)).
  split; [apply run_alone_reachable|]. vm_compute. reflexivity.
Qed.
End DroppedTask.
