(* ===== verification/Correctness.v ===== *)
(** * The correctness theorems of the scheduler *)

From S2P Require Export Completion Shutdown Demo.

(** The access thread [t] makes next is not undefined behaviour. *)
Definition next_access_valid {cfg : Cfg} (c : @config ev fn val mem) (t : nat) : Prop :=
  match cur <$> threads c !! t with
  | Some (@Act _ _ _ _ R e _) => ev_valid R t e (memory c)
  | _ => True
  end.

(** Thread [t] is not about to make an access. *)
Definition at_rest (c : @config ev fn val mem) (t : nat) : Prop :=
  match cur <$> threads c !! t with Some (Act _ _) => False | _ => True end.

Section Correctness.
Context {cfg : Cfg} {cfg_ok : CfgOk} {client : Client}.

(** C1: whenever a client thread has run its program to the end, the value it returns is
    one the sequential semantics allows: each [RUN] returned what its task evaluates to
    with every [SPAWN]ed task evaluated at its [SYNC], no matter how the threads were
    interleaved, which tasks were stolen and by whom.  The tasks may use everything but
    [NEWFRAME] and [TOGETHER], and not both [DROP] and [RUN]. *)
Theorem fork_join_correct (progs : list cprog) c i p v :
  client_ok -> Forall cprog_ok progs ->
  lace_reachable (init_config (cinterp <$> progs)) c ->
  progs !! i = Some p -> threads c !! (n_workers + i)%nat = Some (Thread (Ret v) []) ->
  ReturnsC p v.
Proof.
  intros Hcl Hok Hr Hp Hth.
  destruct (config_ok_final _ _ _ _ _ _ (reachable_config_ok Hcl progs c Hok Hr) Hth) as (g & _ & Hf).
  by apply (Hf i p).
Qed.

(** C3: if the sequential evaluator gives a client program the value [v], then every
    parallel execution that runs the program to the end returns exactly [v]. *)
Theorem parallel_equals_sequential (progs : list cprog) c i p v fuel v' :
  client_ok -> Forall cprog_ok progs ->
  lace_reachable (init_config (cinterp <$> progs)) c ->
  progs !! i = Some p -> threads c !! (n_workers + i)%nat = Some (Thread (Ret v') []) ->
  evalC fuel p = Some v -> v' = v.
Proof.
  intros Hcl Hok Hr Hp Hth Hev.
  destruct (config_ok_final _ _ _ _ _ _ (reachable_config_ok Hcl progs c Hok Hr) Hth) as (g & _ & Hf).
  eapply ReturnsC_eval_det; [by apply (Hf i p)|exact Hev].
Qed.

(** C2: in every reachable state of a program whose clients and tasks use neither [NEWFRAME] nor
    [TOGETHER], and not both [DROP] and [RUN], the next access of every thread is valid as long
    as the process has not called [exit()]: array indices are inside the deque, task words
    inside the task, no pointer is null, private worker data is only touched by its own worker
    and the mutex is only released by its holder. *)
Theorem no_invalid_access (progs : list cprog) c t :
  client_ok -> Forall cprog_ok progs ->
  lace_reachable (init_config (cinterp <$> progs)) c -> exited (memory c) = false ->
  next_access_valid c t.
Proof.
  intros Hcl Hok Hr Hx. unfold next_access_valid.
  destruct (threads c !! t) as [[[v|R e k|f k|S B b i k] st]|] eqn:Hth; try done.
  destruct (config_ok_valid _ _ _ _ _ _ _ _ _ (reachable_config_ok Hcl progs c Hok Hr) Hth) as (g & _ & Hv). exact (Hv Hx).
Qed.

(** C7: in every reachable state, every deque slot between the [tail] and the [split] a thief
    can read is inside the deque array and contains a complete task: its [thief] field is
    [THIEF_TASK], its function is a client task and its arguments are in place. *)
Theorem shared_part_valid (progs : list cprog) c w i :
  client_ok -> Forall cprog_ok progs ->
  lace_reachable (init_config (cinterp <$> progs)) c ->
  let ts := w_ts (pub (memory c) w) in
  ts_tail ts <= i < ts_split ts ->
  (w < n_workers)%nat /\ 0 <= i < dqsize /\
  task_thief (slots (memory c) w i) = THIEF_TASK /\
  exists u args, task_f (slots (memory c) w i) = F_user u /\ length args = user_arity u /\
    args_in (slots (memory c) w i) args.
Proof.
  intros Hcl Hok Hr ts Hi.
  destruct (reachable_config_ok Hcl progs c Hok Hr) as (g & HI & _).
  destruct (dq_shared _ _ _ _ _ _ _ (inv_dq _ _ HI w)) as (_ & _ & Ha); [subst ts; simpl in *; lia|].
  destruct (Ha i Hi) as (e & He & Hst).
  destruct (tinfo_valid _ (TSlot w i) e (memory c) g HI He) as [Hw Hr'].
  pose proof (dq_slots _ _ _ _ _ _ _ (inv_dq _ _ HI w) i e He) as Hs. unfold slot_ok in Hs. rewrite Hst in Hs.
  destruct Hs as (Hth & Hf & Hargs & Hlen). split_and!; [done|lia|lia|done|]. by exists (e_pay e).1, (e_pay e).2.
Qed.
(** C5: clients get their results: if the programs of the clients, taking turns, follow the
    protocol of [lace_start], [lace_suspend], [lace_resume] and [lace_stop], and their tasks
    evaluate without overflowing a deque, then there is an execution in which all clients
    finish, each with the value of the sequential semantics; after [lace_stop] all workers
    have finished as well. *)
Theorem clients_complete (progs : list cprog) fuel vs ph :
  (0 < n_workers)%nat -> client_ok -> Forall cprog_ok progs -> evalTurns fuel Off progs = Some (vs, ph) ->
  exists c, lace_reachable (init_config (cinterp <$> progs)) c /\ exited (memory c) = false /\
    (forall i v, vs !! i = Some v -> threads c !! (n_workers + i)%nat = Some (Thread (Ret v) [])) /\
    (forall i p v, progs !! i = Some p -> vs !! i = Some v -> ReturnsC p v) /\
    (ph = Stopped -> forall w, (w < n_workers)%nat -> threads c !! w = Some (Thread (Ret (VZ 0)) [])).
Proof.
  intros HN Hcl Hok Hev.
  destruct (turns_complete fuel Off progs vs ph 0 (fun _ => PNew) (init_config (cinterp <$> progs)))
    as (c & pos & Hr & Hw & Hin & Hfin & _); [done..|apply init_workers|apply zero_phase| |].
  - intros i p Hp. rewrite Nat.add_0_r, init_client_thread, Hp. done.
  - exists c. split_and!; [done|apply (i_exited _ (InPhase_idle _ _ _ Hin))| | |].
    + intros i v Hv. rewrite <-(Nat.add_0_r n_workers). by apply Hfin.
    + intros i p v Hp Hv. by eapply evalTurns_returns.
    + intros -> w Hlt. destruct Hin as [Hp _]. by rewrite (Hw w Hlt), (Hp w Hlt).
Qed.

(** C4: [lace_stop] frees the memory of the workers only when they have finished: for a
    client that starts, suspends, resumes and stops the workers in the documented order,
    whatever its tasks do ([NEWFRAME] and [TOGETHER] included), no worker makes an access in
    any state that is reachable after the memory has been freed. *)
Theorem no_use_after_free (p : cprog) ph c t :
  client_words -> follows Off p ph -> lace_reachable (init_config [cinterp p]) c ->
  freed (memory c) = true -> (t < n_workers)%nat -> at_rest c t.
Proof.
  intros Hcl Hf Hr Hfr Ht. pose proof (protocol_ok p ph c Hcl Hf Hr) as Hok. unfold at_rest.
  destruct (threads c !! t) as [[[v|R e k|f k|S B b i k] st]|] eqn:Hth; try done. simpl.
  destruct (config_ok_valid _ _ _ _ _ _ _ _ _ Hok Hth) as (g & Hi & Hv). specialize (Hv Ht).
  by rewrite (pi_freed _ Hi Hfr) in Hv.
Qed.

(** C6: [lace_suspend] suspends: when a client has returned from the [lace_suspend] that ends
    its program, every worker waits for the suspend semaphore, whose count is 0, whatever it
    was doing before. *)
Theorem suspend_blocks_workers (p : cprog) c v t :
  client_words -> follows Off p Asleep -> lace_reachable (init_config [cinterp p]) c ->
  threads c !! n_workers = Some (Thread (Ret v) []) -> (t < n_workers)%nat ->
  sems (memory c) suspend_semaphore = 0 /\
  exists k st, threads c !! t = Some (Thread (Act (Sem_wait suspend_semaphore) k) st).
Proof.
  intros Hcl Hf Hr Hfin Ht. pose proof (protocol_ok p Asleep c Hcl Hf Hr) as Hok.
  assert (is_Some (threads c !! t)) as [[cu st] Hth].
  { apply lookup_lt_is_Some. apply lookup_lt_Some in Hfin. lia. }
  destruct (config_ok_meet _ _ _ _ _ _ _ _ Hok (Nat.neq_sym _ _ (Nat.lt_neq _ _ Ht)) Hfin Hth)
    as (g & g' & _ & HP & Hre & Hi & Hv). destruct (HP eq_refl) as (Hc & _ & _). destruct (pr_cl _ _ _ Hre eq_refl) as (Hc' & _).
  simpl in Hc, Hc'. rewrite Hc in Hc'. pose proof (pi_sem _ Hi) as Hs. simpl in Hv, Hs. rewrite Hc' in Hs. split; [done|].
  destruct cu as [v'|R e k|f k|S B b i k]; try (by destruct (Hv Ht Hc')). specialize (Hv Ht). simpl in Hv.
  rewrite Hc' in Hv. destruct e; try done. simpl in Hv. subst s. by eexists _, _.
Qed.

(** C8: the words of tasks are well typed: in every reachable state, whatever the tasks do,
    an address of an atomic integer in the data of a task, in a deque or on a stack, is the
    address of a local variable, so the counters that NEWFRAME and TOGETHER take out of their
    tasks are never the flags with which the workers are started and stopped. *)
Theorem task_words_typed (p : cprog) ph c :
  client_words -> follows Off p ph -> lace_reachable (init_config [cinterp p]) c ->
  (forall w i a, VAtom a ∈ task_d (slots (memory c) w i) -> exists n, a = ALoc n) /\
  (forall id a, VAtom a ∈ task_d (locals (memory c) id) -> exists n, a = ALoc n).
Proof.
  intros Hcl Hf Hr. destruct (protocol_ok p ph c Hcl Hf Hr) as (g & Hi & _). destruct (pi_words _ Hi) as [Hs Hl]. simpl in Hs, Hl.
  split; [intros w i a Ha; specialize (Hs w i)|intros id a Ha; specialize (Hl id)]; rewrite Forall_forall in *;
    [exact (Hs _ Ha)|exact (Hl _ Ha)].
Qed.

(** C25: the counters of the protocol stay in range: in every reachable state, whatever the
    tasks do, [workers_running] is between 0 and the number of workers, and the count of the
    suspend semaphore is never above the number of workers. *)
Theorem running_in_range (p : cprog) ph c :
  client_words -> follows Off p ph -> lace_reachable (init_config [cinterp p]) c ->
  0 <= ints (memory c) workers_running <= Z.of_nat n_workers /\
  sems (memory c) suspend_semaphore <= Z.of_nat n_workers.
Proof.
  intros Hcl Hf Hr. destruct (protocol_ok p ph c Hcl Hf Hr) as (g & Hi & _).
  pose proof (pi_running _ Hi) as Hrun. pose proof (pi_sem _ Hi) as Hs. simpl in Hrun, Hs. rewrite Hrun.
  split; [apply countb_range|]. pose proof (countb_range (fun i => Protocol.waiting (ws g i)) n_workers).
  destruct (cl g); lia.
Qed.
End Correctness.

(** ** The theorems on the concrete program *)

Import Fib.

Lemma fork_join_correct_witness : ReturnsC (demo_main 3) (VZ 2).
Proof.
  apply (fork_join_correct [demo_main 3] (demo_run 2500 3) 0 (demo_main 3) (VZ 2)).
  - apply demo_client_ok.
  - repeat constructor.
  - apply demo_run_reachable.
  - reflexivity.
  - vm_compute. reflexivity.
Defined.

(** Worker 0 is about to store a word of a task of a deque. *)
Lemma no_invalid_access_witness : next_access_valid (demo_run 236 3) 0.
Proof.
  apply (no_invalid_access [demo_main 3] (demo_run 236 3) 0).
  - apply demo_client_ok.
  - repeat constructor.
  - apply demo_run_reachable.
  - vm_compute. reflexivity.
Defined.

(** Worker 1 has shared the task in its first slot. *)
Lemma shared_part_valid_witness : task_thief (slots (memory (demo_run 214 3)) 1%nat 0) = THIEF_TASK.
Proof.
  refine (proj1 (proj2 (proj2 (shared_part_valid [demo_main 3] (demo_run 214 3) 1 0 _ _ _ _)))).
  - apply demo_client_ok.
  - repeat constructor.
  - apply demo_run_reachable.
  - vm_compute. split; [discriminate|reflexivity].
Defined.

(** Two client threads run [pfib(3)] and [pfib(4)] at the same time. *)
Definition two_progs : list cprog := [demo_main 3; CRun 0 [VZ 4] CRet].

Definition two_run : config := round_robin exec fn_body 4900 0 (init_config (cinterp <$> two_progs)).

Lemma parallel_equals_sequential_witness :
  exists v, threads two_run !! 3%nat = Some (Thread (Ret v) []) /\ v = VZ 3.
Proof.
  eexists. split; [vm_compute; reflexivity|].
  apply (parallel_equals_sequential two_progs two_run 1 (CRun 0 [VZ 4] CRet) (VZ 3) 10).
  - apply demo_client_ok.
  - repeat constructor.
  - apply round_robin_reachable.
  - reflexivity.
  - vm_compute. reflexivity.
  - vm_compute. reflexivity.
Defined.

(** Two clients take turns: the first starts the workers, runs [pfib(5)], suspends and resumes
    the workers, the second runs [pfib(4)] on them and stops them. *)
Definition turn_progs : list cprog :=
  [CStart (CRun 0 [VZ 5] (fun r => CSuspend (CRet r)));
   CResume (CRunEx 0 [VZ 4] (fun r => CStop (CRet r)))].

Lemma clients_complete_witness :
  exists c, lace_reachable (init_config (cinterp <$> turn_progs)) c /\
    threads c = [Thread (Ret (VZ 0)) []; Thread (Ret (VZ 0)) []; Thread (Ret (VZ 5)) []; Thread (Ret (VZ 3)) []].
Proof.
  destruct (clients_complete turn_progs 10 [VZ 5; VZ 3] Stopped) as (c & Hr & _ & Hv & _ & Hw).
  - unfold n_workers. simpl. lia.
  - apply demo_client_ok.
  - repeat constructor.
  - vm_compute. reflexivity.
  - exists c. split; [exact Hr|].
    assert (Hlen : length (threads c) = 4%nat) by (rewrite (reachable_length _ _ _ _ Hr); reflexivity).
    pose proof (Hw eq_refl 0%nat ltac:(unfold n_workers; simpl; lia)) as H0.
    pose proof (Hw eq_refl 1%nat ltac:(unfold n_workers; simpl; lia)) as H1.
    pose proof (Hv 0%nat _ eq_refl) as H2. pose proof (Hv 1%nat _ eq_refl) as H3.
    destruct (threads c) as [|t0 [|t1 [|t2 [|t3 [|]]]]]; simpl in *; congruence.
Defined.

Lemma no_use_after_free_witness : freed (memory (demo_run 2500 3)) = true /\ at_rest (demo_run 2500 3) 1.
Proof.
  split; [vm_compute; reflexivity|]. apply (no_use_after_free (demo_main 3) Stopped).
  - apply demo_client_words.
  - simpl. split_and!; [done|done|by repeat constructor|done].
  - apply demo_run_reachable.
  - vm_compute. reflexivity.
  - unfold n_workers. simpl. lia.
Defined.

Lemma running_in_range_witness : 0 <= ints (memory (demo_run 200 3)) workers_running <= Z.of_nat n_workers.
Proof.
  refine (proj1 (running_in_range (demo_main 3) Stopped (demo_run 200 3) _ _ _)).
  - apply demo_client_words.
  - simpl. split_and!; [done|done|by repeat constructor|done].
  - apply demo_run_reachable.
Defined.

(** [lace_start(2, 16); r = RUN(pfib, 3); lace_suspend(); return r;] *)
Definition suspend_main : cprog := CStart (CRun 0 [VZ 3] (fun r => CSuspend (CRet r))).

Definition suspend_run : config := round_robin exec fn_body 2500 0 (init_config [cinterp suspend_main]).

Lemma suspend_blocks_workers_witness :
  threads suspend_run !! 2%nat = Some (Thread (Ret (VZ 2)) []) /\ sems (memory suspend_run) suspend_semaphore = 0 /\
  exists k st, threads suspend_run !! 0%nat = Some (Thread (Act (Sem_wait suspend_semaphore) k) st).
Proof.
  split; [vm_compute; reflexivity|]. apply (suspend_blocks_workers suspend_main suspend_run (VZ 2)).
  - apply demo_client_words.
  - simpl. split_and!; [done|done|by repeat constructor|done].
  - apply round_robin_reachable.
  - vm_compute. reflexivity.
  - unfold n_workers. simpl. lia.
Defined.

(** Tasks that use [NEWFRAME]: after a while the task of the new frame, on the stack of the
    worker that called it, has the address of the flag [done]. *)
Module Frames.
#[local] Instance frame_client : Client :=
  {| user_body := fun u _ => match u with O => UNewframe 1 [VZ 5] URet | _ => URet (VZ 7) end |}.

Definition frame_main : cprog := CStart (CRun 0 [VZ 1] (fun r => CStop (CRet r))).

Definition frame_run : config := round_robin exec fn_body 300 0 (init_config [cinterp frame_main]).

Lemma task_words_typed_witness :
  VAtom (ALoc 0) ∈ task_d (locals (memory frame_run) 4%nat) /\
  forall id a, VAtom a ∈ task_d (locals (memory frame_run) id) -> exists n, a = ALoc n.
Proof.
  split.
  - replace (task_d _) with [VTask (TLoc 1); VAtom (ALoc 0); VZ 0; VZ 0; VZ 0; VZ 0] by (vm_compute; reflexivity).
    right. left.
  - apply (task_words_typed frame_main Stopped).
    + intros [|u] args _; simpl; [split; [by repeat constructor|done]|done].
    + simpl. split_and!; [done|done|by repeat constructor|done].
    + apply round_robin_reachable.
Defined.
End Frames.
